(* ===== verification/_CoqProject ===== *)
-Q . S2P
Prelude.v
Memory.v
Common.v
HeapSpec.v
Heap.v
HeapReuse.v
Frame.v
Paging.v
Task.v
Switch.v
Io.v
Terminal.v
Descriptors.v
Irq.v
Faults.v
Drivers.v
Pci.v
Syscall.v
Interrupts.v
Stubs.v
UserMode.v
Loader.v
Mmu.v
Ata.v
AtaLegacy.v
Buffer.v
BufferInit.v
Requests.v
Alloc.v
Ext2Format.v
Vfs.v
Ext2.v
Ext2Inode.v
Ext2File.v
Ext2Write.v
Ext2Dir.v
Ext2Device.v
Devfs.v
Operations.v
Mount.v
RootFile.v
Boot.v
Startup.v
KernelMain.v
Bench.v
DiskBench.v
Ext2Bench.v
BootDisk.v
KernelMount.v
KernelFile.v
BootBench.v
