(* ===== verification/Prelude.v ===== *)
(** * SaxonOS: a Rocq model of the kernel

    SaxonOS (C sources under src/src and src/include) is a small i386 kernel. This
    library models its C code, one file per component, and proves what the components
    promise each other. This file is the root: it documents the whole and holds the
    notions all files share (machine words, the error-state monad, tactics, hints).

    ** How the code is modelled

    A C function is a computation of the monad [M S A]: it takes the component's state
    and returns normally ([Ok]), stops in [kpanic] ([Panic]), does something C leaves
    undefined or the machine traps ([Fault]: an unmapped address, an index out of
    range, a division by zero), or exhausts the fuel of a loop ([Timeout]). Unsigned
    integers are [Z] with every wrap-around written out ([u8], [u16], [u32]). Static
    variables are fields of a state record; assignments happen in the order of the
    source, and an early return is a branch that does not continue.

    ** Files, in order of dependency

    - [Prelude]: words, monad, loops over known bounds ([for_each]), generic lemmas, and
      [steady]: parts of the state a computation does not change.
    - [Memory]: byte-addressed memory. [Common]: common.c, the C library, over it.
    - [HeapSpec]: the abstract allocator, a row of blocks with first fit and merging.
      [Heap]: mm/heap.c as the pointer code over memory, and its refinement of
      [HeapSpec]; reachability of client states as a step relation. [HeapReuse]: what
      allocating and freeing leave in the memory of the regions.
    - [Frame]: mm/frame.c, the bitmap of page frames and its abstract allocator.
    - [Paging]: mm/paging.c, directory and tables as a typed store, on top of [Frame].
    - [Task]: task.c and the effect of switch.s, on top of [Paging]. [Switch]: switch.s
      instruction by instruction, which has that effect.
    - [Io]: ports and console as the classes [Ports] and [Env]; hexadecimal printing.
      [Terminal]: the VGA terminal of kernel.c, which implements [Env]'s console.
    - [Descriptors]: gdt.c, the tables of idt.c, tss.c and the gates of irq.c.
      [Faults]: [fault_handler] of idt.c.
    - [Irq]: irq.c, the routine table and the common handler, generic in what the
      routines do. [Drivers]: timer.c, keyboard.c, rtc.c. [Pci]: pci.c.
      [Syscall]: the system calls, and the instance of [Irq] with the real routines.
      [Interrupts]: the installations of [kernel_main], [enter] for what a vector does
      through the stubs of asm/idt.asm, and [usermode_switch] with asm/tss.asm.
      [Stubs]: the instructions of asm/idt.asm that save and restore the registers.
      [UserMode]: asm/tss.asm and userspace/tss.c run instruction by instruction.
    - [Loader]: boot.asm on a processor with address translation and a translation buffer.
      [Mmu]: [loadPageDir] of mm/enable_paging.asm on it, with the tables of [Paging].
    - [Ata]: ata.c and mbr.c over the class [AtaBus] of drives. [AtaLegacy]: the routines
      of ata.c that nothing calls, over [AtaDrq], which adds the data request bit.
    - [Buffer]: fs/devfs/buffer.c, the buffer cache, over the class [BlockDevice],
      which [Ata] implements. [BufferInit]: the state [init_buffer] leaves.
    - [Requests]: sequences of requests to the cache, the invariant [ready] under which
      blocks can be got and put back, what holders of buffers keep, and the requests of
      blocks that are cached already ([again], [requestable]). [Alloc]: the class
      [Allocator], what the heap promises the file systems; [Heap] implements it.
    - [Vfs]: fs/vfs/vfs.c, the lists of file system types, super blocks and inodes.
      [Devfs]: fs/devfs/devfs.c, block devices as byte streams and the device files.
      [Operations]: the tables of functions of both file systems and calls through them.
    - [Ext2Format]: the records of ext2.h and their layout in bytes. [Ext2]: the
      operations of fs/ext2/ext2.c over cache, heap and inodes. Their theorems:
      [Ext2Inode] (super block, inodes), [Ext2File] (reading), [Ext2Write] (writing),
      [Ext2Dir] (lookup). [Ext2Device]: [read_file], [write_file] and [alloc_inode],
      which access the drive without the cache.
    - [Mount]: [init_fs] with both file systems behind the function pointer, and the
      file system calls of [kernel_main]. [RootFile]: finding and reading a file of the
      mounted root directory.
    - [Boot]: the state of the whole kernel, include/multiboot.h, the layout of threads
      and buffers in bytes, and lines 208 to 243 of kernel.c (memory). [Startup]: lines
      247 to 251 (the first thread, [test]) and [init_buffer] with its allocations.
      [KernelMain]: the disk probe, [kernel_init] (everything before the file system),
      [kernel_mount] (up to the mounted file system) and [kernel_main]. [BootDisk]: the
      class [AtaQuiet] of what does not reach a drive, and that [kernel_init] changes no
      sector. [KernelMount]: the state [kernel_init] leaves fulfils what mounting needs.
      [KernelFile]: the state after mounting fulfils what [RootFile] needs, and
      [kernel_main] from power on to its last loop.
    - [Bench], [DiskBench], [Ext2Bench] and [BootBench]: executable machines (a terminal,
      chips, a disk, an ext2 image, a machine at power on) that fulfil the laws of the
      classes, and the theorems applied to them; [kernel_main_reads] runs mount, lookup
      and read on the image.

    The state of [kernel_main] is the product of the components' states; an operation of
    a component runs on its part ([zoom]). An object in memory of the heap is decoded from
    the bytes there when it is allocated and encoded back when it is freed, so that what
    one owner leaves is what the next one finds.

    ** What the theorems show

    - Memory management: the heap never hands out overlapping or foreign regions, keeps
      the clients' data, refines its abstract allocator and returns to one free block;
      frames are fresh while nothing is freed; booting establishes the identity mapping
      that allocations extend, and a heap whose every byte is mapped. Freeing a frame
      frees its group of 32, with the double allocation this leads to; [kcalloc] and
      unaligned sizes overrun: the theorems about the heap are for requests of multiples
      of four, which is what the callers make, and [kmalloc_refines] has the branch for a
      single byte as well.
    - Threads: [preempt] is round robin and a full round restores the registers;
      creation appends; joining leaves the thread queued or faults; the instructions of
      switch.s implement the switch.
    - Interrupts: after boot every vector enters its stub and what that runs, exceptions
      included; the tables hold exactly the stubs, an installed routine runs and is
      acknowledged, the write call prints from user space; every call number; the
      stubs keep the registers of the interrupted code and give back what the handler
      returns; the selectors and stacks of the way to user mode, and the wrong frame that
      the copy of the routine under userspace builds.
    - Start-up: [gdt_install] stores six gates and [gdt] has three entries. If the linker
      left no room for three more behind it, [kernel_init] overwrites another object
      ([Fault]); if it did ([gdt_gap]), [kernel_init] returns from power on, with a
      description of all components afterwards ([kernel_init_correct]), and the other
      theorems about start-up assume that it did; the first miss of the cache can write the registers of the joined
      thread to the disk, since the first buffer is made of its freed block, when the byte
      of [dirty] is 1; if what the thread left is harmless ([quiet]), the kernel gets to the mounted root of an ext2 disk, finds
      and reads "file1.txt" and prints its bytes ([kernel_main_prints_file]). Before that,
      the loader reaches [kernel_main] with its arguments whatever the translation buffer
      does, and [loadPageDir] returns under the new tables, which the processor then
      reads as [get_phys_addr] does.
    - Drivers: what keyboard, clock, PCI and ATA functions return in every mode.
    - Storage: a sector written reads back; the cache returns the disk's contents and
      writes dirty buffers back; its chains can become cyclic and a held buffer can be
      handed out twice. Block devices read as byte streams from aligned positions, and
      overrun a buffer from others.
    - File systems: the registry of types appends, finds and removes; booting from an
      ext2 disk builds the root inode from it; inodes are found where a flat array
      would have them; names are found unless they are the last of their sector;
      reading and writing within a sector, with the loops that do not end and the
      sizes that do not reach the disk, and every exit of [ext2_read]; what the functions without the cache print,
      write and return.

    ** Fuel

    Loops without a bound in the source run with fuel. Where the state bounds them the
    definition computes the fuel itself (one unit per mapped byte in [strlen], per
    possible header in the heap, per bit in the bitmap, per device in [find_bdev]) and
    the theorems show that it suffices. Polling loops, and walks along chains that need
    not end, take the fuel as argument, and the theorems say how much is enough.

    ** What is not modelled

    Of the assembly: lgdt, lidt, ltr and the loads of segment registers after lgdt, which
    are fields of [descriptors]; permissions of pages, which privilege level 0 ignores. The text of
    [kpanic] on the screen; debug output of the memory-management functions; the types of
    multiboot.h that the kernel does not read; the macros of userspace/syscall.h with
    four and five arguments, which name operands that are no registers; interrupts that
    arrive while C code runs, which [kernel_main] never enables; compiler-dependent
    layout beyond the packed records of the headers. What uninitialised memory holds, and
    the addresses of variables and literals, are parameters, as is the room behind [gdt]
    ([Symbols], [Ext2Layout], [DevfsLayout], [MountLayout], [KernelLayout], [BootLink], [Assembler]). *)

From stdpp Require Export base gmap list numbers strings.
Open Scope Z_scope.
Coercion Z.of_nat : nat >-> Z.

(** ** Machine integers

    An unsigned w-bit integer of the C source is a [Z] in [0, 2^w); every
    arithmetic step the C program performs at that width is followed by the
    matching wrap-around below. *)

Definition u8 (x : Z) : Z := x mod 256.
Definition u16 (x : Z) : Z := x mod 65536.
Definition u32 (x : Z) : Z := x mod 4294967296.

(** The value of a signed integer of 8, 16 or 32 bits with the bit pattern of [x]. *)
Definition s8 (x : Z) : Z := (x + 128) mod 256 - 128.
Definition s16 (x : Z) : Z := (x + 32768) mod 65536 - 32768.
Definition s32 (x : Z) : Z := (x + 2147483648) mod 4294967296 - 2147483648.

(** The processor's [shl] of a 32-bit word, whose count is taken modulo 32; C leaves counts of
    32 and more undefined. *)
Definition shl32 (x n : Z) : Z := u32 (Z.shiftl x (n mod 32)).
Lemma shl32_0 n : shl32 0 n = 0.
Proof. unfold shl32. by rewrite Z.shiftl_0_l. Qed.

(** C's truth value of an integer, and the integer of a comparison. *)
Definition truth (x : Z) : bool := negb (x =? 0).
Definition b2z (b : bool) : Z := if b then 1 else 0.

(** ** The error-state monad

    A C function that reads and writes the state [S] and returns an [A].
    [Ok] is a normal return; [Panic msg s] is a call of [kpanic], which never
    returns (the machine is halted in state [s] with [msg] on the screen);
    [Fault] is undefined behaviour: a null or unmapped pointer, an array index
    out of range, a division by zero; [Timeout] says that the fuel of a loop
    ran out, and theorems about returning functions exclude it. *)

Inductive outcome (S A : Type) : Type :=
| Ok (a : A) (s : S)
| Panic (msg : string) (s : S)
| Fault
| Timeout.
Arguments Ok {S A} a s.
Arguments Panic {S A} msg s.
Arguments Fault {S A}.
Arguments Timeout {S A}.

Definition M (S A : Type) : Type := S → outcome S A.

Definition ret {S A} (a : A) : M S A := λ s, Ok a s.
Definition bind {S A B} (m : M S A) (f : A → M S B) : M S B := λ s,
  match m s with
  | Ok a s' => f a s'
  | Panic msg s' => Panic msg s'
  | Fault => Fault
  | Timeout => Timeout
  end.
Definition get {S} : M S S := λ s, Ok s s.
Definition gets {S A} (f : S → A) : M S A := λ s, Ok (f s) s.
Definition modify {S} (f : S → S) : M S unit := λ s, Ok tt (f s).
Definition kpanic {S A} (msg : string) : M S A := λ s, Panic msg s.
Definition fault {S A} : M S A := λ _, Fault.
Definition timeout {S A} : M S A := λ _, Timeout.
Definition of_option {S A} (o : option A) : M S A :=
  match o with Some a => ret a | None => fault end.
Definition when {S} (b : bool) (m : M S unit) : M S unit :=
  if b then m else ret tt.

(** Run a computation on a part of the state. *)
Definition zoom {S T A} (proj : S → T) (upd : T → S → S) (m : M T A) : M S A := λ s,
  match m (proj s) with
  | Ok a t => Ok a (upd t s)
  | Panic msg t => Panic msg (upd t s)
  | Fault => Fault
  | Timeout => Timeout
  end.
Definition on_fst {S T A} (m : M S A) : M (S * T) A := zoom fst (λ s p, (s, snd p)) m.
Definition on_snd {S T A} (m : M T A) : M (S * T) A := zoom snd (λ t p, (fst p, t)) m.

Declare Scope k_scope.
Delimit Scope k_scope with K.
Open Scope k_scope.
Notation "'let*' x ':=' m 'in' k" := (bind m (λ x, k))
  (at level 10, x pattern, m at level 100, k at level 200) : k_scope.
Notation "m ';;;' k" := (bind m (λ _, k))
  (at level 199, right associativity) : k_scope.

(** Iterate a body over a list of loop indices, as a C [for] loop with a bound
    known on entry does. *)
Fixpoint for_each {S A} (l : list A) (body : A → M S unit) : M S unit :=
  match l with
  | [] => ret tt
  | x :: l' => body x ;;; for_each l' body
  end.

(** ** Lemmas on the monad *)

Lemma ok_equal {S A} (a a' : A) (t t' : S) : Ok a t = Ok a' t' → a = a' ∧ t = t'.
Proof. by intros [= -> ->]. Qed.
Lemma bind_ok {S A B} (m : M S A) (f : A → M S B) s a s' :
  m s = Ok a s' → bind m f s = f a s'.
Proof. unfold bind. by intros ->. Qed.

Lemma bind_panic {S A B} (m : M S A) (f : A → M S B) s msg s' :
  m s = Panic msg s' → bind m f s = Panic msg s'.
Proof. unfold bind. by intros ->. Qed.

Lemma bind_fault {S A B} (m : M S A) (f : A → M S B) s :
  m s = Fault → bind m f s = Fault.
Proof. unfold bind. by intros ->. Qed.

Lemma bind_timeout {S A B} (m : M S A) (f : A → M S B) s :
  m s = Timeout → bind m f s = Timeout.
Proof. unfold bind. by intros ->. Qed.

Lemma bind_assoc {S A B C} (m : M S A) (f : A → M S B) (g : B → M S C) s :
  bind (bind m f) g s = bind m (λ a, bind (f a) g) s.
Proof. unfold bind. by destruct (m s). Qed.

Lemma bind_ret_l {S A B} (a : A) (f : A → M S B) s : bind (ret a) f s = f a s.
Proof. done. Qed.

Lemma bind_ret_tt {S} (m : M S unit) s : bind m (λ _, ret tt) s = m s.
Proof. unfold bind. by destruct (m s) as [[]| | |]. Qed.
Lemma bind_ext {S A B} (m : M S A) (f g : A → M S B) s :
  (∀ a s', f a s' = g a s') → bind m f s = bind m g s.
Proof. intros Hfg. unfold bind. by destruct (m s). Qed.

Lemma bind_get {S B} (f : S → M S B) s : bind get f s = f s s.
Proof. done. Qed.
Lemma bind_gets {S A B} (g : S → A) (f : A → M S B) s : bind (gets g) f s = f (g s) s.
Proof. done. Qed.
Lemma bind_modify {S B} (g : S → S) (f : unit → M S B) s : bind (modify g) f s = f tt (g s).
Proof. done. Qed.

Lemma bind_inv_ok {S A B} (m : M S A) (f : A → M S B) s b s' :
  bind m f s = Ok b s' → ∃ a s1, m s = Ok a s1 ∧ f a s1 = Ok b s'.
Proof. unfold bind. destruct (m s); naive_solver. Qed.

Lemma for_each_app {S A} (l1 l2 : list A) (body : A → M S unit) s :
  for_each (l1 ++ l2) body s = bind (for_each l1 body) (λ _, for_each l2 body) s.
Proof.
  revert s. induction l1 as [|x l1 IH]; intros s; [done|]. simpl.
  rewrite bind_assoc. unfold bind at 1 2. by destruct (body x s).
Qed.

Lemma seqZ_snoc n : 0 < n → seqZ 0 n = seqZ 0 (n - 1) ++ [n - 1].
Proof.
  intros. replace n with (Z.of_nat (S (Z.to_nat (n - 1)))) at 1 by lia.
  rewrite seqZ_S. by replace (Z.of_nat (Z.to_nat (n - 1))) with (n - 1) by lia.
Qed.

Lemma zoom_ok {S T A} (proj : S → T) (upd : T → S → S) (m : M T A) s a t :
  m (proj s) = Ok a t → zoom proj upd m s = Ok a (upd t s).
Proof. unfold zoom. by intros ->. Qed.

(** ** Lemmas on machine integers *)

Ltac word_unfold := unfold u8, u16, u32, s8, s16, s32 in *.
(** Linear arithmetic over wrapped words. *)
Ltac word_lia := word_unfold; Z.div_mod_to_equations; lia.

Lemma u8_small x : 0 ≤ x < 256 → u8 x = x.
Proof. apply Z.mod_small. Qed.
Lemma u16_small x : 0 ≤ x < 65536 → u16 x = x.
Proof. apply Z.mod_small. Qed.
Lemma u32_small x : 0 ≤ x < 4294967296 → u32 x = x.
Proof. apply Z.mod_small. Qed.

Lemma u8_range x : 0 ≤ u8 x < 256.
Proof. by apply Z.mod_pos_bound. Qed.
Lemma u16_range x : 0 ≤ u16 x < 65536.
Proof. by apply Z.mod_pos_bound. Qed.
Lemma u32_range x : 0 ≤ u32 x < 4294967296.
Proof. by apply Z.mod_pos_bound. Qed.

Lemma u32_u32 x : u32 (u32 x) = u32 x.
Proof. apply u32_small, u32_range. Qed.

Lemma truth_b2z b : truth (b2z b) = b.
Proof. by destruct b. Qed.

(** Reduce every wrap whose argument is provably in range. *)
Ltac usmall :=
  repeat match goal with
  | |- context [u32 ?x] => rewrite (u32_small x) by lia
  | |- context [u16 ?x] => rewrite (u16_small x) by lia
  | |- context [u8 ?x] => rewrite (u8_small x) by lia
  end.

(** Case analysis on the boolean comparisons of a goal. *)
Ltac zcase :=
  match goal with
  | |- context [?a =? ?b] => destruct (Z.eqb_spec a b)
  | |- context [?a <? ?b] => destruct (Z.ltb_spec a b)
  | |- context [?a <=? ?b] => destruct (Z.leb_spec a b)
  | |- context [?a >? ?b] => rewrite (Z.gtb_ltb a b)
  | |- context [?a >=? ?b] => rewrite (Z.geb_leb a b)
  end.

(** Masks and flags: extracting a bit field and setting bits below a shifted value. *)
Lemma land_shifted_ones x k n :
  0 ≤ k → 0 ≤ n → Z.land x (Z.shiftl (Z.ones n) k) = x mod 2 ^ (k + n) / 2 ^ k * 2 ^ k.
Proof.
  intros Hk Hn. rewrite <-Z.land_ones, <-Z.shiftr_div_pow2, <-Z.shiftl_mul_pow2 by lia.
  apply Z.bits_inj'. intros b Hb. rewrite Z.land_spec, !Z.shiftl_spec by lia.
  destruct (decide (b < k)).
  - rewrite !(Z.testbit_neg_r _ (b - k)) by lia. apply andb_false_r.
  - rewrite Z.shiftr_spec, Z.land_spec, !Z.testbit_ones_nonneg, Z.sub_add by lia.
    f_equal. destruct (Z.ltb_spec (b - k) n), (Z.ltb_spec b (k + n)); done || lia.
Qed.

Lemma land_bit7 x : Z.land x 0x80 = x mod 256 / 128 * 128.
Proof. change 0x80 with (Z.shiftl (Z.ones 1) 7). by rewrite land_shifted_ones. Qed.

Lemma lor_shifted_low a b k : 0 ≤ k → 0 ≤ b < 2 ^ k → Z.lor (a * 2 ^ k) b = a * 2 ^ k + b.
Proof.
  intros Hk Hb. assert (Z.land (a * 2 ^ k) b = 0) as Hl.
  { apply Z.bits_inj'. intros i Hi. rewrite Z.land_spec, Z.bits_0, <-Z.shiftl_mul_pow2, Z.shiftl_spec by lia.
    destruct (decide (i < k)); [by rewrite Z.testbit_neg_r by lia|].
    rewrite <-(Z.mod_small b (2 ^ k)), Z.mod_pow2_bits_high by lia. apply andb_false_r. }
  by rewrite <-Z.lxor_lor, <-Z.add_nocarry_lxor.
Qed.

Create HintDb kernel.
Create Rewrite HintDb kernel.
#[export] Hint Resolve u8_range u16_range u32_range : kernel.
#[export] Hint Rewrite @bind_ret_l @bind_assoc u32_u32 truth_b2z : kernel.

(** Words in a memory of words from an address on. *)
Fixpoint with_words (a : Z) (l : list Z) (m : gmap Z Z) : gmap Z Z :=
  match l with [] => m | v :: l => <[a := v]> (with_words (a + 4) l m) end.
Lemma with_words_at l m : ∀ a (i : nat), (i < length l)%nat → with_words a l m !! (a + 4 * Z.of_nat i) = l !! i.
Proof.
  induction l as [|v l IH]; intros a i Hi; [simpl in Hi; lia|]. destruct i as [|i]; cbn [with_words].
  - by rewrite Z.mul_0_r, Z.add_0_r, lookup_insert_eq.
  - rewrite lookup_insert_ne by lia. replace (a + 4 * Z.of_nat (S i)) with (a + 4 + 4 * Z.of_nat i) by lia. apply IH. simpl in Hi. lia.
Qed.
Lemma with_words_other l m : ∀ a b, b < a ∨ a + 4 * Z.of_nat (length l) ≤ b → with_words a l m !! b = m !! b.
Proof.
  induction l as [|v l IH]; intros a b Hb; [done|]. cbn [with_words length] in *. rewrite lookup_insert_ne by lia. apply IH. lia.
Qed.
Lemma with_words_stack (k : nat) m a b : a ≤ b < a + 4 * Z.of_nat k → b mod 4 = a mod 4 → with_words a (replicate k 0) m !! b = Some 0.
Proof.
  intros Hb Hm. replace b with (a + 4 * Z.of_nat (Z.to_nat ((b - a) / 4))) by (Z.div_mod_to_equations; lia).
  assert (Z.to_nat ((b - a) / 4) < k)%nat by (Z.div_mod_to_equations; lia).
  rewrite with_words_at by (by rewrite length_replicate). by apply lookup_replicate_2.
Qed.

(** ** Parts of the state a computation does not change *)

Definition steady {S X A} (f : S → X) (m : M S A) : Prop :=
  ∀ s a s', m s = Ok a s' → f s' = f s.

Section steady.
Context {S X : Type} (f : S → X).
Lemma steady_ret {A} (a : A) : steady f (ret a).
Proof using. by intros s b s' [= <- <-]. Qed.
Lemma steady_bind {A B} (m : M S A) (g : A → M S B) : steady f m → (∀ a, steady f (g a)) → steady f (bind m g).
Proof using.
  intros Hm Hg s b s'' (a & s' & E1 & E2)%bind_inv_ok. rewrite (Hg a _ _ _ E2). by eapply Hm.
Qed.
Lemma steady_stop {A} (m : M S A) : (∀ s a s', m s ≠ Ok a s') → steady f m.
Proof using. intros Hm s a s' E. by destruct (Hm s a s'). Qed.
Lemma steady_of_option {A} (o : option A) : steady f (of_option o).
Proof using. destruct o; [apply steady_ret|by apply steady_stop]. Qed.
Lemma steady_gets {A} (g : S → A) : steady f (gets g).
Proof using. by intros s a s' [= <- <-]. Qed.
Lemma steady_get : steady f get.
Proof using. by intros s a s' [= <- <-]. Qed.
Lemma steady_modify (g : S → S) : (∀ s, f (g s) = f s) → steady f (modify g).
Proof using. intros Hg s a s' [= <- <-]. apply Hg. Qed.
Lemma steady_when b (m : M S unit) : steady f m → steady f (when b m).
Proof using. destruct b; [done|]. intros _. apply steady_ret. Qed.
Lemma steady_for_each {A} (l : list A) (g : A → M S unit) : (∀ x, steady f (g x)) → steady f (for_each l g).
Proof using. intros Hg. induction l as [|x l IH]; [apply steady_ret|]. by apply steady_bind. Qed.
(** A computation on a part that [f] does not look at, and on one it looks at. *)
Lemma steady_zoom_other {T A} (proj : S → T) upd (m : M T A) :
  (∀ s t, f (upd t s) = f s) → steady f (zoom proj upd m).
Proof using. intros Hf s a s' E. unfold zoom in E. destruct (m (proj s)); [|done..]. injection E as <- <-. apply Hf. Qed.
Lemma steady_zoom {T A} (g : T → X) (proj : S → T) upd (m : M T A) :
  (∀ s, f s = g (proj s)) → (∀ s t, f (upd t s) = g t) → steady g m → steady f (zoom proj upd m).
Proof using.
  intros Hp Hu Hm s a s' E. unfold zoom in E. destruct (m (proj s)) eqn:Em; [|done..]. injection E as <- <-.
  rewrite Hu, Hp. by eapply Hm.
Qed.
End steady.

Create HintDb steady.
#[export] Hint Resolve steady_ret steady_of_option steady_get steady_gets steady_when steady_for_each : steady.
(** One rule for each construct, and the lemmas of the database for the rest. *)
Ltac keep :=
  repeat first
    [ progress intros
    | solve [eauto 3 with steady]
    | apply steady_bind
    | apply steady_for_each
    | apply steady_when
    | match goal with |- context [if ?b then _ else _] => destruct b end ].
