(* ===== verification/Memory.v ===== *)
(** * Byte-addressed memory

    The kernel's address space as a finite map from 32-bit addresses to bytes.
    An address with no entry is unmapped: touching it is a [Fault].  Multi-byte
    accesses are little endian, as on the i386. *)

From S2P Require Import Prelude.

Abbreviation mem := (gmap Z Z).

(** ** Pure accessors: [rd8]/[rd32] read, [wr8]/[wr32] write. *)

Definition rd8 (m : mem) (a : Z) : Z := default 0 (m !! a).
Definition rd16 (m : mem) (a : Z) : Z := rd8 m a + 256 * rd8 m (a + 1).
Definition rd32 (m : mem) (a : Z) : Z :=
  rd8 m a + 256 * rd8 m (a + 1) + 65536 * rd8 m (a + 2) + 16777216 * rd8 m (a + 3).

Definition wr8 (m : mem) (a v : Z) : mem := <[a := u8 v]> m.
Definition wr32 (m : mem) (a v : Z) : mem :=
  wr8 (wr8 (wr8 (wr8 m a v) (a + 1) (v / 256)) (a + 2) (v / 65536)) (a + 3) (v / 16777216).

(** [mapped m a n]: the [n] bytes from [a] on can be accessed. *)
Definition mappedb (m : mem) (a : Z) (n : nat) : bool :=
  forallb (λ i, bool_decide (is_Some (m !! (a + Z.of_nat i)))) (seq 0 n).
Definition mapped (m : mem) (a n : Z) : Prop :=
  ∀ x, a ≤ x < a + n → is_Some (m !! x).

(** A memory region of [n] zero bytes, to state initial memories. *)
Definition zeroes (a : Z) (n : nat) : mem :=
  list_to_map ((λ i, (a + Z.of_nat i, 0)) <$> seq 0 n).

(** ** Checked accesses *)

Definition load8 (a : Z) : M mem Z := λ m,
  if mappedb m a 1 then Ok (rd8 m a) m else Fault.
Definition load32 (a : Z) : M mem Z := λ m,
  if mappedb m a 4 then Ok (rd32 m a) m else Fault.
Definition store8 (a v : Z) : M mem unit := λ m,
  if mappedb m a 1 then Ok tt (wr8 m a v) else Fault.
Definition store32 (a v : Z) : M mem unit := λ m,
  if mappedb m a 4 then Ok tt (wr32 m a v) else Fault.

(** Memory holds bytes. *)
Definition bytes_ok (m : mem) : Prop := map_Forall (λ _ v, 0 ≤ v < 256) m.

#[export] Instance bytes_ok_dec m : Decision (bytes_ok m).
Proof. unfold bytes_ok. apply _. Defined.

(** ** Lemmas *)

Lemma mappedb_spec m a n : mappedb m a n = true ↔ mapped m a (Z.of_nat n).
Proof.
  unfold mappedb, mapped. rewrite forallb_forall. split.
  - intros H x Hx. specialize (H (Z.to_nat (x - a))).
    rewrite in_seq in H. replace (a + _) with x in H by lia.
    eapply bool_decide_eq_true_1, H. lia.
  - intros H i [_ Hi]%in_seq. apply bool_decide_eq_true_2, H. lia.
Qed.

Lemma mapped_sub m a n a' n' : mapped m a n → a ≤ a' → a' + n' ≤ a + n → mapped m a' n'.
Proof. unfold mapped. intros H ?? x ?. apply H. lia. Qed.

Lemma lookup_wr8 m a v x : wr8 m a v !! x = if decide (a = x) then Some (u8 v) else m !! x.
Proof. unfold wr8. rewrite lookup_insert. done. Qed.

Lemma wr8_other m a v x : x ≠ a → wr8 m a v !! x = m !! x.
Proof. intros. rewrite lookup_wr8. by rewrite decide_False. Qed.

Lemma wr32_other m a v x : x < a ∨ a + 4 ≤ x → wr32 m a v !! x = m !! x.
Proof. intros. unfold wr32. rewrite !wr8_other by lia. done. Qed.

Lemma mapped_wr8 m a v b n : mapped m b n → mapped (wr8 m a v) b n.
Proof. intros H x Hx. rewrite lookup_wr8. case_decide; eauto. Qed.

Lemma mapped_wr32 m a v b n : mapped m b n → mapped (wr32 m a v) b n.
Proof. intros H. unfold wr32. by repeat apply mapped_wr8. Qed.

Lemma bytes_ok_wr8 m a v : bytes_ok m → bytes_ok (wr8 m a v).
Proof. intros H. apply map_Forall_insert_2; [apply u8_range|done]. Qed.

Lemma bytes_ok_wr32 m a v : bytes_ok m → bytes_ok (wr32 m a v).
Proof. intros. unfold wr32. by repeat apply bytes_ok_wr8. Qed.

Lemma rd8_wr8_eq m a v : rd8 (wr8 m a v) a = u8 v.
Proof. unfold rd8. rewrite lookup_wr8. by rewrite decide_True. Qed.
Lemma rd8_wr8_ne m a v b : a ≠ b → rd8 (wr8 m a v) b = rd8 m b.
Proof. intros. unfold rd8. by rewrite wr8_other. Qed.
Lemma rd8_wr32_ne m a v b : b < a ∨ a + 4 ≤ b → rd8 (wr32 m a v) b = rd8 m b.
Proof. intros. unfold rd8. by rewrite wr32_other. Qed.

Lemma rd8_val m a b : m !! a = Some b → rd8 m a = b.
Proof. unfold rd8. by intros ->. Qed.
Lemma rd8_agree m m' a : m' !! a = m !! a → rd8 m' a = rd8 m a.
Proof. unfold rd8. by intros ->. Qed.
Lemma rd32_agree m m' a :
  (∀ x, a ≤ x < a + 4 → m' !! x = m !! x) → rd32 m' a = rd32 m a.
Proof. intros H. unfold rd32, rd8. by rewrite !H by lia. Qed.

Lemma rd32_wr8_ne m a v b : a < b ∨ b + 4 ≤ a → rd32 (wr8 m a v) b = rd32 m b.
Proof. intros. apply rd32_agree. intros. rewrite wr8_other by lia. done. Qed.
Lemma rd32_wr32_ne m a v b : a + 4 ≤ b ∨ b + 4 ≤ a → rd32 (wr32 m a v) b = rd32 m b.
Proof. intros. apply rd32_agree. intros. by rewrite wr32_other by lia. Qed.

Lemma rd32_wr32_eq m a v : 0 ≤ v < 4294967296 → rd32 (wr32 m a v) a = v.
Proof.
  intros. unfold rd32, wr32.
  rewrite !rd8_wr8_eq, !(rd8_wr8_ne _ (a + 3)), !rd8_wr8_eq by lia.
  rewrite !(rd8_wr8_ne _ (a + 2)), !rd8_wr8_eq by lia.
  rewrite !(rd8_wr8_ne _ (a + 1)), !rd8_wr8_eq by lia. word_lia.
Qed.

Lemma rd8_range m a : bytes_ok m → 0 ≤ rd8 m a < 256.
Proof.
  intros H. unfold rd8. destruct (m !! a) as [v|] eqn:E; simpl; [|lia].
  apply (H _ _ E).
Qed.
Lemma rd32_range m a : bytes_ok m → 0 ≤ rd32 m a < 4294967296.
Proof.
  intros H. unfold rd32.
  pose proof (rd8_range m a H). pose proof (rd8_range m (a + 1) H).
  pose proof (rd8_range m (a + 2) H). pose proof (rd8_range m (a + 3) H). lia.
Qed.

Lemma load8_ok m a : mapped m a 1 → load8 a m = Ok (rd8 m a) m.
Proof. intros H. unfold load8. by rewrite (proj2 (mappedb_spec m a 1)). Qed.
Lemma load8_val m a b : m !! a = Some b → load8 a m = Ok b m.
Proof.
  intros H. rewrite load8_ok; [|intros x Hx; by replace x with a by lia].
  unfold rd8. by rewrite H.
Qed.
Lemma load32_ok m a : mapped m a 4 → load32 a m = Ok (rd32 m a) m.
Proof. intros H. unfold load32. by rewrite (proj2 (mappedb_spec m a 4)). Qed.
Lemma store8_ok m a v : mapped m a 1 → store8 a v m = Ok tt (wr8 m a v).
Proof. intros H. unfold store8. by rewrite (proj2 (mappedb_spec m a 1)). Qed.
Lemma store32_ok m a v : mapped m a 4 → store32 a v m = Ok tt (wr32 m a v).
Proof. intros H. unfold store32. by rewrite (proj2 (mappedb_spec m a 4)). Qed.

Lemma zeroes_lookup a n x :
  zeroes a n !! x = if decide (a ≤ x < a + Z.of_nat n) then Some 0 else None.
Proof.
  unfold zeroes. case_decide as H.
  - apply elem_of_list_to_map_1.
    + rewrite <-list_fmap_compose. apply NoDup_fmap_2; [|apply NoDup_seq].
      intros i j; simpl; lia.
    + apply list_elem_of_fmap. exists (Z.to_nat (x - a)).
      split; [f_equal; lia|]. apply elem_of_seq. lia.
  - apply not_elem_of_list_to_map_1. rewrite <-list_fmap_compose.
    intros (i & Hi & Hin)%list_elem_of_fmap. simpl in Hi.
    apply elem_of_seq in Hin. lia.
Qed.

#[export] Hint Resolve mapped_wr8 mapped_wr32 bytes_ok_wr8 bytes_ok_wr32 : kernel.

(** From here on accesses are reasoned about by the lemmas above only. *)
#[global] Opaque rd8 rd16 rd32 wr8 wr32.
