(* ===== verification/Common.v ===== *)
(** * The freestanding C library (src/common.c)

    [memset], [memcpy], [memmove], [memcmp], [strlen], [strcmp] and [strncmp]
    over the byte memory of [Memory].  Every loop that counts down a [size_t]
    is structural on the count; [strlen], whose loop has no bound, runs with
    one unit of fuel per mapped byte and one more, which is enough because each
    iteration reads a fresh mapped address. *)

From S2P Require Import Prelude Memory.

(** ** Block operations *)

Fixpoint memset_loop (count : nat) (tmp value : Z) : M mem unit :=
  match count with
  | O => ret tt
  | S c => store8 tmp value ;;; memset_loop c (u32 (tmp + 1)) value
  end.
Definition memset (dest value count : Z) : M mem Z :=
  memset_loop (Z.to_nat count) dest value ;;; ret dest.

Fixpoint memcpy_loop (count : nat) (dest_tmp src_tmp : Z) : M mem unit :=
  match count with
  | O => ret tt
  | S c => let* b := load8 src_tmp in
           store8 dest_tmp b ;;;
           memcpy_loop c (u32 (dest_tmp + 1)) (u32 (src_tmp + 1))
  end.
Definition memcpy (dest src count : Z) : M mem Z :=
  memcpy_loop (Z.to_nat count) dest src ;;; ret dest.

(** [memmove] goes through a variable-length array on the stack, an object of
    its own that overlaps neither argument: a local list of bytes. *)
Fixpoint read_bytes (count : nat) (a : Z) : M mem (list Z) :=
  match count with
  | O => ret []
  | S c => let* b := load8 a in
           let* l := read_bytes c (u32 (a + 1)) in ret (b :: l)
  end.
Fixpoint write_bytes (l : list Z) (a : Z) : M mem unit :=
  match l with
  | [] => ret tt
  | b :: l' => store8 a b ;;; write_bytes l' (u32 (a + 1))
  end.
Definition memmove (dest src n : Z) : M mem Z :=
  let* tmp := read_bytes (Z.to_nat n) src in
  write_bytes tmp dest ;;; ret dest.

(** The shared loop of the comparisons: [conv] is the integer promotion of the
    element type (the identity for [uint8_t], sign extension for [char]). *)
Fixpoint cmp_loop (conv : Z → Z) (count : nat) (s1 s2 : Z) : M mem Z :=
  match count with
  | O => ret 0
  | S c => let* x := load8 s1 in
           let* y := load8 s2 in
           if negb (conv x =? conv y) then ret (conv x - conv y)
           else cmp_loop conv c (u32 (s1 + 1)) (u32 (s2 + 1))
  end.
Definition memcmp (s1 s2 n : Z) : M mem Z :=
  if n =? 0 then ret 0 else cmp_loop id (Z.to_nat n) s1 s2.
Definition strncmp (s1 s2 n : Z) : M mem Z :=
  if n =? 0 then ret 0 else cmp_loop s8 (Z.to_nat n) s1 s2.

(** [for (size_t i = 0; i; i++)]: the loop condition is the index itself. *)
Fixpoint strcmp_loop (fuel : nat) (s1 s2 i : Z) : M mem Z :=
  match fuel with
  | O => timeout
  | S f => if truth i then
             let* x := load8 (u32 (s1 + i)) in
             let* y := load8 (u32 (s2 + i)) in
             if negb (s8 x =? s8 y) then ret (s8 x - s8 y)
             else strcmp_loop f s1 s2 (u32 (i + 1))
           else ret 0
  end.
Definition strcmp (s1 s2 : Z) : M mem Z := λ m, strcmp_loop (S (size m)) s1 s2 0 m.

Fixpoint strlen_loop (fuel : nat) (str i : Z) : M mem Z :=
  match fuel with
  | O => timeout
  | S f => let* c := load8 (u32 (str + i)) in
           if truth c then strlen_loop f str (u32 (i + 1)) else ret i
  end.
Definition strlen (str : Z) : M mem Z := λ m, strlen_loop (S (size m)) str 0 m.

(** ** Specifications *)

(** The bytes of [l] are at address [a]. *)
Definition holds_bytes (m : mem) (a : Z) (l : list Z) : Prop :=
  ∀ i b, l !! i = Some b → m !! (a + Z.of_nat i) = Some b.

(** A C string: the non-zero bytes of [l], then a NUL. *)
Definition holds_string (m : mem) (a : Z) (l : list Z) : Prop :=
  holds_bytes m a (l ++ [0]) ∧ Forall (λ b, b ≠ 0) l.

(** [m'] is [m] with the [n] bytes at [dest] replaced by what [f] gives. *)
Definition block_updated (m m' : mem) (dest n : Z) (f : Z → option Z) : Prop :=
  ∀ x, m' !! x = if decide (dest ≤ x < dest + n) then f x else m !! x.

(** Lexicographic comparison of two byte lists under a promotion. *)
Fixpoint lex_cmp (conv : Z → Z) (l1 l2 : list Z) : Z :=
  match l1, l2 with
  | x :: l1', y :: l2' =>
      if conv x =? conv y then lex_cmp conv l1' l2' else conv x - conv y
  | _, _ => 0
  end.

(** ** Lemmas *)

Lemma mapped_cons m a (n : nat) : mapped m a (Z.of_nat (S n)) → mapped m a 1 ∧ mapped m (a + 1) (Z.of_nat n).
Proof. intros H. split; eapply mapped_sub; eauto; lia. Qed.

Lemma holds_bytes_cons m a b l :
  holds_bytes m a (b :: l) ↔ m !! a = Some b ∧ holds_bytes m (a + 1) l.
Proof.
  unfold holds_bytes. split.
  - intros H. split; [specialize (H 0%nat b eq_refl); by rewrite Z.add_0_r in H|].
    intros i c Hi. specialize (H (S i) c Hi). by replace (a + 1 + i) with (a + S i) by lia.
  - intros [H0 H] [|i] c Hc; simpl in Hc; [by rewrite Z.add_0_r; congruence|].
    replace (a + S i) with (a + 1 + i) by lia. eauto.
Qed.

Lemma holds_bytes_mapped m a l : holds_bytes m a l → mapped m a (Z.of_nat (length l)).
Proof.
  intros H x Hx. destruct (lookup_lt_is_Some_2 l (Z.to_nat (x - a))) as [b Hb]; [lia|].
  exists b. rewrite <-(H _ _ Hb). f_equal. lia.
Qed.

Lemma memset_loop_spec (n : nat) a v m :
  mapped m a n → 0 ≤ a → a + n ≤ 4294967296 →
  ∃ m', memset_loop n a v m = Ok tt m' ∧ block_updated m m' a n (λ _, Some (u8 v)).
Proof.
  revert a m. induction n as [|n IH]; intros a m Hm Ha Hb.
  - exists m. split; [done|]. intros x. by rewrite decide_False by lia.
  - apply mapped_cons in Hm as [H1 H2]. cbn [memset_loop].
    rewrite (bind_ok _ _ _ _ _ (store8_ok m a v H1)).
    destruct (decide (n = 0%nat)) as [->|Hn].
    { exists (wr8 m a v). split; [done|]. intros x. rewrite lookup_wr8.
      repeat case_decide; done || lia. }
    rewrite u32_small by lia.
    destruct (IH (a + 1) (wr8 m a v)) as (m' & E & Hm'); [by apply mapped_wr8|lia..|].
    exists m'. split; [done|]. intros x. rewrite (Hm' x), lookup_wr8.
    repeat case_decide; done || lia.
Qed.

Lemma memset_ok a v n m :
  mapped m a n → 0 ≤ a → 0 ≤ n → a + n ≤ 4294967296 →
  ∃ m', memset a v n m = Ok a m' ∧ block_updated m m' a n (λ _, Some (u8 v)).
Proof.
  intros. destruct (memset_loop_spec (Z.to_nat n) a v m) as (m' & E & H'); rewrite ?Z2Nat.id by lia; auto.
  exists m'. unfold memset. rewrite (bind_ok _ _ _ _ _ E). by rewrite Z2Nat.id in H' by lia.
Qed.

Lemma bytes_ok_u8 m x v : bytes_ok m → m !! x = Some v → u8 v = v.
Proof. intros H Hx. apply u8_small, (H _ _ Hx). Qed.

Lemma memcpy_loop_spec (n : nat) d s m :
  bytes_ok m → mapped m d n → mapped m s n →
  0 ≤ d → d + n ≤ 4294967296 → 0 ≤ s → s + n ≤ 4294967296 →
  (d ≤ s ∨ s + n ≤ d) →
  ∃ m', memcpy_loop n d s m = Ok tt m' ∧ block_updated m m' d n (λ x, m !! (s + (x - d))).
Proof.
  revert d s m. induction n as [|n IH]; intros d s m Hok Hd Hs H1 H2 H3 H4 Hdis.
  - exists m. split; [done|]. intros x. by rewrite decide_False by lia.
  - apply mapped_cons in Hd as [Hd1 Hd2]. apply mapped_cons in Hs as [Hs1 Hs2].
    cbn [memcpy_loop]. rewrite (bind_ok _ _ _ _ _ (load8_ok m s Hs1)).
    rewrite (bind_ok _ _ _ _ _ (store8_ok m d _ Hd1)).
    destruct (Hs1 s) as [b Hb]; [lia|].
    rewrite (rd8_val _ _ _ Hb).
    assert (∀ x, wr8 m d b !! x = if decide (d = x) then Some b else m !! x) as Hw.
    { intros x. rewrite lookup_wr8. by rewrite (bytes_ok_u8 m s b). }
    destruct (decide (n = 0%nat)) as [->|Hn].
    { exists (wr8 m d b). split; [done|]. intros x. rewrite Hw. repeat case_decide; try lia; try done.
      subst. rewrite <-Hb. f_equal. lia. }
    rewrite !u32_small by lia.
    destruct (IH (d + 1) (s + 1) (wr8 m d b)) as (m' & E & Hm');
      [by apply bytes_ok_wr8|by apply mapped_wr8..|lia|lia|lia|lia|lia|].
    exists m'. split; [done|]. intros x. rewrite (Hm' x), !Hw.
    repeat case_decide; try lia; try done.
    + f_equal. lia.
    + subst. rewrite <-Hb. f_equal. lia.
Qed.

Lemma read_bytes_spec (n : nat) a m :
  mapped m a n → 0 ≤ a → a + n ≤ 4294967296 →
  ∃ l, read_bytes n a m = Ok l m ∧ length l = n ∧ holds_bytes m a l.
Proof.
  revert a. induction n as [|n IH]; intros a Hm H1 H2.
  - exists []. split_and!; [done..|]. by intros i b ?.
  - apply mapped_cons in Hm as [Ha Hn]. cbn [read_bytes].
    rewrite (bind_ok _ _ _ _ _ (load8_ok m a Ha)).
    assert (∃ l, read_bytes n (u32 (a + 1)) m = Ok l m ∧ length l = n ∧ holds_bytes m (a + 1) l)
      as (l & E & Hl & Hh).
    { destruct n as [|n]; [exists []; split_and!; [done..|]; by intros i b ?|].
      rewrite u32_small by lia. apply IH; auto with lia. }
    exists (rd8 m a :: l). rewrite (bind_ok _ _ _ _ _ E). split_and!; [done|simpl; lia|].
    apply holds_bytes_cons. split; [|done].
    destruct (Ha a) as [b Hb]; [lia|]. by rewrite (rd8_val _ _ _ Hb).
Qed.

Lemma write_bytes_spec l a m :
  Forall (λ b, 0 ≤ b < 256) l → mapped m a (length l) → 0 ≤ a → a + length l ≤ 4294967296 →
  ∃ m', write_bytes l a m = Ok tt m' ∧
    block_updated m m' a (length l) (λ x, l !! Z.to_nat (x - a)).
Proof.
  revert a m. induction l as [|b l IH]; intros a m Hl Hm H1 H2.
  - exists m. split; [done|]. intros x. by rewrite decide_False by (simpl; lia).
  - apply Forall_cons in Hl as [Hb Hl]. apply mapped_cons in Hm as [Ha Hn]. cbn [write_bytes].
    rewrite (bind_ok _ _ _ _ _ (store8_ok m a b Ha)). simpl in H2.
    assert (∃ m', write_bytes l (u32 (a + 1)) (wr8 m a b) = Ok tt m' ∧
      block_updated (wr8 m a b) m' (a + 1) (length l) (λ x, l !! Z.to_nat (x - (a + 1))))
      as (m' & E & H').
    { destruct l as [|c l]; [|rewrite u32_small by (simpl in *; lia); apply IH; auto with lia;
                               by apply mapped_wr8].
      exists (wr8 m a b). split; [done|]. intros x. by rewrite decide_False by (simpl; lia). }
    exists m'. split; [done|]. intros x. rewrite (H' x), lookup_wr8. simpl.
    repeat case_decide; try lia; try done.
    + replace (Z.to_nat (x - a)) with (S (Z.to_nat (x - (a + 1)))) by lia. done.
    + subst. rewrite Z.sub_diag. simpl. by rewrite u8_small.
Qed.

Lemma cmp_loop_spec conv l1 l2 a1 a2 m :
  length l1 = length l2 → holds_bytes m a1 l1 → holds_bytes m a2 l2 →
  0 ≤ a1 → a1 + length l1 ≤ 4294967296 → 0 ≤ a2 → a2 + length l2 ≤ 4294967296 →
  cmp_loop conv (length l1) a1 a2 m = Ok (lex_cmp conv l1 l2) m.
Proof.
  revert l2 a1 a2. induction l1 as [|x l1 IH]; intros [|y l2] a1 a2 Hlen H1 H2 ????; try done.
  pose proof (mapped_cons _ _ _ (holds_bytes_mapped _ _ _ H1)) as [Hm1 _].
  pose proof (mapped_cons _ _ _ (holds_bytes_mapped _ _ _ H2)) as [Hm2 _].
  apply holds_bytes_cons in H1 as [Hx H1]. apply holds_bytes_cons in H2 as [Hy H2].
  cbn [cmp_loop length lex_cmp] in *.
  rewrite (bind_ok _ _ _ _ _ (load8_ok m a1 Hm1)), (bind_ok _ _ _ _ _ (load8_ok m a2 Hm2)).
  rewrite (rd8_val _ _ _ Hx), (rd8_val _ _ _ Hy). simpl. destruct (conv x =? conv y); [|done]. simpl.
  destruct l1 as [|x' l1], l2 as [|y' l2]; try done.
  rewrite !u32_small by (simpl in *; lia). apply IH; auto; simpl in *; lia.
Qed.

Lemma lex_cmp_zero conv l1 l2 :
  (∀ x y, x ∈ l1 → y ∈ l2 → conv x = conv y → x = y) → length l1 = length l2 →
  lex_cmp conv l1 l2 = 0 ↔ l1 = l2.
Proof.
  revert l2. induction l1 as [|x l1 IH]; intros [|y l2] Hinj Hlen; try done. simpl in *.
  destruct (Z.eqb_spec (conv x) (conv y)) as [E|E].
  - assert (x = y) as -> by (apply Hinj; [left|left|done]).
    rewrite IH; [|intros; apply Hinj; [by right..|done]|lia].
    split; congruence.
  - split; [lia|]. intros [= -> _]. done.
Qed.

Lemma size_mapped m a (n : nat) : mapped m a n → (n ≤ size m)%nat.
Proof.
  intros H. assert (list_to_set ((λ i, a + Z.of_nat i) <$> seq 0 n) ⊆ dom m) as Hsub.
  { intros x (i & -> & Hi%elem_of_seq)%elem_of_list_to_set%list_elem_of_fmap.
    apply elem_of_dom, H. lia. }
  apply subseteq_size in Hsub. rewrite size_dom in Hsub.
  rewrite size_list_to_set in Hsub; [by rewrite length_fmap, length_seq in Hsub|].
  apply NoDup_fmap_2; [intros i j; simpl; lia|apply NoDup_seq].
Qed.

Lemma strlen_loop_spec fuel l a i m :
  holds_string m (a + i) l → (length l < fuel)%nat → 0 ≤ a → 0 ≤ i →
  a + i + length l < 4294967296 →
  strlen_loop fuel a i m = Ok (i + length l) m.
Proof.
  revert fuel i. induction l as [|b l IH]; intros [|fuel] i [Hh Hnz] Hf ???; simpl in *; try lia;
    apply holds_bytes_cons in Hh as [Hb Hh]; rewrite u32_small by lia;
    rewrite (bind_ok _ _ _ _ _ (load8_val m _ _ Hb)).
  - simpl. unfold ret. f_equal. lia.
  - apply Forall_cons in Hnz as [Hb0 Hnz].
    assert (truth b = true) as -> by (unfold truth; rewrite (proj2 (Z.eqb_neq b 0)) by done; done).
    rewrite u32_small by lia. rewrite IH; [f_equal; lia|..|lia|lia|lia|lia].
    replace (a + (i + 1)) with (a + i + 1) by lia. done.
Qed.

Lemma strlen_spec (m : mem) p l :
  holds_string m p l → 0 ≤ p → p + length l < 4294967296 → strlen p m = Ok (Z.of_nat (length l)) m.
Proof.
  intros Hs Hp Hr. unfold strlen. rewrite (strlen_loop_spec _ l p 0); rewrite ?Z.add_0_r; auto with lia.
  destruct Hs as [Hh _]. apply holds_bytes_mapped, size_mapped in Hh.
  rewrite length_app in Hh. simpl in Hh. lia.
Qed.

Lemma read_bytes_holds m a l :
  holds_bytes m a l → 0 ≤ a → a + length l ≤ 4294967296 → read_bytes (length l) a m = Ok l m.
Proof.
  intros Hh Ha Hb. destruct (read_bytes_spec (length l) a m) as (l' & E & Hl & Hh');
    [by apply holds_bytes_mapped|done..|].
  rewrite E. f_equal. apply list_eq_same_length with (length l); [done|done|].
  intros i x y Hi Hx Hy. apply Hh in Hy. apply Hh' in Hx. congruence.
Qed.

(** [strncmp] on two strings, for no more bytes than the first one has: it stops at
    the end of the second one at the latest, and is 0 on a prefix. *)
Lemma cmp_strings m n : ∀ l1 l2 a1 a2,
  bytes_ok m → holds_string m a1 l1 → holds_string m a2 l2 → (n ≤ length l1)%nat →
  0 ≤ a1 → a1 + length l1 < 4294967296 → 0 ≤ a2 → a2 + length l2 < 4294967296 →
  ∃ c, cmp_loop s8 n a1 a2 m = Ok c m ∧ (c = 0 ↔ take n l1 `prefix_of` l2).
Proof.
  induction n as [|n IH]; intros l1 l2 a1 a2 Hok [H1 Hnz1] [H2 Hnz2] Hn Ha1 Hr1 Ha2 Hr2.
  { exists 0. split; [done|]. split; [|done]. intros _. apply prefix_nil. }
  destruct l1 as [|x l1]; simpl in Hn; [lia|]. apply Forall_cons in Hnz1 as [Hx0 Hnz1].
  simpl in H1. apply holds_bytes_cons in H1 as [Hx H1].
  assert (∃ y l2', l2 ++ [0] = y :: l2') as (y & l2' & Hl2).
  { destruct l2; by eexists _, _. }
  rewrite Hl2 in H2. apply holds_bytes_cons in H2 as [Hy H2].
  cbn [cmp_loop]. rewrite (bind_ok _ _ _ _ _ (load8_val m _ _ Hx)), (bind_ok _ _ _ _ _ (load8_val m _ _ Hy)).
  pose proof (Hok _ _ Hx). pose proof (Hok _ _ Hy). simpl in *.
  destruct (Z.eqb_spec (s8 x) (s8 y)) as [Heq|Hne]; simpl.
  - assert (x = y) as -> by word_lia. destruct l2 as [|y' l2]; simpl in Hl2; [congruence|].
    injection Hl2 as -> <-. apply Forall_cons in Hnz2 as [_ Hnz2]. simpl in *.
    destruct (decide (n = 0%nat)) as [->|Hn0].
    { exists 0. split; [done|]. split; [|done]. intros _. rewrite take_0. apply prefix_cons, prefix_nil. }
    destruct l1 as [|x' l1]; [simpl in Hn; lia|].
    rewrite (u32_small (a1 + 1)), (u32_small (a2 + 1)) by (simpl in *; lia).
    destruct (IH (x' :: l1) l2 (a1 + 1) (a2 + 1)) as (c & E & Hc); try done; try (simpl in *; lia).
    exists c. split; [done|]. rewrite Hc. split; [apply prefix_cons|apply prefix_cons_inv_2].
  - exists (s8 x - s8 y). split; [done|]. split; [lia|]. intros [k Hk].
    destruct l2 as [|y' l2]; [done|]. simpl in Hl2, Hk. congruence.
Qed.

(** ** Theorems *)

(** [strlen] returns the length of every C string that memory holds: with
    [n] non-zero bytes at [p] followed by a NUL it returns [n] and leaves memory
    unchanged (so its unbounded loop terminates). *)
Theorem strlen_correct (m : mem) (p : Z) (l : list Z)
    (Hs : holds_string m p l) (Hp : 0 ≤ p) (Hr : p + length l < 4294967296) :
  strlen p m = Ok (Z.of_nat (length l)) m.
Proof.
  by apply strlen_spec.
Qed.

Lemma strlen_correct_witness :
  strlen 100 (list_to_map [(100, 72); (101, 105); (102, 0)]) =
  Ok 2 (list_to_map [(100, 72); (101, 105); (102, 0)] : mem).
Proof.
  apply (strlen_correct _ 100 [72; 105]); [|lia|simpl; lia].
  split; [|by repeat constructor].
  intros [|[|[|i]]] b Hb; simpl in Hb; try injection Hb as <-; done.
Defined.

(** [memmove] copies [n] bytes from [src] to [dest] and changes nothing
    else, whatever the overlap of the two regions, and returns [dest]. *)
Theorem memmove_correct (m : mem) (dest src n : Z)
    (Hok : bytes_ok m) (Hd : mapped m dest n) (Hs : mapped m src n)
    (Hdr : 0 ≤ dest ∧ dest + n ≤ 4294967296) (Hsr : 0 ≤ src ∧ src + n ≤ 4294967296)
    (Hn : 0 ≤ n) :
  ∃ m', memmove dest src n m = Ok dest m' ∧
    block_updated m m' dest n (λ x, m !! (src + (x - dest))).
Proof.
  destruct (read_bytes_spec (Z.to_nat n) src m) as (l & E & Hl & Hh);
    rewrite ?Z2Nat.id by lia; auto with lia.
  destruct (write_bytes_spec l dest m) as (m' & E' & H'); rewrite ?Hl, ?Z2Nat.id by lia; auto with lia.
  { apply Forall_lookup. intros i b Hb. apply (Hok _ _ (Hh _ _ Hb)). }
  exists m'. unfold memmove. rewrite (bind_ok _ _ _ _ _ E), (bind_ok _ _ _ _ _ E').
  split; [done|]. intros x. rewrite (H' x), Hl, Z2Nat.id by lia. case_decide; [|done].
  destruct (lookup_lt_is_Some_2 l (Z.to_nat (x - dest))) as [b Hb]; [lia|].
  rewrite Hb, <-(Hh _ _ Hb). f_equal. lia.
Qed.

Lemma memmove_correct_witness :
  ∃ m', memmove 101 100 3 (list_to_map [(100, 1); (101, 2); (102, 3); (103, 4)]) = Ok 101 m' ∧
    block_updated (list_to_map [(100, 1); (101, 2); (102, 3); (103, 4)]) m' 101 3
      (λ x, (list_to_map [(100, 1); (101, 2); (102, 3); (103, 4)] : mem) !! (100 + (x - 101))).
Proof.
  apply memmove_correct; [|..|lia|lia|lia].
  - apply (bool_decide_eq_true_1 (bytes_ok _)). vm_compute. reflexivity.
  - apply (mappedb_spec _ 101 3). vm_compute. reflexivity.
  - apply (mappedb_spec _ 100 3). vm_compute. reflexivity.
Defined.

(** [strncmp] compares exactly [n] bytes as [char]s: on two regions holding
    [l1] and [l2] of length [n] it returns the difference of the first pair
    that differs, and 0 exactly when the regions are equal. *)
Theorem strncmp_correct (m : mem) (s1 s2 : Z) (l1 l2 : list Z)
    (Hok : bytes_ok m) (Hlen : length l1 = length l2)
    (H1 : holds_bytes m s1 l1) (H2 : holds_bytes m s2 l2)
    (Hr1 : 0 ≤ s1 ∧ s1 + length l1 ≤ 4294967296) (Hr2 : 0 ≤ s2 ∧ s2 + length l2 ≤ 4294967296) :
  strncmp s1 s2 (length l1) m = Ok (lex_cmp s8 l1 l2) m ∧ (lex_cmp s8 l1 l2 = 0 ↔ l1 = l2).
Proof.
  split.
  - unfold strncmp. destruct (Z.eqb_spec (length l1) 0) as [E|E].
    + destruct l1, l2; simpl in *; done || lia.
    + rewrite Nat2Z.id. apply cmp_loop_spec; auto; lia.
  - apply lex_cmp_zero; [|done]. intros x y [i Hx]%list_elem_of_lookup [j Hy]%list_elem_of_lookup.
    pose proof (Hok _ _ (H1 _ _ Hx)). pose proof (Hok _ _ (H2 _ _ Hy)). simpl in *. word_lia.
Qed.

Lemma strncmp_correct_witness :
  strncmp 100 102 2 (list_to_map [(100, 65); (101, 200); (102, 65); (103, 66)]) =
    Ok (-122) (list_to_map [(100, 65); (101, 200); (102, 65); (103, 66)] : mem).
Proof.
  refine (proj1 (strncmp_correct _ 100 102 [65; 200] [65; 66] _ eq_refl _ _ _ _)).
  - apply (bool_decide_eq_true_1 (bytes_ok _)). vm_compute. reflexivity.
  - intros [|[|i]] b Hb; simpl in Hb; try injection Hb as <-; done.
  - intros [|[|i]] b Hb; simpl in Hb; try injection Hb as <-; done.
  - simpl. lia.
  - simpl. lia.
Defined.

(** [strcmp] returns 0 for every pair of arguments without reading memory:
    its loop condition is its own index, which starts at 0. *)
Theorem strcmp_always_equal (m : mem) (s1 s2 : Z) : strcmp s1 s2 m = Ok 0 m.
Proof. reflexivity. Qed.
