(* ===== verification/HeapSpec.v ===== *)
(** * The abstract heap allocator

    What src/mm/heap.c promises its callers: the heap is a row of blocks that
    tile it; allocation is first fit and splits the block when something is
    left over; freeing merges the block with its free neighbours.  [Heap]
    proves that the pointer code implements this. *)

From S2P Require Import Prelude.

(** A block: whether it is in use, and the size of its payload (after a header
    of [HDR] bytes). *)
Record blk := Blk { b_used : bool; b_size : Z }.
Definition HDR : Z := 16.

(** Bytes covered by a row of blocks, headers included. *)
Fixpoint span (l : list blk) : Z :=
  match l with
  | [] => 0
  | b :: r => HDR + b_size b + span r
  end.

(** The block [b], just taken for [size] bytes, followed by the rest of the
    row: what is left of it becomes a free block if it can hold a header and at
    least one byte. *)
Definition carve (b : blk) (size : Z) (rest : list blk) : list blk :=
  if size + HDR + 1 <=? b_size b
  then Blk true size :: Blk false (b_size b - size - HDR) :: rest
  else Blk true (b_size b) :: rest.

(** First fit: the offset of the chosen block in the row, and the new row. *)
Fixpoint alloc (size : Z) (bs : list blk) : option (Z * list blk) :=
  match bs with
  | [] => None
  | b :: r =>
      if negb (b_used b) && (size <? b_size b) then Some (0, carve b size r)
      else match alloc size r with
           | Some (off, r') => Some (HDR + b_size b + off, b :: r')
           | None => None
           end
  end.

(** Freeing the block of size [sz] that stands between [l1] and [l2]. *)
Definition fuse_next (sz : Z) (l2 : list blk) : list blk :=
  match l2 with
  | Blk false n :: r => Blk false (sz + (HDR + n)) :: r
  | _ => Blk false sz :: l2
  end.
Definition free (l1 : list blk) (sz : Z) (l2 : list blk) : list blk :=
  match reverse l1 with
  | Blk false p :: r => reverse r ++ fuse_next (p + (HDR + sz)) l2
  | _ => l1 ++ fuse_next sz l2
  end.

(** No two neighbours are both free. *)
Fixpoint no_adjacent_free (bs : list blk) : Prop :=
  match bs with
  | b1 :: (b2 :: _) as r => (b_used b1 || b_used b2 = true) ∧ no_adjacent_free r
  | _ => True
  end.

(** Every size is a non-negative multiple of four. *)
Definition word_sized (bs : list blk) : Prop :=
  Forall (λ b, 0 ≤ b_size b ∧ b_size b mod 4 = 0) bs.

(** The payloads of the used blocks of a row that starts at [a]. *)
Fixpoint live (a : Z) (bs : list blk) : list (Z * Z) :=
  match bs with
  | [] => []
  | b :: r => (if b_used b then [(a + HDR, b_size b)] else []) ++ live (a + HDR + b_size b) r
  end.

(** ** Lemmas *)

Lemma span_nonneg l : Forall (λ b, 0 ≤ b_size b) l → 0 ≤ span l.
Proof. induction 1; simpl; unfold HDR in *; lia. Qed.

Lemma span_app l1 l2 : span (l1 ++ l2) = span l1 + span l2.
Proof. induction l1 as [|b l1 IH]; simpl; lia. Qed.

Lemma word_sized_span l : word_sized l → 0 ≤ span l ∧ span l mod 4 = 0.
Proof. unfold word_sized, HDR. induction 1; simpl; [done|]. unfold HDR. word_lia. Qed.

Lemma word_sized_app l1 l2 : word_sized (l1 ++ l2) ↔ word_sized l1 ∧ word_sized l2.
Proof. apply Forall_app. Qed.

Lemma live_app a l1 l2 : live a (l1 ++ l2) = live a l1 ++ live (a + span l1) l2.
Proof.
  revert a. induction l1 as [|b l1 IH]; intros a; simpl; [by rewrite Z.add_0_r|].
  rewrite IH, app_assoc. do 2 f_equal. lia.
Qed.

Lemma carve_span b size r : span (carve b size r) = span (b :: r).
Proof. unfold carve, HDR. case_match; simpl; unfold HDR; lia. Qed.

(** The shape of a successful allocation. *)
Lemma alloc_inv size bs off bs' :
  alloc size bs = Some (off, bs') →
  ∃ l1 b l2, bs = l1 ++ b :: l2 ∧ bs' = l1 ++ carve b size l2 ∧ off = span l1 ∧
    b_used b = false ∧ size < b_size b ∧
    Forall (λ c, b_used c = true ∨ b_size c ≤ size) l1.
Proof.
  revert off bs'. induction bs as [|b bs IH]; intros off bs' H; simpl in H; [done|].
  destruct (b_used b) eqn:Eu, (Z.ltb_spec size (b_size b)) as [Hs|Hs]; simpl in H;
    try (injection H as <- <-; exists [], b, bs; by split_and!);
    destruct (alloc size bs) as [[o r]|]; try done; injection H as <- <-;
    destruct (IH _ _ eq_refl) as (l1 & c & l2 & -> & -> & -> & Hu & Hc & Hf);
    exists (b :: l1), c, l2; split_and!; auto; constructor; auto.
Qed.

Lemma alloc_none size bs :
  alloc size bs = None → Forall (λ c, b_used c = true ∨ b_size c ≤ size) bs.
Proof.
  induction bs as [|b bs IH]; intros H; simpl in *; [constructor|].
  destruct (b_used b) eqn:Eu, (Z.ltb_spec size (b_size b)) as [Hs|Hs]; simpl in H; try done;
    (destruct (alloc size bs) as [[o r]|]; [done|]); constructor; auto.
Qed.

Lemma alloc_fits size l1 b l2 :
  Forall (λ c, b_used c = true ∨ b_size c ≤ size) l1 →
  b_used b = false → size < b_size b →
  alloc size (l1 ++ b :: l2) = Some (span l1, l1 ++ carve b size l2).
Proof.
  intros H Hu Hs. induction H as [|c l1 Hc H IH]; simpl.
  - rewrite Hu. by rewrite (proj2 (Z.ltb_lt size (b_size b)) Hs).
  - assert (negb (b_used c) && (size <? b_size c) = false) as ->.
    { destruct Hc as [->|Hc]; [done|]. rewrite (proj2 (Z.ltb_ge size (b_size c))) by lia. apply andb_false_r. }
    by rewrite IH.
Qed.

Lemma carve_word_sized b size r :
  0 ≤ size → size mod 4 = 0 → size < b_size b →
  word_sized (b :: r) → word_sized (carve b size r).
Proof.
  unfold word_sized, carve, HDR. intros ? ? ? [? ?]%Forall_cons.
  case_match; repeat apply Forall_cons_2; simpl; auto; word_lia.
Qed.

Lemma alloc_word_sized size bs off bs' :
  0 ≤ size → size mod 4 = 0 → word_sized bs → alloc size bs = Some (off, bs') → word_sized bs'.
Proof.
  intros ? ? Hw H. apply alloc_inv in H as (l1 & b & l2 & -> & -> & _ & _ & Hs & _).
  apply word_sized_app in Hw as [? ?]. apply word_sized_app. auto using carve_word_sized.
Qed.

Lemma alloc_span size bs off bs' : alloc size bs = Some (off, bs') → span bs' = span bs.
Proof.
  intros H. apply alloc_inv in H as (l1 & b & l2 & -> & -> & _).
  by rewrite !span_app, carve_span.
Qed.

Lemma fuse_next_span sz l2 : span (fuse_next sz l2) = HDR + sz + span l2.
Proof. destruct l2 as [|[[] n] l2]; simpl; lia. Qed.

Lemma free_cases l1 sz l2 :
  (∃ r p, l1 = r ++ [Blk false p] ∧ free l1 sz l2 = r ++ fuse_next (p + (HDR + sz)) l2) ∨
  ((l1 = [] ∨ ∃ r p, l1 = r ++ [Blk true p]) ∧ free l1 sz l2 = l1 ++ fuse_next sz l2).
Proof.
  unfold free. destruct l1 as [|b l1 _] using rev_ind; [by right; auto|].
  rewrite reverse_app. simpl. destruct b as [[] p].
  - right. split; eauto.
  - left. exists l1, p. by rewrite reverse_involutive.
Qed.

Lemma free_span l1 sz l2 : span (free l1 sz l2) = span l1 + (HDR + sz) + span l2.
Proof.
  destruct (free_cases l1 sz l2) as [(r & p & -> & ->)|[_ ->]];
    rewrite !span_app, fuse_next_span; simpl; lia.
Qed.

Lemma fuse_next_word_sized sz l2 :
  0 ≤ sz → sz mod 4 = 0 → word_sized l2 → word_sized (fuse_next sz l2).
Proof.
  unfold word_sized, HDR. intros. destruct l2 as [|[[] n] l2]; simpl.
  - by repeat constructor.
  - by constructor.
  - apply Forall_cons in H1 as [[? ?] ?]. constructor; [|done]. simpl in *. unfold HDR. word_lia.
Qed.

Lemma free_word_sized l1 sz l2 :
  word_sized (l1 ++ Blk true sz :: l2) → word_sized (free l1 sz l2).
Proof.
  intros H. apply word_sized_app in H as [H1 H2]. apply Forall_cons in H2 as [[Ha Hb] H2].
  simpl in *. destruct (free_cases l1 sz l2) as [(r & p & -> & ->)|[_ ->]].
  - apply word_sized_app in H1 as [H1 Hp]. apply Forall_cons in Hp as [[? ?] _]. simpl in *.
    apply word_sized_app. split; [done|]. apply fuse_next_word_sized; auto; unfold HDR; word_lia.
  - apply word_sized_app. split; [done|]. by apply fuse_next_word_sized.
Qed.

(** ** Live regions *)

Lemma live_elem p n a bs :
  (p, n) ∈ live a bs ↔ ∃ l1 l2, bs = l1 ++ Blk true n :: l2 ∧ p = a + span l1 + HDR.
Proof.
  split.
  - revert a. induction bs as [|[u k] bs IH]; intros a H; simpl in H; [by apply elem_of_nil in H|].
    apply elem_of_app in H as [H|H].
    + destruct u; [|by apply elem_of_nil in H]. apply list_elem_of_singleton in H as [= -> ->].
      exists [], bs. split; [done|]. simpl. lia.
    + destruct (IH _ H) as (l1 & l2 & -> & ->). exists (Blk u k :: l1), l2. split; [done|]. simpl. lia.
  - intros (l1 & l2 & -> & ->). rewrite live_app. apply elem_of_app. right. simpl. left.
Qed.

Lemma live_bounds p n a bs :
  Forall (λ b, 0 ≤ b_size b) bs → (p, n) ∈ live a bs →
  a + HDR ≤ p ∧ 0 ≤ n ∧ p + n ≤ a + span bs.
Proof.
  intros Hb (l1 & l2 & -> & ->)%live_elem. apply Forall_app in Hb as [H1 H2].
  apply Forall_cons in H2 as [H2 H3]. pose proof (span_nonneg _ H1). pose proof (span_nonneg _ H3).
  rewrite span_app. simpl in *. lia.
Qed.

Lemma live_aligned p n a bs : a mod 4 = 0 → word_sized bs → (p, n) ∈ live a bs → p mod 4 = 0.
Proof.
  intros Ha Hb (l1 & l2 & -> & ->)%live_elem. apply word_sized_app in Hb as [H1 _].
  apply word_sized_span in H1 as [? ?]. unfold HDR. word_lia.
Qed.

(** Two used blocks are the same or do not overlap. *)
Lemma live_disjoint p n q k a bs :
  Forall (λ b, 0 ≤ b_size b) bs → (p, n) ∈ live a bs → (q, k) ∈ live a bs →
  (p = q ∧ n = k) ∨ p + n < q ∨ q + k < p.
Proof.
  intros Hb. revert a. induction Hb as [|[u s] bs Hs Hb IH]; intros a Hp Hq; simpl in *;
    [by apply elem_of_nil in Hp|].
  apply elem_of_app in Hp, Hq. destruct u; simpl in *.
  - rewrite list_elem_of_singleton in Hp, Hq.
    destruct Hp as [[= -> ->]|Hp], Hq as [[= -> ->]|Hq]; [by left|..|by eapply IH];
      [apply live_bounds in Hq; [|done]|apply live_bounds in Hp; [|done]]; unfold HDR in *; lia.
  - destruct Hp as [Hp|Hp]; [by apply elem_of_nil in Hp|].
    destruct Hq as [Hq|Hq]; [by apply elem_of_nil in Hq|]. by eapply IH.
Qed.

Lemma live_carve a b size l2 :
  ∃ k, live a (carve b size l2) = (a + HDR, k) :: live (a + HDR + b_size b) l2 ∧
    (k = size ∨ k = b_size b) ∧ k ≤ Z.max size (b_size b).
Proof.
  unfold carve. case_match; simpl.
  - exists size. split; [|lia]. do 2 f_equal. lia.
  - exists (b_size b). split; [done|lia].
Qed.

Lemma live_fuse_next a sz l2 : live a (fuse_next sz l2) = live (a + HDR + sz) l2.
Proof. destruct l2 as [|[[] n] l2]; simpl; [done..|]. f_equal. lia. Qed.

Lemma live_free a l1 sz l2 :
  live a (free l1 sz l2) = live a l1 ++ live (a + span l1 + HDR + sz) l2.
Proof.
  destruct (free_cases l1 sz l2) as [(r & p & -> & ->)|[_ ->]];
    rewrite !live_app, live_fuse_next; [|done].
  simpl. rewrite app_nil_r, span_app. simpl. do 2 f_equal. lia.
Qed.

(** With nothing in use and no two free neighbours there is a single block. *)
Lemma all_free_single a bs :
  bs ≠ [] → no_adjacent_free bs → live a bs = [] → bs = [Blk false (span bs - HDR)].
Proof.
  destruct bs as [|[[] n] [|[[] k] bs]]; simpl; try done.
  - intros. do 2 f_equal. lia.
  - intros _ [? _]. done.
Qed.

(** ** Fragmentation *)

Lemma no_adjacent_free_app l1 b l2 :
  no_adjacent_free (l1 ++ b :: l2) ↔ no_adjacent_free (l1 ++ [b]) ∧ no_adjacent_free (b :: l2).
Proof.
  induction l1 as [|c [|d l1] IH]; simpl in *; [tauto|tauto|]. rewrite IH. tauto.
Qed.

Lemma no_adjacent_free_swap l b c :
  no_adjacent_free (l ++ [b]) → b_used b = false ∨ b_used c = true → no_adjacent_free (l ++ [c]).
Proof.
  intros H Hbc. destruct l as [|d l _] using rev_ind; [done|].
  rewrite <-app_assoc in *. simpl in *. apply no_adjacent_free_app in H as [H1 H2].
  apply no_adjacent_free_app. split; [done|]. simpl in *. destruct H2 as [H2 _]. split; [|done].
  destruct (b_used d), Hbc as [Hb| ->]; simpl in *; try done. congruence.
Qed.

Lemma carve_no_adjacent b size l2 :
  b_used b = false → no_adjacent_free (b :: l2) → no_adjacent_free (carve b size l2).
Proof.
  intros Hb H. unfold carve. case_match; destruct l2 as [|c l2]; simpl in *; try tauto.
  rewrite Hb in H. tauto.
Qed.

Lemma alloc_no_adjacent size bs off bs' :
  no_adjacent_free bs → alloc size bs = Some (off, bs') → no_adjacent_free bs'.
Proof.
  intros Hn H. apply alloc_inv in H as (l1 & b & l2 & -> & -> & _ & Hu & _).
  apply no_adjacent_free_app in Hn as [H1 H2].
  pose proof (carve_no_adjacent b size l2 Hu H2) as H3.
  unfold carve in *. case_match; apply no_adjacent_free_app; (split; [|done]);
    eapply no_adjacent_free_swap; eauto.
Qed.

Lemma fuse_next_no_adjacent sz l2 :
  no_adjacent_free l2 → no_adjacent_free (fuse_next sz l2).
Proof. destruct l2 as [|[[] n] l2]; simpl; [done|..]; destruct l2; simpl; tauto. Qed.

Lemma free_no_adjacent l1 sz l2 :
  no_adjacent_free (l1 ++ Blk true sz :: l2) → no_adjacent_free (free l1 sz l2).
Proof.
  intros H. apply no_adjacent_free_app in H as [H1 H2].
  assert (no_adjacent_free l2) as H2' by (destruct l2; simpl in *; tauto).
  assert (∀ z, ∃ n r, fuse_next z l2 = Blk false n :: r) as Hf.
  { intros z. destruct l2 as [|[[] n] l2]; simpl; eauto. }
  destruct (free_cases l1 sz l2) as [(r & p & -> & ->)|[Hl ->]].
  - rewrite <-app_assoc in H1. simpl in H1. apply no_adjacent_free_app in H1 as [H1 _].
    destruct (Hf (p + (HDR + sz))) as (n & r' & E).
    pose proof (fuse_next_no_adjacent (p + (HDR + sz)) l2 H2') as H3. rewrite E in *.
    apply no_adjacent_free_app. split; [|done]. eapply no_adjacent_free_swap; eauto.
  - destruct (Hf sz) as (n & r' & E).
    pose proof (fuse_next_no_adjacent sz l2 H2') as H3. rewrite E in *.
    destruct Hl as [-> |(r & p & ->)]; [done|].
    rewrite <-app_assoc in H1 |- *. simpl in *. apply no_adjacent_free_app in H1 as [H1 _].
    apply no_adjacent_free_app. split; [done|]. simpl. tauto.
Qed.

(** Freeing what was just allocated gives the row back. *)
Lemma free_alloc size bs off bs' :
  no_adjacent_free bs → alloc size bs = Some (off, bs') →
  ∃ l1 b l2, bs' = l1 ++ b :: l2 ∧ b_used b = true ∧ off = span l1 ∧ free l1 (b_size b) l2 = bs.
Proof.
  intros Hn H. apply alloc_inv in H as (l1 & [u n] & l2 & -> & -> & -> & Hu & Hs & _).
  simpl in *. subst u. apply no_adjacent_free_app in Hn as [H1 H2].
  assert (∀ sz l, free l1 sz l = l1 ++ fuse_next sz l) as Hfree.
  { intros sz l. destruct (free_cases l1 sz l) as [(r & p & -> & _)|[_ ->]]; [|done].
    rewrite <-app_assoc in H1. simpl in H1. apply no_adjacent_free_app in H1 as [_ H1].
    simpl in H1. by destruct H1. }
  unfold carve; simpl. destruct (Z.leb_spec (size + HDR + 1) n); eexists l1, _, _;
    (split_and!; [done..|]); rewrite Hfree; simpl.
  - do 3 f_equal. lia.
  - destruct l2 as [|[[] k] l2]; simpl in *; [done..|]. by destruct H2.
Qed.
