(* ===== verification/Heap.v ===== *)
(** * The kernel heap (src/mm/heap.c, include/mm/heap.h)

    The allocator as the code has it: block headers ([mem_block_t], 16 bytes:
    [used] at 0, [prev] at 4, [next] at 8, [size] at 12) live in the byte memory
    between the payloads, and [kmalloc], [kmalloc_alligned], [kfree],
    [kfree_block], [krealloc] and [kcalloc] follow and rewrite their pointers.
    The list walks run with one unit of fuel per possible header of the heap
    and two more.  The theorems show that, on word-sized requests, the pointer
    code refines the abstract allocator of [HeapSpec]. *)

From S2P Require Import Prelude Memory Common HeapSpec.

(** ** State *)

Record heap := mkHeap {
  heap_start : Z; heap_end : Z; heap_size : Z; first : Z; hmem : mem }.
Definition set_mem (h : heap) (m : mem) : heap :=
  mkHeap (heap_start h) (heap_end h) (heap_size h) (first h) m.
Definition on_mem {A} (c : M mem A) : M heap A := zoom hmem (λ m h, set_mem h m) c.

(** [sizeof(mem_block_t)] *)
Definition SIZEOF_BLOCK : Z := 16.

Definition ld_used (b : Z) : M heap Z := on_mem (load8 b).
Definition ld_prev (b : Z) : M heap Z := on_mem (load32 (u32 (b + 4))).
Definition ld_next (b : Z) : M heap Z := on_mem (load32 (u32 (b + 8))).
Definition ld_size (b : Z) : M heap Z := on_mem (load32 (u32 (b + 12))).
Definition st_used (b v : Z) : M heap unit := on_mem (store8 b v).
Definition st_prev (b v : Z) : M heap unit := on_mem (store32 (u32 (b + 4)) v).
Definition st_next (b v : Z) : M heap unit := on_mem (store32 (u32 (b + 8)) v).
Definition st_size (b v : Z) : M heap unit := on_mem (store32 (u32 (b + 12)) v).

(** ** Operations *)

Definition kheap_init (start endd : Z) : M heap unit :=
  modify (λ h, mkHeap start endd (u32 (endd - start)) (first h) (hmem h)) ;;;
  let* h := get in
  on_mem (memset (heap_start h) 0 (heap_size h)) ;;;
  modify (λ h, mkHeap (heap_start h) (heap_end h) (heap_size h) (heap_start h) (hmem h)) ;;;
  let* h := get in
  st_used (first h) 0 ;;;
  st_prev (first h) 0 ;;;
  st_next (first h) 0 ;;;
  st_size (first h) (u32 (heap_size h - SIZEOF_BLOCK)).

(** Splitting the chosen block, the same code in both allocation functions. *)
Definition split_block (result size : Z) : M heap unit :=
  let* rs := ld_size result in
  when (rs >=? u32 (size + SIZEOF_BLOCK + 1))
    (let tmp := u32 (result + SIZEOF_BLOCK + size) in
     st_used tmp 0 ;;;
     (let* rs := ld_size result in st_size tmp (u32 (rs - size - SIZEOF_BLOCK))) ;;;
     st_prev tmp result ;;;
     (let* rn := ld_next result in st_next tmp rn) ;;;
     (let* tn := ld_next tmp in when (truth tn) (st_prev tn tmp)) ;;;
     st_size result size ;;;
     st_next result tmp).

(** One iteration of the search of [kmalloc_alligned]: the values of [block]
    and [result] at its end ([continue] included). *)
Definition alligned_body (size allignment block : Z) : M heap (Z * Z) :=
  let* used := ld_used block in
  if used =? 0 then
    if allignment =? 0 then fault else
    if negb (u32 (block + SIZEOF_BLOCK) mod allignment =? 0) then
      let alligned_addr :=
        u32 (u32 (1 + u32 (block + SIZEOF_BLOCK - 1) / allignment) * allignment) in
      let* bsize := ld_size block in
      if u32 (alligned_addr + size) >? u32 (block + SIZEOF_BLOCK + bsize) then ret (block, 0)
      else if u32 (block + SIZEOF_BLOCK + bsize - alligned_addr) >=? u32 (size + SIZEOF_BLOCK) then
        let* old_next := ld_next block in
        st_next block (u32 (alligned_addr - SIZEOF_BLOCK)) ;;;
        (let* bn := ld_next block in st_size block (u32 (bn - block - SIZEOF_BLOCK))) ;;;
        let* bp := ld_prev block in
        let* block1 :=
          (if truth bp then
             (let* ps := ld_size bp in
              let* bs := ld_size block in
              st_size bp (u32 (ps + u32 (bs + SIZEOF_BLOCK)))) ;;;
             (let* bn := ld_next block in
              let* bp := ld_prev block in st_next bp bn) ;;;
             ld_prev block
           else ret block) in
        (let* bn := ld_next block1 in st_prev bn block1) ;;;
        let* block2 := ld_next block1 in
        st_next block2 old_next ;;;
        when (truth old_next) (st_prev old_next block2) ;;;
        ret (block2, block2)
      else ret (block, 0)
    else
      let* bsize := ld_size block in
      ret (block, if bsize >? size then block else 0)
  else ret (block, 0).

Fixpoint alligned_loop (fuel : nat) (size allignment block result : Z) : M heap Z :=
  match fuel with
  | O => timeout
  | S f =>
      if truth block && (result =? 0) then
        let* (block', result') := alligned_body size allignment block in
        let* nx := ld_next block' in
        alligned_loop f size allignment nx result'
      else ret result
  end.

(** A header takes [SIZEOF_BLOCK] bytes, so no walk is longer than this. *)
Definition walk_fuel (h : heap) : nat := S (S (Z.to_nat (heap_size h / SIZEOF_BLOCK))).

Definition kmalloc_alligned (size allignment : Z) : M heap Z :=
  let* h := get in
  let* result := alligned_loop (walk_fuel h) size allignment (first h) 0 in
  if result =? 0 then kpanic "can't allocate memory" else
  split_block result size ;;;
  st_used result 1 ;;;
  ret (u32 (result + SIZEOF_BLOCK)).

(** The search of [kmalloc] itself, reached only for one byte. *)
Fixpoint kmalloc_loop (fuel : nat) (size block result : Z) : M heap Z :=
  match fuel with
  | O => timeout
  | S f =>
      if truth block && (result =? 0) then
        let* bsize := ld_size block in
        let* result' :=
          (if bsize >? size then
             let* used := ld_used block in ret (if used =? 0 then block else result)
           else ret result) in
        let* nx := ld_next block in
        kmalloc_loop f size nx result'
      else ret result
  end.

Definition kmalloc (size : Z) : M heap Z :=
  if negb (size =? 1) then kmalloc_alligned size 4 else
  let* h := get in
  let* result := kmalloc_loop (walk_fuel h) size (first h) 0 in
  if result =? 0 then ret 0 else
  split_block result size ;;;
  st_used result 1 ;;;
  ret (u32 (result + SIZEOF_BLOCK)).

(** The two halves of freeing: merging the block into a free predecessor (the
    result is the value of the local variable afterwards), then absorbing a
    free successor. *)
Definition merge_prev (tmp : Z) : M heap Z :=
  let* p := ld_prev tmp in
  let* pused := (if truth p then ld_used p else ret 1) in
  if truth p && (pused =? 0) then
    (let* ps := ld_size p in
     let* ts := ld_size tmp in st_size p (u32 (ps + u32 (SIZEOF_BLOCK + ts)))) ;;;
    (let* tn := ld_next tmp in st_next p tn) ;;;
    (let* tn := ld_next tmp in when (truth tn) (st_prev tn p)) ;;;
    ld_prev tmp
  else ret tmp.
Definition merge_next (tmp : Z) : M heap unit :=
  let* n := ld_next tmp in
  let* nused := (if truth n then ld_used n else ret 1) in
  when (truth n && (nused =? 0))
    ((let* ts := ld_size tmp in
      let* ns := ld_size n in st_size tmp (u32 (ts + u32 (SIZEOF_BLOCK + ns)))) ;;;
     (let* nn := ld_next n in st_next tmp nn) ;;;
     (let* nn := ld_next tmp in when (truth nn) (st_prev nn tmp))).

Definition kfree (ptr : Z) : M heap unit :=
  let tmp := u32 (ptr - SIZEOF_BLOCK) in
  st_used tmp 0 ;;;
  let* tmp := merge_prev tmp in
  merge_next tmp.

Definition kfree_block (block : Z) : M heap unit :=
  st_used block 0 ;;;
  let* block := merge_prev block in
  merge_next block.

(** The temporary of [krealloc] is a stack array that is filled and never read. *)
Definition krealloc (ptr size : Z) : M heap Z :=
  if ptr =? 0 then kmalloc size else
  if size =? 0 then kfree ptr ;;; ret 0 else
  let old_block := u32 (ptr - SIZEOF_BLOCK) in
  let* old_size := ld_size old_block in
  let* tmp := on_mem (read_bytes (Z.to_nat old_size) ptr) in
  kfree_block old_block ;;;
  let* p := kmalloc size in
  let new_block := u32 (p + SIZEOF_BLOCK) in
  on_mem (memcpy new_block ptr old_size) ;;;
  ret new_block.

Definition kcalloc (nmemb size : Z) : M heap Z :=
  if (nmemb =? 0) || (size =? 0) then ret 0 else
  let* p := kmalloc (u32 (size * nmemb)) in
  ret (u32 (p + SIZEOF_BLOCK)).

(** ** Representation of a row of blocks in memory *)

Definition header (m : mem) (a : Z) (u : bool) (prev next size : Z) : Prop :=
  rd8 m a = b2z u ∧ rd32 m (a + 4) = prev ∧ rd32 m (a + 8) = next ∧ rd32 m (a + 12) = size.

(** The row [l] starts at [a]; its first header points back to [prev] and its
    last one forward to [nx]. *)
Fixpoint seg (m : mem) (prev a : Z) (l : list blk) (nx : Z) : Prop :=
  match l with
  | [] => True
  | b :: r =>
      header m a (b_used b) prev
        (match r with [] => nx | _ => a + HDR + b_size b end) (b_size b) ∧
      seg m a (a + HDR + b_size b) r nx
  end.

Record heap_repr (h : heap) (bs : list blk) : Prop := {
  hr_first : first h = heap_start h;
  hr_size : heap_size h = heap_end h - heap_start h;
  hr_start : 0 < heap_start h ∧ heap_start h mod 4 = 0;
  hr_end : heap_start h + span bs = heap_end h ∧ heap_end h < 4294967296;
  hr_mapped : mapped (hmem h) (heap_start h) (heap_end h - heap_start h);
  hr_nonempty : bs ≠ [];
  hr_words : word_sized bs;
  hr_seg : seg (hmem h) 0 (heap_start h) bs 0 }.

(** [x] is in the payload of a used block of the row [l] at [a]. *)
Definition in_live (a : Z) (l : list blk) (x : Z) : Prop :=
  ∃ p n, (p, n) ∈ live a l ∧ p ≤ x < p + n.

(** The heap descriptor is the same and so is every byte of [keep]. *)
Definition same_heap (h h' : heap) (keep : Z → Prop) : Prop :=
  heap_start h' = heap_start h ∧ heap_end h' = heap_end h ∧ heap_size h' = heap_size h ∧
  first h' = first h ∧ (∀ x, keep x → hmem h' !! x = hmem h !! x).

(** ** Clients

    A client of the heap holds regions: a finite map from the pointers it got
    to the sizes it asked for.  It allocates words, frees what it holds, and
    writes into what it holds. *)

(** A request of whole words, which is what every caller in the repository makes: other sizes
    misalign the next header, which the search then moves (lines 65 to 91). *)
Definition word_request (size : Z) : Prop := 0 ≤ size < 4294967296 ∧ size mod 4 = 0.

Inductive client_step : heap * gmap Z Z → heap * gmap Z Z → Prop :=
| client_malloc h G size p h' :
    word_request size → kmalloc size h = Ok p h' → client_step (h, G) (h', <[p := size]> G)
| client_free h G p size h' :
    G !! p = Some size → kfree p h = Ok tt h' → client_step (h, G) (h', delete p G)
| client_write h G p size x v :
    G !! p = Some size → p ≤ x < p + size →
    client_step (h, G) (set_mem h (wr8 (hmem h) x v), G).

(** The heap just after [kheap_init start endd], nothing allocated. *)
Definition heap_boot (start endd : Z) (c : heap * gmap Z Z) : Prop :=
  ∃ h0, mapped (hmem h0) start (endd - start) ∧
    kheap_init start endd h0 = Ok tt (fst c) ∧ snd c = ∅.

Definition heap_bounds (start endd : Z) : Prop :=
  0 < start ∧ start mod 4 = 0 ∧ endd mod 4 = 0 ∧ start + SIZEOF_BLOCK ≤ endd < 4294967296.

Definition heap_reachable (start endd : Z) (c : heap * gmap Z Z) : Prop :=
  ∃ c0, heap_boot start endd c0 ∧ rtc client_step c0 c.

(** The regions held are inside the heap, word aligned, and pairwise disjoint. *)
Definition regions_ok (start endd : Z) (G : gmap Z Z) : Prop :=
  (∀ p n, G !! p = Some n → start ≤ p ∧ p + n ≤ endd ∧ p mod 4 = 0) ∧
  (∀ p n q k, G !! p = Some n → G !! q = Some k → p ≠ q → p + n ≤ q ∨ q + k ≤ p).

(** Client invariant: the regions are the used blocks, each at least as large
    as what was asked for. *)
Definition client_inv (start endd : Z) (c : heap * gmap Z Z) : Prop :=
  ∃ bs, heap_repr (fst c) bs ∧ no_adjacent_free bs ∧
    heap_start (fst c) = start ∧ heap_end (fst c) = endd ∧
    (∀ p n, snd c !! p = Some n → 0 ≤ n ∧ ∃ k, (p, k) ∈ live start bs ∧ n ≤ k) ∧
    (∀ p k, (p, k) ∈ live start bs → is_Some (snd c !! p)).

(** ** Lemmas: field accesses *)

Lemma set_mem_id h : set_mem h (hmem h) = h.
Proof. by destruct h. Qed.

Section fields.
Context (h : heap) (a : Z).
Hypotheses (Ha : 0 ≤ a) (Hb : a + 16 ≤ 4294967296) (Hm : mapped (hmem h) a 16).

Lemma ld_used_ok : ld_used a h = Ok (rd8 (hmem h) a) h.
Proof using All.
  unfold ld_used, on_mem, zoom. rewrite load8_ok; [by rewrite set_mem_id|].
  eapply mapped_sub; eauto; lia.
Qed.
Lemma ld_field_ok o :
  0 ≤ o ≤ 12 → on_mem (load32 (u32 (a + o))) h = Ok (rd32 (hmem h) (a + o)) h.
Proof using All.
  intros. rewrite u32_small by lia. unfold on_mem, zoom. rewrite load32_ok; [by rewrite set_mem_id|].
  eapply mapped_sub; eauto; lia.
Qed.
Lemma st_used_ok v : st_used a v h = Ok tt (set_mem h (wr8 (hmem h) a v)).
Proof using All.
  unfold st_used, on_mem, zoom. rewrite store8_ok; [done|]. eapply mapped_sub; eauto; lia.
Qed.
Lemma st_field_ok o v :
  0 ≤ o ≤ 12 → on_mem (store32 (u32 (a + o)) v) h = Ok tt (set_mem h (wr32 (hmem h) (a + o) v)).
Proof using All.
  intros. rewrite u32_small by lia. unfold on_mem, zoom. rewrite store32_ok; [done|].
  eapply mapped_sub; eauto; lia.
Qed.
End fields.

Section named_fields.
Context (h : heap) (a : Z).
Hypotheses (Ha : 0 ≤ a) (Hb : a + 16 ≤ 4294967296) (Hm : mapped (hmem h) a 16).
Lemma ld_prev_ok : ld_prev a h = Ok (rd32 (hmem h) (a + 4)) h.
Proof using All. by apply (ld_field_ok h a Ha Hb Hm 4). Qed.
Lemma ld_next_ok : ld_next a h = Ok (rd32 (hmem h) (a + 8)) h.
Proof using All. by apply (ld_field_ok h a Ha Hb Hm 8). Qed.
Lemma ld_size_ok : ld_size a h = Ok (rd32 (hmem h) (a + 12)) h.
Proof using All. by apply (ld_field_ok h a Ha Hb Hm 12). Qed.
Lemma st_prev_ok v : st_prev a v h = Ok tt (set_mem h (wr32 (hmem h) (a + 4) v)).
Proof using All. by apply (st_field_ok h a Ha Hb Hm 4). Qed.
Lemma st_next_ok v : st_next a v h = Ok tt (set_mem h (wr32 (hmem h) (a + 8) v)).
Proof using All. by apply (st_field_ok h a Ha Hb Hm 8). Qed.
Lemma st_size_ok v : st_size a v h = Ok tt (set_mem h (wr32 (hmem h) (a + 12) v)).
Proof using All. by apply (st_field_ok h a Ha Hb Hm 12). Qed.
End named_fields.

Lemma hmem_set_mem h m : hmem (set_mem h m) = m.
Proof. done. Qed.
Lemma set_mem_set_mem h m m' : set_mem (set_mem h m) m' = set_mem h m'.
Proof. done. Qed.

(** Side conditions: ranges by [lia], mappedness from the row's region. *)
Ltac hside :=
  rewrite ?hmem_set_mem;
  lazymatch goal with
  | |- mapped _ _ _ => eapply mapped_sub; [eauto 20 with kernel|lia|lia]
  | |- _ => lia
  end.
Ltac hrun L := rewrite (bind_ok _ _ _ _ _ L).
(** One step of symbolic execution of a heap operation. *)
Ltac hstep :=
  repeat first [rewrite bind_assoc | rewrite bind_ret_l | rewrite set_mem_set_mem];
  lazymatch goal with
  | |- context [bind (ld_used ?a) _ ?s] => hrun (ld_used_ok s a ltac:(hside) ltac:(hside) ltac:(hside))
  | |- context [bind (ld_prev ?a) _ ?s] => hrun (ld_prev_ok s a ltac:(hside) ltac:(hside) ltac:(hside))
  | |- context [bind (ld_next ?a) _ ?s] => hrun (ld_next_ok s a ltac:(hside) ltac:(hside) ltac:(hside))
  | |- context [bind (ld_size ?a) _ ?s] => hrun (ld_size_ok s a ltac:(hside) ltac:(hside) ltac:(hside))
  | |- context [bind (st_used ?a ?v) _ ?s] => hrun (st_used_ok s a ltac:(hside) ltac:(hside) ltac:(hside) v)
  | |- context [bind (st_prev ?a ?v) _ ?s] => hrun (st_prev_ok s a ltac:(hside) ltac:(hside) ltac:(hside) v)
  | |- context [bind (st_next ?a ?v) _ ?s] => hrun (st_next_ok s a ltac:(hside) ltac:(hside) ltac:(hside) v)
  | |- context [bind (st_size ?a ?v) _ ?s] => hrun (st_size_ok s a ltac:(hside) ltac:(hside) ltac:(hside) v)
  | |- context [st_used ?a ?v ?s] => rewrite (st_used_ok s a ltac:(hside) ltac:(hside) ltac:(hside) v)
  | |- context [st_prev ?a ?v ?s] => rewrite (st_prev_ok s a ltac:(hside) ltac:(hside) ltac:(hside) v)
  | |- context [st_next ?a ?v ?s] => rewrite (st_next_ok s a ltac:(hside) ltac:(hside) ltac:(hside) v)
  | |- context [st_size ?a ?v ?s] => rewrite (st_size_ok s a ltac:(hside) ltac:(hside) ltac:(hside) v)
  | |- context [ld_prev ?a ?s] => rewrite (ld_prev_ok s a ltac:(hside) ltac:(hside) ltac:(hside))
  end; rewrite ?hmem_set_mem.
(** Resolve reads of a memory under writes. *)
Ltac hread :=
  repeat first
    [ rewrite rd32_wr32_eq by lia | rewrite rd32_wr32_ne by lia | rewrite rd32_wr8_ne by lia
    | rewrite rd8_wr8_eq by lia | rewrite rd8_wr8_ne by lia | rewrite rd8_wr32_ne by lia ].

(** ** Lemmas: rows of blocks *)

Lemma truth_true x : x ≠ 0 → truth x = true.
Proof. intros. unfold truth. by rewrite (proj2 (Z.eqb_neq x 0)). Qed.

Lemma in_live_range a l x :
  Forall (λ b, 0 ≤ b_size b) l → in_live a l x → a ≤ x < a + span l.
Proof.
  intros Hl (p & n & Hin & Hx). revert a Hin. induction Hl as [|b l Hb Hl IH]; intros a Hin.
  - by apply elem_of_nil in Hin.
  - simpl in *. pose proof (span_nonneg l Hl). unfold HDR in *.
    apply elem_of_app in Hin as [Hin|Hin].
    + destruct (b_used b); [|by apply elem_of_nil in Hin].
      apply list_elem_of_singleton in Hin as [= -> ->]. lia.
    + apply IH in Hin. lia.
Qed.

Lemma in_live_cons a b l x :
  in_live a (b :: l) x ↔
  (b_used b = true ∧ a + HDR ≤ x < a + HDR + b_size b) ∨ in_live (a + HDR + b_size b) l x.
Proof.
  unfold in_live. simpl. split.
  - intros (p & n & [H|H]%elem_of_app & Hx); [|by eauto 10].
    destruct (b_used b); [|by apply elem_of_nil in H].
    apply list_elem_of_singleton in H as [= -> ->]. auto.
  - intros [[-> Hx]|(p & n & H & Hx)].
    + exists (a + HDR), (b_size b). split; [|done]. apply elem_of_app. left. by left.
    + exists p, n. split; [|done]. apply elem_of_app. by right.
Qed.

Lemma in_live_app a l1 l2 x :
  in_live a (l1 ++ l2) x ↔ in_live a l1 x ∨ in_live (a + span l1) l2 x.
Proof.
  unfold in_live. rewrite live_app. setoid_rewrite elem_of_app. split.
  - intros (p & n & [H|H] & Hx); eauto 10.
  - intros [(p & n & H & Hx)|(p & n & H & Hx)]; eauto 10.
Qed.

Lemma header_agree m m' a u p n s :
  (∀ x, a ≤ x < a + HDR → m' !! x = m !! x) → header m a u p n s → header m' a u p n s.
Proof.
  unfold header, HDR. intros H (H1 & H2 & H3 & H4).
  rewrite !(rd32_agree m m') by (intros; apply H; lia).
  split_and!; try done. by rewrite (rd8_agree m m') by (apply H; lia).
Qed.

(** A row only depends on the bytes outside the payloads in use. *)
Lemma seg_agree m m' p a l nx :
  Forall (λ b, 0 ≤ b_size b) l →
  (∀ x, a ≤ x < a + span l → ¬ in_live a l x → m' !! x = m !! x) →
  seg m p a l nx → seg m' p a l nx.
Proof.
  intros Hl. revert p a. induction Hl as [|b l Hb Hl IH]; intros p a H Hs; [done|].
  destruct Hs as [Hh Hs]. pose proof (span_nonneg l Hl). unfold HDR in *. simpl in *. unfold HDR in *. split.
  - eapply header_agree; [|done]. intros x Hx. unfold HDR in *. apply H; [lia|].
    rewrite in_live_cons. unfold HDR. intros [[_ ?]|Hin]; [lia|].
    apply in_live_range in Hin; [lia|done].
  - apply IH; [|done]. intros x Hx Hn. apply H; [lia|]. rewrite in_live_cons. unfold HDR.
    intros [[_ ?]|?]; [lia|done].
Qed.

(** Outside a range that a write leaves alone. *)
Lemma seg_frame m m' p a l nx :
  Forall (λ b, 0 ≤ b_size b) l →
  (∀ x, a ≤ x < a + span l → m' !! x = m !! x) → seg m p a l nx → seg m' p a l nx.
Proof. intros Hl H. apply seg_agree; auto. Qed.

(** The address of the last block of a row, or [p] for the empty row. *)
Fixpoint last_addr (p a : Z) (l : list blk) : Z :=
  match l with
  | [] => p
  | b :: r => last_addr a (a + HDR + b_size b) r
  end.

Lemma seg_app m p a l1 l2 nx :
  l2 ≠ [] →
  seg m p a (l1 ++ l2) nx ↔
  seg m p a l1 (a + span l1) ∧ seg m (last_addr p a l1) (a + span l1) l2 nx.
Proof.
  intros Hl2. revert p a. induction l1 as [|b l1 IH]; intros p a; simpl.
  - rewrite Z.add_0_r. tauto.
  - rewrite IH. replace (a + (HDR + b_size b + span l1)) with (a + HDR + b_size b + span l1) by lia.
    destruct l1 as [|c l1]; simpl; [|tauto].
    destruct l2; [done|]. rewrite !Z.add_0_r. tauto.
Qed.

Lemma last_addr_snoc p a l b : last_addr p a (l ++ [b]) = a + span l.
Proof.
  revert p a. induction l as [|c l IH]; intros p a; simpl; [lia|]. rewrite IH. lia.
Qed.

Lemma word_sized_nonneg l : word_sized l → Forall (λ b, 0 ≤ b_size b) l.
Proof. intros H. eapply Forall_impl; [exact H|]. simpl. tauto. Qed.
#[export] Hint Resolve word_sized_nonneg : kernel.

(** ** Lemmas: the operations on one row *)

(** What a computation on the row at [a] may do to memory: everything mapped
    stays mapped, and the bytes before the row, after it, and of the payloads
    in use in [l2] (which stands at [a2]) are unchanged. *)
Definition row_frame (m m' : mem) (a len : Z) (a2 : Z) (l2 : list blk) : Prop :=
  (∀ b n, mapped m b n → mapped m' b n) ∧
  (∀ x, x < a ∨ a + len ≤ x ∨ in_live a2 l2 x → m' !! x = m !! x).

(** Conjunctions of header fields. *)
Ltac fields :=
  repeat match goal with |- _ ∧ _ => split end; first [assumption | exact I | lia | reflexivity].
Ltac mapped_keep := intros ???; repeat first [apply mapped_wr32 | apply mapped_wr8]; assumption.
Ltac wr_other := repeat first [rewrite wr32_other by lia | rewrite wr8_other by lia]; done.

Lemma live_later a b l x :
  Forall (λ b, 0 ≤ b_size b) l → in_live a (b :: l) x →
  (b_used b = true ∧ a + 16 ≤ x < a + 16 + b_size b) ∨ a + 16 + b_size b ≤ x.
Proof.
  rewrite in_live_cons. unfold HDR. intros Hl [?|H]; [by left|].
  apply in_live_range in H; [|done]. lia.
Qed.

Lemma take_block h p a n size l2 :
  0 < a → 0 ≤ size < n → Forall (λ b, 0 ≤ b_size b) l2 →
  a + span (Blk false n :: l2) < 4294967296 →
  mapped (hmem h) a (span (Blk false n :: l2)) →
  seg (hmem h) p a (Blk false n :: l2) 0 →
  ∃ m', (split_block a size ;;; st_used a 1 ;;; ret (u32 (a + SIZEOF_BLOCK))) h
          = Ok (a + 16) (set_mem h m') ∧
    seg m' p a (carve (Blk false n) size l2) 0 ∧
    row_frame (hmem h) m' a (span (Blk false n :: l2)) (a + 16 + n) l2.
Proof.
  intros Ha Hsize Hl2 Hend Hm [(H0 & H4 & H8 & H12) Hs]. pose proof (span_nonneg l2 Hl2).
  unfold split_block, SIZEOF_BLOCK, carve, row_frame in *. simpl in *. unfold HDR in *.
  rewrite !bind_assoc. hstep. rewrite H12, Z.geb_leb, (u32_small (size + 16 + 1)) by lia.
  replace (size + 16 + 1) with (size + (16 + 1)) by lia.
  destruct (Z.leb_spec (size + (16 + 1)) n) as [Hc|Hc]; cbn [when].
  - rewrite (u32_small (a + 16 + size)) by lia.
    destruct l2 as [|c l2]; cbn [span] in *;
      do 7 (hstep; hread; rewrite ?H8, ?H12, ?(u32_small (n - size - 16)) by lia).
    + change (truth 0) with false. cbn [when].
      do 3 hstep. rewrite (u32_small (a + 16)) by lia.
      eexists. split; [done|]. split; [|split; [mapped_keep|]].
      * cbn [seg b_used b_size]. unfold HDR, header. hread. fields.
      * intros x [?|[?|Hx]]; simpl in *; [wr_other|wr_other|].
        apply in_live_range in Hx; [simpl in Hx; lia|done].
    + destruct Hs as [(G0 & G4 & G8 & G12) Hs]. apply Forall_cons in Hl2 as [Hc0 Hl2].
      pose proof (span_nonneg l2 Hl2). simpl in *. unfold HDR in *.
      rewrite truth_true by lia. cbn [when].
      do 4 hstep. rewrite (u32_small (a + 16)) by lia.
      eexists. split; [done|]. split; [|split; [mapped_keep|]].
      * cbn [seg b_used b_size]. unfold HDR, header.
        replace (a + 16 + size + 16 + (n - size - 16)) with (a + 16 + n) by lia.
        hread. split; [fields|split; [fields|split; [fields|]]].
        eapply seg_frame; [done| |done]. intros. wr_other.
      * intros x [?|[?|Hx]]; [wr_other|wr_other|].
        apply live_later in Hx; [|done]. wr_other.
  - hstep. rewrite (u32_small (a + 16)) by lia.
    eexists. split; [done|]. split; [|split; [mapped_keep|]].
    + cbn [seg b_used b_size]. unfold HDR. split.
      * unfold header. hread. fields.
      * eapply seg_frame; [done| |done]. intros. wr_other.
    + intros x Hx. rewrite wr8_other; [done|]. destruct Hx as [?|[?|Hx]]; [lia|lia|].
      apply in_live_range in Hx; [lia|done].
Qed.

(** Merging the block at [a] with its successor. *)
Lemma merge_next_ok h p a n l2 :
  0 < a → 0 ≤ n → Forall (λ b, 0 ≤ b_size b) l2 →
  a + span (Blk false n :: l2) < 4294967296 →
  mapped (hmem h) a (span (Blk false n :: l2)) →
  seg (hmem h) p a (Blk false n :: l2) 0 →
  ∃ m', merge_next a h = Ok tt (set_mem h m') ∧
    seg m' p a (fuse_next n l2) 0 ∧
    row_frame (hmem h) m' a (span (Blk false n :: l2)) (a + 16 + n) l2.
Proof.
  intros Ha Hn Hl2 Hend Hm Hseg. pose proof (span_nonneg l2 Hl2).
  pose proof Hseg as [(H0 & H4 & H8 & H12) Hs]. simpl in *. unfold HDR in *.
  unfold merge_next, SIZEOF_BLOCK, row_frame.
  destruct l2 as [|[u k] l2]; cbn [span] in *.
  { hstep. rewrite H8. change (truth 0) with false. cbn [andb when]. rewrite bind_ret_l.
    exists (hmem h). rewrite set_mem_id. split_and!; auto. }
  pose proof Hs as [(G0 & G4 & G8 & G12) Hs2]. apply Forall_cons in Hl2 as [Hk Hl2].
  pose proof (span_nonneg l2 Hl2). simpl in *. unfold HDR in *.
  hstep. rewrite H8, truth_true by lia. cbn [andb]. hstep. rewrite G0.
  destruct u; cbn [b2z Z.eqb andb when].
  { exists (hmem h). unfold ret. rewrite set_mem_id. split_and!; auto. }
  do 4 (hstep; hread; rewrite ?H8, ?H12, ?G12, ?G8, ?(u32_small (16 + k)), ?(u32_small (n + (16 + k))) by lia).
  destruct l2 as [|[v j] l2]; cbn [span] in *;
    hstep; hread; rewrite ?G8; hstep; hread.
  - change (truth 0) with false. cbn [when].
    eexists. split; [done|]. split; [|split; [mapped_keep|]].
    + cbn [seg b_used b_size]. unfold HDR, header. hread. fields.
    + intros x [?|[?|Hx]]; [wr_other|wr_other|]. apply live_later in Hx; [|done].
      simpl in Hx. destruct Hx as [[? _]|?]; [done|wr_other].
  - destruct Hs2 as [(K0 & K4 & K8 & K12) Hs2]. apply Forall_cons in Hl2 as [Hj Hl2].
    pose proof (span_nonneg l2 Hl2). simpl in *. unfold HDR in *.
    rewrite truth_true by lia. cbn [when]. hstep.
    eexists. split; [done|]. split; [|split; [mapped_keep|]].
    + unfold HDR, header. cbn [seg b_used b_size].
      replace (a + 16 + (n + (16 + k))) with (a + 16 + n + 16 + k) by lia.
      hread. split; [fields|split; [fields|]]. eapply seg_frame; [done| |done]. intros. wr_other.
    + intros x [?|[?|Hx]]; [wr_other|wr_other|]. apply in_live_cons in Hx as [[? _]|Hx]; [done|].
      apply live_later in Hx; [|done]. unfold HDR in Hx. simpl in Hx. wr_other.
Qed.

(** Merging the free block after a free block into it. *)
Lemma merge_prev_free h q a k n l2 :
  0 < a → 0 ≤ k → 0 ≤ n → Forall (λ b, 0 ≤ b_size b) l2 →
  a + span (Blk false k :: Blk false n :: l2) < 4294967296 →
  mapped (hmem h) a (span (Blk false k :: Blk false n :: l2)) →
  seg (hmem h) q a (Blk false k :: Blk false n :: l2) 0 →
  ∃ m', merge_prev (a + 16 + k) h = Ok a (set_mem h m') ∧
    seg m' q a (Blk false (k + (HDR + n)) :: l2) 0 ∧
    row_frame (hmem h) m' a (span (Blk false k :: Blk false n :: l2)) (a + 16 + k + 16 + n) l2.
Proof.
  intros Ha Hk Hn Hl2 Hend Hm Hseg. pose proof (span_nonneg l2 Hl2).
  destruct Hseg as [(G0 & G4 & G8 & G12) [(H0 & H4 & H8 & H12) Hs]]. simpl in *. unfold HDR in *.
  unfold merge_prev, SIZEOF_BLOCK, row_frame.
  hstep. rewrite H4, truth_true by lia. cbn [andb]. hstep. rewrite G0. cbn [Z.eqb].
  do 4 (hstep; hread; rewrite ?H8, ?H12, ?G12, ?(u32_small (16 + n)), ?(u32_small (k + (16 + n))) by lia).
  destruct l2 as [|[v j] l2]; cbn [span] in *; hstep; hread; rewrite ?H8; hstep; hread; rewrite ?H8.
  - change (truth 0) with false. cbn [when]. rewrite bind_ret_l. hstep. hread. rewrite H4.
    eexists. split; [done|]. split; [|split; [mapped_keep|]].
    + cbn [seg b_used b_size]. unfold HDR, header. hread. fields.
    + intros x [?|[?|Hx]]; [wr_other|wr_other|]. apply in_live_range in Hx; [simpl in Hx; lia|done].
  - destruct Hs as [(K0 & K4 & K8 & K12) Hs2]. apply Forall_cons in Hl2 as [Hj Hl2].
    pose proof (span_nonneg l2 Hl2). simpl in *. unfold HDR in *.
    rewrite truth_true by lia. cbn [when]. hstep. hstep. hread. rewrite H4.
    eexists. split; [done|]. split; [|split; [mapped_keep|]].
    + unfold HDR, header. cbn [seg b_used b_size].
      replace (a + 16 + (k + (16 + n))) with (a + 16 + k + 16 + n) by lia.
      hread. split; [fields|split; [fields|]]. eapply seg_frame; [done| |done]. intros. wr_other.
    + intros x [?|[?|Hx]]; [wr_other|wr_other|].
      apply live_later in Hx; [|done]. simpl in Hx. wr_other.
Qed.

(** No merge when there is no predecessor or it is in use. *)
Lemma merge_prev_used h a q :
  0 < a → a + 16 ≤ 4294967296 → mapped (hmem h) a 16 → rd32 (hmem h) (a + 4) = q →
  (q = 0 ∨ 0 < q ∧ q + 16 ≤ 4294967296 ∧ mapped (hmem h) q 16 ∧ rd8 (hmem h) q = 1) →
  merge_prev a h = Ok a h.
Proof.
  intros Ha Hb Hm Hq Hc. unfold merge_prev. hstep. rewrite Hq. destruct Hc as [->|(H1 & H2 & H3 & H4)].
  - done.
  - rewrite truth_true by lia. cbn [andb]. hstep. rewrite H4. done.
Qed.

Lemma row_frame_trans m1 m2 m3 a len a2 l2 :
  row_frame m1 m2 a len a2 l2 → row_frame m2 m3 a len a2 l2 → row_frame m1 m3 a len a2 l2.
Proof.
  intros [H1 H2] [H3 H4]. split; [auto|]. intros x Hx. rewrite H4, H2; auto.
Qed.

Lemma row_frame_weaken m m' a len a2 l2 b len' :
  row_frame m m' a len a2 l2 → b ≤ a → a + len ≤ b + len' → row_frame m m' b len' a2 l2.
Proof. intros [H1 H2] ??. split; [done|]. intros x Hx. apply H2. intuition lia. Qed.

(** A row before the one that changes is untouched. *)
Lemma seg_before m m' p s l1 a len a2 l2 nx :
  Forall (λ b, 0 ≤ b_size b) l1 → row_frame m m' a len a2 l2 → s + span l1 ≤ a →
  seg m p s l1 nx → seg m' p s l1 nx.
Proof.
  intros Hl [_ H] Hs. apply seg_frame; [done|]. intros x Hx. apply H. lia.
Qed.

(** Clearing the [used] flag of the block at [a]. *)
Lemma clear_used h p a n l2 :
  0 < a → 0 ≤ n → Forall (λ b, 0 ≤ b_size b) l2 →
  a + span (Blk true n :: l2) < 4294967296 →
  mapped (hmem h) a (span (Blk true n :: l2)) →
  seg (hmem h) p a (Blk true n :: l2) 0 →
  ∃ m', st_used a 0 h = Ok tt (set_mem h m') ∧
    seg m' p a (Blk false n :: l2) 0 ∧
    row_frame (hmem h) m' a (span (Blk true n :: l2)) (a + 16 + n) l2.
Proof.
  intros Ha Hn Hl2 Hend Hm [(H0 & H4 & H8 & H12) Hs]. pose proof (span_nonneg l2 Hl2).
  simpl in *. unfold HDR in *. hstep. eexists. split; [done|]. split; [|split; [mapped_keep|]].
  - split; [unfold header; hread; fields|]. eapply seg_frame; [done| |done]. intros. wr_other.
  - intros x [?|[?|Hx]]; [wr_other|wr_other|]. apply in_live_range in Hx; [wr_other|done].
Qed.

Lemma seg_mid m p s l1 b l2 :
  seg m p s (l1 ++ b :: l2) 0 ↔
  seg m p s l1 (s + span l1) ∧ seg m (last_addr p s l1) (s + span l1) (b :: l2) 0.
Proof. by apply seg_app. Qed.

(** The body shared by [kfree] and [kfree_block]. *)
Definition free_body (a : Z) : M heap unit :=
  st_used a 0 ;;; let* b := merge_prev a in merge_next b.

(** The two ways a freed block meets its predecessor. *)
Lemma merge_both_free h s r k n l2 :
  0 < s → Forall (λ b, 0 ≤ b_size b) (r ++ Blk false k :: Blk false n :: l2) →
  s + span (r ++ Blk false k :: Blk false n :: l2) < 4294967296 →
  mapped (hmem h) s (span (r ++ Blk false k :: Blk false n :: l2)) →
  seg (hmem h) 0 s (r ++ Blk false k :: Blk false n :: l2) 0 →
  ∃ m', (let* b := merge_prev (s + span r + 16 + k) in merge_next b) h = Ok tt (set_mem h m') ∧
    seg m' 0 s (r ++ fuse_next (k + (HDR + n)) l2) 0 ∧
    row_frame (hmem h) m' (s + span r) (span (Blk false k :: Blk false n :: l2))
      (s + span r + 16 + k + 16 + n) l2.
Proof.
  intros Hs Hall Hend Hm Hseg. rewrite span_app in *. apply Forall_app in Hall as [Hr Hl].
  pose proof (span_nonneg r Hr). apply Forall_cons in Hl as [Hk Hl].
  apply Forall_cons in Hl as [Hn Hl]. pose proof (span_nonneg l2 Hl). simpl in Hk, Hn.
  apply seg_mid in Hseg as [Hs1 Hs2]. set (a := s + span r) in *.
  destruct (merge_prev_free h (last_addr 0 s r) a k n l2) as (m1 & E1 & G1 & F1); auto; try lia.
  { eapply mapped_sub; [done|lia|lia]. }
  rewrite (bind_ok _ _ _ _ _ E1). unfold HDR in G1.
  destruct (merge_next_ok (set_mem h m1) (last_addr 0 s r) a (k + (16 + n)) l2)
    as (m2 & E2 & G2 & F2); auto; try lia.
  { simpl in *. unfold HDR in *. lia. }
  { apply F1. simpl in *. unfold HDR in *. eapply mapped_sub; [done|lia|lia]. }
  exists m2. rewrite E2, set_mem_set_mem. split; [done|].
  replace (a + 16 + (k + (16 + n))) with (a + 16 + k + 16 + n) in F2 by lia.
  assert (row_frame (hmem h) m2 a (span (Blk false k :: Blk false n :: l2)) (a + 16 + k + 16 + n) l2) as F.
  { eapply row_frame_trans; [exact F1|]. eapply row_frame_weaken; [exact F2|lia|].
    simpl. unfold HDR. lia. }
  split; [|done]. destruct (decide (fuse_next (k + (16 + n)) l2 = [])) as [Hnil|Hne].
  { by destruct l2 as [|[[] ?] ?]. }
  apply seg_app; [done|]. split; [|done]. eapply seg_before; eauto; lia.
Qed.

Lemma merge_after_used h s l1 n l2 :
  (l1 = [] ∨ ∃ r k, l1 = r ++ [Blk true k]) →
  0 < s → Forall (λ b, 0 ≤ b_size b) (l1 ++ Blk false n :: l2) →
  s + span (l1 ++ Blk false n :: l2) < 4294967296 →
  mapped (hmem h) s (span (l1 ++ Blk false n :: l2)) →
  seg (hmem h) 0 s (l1 ++ Blk false n :: l2) 0 →
  ∃ m', (let* b := merge_prev (s + span l1) in merge_next b) h = Ok tt (set_mem h m') ∧
    seg m' 0 s (l1 ++ fuse_next n l2) 0 ∧
    row_frame (hmem h) m' (s + span l1) (span (Blk false n :: l2)) (s + span l1 + 16 + n) l2.
Proof.
  intros Hcase Hs Hall Hend Hm Hseg. rewrite span_app in *. apply Forall_app in Hall as [Hl1 Hl].
  pose proof (span_nonneg l1 Hl1). apply Forall_cons in Hl as [Hn Hl2].
  pose proof (span_nonneg l2 Hl2). simpl in Hn.
  apply seg_mid in Hseg as [Hs1 Hs2]. set (a := s + span l1) in *.
  assert (merge_prev a h = Ok a h) as E1.
  { simpl in Hm, Hend. unfold HDR in *. destruct Hs2 as [(_ & Hp & _) _].
    apply (merge_prev_used h a (last_addr 0 s l1)); try done; try lia.
    { eapply mapped_sub; [done|lia|lia]. }
    destruct Hcase as [->|(r & k & ->)]; [by left|right]. rewrite last_addr_snoc.
    apply Forall_app in Hl1 as [Hr Hk]. apply Forall_cons in Hk as [Hk _]. simpl in Hk.
    pose proof (span_nonneg r Hr). subst a. rewrite span_app in *. simpl in *. unfold HDR in *.
    apply seg_app in Hs1 as [_ [(Hu & _) _]]; [|done].
    split; [lia|]. split; [lia|]. split; [|done]. eapply mapped_sub; [done|lia|lia]. }
  rewrite (bind_ok _ _ _ _ _ E1).
  destruct (merge_next_ok h (last_addr 0 s l1) a n l2) as (m2 & E2 & G2 & F2); auto; try lia.
  { eapply mapped_sub; [done|lia|lia]. }
  exists m2. split; [done|]. split; [|done].
  destruct (decide (fuse_next n l2 = [])) as [Hnil|Hne]; [by destruct l2 as [|[[] ?] ?]|].
  apply seg_app; [done|]. split; [|done]. eapply seg_before; eauto; lia.
Qed.

Lemma free_body_ok h s l1 n l2 :
  0 < s → Forall (λ b, 0 ≤ b_size b) (l1 ++ Blk true n :: l2) →
  s + span (l1 ++ Blk true n :: l2) < 4294967296 →
  mapped (hmem h) s (span (l1 ++ Blk true n :: l2)) →
  seg (hmem h) 0 s (l1 ++ Blk true n :: l2) 0 →
  ∃ m', free_body (s + span l1) h = Ok tt (set_mem h m') ∧
    seg m' 0 s (free l1 n l2) 0 ∧
    (∀ b k, mapped (hmem h) b k → mapped m' b k) ∧
    (∀ x, x < s ∨ s + span (l1 ++ Blk true n :: l2) ≤ x ∨
          in_live s l1 x ∨ in_live (s + span l1 + 16 + n) l2 x → m' !! x = hmem h !! x).
Proof.
  intros Hs Hall Hend Hm Hseg. rewrite span_app in *. apply Forall_app in Hall as [Hl1 Hl2'].
  pose proof (span_nonneg l1 Hl1). apply Forall_cons in Hl2' as [Hn Hl2]. simpl in Hn.
  pose proof (span_nonneg l2 Hl2). apply seg_mid in Hseg as [Hs1 Hs2].
  set (a := s + span l1) in *. set (len := span (Blk true n :: l2)) in *.
  destruct (clear_used h (last_addr 0 s l1) a n l2) as (m1 & E1 & Hs2' & F1); auto; try lia.
  { eapply mapped_sub; [done|lia|lia]. }
  unfold free_body. hrun E1. set (h1 := set_mem h m1).
  assert (seg m1 0 s (l1 ++ Blk false n :: l2) 0) as Hs3.
  { apply seg_mid. split; [|done]. eapply seg_before; eauto; lia. }
  assert (mapped m1 s (span (l1 ++ Blk false n :: l2))) as Hm1 by (rewrite span_app; by apply F1).
  assert (Forall (λ b, 0 ≤ b_size b) (l1 ++ Blk false n :: l2)) as Hall.
  { apply Forall_app. split; [done|]. by constructor. }
  assert (s + span (l1 ++ Blk false n :: l2) < 4294967296) as Hend1 by (by rewrite span_app).
  destruct (free_cases l1 n l2) as [(r & k & -> & ->)|[Hc ->]].
  - rewrite <-app_assoc in *. simpl in Hs3, Hm1, Hall, Hend1.
    destruct (merge_both_free h1 s r k n l2) as (m2 & E2 & G2 & F2 & F2'); auto.
    subst a len. rewrite span_app in *. simpl in *. unfold HDR in *.
    replace (s + span r + 16 + k) with (s + (span r + (16 + k + 0))) in * by lia.
    exists m2. rewrite E2. split; [done|]. split; [done|]. split; [by intros; apply F2, F1|].
    intros x Hx. apply Forall_app in Hl1 as [Hr [Hk _]%Forall_cons].
    pose proof (span_nonneg r Hr). simpl in Hk.
    assert (in_live s (r ++ [Blk false k]) x → x < s + span r) as Hlive.
    { intros [Hin|[[? _]|(? & ? & Hnil & _)]%in_live_cons]%in_live_app; [|done|].
      - apply in_live_range in Hin; [lia|done].
      - by apply elem_of_nil in Hnil. }
    rewrite F2', (proj2 F1); [done|intuition lia..].
  - destruct (merge_after_used h1 s l1 n l2) as (m2 & E2 & G2 & F2 & F2'); auto.
    fold a in E2. exists m2. rewrite E2. split; [done|]. split; [done|].
    split; [by intros; apply F2, F1|]. intros x Hx. assert (in_live s l1 x → x < a) as Hlive.
    { intros Hin. apply in_live_range in Hin; [lia|done]. }
    subst a len. simpl in *. unfold HDR in *.
    rewrite F2', (proj2 F1); [done|intuition lia..].
Qed.

(** The search of [kmalloc_alligned] is first fit and leaves memory alone. *)
Definition row_ptr (a : Z) (l : list blk) : Z := match l with [] => 0 | _ => a end.

Lemma alligned_search h p a l size fuel :
  0 < a → a mod 4 = 0 → 0 ≤ size → word_sized l → a + span l < 4294967296 →
  mapped (hmem h) a (span l) → seg (hmem h) p a l 0 → (S (length l) < fuel)%nat →
  alligned_loop fuel size 4 (row_ptr a l) 0 h =
    Ok (match alloc size l with Some (off, _) => a + off | None => 0 end) h.
Proof.
  revert p a fuel. induction l as [|[u n] l IH]; intros p a fuel Ha Hmod Hsz Hw Hend Hm Hseg Hf;
    (destruct fuel as [|fuel]; [simpl in Hf; lia|]).
  { done. }
  destruct Hseg as [(H0 & H4 & H8 & H12) Hs]. apply Forall_cons in Hw as [[Hn Hn4] Hw].
  pose proof (word_sized_span l Hw) as [Hsp Hsp4]. simpl in *. unfold HDR in *.
  rewrite truth_true by lia. cbn [andb Z.eqb]. unfold alligned_body, SIZEOF_BLOCK.
  hstep. rewrite H0.
  assert (u32 (a + 16) mod 4 = 0) as Hal by word_lia.
  assert (∀ r, bind (ld_next a) (λ nx, alligned_loop fuel size 4 nx r) h =
    alligned_loop fuel size 4 (row_ptr (a + 16 + n) l) r h) as Hnext.
  { intros r. hstep. rewrite H8. by destruct l. }
  assert (alligned_loop fuel size 4 (row_ptr (a + 16 + n) l) 0 h =
    Ok (match alloc size l with Some (off, _) => a + 16 + n + off | None => 0 end) h) as Hrest.
  { eapply IH; eauto; try lia; [word_lia|]. eapply mapped_sub; [done|lia|lia]. }
  assert (∀ o : option (Z * list blk), match o with Some (off, _) => a + 16 + n + off | None => 0 end =
    match match o with Some (off, r') => Some (16 + n + off, Blk u n :: r') | None => None end with
    Some (off, _) => a + off | None => 0 end) as Hshift by (intros [[]|]; [lia|done]).
  destruct u; cbn [b2z Z.eqb negb andb].
  { rewrite bind_ret_l, Hnext, Hrest. by rewrite Hshift. }
  rewrite Hal. cbn [Z.eqb negb]. hstep. rewrite H12, bind_ret_l, Hnext, Z.gtb_ltb.
  destruct (Z.ltb_spec size n); cbn [andb].
  - destruct fuel as [|fuel]; [lia|]. cbn [alligned_loop].
    rewrite (proj2 (Z.eqb_neq a 0)), andb_false_r by lia. unfold ret. f_equal. lia.
  - rewrite Hrest. by rewrite Hshift.
Qed.

(** So is the one of [kmalloc] itself. *)
Lemma kmalloc_search h p a l size fuel :
  0 < a → word_sized l → a + span l < 4294967296 →
  mapped (hmem h) a (span l) → seg (hmem h) p a l 0 → (S (length l) < fuel)%nat →
  kmalloc_loop fuel size (row_ptr a l) 0 h =
    Ok (match alloc size l with Some (off, _) => a + off | None => 0 end) h.
Proof.
  revert p a fuel. induction l as [|[u n] l IH]; intros p a fuel Ha Hw Hend Hm Hseg Hf;
    (destruct fuel as [|fuel]; [simpl in Hf; lia|]).
  { done. }
  destruct Hseg as [(H0 & H4 & H8 & H12) Hs]. apply Forall_cons in Hw as [[Hn Hn4] Hw].
  pose proof (word_sized_span l Hw) as [Hsp Hsp4]. simpl in *. unfold HDR in *.
  rewrite truth_true by lia. cbn [andb Z.eqb]. hstep. rewrite H12, Z.gtb_ltb.
  assert (∀ r, bind (ld_next a) (λ nx, kmalloc_loop fuel size nx r) h =
    kmalloc_loop fuel size (row_ptr (a + 16 + n) l) r h) as Hnext.
  { intros r. hstep. rewrite H8. by destruct l. }
  assert (kmalloc_loop fuel size (row_ptr (a + 16 + n) l) 0 h =
    Ok (match alloc size l with Some (off, _) => a + 16 + n + off | None => 0 end) h) as Hrest.
  { eapply IH; eauto; try lia. eapply mapped_sub; [done|lia|lia]. }
  assert (∀ o : option (Z * list blk), match o with Some (off, _) => a + 16 + n + off | None => 0 end =
    match match o with Some (off, r') => Some (16 + n + off, Blk u n :: r') | None => None end with
    Some (off, _) => a + off | None => 0 end) as Hshift by (intros [[]|]; [lia|done]).
  destruct (Z.ltb_spec size n) as [Hlt|Hge].
  2:{ rewrite andb_false_r, bind_ret_l, Hnext, Hrest. by rewrite Hshift. }
  rewrite bind_assoc. hstep. rewrite H0. destruct u; cbn [b2z Z.eqb negb andb]; rewrite bind_ret_l, Hnext.
  - rewrite Hrest. by rewrite Hshift.
  - destruct fuel as [|fuel]; [lia|]. cbn [kmalloc_loop].
    rewrite (proj2 (Z.eqb_neq a 0)), andb_false_r by lia. unfold ret. f_equal. lia.
Qed.

(** ** Lemmas: the operations on the heap *)

Lemma heap_repr_set_mem h m bs :
  heap_repr h bs →
  mapped m (heap_start h) (heap_end h - heap_start h) →
  ∀ bs', bs' ≠ [] → word_sized bs' → span bs' = span bs →
  seg m 0 (heap_start h) bs' 0 → heap_repr (set_mem h m) bs'.
Proof. intros [] ? bs' ?? E ?. constructor; simpl; auto. by rewrite E. Qed.

Lemma row_length_fuel h bs : heap_repr h bs → (S (length bs) < walk_fuel h)%nat.
Proof.
  intros [_ Hsz _ [Hend _] _ _ Hw _]. unfold walk_fuel, SIZEOF_BLOCK. rewrite Hsz, <-Hend.
  replace (heap_start h + span bs - heap_start h) with (span bs) by lia.
  enough (16 * length bs ≤ span bs) by word_lia.
  clear -Hw. induction Hw as [|b l [? ?] Hw IH]; simpl; [lia|]. unfold HDR in *. lia.
Qed.

Lemma kheap_init_spec start endd h :
  heap_bounds start endd → mapped (hmem h) start (endd - start) →
  ∃ h', kheap_init start endd h = Ok tt h' ∧ heap_start h' = start ∧ heap_end h' = endd ∧
    heap_repr h' [Blk false (endd - start - 16)].
Proof.
  unfold heap_bounds, SIZEOF_BLOCK. intros (H1 & H2 & H3 & H4) Hm.
  unfold kheap_init, SIZEOF_BLOCK. rewrite bind_modify, bind_get. simpl.
  rewrite (u32_small (endd - start)) by lia.
  destruct (memset_ok start 0 (endd - start) (hmem h)) as (m' & E & Hm'); [done|lia..|].
  assert (mapped m' start (endd - start)) as Hmm.
  { intros x Hx. rewrite (Hm' x). rewrite decide_True by lia. eauto. }
  unfold on_mem at 1, zoom at 1, bind at 1. simpl. rewrite E. unfold bind at 1 2. simpl.
  set (h1 := mkHeap start endd (endd - start) start m'). change m' with (hmem h1) in Hmm.
  do 4 hstep. rewrite (u32_small (endd - start - 16)) by lia.
  eexists. split; [done|]. simpl. split; [done|]. split; [done|].
  constructor; simpl; auto; try (unfold HDR; lia).
  - eauto 20 with kernel.
  - constructor; [|constructor]. simpl. word_lia.
  - split; [|done]. unfold header. simpl. hread. fields.
Qed.

(** Taking the block the search found. *)
Lemma take_found h bs size off bs' :
  heap_repr h bs → 0 ≤ size → alloc size bs = Some (off, bs') →
  ∃ m', (split_block (heap_start h + off) size ;;; st_used (heap_start h + off) 1 ;;;
         ret (u32 (heap_start h + off + SIZEOF_BLOCK))) h = Ok (heap_start h + off + 16) (set_mem h m') ∧
    0 < heap_start h + off ∧ mapped m' (heap_start h) (heap_end h - heap_start h) ∧
    seg m' 0 (heap_start h) bs' 0 ∧ bs' ≠ [] ∧
    (∀ x, x < heap_start h ∨ heap_end h ≤ x ∨ in_live (heap_start h) bs x → m' !! x = hmem h !! x).
Proof.
  intros Hr Hsz Ea. pose proof Hr as [Hf Hhs [Hs0 Hs4] [Hend Hmax] Hm Hne Hw Hseg].
  apply alloc_inv in Ea as (l1 & [u n] & l2 & -> & -> & -> & Hu & Hn & _). simpl in Hu, Hn. subst u.
  apply word_sized_app in Hw as [Hw1 Hw2]. apply Forall_cons in Hw2 as [_ Hw2].
  apply word_sized_nonneg in Hw1, Hw2. pose proof (span_nonneg l1 Hw1). pose proof (span_nonneg l2 Hw2).
  apply seg_mid in Hseg as [Hs1 Hs2]. rewrite span_app in *.
  destruct (take_block h (last_addr 0 (heap_start h) l1) (heap_start h + span l1) n size l2)
    as (m' & Et & Hs2' & Hf'); auto; try lia.
  { simpl in *. unfold HDR in *. eapply mapped_sub; [done|lia|lia]. }
  rewrite Et. exists m'. split; [done|]. split; [lia|]. split; [by apply Hf'|]. split; [|split].
  - apply seg_app; [unfold carve; by case_match|]. split; [|done].
    eapply seg_before; eauto; lia.
  - unfold carve. case_match; by destruct l1.
  - intros x Hx. apply Hf'. simpl in *. unfold HDR in *.
    destruct Hx as [?|[?|[Hx|Hx]%in_live_app]]; [lia|lia|..].
    + apply in_live_range in Hx; [lia|done].
    + apply in_live_cons in Hx as [[? _]|Hx]; [done|]. by right; right.
Qed.

(** Words, and the single byte for which [kmalloc] has a search of its own. *)
Lemma kmalloc_any_spec h bs size :
  heap_repr h bs → size = 1 ∨ word_request size →
  match alloc size bs with
  | Some (off, bs') =>
      ∃ m', kmalloc size h = Ok (heap_start h + off + 16) (set_mem h m') ∧
        (word_request size → heap_repr (set_mem h m') bs') ∧ seg m' 0 (heap_start h) bs' 0 ∧
        (∀ x, x < heap_start h ∨ heap_end h ≤ x ∨ in_live (heap_start h) bs x →
              m' !! x = hmem h !! x)
  | None => kmalloc size h = if size =? 1 then Ok 0 h else Panic "can't allocate memory" h
  end.
Proof.
  intros Hr Hor. pose proof Hr as [Hf Hhs [Hs0 Hs4] [Hend Hmax] Hm Hne Hw Hseg].
  assert (span bs = heap_end h - heap_start h) as Hspan by lia.
  assert (first h = row_ptr (heap_start h) bs) as Hrow by (rewrite Hf; by destruct bs).
  pose proof (row_length_fuel h bs Hr) as Hfuel. rewrite <-Hspan in Hm.
  assert (kmalloc size h = match alloc size bs with
    | Some (off, _) => (split_block (heap_start h + off) size ;;; st_used (heap_start h + off) 1 ;;;
         ret (u32 (heap_start h + off + SIZEOF_BLOCK))) h
    | None => if size =? 1 then Ok 0 h else Panic "can't allocate memory" h end) as ->.
  { unfold kmalloc. destruct (Z.eqb_spec size 1) as [->|Hne1]; cbn [negb].
    - pose proof (kmalloc_search h 0 (heap_start h) bs 1 (walk_fuel h) Hs0 Hw ltac:(lia) Hm Hseg Hfuel) as E.
      rewrite <-Hrow in E. rewrite bind_get, (bind_ok _ _ _ _ _ E). destruct (alloc 1 bs) as [[off bs']|] eqn:Ea; [|done].
      destruct (take_found h bs 1 off bs' Hr ltac:(lia) Ea) as (_ & _ & Hpos & _). by rewrite (proj2 (Z.eqb_neq _ 0)) by lia.
    - destruct Hor as [|[Hsz Hmod]]; [done|]. unfold kmalloc_alligned.
      pose proof (alligned_search h 0 (heap_start h) bs size (walk_fuel h) Hs0 Hs4 ltac:(lia) Hw ltac:(lia) Hm Hseg Hfuel) as E.
      rewrite <-Hrow in E. rewrite bind_get, (bind_ok _ _ _ _ _ E). destruct (alloc size bs) as [[off bs']|] eqn:Ea; [|done].
      destruct (take_found h bs size off bs' Hr ltac:(lia) Ea) as (_ & _ & Hpos & _). by rewrite (proj2 (Z.eqb_neq _ 0)) by lia. }
  destruct (alloc size bs) as [[off bs']|] eqn:Ea; [|done].
  assert (0 ≤ size) as Hsz by (destruct Hor as [->|[? _]]; lia).
  destruct (take_found h bs size off bs' Hr Hsz Ea) as (m' & Et & _ & Hm' & Hseg' & Hne' & Hfr).
  exists m'. split; [done|]. split; [|split; [done|done]]. intros [_ Hmod].
  apply heap_repr_set_mem with (bs := bs); try done; [by eapply alloc_word_sized|by eapply alloc_span].
Qed.
Lemma kmalloc_spec h bs size :
  heap_repr h bs → word_request size →
  match alloc size bs with
  | Some (off, bs') =>
      ∃ m', kmalloc size h = Ok (heap_start h + off + 16) (set_mem h m') ∧
        heap_repr (set_mem h m') bs' ∧
        (∀ x, x < heap_start h ∨ heap_end h ≤ x ∨ in_live (heap_start h) bs x →
              m' !! x = hmem h !! x)
  | None => kmalloc size h = Panic "can't allocate memory" h
  end.
Proof.
  intros Hr Hs. pose proof (kmalloc_any_spec h bs size Hr (or_intror Hs)) as H.
  destruct (alloc size bs) as [[off bs']|].
  - destruct H as (m' & E & Hr' & _ & Hfr). exists m'. by split_and!; [|apply Hr'|].
  - destruct (Z.eqb_spec size 1) as [->|]; [|done]. by destruct Hs as [_ Hmod].
Qed.

Lemma kfree_spec h l1 n l2 :
  heap_repr h (l1 ++ Blk true n :: l2) →
  ∃ m', kfree (heap_start h + span l1 + 16) h = Ok tt (set_mem h m') ∧
    heap_repr (set_mem h m') (free l1 n l2) ∧
    (∀ x, x < heap_start h ∨ heap_end h ≤ x ∨ in_live (heap_start h) l1 x ∨
          in_live (heap_start h + span l1 + 16 + n) l2 x → m' !! x = hmem h !! x).
Proof.
  intros Hr. pose proof Hr as [Hf Hhs [Hs0 Hs4] [Hend Hmax] Hm Hne Hw Hseg].
  pose proof (word_sized_nonneg _ Hw) as Hnn.
  destruct (free_body_ok h (heap_start h) l1 n l2) as (m' & E & Hs' & Hmap & Hfr); auto; try lia.
  { by replace (span (l1 ++ Blk true n :: l2)) with (heap_end h - heap_start h) by lia. }
  assert (kfree (heap_start h + span l1 + 16) h = free_body (heap_start h + span l1) h) as ->.
  { unfold kfree, free_body, SIZEOF_BLOCK.
    replace (heap_start h + span l1 + 16 - 16) with (heap_start h + span l1) by lia.
    rewrite u32_small; [done|].
    apply Forall_app in Hnn as [Hl1 Hl2]. pose proof (span_nonneg l1 Hl1).
    pose proof (span_nonneg _ Hl2). rewrite span_app in *. lia. }
  rewrite E. exists m'. split; [done|]. split.
  - eapply heap_repr_set_mem; eauto.
    + unfold free. destruct (reverse l1) as [|[[] ?] ?]; intros Hnil;
        apply app_eq_nil in Hnil as [_ Hnil]; by destruct l2 as [|[[] ?] ?].
    + by apply free_word_sized.
    + rewrite free_span, span_app. simpl. lia.
  - intros x Hx. apply Hfr. rewrite Hend. tauto.
Qed.

(** ** Lemmas: the client invariant *)

Lemma client_inv_boot start endd c :
  heap_bounds start endd → heap_boot start endd c → client_inv start endd c.
Proof.
  intros Hb (h0 & Hm & E & HG). destruct c as [h G]. simpl in *. subst G.
  destruct (kheap_init_spec start endd h0 Hb Hm) as (h' & E' & Hs & He & Hr).
  rewrite E in E'. injection E' as <-. exists [Blk false (endd - start - 16)]. simpl.
  split_and!; auto.
  - intros p n Hp. by rewrite lookup_empty in Hp.
  - intros p k Hk. by apply elem_of_nil in Hk.
Qed.

Lemma heap_repr_agree h m bs :
  heap_repr h bs → (∀ b n, mapped (hmem h) b n → mapped m b n) →
  (∀ x, ¬ in_live (heap_start h) bs x → m !! x = hmem h !! x) → heap_repr (set_mem h m) bs.
Proof.
  intros Hr Hm Hx. pose proof Hr as []. eapply heap_repr_set_mem; eauto.
  eapply seg_agree; [by apply word_sized_nonneg| |done]. intros x _. apply Hx.
Qed.

Lemma client_inv_malloc start endd h G size p h' :
  client_inv start endd (h, G) → word_request size → kmalloc size h = Ok p h' →
  client_inv start endd (h', <[p := size]> G) ∧
  (∀ q n x, G !! q = Some n → q ≤ x < q + n → hmem h' !! x = hmem h !! x) ∧ G !! p = None.
Proof.
  intros (bs & Hr & Hna & Hs & He & HG & HL) Hreq E. simpl in *.
  pose proof (kmalloc_spec h bs size Hr Hreq) as Hspec.
  destruct (alloc size bs) as [[off bs']|] eqn:Ea; [|congruence].
  destruct Hspec as (m' & E' & Hr' & Hfr). rewrite E in E'. injection E' as -> ->.
  pose proof (alloc_no_adjacent _ _ _ _ Hna Ea) as Hna'.
  pose proof (word_sized_nonneg _ (hr_words _ _ Hr)) as Hnn.
  apply alloc_inv in Ea as (l1 & b & l2 & -> & -> & -> & Hu & Hsz & _).
  rewrite Hs in *. destruct (live_carve (start + span l1) b size l2) as (k & Hlk & Hk & _).
  assert (size ≤ k) as Hsk by lia. pose proof (proj1 Hreq) as Hreq0.
  assert (∀ q j, (q, j) ∈ live start (l1 ++ b :: l2) →
    (q, j) ∈ live start (l1 ++ carve b size l2) ∧ q ≠ start + span l1 + 16) as Hold.
  { intros q j. rewrite !live_app, !elem_of_app. simpl. rewrite Hu, Hlk. simpl.
    apply Forall_app in Hnn as [Hn1 [Hb Hn2]%Forall_cons].
    intros [Hq|Hq]; (split; [rewrite elem_of_cons; tauto|]);
      apply live_bounds in Hq; try done; unfold HDR in *; lia. }
  split; [|split].
  - exists (l1 ++ carve b size l2). simpl. split_and!; auto.
    + intros q n. rewrite lookup_insert_Some. intros [[<- <-]|[Hne Hq]].
      * split; [lia|]. exists k. split; [|done]. rewrite live_app, Hlk.
        apply elem_of_app. right. left.
      * destruct (HG _ _ Hq) as (? & j & Hj & ?). split; [done|]. exists j.
        split; [by apply Hold|done].
    + intros q j. rewrite live_app, Hlk, elem_of_app, elem_of_cons. intros Hq.
      destruct (decide (start + span l1 + 16 = q)) as [<-|Hne]; [rewrite lookup_insert_eq; eauto|].
      rewrite lookup_insert_ne by done. apply (HL q j). rewrite live_app, elem_of_app. simpl.
      rewrite Hu. simpl. destruct Hq as [?|[[= ? ?]|?]]; [by left|unfold HDR in *; lia|by right].
  - intros q n x Hq Hx. destruct (HG _ _ Hq) as (? & j & Hj & ?). simpl. apply Hfr.
    right. right. exists q, j. split; [done|lia].
  - destruct (G !! (start + span l1 + 16)) as [n|] eqn:EG; [|done].
    destruct (HG _ _ EG) as (_ & j & Hj & _). by destruct (Hold _ _ Hj).
Qed.

Lemma client_inv_free start endd h G p size :
  client_inv start endd (h, G) → G !! p = Some size →
  ∃ m', kfree p h = Ok tt (set_mem h m') ∧ client_inv start endd (set_mem h m', delete p G) ∧
  (∀ q n x, delete p G !! q = Some n → q ≤ x < q + n → m' !! x = hmem h !! x).
Proof.
  intros (bs & Hr & Hna & Hs & He & HG & HL) Hp. simpl in *.
  destruct (HG _ _ Hp) as (_ & k & Hk & _).
  pose proof (word_sized_nonneg _ (hr_words _ _ Hr)) as Hnn.
  pose proof Hk as (l1 & l2 & -> & ->)%live_elem.
  destruct (kfree_spec h l1 k l2 Hr) as (m' & E & Hr' & Hfr). rewrite Hs in *. unfold HDR in *.
  assert (∀ q j, (q, j) ∈ live start (l1 ++ Blk true k :: l2) → q ≠ start + span l1 + 16 →
    (q, j) ∈ live start l1 ∨ (q, j) ∈ live (start + span l1 + 16 + k) l2) as Hold.
  { intros q j. rewrite live_app, elem_of_app. simpl. rewrite elem_of_cons.
    unfold HDR. intros [?|[[= -> ->]|?]]; auto. done. }
  exists m'. split; [done|]. split.
  - exists (free l1 k l2). simpl. split_and!; auto using free_no_adjacent.
    + intros q n [Hne Hq]%lookup_delete_Some. destruct (HG _ _ Hq) as (? & j & Hj & ?).
      split; [done|]. exists j. split; [|done]. rewrite live_free, elem_of_app. auto.
    + intros q j. rewrite live_free, elem_of_app. unfold HDR. intros Hq.
      assert ((q, j) ∈ live start (l1 ++ Blk true k :: l2)) as Hq'.
      { rewrite live_app, elem_of_app. simpl. rewrite elem_of_cons. unfold HDR. tauto. }
      rewrite lookup_delete_ne; [by eapply HL|]. intros <-.
      apply Forall_app in Hnn as [Hn1 [Hb Hn2]%Forall_cons]. simpl in Hb.
      destruct Hq as [Hq|Hq]; apply live_bounds in Hq; try done; unfold HDR in *; lia.
  - intros q n x [Hne Hq]%lookup_delete_Some Hx. destruct (HG _ _ Hq) as (? & j & Hj & ?).
    apply Hfr. destruct (Hold _ _ Hj) as [Hl|Hl]; [done|..]; right; right; [left|right];
      exists q, j; (split; [done|lia]).
Qed.

Lemma client_inv_step start endd c c' :
  client_step c c' → client_inv start endd c → client_inv start endd c'.
Proof.
  intros [h G size p h' Hreq E|h G p size h' Hp E|h G p size x v Hp Hx] Hinv.
  - by eapply client_inv_malloc.
  - destruct (client_inv_free _ _ _ _ _ _ Hinv Hp) as (m' & E' & Hinv' & _).
    rewrite E in E'. by injection E' as ->.
  - destruct Hinv as (bs & Hr & Hna & Hs & He & HG & HL). exists bs. simpl in *.
    split_and!; auto. apply heap_repr_agree; [done|intros; by apply mapped_wr8|].
    intros y Hy. rewrite wr8_other; [done|]. intros ->. apply Hy.
    destruct (HG _ _ Hp) as (_ & k & Hk & ?). exists p, k. rewrite Hs. split; [done|lia].
Qed.

Lemma heap_reachable_inv start endd c :
  heap_bounds start endd → heap_reachable start endd c → client_inv start endd c.
Proof.
  intros Hb (c0 & Hc0 & Hsteps). apply (client_inv_boot _ _ _ Hb) in Hc0.
  induction Hsteps; eauto using client_inv_step.
Qed.

Lemma client_inv_regions start endd c :
  heap_bounds start endd → client_inv start endd c → regions_ok start endd (snd c).
Proof.
  intros [_ [Hmod _]] (bs & Hr & _ & Hs & He & HG & _). pose proof (hr_words _ _ Hr) as Hw.
  pose proof (word_sized_nonneg _ Hw) as Hnn. destruct (hr_end _ _ Hr) as [Hend _].
  rewrite Hs, He in Hend. split.
  - intros p n Hp. destruct (HG _ _ Hp) as (? & k & Hk & ?).
    pose proof (live_bounds _ _ _ _ Hnn Hk). pose proof (live_aligned _ _ _ _ Hmod Hw Hk).
    unfold HDR in *. lia.
  - intros p n q k Hp Hq Hne. destruct (HG _ _ Hp) as (? & n' & Hn & ?).
    destruct (HG _ _ Hq) as (? & k' & Hk & ?).
    destruct (live_disjoint _ _ _ _ _ _ Hnn Hn Hk) as [[? _]|?]; [done|lia].
Qed.

(** A small heap of 64 bytes at 4096, for examples. *)
Definition demo_raw : heap := mkHeap 0 0 0 0 (zeroes 4096 64).
Definition demo_heap : heap :=
  match kheap_init 4096 4160 demo_raw with Ok _ h => h | _ => demo_raw end.

Lemma demo_bounds : heap_bounds 4096 4160.
Proof. unfold heap_bounds, SIZEOF_BLOCK. split_and!; done. Qed.

Lemma demo_mapped : mapped (hmem demo_raw) 4096 64.
Proof. by apply (mappedb_spec _ 4096 64). Qed.

Lemma demo_boot : heap_boot 4096 4160 (demo_heap, ∅).
Proof. exists demo_raw. split; [apply demo_mapped|]. split; [vm_compute; reflexivity|done]. Qed.

Lemma demo_repr : heap_repr demo_heap [Blk false 48].
Proof.
  destruct (kheap_init_spec 4096 4160 demo_raw demo_bounds demo_mapped) as (h' & E & _ & _ & Hr).
  unfold demo_heap. by rewrite E.
Qed.

(** The same after a first allocation. *)
Definition demo1 : heap := match kmalloc 8 demo_heap with Ok _ h => h | _ => demo_heap end.
Lemma demo1_reachable : heap_reachable 4096 4160 (demo1, <[4112 := 8]> ∅).
Proof.
  exists (demo_heap, ∅). split; [apply demo_boot|]. eapply rtc_l; [|apply rtc_refl].
  eapply (client_malloc _ _ 8); [split; done|vm_compute; reflexivity].
Qed.

(** ** Theorems *)

(** C1. Heap safety. In every state a client reaches from [kheap_init] by
    allocating words (multiples of four bytes, as every caller in the
    repository does), freeing what it holds and writing into it, the regions
    it holds lie inside the heap, are word aligned and pairwise disjoint; any
    further [kmalloc] of words returns or panics, it never faults or loops;
    and [kfree] of a region it holds always returns. *)
Theorem heap_client_safety (start endd : Z) (h : heap) (G : gmap Z Z)
    (Hb : heap_bounds start endd) (Hr : heap_reachable start endd (h, G)) :
  regions_ok start endd G ∧
  (∀ size, word_request size →
     (∃ p h', kmalloc size h = Ok p h' ∧ G !! p = None) ∨
     kmalloc size h = Panic "can't allocate memory" h) ∧
  (∀ p n, G !! p = Some n → ∃ h', kfree p h = Ok tt h').
Proof.
  pose proof (heap_reachable_inv _ _ _ Hb Hr) as Hinv.
  split; [by apply (client_inv_regions _ _ _ Hb) in Hinv|]. split.
  - intros size Hreq. pose proof Hinv as (bs & Hrep & _). simpl in Hrep.
    pose proof (kmalloc_spec h bs size Hrep Hreq) as Hspec.
    destruct (alloc size bs) as [[off bs']|]; [left|by right].
    destruct Hspec as (m' & E & _). exists (heap_start h + off + 16), (set_mem h m').
    split; [done|]. by eapply client_inv_malloc.
  - intros p n Hp. destruct (client_inv_free _ _ _ _ _ _ Hinv Hp) as (m' & E & _). eauto.
Qed.

Lemma heap_client_safety_witness :
  regions_ok 4096 4160 (<[4112 := 8]> ∅) ∧
  (∃ h', kfree 4112 demo1 = Ok tt h').
Proof.
  destruct (heap_client_safety 4096 4160 demo1 (<[4112 := 8]> ∅) demo_bounds demo1_reachable)
    as (Hok & _ & Hfree).
  split; [exact Hok|]. apply (Hfree 4112 8), lookup_insert_eq.
Defined.

(** C4. Data integrity. Allocating or freeing never changes a byte of a region
    the client holds before and after the call. *)
Theorem heap_data_integrity (start endd : Z) (h h' : heap) (G G' : gmap Z Z)
    (Hb : heap_bounds start endd) (Hr : heap_reachable start endd (h, G))
    (Hop : (∃ size p, word_request size ∧ kmalloc size h = Ok p h' ∧ G' = <[p := size]> G) ∨
           (∃ p n, G !! p = Some n ∧ kfree p h = Ok tt h' ∧ G' = delete p G)) :
  ∀ q n x, G !! q = Some n → G' !! q = Some n → q ≤ x < q + n → hmem h' !! x = hmem h !! x.
Proof.
  pose proof (heap_reachable_inv _ _ _ Hb Hr) as Hinv. intros q n x Hq Hq' Hx.
  destruct Hop as [(size & p & Hreq & E & ->)|(p & k & Hp & E & ->)].
  - by eapply client_inv_malloc.
  - destruct (client_inv_free _ _ _ _ _ _ Hinv Hp) as (m' & E' & _ & Hfr).
    rewrite E in E'. injection E' as ->. by eapply Hfr.
Qed.

Lemma heap_data_integrity_witness :
  hmem (match kmalloc 8 demo1 with Ok _ h => h | _ => demo1 end) !! 4115 = hmem demo1 !! 4115.
Proof.
  apply (heap_data_integrity 4096 4160 demo1 _ (<[4112 := 8]> ∅) (<[4136 := 8]> (<[4112 := 8]> ∅))
    demo_bounds demo1_reachable) with (q := 4112) (n := 8).
  - left. exists 8, 4136. split; [split; done|]. split; [vm_compute; reflexivity|done].
  - apply lookup_insert_eq.
  - done.
  - lia.
Defined.

(** C5. No leak and no lasting fragmentation. Whenever a client has freed
    everything it allocated, the heap is again the single free block that
    [kheap_init] made. *)
Theorem heap_no_leak (start endd : Z) (h : heap)
    (Hb : heap_bounds start endd) (Hr : heap_reachable start endd (h, ∅)) :
  heap_repr h [Blk false (endd - start - SIZEOF_BLOCK)].
Proof.
  destruct (heap_reachable_inv _ _ _ Hb Hr) as (bs & Hrep & Hna & Hs & He & _ & HL). simpl in *.
  destruct (hr_end _ _ Hrep) as [Hend _].
  assert (live start bs = []) as Hl.
  { destruct (live start bs) as [|[p k] l] eqn:E; [done|].
    destruct (HL p k) as [n Hn]; [left|by rewrite lookup_empty in Hn]. }
  rewrite (all_free_single start bs (hr_nonempty _ _ Hrep) Hna Hl) in Hrep.
  unfold SIZEOF_BLOCK. replace (endd - start - 16) with (span bs - HDR); [done|].
  unfold HDR. lia.
Qed.

Lemma heap_no_leak_witness :
  heap_repr (match (let* p := kmalloc 8 in kfree p) demo_heap with Ok _ h => h | _ => demo_raw end)
    [Blk false (4160 - 4096 - SIZEOF_BLOCK)].
Proof.
  apply (heap_no_leak 4096 4160 _ demo_bounds).
  exists (demo_heap, ∅). split; [apply demo_boot|].
  eapply rtc_l; [eapply (client_malloc _ _ 8); [split; done|vm_compute; reflexivity]|].
  eapply rtc_l; [eapply client_free; [apply lookup_insert_eq|vm_compute; reflexivity]|].
  rewrite delete_insert_eq, delete_id by done. apply rtc_refl.
Defined.

(** C2. [kmalloc] refines first fit. On a heap that represents the row [bs] and for a request
    of words (a multiple of four, as every caller in the repository makes) or of a single
    byte, which has a branch of its own, it takes the first free block that is larger than
    the request, splits it as [carve] says, returns its payload and keeps every byte
    outside the heap and in the payloads in use. If no block fits, a request of words panics
    and the request of one byte returns null. After a request of words the heap represents
    the new row; after one of a byte the headers are those of the new row, but they are no
    longer aligned, and the theorems about the heap end there, as for the other sizes (see
    [kmalloc_unaligned_overrun]). *)
Theorem kmalloc_refines (h : heap) (bs : list blk) (size : Z)
    (Hr : heap_repr h bs) (Hs : size = 1 ∨ word_request size) :
  match alloc size bs with
  | Some (off, bs') =>
      ∃ h', kmalloc size h = Ok (heap_start h + off + SIZEOF_BLOCK) h' ∧
        (word_request size → heap_repr h' bs') ∧ seg (hmem h') 0 (heap_start h) bs' 0 ∧
        same_heap h h' (λ x, x < heap_start h ∨ heap_end h ≤ x ∨ in_live (heap_start h) bs x)
  | None => kmalloc size h = if size =? 1 then Ok 0 h else Panic "can't allocate memory" h
  end.
Proof.
  pose proof (kmalloc_any_spec h bs size Hr Hs) as H. destruct (alloc size bs) as [[off bs']|]; [|done].
  destruct H as (m' & E & Hr' & Hseg & Hf). exists (set_mem h m'). by split_and!.
Qed.

Lemma kmalloc_refines_witness :
  ∃ h', kmalloc 8 demo_heap = Ok 4112 h' ∧ heap_repr h' [Blk true 8; Blk false 24] ∧
    same_heap demo_heap h'
      (λ x, x < heap_start demo_heap ∨ heap_end demo_heap ≤ x ∨ in_live (heap_start demo_heap) [Blk false 48] x).
Proof.
  assert (word_request 8) as Hs by by split.
  pose proof (kmalloc_refines demo_heap [Blk false 48] 8 demo_repr (or_intror Hs)) as H.
  change (alloc 8 [Blk false 48]) with (Some (0, [Blk true 8; Blk false 24])) in H.
  destruct H as (h' & E & Hr & _ & Hk). exists h'. split; [exact E|]. split; [exact (Hr Hs)|exact Hk].
Defined.

(** C3. [kfree] refines freeing with coalescing. Freeing the payload of a used
    block merges it with its free neighbours, on both sides and in one call,
    and keeps every byte outside the heap and in the other payloads in use;
    [kfree_block] on the header does the same. *)
Theorem kfree_refines (h : heap) (l1 : list blk) (n : Z) (l2 : list blk)
    (Hr : heap_repr h (l1 ++ Blk true n :: l2)) :
  ∃ h', kfree (heap_start h + span l1 + SIZEOF_BLOCK) h = Ok tt h' ∧
    kfree_block (heap_start h + span l1) h = Ok tt h' ∧
    heap_repr h' (free l1 n l2) ∧
    same_heap h h' (λ x, x < heap_start h ∨ heap_end h ≤ x ∨ in_live (heap_start h) l1 x ∨
      in_live (heap_start h + span l1 + SIZEOF_BLOCK + n) l2 x).
Proof.
  destruct (kfree_spec h l1 n l2 Hr) as (m' & E & Hr' & Hf). exists (set_mem h m').
  split; [done|]. split; [|by split_and!]. rewrite <-E. unfold kfree, kfree_block, SIZEOF_BLOCK.
  destruct Hr as [_ _ [Hs _] [He Hm] _ _ Hw _]. apply word_sized_app in Hw as [Hw1 Hw2].
  apply word_sized_span in Hw1, Hw2. rewrite span_app in He.
  replace (heap_start h + span l1 + 16 - 16) with (heap_start h + span l1) by lia.
  by rewrite u32_small by lia.
Qed.

Lemma kfree_refines_witness :
  ∃ h1, kmalloc 8 demo_heap = Ok 4112 h1 ∧
    ∃ h', kfree (heap_start h1 + span [] + SIZEOF_BLOCK) h1 = Ok tt h' ∧
      heap_repr h' [Blk false 48].
Proof.
  destruct (kmalloc_spec demo_heap [Blk false 48] 8 demo_repr) as (m' & E & Hr & _); [split; done|].
  exists (set_mem demo_heap m'). split; [exact E|].
  destruct (kfree_refines (set_mem demo_heap m') [] 8 [Blk false 24] Hr) as (h' & E' & _ & Hr' & _).
  exists h'. split; [exact E'|exact Hr'].
Defined.

(** [kmalloc] then [kfree] is the identity on the heap's structure: freeing
    the pointer just returned restores the very row of blocks there was. *)
Theorem kmalloc_kfree_roundtrip (h h1 : heap) (bs : list blk) (size p : Z)
    (Hr : heap_repr h bs) (Hna : no_adjacent_free bs) (Hs : word_request size)
    (E : kmalloc size h = Ok p h1) :
  ∃ h2, kfree p h1 = Ok tt h2 ∧ heap_repr h2 bs.
Proof.
  pose proof (kmalloc_spec h bs size Hr Hs) as H.
  destruct (alloc size bs) as [[off bs']|] eqn:Ea; [|congruence].
  destruct H as (m' & E' & Hr' & _). rewrite E in E'. injection E' as -> ->.
  destruct (free_alloc _ _ _ _ Hna Ea) as (l1 & [u n] & l2 & -> & Hu & -> & <-). simpl in Hu. subst u.
  destruct (kfree_spec _ l1 n l2 Hr') as (m2 & E2 & Hr2 & _). simpl in *.
  rewrite E2. eauto.
Qed.

Lemma kmalloc_kfree_roundtrip_witness :
  ∃ h2, kfree 4112 (match kmalloc 8 demo_heap with Ok _ h => h | _ => demo_raw end) = Ok tt h2 ∧
    heap_repr h2 [Blk false 48].
Proof.
  apply (kmalloc_kfree_roundtrip demo_heap _ [Blk false 48] 8 4112 demo_repr I); [split; done|].
  vm_compute. reflexivity.
Defined.

(** Requests that are not a multiple of four break the heap. After
    [kmalloc(2)] the next block header is misaligned; [kmalloc_alligned] then
    builds a header over the old one without setting its [size], and the
    allocator hands out a region that ends beyond [heap_end]: here 100 bytes
    from a heap of 64. *)
Theorem kmalloc_unaligned_overrun :
  ∃ p h', (kheap_init 4096 4160 ;;; kmalloc 2 ;;; kmalloc 4 ;;; kmalloc 100)
            (mkHeap 0 0 0 0 (zeroes 4096 512)) = Ok p h' ∧
    heap_end h' = 4160 ∧ heap_end h' < p + 100.
Proof.
  assert (match (kheap_init 4096 4160 ;;; kmalloc 2 ;;; kmalloc 4 ;;; kmalloc 100)
            (mkHeap 0 0 0 0 (zeroes 4096 512)) with
          | Ok p h' => (heap_end h' =? 4160) && (heap_end h' <? p + 100)
          | _ => false end = true) as H by (vm_compute; reflexivity).
  destruct ((kheap_init 4096 4160 ;;; _) _) as [p h'| | |]; try done.
  apply andb_true_iff in H as [H1%Z.eqb_eq H2%Z.ltb_lt]. eauto.
Qed.

(** [kcalloc] returns a pointer that is 16 bytes too high: the region it
    hands out overlaps the header of the block that follows the one it took
    (its last 16 bytes are exactly that header), so filling it corrupts the
    heap, and memory is not cleared either. *)
Theorem kcalloc_overlaps_next_header (h : heap) (bs : list blk) (nmemb size off : Z)
    (l1 : list blk) (k : Z) (l2 : list blk)
    (Hr : heap_repr h bs) (Hnz : 0 < nmemb ∧ 0 < size) (Hs : word_request (size * nmemb))
    (Ha : alloc (size * nmemb) bs = Some (off, l1 ++ Blk true (size * nmemb) :: Blk false k :: l2))
    (Hoff : off = span l1) :
  ∃ r h', kcalloc nmemb size h = Ok r h' ∧
    header (hmem h') (r + size * nmemb - SIZEOF_BLOCK) false
      (r - 2 * SIZEOF_BLOCK) (rd32 (hmem h') (r + size * nmemb - SIZEOF_BLOCK + 8)) k.
Proof.
  pose proof (kmalloc_spec h bs (size * nmemb) Hr Hs) as H. rewrite Ha in H.
  destruct H as (m' & E & Hr' & _). unfold kcalloc.
  rewrite !(proj2 (Z.eqb_neq _ 0)) by lia. simpl. rewrite u32_small by apply Hs.
  rewrite (bind_ok _ _ _ _ _ E). eexists _, _. split; [done|].
  destruct Hr' as [_ _ [Hst _] [Hen Hmx] _ _ Hw Hseg]. simpl in *.
  apply seg_mid in Hseg as [_ [_ [(H0 & H4 & _ & H12) _]]]. subst off.
  apply word_sized_app in Hw as [Hw1 [? [[? _] Hw2]%Forall_cons]%Forall_cons].
  apply word_sized_span in Hw1, Hw2.
  rewrite span_app in Hen. simpl in *. unfold HDR, SIZEOF_BLOCK in *.
  rewrite u32_small by lia.
  replace (heap_start h + span l1 + 16 + 16 + size * nmemb - 16)
    with (heap_start h + span l1 + 16 + size * nmemb) by lia.
  split_and!; auto. rewrite H4. lia.
Qed.

Lemma kcalloc_overlaps_next_header_witness :
  ∃ r h', kcalloc 2 4 demo_heap = Ok r h' ∧
    header (hmem h') (r + 4 * 2 - SIZEOF_BLOCK) false
      (r - 2 * SIZEOF_BLOCK) (rd32 (hmem h') (r + 4 * 2 - SIZEOF_BLOCK + 8)) 24.
Proof.
  apply (kcalloc_overlaps_next_header demo_heap [Blk false 48] 2 4 0 [] 24 [] demo_repr).
  - lia.
  - split; done.
  - reflexivity.
  - reflexivity.
Defined.
