(* ===== verification/HeapReuse.v ===== *)
(** * What freed memory still holds (src/mm/heap.c)

    Neither [kmalloc] nor [kfree] touches the bytes of the region it hands out or takes
    back: on a heap with one free block, a region that is freed and allocated again comes
    back at the same address with what its last owner left in it. *)

From S2P Require Import Prelude Memory Common HeapSpec Heap.

(** The whole effect of allocating from the free block behind blocks in use: its header
    and the header of what is left of it are written, nothing else. *)
Lemma alloc_last size l n :
  Forall (λ b, b_used b = true) l → size + 17 ≤ n →
  alloc size (l ++ [Blk false n]) = Some (span l, l ++ [Blk true size; Blk false (n - size - 16)]).
Proof.
  intros Hl Hn. induction Hl as [|b l Hb Hl IH]; cbn [app alloc span].
  - cbn [b_used b_size negb andb]. rewrite (proj2 (Z.ltb_lt size n)) by lia. unfold carve, HDR. cbn [b_size].
    by rewrite (proj2 (Z.leb_le _ _)) by lia.
  - rewrite Hb. cbn [negb andb]. by rewrite IH.
Qed.

Lemma kmalloc_last h l n size :
  heap_repr h (l ++ [Blk false n]) → Forall (λ b, b_used b = true) l → word_request size → size + 17 ≤ n →
  let p := heap_start h + span l + 16 in
  ∃ m', kmalloc size h = Ok p (set_mem h m') ∧
    heap_repr (set_mem h m') (l ++ [Blk true size; Blk false (n - size - 16)]) ∧
    (bytes_ok (hmem h) → bytes_ok m') ∧
    ∀ x, x < p - 16 ∨ p ≤ x < p + size ∨ p + size + 16 ≤ x → m' !! x = hmem h !! x.
Proof.
  intros Hr Hl Hreq Hn p. pose proof (kmalloc_spec h _ size Hr Hreq) as Hs. rewrite alloc_last in Hs by done.
  destruct Hs as (m' & E & Hr' & _). exists m'. split; [done|]. split; [done|].
  (* the same run again, for the bytes it writes *)
  assert (∃ m2, kmalloc size h = Ok p (set_mem h m2) ∧ (bytes_ok (hmem h) → bytes_ok m2) ∧
    ∀ x, x < p - 16 ∨ p ≤ x < p + size ∨ p + size + 16 ≤ x → m2 !! x = hmem h !! x) as (m2 & E2 & H2);
    [|unfold p in E2; rewrite E in E2; by injection E2 as <-].
  clear E Hr' m'. pose proof Hr as [Hf Hhs [Hs0 Hs4] [Hend Hmax] Hm Hne Hw Hseg]. destruct Hreq as [Hsz Hmod].
  unfold kmalloc. rewrite (proj2 (Z.eqb_neq size 1)) by (intros ->; by vm_compute in Hmod).
  cbn [negb]. unfold kmalloc_alligned.
  set (a := heap_start h + span l) in *.
  assert (alligned_loop (walk_fuel h) size 4 (first h) 0 h = Ok a h) as E.
  { rewrite Hf. replace (heap_start h) with (row_ptr (heap_start h) (l ++ [Blk false n])) at 1 by (by destruct l).
    rewrite (alligned_search h 0 (heap_start h) (l ++ [Blk false n]) size); [by rewrite alloc_last|lia|done|lia|done|lia| |done|by apply row_length_fuel].
    by replace (span (l ++ [Blk false n])) with (heap_end h - heap_start h) by lia. }
  apply word_sized_app in Hw as [Hw _]. apply word_sized_nonneg, span_nonneg in Hw.
  rewrite bind_get, (bind_ok _ _ _ _ _ E), (proj2 (Z.eqb_neq _ 0)) by lia.
  apply seg_mid in Hseg as [_ [(H0 & H4 & H8 & H12) _]]. fold a in H0, H4, H8, H12.
  rewrite span_app in Hend. cbn [b_size b_used span] in *. unfold HDR in *.
  assert (mapped (hmem h) a (16 + n)) as Hma by (eapply mapped_sub; [exact Hm|lia|lia]).
  unfold split_block, SIZEOF_BLOCK. rewrite !bind_assoc. hstep.
  rewrite H12, Z.geb_leb, (u32_small (size + 16 + 1)), (proj2 (Z.leb_le _ _)) by lia. cbn [when].
  rewrite (u32_small (a + 16 + size)) by lia. do 7 (hstep; hread; rewrite ?H8, ?H12, ?(u32_small (n - size - 16)) by lia).
  change (truth 0) with false. cbn [when]. do 3 hstep. rewrite (u32_small (a + 16)) by lia.
  eexists. split; [reflexivity|]. split; [eauto 20 with kernel|]. intros x Hx. unfold p in Hx. wr_other.
Qed.

(** Freeing the first block of a heap of which the rest is free. *)
Lemma kfree_first h n k :
  heap_repr h [Blk true n; Blk false k] →
  let p := heap_start h + 16 in
  ∃ m', kfree p h = Ok tt (set_mem h m') ∧ heap_repr (set_mem h m') [Blk false (n + (16 + k))] ∧
    (bytes_ok (hmem h) → bytes_ok m') ∧ ∀ x, x < p - 16 ∨ p ≤ x → m' !! x = hmem h !! x.
Proof.
  intros Hr p. destruct (kfree_spec h [] n [Blk false k] Hr) as (m' & E & Hr' & _).
  cbn [span] in E. rewrite Z.add_0_r in E. exists m'. split; [done|]. split; [done|].
  assert (∃ m2, kfree p h = Ok tt (set_mem h m2) ∧ (bytes_ok (hmem h) → bytes_ok m2) ∧
    ∀ x, x < p - 16 ∨ p ≤ x → m2 !! x = hmem h !! x) as (m2 & E2 & H2);
    [|unfold p in E2; rewrite E in E2; by injection E2 as <-].
  clear E Hr'. pose proof Hr as [Hf Hhs [Hs0 Hs4] [Hend Hmax] Hm Hne Hw Hseg].
  apply word_sized_nonneg in Hw. apply Forall_cons in Hw as [Hn Hw]. apply Forall_cons in Hw as [Hk _].
  destruct Hseg as [(H0 & H4 & H8 & H12) [(G0 & G4 & G8 & G12) _]]. cbn [b_size b_used span] in *. unfold HDR in *.
  set (a := heap_start h) in *.
  assert (mapped (hmem h) a (16 + n + (16 + k))) as Hma by (by replace (16 + n + (16 + k)) with (heap_end h - a) by lia).
  unfold kfree, merge_prev, merge_next, SIZEOF_BLOCK, p.
  replace (u32 (a + 16 - 16)) with a by (rewrite u32_small; lia).
  do 2 (hstep; hread; rewrite ?H4). change (truth 0) with false. cbn [andb]. cbv iota.
  hstep. hread. rewrite H8, truth_true by lia. cbn [andb]. hstep. hread. rewrite G0. cbn [b2z Z.eqb when].
  do 6 (hstep; hread; rewrite ?H8, ?H12, ?G12, ?G8, ?(u32_small (16 + k)), ?(u32_small (n + (16 + k))) by lia).
  change (truth 0) with false. cbn [when].
  eexists. split; [reflexivity|]. split; [eauto 20 with kernel|]. intros x Hx. wr_other.
Qed.

(** The payload of the first block. *)
Lemma first_payload h u n l :
  heap_repr h (Blk u n :: l) →
  0 < heap_start h ∧ 0 ≤ n ∧ heap_start h + 16 + n < 4294967296 ∧ mapped (hmem h) (heap_start h + 16) n.
Proof.
  intros [_ _ [Hs _] [Hend Hmax] Hm _ Hw _]. apply word_sized_nonneg, Forall_cons in Hw as [Hn Hl].
  pose proof (span_nonneg l Hl). cbn [span b_size] in *. unfold HDR in *. split_and!; [lia..|].
  eapply mapped_sub; [exact Hm|lia|lia].
Qed.

(** [kheap_init] clears the heap: behind the header there are only zeros. *)
Lemma kheap_init_memory start endd h h' :
  heap_bounds start endd → mapped (hmem h) start (endd - start) → kheap_init start endd h = Ok tt h' →
  (bytes_ok (hmem h) → bytes_ok (hmem h')) ∧ ∀ x, start + 16 ≤ x < endd → hmem h' !! x = Some 0.
Proof.
  unfold heap_bounds, SIZEOF_BLOCK. intros (H1 & H2 & H3 & H4) Hm.
  unfold kheap_init, SIZEOF_BLOCK. rewrite bind_modify, bind_get. simpl. rewrite (u32_small (endd - start)) by lia.
  destruct (memset_ok start 0 (endd - start) (hmem h)) as (m' & E & Hm'); [done|lia..|].
  assert (mapped m' start (endd - start)) as Hmm.
  { intros x Hx. rewrite (Hm' x). rewrite decide_True by lia. eauto. }
  unfold on_mem at 1, zoom at 1, bind at 1. simpl. rewrite E. unfold bind at 1 2. simpl.
  set (h1 := mkHeap start endd (endd - start) start m'). change m' with (hmem h1) in Hmm.
  do 4 hstep. rewrite (u32_small (endd - start - 16)) by lia. intros [= <-]. simpl. split.
  - intros Hb. assert (bytes_ok m') as Hb'; [|eauto 20 with kernel].
    intros x v Hx. rewrite (Hm' x) in Hx. case_decide; [by injection Hx as <-|by apply (Hb x)].
  - intros x Hx. rewrite !wr32_other, wr8_other by lia. by rewrite (Hm' x), decide_True by lia.
Qed.
