(* ===== verification/Frame.v ===== *)
(** * The page frame allocator (src/mm/frame.c)

    A bitmap of 0x2000 words of 32 bits, one bit per 4 KiB frame.  The
    allocator looks for the first index [i] whose word shifted right by
    [i % 32] is zero, so within a word it only ever allocates above the highest
    frame in use: the reachable bitmaps are those whose words are of the form
    [2^k - 1], and the abstract state is the list of these fill counts, one per
    group of 32 frames.  The scan runs with one unit of fuel per bit of the map
    and one more; past the map the access is out of range, a [Fault]. *)

From S2P Require Import Prelude.

(** ** State *)

Record frames := mkFrames { frame_map : list Z; nframes : Z }.
Definition set_frame_map (s : frames) (l : list Z) : frames := mkFrames l (nframes s).

(** [uint32_t frame_map[0x2000]] *)
Definition FRAME_WORDS : nat := Z.to_nat 8192.
Definition PAGE_SIZE : Z := 4096.

Definition ld_word (k : Z) : M frames Z := λ s, of_option (frame_map s !! Z.to_nat k) s.
Definition st_word (k v : Z) : M frames unit := λ s,
  if bool_decide (Z.to_nat k < length (frame_map s))%nat
  then Ok tt (set_frame_map s (<[Z.to_nat k := v]> (frame_map s))) else Fault.

(** ** Operations *)

Fixpoint kalloc_scan (fuel : nat) (i : Z) : M frames Z :=
  match fuel with
  | O => timeout
  | S f =>
      let* w := ld_word (i / 32) in
      if truth (Z.shiftr w (i mod 32)) then
        let* n := gets nframes in
        if i =? u32 (n - 1) then kpanic "Ran out of page frames"
        else kalloc_scan f (u32 (i + 1))
      else ret i
  end.

Definition kalloc_frame : M frames Z := λ s,
  (let* i := kalloc_scan (S (32 * length (frame_map s))) 0 in
   (let* w := ld_word (i / 32) in st_word (i / 32) (Z.lor w (u32 (Z.shiftl 1 (i mod 32))))) ;;;
   ret (u32 (i * PAGE_SIZE))) s.

(** The shift count of the last line is the number of the frame, which can be 32 or more:
    the shift is the processor's, of which 0 is 0 whatever the count. *)
Definition kfree_frame (frame : Z) : M frames unit :=
  let frame := frame / PAGE_SIZE in
  let* n := gets nframes in
  if frame >=? n then kpanic "Tried to free a non-existant frame" else
  let* w := ld_word (frame / 32) in
  st_word (frame / 32) (Z.land w (shl32 0 frame)).

(** [memset(frame_map, 0, count)] on an array of little-endian words. *)
Definition clear_bytes (count : Z) (l : list Z) : list Z :=
  imap (λ j w, if 4 * (j + 1) <=? count then 0
               else if 4 * j <=? count then w - w mod 2 ^ (8 * (count - 4 * j)) else w) l.
Definition memset_frame_map (count : Z) : M frames unit := λ s,
  if count <=? 4 * length (frame_map s)
  then Ok tt (set_frame_map s (clear_bytes count (frame_map s))) else Fault.

Definition first_free_frame (end_kernel : Z) : Z := u32 (Z.land end_kernel 0x00FFF000 + 0x1000).

Definition init_frames (end_kernel mem_size : Z) : M frames unit :=
  modify (λ s, mkFrames (frame_map s) (mem_size / 4)) ;;;
  let* n := gets nframes in
  memset_frame_map (n / 8) ;;;
  for_each (seqZ 0 (first_free_frame end_kernel / 0x1000)) (λ _, kalloc_frame ;;; ret tt).

(** Allocating [n] frames in a row. *)
Fixpoint kalloc_frames (n : nat) : M frames (list Z) :=
  match n with
  | O => ret []
  | S n => let* f := kalloc_frame in let* l := kalloc_frames n in ret (f :: l)
  end.

(** ** Abstract allocator: fill counts of the groups of 32 frames *)

Fixpoint galloc (ks : list Z) : option (Z * list Z) :=
  match ks with
  | [] => None
  | k :: r =>
      if k <? 32 then Some (k, (k + 1) :: r)
      else match galloc r with Some (i, r') => Some (32 + i, k :: r') | None => None end
  end.
Definition gfree (f : Z) (ks : list Z) : list Z := <[Z.to_nat (f / 32) := 0]> ks.

(** Frame number [i] is in use. *)
Definition in_use (ks : list Z) (i : Z) : Prop :=
  0 ≤ i ∧ ∃ k, ks !! Z.to_nat (i / 32) = Some k ∧ i mod 32 < k.

Record frames_repr (s : frames) (ks : list Z) : Prop := {
  fr_map : frame_map s = Z.ones <$> ks;
  fr_counts : Forall (λ k, 0 ≤ k ≤ 32) ks;
  fr_len : length ks = FRAME_WORDS;
  fr_n : 0 < nframes s ≤ 32 * length ks }.

(** The fill counts when exactly the frames below [n] are in use. *)
Definition prefix_counts (n : Z) : list Z :=
  (λ j, Z.min 32 (Z.max 0 (n - 32 * j))) <$> seqZ 0 FRAME_WORDS.

(** ** Lemmas *)

Lemma galloc_inv ks i ks' :
  galloc ks = Some (i, ks') → Forall (λ k, 0 ≤ k ≤ 32) ks →
  ∃ k, ks !! Z.to_nat (i / 32) = Some k ∧ k = i mod 32 ∧ 0 ≤ i < 32 * length ks ∧
    ks' = <[Z.to_nat (i / 32) := k + 1]> ks ∧
    (∀ j, 0 ≤ j < i → in_use ks j).
Proof.
  revert i ks'. induction ks as [|k ks IH]; intros i ks' H Hb; [done|]. simpl in H.
  apply Forall_cons in Hb as [Hk Hb]. destruct (Z.ltb_spec k 32).
  - injection H as <- <-. exists k. rewrite Z.div_small, Z.mod_small by lia. simpl.
    split_and!; try done; try lia. intros j Hj. split; [lia|]. exists k.
    rewrite Z.div_small, Z.mod_small by lia. split; [done|lia].
  - assert (k = 32) as -> by lia. destruct (galloc ks) as [[i0 r]|]; [|done].
    injection H as <- <-. destruct (IH i0 r eq_refl Hb) as (k & Hl & Hm & Hr & -> & Hu).
    exists k. assert (Z.to_nat ((32 + i0) / 32) = S (Z.to_nat (i0 / 32))) as -> by word_lia.
    simpl. split_and!; try done; [word_lia|lia|lia|].
    intros j Hj. destruct (Z.ltb_spec j 32).
    + split; [lia|]. exists 32. rewrite Z.div_small, Z.mod_small by lia. split; [done|lia].
    + destruct (Hu (j - 32)) as (_ & c & Hc & Hjc); [lia|]. split; [lia|]. exists c.
      assert (Z.to_nat (j / 32) = S (Z.to_nat ((j - 32) / 32))) as -> by word_lia.
      split; [done|word_lia].
Qed.

Lemma galloc_none ks i :
  galloc ks = None → Forall (λ k, 0 ≤ k ≤ 32) ks → 0 ≤ i < 32 * length ks → in_use ks i.
Proof.
  revert i. induction ks as [|k ks IH]; intros i H Hb Hi; simpl in *; [lia|].
  apply Forall_cons in Hb as [Hk Hb]. destruct (Z.ltb_spec k 32); [done|].
  assert (k = 32) as -> by lia. destruct (galloc ks) as [[??]|]; [done|].
  split; [lia|]. destruct (Z.ltb_spec i 32).
  - exists 32. rewrite Z.div_small, Z.mod_small by lia. split; [done|lia].
  - destruct (IH (i - 32) eq_refl Hb) as (_ & c & Hc & Hic); [lia|]. exists c.
    assert (Z.to_nat (i / 32) = S (Z.to_nat ((i - 32) / 32))) as -> by word_lia.
    split; [done|word_lia].
Qed.

Lemma shiftr_ones k r : 0 ≤ r → 0 ≤ k → truth (Z.shiftr (Z.ones k) r) = bool_decide (r < k).
Proof.
  intros. rewrite Z.shiftr_div_pow2, Z.ones_equiv by lia. unfold truth.
  assert (0 < 2 ^ k) by (apply Z.pow_pos_nonneg; lia).
  case_bool_decide.
  - replace k with ((k - r) + r) by lia. rewrite Z.pow_add_r by lia.
    assert (2 ^ 1 ≤ 2 ^ (k - r)) by (apply Z.pow_le_mono_r; lia).
    assert (0 < 2 ^ r) by (apply Z.pow_pos_nonneg; lia).
    assert (1 ≤ Z.pred (2 ^ (k - r) * 2 ^ r) / 2 ^ r) by (apply Z.div_le_lower_bound; nia).
    destruct (Z.eqb_spec (Z.pred (2 ^ (k - r) * 2 ^ r) / 2 ^ r) 0); lia || done.
  - assert (2 ^ k ≤ 2 ^ r) by (apply Z.pow_le_mono_r; lia).
    by rewrite Z.div_small by lia.
Qed.

Lemma set_next_bit k : 0 ≤ k < 32 → Z.lor (Z.ones k) (u32 (Z.shiftl 1 k)) = Z.ones (k + 1).
Proof.
  intros Hk. rewrite Z.shiftl_1_l, u32_small.
  - apply Z.bits_inj'. intros n Hn. rewrite Z.lor_spec, !Z.testbit_ones_nonneg, Z.pow2_bits_eqb by lia.
    destruct (Z.ltb_spec n k), (Z.eqb_spec k n), (Z.ltb_spec n (k + 1)); done || lia.
  - split; [apply Z.pow_nonneg; lia|]. change 4294967296 with (2 ^ 32). apply Z.pow_lt_mono_r; lia.
Qed.

Section with_repr.
Context (s : frames) (ks : list Z) (Hr : frames_repr s ks).

Lemma ld_word_repr i k :
  ks !! Z.to_nat i = Some k → ld_word i s = Ok (Z.ones k) s.
Proof using Hr. intros H. unfold ld_word. by rewrite (fr_map _ _ Hr), list_lookup_fmap, H. Qed.

Lemma st_word_repr i v :
  (Z.to_nat i < length ks)%nat → st_word i v s = Ok tt (set_frame_map s (<[Z.to_nat i := v]> (frame_map s))).
Proof using Hr.
  intros H. unfold st_word. rewrite bool_decide_eq_true_2; [done|].
  by rewrite (fr_map _ _ Hr), length_fmap.
Qed.

(** The scan goes over frames in use and stops at the last frame that exists. *)
Lemma kalloc_scan_repr fuel i stop :
  (∀ j, 0 ≤ j < stop → in_use ks j) → 0 ≤ i ≤ stop → i < nframes s →
  stop - i < Z.of_nat fuel → nframes s - i ≤ Z.of_nat fuel →
  (stop < nframes s → ∃ k, ks !! Z.to_nat (stop / 32) = Some k ∧ k = stop mod 32) →
  kalloc_scan fuel i s =
    if stop <? nframes s then Ok stop s else Panic "Ran out of page frames" s.
Proof using Hr.
  intros Hu. pose proof (fr_n _ _ Hr) as Hn. pose proof (fr_len _ _ Hr) as Hlen.
  unfold FRAME_WORDS in Hlen. revert i. induction fuel as [|fuel IH]; intros i Hi Hin Hf1 Hf2 Hs; [lia|].
  cbn [kalloc_scan]. destruct (decide (i = stop)) as [->|Hne].
  - destruct Hs as (k & Hk & Hmod); [lia|]. rewrite (bind_ok _ _ _ _ _ (ld_word_repr _ _ Hk)).
    rewrite shiftr_ones, bool_decide_eq_false_2 by word_lia.
    by rewrite (proj2 (Z.ltb_lt _ _)) by lia.
  - destruct (Hu i) as (_ & k & Hk & Hmod); [lia|]. rewrite (bind_ok _ _ _ _ _ (ld_word_repr _ _ Hk)).
    rewrite shiftr_ones, bool_decide_eq_true_2 by word_lia. rewrite bind_gets.
    rewrite (u32_small (nframes s - 1)) by lia. destruct (Z.eqb_spec i (nframes s - 1)).
    + by rewrite (proj2 (Z.ltb_ge _ _)) by lia.
    + rewrite u32_small by lia. apply IH; auto with lia.
Qed.

Lemma kalloc_frame_spec :
  match galloc ks with
  | Some (i, ks') =>
      if i <? nframes s
      then kalloc_frame s = Ok (i * PAGE_SIZE) (set_frame_map s (Z.ones <$> ks')) ∧
           frames_repr (set_frame_map s (Z.ones <$> ks')) ks'
      else kalloc_frame s = Panic "Ran out of page frames" s
  | None => kalloc_frame s = Panic "Ran out of page frames" s
  end.
Proof using Hr.
  pose proof (fr_n _ _ Hr) as Hn. pose proof (fr_len _ _ Hr) as Hlen.
  pose proof (fr_counts _ _ Hr) as Hc. unfold FRAME_WORDS in Hlen.
  assert (length (frame_map s) = length ks) as Hlm by (by rewrite (fr_map _ _ Hr), length_fmap).
  unfold kalloc_frame. rewrite Hlm. destruct (galloc ks) as [[i ks']|] eqn:Eg.
  - destruct (galloc_inv _ _ _ Eg Hc) as (k & Hk & Hm & Hi & -> & Hu).
    pose proof (kalloc_scan_repr (S (32 * length ks)) 0 i Hu) as Hscan.
    assert (kalloc_scan (S (32 * length ks)) 0 s =
            if i <? nframes s then Ok i s else Panic "Ran out of page frames" s) as Hscan'.
    { apply Hscan; [lia..|eauto]. }
    clear Hscan. rename Hscan' into Hscan.
    destruct (Z.ltb_spec i (nframes s)).
    + rewrite (bind_ok _ _ _ _ _ Hscan), bind_assoc, (bind_ok _ _ _ _ _ (ld_word_repr _ _ Hk)).
      rewrite (bind_ok _ _ _ _ _ (st_word_repr _ _ (lookup_lt_Some _ _ _ Hk))).
      rewrite Hm, set_next_bit by word_lia. rewrite (fr_map _ _ Hr), <-list_fmap_insert.
      unfold PAGE_SIZE. rewrite u32_small by lia. split; [done|]. constructor; simpl.
      * done.
      * apply Forall_insert; [done|word_lia].
      * by rewrite length_insert.
      * by rewrite length_insert.
    + by rewrite (bind_panic _ _ _ _ _ Hscan).
  - pose proof (kalloc_scan_repr (S (32 * length ks)) 0 (nframes s)) as Hscan.
    rewrite Z.ltb_irrefl in Hscan. erewrite bind_panic; [done|]. apply Hscan; try lia.
    intros j Hj. apply galloc_none; auto with lia.
Qed.
End with_repr.

Lemma in_use_galloc ks i ks' j :
  galloc ks = Some (i, ks') → Forall (λ k, 0 ≤ k ≤ 32) ks →
  in_use ks' j ↔ in_use ks j ∨ j = i.
Proof.
  intros H Hb. destruct (galloc_inv _ _ _ H Hb) as (k & Hk & Hm & Hi & -> & _).
  pose proof (lookup_lt_Some _ _ _ Hk). unfold in_use. split.
  - intros (Hj & c & Hc & Hlt). apply list_lookup_insert_Some in Hc as [(E & <- & _)|[Hne Hc]].
    + destruct (decide (j = i)) as [|Hne]; [by right|left]. split; [done|].
      exists k. rewrite <-E. split; [done|]. word_lia.
    + left. eauto.
  - intros [(Hj & c & Hc & Hlt)| ->].
    + split; [done|]. destruct (decide (Z.to_nat (i / 32) = Z.to_nat (j / 32))) as [E|Hne].
      * exists (k + 1). rewrite <-E, list_lookup_insert_eq by done. split; [done|].
        rewrite <-E in Hc. rewrite Hk in Hc. injection Hc as ->. lia.
      * exists c. by rewrite list_lookup_insert_ne.
    + split; [lia|]. exists (k + 1). rewrite list_lookup_insert_eq by done. split; [done|lia].
Qed.

Lemma galloc_fresh ks i ks' :
  galloc ks = Some (i, ks') → Forall (λ k, 0 ≤ k ≤ 32) ks → ¬ in_use ks i.
Proof.
  intros H Hb (_ & c & Hc & Hlt). destruct (galloc_inv _ _ _ H Hb) as (k & Hk & Hm & _).
  rewrite Hk in Hc. injection Hc as ->. lia.
Qed.

Lemma kalloc_frames_spec n s ks l s' :
  frames_repr s ks → kalloc_frames n s = Ok l s' →
  NoDup l ∧ (∀ f, f ∈ l → ∃ i, f = i * PAGE_SIZE ∧ 0 ≤ i < nframes s ∧ ¬ in_use ks i) ∧
  ∃ ks', frames_repr s' ks'.
Proof.
  revert s ks l. induction n as [|n IH]; intros s ks l Hr E.
  - injection E as <- <-. split_and!; [constructor|by intros f ?%elem_of_nil|eauto].
  - cbn [kalloc_frames] in E. pose proof (kalloc_frame_spec s ks Hr) as Hspec.
    destruct (galloc ks) as [[i ks']|] eqn:Eg; [|by rewrite (bind_panic _ _ _ _ _ Hspec) in E].
    destruct (Z.ltb_spec i (nframes s)); [|by rewrite (bind_panic _ _ _ _ _ Hspec) in E].
    destruct Hspec as [E1 Hr1]. rewrite (bind_ok _ _ _ _ _ E1) in E.
    apply bind_inv_ok in E as (l' & s1 & E2 & E). injection E as <- <-.
    destruct (IH _ _ _ Hr1 E2) as (Hnd & Hf & Hex). pose proof (fr_counts _ _ Hr) as Hc.
    destruct (galloc_inv _ _ _ Eg Hc) as (k & _ & _ & Hi & _).
    split_and!; [|intros f [-> |Hin]%elem_of_cons|done].
    + constructor; [|done]. intros Hin. destruct (Hf _ Hin) as (j & Ej & _ & Hj). apply Hj.
      eapply in_use_galloc; eauto. right. unfold PAGE_SIZE in *. lia.
    + exists i. split; [done|]. split; [lia|]. by eapply galloc_fresh.
    + destruct (Hf _ Hin) as (j & Ej & Hj & Hju). exists j. split; [done|]. split; [done|].
      intros Hu. apply Hju. eapply in_use_galloc; eauto.
Qed.

(** ** Lemmas: the bump state *)

Lemma prefix_counts_lookup n j :
  (j < FRAME_WORDS)%nat → prefix_counts n !! j = Some (Z.min 32 (Z.max 0 (n - 32 * j))).
Proof.
  intros. unfold prefix_counts. rewrite list_lookup_fmap, lookup_seqZ_lt by lia. simpl. f_equal.
Qed.

Lemma prefix_counts_length n : length (prefix_counts n) = FRAME_WORDS.
Proof. unfold prefix_counts. rewrite length_fmap, length_seqZ. lia. Qed.

Lemma in_use_prefix n i : 0 ≤ n ≤ 262144 → in_use (prefix_counts n) i ↔ 0 ≤ i < n.
Proof.
  intros Hn. unfold in_use. split.
  - intros (Hi & k & Hk & Hlt). pose proof (lookup_lt_Some _ _ _ Hk) as Hl.
    rewrite prefix_counts_length in Hl. rewrite prefix_counts_lookup in Hk by done.
    injection Hk as <-. word_lia.
  - intros Hi. split; [lia|]. eexists. rewrite prefix_counts_lookup; [split; [done|word_lia]|].
    unfold FRAME_WORDS. word_lia.
Qed.

Lemma prefix_counts_bounds n : Forall (λ k, 0 ≤ k ≤ 32) (prefix_counts n).
Proof. unfold prefix_counts. apply Forall_fmap, Forall_forall. intros x _. simpl. lia. Qed.

Lemma galloc_prefix n :
  0 ≤ n < 262144 → galloc (prefix_counts n) = Some (n, prefix_counts (n + 1)).
Proof.
  intros Hn. pose proof (prefix_counts_bounds n) as Hb.
  destruct (galloc (prefix_counts n)) as [[i ks']|] eqn:Eg.
  - destruct (galloc_inv _ _ _ Eg Hb) as (k & Hk & Hm & Hi & -> & Hu).
    assert (i = n) as ->.
    { pose proof (galloc_fresh _ _ _ Eg Hb) as Hf. rewrite in_use_prefix in Hf by lia.
      destruct (decide (n < i)); [|lia]. specialize (Hu n ltac:(lia)).
      rewrite in_use_prefix in Hu by lia. lia. }
    do 2 f_equal. apply list_eq. intros j.
    destruct (decide (j < FRAME_WORDS)%nat) as [Hj|Hj].
    + rewrite prefix_counts_lookup by done.
      destruct (decide (Z.to_nat (n / 32) = j)) as [<-|Hne].
      * rewrite list_lookup_insert_eq by (by rewrite prefix_counts_length).
        f_equal. subst k. word_lia.
      * rewrite list_lookup_insert_ne, prefix_counts_lookup by done. f_equal. word_lia.
    + assert (FRAME_WORDS ≤ j)%nat as Hge by lia.
      trans (@None Z); [|symmetry]; apply lookup_ge_None_2;
        [rewrite length_insert|]; by rewrite prefix_counts_length.
  - assert (in_use (prefix_counts n) n) as Hu.
    { apply galloc_none; [done..|rewrite prefix_counts_length; unfold FRAME_WORDS; lia]. }
    rewrite in_use_prefix in Hu by lia. lia.
Qed.

(** Exactly the frames below [n] are in use. *)
Definition frames_bump (s : frames) (n : Z) : Prop :=
  frames_repr s (prefix_counts n) ∧ 0 ≤ n ≤ nframes s.

Lemma kalloc_frame_bump s n :
  frames_bump s n → n < nframes s →
  ∃ s', kalloc_frame s = Ok (n * PAGE_SIZE) s' ∧ frames_bump s' (n + 1) ∧ nframes s' = nframes s.
Proof.
  intros [Hr Hn] Hlt. pose proof (fr_n _ _ Hr) as Hfn. rewrite prefix_counts_length in Hfn.
  unfold FRAME_WORDS in Hfn. pose proof (kalloc_frame_spec _ _ Hr) as Hs.
  rewrite galloc_prefix in Hs by lia. rewrite (proj2 (Z.ltb_lt _ _) Hlt) in Hs.
  destruct Hs as [E Hr']. eexists. split; [done|]. split; [|done]. split; [done|simpl; lia].
Qed.

Lemma clear_bytes_zero count l :
  Forall (λ w, w = 0) l → clear_bytes count l = l.
Proof.
  intros H. unfold clear_bytes. apply list_eq. intros j. rewrite list_lookup_imap.
  destruct (l !! j) as [w|] eqn:E; simpl; [|done].
  rewrite (proj1 (Forall_lookup _ _) H _ _ E), Zmod_0_l. by repeat case_match.
Qed.

Lemma init_loop l s n :
  frames_bump s n → n + length l ≤ nframes s →
  ∃ s', for_each (A:=Z) l (λ _, kalloc_frame ;;; ret tt) s = Ok tt s' ∧
    frames_bump s' (n + length l) ∧ nframes s' = nframes s.
Proof.
  revert s n. induction l as [|x l IH]; intros s n Hb Hl; simpl in *.
  - exists s. rewrite Z.add_0_r. done.
  - destruct (kalloc_frame_bump s n Hb) as (s1 & E & Hb1 & Hn1); [lia|].
    rewrite bind_assoc, (bind_ok _ _ _ _ _ E).
    destruct (IH s1 (n + 1) Hb1) as (s' & E' & Hb' & Hn'); [lia|].
    exists s'. rewrite bind_ret_l. split; [done|]. split; [|congruence].
    by replace (n + S (length l)) with (n + 1 + length l) by lia.
Qed.

Lemma galloc_first ks g k :
  (∀ j, (j < g)%nat → ks !! j = Some 32) → ks !! g = Some k → k < 32 →
  galloc ks = Some (32 * g + k, <[g := k + 1]> ks).
Proof.
  revert g. induction ks as [|c ks IH]; intros g Hfull Hg Hk; [done|].
  destruct g as [|g]; simpl in *.
  - injection Hg as ->. by rewrite (proj2 (Z.ltb_lt _ _) Hk).
  - assert (c = 32) as -> by (specialize (Hfull 0%nat ltac:(lia)); by injection Hfull).
    simpl. rewrite (IH g); [do 2 f_equal; lia| |done..].
    intros j Hj. apply (Hfull (S j)). lia.
Qed.

Lemma gfree_repr s ks f :
  frames_repr s ks → (Z.to_nat (f / 32) < length ks)%nat →
  frames_repr (set_frame_map s (<[Z.to_nat (f / 32) := 0]> (frame_map s))) (gfree f ks).
Proof.
  intros Hr Hlt. unfold gfree. constructor; simpl.
  - rewrite (fr_map _ _ Hr), list_fmap_insert. done.
  - apply Forall_insert; [apply Hr|lia].
  - rewrite length_insert. apply Hr.
  - rewrite length_insert. apply Hr.
Qed.

Lemma kfree_frame_ok s ks frame :
  frames_repr s ks → 0 ≤ frame → frame / PAGE_SIZE < nframes s →
  ∃ s', kfree_frame frame s = Ok tt s' ∧ nframes s' = nframes s ∧
    frames_repr s' (gfree (frame / PAGE_SIZE) ks).
Proof.
  intros Hr Hf Hlt. pose proof (fr_n _ _ Hr) as Hn. set (f := frame / PAGE_SIZE) in *.
  assert (0 ≤ f) by (apply Z.div_pos; unfold PAGE_SIZE; lia).
  assert (Z.to_nat (f / 32) < length ks)%nat as Hl by word_lia.
  destruct (lookup_lt_is_Some_2 _ _ Hl) as [k Hk].
  eexists. split; [|split; [|by apply gfree_repr]]; [|done].
  unfold kfree_frame. fold f. rewrite bind_gets, Z.geb_leb, (proj2 (Z.leb_gt _ _) Hlt).
  rewrite (bind_ok _ _ _ _ _ (ld_word_repr _ _ Hr _ _ Hk)), shl32_0, Z.land_0_r.
  by rewrite (st_word_repr _ _ Hr).
Qed.

Lemma in_use_gfree ks f j :
  0 ≤ f → (Z.to_nat (f / 32) < length ks)%nat →
  in_use (gfree f ks) j ↔ in_use ks j ∧ j / 32 ≠ f / 32.
Proof.
  intros Hf Hlt. unfold in_use, gfree. split.
  - intros (Hj & k & Hk & Hlk). apply list_lookup_insert_Some in Hk as [(E & <- & _)|[Hne Hk]].
    + word_lia.
    + split; [eauto|]. congruence.
  - intros [(Hj & k & Hk & Hlk) Hne]. split; [done|]. exists k. split; [|done].
    rewrite list_lookup_insert_ne; [done|]. word_lia.
Qed.

(** ** Lemmas: initialisation *)

Lemma first_free_frame_eq e :
  0 ≤ e → first_free_frame e = 4096 * (e mod 2 ^ 24 / 4096 + 1).
Proof.
  intros He. unfold first_free_frame. change 0x00FFF000 with (Z.shiftl (Z.ones 12) 12).
  rewrite land_shifted_ones by lia. change (12 + 12) with 24.
  pose proof (Z.mod_pos_bound e (2 ^ 24) ltac:(lia)). rewrite u32_small; word_lia.
Qed.

(** The abstraction of the bitmap after [memset]: no frame is in use. *)
Lemma zero_map_bump s :
  frame_map s = replicate FRAME_WORDS 0 → 0 < nframes s ≤ 262144 → frames_bump s 0.
Proof.
  intros Hz Hn. split; [|lia].
  constructor; [|apply prefix_counts_bounds|apply prefix_counts_length|].
  - rewrite Hz. apply list_eq. intros j. rewrite list_lookup_fmap.
    destruct (decide (j < FRAME_WORDS)%nat) as [Hj|Hj].
    + rewrite prefix_counts_lookup, lookup_replicate_2 by done. simpl. f_equal.
      by rewrite Z.max_l, Z.min_r by lia.
    + rewrite !lookup_ge_None_2; [done|rewrite prefix_counts_length; lia|rewrite length_replicate; lia].
  - rewrite prefix_counts_length. unfold FRAME_WORDS. lia.
Qed.

Lemma init_frames_spec end_kernel mem_size s :
  frame_map s = replicate FRAME_WORDS 0 → 0 ≤ end_kernel →
  first_free_frame end_kernel / 1024 ≤ mem_size ≤ 1048576 →
  ∃ s', init_frames end_kernel mem_size s = Ok tt s' ∧ nframes s' = mem_size / 4 ∧
    frames_bump s' (first_free_frame end_kernel / PAGE_SIZE).
Proof.
  intros Hz He Hm. pose proof (first_free_frame_eq _ He) as Hff.
  assert (0 ≤ end_kernel mod 2 ^ 24 / 4096) by (apply Z.div_pos; [by apply Z.mod_pos_bound|lia]).
  set (p := end_kernel mod 2 ^ 24 / 4096) in *.
  unfold init_frames. rewrite bind_modify, bind_gets. simpl.
  unfold memset_frame_map at 1. unfold bind at 1. simpl.
  rewrite Hz, clear_bytes_zero by (by apply Forall_replicate).
  rewrite length_replicate, (proj2 (Z.leb_le _ _)) by (unfold FRAME_WORDS; word_lia).
  set (s0 := set_frame_map _ _).
  assert (frames_bump s0 0) as Hb by (apply zero_map_bump; [done|simpl; word_lia]).
  destruct (init_loop (seqZ 0 (first_free_frame end_kernel / 4096)) s0 0 Hb) as (s' & E & Hb' & Hns).
  { rewrite length_seqZ. simpl. word_lia. }
  exists s'. rewrite E, Hns. split; [done|]. split; [done|].
  rewrite length_seqZ, Z2Nat.id in Hb'; [done|]. word_lia.
Qed.

(** ** Theorems *)

(** C19. [kalloc_frame] implements the abstract allocator: it returns the first
    frame of the first group of 32 that is not full above every frame in use
    there, marks exactly that frame, never hands out a frame in use, and panics
    when no such frame exists below [nframes]. *)
Theorem kalloc_frame_refines s ks :
  frames_repr s ks →
  match galloc ks with
  | Some (i, ks') =>
      if i <? nframes s then
        ∃ s', kalloc_frame s = Ok (i * PAGE_SIZE) s' ∧ frames_repr s' ks' ∧
          nframes s' = nframes s ∧ ¬ in_use ks i ∧
          ∀ j, in_use ks' j ↔ in_use ks j ∨ j = i
      else kalloc_frame s = Panic "Ran out of page frames" s
  | None => kalloc_frame s = Panic "Ran out of page frames" s
  end.
Proof.
  intros Hr. pose proof (kalloc_frame_spec s ks Hr) as H. pose proof (fr_counts _ _ Hr) as Hc.
  destruct (galloc ks) as [[i ks']|] eqn:Eg; [|done]. destruct (i <? nframes s); [|done].
  destruct H as [E Hr']. eexists. split_and!; [done..|by eapply galloc_fresh|].
  intros j. by apply in_use_galloc.
Qed.

(** Frames allocated one after the other, with no free in between, are
    pairwise distinct, page aligned, below [nframes], and none was in use. *)
Theorem kalloc_frames_fresh n s ks l s' :
  frames_repr s ks → kalloc_frames n s = Ok l s' →
  NoDup l ∧ length l = n ∧
  ∀ f, f ∈ l → ∃ i, f = i * PAGE_SIZE ∧ 0 ≤ i < nframes s ∧ ¬ in_use ks i.
Proof.
  intros Hr E. destruct (kalloc_frames_spec _ _ _ _ _ Hr E) as (Hnd & Hf & _).
  split_and!; [done| |done]. clear -E. revert s l E. induction n as [|n IH]; intros s l E.
  - by injection E as <- <-.
  - apply bind_inv_ok in E as (f & s1 & _ & E). apply bind_inv_ok in E as (l' & s2 & E & E2).
    injection E2 as <- <-. simpl. f_equal. by eapply IH.
Qed.

(** [init_frames] on the zeroed bitmap, with memory for the kernel image and
    at most 1 GiB: exactly the frames up to the page boundary above the end of the
    kernel (a physical address below 16 MiB) are in use. *)
Theorem init_frames_correct end_kernel mem_size s :
  frame_map s = replicate FRAME_WORDS 0 → 0 ≤ end_kernel →
  first_free_frame end_kernel / 1024 ≤ mem_size ≤ 1048576 →
  ∃ s', init_frames end_kernel mem_size s = Ok tt s' ∧ nframes s' = mem_size / 4 ∧
    end_kernel mod 2 ^ 24 < first_free_frame end_kernel ≤ end_kernel mod 2 ^ 24 + PAGE_SIZE ∧
    ∃ ks, frames_repr s' ks ∧
      ∀ i, in_use ks i ↔ 0 ≤ i ∧ i * PAGE_SIZE < first_free_frame end_kernel.
Proof.
  intros Hz He Hm. destruct (init_frames_spec _ _ _ Hz He Hm) as (s' & E & Hn & [Hr Hle]).
  exists s'. split; [done|]. split; [done|]. pose proof (first_free_frame_eq _ He) as Hff.
  pose proof (Z.mod_pos_bound end_kernel (2 ^ 24) ltac:(lia)). unfold PAGE_SIZE in *.
  split; [word_lia|]. eexists. split; [exact Hr|]. intros i. pose proof (fr_n _ _ Hr) as Hfn.
  rewrite prefix_counts_length in Hfn. unfold FRAME_WORDS in Hfn.
  rewrite in_use_prefix by lia. word_lia.
Qed.

(** [kfree_frame] releases the whole group of 32 frames its argument lies
    in, not one frame: afterwards exactly the frames of the other groups are
    still in use. A frame number past the end of memory panics. *)
Theorem kfree_frame_refines s ks frame :
  frames_repr s ks → 0 ≤ frame →
  if frame / PAGE_SIZE <? nframes s then
    ∃ s' ks', kfree_frame frame s = Ok tt s' ∧ nframes s' = nframes s ∧ frames_repr s' ks' ∧
      ∀ j, in_use ks' j ↔ in_use ks j ∧ j / 32 ≠ frame / PAGE_SIZE / 32
  else kfree_frame frame s = Panic "Tried to free a non-existant frame" s.
Proof.
  intros Hr Hf. destruct (Z.ltb_spec (frame / PAGE_SIZE) (nframes s)) as [Hlt|Hge].
  - destruct (kfree_frame_ok s ks frame Hr Hf Hlt) as (s' & E & Hn & Hr').
    do 2 eexists. split; [done|]. split; [done|]. split; [done|].
    pose proof (fr_n _ _ Hr). assert (0 ≤ frame / PAGE_SIZE) by (apply Z.div_pos; unfold PAGE_SIZE; lia).
    intros j. apply in_use_gfree; [done|]. word_lia.
  - unfold kfree_frame. rewrite bind_gets, Z.geb_leb. by rewrite (proj2 (Z.leb_le _ _) Hge).
Qed.

(** The consequence: with exactly the frames below [n] in use, freeing one
    frame [i] makes the next allocation return the first frame of its group,
    which is in use and was never freed (unless it is [i] itself). *)
Theorem frame_double_allocation s n i :
  frames_bump s n → 0 ≤ i < n →
  ∃ s1 s2, kfree_frame (i * PAGE_SIZE) s = Ok tt s1 ∧
    kalloc_frame s1 = Ok (32 * (i / 32) * PAGE_SIZE) s2.
Proof.
  intros [Hr Hn] Hi. pose proof (fr_n _ _ Hr) as Hfn. rewrite prefix_counts_length in Hfn.
  unfold FRAME_WORDS in Hfn. assert (i * PAGE_SIZE / PAGE_SIZE = i) as Hdiv by (by apply Z.div_mul).
  destruct (kfree_frame_ok s _ (i * PAGE_SIZE) Hr) as (s1 & E1 & Hn1 & Hr1); [unfold PAGE_SIZE; lia|lia|].
  rewrite Hdiv in Hr1. exists s1. pose proof (kalloc_frame_spec _ _ Hr1) as Hs.
  rewrite (galloc_first _ (Z.to_nat (i / 32)) 0) in Hs; [|intros j Hj| |done].
  - rewrite (proj2 (Z.ltb_lt _ _)) in Hs by word_lia. destruct Hs as [E2 _]. eexists.
    split; [exact E1|]. rewrite E2. do 2 f_equal. word_lia.
  - unfold gfree. rewrite list_lookup_insert_ne by lia. rewrite prefix_counts_lookup; [f_equal; clear -Hi Hj; word_lia|].
    unfold FRAME_WORDS. clear -Hi Hj Hn Hfn Hn1. word_lia.
  - unfold gfree. rewrite list_lookup_insert_eq; [done|].
    rewrite prefix_counts_length. unfold FRAME_WORDS. clear -Hi Hn Hfn. word_lia.
Qed.

(** ** Witnesses: 1 MiB of memory, whose first 3 frames are in use. *)

Definition frames0 : frames := mkFrames (replicate FRAME_WORDS 0) 256.

Lemma frames0_repr : frames_repr frames0 (prefix_counts 0).
Proof. apply zero_map_bump; [done|simpl; lia]. Qed.

Lemma kalloc_frame_refines_witness :
  ∃ s', kalloc_frame frames0 = Ok 0 s' ∧ nframes s' = 256.
Proof.
  pose proof (kalloc_frame_refines frames0 _ frames0_repr) as H.
  rewrite galloc_prefix in H by lia. destruct H as (s' & E & _ & Hn & _). by exists s'.
Defined.

Lemma kalloc_frames_fresh_witness :
  ∃ l s', kalloc_frames 3 frames0 = Ok l s' ∧ l = [0; 4096; 8192] ∧ NoDup l.
Proof.
  assert (match kalloc_frames 3 frames0 with Ok l _ => bool_decide (l = [0; 4096; 8192]) | _ => false end
          = true) as H by (vm_compute; reflexivity).
  destruct (kalloc_frames 3 frames0) as [l s'| | |] eqn:E; try done. exists l, s'.
  split; [done|]. split; [by apply bool_decide_eq_true_1 in H|].
  apply (kalloc_frames_fresh 3 frames0 _ _ _ frames0_repr E).
Defined.

Lemma init_frames_correct_witness :
  ∃ s', init_frames 0xC0002800 1024 frames0 = Ok tt s' ∧ nframes s' = 256.
Proof.
  destruct (init_frames_correct 0xC0002800 1024 frames0) as (s' & E & Hn & _);
    [done|lia|by split; vm_compute|by exists s'].
Defined.

Lemma kfree_frame_refines_witness : ∃ s', kfree_frame 0x5000 frames0 = Ok tt s' ∧ nframes s' = 256.
Proof.
  destruct (kfree_frame_refines frames0 _ 0x5000 frames0_repr ltac:(lia)) as (s' & _ & E & Hn & _).
  by exists s'.
Defined.

Lemma frame_double_allocation_witness :
  ∃ s s1 s2, frames_bump s 3 ∧ kfree_frame 0x2000 s = Ok tt s1 ∧ kalloc_frame s1 = Ok 0 s2.
Proof.
  destruct (init_frames_spec 0x2800 1024 frames0) as (s & _ & _ & Hb); [done|lia|by split; vm_compute|].
  change (frames_bump s 3) in Hb. destruct (frame_double_allocation s 3 2 Hb ltac:(lia)) as (s1 & s2 & H).
  by exists s, s1, s2.
Defined.
