(* ===== verification/Paging.v ===== *)
(** * Paging (src/mm/paging.c)

    The page directory and the page tables are a typed store: a finite map from
    the (page aligned) virtual address of a table to its 1024 entries.  The
    addresses of the two static tables are fixed by the linker and are the
    parameters of the class [Layout].  The allocator of page frames is
    [Frame.v]; the state of the functions below is the pair of both. *)

From S2P Require Import Prelude Frame.

Definition KERNEL_VIRTUAL_BASE : Z := 0xC0000000.
Definition KERNEL_PAGE_NUMBER : Z := Z.shiftr KERNEL_VIRTUAL_BASE 22.

(** The linker's addresses of [kernel_page_dir] and [first_page_table], both
    [aligned(4096)] objects of the higher-half kernel image. *)
Class Layout := {
  kernel_page_dir : Z;
  first_page_table : Z;
  layout_dir_ne : kernel_page_dir ≠ first_page_table;
  layout_aligned : first_page_table mod 4096 = 0;
  layout_high : KERNEL_VIRTUAL_BASE ≤ first_page_table < 2 ^ 32 }.

(** ** State *)

Record paging := mkPaging {
  tables : gmap Z (list Z);
  cur_page_table : Z;
  next_free_page : Z;
  cr3 : Z }.
Definition set_tables (t : gmap Z (list Z)) (s : paging) : paging :=
  mkPaging t (cur_page_table s) (next_free_page s) (cr3 s).
Definition set_next_free_page (n : Z) (s : paging) : paging :=
  mkPaging (tables s) (cur_page_table s) n (cr3 s).

Definition PAGE_PRESENT (page : Z) : bool := truth (Z.land page 0x01).

(** [table->entry[i]], an access that faults outside of a table. *)
Definition ld_entry (table i : Z) : M paging Z := λ s,
  of_option (tables s !! table ≫= λ l, if 0 <=? i then l !! Z.to_nat i else None) s.
Definition st_entry (table i v : Z) : M paging unit :=
  ld_entry table i ;;;
  modify (λ s, set_tables (alter <[Z.to_nat i := v]> table (tables s)) s).

Section operations.
Context `{Layout}.

(** ** Operations *)

(** [((uint32_t)dir->pd_entry[pd_index] & 0xFFFFF000) + KERNEL_VIRTUAL_BASE] *)
Definition table_of (entry : Z) : Z := u32 (Z.land entry 0xFFFFF000 + KERNEL_VIRTUAL_BASE).
Definition pd_index (v : Z) : Z := Z.shiftr v 22.
Definition pt_index (v : Z) : Z := Z.land (Z.shiftr v 12) 0x03FF.

Definition init_paging (end_kernel : Z) : M paging unit :=
  let first_free_page := u32 (Z.land end_kernel 0x00FFF000 + 0x1000) in
  for_each (seqZ 0 1024) (λ i, st_entry kernel_page_dir i 0x00000002) ;;;
  for_each (seqZ 0 (first_free_page / 0x1000))
    (λ i, st_entry first_page_table i (Z.lor (Z.lor (i * 0x1000) 3) 4)) ;;;
  st_entry kernel_page_dir KERNEL_PAGE_NUMBER
    (Z.lor (Z.lor (u32 (first_page_table - KERNEL_VIRTUAL_BASE)) 3) 4) ;;;
  modify (λ s, mkPaging (tables s) KERNEL_PAGE_NUMBER
                 (u32 (first_free_page + KERNEL_VIRTUAL_BASE))
                 (u32 (kernel_page_dir - KERNEL_VIRTUAL_BASE))).

Fixpoint find_free_loop (l : list Z) (table : Z) : M paging Z :=
  match l with
  | [] => kpanic "Ran out of free pages"
  | i :: l =>
      let* e := ld_entry table i in
      if negb (PAGE_PRESENT e) then ret (u32 (i * 0x1000 + KERNEL_VIRTUAL_BASE))
      else find_free_loop l table
  end.
Definition find_free_page (table : Z) : M paging Z := find_free_loop (seqZ 0 1024) table.

Definition kalloc_page : M (frames * paging) Z :=
  let* frame := on_fst kalloc_frame in
  on_snd
    (let* n := gets next_free_page in
     st_entry first_page_table (u32 (n - KERNEL_VIRTUAL_BASE) / 0x1000)
       (Z.lor (Z.lor frame 3) 4) ;;;
     let* r := gets next_free_page in
     let* n' := find_free_page first_page_table in
     modify (set_next_free_page n') ;;; ret r).

Definition get_phys_addr (dir virtual_addr : Z) : M paging Z :=
  let* e := ld_entry dir (pd_index virtual_addr) in
  if negb (PAGE_PRESENT e) then kpanic "Page table not present" else
  let pt := table_of e in
  let* p := ld_entry pt (pt_index virtual_addr) in
  if negb (PAGE_PRESENT p) then kpanic "Page table entry not present" else
  ret (u32 (Z.land p 0xFFFFF000 + Z.land virtual_addr 0xFFF)).

Definition kfree_page (dir virtual_addr : Z) : M (frames * paging) unit :=
  let* phys_addr := on_snd (get_phys_addr dir virtual_addr) in
  on_fst (kfree_frame phys_addr) ;;;
  on_snd
    (let* e := ld_entry dir (pd_index virtual_addr) in
     st_entry (table_of e) (pt_index virtual_addr) 0 ;;;
     modify (set_next_free_page virtual_addr)).

Definition alloc_page_table (dir virtual_addr flags : Z) : M (frames * paging) Z :=
  let* e := on_snd (ld_entry dir (Z.shiftr virtual_addr 22)) in
  (if e =? 0 then
     let* frame := on_fst kalloc_frame in
     on_snd (st_entry dir (Z.shiftr virtual_addr 22) (Z.lor frame flags) ;;;
             modify (λ s, set_tables
               (<[Z.lor frame KERNEL_VIRTUAL_BASE := replicate 1024 0]> (tables s)) s))
   else ret tt) ;;;
  ret virtual_addr.

(** Allocating [k] pages in a row, as [kernel_main] does for the heap. *)
Fixpoint kalloc_pages (k : nat) : M (frames * paging) (list Z) :=
  match k with
  | O => ret []
  | S k => let* p := kalloc_page in let* l := kalloc_pages k in ret (p :: l)
  end.

(** ** The state while only allocations have happened

    The first [n] pages of the higher half are mapped to the first [n] frames,
    exactly these frames are in use, and the next page is page [n]. *)

Definition identity_table (n : Z) : list Z :=
  ((λ i, i * 4096 + 7) <$> seqZ 0 n) ++ replicate (Z.to_nat (1024 - n)) 0.
Definition kernel_dir : list Z :=
  <[Z.to_nat KERNEL_PAGE_NUMBER := first_page_table - KERNEL_VIRTUAL_BASE + 7]> (replicate 1024 2).

Record tables_repr (p : paging) (n : Z) : Prop := {
  tr_dir : tables p !! kernel_page_dir = Some kernel_dir;
  tr_table : tables p !! first_page_table = Some (identity_table n);
  tr_n : 0 ≤ n ≤ 1024 }.
Record paging_repr (sp : frames * paging) (n : Z) : Prop := {
  pr_frames : frames_bump (fst sp) n;
  pr_tables : tables_repr (snd sp) n;
  pr_next : n < 1024 ∧ next_free_page (snd sp) = KERNEL_VIRTUAL_BASE + n * 4096 }.

(** ** Lemmas *)

Lemma flags_low i : Z.lor (Z.lor (i * 4096) 3) 4 = i * 4096 + 7.
Proof using. rewrite <-Z.lor_assoc. apply (lor_shifted_low i 7 12); lia. Qed.

Lemma frame_bits p : 0 ≤ p < 2 ^ 32 → Z.land p 0xFFFFF000 = p / 4096 * 4096.
Proof using.
  intros. change 0xFFFFF000 with (Z.shiftl (Z.ones 20) 12).
  rewrite land_shifted_ones, Z.mod_small by lia. done.
Qed.

Lemma present_7 i : PAGE_PRESENT (i * 4096 + 7) = true.
Proof using.
  unfold PAGE_PRESENT. change 1 with (Z.ones 1). rewrite Z.land_ones by lia.
  replace ((i * 4096 + 7) mod 2 ^ 1) with 1 by (change (2 ^ 1) with 2; word_lia). done.
Qed.

Lemma table_of_first : table_of (first_page_table - KERNEL_VIRTUAL_BASE + 7) = first_page_table.
Proof using Type*.
  destruct layout_high as [Hlo Hhi]. pose proof layout_aligned as Ha.
  unfold table_of, KERNEL_VIRTUAL_BASE in *. rewrite frame_bits by lia. usmall; word_lia.
Qed.

Lemma identity_table_lookup n i :
  0 ≤ n ≤ 1024 → 0 ≤ i < 1024 →
  identity_table n !! Z.to_nat i = Some (if i <? n then i * 4096 + 7 else 0).
Proof using.
  intros Hn Hi. unfold identity_table. destruct (Z.ltb_spec i n).
  - rewrite lookup_app_l by (rewrite length_fmap, length_seqZ; lia).
    rewrite list_lookup_fmap, lookup_seqZ_lt by lia. simpl. f_equal. lia.
  - rewrite lookup_app_r by (rewrite length_fmap, length_seqZ; lia).
    rewrite length_fmap, length_seqZ, lookup_replicate_2 by lia. done.
Qed.

Lemma identity_table_length n : 0 ≤ n ≤ 1024 → length (identity_table n) = Z.to_nat 1024.
Proof using.
  intros. unfold identity_table. rewrite length_app, length_fmap, length_seqZ, length_replicate. lia.
Qed.

Lemma identity_table_insert n :
  0 ≤ n < 1024 → <[Z.to_nat n := n * 4096 + 7]> (identity_table n) = identity_table (n + 1).
Proof using.
  intros Hn. apply list_eq. intros j. destruct (decide (j < Z.to_nat 1024)%nat) as [Hj|Hj].
  - rewrite <-(Nat2Z.id j), identity_table_lookup by lia.
    destruct (decide (n = j)) as [->|Hne].
    + rewrite list_lookup_insert_eq by (rewrite identity_table_length; lia).
      by rewrite (proj2 (Z.ltb_lt _ _)) by lia.
    + rewrite list_lookup_insert_ne, identity_table_lookup by lia.
      destruct (Z.ltb_spec j n), (Z.ltb_spec j (n + 1)); done || lia.
  - rewrite !lookup_ge_None_2; [done|rewrite ?length_insert, identity_table_length by lia; lia..].
Qed.

Lemma ld_entry_ok p t l i v :
  tables p !! t = Some l → 0 ≤ i → l !! Z.to_nat i = Some v → ld_entry t i p = Ok v p.
Proof using.
  intros Ht Hi Hv. unfold ld_entry. rewrite Ht. simpl.
  by rewrite (proj2 (Z.leb_le _ _) Hi), Hv.
Qed.

Lemma st_entry_ok p t l i v w :
  tables p !! t = Some l → 0 ≤ i → l !! Z.to_nat i = Some w →
  st_entry t i v p = Ok tt (set_tables (<[t := <[Z.to_nat i := v]> l]> (tables p)) p).
Proof using.
  intros Ht Hi Hv. unfold st_entry. rewrite (bind_ok _ _ _ _ _ (ld_entry_ok _ _ _ _ _ Ht Hi Hv)).
  unfold modify. do 2 f_equal. apply map_eq. intros x. destruct (decide (x = t)) as [->|].
  - by rewrite lookup_alter_eq, lookup_insert_eq, Ht.
  - by rewrite lookup_alter_ne, lookup_insert_ne.
Qed.

Lemma find_free_spec n p k :
  tables p !! first_page_table = Some (identity_table n) → 0 ≤ n < 1024 →
  0 ≤ k ≤ n → find_free_loop (seqZ k (1024 - k)) first_page_table p
    = Ok (KERNEL_VIRTUAL_BASE + n * 4096) p.
Proof using.
  intros Ht Hn. remember (Z.to_nat (n - k)) as d eqn:Hd. revert k Hd.
  induction d as [|d IH]; intros k Hd Hk; rewrite seqZ_cons by lia; cbn [find_free_loop];
    rewrite (bind_ok _ _ _ _ _ (ld_entry_ok _ _ _ k _ Ht ltac:(lia) (identity_table_lookup n k ltac:(lia) ltac:(lia)))).
  - rewrite (proj2 (Z.ltb_ge _ _)) by lia. simpl. unfold ret, KERNEL_VIRTUAL_BASE.
    rewrite u32_small by lia. f_equal. lia.
  - rewrite (proj2 (Z.ltb_lt _ _)), present_7 by lia. simpl.
    rewrite <-IH with (k := Z.succ k) by lia. do 2 f_equal. lia.
Qed.

Lemma find_free_none p k :
  tables p !! first_page_table = Some (identity_table 1024) → 0 ≤ k ≤ 1024 →
  find_free_loop (seqZ k (1024 - k)) first_page_table p = Panic "Ran out of free pages" p.
Proof using.
  intros Ht. remember (Z.to_nat (1024 - k)) as d eqn:Hd. revert k Hd.
  induction d as [|d IH]; intros k Hd Hk.
  - by replace (1024 - k) with 0 by lia.
  - rewrite seqZ_cons by lia. cbn [find_free_loop].
    rewrite (bind_ok _ _ _ _ _ (ld_entry_ok _ _ _ k _ Ht ltac:(lia) (identity_table_lookup 1024 k ltac:(lia) ltac:(lia)))).
    rewrite (proj2 (Z.ltb_lt _ _)), present_7 by lia. simpl.
    rewrite <-IH with (k := Z.succ k) by lia. do 2 f_equal. lia.
Qed.

(** One allocation on the identity mapping. *)
Lemma kalloc_page_spec sp n :
  paging_repr sp n → n < nframes (fst sp) →
  ∃ sp', nframes (fst sp') = nframes (fst sp) ∧
    tables_repr (snd sp') (n + 1) ∧ frames_bump (fst sp') (n + 1) ∧
    if n <? 1023 then kalloc_page sp = Ok (KERNEL_VIRTUAL_BASE + n * 4096) sp' ∧ paging_repr sp' (n + 1)
    else kalloc_page sp = Panic "Ran out of free pages" sp'.
Proof using Type*.
  destruct sp as [f p]. intros [Hf [Hd Ht Hn] [Hlt Hnext]] Hlf. simpl in *.
  destruct (kalloc_frame_bump f n Hf Hlf) as (f' & E & Hf' & Hnf).
  assert (on_fst kalloc_frame (f, p) = Ok (n * PAGE_SIZE) (f', p)) as E1.
  { unfold on_fst, zoom. simpl. by rewrite E. }
  set (p1 := set_tables (<[first_page_table := identity_table (n + 1)]> (tables p)) p).
  assert (st_entry first_page_table (u32 (next_free_page p - KERNEL_VIRTUAL_BASE) / 0x1000)
            (Z.lor (Z.lor (n * PAGE_SIZE) 3) 4) p = Ok tt p1) as E2.
  { rewrite Hnext. replace (u32 (KERNEL_VIRTUAL_BASE + n * 4096 - KERNEL_VIRTUAL_BASE) / 4096) with n.
    - unfold PAGE_SIZE. rewrite flags_low, (st_entry_ok p _ _ n _ _ Ht ltac:(lia) (identity_table_lookup n n ltac:(lia) ltac:(lia))).
      by rewrite identity_table_insert by lia.
    - rewrite u32_small by lia. word_lia. }
  assert (tables_repr p1 (n + 1)) as Htr.
  { constructor; simpl; [|by rewrite lookup_insert_eq|lia].
    rewrite lookup_insert_ne; [done|]. apply not_eq_sym, layout_dir_ne. }
  unfold kalloc_page. rewrite (bind_ok _ _ _ _ _ E1). unfold on_snd, zoom. simpl.
  rewrite bind_gets, (bind_ok _ _ _ _ _ E2), bind_gets. destruct (Z.ltb_spec n 1023).
  - assert (find_free_page first_page_table p1 = Ok (KERNEL_VIRTUAL_BASE + (n + 1) * 4096) p1) as E3.
    { apply (find_free_spec (n + 1) p1 0); [apply Htr|lia..]. }
    rewrite (bind_ok _ _ _ _ _ E3), bind_modify. simpl. rewrite <-Hnext. eexists (f', _).
    split; [done|]. split; [|split; [done|split; [done|]]]; [destruct Htr; by constructor|].
    constructor; simpl; [done| |lia]. destruct Htr; by constructor.
  - assert (n = 1023) as -> by lia. rewrite (bind_panic _ _ _ "Ran out of free pages" p1).
    + by exists (f', p1).
    + apply (find_free_none p1 0); [apply Htr|lia].
Qed.

(** Translation of an address on the identity mapping. *)
Lemma get_phys_addr_spec p n v :
  tables_repr p n → 0 ≤ v < 2 ^ 32 →
  get_phys_addr kernel_page_dir v p =
    if (KERNEL_VIRTUAL_BASE <=? v) && (v <? KERNEL_VIRTUAL_BASE + 0x400000) then
      if v <? KERNEL_VIRTUAL_BASE + n * 4096 then Ok (v - KERNEL_VIRTUAL_BASE) p
      else Panic "Page table entry not present" p
    else Panic "Page table not present" p.
Proof using Type*.
  intros [Hd Ht Hn] Hv. unfold get_phys_addr, pd_index.
  assert (Z.shiftr v 22 = v / 4194304) as -> by (by rewrite Z.shiftr_div_pow2).
  assert (pt_index v = v / 4096 mod 1024) as Hpt.
  { unfold pt_index. change 0x3FF with (Z.ones 10). by rewrite Z.land_ones, Z.shiftr_div_pow2. }
  assert (KERNEL_PAGE_NUMBER = 768) as HK by done.
  destruct (decide (v / 4194304 = 768)) as [E|Hne].
  - assert (kernel_dir !! Z.to_nat (v / 4194304) = Some (first_page_table - KERNEL_VIRTUAL_BASE + 7)) as Hl.
    { unfold kernel_dir. by rewrite E, HK, list_lookup_insert_eq by (rewrite length_replicate; lia). }
    rewrite (bind_ok _ _ _ _ _ (ld_entry_ok p _ _ (v / 4194304) _ Hd ltac:(lia) Hl)).
    pose proof layout_aligned. rewrite table_of_first.
    replace (first_page_table - KERNEL_VIRTUAL_BASE + 7)
      with ((first_page_table - KERNEL_VIRTUAL_BASE) / 4096 * 4096 + 7) by (unfold KERNEL_VIRTUAL_BASE in *; word_lia).
    rewrite present_7. simpl. rewrite Hpt.
    rewrite (bind_ok _ _ _ _ _ (ld_entry_ok _ _ _ (v / 4096 mod 1024) _ Ht ltac:(word_lia)
       (identity_table_lookup n (v / 4096 mod 1024) Hn ltac:(word_lia)))).
    rewrite (proj2 (andb_true_iff _ _)) by (split; [apply Z.leb_le|apply Z.ltb_lt]; unfold KERNEL_VIRTUAL_BASE; word_lia).
    change 0xFFF with (Z.ones 12). rewrite Z.land_ones by lia. change (2 ^ 12) with 4096.
    destruct (Z.ltb_spec (v / 4096 mod 1024) n), (Z.ltb_spec v (KERNEL_VIRTUAL_BASE + n * 4096));
      try (exfalso; unfold KERNEL_VIRTUAL_BASE in *; word_lia); [|done].
    rewrite present_7. simpl. unfold ret. f_equal. rewrite frame_bits by word_lia.
    unfold KERNEL_VIRTUAL_BASE in *. rewrite u32_small; word_lia.
  - assert (kernel_dir !! Z.to_nat (v / 4194304) = Some 2) as Hl.
    { unfold kernel_dir. rewrite HK, list_lookup_insert_ne by word_lia. apply lookup_replicate_2. word_lia. }
    rewrite (bind_ok _ _ _ _ _ (ld_entry_ok p _ _ (v / 4194304) _ Hd ltac:(word_lia) Hl)). simpl.
    by rewrite (proj2 (andb_false_iff _ _)) by
      (destruct (decide (v / 4194304 < 768)); [left; apply Z.leb_gt|right; apply Z.ltb_ge]; unfold KERNEL_VIRTUAL_BASE; word_lia).
Qed.

(** Filling a prefix of a table entry by entry. *)
Lemma fill_spec (g : Z → Z) t n l p :
  tables p !! t = Some l → 0 ≤ n ≤ length l →
  for_each (seqZ 0 n) (λ i, st_entry t i (g i)) p =
    Ok tt (set_tables (<[t := (g <$> seqZ 0 n) ++ drop (Z.to_nat n) l]> (tables p)) p).
Proof using.
  intros Ht Hn. remember (Z.to_nat n) as d eqn:Hd. revert n Hd Hn.
  induction d as [|d IH]; intros n Hd Hn.
  - assert (n = 0) as -> by lia. simpl. unfold ret. rewrite insert_id by done. by destruct p.
  - rewrite (seqZ_snoc n), for_each_app, fmap_app by lia.
    rewrite (bind_ok _ _ _ _ _ (IH (n - 1) ltac:(lia) ltac:(lia))). simpl.
    destruct (lookup_lt_is_Some_2 l d) as [w Hw]; [lia|].
    assert (length (g <$> seqZ 0 (n - 1)) = d) as Hlen by (rewrite length_fmap, length_seqZ; lia).
    rewrite (bind_ok _ _ _ tt (set_tables (<[t := (g <$> seqZ 0 (n - 1)) ++ g (n - 1) :: drop (S d) l]> (tables p)) p)).
    + unfold ret. by rewrite <-app_assoc.
    + rewrite (st_entry_ok _ t ((g <$> seqZ 0 (n - 1)) ++ drop d l) _ _ w);
        [|simpl; by rewrite lookup_insert_eq|lia|].
      * unfold set_tables. simpl.
        rewrite insert_insert_eq, insert_app_r_alt by lia.
        replace (Z.to_nat (n - 1) - _)%nat with 0%nat by lia. by rewrite (drop_S l w d Hw).
      * rewrite lookup_app_r, lookup_drop by lia. rewrite <-Hw. f_equal. lia.
Qed.

Lemma init_paging_spec end_kernel p n :
  tables p !! kernel_page_dir = Some (replicate (Z.to_nat 1024) 0) →
  tables p !! first_page_table = Some (replicate (Z.to_nat 1024) 0) →
  0 ≤ end_kernel → first_free_frame end_kernel = 4096 * n → 0 ≤ n < 1024 →
  ∃ p', init_paging end_kernel p = Ok tt p' ∧ tables_repr p' n ∧
    next_free_page p' = KERNEL_VIRTUAL_BASE + n * 4096 ∧
    cr3 p' = u32 (kernel_page_dir - KERNEL_VIRTUAL_BASE).
Proof using Type*.
  intros Hd Ht He Hff Hn. pose proof layout_dir_ne as Hne. destruct layout_high.
  unfold init_paging. fold (first_free_frame end_kernel). rewrite Hff.
  replace (4096 * n / 4096) with n by word_lia.
  rewrite (bind_ok _ _ _ _ _ (fill_spec (λ _, 2) _ 1024 _ _ Hd ltac:(by rewrite length_replicate))).
  set (p1 := set_tables _ p).
  assert (tables p1 !! first_page_table = Some (replicate (Z.to_nat 1024) 0)) as Ht1
    by (simpl; by rewrite lookup_insert_ne).
  rewrite (bind_ok _ _ _ _ _ (fill_spec (λ i, Z.lor (Z.lor (i * 4096) 3) 4) _ n _ _ Ht1
    ltac:(rewrite length_replicate; lia))).
  set (p2 := set_tables _ p1).
  assert (tables p2 !! kernel_page_dir = Some (replicate (Z.to_nat 1024) 2)) as Hd2.
  { simpl. rewrite lookup_insert_ne, lookup_insert_eq by done. vm_compute. done. }
  assert (replicate (Z.to_nat 1024) 2 !! Z.to_nat KERNEL_PAGE_NUMBER = Some 2) as HK by done.
  rewrite (bind_ok _ _ _ _ _ (st_entry_ok p2 _ _ KERNEL_PAGE_NUMBER _ _ Hd2 ltac:(done) HK)).
  assert (Z.lor (Z.lor (u32 (first_page_table - KERNEL_VIRTUAL_BASE)) 3) 4
          = first_page_table - KERNEL_VIRTUAL_BASE + 7) as ->.
  { unfold KERNEL_VIRTUAL_BASE in *. pose proof layout_aligned. rewrite u32_small by lia.
    replace (first_page_table - 3221225472) with ((first_page_table - 3221225472) / 4096 * 4096) by word_lia.
    apply flags_low. }
  unfold modify. eexists. split; [reflexivity|]. cbn [tables next_free_page cr3 set_tables].
  split; [|split; [unfold KERNEL_VIRTUAL_BASE; rewrite u32_small; lia|reflexivity]].
  constructor; cbn [tables set_tables]; [| |lia].
  - rewrite lookup_insert_eq. reflexivity.
  - unfold p2. cbn [tables set_tables]. rewrite lookup_insert_ne, lookup_insert_eq by done.
    unfold identity_table. rewrite drop_replicate. f_equal. f_equal; [|f_equal; lia].
    apply list_fmap_ext. intros ? i _. apply flags_low.
Qed.

(** The pages that follow one another, and what they are mapped to. *)
Lemma kalloc_pages_spec k : ∀ sp n,
  paging_repr sp n → n + Z.of_nat k ≤ 1023 → n + Z.of_nat k ≤ nframes (fst sp) →
  ∃ sp', kalloc_pages k sp = Ok ((λ i, KERNEL_VIRTUAL_BASE + i * 4096) <$> seqZ n k) sp' ∧
    paging_repr sp' (n + Z.of_nat k) ∧ nframes (fst sp') = nframes (fst sp).
Proof using Type*.
  induction k as [|k IH]; intros sp n Hr Hk Hf.
  - exists sp. rewrite Z.add_0_r. by split.
  - destruct (kalloc_page_spec sp n Hr) as (sp1 & Hn1 & _ & _ & Hs); [lia|].
    rewrite (proj2 (Z.ltb_lt _ _)) in Hs by lia. destruct Hs as [E Hr1].
    destruct (IH sp1 (n + 1) Hr1) as (sp2 & E2 & Hr2 & Hn2); [lia..|]. exists sp2.
    cbn [kalloc_pages]. rewrite (bind_ok _ _ _ _ _ E), (bind_ok _ _ _ _ _ E2).
    rewrite (seqZ_cons n (S k)) by lia. replace (Z.pred (S k)) with (Z.of_nat k) by lia. split; [done|].
    replace (n + Z.of_nat (S k)) with (n + 1 + Z.of_nat k) by lia. split; [done|congruence].
Qed.

(** Where the tables hold an address of the mapped range. *)
Lemma high_index v n :
  0 ≤ n ≤ 1024 → KERNEL_VIRTUAL_BASE ≤ v < KERNEL_VIRTUAL_BASE + n * 4096 →
  pd_index v = 768 ∧ pt_index v = (v - KERNEL_VIRTUAL_BASE) / 4096 ∧
  0 ≤ (v - KERNEL_VIRTUAL_BASE) / 4096 < n ∧
  kernel_dir !! Z.to_nat 768 = Some (first_page_table - KERNEL_VIRTUAL_BASE + 7).
Proof using.
  unfold KERNEL_VIRTUAL_BASE, pd_index, pt_index. intros Hn Hv. change 0x3FF with (Z.ones 10).
  rewrite Z.land_ones, !Z.shiftr_div_pow2 by lia. change (2 ^ 22) with 4194304.
  change (2 ^ 12) with 4096. change (2 ^ 10) with 1024.
  split; [word_lia|]. split; [word_lia|]. split; [word_lia|].
  unfold kernel_dir. apply list_lookup_insert_eq. rewrite length_replicate. vm_compute. lia.
Qed.

Lemma first_entry_present : PAGE_PRESENT (first_page_table - KERNEL_VIRTUAL_BASE + 7) = true.
Proof using.
  pose proof layout_aligned. unfold KERNEL_VIRTUAL_BASE.
  replace (first_page_table - 3221225472) with ((first_page_table - 3221225472) / 4096 * 4096) by word_lia.
  apply present_7.
Qed.

(** Unmapping one page of the identity mapping, group of frames included. *)
Lemma kfree_page_spec f p n v :
  frames_bump f n → tables_repr p n →
  KERNEL_VIRTUAL_BASE ≤ v < KERNEL_VIRTUAL_BASE + n * 4096 →
  ∃ f' p', kfree_page kernel_page_dir v (f, p) = Ok tt (f', p') ∧
    frames_repr f' (gfree ((v - KERNEL_VIRTUAL_BASE) / 4096) (prefix_counts n)) ∧
    next_free_page p' = v ∧
    tables p' = <[first_page_table :=
      <[Z.to_nat ((v - KERNEL_VIRTUAL_BASE) / 4096) := 0]> (identity_table n)]> (tables p).
Proof using Type*.
  intros [Hfr Hfn] Htr Hv. pose proof Htr as [Hd Ht Hn].
  set (i := (v - KERNEL_VIRTUAL_BASE) / 4096).
  pose proof (get_phys_addr_spec p n v Htr) as Hg.
  rewrite !(proj2 (Z.ltb_lt _ _)), (proj2 (Z.leb_le _ _)) in Hg by lia. simpl in Hg.
  destruct (kfree_frame_ok f _ (v - KERNEL_VIRTUAL_BASE) Hfr) as (f' & E & _ & Hf');
    [lia|unfold PAGE_SIZE; word_lia|].
  destruct (high_index v n Hn Hv) as (Hpd & Hpt & Hi & Hl). fold i in Hpt, Hi.
  unfold KERNEL_VIRTUAL_BASE in Hv.
  unfold kfree_page. rewrite (bind_ok _ _ _ (v - KERNEL_VIRTUAL_BASE) (f, p)); last first.
  { unfold on_snd, zoom. simpl. by rewrite Hg by lia. }
  rewrite (bind_ok _ _ _ tt (f', p)); last first.
  { unfold on_fst, zoom. simpl. by rewrite E. }
  unfold on_snd, zoom. cbn [fst snd]. rewrite Hpd, Hpt.
  rewrite (bind_ok _ _ _ _ _ (ld_entry_ok p _ _ 768 _ Hd ltac:(lia) Hl)), table_of_first.
  rewrite (bind_ok _ _ _ _ _ (st_entry_ok p _ _ i 0 _ Ht ltac:(lia)
    (identity_table_lookup n i ltac:(lia) ltac:(lia)))).
  unfold modify. do 2 eexists. split; [reflexivity|]. split; [|by split].
  exact Hf'.
Qed.

Lemma boot_spec end_kernel mem_size f p :
  frame_map f = replicate FRAME_WORDS 0 →
  tables p !! kernel_page_dir = Some (replicate (Z.to_nat 1024) 0) →
  tables p !! first_page_table = Some (replicate (Z.to_nat 1024) 0) →
  0 ≤ end_kernel → end_kernel mod 2 ^ 24 < 0x3FF000 →
  first_free_frame end_kernel / 1024 ≤ mem_size ≤ 1048576 →
  ∃ sp, (on_fst (init_frames end_kernel mem_size) ;;; on_snd (init_paging end_kernel)) (f, p)
      = Ok tt sp ∧
    paging_repr sp (first_free_frame end_kernel / PAGE_SIZE) ∧
    nframes (fst sp) = mem_size / 4 ∧
    cr3 (snd sp) = u32 (kernel_page_dir - KERNEL_VIRTUAL_BASE).
Proof using Type*.
  intros Hf Hd Ht He Hsmall Hm. pose proof (first_free_frame_eq _ He) as Hff.
  pose proof (Z.mod_pos_bound end_kernel (2 ^ 24) ltac:(lia)).
  destruct (init_frames_spec _ _ _ Hf He Hm) as (f' & E1 & Hn & Hb).
  destruct (init_paging_spec end_kernel p _ Hd Ht He Hff) as (p' & E2 & Htr & Hnx & Hc);
    [word_lia|].
  assert (first_free_frame end_kernel / PAGE_SIZE = end_kernel mod 2 ^ 24 / 4096 + 1) as Hq.
  { rewrite Hff. unfold PAGE_SIZE. word_lia. }
  rewrite <-Hq in Htr, Hnx. exists (f', p').
  rewrite (bind_ok _ _ _ tt (f', p)) by (unfold on_fst, zoom; simpl; by rewrite E1).
  unfold on_snd, zoom. simpl. rewrite E2. split; [done|]. split; [|done].
  constructor; simpl; [done..|]. split; [|done]. rewrite Hq. word_lia.
Qed.

(** Translating an address of the page that was unmapped. *)
Lemma get_phys_addr_unmapped p p' n v :
  tables_repr p n → KERNEL_VIRTUAL_BASE ≤ v < KERNEL_VIRTUAL_BASE + n * 4096 →
  tables p' = <[first_page_table :=
    <[Z.to_nat ((v - KERNEL_VIRTUAL_BASE) / 4096) := 0]> (identity_table n)]> (tables p) →
  get_phys_addr kernel_page_dir v p' = Panic "Page table entry not present" p'.
Proof using Type*.
  intros [Hd _ Hn] Hv Htabs. destruct (high_index v n Hn Hv) as (Hpd & Hpt & Hi & Hl).
  assert (tables p' !! kernel_page_dir = Some kernel_dir) as Hd'.
  { rewrite Htabs, lookup_insert_ne; [done|]. apply not_eq_sym, layout_dir_ne. }
  unfold get_phys_addr. rewrite Hpd, Hpt.
  rewrite (bind_ok _ _ _ _ _ (ld_entry_ok p' _ _ 768 _ Hd' ltac:(lia) Hl)).
  rewrite first_entry_present, table_of_first. cbn [negb].
  assert (tables p' !! first_page_table = Some (<[Z.to_nat ((v - KERNEL_VIRTUAL_BASE) / 4096) := 0]> (identity_table n))) as Ht'
    by (by rewrite Htabs, lookup_insert_eq).
  rewrite (bind_ok _ _ _ 0 p'); [done|]. eapply ld_entry_ok; [exact Ht'|lia|].
  apply list_lookup_insert_eq. rewrite identity_table_length; lia.
Qed.

(** ** Theorems *)

(** Booting: with the bitmap and the static tables zeroed (they are in .bss),
    at most 1 GiB of memory and a kernel image below 4 MiB, [init_frames] and
    [init_paging] leave the pages up to the end of the kernel mapped at
    [KERNEL_VIRTUAL_BASE] onto the frames of the same number, exactly these
    frames in use, and cr3 pointing to the physical address of the directory. *)
Theorem boot_memory end_kernel mem_size f p :
  frame_map f = replicate FRAME_WORDS 0 →
  tables p !! kernel_page_dir = Some (replicate (Z.to_nat 1024) 0) →
  tables p !! first_page_table = Some (replicate (Z.to_nat 1024) 0) →
  0 ≤ end_kernel → end_kernel mod 2 ^ 24 < 0x3FF000 →
  first_free_frame end_kernel / 1024 ≤ mem_size ≤ 1048576 →
  ∃ sp, (on_fst (init_frames end_kernel mem_size) ;;; on_snd (init_paging end_kernel)) (f, p)
      = Ok tt sp ∧
    paging_repr sp (first_free_frame end_kernel / PAGE_SIZE) ∧
    nframes (fst sp) = mem_size / 4 ∧
    cr3 (snd sp) = u32 (kernel_page_dir - KERNEL_VIRTUAL_BASE).
Proof using Type*. apply boot_spec. Qed.

(** C18. Consecutive allocations of kernel pages: as long as [n + k] stays below the
    last page of the first page table and below the number of frames, [k] calls
    of [kalloc_page] return [k] contiguous pages, each of which translates to
    the frame just allocated, and the identity mapping is extended by them. *)
Theorem kalloc_pages_contiguous k sp n :
  paging_repr sp n → n + Z.of_nat k ≤ 1023 → n + Z.of_nat k ≤ nframes (fst sp) →
  ∃ sp', kalloc_pages k sp = Ok ((λ i, KERNEL_VIRTUAL_BASE + i * 4096) <$> seqZ n k) sp' ∧
    paging_repr sp' (n + Z.of_nat k) ∧
    ∀ v, KERNEL_VIRTUAL_BASE ≤ v < KERNEL_VIRTUAL_BASE + (n + Z.of_nat k) * 4096 →
      get_phys_addr kernel_page_dir v (snd sp') = Ok (v - KERNEL_VIRTUAL_BASE) (snd sp').
Proof using Type*.
  intros Hr Hk Hf. destruct (kalloc_pages_spec k sp n Hr Hk Hf) as (sp' & E & Hr' & _).
  exists sp'. split; [done|]. split; [done|]. intros v Hv.
  rewrite (get_phys_addr_spec _ _ _ (pr_tables _ _ Hr')) by (unfold KERNEL_VIRTUAL_BASE in Hv; lia).
  by rewrite !(proj2 (Z.ltb_lt _ _)), (proj2 (Z.leb_le _ _)) by lia.
Qed.

(** The allocation of the last page of the first page table panics after it
    has succeeded: the frame is marked in use and the entry is written, then
    the search for the next free page fails. *)
Theorem kalloc_page_last sp :
  paging_repr sp 1023 → 1023 < nframes (fst sp) →
  ∃ sp', kalloc_page sp = Panic "Ran out of free pages" sp' ∧
    frames_bump (fst sp') 1024 ∧ tables_repr (snd sp') 1024.
Proof using Type*.
  intros Hr Hn. destruct (kalloc_page_spec sp 1023 Hr Hn) as (sp' & _ & Ht & Hf & E).
  by exists sp'.
Qed.

(** [get_phys_addr] on every branch, in the states the allocator produces: the
    offset translation on the mapped pages, and the two panics elsewhere. *)
Theorem get_phys_addr_correct sp n v :
  paging_repr sp n → 0 ≤ v < 2 ^ 32 →
  get_phys_addr kernel_page_dir v (snd sp) =
    if (KERNEL_VIRTUAL_BASE <=? v) && (v <? KERNEL_VIRTUAL_BASE + 0x400000) then
      if v <? KERNEL_VIRTUAL_BASE + n * 4096 then Ok (v - KERNEL_VIRTUAL_BASE) (snd sp)
      else Panic "Page table entry not present" (snd sp)
    else Panic "Page table not present" (snd sp).
Proof using Type*. intros Hr. apply get_phys_addr_spec, Hr. Qed.

(** [kfree_page] removes the mapping of exactly the page of its argument and
    makes it the next page to allocate, but releases every frame of the group of
    32 its frame lies in: the other pages of the group stay mapped to frames the
    frame allocator considers free. *)
Theorem kfree_page_effect f p n v :
  paging_repr (f, p) n → KERNEL_VIRTUAL_BASE ≤ v < KERNEL_VIRTUAL_BASE + n * 4096 →
  ∃ f' p' ks, kfree_page kernel_page_dir v (f, p) = Ok tt (f', p') ∧ next_free_page p' = v ∧
    (∀ i, 0 ≤ i < 1024 →
      ld_entry first_page_table i p' =
        Ok (if (i <? n) && negb (i =? (v - KERNEL_VIRTUAL_BASE) / 4096) then i * 4096 + 7 else 0) p') ∧
    frames_repr f' ks ∧
    ∀ i, in_use ks i ↔ 0 ≤ i < n ∧ i / 32 ≠ (v - KERNEL_VIRTUAL_BASE) / 4096 / 32.
Proof using Type*.
  intros [Hf Htr _] Hv. simpl in Hf, Htr.
  destruct (kfree_page_spec f p n v Hf Htr Hv) as (f' & p' & E & Hf' & Hnx & Htabs).
  set (k := (v - KERNEL_VIRTUAL_BASE) / 4096) in *.
  assert (0 ≤ k < n) as Hk by (unfold k; word_lia). pose proof (tr_n _ _ Htr) as Hn.
  do 3 eexists. split; [done|]. split; [done|]. split; [|split; [done|]].
  - intros i Hi. eapply ld_entry_ok; [by rewrite Htabs, lookup_insert_eq|lia|].
    destruct (Z.eqb_spec i k) as [->|Hne].
    + rewrite andb_false_r. apply list_lookup_insert_eq. rewrite identity_table_length; lia.
    + rewrite andb_true_r. rewrite list_lookup_insert_ne by lia. by apply identity_table_lookup.
  - intros i. rewrite in_use_gfree by (rewrite ?prefix_counts_length; unfold FRAME_WORDS; word_lia).
    by rewrite in_use_prefix by lia.
Qed.

(** [alloc_page_table] never allocates a table for the kernel's directory: in
    the states the allocator produces no directory entry is 0 (the unused ones
    are 2), so every call returns its argument and changes nothing. *)
Theorem alloc_page_table_noop sp n v flags :
  paging_repr sp n → 0 ≤ v < 2 ^ 32 →
  alloc_page_table kernel_page_dir v flags sp = Ok v sp ∧
  (v / 2 ^ 22 ≠ 768 → get_phys_addr kernel_page_dir v (snd sp) = Panic "Page table not present" (snd sp)).
Proof using Type*.
  intros [_ Htr _] Hv. pose proof Htr as [Hd _ _]. split.
  - assert (∃ e, kernel_dir !! Z.to_nat (Z.shiftr v 22) = Some e ∧ e ≠ 0) as (e & He & Hne).
    { rewrite Z.shiftr_div_pow2 by lia. change (2 ^ 22) with 4194304. unfold kernel_dir.
      change (Z.to_nat KERNEL_PAGE_NUMBER) with (Z.to_nat 768).
      destruct (decide (v / 4194304 = 768)) as [->|Hne].
      - rewrite list_lookup_insert_eq by (rewrite length_replicate; vm_compute; lia).
        eexists. split; [done|]. destruct layout_high. lia.
      - rewrite list_lookup_insert_ne by word_lia.
        rewrite lookup_replicate_2 by word_lia. by eexists. }
    unfold alloc_page_table. rewrite (bind_ok _ _ _ e sp).
    + by rewrite (proj2 (Z.eqb_neq _ _) Hne).
    + unfold on_snd, zoom.
      rewrite (ld_entry_ok _ _ _ (Z.shiftr v 22) _ Hd ltac:(apply Z.shiftr_nonneg; lia) He). by destruct sp.
  - change (2 ^ 22) with 4194304. intros Hne. rewrite (get_phys_addr_spec _ n) by done.
    by rewrite (proj2 (andb_false_iff _ _)) by (destruct (decide (v / 4194304 < 768));
      [left; apply Z.leb_gt|right; apply Z.ltb_ge]; unfold KERNEL_VIRTUAL_BASE; word_lia).
Qed.
End operations.

(** ** Witnesses: a kernel of 1 MiB + 10 KiB on a machine with 32 MiB. *)

Lemma layout0_ne : (0xC0105000 : Z) ≠ 0xC0106000.
Proof. lia. Qed.
Lemma layout0_high : KERNEL_VIRTUAL_BASE ≤ 0xC0106000 < 2 ^ 32.
Proof. unfold KERNEL_VIRTUAL_BASE. lia. Qed.
#[local] Instance layout0 : Layout := Build_Layout 0xC0105000 0xC0106000 layout0_ne eq_refl layout0_high.
Definition bss_frames : frames := mkFrames (replicate FRAME_WORDS 0) 0.
Definition bss_paging : paging :=
  mkPaging {[0xC0105000 := replicate (Z.to_nat 1024) 0; 0xC0106000 := replicate (Z.to_nat 1024) 0]} 0 0 0.

Lemma bss_dir : tables bss_paging !! kernel_page_dir = Some (replicate (Z.to_nat 1024) 0).
Proof. apply lookup_insert_eq. Qed.
Lemma bss_table : tables bss_paging !! first_page_table = Some (replicate (Z.to_nat 1024) 0).
Proof. by apply lookup_insert_Some; right; split; [|apply lookup_singleton_eq]. Qed.
Lemma end_first_free : first_free_frame 0xC0102800 = 4096 * 259.
Proof. reflexivity. Qed.
Lemma end_frame : first_free_frame 0xC0102800 / PAGE_SIZE = 259.
Proof. reflexivity. Qed.

Lemma boot_memory_witness :
  ∃ sp, (on_fst (init_frames 0xC0102800 32768) ;;; on_snd (init_paging 0xC0102800)) (bss_frames, bss_paging)
      = Ok tt sp ∧ paging_repr sp 259.
Proof.
  destruct (boot_memory 0xC0102800 32768 bss_frames bss_paging eq_refl bss_dir bss_table)
    as (sp & E & Hr & _); [lia|reflexivity|rewrite end_first_free; by split; vm_compute|].
  rewrite end_frame in Hr. exists sp. by split.
Defined.

(** A state with [n] pages mapped, reached from the boot state by allocations. *)
Lemma reach_pages n :
  259 ≤ n ≤ 1023 → ∃ sp, paging_repr sp n ∧ nframes (fst sp) = 8192.
Proof.
  intros Hn.
  destruct (boot_spec 0xC0102800 32768 bss_frames bss_paging eq_refl bss_dir bss_table)
    as (sp & _ & Hr & Hf & _); [lia|reflexivity|rewrite end_first_free; by split; vm_compute|].
  rewrite end_frame in Hr. change (32768 / 4) with 8192 in Hf.
  destruct (kalloc_pages_spec (Z.to_nat (n - 259)) sp 259 Hr) as (sp' & _ & Hr' & Hn'); [lia..|].
  exists sp'. split; [|lia]. by replace n with (259 + Z.of_nat (Z.to_nat (n - 259))) by lia.
Qed.

Lemma kalloc_pages_contiguous_witness :
  ∃ sp sp', paging_repr sp 259 ∧
    kalloc_pages 2 sp = Ok [0xC0103000; 0xC0104000] sp' ∧
    get_phys_addr kernel_page_dir 0xC0104ABC (snd sp') = Ok 0x104ABC (snd sp').
Proof.
  destruct (reach_pages 259) as (sp & Hr & Hf); [lia|].
  destruct (kalloc_pages_contiguous 2 sp 259 Hr) as (sp' & E & _ & Hg); [lia..|].
  exists sp, sp'. split; [done|]. split; [exact E|]. apply (Hg 0xC0104ABC). unfold KERNEL_VIRTUAL_BASE. lia.
Defined.

Lemma kalloc_page_last_witness :
  ∃ sp sp', paging_repr sp 1023 ∧ kalloc_page sp = Panic "Ran out of free pages" sp'.
Proof.
  destruct (reach_pages 1023) as (sp & Hr & Hf); [lia|].
  destruct (kalloc_page_last sp Hr) as (sp' & E & _); [lia|]. by exists sp, sp'.
Defined.

Lemma get_phys_addr_correct_witness :
  ∃ sp, paging_repr sp 300 ∧ get_phys_addr kernel_page_dir 0xC0000123 (snd sp) = Ok 0x123 (snd sp).
Proof.
  destruct (reach_pages 300) as (sp & Hr & _); [lia|]. exists sp. split; [done|].
  rewrite (get_phys_addr_correct sp 300 _ Hr) by (by split; vm_compute). reflexivity.
Defined.

Lemma kfree_page_effect_witness :
  ∃ f p f' p', paging_repr (f, p) 300 ∧ kfree_page kernel_page_dir 0xC0103000 (f, p) = Ok tt (f', p').
Proof.
  destruct (reach_pages 300) as ([f p] & Hr & _); [lia|]. exists f, p.
  destruct (kfree_page_effect f p 300 0xC0103000 Hr) as (f' & p' & _ & E & _);
    [unfold KERNEL_VIRTUAL_BASE; lia|]. by exists f', p'.
Defined.

Lemma alloc_page_table_noop_witness :
  ∃ sp, paging_repr sp 300 ∧ alloc_page_table kernel_page_dir 0x400000 7 sp = Ok 0x400000 sp.
Proof.
  destruct (reach_pages 300) as (sp & Hr & _); [lia|]. exists sp. split; [done|].
  apply (alloc_page_table_noop sp 300 0x400000 7 Hr). lia.
Defined.
