(* ===== verification/Task.v ===== *)
(** * Kernel threads (src/task.c)

    Thread control blocks are a typed store, from their address to their fields;
    address 0 is the null pointer and never in the store, so going through it is
    a [Fault].  The processor's registers are part of the state: [switch_task]
    (src/switch.s) saves those with which its caller will continue in the first
    block and loads the second.  Stacks are pages of [Paging.v]. *)

From S2P Require Import Prelude Frame Paging.

(** ** Data *)

(** [Registers] *)
Record Registers := mkRegisters {
  eax : Z; ebx : Z; ecx : Z; edx : Z; esi : Z; edi : Z; esp : Z; ebp : Z; eip : Z;
  eflags : Z; cr3 : Z }.

(** [kthread_t] *)
Record kthread := mkThread { regs : Registers; virtual_addr : Z; next : Z }.
Definition set_regs (r : Registers) (t : kthread) : kthread := mkThread r (virtual_addr t) (next t).
Definition set_next (n : Z) (t : kthread) : kthread := mkThread (regs t) (virtual_addr t) n.

(** The address of the static [main_thread], fixed by the linker. *)
Class TaskLayout := { main_thread : Z; main_thread_nonnull : main_thread ≠ 0 }.

Record tasks := mkTasks {
  threads : gmap Z kthread;
  last_thread : Z;
  running_thread : Z;
  flags : Z;
  page_dir : Z;
  cpu : Registers }.
Definition set_threads (m : gmap Z kthread) (s : tasks) : tasks :=
  mkTasks m (last_thread s) (running_thread s) (flags s) (page_dir s) (cpu s).
Definition set_last (p : Z) (s : tasks) : tasks :=
  mkTasks (threads s) p (running_thread s) (flags s) (page_dir s) (cpu s).
Definition set_running (p : Z) (s : tasks) : tasks :=
  mkTasks (threads s) (last_thread s) p (flags s) (page_dir s) (cpu s).
Definition set_cpu (r : Registers) (s : tasks) : tasks :=
  mkTasks (threads s) (last_thread s) (running_thread s) (flags s) (page_dir s) r.

Definition ld_thread (p : Z) : M tasks kthread := λ s, of_option (threads s !! p) s.
Definition upd_thread (p : Z) (f : kthread → kthread) : M tasks unit :=
  let* t := ld_thread p in modify (λ s, set_threads (<[p := f t]> (threads s)) s).

Section operations.
Context `{Layout} `{TaskLayout}.

(** ** Operations *)

Definition init_tasking : M tasks unit :=
  let* s := get in
  upd_thread main_thread (λ t,
    let r := regs t in
    set_regs (mkRegisters (eax r) (ebx r) (ecx r) (edx r) (esi r) (edi r) (esp r) (ebp r) (eip r)
                (eflags (cpu s)) (cr3 (cpu s))) t) ;;;
  modify (λ s, mkTasks (threads s) (last_thread s) (running_thread s) (eflags (cpu s)) (cr3 (cpu s)) (cpu s)) ;;;
  upd_thread main_thread (set_next 0) ;;;
  modify (set_running main_thread) ;;;
  modify (set_last main_thread).

Definition switch_task (old new : Z) : M tasks unit :=
  let* s := get in
  upd_thread old (set_regs (cpu s)) ;;;
  let* t := ld_thread new in
  modify (set_cpu (regs t)).

Definition preempt : M tasks unit :=
  let* s := get in
  let prev := running_thread s in
  (if running_thread s =? last_thread s then modify (set_running main_thread)
   else let* t := ld_thread (running_thread s) in modify (set_running (next t))) ;;;
  let* s := get in
  switch_task prev (running_thread s).

Definition kthread_create (task main : Z) : M ((frames * paging) * tasks) unit :=
  let* t := on_snd (ld_thread task) in
  let* s := gets snd in
  let* page := on_fst kalloc_page in
  on_snd
    (upd_thread task (λ t,
       mkThread (mkRegisters 0 0 0 0 0 0 (u32 (page + 0x1000)) (ebp (regs t)) main (flags s) (page_dir s))
         page 0) ;;;
     (let* s := get in upd_thread (last_thread s) (set_next task)) ;;;
     modify (set_last task) ;;;
     preempt).

Fixpoint join_loop (fuel : nat) (tmp thread : Z) : M tasks unit :=
  match fuel with
  | O => timeout
  | S f =>
      let* t := ld_thread tmp in
      if next t =? thread then ret tt else
      let* th := ld_thread thread in
      upd_thread tmp (set_next (next th)) ;;;
      modify (set_last tmp) ;;;
      let* t := ld_thread tmp in
      join_loop f (next t) thread
  end.

Definition kthread_join (fuel : nat) (thread : Z) : M ((frames * paging) * tasks) unit :=
  on_snd (join_loop fuel main_thread thread) ;;;
  let* t := on_snd (ld_thread thread) in
  on_fst (kfree_page kernel_page_dir (virtual_addr t)).

(** ** The run queue *)

(** The block of every thread of the queue exists and points to the block of the
    next one, and that of the last one to null. *)
Definition linked (m : gmap Z kthread) (q : list Z) : Prop :=
  ∀ i p, q !! i = Some p → ∃ t, m !! p = Some t ∧ next t = default 0 (q !! S i).

(** Thread number [i] of the queue [q] is running. *)
Record queue_repr (s : tasks) (q : list Z) (i : nat) : Prop := {
  q_head : q !! 0%nat = Some main_thread;
  q_last : q !! (length q - 1)%nat = Some (last_thread s);
  q_running : q !! i = Some (running_thread s);
  q_nodup : NoDup q;
  q_linked : linked (threads s) q }.

(** The saved contexts of the queue, with the processor's for the running thread. *)
Definition context (s : tasks) (p : Z) : option Registers :=
  if p =? running_thread s then Some (cpu s) else regs <$> threads s !! p.

Fixpoint preempts (n : nat) : M tasks unit :=
  match n with O => ret tt | S n => preempt ;;; preempts n end.

(** ** Lemmas *)

Lemma ld_thread_ok p t s : threads s !! p = Some t → ld_thread p s = Ok t s.
Proof using. unfold ld_thread. by intros ->. Qed.
Lemma upd_thread_ok p f t s :
  threads s !! p = Some t → upd_thread p f s = Ok tt (set_threads (<[p := f t]> (threads s)) s).
Proof using. intros Hp. unfold upd_thread. by rewrite (bind_ok _ _ _ _ _ (ld_thread_ok _ _ _ Hp)). Qed.

Lemma linked_update m q p t f :
  linked m q → m !! p = Some t → next (f t) = next t → linked (<[p := f t]> m) q.
Proof using.
  intros Hl Hp Hn i p' Hi. destruct (Hl i p' Hi) as (t' & Ht' & Hn').
  destruct (decide (p = p')) as [<-|Hne].
  - exists (f t). rewrite lookup_insert_eq. split; [done|]. rewrite Hp in Ht'. injection Ht' as <-. congruence.
  - exists t'. by rewrite lookup_insert_ne.
Qed.

Lemma context_other s p : p ≠ running_thread s → context s p = regs <$> threads s !! p.
Proof using. intros Hne. unfold context. by rewrite (proj2 (Z.eqb_neq _ _)). Qed.
Lemma context_running s : context s (running_thread s) = Some (cpu s).
Proof using. unfold context. by rewrite Z.eqb_refl. Qed.

(** Leaving the running thread for thread [new]. *)
Lemma switch_spec s old new told tnew :
  threads s !! old = Some told → threads s !! new = Some tnew →
  ∃ s', switch_task old new s = Ok tt s' ∧
    threads s' = <[old := set_regs (cpu s) told]> (threads s) ∧
    last_thread s' = last_thread s ∧ running_thread s' = running_thread s ∧
    cpu s' = (if decide (old = new) then cpu s else regs tnew).
Proof using.
  intros Ho Hn. unfold switch_task. rewrite bind_get, (bind_ok _ _ _ _ _ (upd_thread_ok _ _ _ _ Ho)).
  set (s1 := set_threads _ s).
  assert (threads s1 !! new = Some (if decide (old = new) then set_regs (cpu s) told else tnew)) as Hnew.
  { simpl. case_decide as Hd; [by rewrite Hd, lookup_insert_eq|by rewrite lookup_insert_ne]. }
  rewrite (bind_ok _ _ _ _ _ (ld_thread_ok _ _ _ Hnew)). eexists. split; [done|]. simpl.
  do 3 (split; [done|]). by case_decide.
Qed.

Lemma preempt_spec s q i :
  queue_repr s q i →
  ∃ s', preempt s = Ok tt s' ∧ queue_repr s' q (S i mod length q) ∧
    last_thread s' = last_thread s ∧
    (∀ p, p ∈ q → context s' p = context s p) ∧
    (∀ p, virtual_addr <$> threads s' !! p = virtual_addr <$> threads s !! p).
Proof using.
  intros Hq. pose proof Hq as [Hhd Hlast Hrun Hnd Hlk].
  destruct (Hlk _ _ Hrun) as (t & Ht & Hnt). pose proof (lookup_lt_Some _ _ _ Hrun) as Hi.
  set (j := (S i mod length q)%nat).
  assert (∃ new tnew, q !! j = Some new ∧ threads s !! new = Some tnew ∧
    (if running_thread s =? last_thread s then modify (set_running main_thread)
     else let* t := ld_thread (running_thread s) in modify (set_running (next t))) s
    = Ok tt (set_running new s)) as (new & tnew & Hnew & Htnew & E).
  { destruct (Z.eqb_spec (running_thread s) (last_thread s)) as [Hl|Hl].
    - rewrite Hl in Hrun. pose proof (NoDup_lookup _ _ _ _ Hnd Hrun Hlast) as ->.
      exists main_thread. assert (j = 0%nat) as ->.
      { unfold j. replace (S (length q - 1)) with (length q) by lia. apply Nat.Div0.mod_same. }
      destruct (Hlk _ _ Hhd) as (tm & Htm & _). by exists tm.
    - assert (S i < length q)%nat as Hlt.
      { destruct (decide (i = length q - 1)%nat) as [->|]; [|lia]. rewrite Hlast in Hrun. congruence. }
      assert (j = S i) as -> by (unfold j; by apply Nat.mod_small).
      destruct (lookup_lt_is_Some_2 q (S i) Hlt) as [new Hnew].
      destruct (Hlk _ _ Hnew) as (tn & Htn & _). exists new, tn. split; [done|]. split; [done|].
      rewrite (bind_ok _ _ _ _ _ (ld_thread_ok _ _ _ Ht)), Hnt, Hnew. done. }
  unfold preempt. rewrite bind_get, (bind_ok _ _ _ _ _ E), bind_get. simpl.
  destruct (switch_spec (set_running new s) (running_thread s) new t tnew Ht Htnew)
    as (s' & E' & Hth & Hla & Hru & Hcpu). simpl in Hth, Hla, Hru, Hcpu.
  exists s'. split; [done|]. split; [|split; [done|split]].
  - constructor; [done|by rewrite Hla|by rewrite Hru|done|].
    rewrite Hth. by apply linked_update.
  - intros p Hp. unfold context. rewrite Hru, Hth, Hcpu. clear Hth Hcpu.
    destruct (decide (p = new)) as [->|Hne].
    + rewrite Z.eqb_refl, Htnew. case_decide as Hr; [by rewrite Hr, Z.eqb_refl|].
      by rewrite (proj2 (Z.eqb_neq _ _)).
    + rewrite (proj2 (Z.eqb_neq p new)) by done. destruct (Z.eqb_spec p (running_thread s)) as [->|Hnr].
      * by rewrite lookup_insert_eq.
      * by rewrite lookup_insert_ne.
  - intros p. rewrite Hth. destruct (decide (p = running_thread s)) as [->|Hnr].
    + by rewrite lookup_insert_eq, Ht.
    + by rewrite lookup_insert_ne.
Qed.

Lemma preempts_spec q n : ∀ s i,
  queue_repr s q i → ∃ s', preempts n s = Ok tt s' ∧ queue_repr s' q ((i + n) mod length q) ∧
    ∀ p, p ∈ q → context s' p = context s p.
Proof using.
  induction n as [|n IH]; intros s i Hq; pose proof (lookup_lt_Some _ _ _ (q_running _ _ _ Hq)) as Hi.
  - exists s. split; [done|]. by rewrite Nat.add_0_r, Nat.mod_small.
  - destruct (preempt_spec s q i Hq) as (s1 & E1 & Hq1 & _ & Hc1 & _).
    destruct (IH s1 _ Hq1) as (s2 & E2 & Hq2 & Hc2). exists s2. simpl.
    rewrite (bind_ok _ _ _ _ _ E1). split; [done|]. split.
    + rewrite Nat.Div0.add_mod_idemp_l in Hq2. by replace (i + S n)%nat with (S i + n)%nat by lia.
    + intros p Hp. by rewrite Hc2, Hc1.
Qed.

(** A block outside of the queue. *)
Lemma queue_insert s q i task t :
  queue_repr s q i → task ∉ q → queue_repr (set_threads (<[task := t]> (threads s)) s) q i.
Proof using.
  intros [? ? ? ? Hlk] Hnin. constructor; [done..|]. intros j p Hj.
  assert (p ≠ task) by (intros ->; apply Hnin; by eapply list_elem_of_lookup_2).
  destruct (Hlk j p Hj) as (t' & Ht & Hnt). exists t'. simpl. by rewrite lookup_insert_ne.
Qed.

(** Appending a new block to the queue, before the switch. *)
Lemma append_spec s q i task tnew :
  queue_repr s q i → task ≠ 0 → task ∉ q → threads s !! task = Some tnew → next tnew = 0 →
  ∃ s', ((let* s := get in upd_thread (last_thread s) (set_next task)) ;;; modify (set_last task)) s
      = Ok tt s' ∧ queue_repr s' (q ++ [task]) i ∧ cpu s' = cpu s ∧ running_thread s' = running_thread s ∧
    (∀ p, regs <$> threads s' !! p = regs <$> threads s !! p) ∧
    (∀ p, virtual_addr <$> threads s' !! p = virtual_addr <$> threads s !! p).
Proof using.
  intros [Hhd Hlast Hrun Hnd Hlk] Hnull Hnin Htask Hnext.
  pose proof (lookup_lt_Some _ _ _ Hhd) as Hlen.
  destruct (Hlk _ _ Hlast) as (tl & Htl & _).
  assert (last_thread s ≠ task) as Hne.
  { intros <-. apply Hnin. by eapply list_elem_of_lookup_2. }
  rewrite bind_assoc, bind_get, (bind_ok _ _ _ _ _ (upd_thread_ok _ (set_next task) _ _ Htl)).
  eexists. split; [done|]. split; [|split; [done|split; [done|]]].
  - constructor; simpl.
    + by apply lookup_app_l_Some.
    + rewrite length_app. simpl. rewrite lookup_app_r by lia.
      by replace (length q + 1 - 1 - length q)%nat with 0%nat by lia.
    + by apply lookup_app_l_Some.
    + apply NoDup_app. split; [done|]. split; [|apply NoDup_singleton].
      intros x Hx ->%list_elem_of_singleton. done.
    + intros j p Hj. destruct (decide (p = last_thread s)) as [->|Hpl].
      * exists (set_next task tl). rewrite lookup_insert_eq. split; [done|]. simpl.
        assert (j = length q - 1)%nat as ->.
        { apply lookup_app_Some in Hj as [Hj|[_ Hj]]; [by eapply NoDup_lookup|].
          destruct (j - length q)%nat; [|done]. simpl in Hj. congruence. }
        rewrite lookup_app_r by lia. by replace (S (length q - 1) - length q)%nat with 0%nat by lia.
      * rewrite lookup_insert_ne by done. apply lookup_app_Some in Hj as [Hj|[Hge Hj]].
        -- destruct (Hlk _ _ Hj) as (t & Ht & Hn). exists t. split; [done|]. rewrite Hn.
           assert (S j < length q)%nat as Hlt.
           { pose proof (lookup_lt_Some _ _ _ Hj). destruct (decide (j = length q - 1)%nat); [|lia].
             subst j. rewrite Hlast in Hj. congruence. }
           by rewrite lookup_app_l.
        -- destruct (j - length q)%nat eqn:Ej; [|done]. simpl in Hj. injection Hj as <-.
           exists tnew. split; [done|]. rewrite Hnext.
           rewrite lookup_ge_None_2; [done|]. rewrite length_app. simpl. lia.
  - split; intros p; simpl; (destruct (decide (p = last_thread s)) as [->|Hpl];
      [by rewrite lookup_insert_eq, Htl|by rewrite lookup_insert_ne]).
Qed.

(** [init_tasking] on the block of the main thread. *)
Lemma init_tasking_spec s t :
  threads s !! main_thread = Some t →
  ∃ s', init_tasking s = Ok tt s' ∧ queue_repr s' [main_thread] 0 ∧ flags s' = eflags (cpu s) ∧
    page_dir s' = cr3 (cpu s) ∧ cpu s' = cpu s ∧ ∀ p, p ≠ main_thread → threads s' !! p = threads s !! p.
Proof using.
  intros Ht. unfold init_tasking. rewrite bind_get, (bind_ok _ _ _ _ _ (upd_thread_ok _ _ _ _ Ht)), bind_modify.
  match goal with |- context [bind (upd_thread main_thread (set_next 0)) _ ?s1] =>
    rewrite (bind_ok _ _ _ _ _ (upd_thread_ok main_thread (set_next 0) _ s1 (lookup_insert_eq _ _ _))) end.
  rewrite bind_modify. eexists. split; [reflexivity|]. split; [|split; [done|split; [done|split; [done|]]]].
  - constructor; try done; [apply NoDup_singleton|]. intros [|i] p Hi; [|done]. injection Hi as <-.
    eexists. split; [apply lookup_insert_eq|done].
  - intros p Hp. simpl. by rewrite !lookup_insert_ne by done.
Qed.

(** [kthread_create] with the page it takes. *)
Lemma kthread_create_spec s q i fp n task main :
  queue_repr s q i → paging_repr fp n → n < 1023 → n < nframes (fst fp) →
  task ≠ 0 → task ∉ q → is_Some (threads s !! task) →
  ∃ fp' s' r, kthread_create task main (fp, s) = Ok tt (fp', s') ∧ paging_repr fp' (n + 1) ∧
    queue_repr s' (q ++ [task]) (S i mod (length q + 1)) ∧
    (∀ p, p ∈ q → context s' p = context s p) ∧
    context s' task = Some r ∧ eip r = main ∧ esp r = KERNEL_VIRTUAL_BASE + (n + 1) * 4096 ∧
    eflags r = flags s ∧ cr3 r = page_dir s ∧
    r = mkRegisters 0 0 0 0 0 0 (esp r) (ebp r) (eip r) (eflags r) (cr3 r) ∧ nframes (fst fp') = nframes (fst fp) ∧
    virtual_addr <$> threads s' !! task = Some (KERNEL_VIRTUAL_BASE + n * 4096) ∧
    ∀ p, p ≠ task → virtual_addr <$> threads s' !! p = virtual_addr <$> threads s !! p.
Proof using Type*.
  intros Hq Hp Hn Hf Hnull Hnin [told Hold].
  destruct (kalloc_page_spec fp n Hp Hf) as (fp' & Hnf & _ & _ & Hs).
  rewrite (proj2 (Z.ltb_lt _ _)) in Hs by done. destruct Hs as [Epage Hp'].
  set (r := mkRegisters 0 0 0 0 0 0 (KERNEL_VIRTUAL_BASE + (n + 1) * 4096) (ebp (regs told)) main (flags s) (page_dir s)).
  set (page := KERNEL_VIRTUAL_BASE + n * 4096) in *.
  assert (u32 (page + 0x1000) = KERNEL_VIRTUAL_BASE + (n + 1) * 4096) as Hesp.
  { unfold page, KERNEL_VIRTUAL_BASE. destruct Hp as [[_ ?] _ _]. rewrite u32_small; lia. }
  set (s1 := set_threads (<[task := mkThread r page 0]> (threads s)) s).
  assert (queue_repr s1 q i) as Hq1 by (by apply queue_insert).
  destruct (append_spec s1 q i task (mkThread r page 0) Hq1) as (s2 & E2 & Hq2 & Hcpu2 & Hrun2 & Hregs2 & Hva2);
    [done..|simpl; by rewrite lookup_insert_eq|done|].
  destruct (preempt_spec s2 _ i Hq2) as (s3 & E3 & Hq3 & _ & Hc3 & Hva3).
  rewrite length_app in Hq3. simpl in Hq3.
  assert (∀ p, context s2 p = if p =? running_thread s then Some (cpu s)
            else if p =? task then Some r else regs <$> threads s !! p) as Hc2.
  { intros p. unfold context. rewrite Hrun2, Hcpu2, Hregs2. simpl.
    destruct (p =? running_thread s); [done|]. destruct (Z.eqb_spec p task) as [->|Hne].
    - by rewrite lookup_insert_eq.
    - by rewrite lookup_insert_ne. }
  exists fp', s3, r. split; [|split; [done|split; [done|]]].
  - unfold kthread_create. rewrite (bind_ok _ _ _ told (fp, s)); last first.
    { unfold on_snd, zoom. simpl. by rewrite (ld_thread_ok _ _ _ Hold). }
    rewrite bind_gets, (bind_ok _ _ _ page (fp', s)); last first.
    { unfold on_fst, zoom. simpl. by rewrite Epage. }
    unfold on_snd, zoom. cbn [fst snd]. rewrite (bind_ok _ _ _ _ _ (upd_thread_ok _ _ _ _ Hold)).
    rewrite Hesp. fold r. fold s1. rewrite <-bind_assoc, (bind_ok _ _ _ _ _ E2), E3. done.
  - split; [|split; [|split_and!; try done]].
    + intros p Hp0. rewrite Hc3 by (apply elem_of_app; by left). rewrite Hc2. unfold context.
      destruct (p =? running_thread s); [done|]. by rewrite (proj2 (Z.eqb_neq p task)) by (intros ->; done).
    + rewrite Hc3 by (apply elem_of_app; right; by apply list_elem_of_singleton). rewrite Hc2.
      rewrite (proj2 (Z.eqb_neq task (running_thread s))), Z.eqb_refl; [done|].
      intros ->. apply Hnin. eapply list_elem_of_lookup_2, Hq.
    + by rewrite Hva3, Hva2; simpl; rewrite lookup_insert_eq.
    + intros p Hpt. rewrite Hva3, Hva2. simpl. by rewrite lookup_insert_ne.
Qed.

(** ** Theorems *)

(** C21. [preempt] is round robin: with thread [i] of the queue running it saves the
    processor's registers in that thread, makes the next thread of the queue
    (the first one after the last) the running one with its saved registers
    on the processor, and no thread's context is lost. *)
Theorem preempt_round_robin s q i :
  queue_repr s q i →
  ∃ s' new, preempt s = Ok tt s' ∧ queue_repr s' q (S i mod length q) ∧
    q !! (S i mod length q)%nat = Some new ∧ running_thread s' = new ∧
    Some (cpu s') = context s new ∧ ∀ p, p ∈ q → context s' p = context s p.
Proof using.
  intros Hq. destruct (preempt_spec s q i Hq) as (s' & E & Hq' & _ & Hc & _).
  exists s', (running_thread s'). pose proof (q_running _ _ _ Hq') as Hr.
  split_and!; try done. rewrite <-Hc by (by eapply list_elem_of_lookup_2). by rewrite context_running.
Qed.

(** A full round of [preempt] returns to the thread it started from with the
    processor's registers as they were. *)
Theorem preempt_full_round s q i :
  queue_repr s q i →
  ∃ s', preempts (length q) s = Ok tt s' ∧ running_thread s' = running_thread s ∧ cpu s' = cpu s.
Proof using.
  intros Hq. destruct (preempts_spec q (length q) s i Hq) as (s' & E & Hq' & Hc).
  pose proof (lookup_lt_Some _ _ _ (q_running _ _ _ Hq)) as Hi.
  replace ((i + length q) mod length q)%nat with i in Hq'.
  - assert (running_thread s' = running_thread s) as Hr.
    { pose proof (q_running _ _ _ Hq). pose proof (q_running _ _ _ Hq'). congruence. }
    exists s'. split_and!; [done..|].
    assert (running_thread s ∈ q) as Hin by (eapply list_elem_of_lookup_2, Hq).
    specialize (Hc _ Hin). rewrite <-Hr in Hc at 1. rewrite !context_running in Hc. by injection Hc.
  - rewrite <-Nat.Div0.add_mod_idemp_r, Nat.Div0.mod_same, Nat.add_0_r. symmetry. by apply Nat.mod_small.
Qed.

(** C23. Every thread of the queue is run again: however the queue stands, less than one round
    of [preempt] makes it the running one, with the context it was left with on the
    processor. *)
Theorem preempt_fair s q i p :
  queue_repr s q i → p ∈ q →
  ∃ n s', (n < length q)%nat ∧ preempts n s = Ok tt s' ∧ running_thread s' = p ∧ Some (cpu s') = context s p.
Proof using.
  intros Hq [j Hj]%list_elem_of_lookup. pose proof (lookup_lt_Some _ _ _ Hj) as Hjl.
  pose proof (lookup_lt_Some _ _ _ (q_running _ _ _ Hq)) as Hi.
  set (n := if decide (i ≤ j)%nat then (j - i)%nat else (j + length q - i)%nat).
  assert ((n < length q)%nat ∧ ((i + n) mod length q)%nat = j) as [Hn Hmod].
  { unfold n. case_decide.
    - replace (i + (j - i))%nat with j by lia. split; [lia|by apply Nat.mod_small].
    - replace (i + (j + length q - i))%nat with (j + 1 * length q)%nat by lia.
      rewrite Nat.Div0.mod_add. split; [lia|by apply Nat.mod_small]. }
  destruct (preempts_spec q n s i Hq) as (s' & E & Hq' & Hc). rewrite Hmod in Hq'.
  assert (running_thread s' = p) as Hr by (pose proof (q_running _ _ _ Hq'); congruence).
  exists n, s'. split_and!; try done. rewrite <-(Hc p) by (by eapply list_elem_of_lookup_2).
  by rewrite <-Hr, context_running.
Qed.

(** [kthread_create] appends the thread to the run queue with a fresh page as its
    stack, the entry point and the flags and page directory of [init_tasking],
    keeps the context of every other thread, and switches to the next one. *)
Theorem kthread_create_correct s q i fp n task main :
  queue_repr s q i → paging_repr fp n → n < 1023 → n < nframes (fst fp) →
  task ≠ 0 → task ∉ q → is_Some (threads s !! task) →
  ∃ fp' s' r, kthread_create task main (fp, s) = Ok tt (fp', s') ∧ paging_repr fp' (n + 1) ∧
    queue_repr s' (q ++ [task]) (S i mod (length q + 1)) ∧
    (∀ p, p ∈ q → context s' p = context s p) ∧
    context s' task = Some r ∧ eip r = main ∧ esp r = KERNEL_VIRTUAL_BASE + (n + 1) * 4096 ∧
    eflags r = flags s ∧ cr3 r = page_dir s.
Proof using Type*.
  intros Hq Hp Hn Hf Hnull Hnin Hold.
  destruct (kthread_create_spec s q i fp n task main Hq Hp Hn Hf Hnull Hnin Hold)
    as (fp' & s' & r & E & Hp' & Hq' & Hc & Hr & He & Hs & Hfl & Hcr & _).
  exists fp', s', r. by split_and!.
Qed.

(** Joining the first thread after the main thread: its stack page is unmapped and
    nothing else happens; the thread stays in the run queue with its context, so
    a later [preempt] switches to it although its stack no longer exists. *)
Theorem kthread_join_first s q i f p n thread t fuel :
  queue_repr s q i → q !! 1%nat = Some thread → threads s !! thread = Some t →
  paging_repr (f, p) n →
  KERNEL_VIRTUAL_BASE ≤ virtual_addr t < KERNEL_VIRTUAL_BASE + n * 4096 →
  ∃ f' p', kthread_join (S fuel) thread ((f, p), s) = Ok tt ((f', p'), s) ∧
    get_phys_addr kernel_page_dir (virtual_addr t) p' = Panic "Page table entry not present" p'.
Proof using Type*.
  intros Hq H1 Ht [Hf Htr _] Hv. simpl in Hf, Htr.
  destruct (kfree_page_spec f p n (virtual_addr t) Hf Htr Hv) as (f' & p' & E & _ & _ & Htabs).
  exists f', p'. split.
  - destruct (q_linked _ _ _ Hq _ _ (q_head _ _ _ Hq)) as (tm & Htm & Hn).
    unfold kthread_join. rewrite (bind_ok _ _ _ tt ((f, p), s)); last first.
    { unfold on_snd, zoom. simpl. rewrite (bind_ok _ _ _ _ _ (ld_thread_ok _ _ _ Htm)).
      rewrite Hn, H1. simpl. by rewrite Z.eqb_refl. }
    rewrite (bind_ok _ _ _ t ((f, p), s)); last first.
    { unfold on_snd, zoom. simpl. by rewrite (ld_thread_ok _ _ _ Ht). }
    unfold on_fst, zoom. cbn [fst snd]. by rewrite E.
  - by eapply get_phys_addr_unmapped.
Qed.

(** Joining the last thread of a queue of at least three dereferences the null
    pointer: the loop overwrites the link of the main thread with the null link
    of the joined thread and then follows it. *)
Theorem kthread_join_last_faults s q i fp fuel :
  queue_repr s q i → (3 ≤ length q)%nat → threads s !! 0 = None →
  kthread_join (S (S fuel)) (last_thread s) (fp, s) = Fault.
Proof using.
  intros Hq Hlen Hnull. pose proof Hq as [Hhd Hlast _ Hnd Hlk].
  destruct (Hlk _ _ Hhd) as (tm & Htm & Hn). destruct (Hlk _ _ Hlast) as (tl & Htl & Hnl).
  destruct (lookup_lt_is_Some_2 q 1) as [p1 Hp1]; [lia|]. rewrite Hp1 in Hn. simpl in Hn.
  assert (p1 ≠ last_thread s) as Hne.
  { intros ->. pose proof (NoDup_lookup _ _ _ _ Hnd Hp1 Hlast). lia. }
  assert (main_thread ≠ last_thread s) as Hne'.
  { intros Heq. rewrite Heq in Hhd. pose proof (NoDup_lookup _ _ _ _ Hnd Hhd Hlast). lia. }
  rewrite (lookup_ge_None_2 q) in Hnl by lia. simpl in Hnl.
  unfold kthread_join. apply bind_fault. unfold on_snd, zoom. cbn [snd join_loop].
  rewrite (bind_ok _ _ _ _ _ (ld_thread_ok _ _ _ Htm)), Hn, (proj2 (Z.eqb_neq _ _) Hne).
  rewrite (bind_ok _ _ _ _ _ (ld_thread_ok _ _ _ Htl)), Hnl.
  rewrite (bind_ok _ _ _ _ _ (upd_thread_ok _ _ _ _ Htm)), bind_modify.
  set (s2 := set_last _ _).
  assert (threads s2 !! main_thread = Some (set_next 0 tm)) as Htm2 by (simpl; by rewrite lookup_insert_eq).
  rewrite (bind_ok _ _ _ _ _ (ld_thread_ok _ _ _ Htm2)). simpl. unfold ld_thread at 1, bind at 1. simpl.
  rewrite lookup_insert_ne by apply main_thread_nonnull. by rewrite Hnull.
Qed.
End operations.

(** ** Witnesses: a main thread, two further threads in the queue and a free block. *)

#[local] Existing Instance layout0.
Lemma main_nonnull : (0xC0107000 : Z) ≠ 0.
Proof. lia. Qed.
#[local] Instance task_layout0 : TaskLayout := Build_TaskLayout 0xC0107000 main_nonnull.
Definition regs0 (v : Z) : Registers := mkRegisters v v v v v v v v v v v.
Definition tasks0 : tasks := mkTasks
  (list_to_map [(0xC0107000, mkThread (regs0 0) 0 8); (8, mkThread (regs0 1) 0xC0000000 16);
                (16, mkThread (regs0 2) 0xC0001000 0); (24, mkThread (regs0 3) 0 0)])
  16 0xC0107000 2 0x105000 (regs0 9).
Definition queue0 : list Z := [0xC0107000; 8; 16].

Lemma tasks0_repr : queue_repr tasks0 queue0 0.
Proof.
  constructor; try done.
  - apply (bool_decide_eq_true_1 (NoDup queue0)). reflexivity.
  - intros [|[|[|j]]] p Hp; simpl in Hp; simplify_eq; by eexists.
Qed.

Lemma preempt_round_robin_witness :
  ∃ s', preempt tasks0 = Ok tt s' ∧ running_thread s' = 8 ∧ cpu s' = regs0 1.
Proof.
  destruct (preempt_round_robin tasks0 queue0 0 tasks0_repr) as (s' & new & E & _ & Hn & Hr & Hc & _).
  injection Hn as <-. injection Hc as Hc. by exists s'.
Defined.

Lemma preempt_full_round_witness :
  ∃ s', preempts 3 tasks0 = Ok tt s' ∧ running_thread s' = 0xC0107000 ∧ cpu s' = regs0 9.
Proof.
  destruct (preempt_full_round tasks0 queue0 0 tasks0_repr) as (s' & E & Hr & Hc). by exists s'.
Defined.

Lemma preempt_fair_witness :
  ∃ n s', (n < 3)%nat ∧ preempts n tasks0 = Ok tt s' ∧ running_thread s' = 16.
Proof.
  destruct (preempt_fair tasks0 queue0 0 16 tasks0_repr) as (n & s' & Hn & E & Hr & _); [by apply (bool_decide_eq_true_1 _)|].
  exists n, s'. split; [exact Hn|]. split; [exact E|exact Hr].
Defined.
Lemma kthread_create_correct_witness :
  ∃ fp fp' s' r, kthread_create 24 0xC0100000 (fp, tasks0) = Ok tt (fp', s') ∧
    context s' 24 = Some r ∧ eip r = 0xC0100000.
Proof.
  destruct (reach_pages 259) as (fp & Hp & Hf); [lia|].
  destruct (kthread_create_correct tasks0 queue0 0 fp 259 24 0xC0100000 tasks0_repr Hp)
    as (fp' & s' & r & E & _ & _ & _ & Hc & He & _); [lia|lia|done| |by eexists|by exists fp, fp', s', r].
  apply (bool_decide_eq_true_1 (24 ∉ queue0)). reflexivity.
Defined.

Lemma kthread_join_first_witness :
  ∃ f p f' p', kthread_join 1 8 ((f, p), tasks0) = Ok tt ((f', p'), tasks0).
Proof.
  destruct (reach_pages 259) as ([f p] & Hp & Hf); [lia|].
  destruct (kthread_join_first tasks0 queue0 0 f p 259 8 (mkThread (regs0 1) 0xC0000000 16) 0 tasks0_repr)
    as (f' & p' & E & _); [done..|unfold KERNEL_VIRTUAL_BASE; simpl; lia|by exists f, p, f', p'].
Defined.

Lemma kthread_join_last_faults_witness :
  ∃ fp, kthread_join 2 16 (fp, tasks0) = Fault.
Proof.
  destruct (reach_pages 259) as (fp & _); [lia|]. exists fp.
  apply (kthread_join_last_faults tasks0 queue0 0 fp 0 tasks0_repr); [simpl; lia|done].
Defined.
