(* ===== verification/Switch.v ===== *)
(** * Switching threads, instruction by instruction (switch.s)

    [Task.v] takes [switch_task] by its effect. Here its instructions run on memory in
    words, with the blocks of the threads and their stacks in it, and have that effect. All
    threads use the page directory of the kernel, so that the addresses mean the same before
    and after cr3 is loaded. *)

From S2P Require Import Prelude Frame Paging Task.

(** ** Instructions; the processor is the record [Registers] *)

Inductive gpr := Eax | Ebx | Ecx | Edx | Esi | Edi | Esp | Ebp.
Inductive sw_insn :=
  | Pusha | Pushf | Popf | Push (r : gpr) | Pop (r : gpr)
  | Load (off : Z) (b : gpr) (dst : gpr) | Store (src : gpr) (off : Z) (b : gpr) | Add_imm (v : Z) (r : gpr)
  | Get_cr3 | Set_cr3 | Xchg_top_eax | Ret.

Definition get_gpr (g : gpr) (r : Registers) : Z :=
  match g with Eax => eax r | Ebx => ebx r | Ecx => ecx r | Edx => edx r | Esi => esi r | Edi => edi r | Esp => esp r | Ebp => ebp r end.
Definition set_gpr (g : gpr) (v : Z) (r : Registers) : Registers :=
  mkRegisters (match g with Eax => v | _ => eax r end) (match g with Ebx => v | _ => ebx r end) (match g with Ecx => v | _ => ecx r end)
    (match g with Edx => v | _ => edx r end) (match g with Esi => v | _ => esi r end) (match g with Edi => v | _ => edi r end)
    (match g with Esp => v | _ => esp r end) (match g with Ebp => v | _ => ebp r end) (eip r) (eflags r) (cr3 r).
Definition with_eip (v : Z) (r : Registers) : Registers :=
  mkRegisters (eax r) (ebx r) (ecx r) (edx r) (esi r) (edi r) (esp r) (ebp r) v (eflags r) (cr3 r).
Definition with_eflags (v : Z) (r : Registers) : Registers :=
  mkRegisters (eax r) (ebx r) (ecx r) (edx r) (esi r) (edi r) (esp r) (ebp r) (eip r) v (cr3 r).
Definition with_cr3 (v : Z) (r : Registers) : Registers :=
  mkRegisters (eax r) (ebx r) (ecx r) (edx r) (esi r) (edi r) (esp r) (ebp r) (eip r) (eflags r) v.

(** Memory of words, and the state. *)
#[local] Abbreviation words := (gmap Z Z).
Definition ld (a : Z) (m : words) : option Z := if a mod 4 =? 0 then m !! a else None.
Definition st (a v : Z) (m : words) : option words :=
  if a mod 4 =? 0 then (if m !! a is Some _ then Some (<[a := v]> m) else None) else None.
Definition sw_push (v : Z) (s : Registers * words) : option (Registers * words) :=
  let a := u32 (esp (fst s) - 4) in m ← st a v (snd s); Some (set_gpr Esp a (fst s), m).
Definition sw_pop (s : Registers * words) : option (Z * (Registers * words)) :=
  v ← ld (esp (fst s)) (snd s); Some (v, (set_gpr Esp (u32 (esp (fst s) + 4)) (fst s), snd s)).
Fixpoint push_all (l : list Z) (s : Registers * words) : option (Registers * words) :=
  match l with [] => Some s | v :: l => s ← sw_push v s; push_all l s end.

Definition exec_sw (i : sw_insn) (s : Registers * words) : option (Registers * words) :=
  let (r, m) := s in
  match i with
  | Pusha => push_all [eax r; ecx r; edx r; ebx r; esp r; ebp r; esi r; edi r] s
  | Pushf => sw_push (eflags r) s
  | Popf => '(v, s) ← sw_pop s; Some (with_eflags v (fst s), snd s)
  | Push g => sw_push (get_gpr g r) s
  | Pop g => '(v, s) ← sw_pop s; Some (set_gpr g v (fst s), snd s)
  | Load off b dst => v ← ld (u32 (get_gpr b r + off)) m; Some (set_gpr dst v r, m)
  | Store src off b => m ← st (u32 (get_gpr b r + off)) (get_gpr src r) m; Some (r, m)
  | Add_imm v g => Some (set_gpr g (u32 (get_gpr g r + v)) r, m)
  | Get_cr3 => Some (set_gpr Eax (cr3 r) r, m)
  | Set_cr3 => Some (with_cr3 (eax r) r, m)
  | Xchg_top_eax => v ← ld (esp r) m; m ← st (esp r) (eax r) m; Some (set_gpr Eax v r, m)
  | Ret => '(v, s) ← sw_pop s; Some (with_eip v (fst s), snd s)
  end.
Fixpoint exec_all_sw (l : list sw_insn) (s : Registers * words) : option (Registers * words) :=
  match l with [] => Some s | i :: l => s ← exec_sw i s; exec_all_sw l s end.

(** ** The code: saving in the first object, loading from the second, changing the stack *)

Definition save_code : list sw_insn :=
  [Pusha; Pushf; Get_cr3; Push Eax;
   Load 44 Esp Eax; Store Ebx 4 Eax; Store Ecx 8 Eax; Store Edx 12 Eax; Store Esi 16 Eax; Store Edi 20 Eax;
   Load 36 Esp Ebx; Load 40 Esp Ecx; Load 20 Esp Edx; Add_imm 4 Edx; Load 16 Esp Esi; Load 4 Esp Edi;
   Store Ebx 0 Eax; Store Edx 24 Eax; Store Esi 28 Eax; Store Ecx 32 Eax; Store Edi 36 Eax;
   Pop Ebx; Store Ebx 40 Eax; Push Ebx].
Definition load_code : list sw_insn :=
  [Load 48 Esp Eax; Load 4 Eax Ebx; Load 8 Eax Ecx; Load 12 Eax Edx; Load 16 Eax Esi; Load 20 Eax Edi; Load 28 Eax Ebp;
   Push Eax; Load 36 Eax Eax; Push Eax; Popf; Pop Eax].
Definition change_code : list sw_insn :=
  [Load 24 Eax Esp; Push Eax; Load 40 Eax Eax; Set_cr3; Pop Eax; Push Eax; Load 32 Eax Eax; Xchg_top_eax; Load 0 Eax Eax; Ret].
Definition switch_task_code : list sw_insn := save_code ++ load_code ++ change_code.

(** ** Specification *)

(** [Registers] at an address. *)
Definition regs_at (m : words) (a : Z) (r : Registers) : Prop :=
  m !! a = Some (eax r) ∧ m !! (a + 4) = Some (ebx r) ∧ m !! (a + 8) = Some (ecx r) ∧ m !! (a + 12) = Some (edx r) ∧
  m !! (a + 16) = Some (esi r) ∧ m !! (a + 20) = Some (edi r) ∧ m !! (a + 24) = Some (esp r) ∧ m !! (a + 28) = Some (ebp r) ∧
  m !! (a + 32) = Some (eip r) ∧ m !! (a + 36) = Some (eflags r) ∧ m !! (a + 40) = Some (cr3 r).
(** What a call of [switch_task] goes on with: the return address, and the stack without it. *)
Definition resumes (r : Registers) (ret : Z) : Registers := with_eip ret (set_gpr Esp (esp r + 4) r).
(** Words of memory that exist. *)
Definition mapped (m : words) (lo hi : Z) : Prop := ∀ a, lo ≤ a < hi → a mod 4 = 0 → is_Some (m !! a).

(** ** Lemmas *)

Lemma aligned_plus a k : a mod 4 = 0 → k mod 4 = 0 → (a + k) mod 4 = 0.
Proof. intros. Z.div_mod_to_equations. lia. Qed.
Lemma mapped_insert m lo hi a v : mapped m lo hi → mapped (<[a := v]> m) lo hi.
Proof. intros Hm b Hb Hb4. destruct (decide (a = b)) as [->|]; [by rewrite lookup_insert_eq|]. rewrite lookup_insert_ne by done. by apply Hm. Qed.
Lemma ld_ok a m v : a mod 4 = 0 → m !! a = Some v → ld a m = Some v.
Proof. unfold ld. intros ->. done. Qed.
Lemma st_ok a v m : a mod 4 = 0 → is_Some (m !! a) → st a v m = Some (<[a := v]> m).
Proof. unfold st. by intros -> [w ->]. Qed.
Lemma run_cons i l s : exec_all_sw (i :: l) s = s ← exec_sw i s; exec_all_sw l s.
Proof. done. Qed.
Lemma run_app l1 l2 s : exec_all_sw (l1 ++ l2) s = s ← exec_all_sw l1 s; exec_all_sw l2 s.
Proof. revert s. induction l1 as [|i l1 IH]; intros s; [done|]. cbn [app exec_all_sw]. destruct (exec_sw i s); [apply IH|done]. Qed.

Lemma push_ok v r m a : u32 (esp r - 4) = a → a mod 4 = 0 → is_Some (m !! a) → sw_push v (r, m) = Some (set_gpr Esp a r, <[a := v]> m).
Proof. intros E Ha Hm. unfold sw_push. cbn [fst snd]. rewrite E, st_ok by done. done. Qed.
Lemma exec_load off b dst r m a v : u32 (get_gpr b r + off) = a → a mod 4 = 0 → m !! a = Some v →
  exec_sw (Load off b dst) (r, m) = Some (set_gpr dst v r, m).
Proof. intros E Ha Hm. unfold exec_sw. by rewrite E, (ld_ok _ _ v). Qed.
Lemma exec_store off b src r m a : u32 (get_gpr b r + off) = a → a mod 4 = 0 → is_Some (m !! a) →
  exec_sw (Store src off b) (r, m) = Some (r, <[a := get_gpr src r]> m).
Proof. intros E Ha Hm. unfold exec_sw. by rewrite E, st_ok. Qed.
Lemma exec_push g r m a : u32 (esp r - 4) = a → a mod 4 = 0 → is_Some (m !! a) →
  exec_sw (Push g) (r, m) = Some (set_gpr Esp a r, <[a := get_gpr g r]> m).
Proof. apply push_ok. Qed.
Lemma exec_pop g r m a v a' : esp r = a → u32 (a + 4) = a' → a mod 4 = 0 → m !! a = Some v →
  exec_sw (Pop g) (r, m) = Some (set_gpr g v (set_gpr Esp a' r), m).
Proof. intros <- <- Ha Hm. unfold exec_sw, sw_pop. cbn [fst snd]. by rewrite (ld_ok _ _ v). Qed.

Lemma exec_popf r m a v a' : esp r = a → u32 (a + 4) = a' → a mod 4 = 0 → m !! a = Some v →
  exec_sw Popf (r, m) = Some (with_eflags v (set_gpr Esp a' r), m).
Proof. intros <- <- Ha Hm. unfold exec_sw, sw_pop. cbn [fst snd]. by rewrite (ld_ok _ _ v). Qed.
Lemma exec_ret r m a v a' : esp r = a → u32 (a + 4) = a' → a mod 4 = 0 → m !! a = Some v →
  exec_sw Ret (r, m) = Some (with_eip v (set_gpr Esp a' r), m).
Proof. intros <- <- Ha Hm. unfold exec_sw, sw_pop. cbn [fst snd]. by rewrite (ld_ok _ _ v). Qed.
Lemma exec_xchg r m a v : esp r = a → a mod 4 = 0 → m !! a = Some v →
  exec_sw Xchg_top_eax (r, m) = Some (set_gpr Eax v r, <[a := eax r]> m).
Proof. intros <- Ha Hm. unfold exec_sw. rewrite (ld_ok _ _ v) by done. cbn [mbind option_bind]. by rewrite st_ok by (done || by eexists). Qed.

(** The registers of the state are a record, so that these compute. *)
Ltac regs_cbv :=
  cbv [mbind option_bind set_gpr get_gpr with_eip with_eflags with_cr3 resumes fst snd eax ebx ecx edx esi edi esp ebp eip eflags cr3].
Ltac word_at := first [done | by apply aligned_plus].
Ltac is_mapped :=
  match goal with
  | Hm : mapped ?m ?lo ?hi |- is_Some (?n !! _) =>
      let X := fresh in assert (mapped n lo hi) as X by (repeat apply mapped_insert; exact Hm); apply X; [lia|word_at]
  end.
Ltac address := cbv [get_gpr eax ebx ecx edx esi edi esp ebp]; rewrite ?u32_small by lia; lia.
Ltac found := rewrite ?lookup_insert_ne by lia; first [assumption | apply lookup_insert_eq].
Ltac load_at a v := rewrite run_cons, (exec_load _ _ _ _ _ a v); [regs_cbv|address|word_at|found].
Ltac store_at a := rewrite run_cons, (exec_store _ _ _ _ _ a); [regs_cbv|address|word_at|is_mapped].
Ltac push_at a := rewrite run_cons, (exec_push _ _ _ a); [regs_cbv|address|word_at|is_mapped].
Ltac pop_at a v a' := rewrite run_cons, (exec_pop _ _ _ a v a'); [regs_cbv|address|address|word_at|found].

Ltac pushed a := rewrite (push_ok _ _ _ a); [regs_cbv; cbn [push_all]|address|word_at|is_mapped].

(** The ten words below the return address. *)
Section save.
Context (r : Registers) (m : words) (b : Z) (Hesp : esp r = b + 40) (Hb : 8 ≤ b ∧ b + 52 ≤ 4294967296) (H4 : b mod 4 = 0).
Context (Hmap : mapped m (b - 8) (b + 40)).

Definition saved_words : words :=
  <[b := cr3 r]> (<[b + 4 := eflags r]> (<[b + 8 := edi r]> (<[b + 12 := esi r]> (<[b + 16 := ebp r]> (<[b + 20 := esp r]>
  (<[b + 24 := ebx r]> (<[b + 28 := edx r]> (<[b + 32 := ecx r]> (<[b + 36 := eax r]> m))))))))).
Lemma sw_pushes : exec_all_sw (take 4 save_code) (r, m) = Some (set_gpr Eax (cr3 r) (set_gpr Esp b r), saved_words).
Proof using All.
  unfold saved_words. destruct r as [a bx c d si di sp bp ip fl c3]. cbn [esp] in Hesp. subst sp.
  cbn [take save_code]. rewrite run_cons. regs_cbv. cbn [exec_sw push_all]. regs_cbv.
  pushed (b + 36). pushed (b + 32). pushed (b + 28). pushed (b + 24). pushed (b + 20). pushed (b + 16). pushed (b + 12). pushed (b + 8).
  rewrite run_cons. cbn [exec_sw]. regs_cbv. pushed (b + 4). rewrite run_cons. cbn [exec_sw]. regs_cbv. push_at b. reflexivity.
Qed.
End save.

(** Saving in the block at [old]: the call frame is above the ten words. *)
Section block.
Context (r : Registers) (m : words) (b old ret : Z) (Hesp : esp r = b + 40) (Hb : 8 ≤ b ∧ b + 52 ≤ 4294967296) (H4 : b mod 4 = 0).
Context (Hold : 0 ≤ old ∧ old + 44 ≤ 4294967296) (Ho4 : old mod 4 = 0) (Hapart : old + 44 ≤ b - 8 ∨ b + 52 ≤ old).
Context (Hblock : mapped m old (old + 44)) (Hstack : mapped m (b - 8) (b + 40)).
Context (F0 : m !! b = Some (cr3 r)) (F1 : m !! (b + 4) = Some (eflags r)) (F4 : m !! (b + 16) = Some (ebp r)) (F5 : m !! (b + 20) = Some (esp r))
  (F9 : m !! (b + 36) = Some (eax r)) (F10 : m !! (b + 40) = Some ret) (F11 : m !! (b + 44) = Some old).

Definition saved_block : words :=
  <[b := cr3 r]> (<[old + 40 := cr3 r]> (<[old + 36 := eflags r]> (<[old + 32 := ret]> (<[old + 28 := ebp r]> (<[old + 24 := b + 44]>
  (<[old := eax r]> (<[old + 20 := edi r]> (<[old + 16 := esi r]> (<[old + 12 := edx r]> (<[old + 8 := ecx r]> (<[old + 4 := ebx r]> m))))))))))).
Lemma sw_saves :
  ∃ r', exec_all_sw (drop 4 save_code) (set_gpr Eax (cr3 r) (set_gpr Esp b r), m) = Some (r', saved_block) ∧ esp r' = b.
Proof using All.
  unfold saved_block. destruct r as [a bx c d si di sp bp ip fl c3]. cbn [esp eax ebx ecx edx esi edi ebp eip eflags cr3] in *. subst sp.
  regs_cbv. cbn [drop save_code].
  load_at (b + 44) old. store_at (old + 4). store_at (old + 8). store_at (old + 12). store_at (old + 16). store_at (old + 20).
  load_at (b + 36) a. load_at (b + 40) ret. load_at (b + 20) (b + 40). rewrite run_cons. cbn [exec_sw]. regs_cbv.
  rewrite (u32_small (b + 40 + 4)) by lia. load_at (b + 16) bp. load_at (b + 4) fl.
  replace (b + 40 + 4) with (b + 44) by lia.
  store_at old. store_at (old + 24). store_at (old + 28). store_at (old + 32). store_at (old + 36). pop_at b c3 (b + 4). store_at (old + 40). push_at b.
  eexists. split; reflexivity.
Qed.
End block.

(** Loading from the block at [new], still on the old stack. *)
Section load.
Context (r : Registers) (m : words) (b new : Z) (rn : Registers) (Hesp : esp r = b) (Hb : 8 ≤ b ∧ b + 52 ≤ 4294967296) (H4 : b mod 4 = 0).
Context (Hnew : 0 ≤ new ∧ new + 44 ≤ 4294967296) (Hn4 : new mod 4 = 0) (Hapart : new + 44 ≤ b - 8 ∨ b + 52 ≤ new).
Context (Hstack : mapped m (b - 8) (b + 40)) (Hrn : regs_at m new rn) (F12 : m !! (b + 48) = Some new).

Definition loaded_stack : words := <[b - 8 := eflags rn]> (<[b - 4 := new]> m).
Definition loaded_regs : Registers :=
  mkRegisters new (ebx rn) (ecx rn) (edx rn) (esi rn) (edi rn) b (ebp rn) (eip r) (eflags rn) (cr3 r).
Lemma sw_loads : exec_all_sw load_code (r, m) = Some (loaded_regs, loaded_stack).
Proof using All.
  unfold loaded_regs, loaded_stack. destruct Hrn as (R0 & R4 & R8 & R12 & R16 & R20 & R24 & R28 & R32 & R36 & R40).
  destruct r as [a bx c d si di sp bp ip fl c3], rn as [na nb nc nd nsi ndi nsp nbp nip nfl nc3].
  cbn [esp eax ebx ecx edx esi edi ebp eip eflags cr3] in *. subst sp. unfold load_code.
  load_at (b + 48) new. load_at (new + 4) nb. load_at (new + 8) nc. load_at (new + 12) nd. load_at (new + 16) nsi. load_at (new + 20) ndi.
  load_at (new + 28) nbp. push_at (b - 4). load_at (new + 36) nfl. push_at (b - 8).
  rewrite run_cons, (exec_popf _ _ (b - 8) nfl (b - 4)); [regs_cbv|address|address|word_at|found].
  pop_at (b - 4) new b. reflexivity.
Qed.
End load.

(** On the new stack. *)
Section change.
Context (r : Registers) (m : words) (new : Z) (rn : Registers) (Heax : eax r = new).
Context (Hnew : 0 ≤ new ∧ new + 44 ≤ 4294967296) (Hn4 : new mod 4 = 0) (Hrn : regs_at m new rn).
Context (Hsp : 4 ≤ esp rn < 4294967296) (Hs4 : esp rn mod 4 = 0) (Htop : is_Some (m !! (esp rn - 4)))
  (Hapart : esp rn ≤ new ∨ new + 44 ≤ esp rn - 4).

Lemma sw_changes :
  exec_all_sw change_code (r, m) =
    Some (mkRegisters (eax rn) (ebx r) (ecx r) (edx r) (esi r) (edi r) (esp rn) (ebp r) (eip rn) (eflags r) (cr3 rn),
          <[esp rn - 4 := eip rn]> m).
Proof using All.
  destruct Hrn as (R0 & R4 & R8 & R12 & R16 & R20 & R24 & R28 & R32 & R36 & R40).
  assert (mapped m (esp rn - 4) (esp rn)) as Hmap.
  { intros a Ha Ha4. assert (a = esp rn - 4) as ->; [|done]. clear -Ha Ha4 Hs4. Z.div_mod_to_equations. lia. }
  destruct r as [a bx c d si di sp bp ip fl c3], rn as [na nb nc nd nsi ndi nsp nbp nip nfl nc3].
  cbn [esp eax ebx ecx edx esi edi ebp eip eflags cr3] in *. subst a. unfold change_code.
  load_at (new + 24) nsp. push_at (nsp - 4). load_at (new + 40) nc3. rewrite run_cons. cbn [exec_sw]. regs_cbv.
  pop_at (nsp - 4) new nsp. push_at (nsp - 4). load_at (new + 32) nip.
  rewrite run_cons, (exec_xchg _ _ (nsp - 4) new); [regs_cbv|address|word_at|found]. load_at new na.
  rewrite run_cons, (exec_ret _ _ (nsp - 4) nip nsp); [regs_cbv|address|address|word_at|found].
  by rewrite !insert_insert_eq.
Qed.
End change.

Lemma regs_at_same m m' p r : regs_at m p r → (∀ a, p ≤ a < p + 44 → m' !! a = m !! a) → regs_at m' p r.
Proof. intros Hr Hs. unfold regs_at. by rewrite !Hs by lia. Qed.
Lemma regs_at_mapped m p r : regs_at m p r → p mod 4 = 0 → mapped m p (p + 44).
Proof.
  intros (R0 & R4 & R8 & R12 & R16 & R20 & R24 & R28 & R32 & R36 & R40) H4 a Ha Ha4.
  assert (a = p ∨ a = p + 4 ∨ a = p + 8 ∨ a = p + 12 ∨ a = p + 16 ∨ a = p + 20 ∨ a = p + 24 ∨ a = p + 28 ∨ a = p + 32 ∨ a = p + 36 ∨ a = p + 40)
    as Hc by (clear -Ha Ha4 H4; Z.div_mod_to_equations; lia).
  by repeat (destruct Hc as [->|Hc]; [by eexists|]); rewrite Hc; eexists.
Qed.
Lemma insert_far (m : words) a v b : a ≠ b → <[a := v]> m !! b = m !! b.
Proof. apply lookup_insert_ne. Qed.

(** The block after saving, and the words that are not touched. *)
Lemma saved_block_regs r m b old ret : esp r = b + 40 → old + 44 ≤ b - 8 ∨ b + 52 ≤ old →
  regs_at (saved_block r m b old ret) old (resumes r ret).
Proof.
  intros Hsp Hap. unfold saved_block, regs_at. destruct r as [a bx c d si di sp bp ip fl c3]. cbn [esp] in Hsp. subst sp. regs_cbv.
  replace (b + 40 + 4) with (b + 44) by lia. by split_and!; rewrite ?lookup_insert_ne by lia; rewrite lookup_insert_eq.
Qed.
Lemma saved_block_same r m b old ret a : a ≠ b → a < old ∨ old + 44 ≤ a → saved_block r m b old ret !! a = m !! a.
Proof. intros Hb Ha. unfold saved_block. by rewrite !lookup_insert_ne by lia. Qed.
Lemma saved_words_same r m b a : a < b ∨ b + 40 ≤ a → saved_words r m b !! a = m !! a.
Proof. intros Ha. unfold saved_words. by rewrite !lookup_insert_ne by lia. Qed.

Lemma saved_words_frame r m b :
  saved_words r m b !! b = Some (cr3 r) ∧ saved_words r m b !! (b + 4) = Some (eflags r) ∧ saved_words r m b !! (b + 16) = Some (ebp r) ∧
  saved_words r m b !! (b + 20) = Some (esp r) ∧ saved_words r m b !! (b + 36) = Some (eax r).
Proof. unfold saved_words. by split_and!; rewrite ?lookup_insert_ne by lia; rewrite lookup_insert_eq. Qed.
Lemma saved_words_mapped r m b lo hi : mapped m lo hi → mapped (saved_words r m b) lo hi.
Proof. intros Hm. unfold saved_words. by repeat apply mapped_insert. Qed.
Lemma saved_block_mapped r m b old ret lo hi : mapped m lo hi → mapped (saved_block r m b old ret) lo hi.
Proof. intros Hm. unfold saved_block. by repeat apply mapped_insert. Qed.

(** ** The whole routine *)

Section whole.
Context (r : Registers) (m : words) (old new ret : Z) (rn : Registers).
Context (Hf : m !! esp r = Some ret ∧ m !! (esp r + 4) = Some old ∧ m !! (esp r + 8) = Some new).
Context (Hs : 48 ≤ esp r ∧ esp r + 12 ≤ 4294967296 ∧ esp r mod 4 = 0) (Hmap : mapped m (esp r - 48) (esp r)).
Context (Hold : 0 ≤ old ∧ old + 44 ≤ 4294967296 ∧ old mod 4 = 0 ∧ mapped m old (old + 44) ∧ (old + 44 ≤ esp r - 48 ∨ esp r + 12 ≤ old)).
Context (Hnew : 0 ≤ new ∧ new + 44 ≤ 4294967296 ∧ new mod 4 = 0 ∧ (new + 44 ≤ esp r - 48 ∨ esp r + 12 ≤ new)).
Context (Hrn : if decide (old = new) then rn = resumes r ret else regs_at m new rn ∧ (new + 44 ≤ old ∨ old + 44 ≤ new)).
Context (Hsp : 4 ≤ esp rn < 4294967296 ∧ esp rn mod 4 = 0 ∧ is_Some (m !! (esp rn - 4))).
Context (Hsp2 : (esp rn ≤ old ∨ old + 44 ≤ esp rn - 4) ∧ (esp rn ≤ new ∨ new + 44 ≤ esp rn - 4)).

Lemma switch_runs :
  ∃ m', exec_all_sw switch_task_code (r, m) = Some (rn, m') ∧ regs_at m' old (resumes r ret) ∧
    ∀ a, a < old ∨ old + 44 ≤ a → a < esp r - 48 ∨ esp r ≤ a → a ≠ esp rn - 4 → m' !! a = m !! a.
Proof using All.
  destruct Hf as (F0 & F1 & F2), Hs as (S0 & S1 & S2), Hold as (O0 & O1 & O2 & O3 & O4), Hnew as (N0 & N1 & N2 & N3).
  destruct Hsp as (P0 & P1 & P2), Hsp2 as [Q1 Q2]. set (b := esp r - 40). assert (esp r = b + 40) as Hb by lia.
  assert (b mod 4 = 0) as Hb4 by (unfold b; clear -S2; Z.div_mod_to_equations; lia).
  set (m1 := saved_words r m b). set (m2 := saved_block r m1 b old ret).
  assert (mapped m (b - 8) (b + 40)) as Hst by (intros a Ha; apply Hmap; lia).
  assert (exec_all_sw save_code (r, m) = exec_all_sw (drop 4 save_code) (set_gpr Eax (cr3 r) (set_gpr Esp b r), m1)) as E1.
  { rewrite <-(take_drop 4 save_code) at 1. rewrite run_app, (sw_pushes r m b) by (done || lia). done. }
  destruct (saved_words_frame r m b) as (W0 & W1 & W2 & W3 & W4).
  assert (∀ a v, b + 40 ≤ a → m !! a = Some v → m1 !! a = Some v) as Hcall by (intros a v Ha Hv; unfold m1; by rewrite saved_words_same by lia).
  destruct (sw_saves r m1 b old ret) as (r2 & E2 & Hr2); try (done || lia || by apply saved_words_mapped).
  { apply Hcall; [lia|]. by rewrite <-Hb. }
  { apply Hcall; [lia|]. by replace (b + 44) with (esp r + 4) by lia. }
  assert (regs_at m2 old (resumes r ret)) as Hsaved by (apply saved_block_regs; [done|lia]).
  assert (∀ a, a < old ∨ old + 44 ≤ a → a < b ∨ b + 40 ≤ a → m2 !! a = m !! a) as Hm2.
  { intros a Ha Hab. unfold m2. rewrite saved_block_same by lia. by apply saved_words_same. }
  assert (regs_at m2 new rn) as Hn2.
  { destruct (decide (old = new)) as [<-|Hne]; [by rewrite Hrn|]. destruct Hrn as [Hrn' Hap].
    apply (regs_at_same m); [done|]. intros a Ha. apply Hm2; lia. }
  assert (exec_all_sw load_code (r2, m2) = Some (loaded_regs r2 b new rn, loaded_stack m2 b new rn)) as E3.
  { apply sw_loads; try (done || lia); [by apply saved_block_mapped, saved_words_mapped|].
    rewrite Hm2 by lia. by replace (b + 48) with (esp r + 8) by lia. }
  assert (∀ a, a < b - 8 ∨ b ≤ a → loaded_stack m2 b new rn !! a = m2 !! a) as Hm3 by (intros a Ha; unfold loaded_stack; by rewrite !lookup_insert_ne by lia).
  assert (is_Some (loaded_stack m2 b new rn !! (esp rn - 4))) as Ht3.
  { unfold loaded_stack, m2, m1, saved_block, saved_words. rewrite !lookup_insert_is_Some'. by auto 30. }
  assert (regs_at (loaded_stack m2 b new rn) new rn) as Hn3 by (apply (regs_at_same m2); [done|]; intros a Ha; apply Hm3; lia).
  exists (<[esp rn - 4 := eip rn]> (loaded_stack m2 b new rn)). split; [|split].
  - unfold switch_task_code. rewrite run_app, E1, E2. cbn [mbind option_bind]. fold m2. rewrite run_app, E3. cbn [mbind option_bind].
    rewrite (sw_changes (loaded_regs r2 b new rn) _ new rn) by (done || lia). by destruct rn.
  - apply (regs_at_same m2); [done|]. intros a Ha. rewrite lookup_insert_ne by lia. apply Hm3. lia.
  - intros a Ha Hae Hat. rewrite lookup_insert_ne by done. rewrite Hm3 by lia. apply Hm2; lia.
Qed.
End whole.

(** ** [switch_task] of [Task.v] *)

(** The threads of [s] are in memory, in blocks apart from each other and from the stack of
    the call [switch_task(old, new)], which returns to [ret] with the registers [cpu s]. *)
Record in_words (s : tasks) (m : words) : Prop := {
  iw_regs : ∀ p t, threads s !! p = Some t → regs_at m p (regs t) ∧ 0 ≤ p ∧ p + 44 ≤ 4294967296 ∧ p mod 4 = 0;
  iw_apart : ∀ p q, is_Some (threads s !! p) → is_Some (threads s !! q) → p = q ∨ p + 44 ≤ q ∨ q + 44 ≤ p }.
Record switching (s : tasks) (r : Registers) (m : words) (old new ret : Z) : Prop := {
  sg_threads : in_words s m;
  sg_call : m !! esp r = Some ret ∧ m !! (esp r + 4) = Some old ∧ m !! (esp r + 8) = Some new;
  sg_cpu : cpu s = resumes r ret;
  sg_stack : 48 ≤ esp r ∧ esp r + 12 ≤ 4294967296 ∧ esp r mod 4 = 0 ∧ mapped m (esp r - 48) (esp r);
  sg_stack_apart : ∀ p, is_Some (threads s !! p) → p + 44 ≤ esp r - 48 ∨ esp r + 12 ≤ p;
  (** the stack the other thread continues on *)
  sg_other : ∀ t, threads s !! new = Some t → old ≠ new → let sp := esp (regs t) in
    4 ≤ sp < 4294967296 ∧ sp mod 4 = 0 ∧ is_Some (m !! (sp - 4)) ∧ ∀ p, is_Some (threads s !! p) → sp ≤ p ∨ p + 44 ≤ sp - 4 }.

(** C22. The instructions of switch.s do what [Task.switch_task] says: the processor goes on with
    the registers of the new thread (its own, if it is the same one), and the block of every
    thread holds what [Task.switch_task] leaves in it. *)
Theorem switch_task_implements s r m old new ret told tnew :
  switching s r m old new ret → threads s !! old = Some told → threads s !! new = Some tnew →
  ∃ s' m', switch_task old new s = Ok tt s' ∧ exec_all_sw switch_task_code (r, m) = Some (cpu s', m') ∧ in_words s' m'.
Proof.
  intros [[Hregs Hap] Hcall Hcpu (S0 & S1 & S2 & S3) Hst Hoth] Ho Hn.
  destruct (switch_spec s old new told tnew Ho Hn) as (s' & E & Ht' & _ & _ & Hc'). exists s'.
  destruct (Hregs _ _ Ho) as (Ro & O0 & O1 & O2), (Hregs _ _ Hn) as (Rn & N0 & N1 & N2).
  assert (is_Some (threads s !! old) ∧ is_Some (threads s !! new)) as [Io In] by (split; by eexists).
  assert (4 ≤ esp (cpu s') < 4294967296 ∧ esp (cpu s') mod 4 = 0 ∧ is_Some (m !! (esp (cpu s') - 4)) ∧
    ∀ p, is_Some (threads s !! p) → esp (cpu s') ≤ p ∨ p + 44 ≤ esp (cpu s') - 4) as (P0 & P1 & P2 & P3).
  { rewrite Hc'. case_decide as Hd; [|by apply (Hoth tnew)]. rewrite Hcpu. cbn [resumes with_eip set_gpr esp].
    split; [lia|]. split; [by apply aligned_plus|]. replace (esp r + 4 - 4) with (esp r) by lia.
    split; [destruct Hcall as [Hr _]; by eexists|]. intros p Hp. destruct (Hst p Hp); lia. }
  destruct (switch_runs r m old new ret (cpu s')) as (m' & E2 & Hold & Hsame); try done.
  - split_and!; try done; [by apply regs_at_mapped with (regs told)|by apply Hst].
  - split_and!; try done. by apply Hst.
  - rewrite Hc'. case_decide as Hd; [by rewrite Hcpu|]. split; [done|]. destruct (Hap old new Io In) as [?|[?|?]]; [done|by right|by left].
  - split; by apply P3.
  - exists m'. split; [done|]. split; [done|]. split; rewrite Ht'.
    + intros p t Hp. apply lookup_insert_Some in Hp as [[<- <-]|[Hne Hp]]; [cbn [regs set_regs]; by rewrite Hcpu|].
      destruct (Hregs _ _ Hp) as (Rp & B0 & B1 & B2). split_and!; try done.
      assert (is_Some (threads s !! p)) as Ip by by eexists. destruct (Hap old p Io Ip) as [?|Hd]; [done|].
      apply (regs_at_same m); [done|]. intros a Ha. pose proof (Hst p Ip). pose proof (P3 p Ip). apply Hsame; lia.
    + intros p q Hp Hq. rewrite !lookup_insert_is_Some' in Hp, Hq. apply Hap; [destruct Hp as [<-|]|destruct Hq as [<-|]]; done.
Qed.

(** ** Two threads: the call is on a stack that ends at 0x9000, the other stack at 0xA000 *)

Definition caller_regs : Registers := mkRegisters 1 2 3 4 5 6 0x8FE0 7 0 0x246 0x105000.
Definition other_regs : Registers := mkRegisters 11 12 13 14 15 16 0xA000 17 0xC0103000 0x202 0x105000.
Definition reg_words (r : Registers) : list Z := [eax r; ebx r; ecx r; edx r; esi r; edi r; esp r; ebp r; eip r; eflags r; cr3 r].
Definition two_threads : tasks :=
  mkTasks {[0x5000 := mkThread caller_regs 0 0x6000; 0x6000 := mkThread other_regs 0x9000 0]} 0x6000 0x6000 0 0 (resumes caller_regs 0xC0102222).
Definition thread_words : words :=
  with_words 0x8FB0 (replicate 12 0) (with_words 0x8FE0 [0xC0102222; 0x5000; 0x6000]
    (with_words 0x5000 (reg_words caller_regs) (with_words 0x6000 (reg_words other_regs) (with_words 0x9FFC [0] ∅)))).
Lemma two_threads_cases p t : threads two_threads !! p = Some t → (p = 0x5000 ∧ regs t = caller_regs) ∨ (p = 0x6000 ∧ regs t = other_regs).
Proof.
  intros Hp. unfold two_threads in Hp. cbn [threads] in Hp. apply lookup_insert_Some in Hp as [[<- <-]|[_ Hp]]; [by left|].
  apply lookup_singleton_Some in Hp as [<- <-]. by right.
Qed.
Lemma two_threads_switching : switching two_threads caller_regs thread_words 0x5000 0x6000 0xC0102222.
Proof.
  assert (∀ p, is_Some (threads two_threads !! p) → p = 0x5000 ∨ p = 0x6000) as Hp
    by (intros p [t [[-> _]|[-> _]]%two_threads_cases]; auto).
  constructor.
  - constructor.
    + intros p t [[-> ->]|[-> ->]]%two_threads_cases; (split; [by split_and!; vm_compute|by split_and!; vm_compute]).
    + intros p q [->| ->]%Hp [->| ->]%Hp; lia.
  - by split_and!; vm_compute.
  - done.
  - split_and!; [by vm_compute..|]. intros a Ha Ha4. exists 0. apply with_words_stack; [cbn in *; lia|done].
  - intros p [->| ->]%Hp; cbn; lia.
  - intros t [[? _]|[_ ->]]%two_threads_cases _; [done|]. split_and!; [by vm_compute..|by eexists; vm_compute|]. intros p [->| ->]%Hp; cbn; lia.
Qed.
Lemma switch_task_implements_witness :
  ∃ m', exec_all_sw switch_task_code (caller_regs, thread_words) = Some (other_regs, m') ∧ regs_at m' 0x5000 (resumes caller_regs 0xC0102222).
Proof.
  destruct (switch_task_implements two_threads caller_regs thread_words 0x5000 0x6000 0xC0102222 _ _ two_threads_switching eq_refl eq_refl)
    as (s' & m' & E & E2 & [Hr _]).
  injection E as <-. exists m'. split; [exact E2|]. by apply (Hr 0x5000 (mkThread (resumes caller_regs 0xC0102222) 0 0x6000)).
Defined.
