(* ===== verification/Io.v ===== *)
(** * Ports and console (src/common.c, src/kernel.c)

    The interface between the drivers and the outside: a class of environments
    with x86 port input and output and the console's [terminal_putchar].  What is
    behind the ports is hardware, so it stays abstract; the laws say that port
    accesses return and that printing a character returns, from any state the
    environment calls well formed.  [Terminal.v] implements the console. *)

From S2P Require Import Prelude.

(** Access widths of the [in] and [out] instructions. *)
Inductive width := W8 | W16 | W32.
Definition wrap (w : width) : Z → Z := match w with W8 => u8 | W16 => u16 | W32 => u32 end.

(** The devices behind the ports. *)
Class Ports (H : Type) := {
  port_in : width → Z → H → Z * H;
  port_out : width → Z → Z → H → H }.

Class Env (E : Type) := {
  env_in : width → Z → E → Z * E;
  env_out : width → Z → Z → E → E;
  terminal_putchar : Z → M E unit;
  env_wf : E → Prop;
  env_in_wf : ∀ w p e, env_wf e → env_wf (env_in w p e).2;
  env_out_wf : ∀ w p v e, env_wf e → env_wf (env_out w p v e);
  putchar_wf : ∀ c e, env_wf e → ∃ e', terminal_putchar c e = Ok tt e' ∧ env_wf e' }.

(** A C string in an array: up to the first zero. *)
Fixpoint c_string (l : list Z) : option (list Z) :=
  match l with
  | [] => None
  | c :: l => if c =? 0 then Some [] else cons c <$> c_string l
  end.

Section ports.
Context `{Env E}.

Definition io_in (w : width) (port : Z) : M E Z := λ e,
  let '(v, e') := env_in w (u16 port) e in Ok (wrap w v) e'.
Definition io_out (w : width) (port value : Z) : M E unit := λ e,
  Ok tt (env_out w (u16 port) (wrap w value) e).

Definition outb (port value : Z) : M E unit := io_out W8 port value.
Definition outw (port value : Z) : M E unit := io_out W16 port value.
Definition outl (port value : Z) : M E unit := io_out W32 port value.
Definition inb (port : Z) : M E Z := io_in W8 port.
Definition inw (port : Z) : M E Z := io_in W16 port.
Definition inl (port : Z) : M E Z := io_in W32 port.

(** ** Printing *)

(** The characters of a C string literal, without its terminator. *)
Definition chars (s : string) : list Z :=
  (λ c, Z.of_nat (Ascii.nat_of_ascii c)) <$> String.list_ascii_of_string s.

(** [terminal_write(data, size)] on the [size] characters at [data]. *)
Definition terminal_write (data : list Z) : M E unit := for_each data terminal_putchar.
Definition terminal_writestring (s : string) : M E unit := terminal_write (chars s).

(** [hex[i]] of the string "0123456789ABCDEF". *)
Definition hex_digit (i : Z) : Z := nth (Z.to_nat i) (chars "0123456789ABCDEF") 0.
Definition terminal_printhex (key : Z) : M E unit :=
  terminal_putchar (hex_digit (Z.shiftr (Z.land key 0xF0) 4)) ;;;
  terminal_putchar (hex_digit (Z.land key 0x0F)).
Definition terminal_printhex16 (key : Z) : M E unit :=
  terminal_printhex (Z.shiftr (Z.land key 0xFF00) 8) ;;;
  terminal_printhex (Z.land key 0x00FF).
Definition terminal_printhex32 (key : Z) : M E unit :=
  terminal_printhex16 (Z.shiftr (Z.land key 0xFFFF0000) 16) ;;;
  terminal_printhex16 (Z.land key 0x0000FFFF).

#[global] Arguments chars : simpl never.

(** ** Computations that return and keep the environment well formed *)

(** [m] returns from every well-formed state. *)
Definition returns {A} (m : M E A) : Prop :=
  ∀ e, env_wf e → ∃ a e', m e = Ok a e' ∧ env_wf e'.

Lemma returns_ret {A} (a : A) : returns (ret a).
Proof using. intros e He. by exists a, e. Qed.
Lemma returns_bind {A B} (m : M E A) (f : A → M E B) :
  returns m → (∀ a, returns (f a)) → returns (bind m f).
Proof using.
  intros Hm Hf e He. destruct (Hm e He) as (a & e1 & E1 & He1).
  destruct (Hf a e1 He1) as (b & e2 & E2 & He2). exists b, e2. by rewrite (bind_ok _ _ _ _ _ E1).
Qed.
Lemma returns_in w p : returns (io_in w p).
Proof using.
  intros e He. unfold io_in. pose proof (env_in_wf w (u16 p) e He).
  destruct (env_in w (u16 p) e) as [v e']. by eexists _, _.
Qed.
Lemma returns_out w p v : returns (io_out w p v).
Proof using. intros e He. eexists _, _. split; [done|]. by apply env_out_wf. Qed.
Lemma returns_putchar c : returns (terminal_putchar c).
Proof using. intros e He. destruct (putchar_wf c e He) as (e' & E' & He'). by exists tt, e'. Qed.
Lemma returns_for_each {A} (l : list A) (f : A → M E unit) :
  (∀ x, returns (f x)) → returns (for_each l f).
Proof using.
  intros Hf. induction l as [|x l IH]; [apply returns_ret|]. by apply returns_bind.
Qed.

Lemma returns_write l : returns (terminal_write l).
Proof using. apply returns_for_each, returns_putchar. Qed.
Lemma returns_printhex k : returns (terminal_printhex k).
Proof using. apply returns_bind; [|intros _]; apply returns_putchar. Qed.
Lemma returns_printhex32 k : returns (terminal_printhex32 k).
Proof using.
  unfold terminal_printhex32, terminal_printhex16, terminal_printhex.
  repeat (apply returns_bind; [|intros _]); apply returns_putchar.
Qed.

(** [m] prints: it returns and relates the environments by [R], a preorder that
    every printed character respects. *)
Section prints.
Context (R : E → E → Prop) `{!PreOrder R}.
Context (HR : ∀ c e e', terminal_putchar c e = Ok tt e' → R e e').

Definition prints (m : M E unit) : Prop :=
  ∀ e, env_wf e → ∃ e', m e = Ok tt e' ∧ env_wf e' ∧ R e e'.

Lemma prints_ret : prints (ret tt).
Proof using PreOrder0. intros e He. by exists e. Qed.
Lemma prints_bind m1 m2 : prints m1 → prints m2 → prints (m1 ;;; m2).
Proof using PreOrder0.
  intros H1 H2 e He. destruct (H1 e He) as (e1 & E1 & He1 & R1).
  destruct (H2 e1 He1) as (e2 & E2 & He2 & R2). exists e2.
  rewrite (bind_ok _ _ _ _ _ E1). split; [done|]. split; [done|]. by etrans.
Qed.
Lemma prints_putchar c : prints (terminal_putchar c).
Proof using HR.
  intros e He. destruct (putchar_wf c e He) as (e' & E' & He'). exists e'. eauto.
Qed.
Lemma prints_write l : prints (terminal_write l).
Proof using All.
  induction l as [|c l IH]; [apply prints_ret|]. apply prints_bind; [apply prints_putchar|exact IH].
Qed.
Lemma prints_hex k : prints (terminal_printhex k).
Proof using All. apply prints_bind; apply prints_putchar. Qed.
Lemma prints_hex16 k : prints (terminal_printhex16 k).
Proof using All. apply prints_bind; apply prints_hex. Qed.
Lemma prints_hex32 k : prints (terminal_printhex32 k).
Proof using All. apply prints_bind; apply prints_hex16. Qed.

(** One step of a sequence that starts by printing. *)
Lemma print_step {B} m (f : unit → M E B) e :
  prints m → env_wf e → ∃ e', bind m f e = f tt e' ∧ env_wf e' ∧ R e e'.
Proof using.
  intros Hm He. destruct (Hm e He) as (e' & E' & He' & Hs). exists e'. by rewrite (bind_ok _ _ _ _ _ E').
Qed.
End prints.
End ports.

#[export] Hint Resolve returns_ret returns_bind returns_in returns_out returns_putchar
  returns_for_each : kernel.
#[export] Hint Extern 1 (returns (outb _ _)) => apply returns_out : kernel.
#[export] Hint Extern 1 (returns (inb _)) => apply returns_in : kernel.

(** ** A console in front of devices

    The environment that consists of a console's state [T] and the devices behind the
    ports. *)

Section console.
Context `{Ports H} {T : Type} (put : Z → M T unit) (console_wf : T → Prop).
Context (put_ok : ∀ c t, console_wf t → ∃ t', put c t = Ok tt t' ∧ console_wf t').

Definition console_putchar (c : Z) : M (T * H) unit := on_fst (put c).
Definition console_in (w : width) (p : Z) (e : T * H) : Z * (T * H) :=
  let '(v, h) := port_in w p e.2 in (v, (e.1, h)).

Lemma console_putchar_wf c (e : T * H) :
  console_wf e.1 → ∃ e', console_putchar c e = Ok tt e' ∧ console_wf e'.1.
Proof using put_ok.
  intros Hw. destruct (put_ok c e.1 Hw) as (t' & E & Hr).
  exists (t', e.2). split; [|apply Hr]. unfold console_putchar, on_fst, zoom. by rewrite E.
Qed.
Lemma console_in_wf w p (e : T * H) : console_wf e.1 → console_wf (console_in w p e).2.1.
Proof using. unfold console_in. by destruct (port_in w p e.2). Qed.

Definition console_env : Env (T * H) := {|
  env_in := console_in;
  env_out w p v e := (e.1, port_out w p v e.2);
  terminal_putchar := console_putchar;
  env_wf e := console_wf e.1;
  env_in_wf := console_in_wf;
  env_out_wf w p v e He := He;
  putchar_wf := console_putchar_wf |}.
End console.

(** ** Hexadecimal output *)

Section hex.
Context `{Env E}.

(** The digits [terminal_printhex32] prints, most significant first, and their
    reading as a number. *)
Definition hex32 (key : Z) : list Z :=
  (λ i, hex_digit (key / 16 ^ i mod 16)) <$> [7; 6; 5; 4; 3; 2; 1; 0].
Definition unhex_digit (c : Z) : Z := if c <? 65 then c - 48 else c - 55.
Definition unhex (l : list Z) : Z := fold_left (λ acc c, acc * 16 + unhex_digit c) l 0.

Lemma unhex_digit_spec d : 0 ≤ d < 16 → unhex_digit (hex_digit d) = d.
Proof using.
  intros Hd. assert (Z.of_nat (Z.to_nat d) = d) as <- by lia.
  assert (Z.to_nat d < 16)%nat as Hn by lia. revert Hn. generalize (Z.to_nat d) as n.
  intros n Hn. do 16 (destruct n as [|n]; [reflexivity|]). lia.
Qed.

(** Printing the same digit first. *)
Lemma bind_digit {A} d d' (f g : unit → M E A) e :
  d = d' → (∀ a s, f a s = g a s) →
  bind (terminal_putchar (hex_digit d)) f e = bind (terminal_putchar (hex_digit d')) g e.
Proof using. intros -> Hfg. by apply bind_ext. Qed.

Lemma nibble_high k : Z.shiftr (Z.land k 0xF0) 4 = k / 16 mod 16.
Proof using.
  change 0xF0 with (Z.shiftl (Z.ones 4) 4).
  rewrite land_shifted_ones, Z.shiftr_div_pow2, Z.div_mul by lia.
  change (2 ^ (4 + 4)) with 256. change (2 ^ 4) with 16. word_lia.
Qed.
Lemma nibble_low k : Z.land k 0x0F = k mod 16.
Proof using. change 0x0F with (Z.ones 4). by rewrite Z.land_ones. Qed.
Lemma byte_high k : Z.shiftr (Z.land k 0xFF00) 8 = k / 256 mod 256.
Proof using.
  change 0xFF00 with (Z.shiftl (Z.ones 8) 8).
  rewrite land_shifted_ones, Z.shiftr_div_pow2, Z.div_mul by lia.
  change (2 ^ (8 + 8)) with 65536. change (2 ^ 8) with 256. word_lia.
Qed.
Lemma byte_low k : Z.land k 0x00FF = k mod 256.
Proof using. change 0x00FF with (Z.ones 8). by rewrite Z.land_ones. Qed.
Lemma half_high k : Z.shiftr (Z.land k 0xFFFF0000) 16 = k / 65536 mod 65536.
Proof using.
  change 0xFFFF0000 with (Z.shiftl (Z.ones 16) 16).
  rewrite land_shifted_ones, Z.shiftr_div_pow2, Z.div_mul by lia.
  change (2 ^ (16 + 16)) with 4294967296. change (2 ^ 16) with 65536. word_lia.
Qed.
Lemma half_low k : Z.land k 0x0000FFFF = k mod 65536.
Proof using. change 0x0000FFFF with (Z.ones 16). by rewrite Z.land_ones. Qed.

(** The eight digits, in the order of the calls. *)
Lemma printhex32_digits key e :
  terminal_printhex32 key e =
  (let d i := terminal_putchar (hex_digit (key / 16 ^ i mod 16)) in
   d 7 ;;; d 6 ;;; d 5 ;;; d 4 ;;; d 3 ;;; d 2 ;;; d 1 ;;; d 0) e.
Proof using.
  unfold terminal_printhex32, terminal_printhex16, terminal_printhex.
  rewrite !half_high, !half_low, !byte_high, !byte_low, !nibble_high, !nibble_low.
  rewrite !bind_assoc. cbv zeta.
  repeat match goal with |- context [key / 16 ^ ?i] =>
    let r := eval compute in (16 ^ i) in change (key / 16 ^ i) with (key / r) end.
  do 7 (rewrite ?bind_assoc; apply bind_digit; [word_lia|intros _ ?]).
  do 2 f_equal. word_lia.
Qed.

Lemma unhex_hex32 key : 0 ≤ key < 2 ^ 32 → unhex (hex32 key) = key.
Proof using.
  intros Hk. unfold unhex, hex32. cbn [fmap list_fmap fold_left].
  rewrite !unhex_digit_spec by (apply Z.mod_pos_bound; lia).
  repeat match goal with |- context [key / 16 ^ ?i] =>
    let r := eval compute in (16 ^ i) in change (key / 16 ^ i) with (key / r) end.
  word_lia.
Qed.

(** [terminal_printhex32] prints exactly eight characters, and reading them as a
    hexadecimal number gives back the number printed. *)
Theorem printhex32_roundtrip key (e : E) :
  0 ≤ key < 2 ^ 32 →
  terminal_printhex32 key e = terminal_write (hex32 key) e ∧
  length (hex32 key) = 8%nat ∧ unhex (hex32 key) = key.
Proof using.
  intros Hk. split; [|split; [done|]].
  - rewrite printhex32_digits. unfold terminal_write, hex32. cbn [fmap list_fmap for_each].
    do 7 (apply bind_ext; intros _ ?). by rewrite bind_ret_tt.
  - by apply unhex_hex32.
Qed.
End hex.
