(* ===== verification/Terminal.v ===== *)
(** * The VGA text terminal (src/kernel.c, lines 25 to 139)

    The screen is the 32 KiB text window at 0xB8000 (mapped at 0xC00B8000), of
    which the kernel shows the first 80 x 25 cells.  [terminal_putchar] scrolls
    when the cursor leaves the last row; its loops run to [x <= VGA_WIDTH], so
    scrolling also writes the first cell behind the visible screen. *)

From S2P Require Import Prelude Io.

(** ** State *)

Record terminal := mkTerminal {
  terminal_row : Z;
  terminal_column : Z;
  terminal_color : Z;
  terminal_buffer : list Z }.

Definition VGA_WIDTH : Z := 80.
Definition VGA_HEIGHT : Z := 25.
(** Cells of the memory window behind [terminal_buffer]. *)
Definition VGA_CELLS : nat := Z.to_nat 0x4000.

Definition set_cursor (row column : Z) (t : terminal) : terminal :=
  mkTerminal row column (terminal_color t) (terminal_buffer t).
Definition set_buffer (b : list Z) (t : terminal) : terminal :=
  mkTerminal (terminal_row t) (terminal_column t) (terminal_color t) b.

Definition ld_cell (i : Z) : M terminal Z := λ t, of_option (terminal_buffer t !! Z.to_nat i) t.
Definition st_cell (i v : Z) : M terminal unit := λ t,
  if bool_decide (Z.to_nat i < length (terminal_buffer t))%nat
  then Ok tt (set_buffer (<[Z.to_nat i := v]> (terminal_buffer t)) t) else Fault.

(** ** Operations *)

(** The members of [enum vga_color] the code uses. *)
Definition VGA_COLOR_BLACK : Z := 0.
Definition VGA_COLOR_LIGHT_GREY : Z := 7.

Definition vga_entry_color (fg bg : Z) : Z := u8 (Z.lor fg (Z.shiftl bg 4)).
Definition vga_entry (uc color : Z) : Z := u16 (Z.lor (u8 uc) (Z.shiftl (u16 color) 8)).

Definition terminal_setcolor (color : Z) : M terminal unit :=
  modify (λ t, mkTerminal (terminal_row t) (terminal_column t) (u8 color) (terminal_buffer t)).

Definition terminal_initialize : M terminal unit :=
  modify (λ t, mkTerminal 0 0 (vga_entry_color VGA_COLOR_LIGHT_GREY VGA_COLOR_BLACK)
                 (terminal_buffer t)) ;;;
  for_each (seqZ 0 VGA_HEIGHT) (λ y, for_each (seqZ 0 VGA_WIDTH) (λ x,
    let* color := gets terminal_color in
    st_cell (y * VGA_WIDTH + x) (vga_entry 32 color))).

Definition terminal_putentryat (c color x y : Z) : M terminal unit :=
  st_cell (y * VGA_WIDTH + x) (vga_entry c color).

(** The body of [if (terminal_row == VGA_HEIGHT)]. *)
Definition scroll : M terminal unit :=
  for_each (seqZ 0 (VGA_HEIGHT - 1)) (λ y, for_each (seqZ 0 (VGA_WIDTH + 1)) (λ x,
    let* c := ld_cell ((y + 1) * VGA_WIDTH + x) in st_cell (y * VGA_WIDTH + x) c)) ;;;
  for_each (seqZ 0 (VGA_WIDTH + 1)) (λ x, st_cell ((VGA_HEIGHT - 1) * VGA_WIDTH + x) 0) ;;;
  modify (λ t, set_cursor (u32 (terminal_row t - 1)) 0 t).

Definition putchar (c : Z) : M terminal unit :=
  (if c =? 10 then modify (λ t, set_cursor (u32 (terminal_row t + 1)) 0 t)
   else if c =? 8 then
     let* t := get in
     when (0 <? terminal_column t)
       (modify (λ t, set_cursor (terminal_row t) (terminal_column t - 1) t) ;;;
        let* t := get in
        st_cell (terminal_row t * VGA_WIDTH + terminal_column t) 0)
   else
     let* t := get in
     terminal_putentryat c (terminal_color t) (terminal_column t) (terminal_row t) ;;;
     modify (λ t, set_cursor (terminal_row t) (u32 (terminal_column t + 1)) t) ;;;
     let* t := get in
     when (terminal_column t =? VGA_WIDTH)
       (modify (λ t, set_cursor (u32 (terminal_row t + 1)) 0 t))) ;;;
  let* t := get in
  when (terminal_row t =? VGA_HEIGHT) scroll.

(** ** Specification: a cursor position and a screen *)

Definition screen : Type := Z * (Z → Z).
Definition upd (f : Z → Z) (i v : Z) : Z → Z := λ j, if j =? i then v else f j.

(** Rows move up by one; the last row and the cell behind it become 0. *)
Definition scrolled (f : Z → Z) : Z → Z := λ i,
  if i <? 1920 then f (i + 80) else if i <=? 2000 then 0 else f i.

Definition putc_spec (color c : Z) (sc : screen) : screen :=
  let '(pos, f) := sc in
  let '(pos, f) :=
    if c =? 10 then ((pos / 80 + 1) * 80, f)
    else if c =? 8 then
      if 0 <? pos mod 80 then (pos - 1, upd f (pos - 1) 0) else (pos, f)
    else (pos + 1, upd f pos (vga_entry c color)) in
  if pos =? 2000 then (1920, scrolled f) else (pos, f).

Definition cells (t : terminal) (i : Z) : Z := default 0 (terminal_buffer t !! Z.to_nat i).

(** Between two calls the cursor is on the screen. *)
Definition terminal_wf (t : terminal) : Prop :=
  0 ≤ terminal_row t < VGA_HEIGHT ∧ 0 ≤ terminal_column t < VGA_WIDTH ∧
  length (terminal_buffer t) = VGA_CELLS.

Record terminal_repr (t : terminal) (sc : screen) : Prop := {
  tr_wf : terminal_wf t;
  tr_pos : sc.1 = terminal_row t * 80 + terminal_column t;
  tr_cells : ∀ i, 0 ≤ i → cells t i = sc.2 i }.

(** ** Lemmas *)

Definition holds (t : terminal) (f : Z → Z) : Prop :=
  length (terminal_buffer t) = VGA_CELLS ∧ ∀ i, 0 ≤ i → cells t i = f i.
(** [t'] differs from [t] in its cells only. *)
Definition same_cursor (t t' : terminal) : Prop :=
  terminal_row t' = terminal_row t ∧ terminal_column t' = terminal_column t ∧
  terminal_color t' = terminal_color t.

Lemma holds_ext t f g : holds t f → (∀ i, 0 ≤ i → f i = g i) → holds t g.
Proof. intros [Hl H] Hfg. split; [done|]. intros i Hi. rewrite H by done. auto. Qed.

Lemma st_cell_holds t f i v :
  holds t f → 0 ≤ i < 16384 →
  ∃ t', st_cell i v t = Ok tt t' ∧ holds t' (upd f i v) ∧ same_cursor t t'.
Proof.
  intros [Hl H] Hi. unfold st_cell. unfold VGA_CELLS in Hl.
  rewrite bool_decide_eq_true_2 by lia. eexists. split; [done|]. split; [|done].
  split; [simpl; by rewrite length_insert|]. intros j Hj. unfold cells, upd. simpl.
  destruct (Z.eqb_spec j i) as [->|].
  - by rewrite list_lookup_insert_eq by lia.
  - rewrite list_lookup_insert_ne by lia. by apply H.
Qed.

Lemma ld_cell_holds t f i : holds t f → 0 ≤ i < 16384 → ld_cell i t = Ok (f i) t.
Proof.
  intros [Hl H] Hi. unfold VGA_CELLS in Hl. rewrite <-H by lia. unfold ld_cell, cells.
  destruct (lookup_lt_is_Some_2 (terminal_buffer t) (Z.to_nat i)) as [v ->]; [lia|done].
Qed.

Lemma same_cursor_trans t1 t2 t3 : same_cursor t1 t2 → same_cursor t2 t3 → same_cursor t1 t3.
Proof. unfold same_cursor. intuition congruence. Qed.

(** A loop that writes the cells [s0, s0 + n), each from a value of the screen
    as it was before the loop. *)
Lemma write_run (body : Z → M terminal unit) (v : Z → Z) s0 f n : ∀ t,
  holds t f → 0 ≤ n → 0 ≤ s0 → s0 + n ≤ 16384 →
  (∀ x t' f', 0 ≤ x < n → same_cursor t t' → holds t' f' → (∀ i, s0 + x ≤ i → f' i = f i) →
     body x t' = st_cell (s0 + x) (v x) t') →
  ∃ t', for_each (seqZ 0 n) body t = Ok tt t' ∧ same_cursor t t' ∧
    holds t' (λ i, if (s0 <=? i) && (i <? s0 + n) then v (i - s0) else f i).
Proof.
  remember (Z.to_nat n) as d eqn:Hd. revert n Hd.
  induction d as [|d IH]; intros n Hd t Ht Hn Hs Hb Hbody.
  - assert (n = 0) as -> by lia. exists t. split; [done|]. split; [done|].
    eapply holds_ext; [done|]. intros i Hi. simpl.
    destruct (Z.leb_spec s0 i), (Z.ltb_spec i (s0 + 0)); done || lia.
  - destruct (IH (n - 1) ltac:(lia) t Ht) as (t1 & E1 & Hc1 & H1); [lia..| |].
    { intros x t' f' Hx. apply Hbody. lia. }
    rewrite seqZ_snoc, for_each_app, (bind_ok _ _ _ _ _ E1) by lia. cbn [for_each]. rewrite bind_ret_tt.
    destruct (st_cell_holds t1 _ (s0 + (n - 1)) (v (n - 1)) H1) as (t2 & E2 & H2 & Hc2); [lia|].
    exists t2. split; [|split; [by eapply same_cursor_trans|]].
    + rewrite <-E2. eapply Hbody; [lia|exact Hc1|exact H1|]. intros i Hi. simpl.
      destruct (Z.leb_spec s0 i), (Z.ltb_spec i (s0 + (n - 1))); done || lia.
    + eapply holds_ext; [done|]. intros i Hi. unfold upd. simpl.
      destruct (Z.eqb_spec i (s0 + (n - 1))), (Z.leb_spec s0 i), (Z.ltb_spec i (s0 + (n - 1))),
        (Z.ltb_spec i (s0 + n)); simpl; try done; try lia; f_equal; lia.
Qed.

(** The cells below [b] have moved up by one row. *)
Definition moved (b : Z) (f : Z → Z) : Z → Z := λ i, if i <? b then f (i + 80) else f i.

Lemma scroll_rows n t f :
  holds t f → 0 ≤ n ≤ 24 →
  ∃ t', for_each (seqZ 0 n) (λ y, for_each (seqZ 0 (VGA_WIDTH + 1)) (λ x,
          let* c := ld_cell ((y + 1) * VGA_WIDTH + x) in st_cell (y * VGA_WIDTH + x) c)) t = Ok tt t' ∧
    same_cursor t t' ∧ holds t' (moved (if n =? 0 then 0 else n * 80 + 1) f).
Proof.
  intros Ht. remember (Z.to_nat n) as d eqn:Hd. revert n Hd. induction d as [|d IH]; intros n Hd Hn.
  - assert (n = 0) as -> by lia. exists t. split; [done|]. split; [done|].
    eapply holds_ext; [done|]. intros i Hi. unfold moved. simpl. by destruct (Z.ltb_spec i 0); [lia|].
  - destruct (IH (n - 1) ltac:(lia) ltac:(lia)) as (t1 & E1 & Hc1 & H1).
    set (b := if n - 1 =? 0 then 0 else (n - 1) * 80 + 1) in *.
    assert ((n - 1) * 80 ≤ b ≤ (n - 1) * 80 + 1) as Hb by (unfold b; destruct (Z.eqb_spec (n - 1) 0); lia).
    rewrite seqZ_snoc, for_each_app, (bind_ok _ _ _ _ _ E1) by lia. cbn [for_each]. rewrite bind_ret_tt.
    destruct (write_run (λ x, let* c := ld_cell ((n - 1 + 1) * VGA_WIDTH + x) in
        st_cell ((n - 1) * VGA_WIDTH + x) c) (λ x, f (n * 80 + x)) ((n - 1) * 80)
        (moved b f) 81 t1 H1) as (t2 & E2 & Hc2 & H2); [lia..| |].
    { intros x t' f' Hx _ Ht' Hf'. unfold VGA_WIDTH.
      rewrite (bind_ok _ _ _ _ _ (ld_cell_holds _ _ ((n - 1 + 1) * 80 + x) Ht' ltac:(lia))).
      f_equal. rewrite Hf' by lia. unfold moved.
      rewrite (proj2 (Z.ltb_ge _ _)) by lia. f_equal. lia. }
    exists t2. split; [done|]. split; [by eapply same_cursor_trans|].
    eapply holds_ext; [done|]. intros i Hi. unfold moved.
    rewrite (proj2 (Z.eqb_neq n 0)) by lia.
    destruct (Z.leb_spec ((n - 1) * 80) i), (Z.ltb_spec i ((n - 1) * 80 + 81)), (Z.ltb_spec i b),
      (Z.ltb_spec i (n * 80 + 1)); simpl; try done; try lia; f_equal; lia.
Qed.

Lemma scroll_holds t f :
  holds t f → ∃ t', scroll t = Ok tt t' ∧ holds t' (scrolled f) ∧
    terminal_row t' = u32 (terminal_row t - 1) ∧ terminal_column t' = 0 ∧
    terminal_color t' = terminal_color t.
Proof.
  intros Ht. unfold scroll.
  destruct (scroll_rows 24 t f Ht ltac:(lia)) as (t1 & E1 & Hc1 & H1).
  rewrite (bind_ok _ _ _ _ _ E1).
  destruct (write_run (λ x, st_cell ((VGA_HEIGHT - 1) * VGA_WIDTH + x) 0) (λ _, 0) 1920 _ 81 t1 H1)
    as (t2 & E2 & Hc2 & [Hl2 H2]); [lia..|done|].
  rewrite (bind_ok _ _ _ _ _ E2). unfold modify. eexists. split; [done|].
  destruct (same_cursor_trans _ _ _ Hc1 Hc2) as (Hr & _ & Hcol). simpl.
  split; [|by rewrite Hr]. split; [done|]. intros i Hi. change (cells t2 i = scrolled f i).
  rewrite H2 by done. unfold scrolled, moved. simpl.
  destruct (Z.leb_spec 1920 i), (Z.ltb_spec i (1920 + 81)), (Z.ltb_spec i 1920), (Z.leb_spec i 2000),
    (Z.ltb_spec i (24 * 80 + 1)); simpl; done || lia.
Qed.

Lemma repr_holds t sc : terminal_repr t sc → holds t sc.2.
Proof. intros [(_ & _ & Hl) _ Hc]. by split. Qed.

(** The common end of [putchar]: scroll if the cursor is below the screen. *)
Lemma finish_spec t pos f :
  holds t f → 0 ≤ terminal_row t ≤ 25 → 0 ≤ terminal_column t < 80 →
  (terminal_row t = 25 → terminal_column t = 0) →
  pos = terminal_row t * 80 + terminal_column t →
  ∃ t', (let* t := get in when (terminal_row t =? VGA_HEIGHT) scroll) t = Ok tt t' ∧
    terminal_repr t' (if pos =? 2000 then (1920, scrolled f) else (pos, f)) ∧
    terminal_color t' = terminal_color t.
Proof.
  intros Ht Hr Hc H25 ->. rewrite bind_get. unfold VGA_HEIGHT.
  destruct (Z.eqb_spec (terminal_row t) 25) as [E|Hne].
  - destruct (scroll_holds t f Ht) as (t' & E' & [Hl H'] & Hr' & Hc' & Hcol). exists t'.
    rewrite (H25 E), E. simpl. rewrite E in Hr'. split; [done|]. split; [|done].
    constructor; simpl; [|rewrite Hr', Hc'; done|done].
    unfold terminal_wf, VGA_HEIGHT, VGA_WIDTH. rewrite Hr', Hc', Hl.
    split; [by split; vm_compute|done].
  - exists t. split; [done|]. split; [|done].
    rewrite (proj2 (Z.eqb_neq _ 2000)) by lia. destruct Ht as [Hl H'].
    constructor; simpl; [|done..]. unfold terminal_wf, VGA_HEIGHT, VGA_WIDTH. lia.
Qed.

Lemma putchar_spec t sc c :
  terminal_repr t sc → ∃ t', putchar c t = Ok tt t' ∧
    terminal_repr t' (putc_spec (terminal_color t) c sc) ∧ terminal_color t' = terminal_color t.
Proof.
  intros Hr. pose proof (repr_holds _ _ Hr) as Ht. pose proof (tr_wf _ _ Hr) as (Hrow & Hcol & Hl).
  pose proof (tr_pos _ _ Hr) as Hpos. destruct sc as [pos f]. simpl in *. subst pos.
  unfold VGA_HEIGHT, VGA_WIDTH in *. unfold putchar, putc_spec.
  destruct (Z.eqb_spec c 10); [|destruct (Z.eqb_spec c 8)].
  - rewrite bind_modify. apply (finish_spec (set_cursor _ _ t)); simpl; rewrite ?u32_small; try done; word_lia.
  - rewrite !bind_assoc, bind_get.
    replace ((terminal_row t * 80 + terminal_column t) mod 80) with (terminal_column t) by word_lia.
    destruct (Z.ltb_spec 0 (terminal_column t)).
    + unfold when at 1. rewrite bind_assoc, bind_modify, bind_assoc, bind_get. simpl.
      set (t1 := set_cursor _ _ t). unfold VGA_WIDTH.
      destruct (st_cell_holds t1 f (terminal_row t * 80 + (terminal_column t - 1)) 0 Ht)
        as (t2 & E2 & H2 & Hr2 & Hc2 & Hcol2); [lia|].
      rewrite (bind_ok _ _ _ _ _ E2). simpl in Hr2, Hc2, Hcol2. rewrite <-Hcol2.
      replace (terminal_row t * 80 + terminal_column t - 1)
        with (terminal_row t * 80 + (terminal_column t - 1)) by lia.
      apply finish_spec; rewrite ?Hr2, ?Hc2; try done; lia.
    + unfold when at 1. rewrite bind_ret_l. apply finish_spec; try done; lia.
  - rewrite !bind_assoc, bind_get, bind_assoc. unfold terminal_putentryat, VGA_WIDTH.
    destruct (st_cell_holds t f (terminal_row t * 80 + terminal_column t)
      (vga_entry c (terminal_color t)) Ht) as (t1 & E1 & H1 & Hr1 & Hc1 & Hcol1); [lia|].
    rewrite (bind_ok _ _ _ _ _ E1), !bind_assoc, bind_modify, bind_assoc, bind_get.
    rewrite <-Hcol1 in H1 |- *. cbn [terminal_column set_cursor]. rewrite Hc1, u32_small by lia.
    destruct (Z.eqb_spec (terminal_column t + 1) 80).
    + unfold when at 1. rewrite bind_modify. cbn [terminal_row set_cursor].
      rewrite Hr1, u32_small by lia.
      apply (finish_spec (set_cursor _ _ (set_cursor _ _ t1))); simpl; try done; lia.
    + unfold when at 1. rewrite bind_ret_l. apply (finish_spec (set_cursor _ _ _)); simpl; rewrite ?Hr1; try done; lia.
Qed.

(** The loops of [terminal_initialize]. *)
Lemma clear_rows n t f :
  terminal_color t = 7 → holds t f → 0 ≤ n ≤ 25 →
  ∃ t', for_each (seqZ 0 n) (λ y, for_each (seqZ 0 VGA_WIDTH) (λ x,
      let* color := gets terminal_color in st_cell (y * VGA_WIDTH + x) (vga_entry 32 color))) t = Ok tt t' ∧
    same_cursor t t' ∧ holds t' (λ i, if i <? n * 80 then 0x0720 else f i).
Proof.
  intros Hcol Ht. remember (Z.to_nat n) as d eqn:Hd. revert n Hd. induction d as [|d IH]; intros n Hd Hn.
  - assert (n = 0) as -> by lia. exists t. split; [done|]. split; [done|].
    eapply holds_ext; [done|]. intros i Hi. by rewrite (proj2 (Z.ltb_ge _ _)) by lia.
  - destruct (IH (n - 1) ltac:(lia) ltac:(lia)) as (t1 & E1 & Hc1 & H1).
    rewrite seqZ_snoc, for_each_app, (bind_ok _ _ _ _ _ E1) by lia. cbn [for_each]. rewrite bind_ret_tt.
    destruct (write_run (λ x, let* color := gets terminal_color in
        st_cell ((n - 1) * VGA_WIDTH + x) (vga_entry 32 color)) (λ _, 0x0720) ((n - 1) * 80) _ 80 t1 H1)
      as (t2 & E2 & Hc2 & H2); [lia..| |].
    { intros x t' f' Hx (_ & _ & Hcol') _ _. rewrite bind_gets. unfold VGA_WIDTH.
      destruct Hc1 as (_ & _ & Hcol1). by rewrite Hcol', Hcol1, Hcol. }
    exists t2. split; [done|]. split; [by eapply same_cursor_trans|].
    eapply holds_ext; [done|]. intros i Hi. simpl.
    destruct (Z.leb_spec ((n - 1) * 80) i), (Z.ltb_spec i ((n - 1) * 80 + 80)), (Z.ltb_spec i ((n - 1) * 80)),
      (Z.ltb_spec i (n * 80)); simpl; done || lia.
Qed.

(** ** The terminal as the console of an environment *)

Lemma wf_repr t : terminal_wf t → terminal_repr t (terminal_row t * 80 + terminal_column t, cells t).
Proof. by constructor. Qed.

Section instance.
Context `{Ports H}.

Lemma putchar_returns c t : terminal_wf t → ∃ t', putchar c t = Ok tt t' ∧ terminal_wf t'.
Proof. intros Hw. destruct (putchar_spec _ _ c (wf_repr _ Hw)) as (t' & E & Hr & _). exists t'. split; [done|apply Hr]. Qed.

#[export] Instance terminal_env : Env (terminal * H) := console_env putchar terminal_wf putchar_returns.
End instance.

(** ** Theorems *)

(** C20. [terminal_putchar] implements the specification: from a cursor on the screen it
    returns, keeps the cursor on the screen, and updates the cells as [putc_spec]
    says: newline, backspace within the row, any other character at the cursor,
    wrapping at the end of a row and scrolling by one row below the last one. *)
Theorem terminal_putchar_refines t sc c :
  terminal_repr t sc → ∃ t', putchar c t = Ok tt t' ∧
    terminal_repr t' (putc_spec (terminal_color t) c sc) ∧ terminal_color t' = terminal_color t.
Proof. apply putchar_spec. Qed.

(** [terminal_initialize] clears the 80 x 25 cells to light grey blanks, leaves the
    rest of the window alone and puts the cursor in the upper left corner. *)
Theorem terminal_initialize_correct t :
  length (terminal_buffer t) = VGA_CELLS →
  ∃ t', terminal_initialize t = Ok tt t' ∧ terminal_color t' = 7 ∧
    terminal_repr t' (0, λ i, if i <? 2000 then 0x0720 else cells t i).
Proof.
  intros Hl. unfold terminal_initialize. rewrite bind_modify.
  set (t0 := mkTerminal 0 0 _ _).
  destruct (clear_rows 25 t0 (cells t)) as (t' & E & (Hr & Hc & Hcol) & Hl' & H'); [done|by split|lia|].
  exists t'. split; [exact E|]. split; [done|]. simpl in Hr, Hc, Hcol. constructor.
  - unfold terminal_wf. rewrite Hr, Hc, Hl'. done.
  - simpl. by rewrite Hr, Hc.
  - done.
Qed.

(** ** Witnesses: a terminal whose cursor is in the last cell of the screen. *)

Definition terminal0 : terminal := mkTerminal 24 79 7 (replicate VGA_CELLS 0).
Lemma terminal0_wf : terminal_wf terminal0.
Proof.
  unfold terminal_wf, VGA_HEIGHT, VGA_WIDTH. cbn [terminal0 terminal_row terminal_column terminal_buffer].
  rewrite length_replicate. lia.
Qed.

Lemma terminal_putchar_refines_witness :
  ∃ t', putchar 65 terminal0 = Ok tt t' ∧ terminal_row t' * 80 + terminal_column t' = 1920 ∧
    cells t' 1919 = 0x0741.
Proof.
  destruct (terminal_putchar_refines terminal0 _ 65 (wf_repr _ terminal0_wf)) as (t' & E & [_ Hp Hc] & _).
  exists t'. split; [done|]. split; [by rewrite <-Hp|]. rewrite Hc by lia. reflexivity.
Defined.

Lemma terminal_initialize_correct_witness :
  ∃ t', terminal_initialize terminal0 = Ok tt t' ∧ cells t' 1999 = 0x0720.
Proof.
  destruct (terminal_initialize_correct terminal0) as (t' & E & _ & [_ _ Hc]);
    [apply length_replicate|]. exists t'. split; [done|]. rewrite Hc by lia. reflexivity.
Defined.
