(* ===== verification/Descriptors.v ===== *)
(** * Descriptor tables (src/gdt.c, src/idt.c, src/tss.c)

    The global and interrupt descriptor tables and the task state segment, as
    the packed records of the headers, with the readers the processor applies to
    them (the bit layout of the Intel manual).  The addresses of the tables and
    of the assembly stubs are fixed by the linker: parameters of class
    [Symbols].  So is the room behind the array [gdt], which has three entries while
    [gdt_install] writes six: [gdt_gap] is how many more gates fit there before the
    next object of the image.  A gate that does not fit overwrites that object, which
    C leaves undefined: [Fault]. *)

From S2P Require Import Prelude.

Class Symbols := {
  gdt_addr : Z;
  gdt_gap : nat;
  idt_addr : Z;
  tss_addr : Z;
  isr : Z → Z;
  irq : Z → Z }.

(** ** Data *)

(** [struct gdt_entry] *)
Record gdt_entry := mkGdtEntry {
  limit_low : Z; base_low : Z; base_middle : Z; access : Z; granularity : Z; base_high : Z }.
Definition gdt_entry0 : gdt_entry := mkGdtEntry 0 0 0 0 0 0.
Definition GDT_ENTRY_SIZE : Z := 8.
Definition ENTRY_COUNT : nat := 3.

(** [struct gdt_ptr] and [struct idt_ptr] *)
Record table_ptr := mkTablePtr { ptr_limit : Z; ptr_base : Z }.

(** [struct idt_entry] *)
Record idt_entry := mkIdtEntry { base_lo : Z; sel : Z; always0 : Z; flags : Z; base_hi : Z }.
Definition idt_entry0 : idt_entry := mkIdtEntry 0 0 0 0 0.
Definition IDT_ENTRY_SIZE : Z := 8.

(** [struct tss_struct], without the fields [write_tss] only zeroes. *)
Record tss_struct := mkTss {
  esp0 : Z; ss0 : Z; tss_cs : Z; tss_ss : Z; tss_ds : Z; tss_es : Z; tss_fs : Z; tss_gs : Z;
  iomap_base : Z }.
Definition TSS_SIZE : Z := 104.
Definition KERNEL_DATA_SEG : Z := 0x10.

(** The tables and the registers [lgdt], [lidt] and [ltr] load. [gdt] are the gates from
    address [gdt_addr] to the next object: the [ENTRY_COUNT] of the array, and the [gdt_gap]
    that fit behind it. *)
Record descriptors := mkDescriptors {
  gdt : list gdt_entry; gp : table_ptr;
  idt : list idt_entry; idtp : table_ptr;
  tss_entry : tss_struct;
  gdtr : table_ptr; idtr : table_ptr; tr : Z }.

Definition set_gdt (l : list gdt_entry) (s : descriptors) : descriptors :=
  mkDescriptors l (gp s) (idt s) (idtp s) (tss_entry s) (gdtr s) (idtr s) (tr s).
Definition set_gp (p : table_ptr) (s : descriptors) : descriptors :=
  mkDescriptors (gdt s) p (idt s) (idtp s) (tss_entry s) (gdtr s) (idtr s) (tr s).
Definition set_idt (l : list idt_entry) (s : descriptors) : descriptors :=
  mkDescriptors (gdt s) (gp s) l (idtp s) (tss_entry s) (gdtr s) (idtr s) (tr s).
Definition set_idtp (p : table_ptr) (s : descriptors) : descriptors :=
  mkDescriptors (gdt s) (gp s) (idt s) p (tss_entry s) (gdtr s) (idtr s) (tr s).
Definition set_tss (t : tss_struct) (s : descriptors) : descriptors :=
  mkDescriptors (gdt s) (gp s) (idt s) (idtp s) t (gdtr s) (idtr s) (tr s).
(** [gdt_flush], [idt_load] and [tss_flush] (assembly). *)
Definition gdt_flush : M descriptors unit := modify (λ s,
  mkDescriptors (gdt s) (gp s) (idt s) (idtp s) (tss_entry s) (gp s) (idtr s) (tr s)).
Definition idt_load : M descriptors unit := modify (λ s,
  mkDescriptors (gdt s) (gp s) (idt s) (idtp s) (tss_entry s) (gdtr s) (idtp s) (tr s)).
Definition tss_flush : M descriptors unit := modify (λ s,
  mkDescriptors (gdt s) (gp s) (idt s) (idtp s) (tss_entry s) (gdtr s) (idtr s) 0x2B).

Section operations.
Context `{Symbols}.

(** ** gdt.c *)

(** The descriptor [gdt_set_gate] builds. *)
Definition make_gate (base limit access gran : Z) : gdt_entry :=
  mkGdtEntry (u16 (Z.land limit 0xFFFF))
    (u16 (Z.land base 0xFFFF))
    (u8 (Z.land (Z.shiftr base 16) 0xFF))
    (u8 access)
    (u8 (Z.lor (u8 (Z.land (Z.shiftr limit 16) 0x0F)) (Z.land gran 0xF0)))
    (u8 (Z.land (Z.shiftr base 24) 0xFF)).

Definition gdt_set_gate (num base limit access gran : Z) : M descriptors unit := λ s,
  if bool_decide (0 ≤ num < length (gdt s))
  then Ok tt (set_gdt (<[Z.to_nat num := make_gate base limit access gran]> (gdt s)) s)
  else Fault.

(** ** tss.c: [esp] is the stack pointer when [write_tss] runs. *)

Definition write_tss (esp : Z) : M descriptors unit :=
  gdt_set_gate 5 tss_addr (u32 (tss_addr + TSS_SIZE)) 0xE9 0x00 ;;;
  modify (set_tss (mkTss esp KERNEL_DATA_SEG 0x0B 0x13 0x13 0x13 0x13 0x13 TSS_SIZE)).

Definition set_kernel_stack (stack : Z) : M descriptors unit :=
  modify (λ s, let t := tss_entry s in
    set_tss (mkTss stack (ss0 t) (tss_cs t) (tss_ss t) (tss_ds t) (tss_es t) (tss_fs t) (tss_gs t)
               (iomap_base t)) s).

Definition gdt_install (esp : Z) : M descriptors unit :=
  modify (λ s, set_gp (mkTablePtr (u16 (GDT_ENTRY_SIZE * 6 - 1)) gdt_addr) s) ;;;
  gdt_set_gate 0 0 0 0 0 ;;;
  gdt_set_gate 1 0 0xFFFFFFFF 0x9A 0xCF ;;;
  gdt_set_gate 2 0 0xFFFFFFFF 0x92 0xCF ;;;
  gdt_set_gate 3 0 0xFFFFFFFF 0xFA 0xCF ;;;
  gdt_set_gate 4 0 0xFFFFFFFF 0xF2 0xCF ;;;
  write_tss esp ;;;
  gdt_flush ;;;
  tss_flush.

(** ** idt.c *)

Definition idt_set_gate (num base sel flags : Z) : M descriptors unit := λ s,
  if bool_decide (u8 num < length (idt s))
  then Ok tt (set_idt (<[Z.to_nat (u8 num) :=
         mkIdtEntry (u16 (Z.land base 0xFFFF)) (u16 sel) 0 (u8 (Z.lor (u8 flags) 0x60))
           (u16 (Z.land (Z.shiftr base 16) 0xFFFF))]> (idt s)) s)
  else Fault.

Definition idt_install : M descriptors unit :=
  modify (set_idtp (mkTablePtr (u16 (IDT_ENTRY_SIZE * 256 - 1)) idt_addr)) ;;;
  modify (λ s, set_idt (replicate (Z.to_nat 256) idt_entry0) s) ;;;
  for_each (seqZ 0 32) (λ n, idt_set_gate n (isr n) 0x08 0x8E) ;;;
  idt_load.

(** The gates of irq.c's [irq_install]. *)
Definition irq_gates : M descriptors unit :=
  for_each (seqZ 0 16) (λ n, idt_set_gate (32 + n) (irq n) 0x08 0x8E) ;;;
  idt_set_gate 128 (irq 96) 0x08 0xEE.

(** ** What the processor reads *)

Definition segment_base (e : gdt_entry) : Z :=
  base_low e + base_middle e * 2 ^ 16 + base_high e * 2 ^ 24.
Definition segment_limit (e : gdt_entry) : Z := limit_low e + granularity e mod 16 * 2 ^ 16.
Definition segment_flags (e : gdt_entry) : Z := granularity e / 16.

Definition gate_offset (e : idt_entry) : Z := base_lo e + base_hi e * 2 ^ 16.
Definition gate_present (e : idt_entry) : bool := Z.testbit (flags e) 7.
(** The lowest privilege that may raise the vector with an [int] instruction. *)
Definition gate_dpl (e : idt_entry) : Z := flags e / 32 mod 4.

(** The stub the vector [n] must enter after installation. *)
Definition vector_stub (n : Z) : option Z :=
  if n <? 32 then Some (isr n)
  else if n <? 48 then Some (irq (n - 32))
  else if n =? 128 then Some (irq 96) else None.

(** ** Lemmas *)

Lemma land_ones8 x : Z.land x 0xFF = x mod 256.
Proof using. change 0xFF with (Z.ones 8). by rewrite Z.land_ones. Qed.
Lemma land_ones16 x : Z.land x 0xFFFF = x mod 65536.
Proof using. change 0xFFFF with (Z.ones 16). by rewrite Z.land_ones. Qed.
Lemma land_ones4 x : Z.land x 0x0F = x mod 16.
Proof using. change 0x0F with (Z.ones 4). by rewrite Z.land_ones. Qed.

Lemma nibbles_lor lo hi : 0 ≤ lo < 16 → Z.lor lo (Z.land hi 0xF0) = lo + hi mod 256 / 16 * 16.
Proof using.
  intros. rewrite Z.lor_comm. change 0xF0 with (Z.shiftl (Z.ones 4) 4).
  rewrite land_shifted_ones, lor_shifted_low by lia. change (2 ^ (4 + 4)) with 256.
  change (2 ^ 4) with 16. lia.
Qed.

Lemma gdt_set_gate_in s num base limit acc gran :
  0 ≤ num < length (gdt s) →
  ∃ s', gdt_set_gate num base limit acc gran s = Ok tt s' ∧ length (gdt s') = length (gdt s).
Proof using.
  intros Hn. unfold gdt_set_gate. rewrite bool_decide_eq_true_2 by done.
  eexists. split; [done|]. simpl. apply length_insert.
Qed.

Definition gate_for (base flags : Z) : idt_entry :=
  mkIdtEntry (base mod 65536) 0x08 0 (Z.lor flags 0x60) (base / 65536 mod 65536).

Lemma idt_set_gate_ok s num base fl :
  length (idt s) = Z.to_nat 256 → 0 ≤ num < 256 → 0 ≤ fl < 256 →
  idt_set_gate num base 0x08 fl s = Ok tt (set_idt (<[Z.to_nat num := gate_for base fl]> (idt s)) s).
Proof using.
  intros Hl Hn Hf. unfold idt_set_gate. rewrite (u8_small num), Hl by lia.
  rewrite bool_decide_eq_true_2 by lia. unfold gate_for. do 4 f_equal. f_equal.
  - rewrite land_ones16, u16_small; [done|]. apply Z.mod_pos_bound. lia.
  - rewrite (u8_small fl) by lia. apply u8_small. split; [apply Z.lor_nonneg; lia|].
    apply Z.log2_lt_cancel. rewrite Z.log2_lor by lia.
    assert (Z.log2 fl ≤ Z.log2 255) by (apply Z.log2_le_mono; lia).
    change (Z.log2 255) with 7 in *. change (Z.log2 96) with 6. change (Z.log2 256) with 8. lia.
  - rewrite Z.shiftr_div_pow2, land_ones16 by lia. apply u16_small, Z.mod_pos_bound. lia.
Qed.

Lemma gate_for_reads stub fl :
  Z.lor fl 0x60 = 0xEE →
  gate_offset (gate_for stub fl) = u32 stub ∧ sel (gate_for stub fl) = 0x08 ∧
  gate_present (gate_for stub fl) = true ∧ gate_dpl (gate_for stub fl) = 3.
Proof using.
  intros Hfl. unfold gate_offset, gate_for, gate_present, gate_dpl.
  cbn [base_lo base_hi flags sel]. rewrite Hfl. split; [|done].
  change (2 ^ 16) with 65536. word_lia.
Qed.

(** A run of gates. *)
Lemma set_gates (stub : Z → Z) base n : ∀ s,
  length (idt s) = Z.to_nat 256 → 0 ≤ base → 0 ≤ n → base + n ≤ 256 →
  ∃ l, for_each (seqZ 0 n) (λ i, idt_set_gate (base + i) (stub i) 0x08 0x8E) s = Ok tt (set_idt l s) ∧
    length l = Z.to_nat 256 ∧
    ∀ j, 0 ≤ j < 256 → l !! Z.to_nat j =
      if (base <=? j) && (j <? base + n) then Some (gate_for (stub (j - base)) 0x8E) else idt s !! Z.to_nat j.
Proof using.
  remember (Z.to_nat n) as d eqn:Hd. revert n Hd. induction d as [|d IH]; intros n Hd s Hl Hb Hn Hle.
  - assert (n = 0) as -> by lia. exists (idt s). split; [by destruct s|]. split; [done|].
    intros j Hj. by destruct (Z.leb_spec base j), (Z.ltb_spec j (base + 0)); simpl; done || lia.
  - destruct (IH (n - 1) ltac:(lia) s Hl) as (l & E & Hl' & Hlk); [lia..|].
    rewrite seqZ_snoc, for_each_app, (bind_ok _ _ _ _ _ E) by lia. cbn [for_each].
    rewrite bind_ret_tt, idt_set_gate_ok by (simpl; done || lia).
    exists (<[Z.to_nat (base + (n - 1)) := gate_for (stub (n - 1)) 0x8E]> l).
    split; [done|]. split; [by rewrite length_insert|]. intros j Hj.
    destruct (decide (j = base + (n - 1))) as [->|Hne].
    + rewrite list_lookup_insert_eq by lia.
      rewrite (proj2 (Z.leb_le _ _)), (proj2 (Z.ltb_lt _ _)) by lia. simpl. do 3 f_equal. lia.
    + rewrite list_lookup_insert_ne, Hlk by lia.
      destruct (Z.leb_spec base j), (Z.ltb_spec j (base + (n - 1))), (Z.ltb_spec j (base + n)); simpl; done || lia.
Qed.

(** ** Theorems *)

(** A segment descriptor written by [gdt_set_gate] reads back as the base, the
    low 20 bits of the limit, the access byte and the four flags it was given;
    an index outside of the table is out of bounds. *)
Theorem gdt_set_gate_roundtrip num base limit acc gran s :
  0 ≤ base < 2 ^ 32 → 0 ≤ limit < 2 ^ 32 → 0 ≤ acc < 256 → 0 ≤ gran < 256 →
  if (0 <=? num) && (num <? length (gdt s)) then
    ∃ s' e, gdt_set_gate num base limit acc gran s = Ok tt s' ∧
      gdt s' !! Z.to_nat num = Some e ∧
      segment_base e = base ∧ segment_limit e = limit mod 2 ^ 20 ∧
      access e = acc ∧ segment_flags e = gran / 16 ∧
      ∀ j, j ≠ Z.to_nat num → gdt s' !! j = gdt s !! j
  else gdt_set_gate num base limit acc gran s = Fault.
Proof using.
  intros Hb Hl Ha Hg. unfold gdt_set_gate.
  destruct (Z.leb_spec 0 num), (Z.ltb_spec num (length (gdt s))); simpl;
    try (rewrite bool_decide_eq_false_2; [done|lia]).
  rewrite bool_decide_eq_true_2 by lia. do 2 eexists. split; [done|].
  split; [simpl; apply list_lookup_insert_eq; lia|].
  unfold make_gate, segment_base, segment_limit, segment_flags. simpl.
  rewrite !Z.shiftr_div_pow2, !land_ones16, !land_ones8, land_ones4 by lia.
  change (2 ^ 16) with 65536. change (2 ^ 24) with 16777216. change (2 ^ 20) with 1048576.
  rewrite nibbles_lor by word_lia.
  split_and!; [word_lia..|]. intros j Hj. by rewrite list_lookup_insert_ne.
Qed.

(** On a table of six entries or more. The limit [write_tss] gives the task state segment
    is the address of its end, not its size. *)
Lemma gdt_install_spec esp s :
  (6 ≤ length (gdt s))%nat →
  ∃ s', gdt_install esp s = Ok tt s' ∧ gdtr s' = mkTablePtr 47 gdt_addr ∧ tr s' = 0x2B ∧
    tss_entry s' = mkTss esp KERNEL_DATA_SEG 0x0B 0x13 0x13 0x13 0x13 0x13 TSS_SIZE ∧
    take 6 (gdt s') = [make_gate 0 0 0 0; make_gate 0 0xFFFFFFFF 0x9A 0xCF; make_gate 0 0xFFFFFFFF 0x92 0xCF;
      make_gate 0 0xFFFFFFFF 0xFA 0xCF; make_gate 0 0xFFFFFFFF 0xF2 0xCF; make_gate tss_addr (u32 (tss_addr + TSS_SIZE)) 0xE9 0] ∧
    drop 6 (gdt s') = drop 6 (gdt s).
Proof using.
  destruct s as [g p i q t a b c]. cbn [gdt]. intros Hl.
  destruct g as [|g0 [|g1 [|g2 [|g3 [|g4 [|g5 g]]]]]]; simpl in Hl; try lia.
  unfold gdt_install, write_tss. rewrite bind_modify. unfold set_gp. cbn [gdt idt idtp tss_entry gdtr idtr tr].
  do 5 (unfold gdt_set_gate at 1; unfold bind at 1; cbn [gdt]; rewrite bool_decide_eq_true_2 by (simpl; lia);
    unfold set_gdt; cbn [gp idt idtp tss_entry gdtr idtr tr]).
  rewrite bind_assoc. unfold gdt_set_gate at 1. unfold bind at 1. cbn [gdt]. rewrite bool_decide_eq_true_2 by (simpl; lia).
  unfold set_gdt at 1. cbn [gp idt idtp tss_entry gdtr idtr tr]. rewrite bind_modify.
  unfold gdt_flush, tss_flush, set_tss. rewrite bind_modify. eexists. split; [reflexivity|].
  cbn [gdtr gp idt idtp tss_entry idtr tr gdt]. split; [done|]. split; [done|]. split; [done|]. by split.
Qed.

(** [gdt_install] writes past the table, which has [ENTRY_COUNT] = 3 entries: the fourth gate
    is stored behind it, and without room for three gates there another object is hit. *)
Theorem gdt_install_overruns esp s :
  (length (gdt s) < 6)%nat → gdt_install esp s = Fault.
Proof using.
  destruct s as [g p i q t a b c]. cbn [gdt]. intros Hl.
  unfold gdt_install, write_tss. rewrite bind_modify. unfold set_gp. cbn [gdt idt idtp tss_entry gdtr idtr tr].
  destruct g as [|g0 [|g1 [|g2 [|g3 [|g4 [|g5 g]]]]]]; simpl in Hl; try lia; reflexivity.
Qed.

(** After [idt_install] and [irq_install], in whatever state the table was: every
    vector below 48 and vector 128 enters its own stub in the kernel's code
    segment, every other gate is absent, and every gate that is present has
    privilege level 3, so that user code can raise any of these vectors. *)
Lemma idt_complete s :
  ∃ s', (idt_install ;;; irq_gates) s = Ok tt s' ∧
    idtr s' = mkTablePtr 2047 idt_addr ∧ length (idt s') = Z.to_nat 256 ∧ (gdtr s' = gdtr s ∧ tr s' = tr s) ∧
    ∀ n, 0 ≤ n < 256 → ∃ e, idt s' !! Z.to_nat n = Some e ∧
      match vector_stub n with
      | Some stub => gate_offset e = u32 stub ∧ sel e = 0x08 ∧ gate_present e = true ∧ gate_dpl e = 3
      | None => gate_present e = false
      end.
Proof using.
  unfold idt_install, irq_gates. rewrite !bind_assoc, bind_modify, bind_assoc, bind_modify, bind_assoc.
  set (s0 := set_idt _ _).
  destruct (set_gates isr 0 32 s0) as (l1 & E1 & Hl1 & H1); [unfold s0; cbn [idt set_idt]; apply length_replicate|lia..|].
  cbn [Z.add] in E1.
  rewrite (bind_ok _ _ _ _ _ E1). unfold idt_load. rewrite bind_modify.
  set (s1 := mkDescriptors _ _ _ _ _ _ _ _).
  destruct (set_gates irq 32 16 s1) as (l2 & E2 & Hl2 & H2); [exact Hl1|lia..|].
  rewrite (bind_ok _ _ _ _ _ E2), idt_set_gate_ok by (exact Hl2 || lia).
  eexists. split; [reflexivity|]. cbn [idtr idt set_idt]. split; [reflexivity|].
  split; [by rewrite length_insert|]. split; [by split|]. intros n Hn.
  clear E1 E2.
  unfold vector_stub. destruct (decide (n = 128)) as [->|Hne].
  { eexists. split; [apply list_lookup_insert_eq; lia|]. by apply gate_for_reads. }
  rewrite list_lookup_insert_ne by lia. cbn [idt set_idt]. rewrite H2 by lia. cbn [s1 idt].
  rewrite H1 by lia. rewrite (proj2 (Z.eqb_neq n 128)) by done.
  change (32 + 16) with 48. change (0 + 32) with 32. rewrite (proj2 (Z.leb_le 0 n)) by lia.
  destruct (Z.ltb_spec n 32), (Z.leb_spec 32 n), (Z.ltb_spec n 48); cbn [andb]; try lia.
  - rewrite Z.sub_0_r. eexists. split; [done|]. by apply gate_for_reads.
  - eexists. split; [done|]. by apply gate_for_reads.
  - unfold s0. cbn [idt set_idt]. rewrite lookup_replicate_2 by lia. eexists. split; [done|]. reflexivity.
Qed.
End operations.

(** ** Witnesses *)

Definition symbols0 : Symbols := Build_Symbols 0xC0108000 3 0xC0109000 0xC010A000
  (λ n, 0xC0100000 + 16 * n) (λ n, 0xC0101000 + 16 * n).
Definition descriptors0 : descriptors :=
  mkDescriptors (replicate ENTRY_COUNT gdt_entry0) (mkTablePtr 0 0) (replicate (Z.to_nat 256) idt_entry0)
    (mkTablePtr 0 0) (mkTss 0 0 0 0 0 0 0 0 0) (mkTablePtr 0 0) (mkTablePtr 0 0) 0.

Lemma gdt_set_gate_roundtrip_witness :
  ∃ s' e, gdt_set_gate 2 0x12345678 0xFFFFFFFF 0x92 0xCF descriptors0 = Ok tt s' ∧
    gdt s' !! 2%nat = Some e ∧ segment_base e = 0x12345678 ∧ segment_limit e = 0xFFFFF.
Proof.
  destruct (gdt_set_gate_roundtrip 2 0x12345678 0xFFFFFFFF 0x92 0xCF descriptors0)
    as (s' & e & E & He & Hb & Hl & _); [lia..|]. by exists s', e.
Defined.

Lemma gdt_install_overruns_witness : @gdt_install symbols0 0 descriptors0 = Fault.
Proof. apply (@gdt_install_overruns symbols0 0 descriptors0). simpl. lia. Defined.
