(* ===== verification/Irq.v ===== *)
(** * Interrupt dispatch (src/irq.c)

    The table of interrupt routines, the programming of the two interrupt
    controllers and the common handler.  Function pointers are the constructors
    of [handler] (a null pointer is [None]); what a routine does is the argument
    [run] of [irq_handler], instantiated in [Syscall.v] with the kernel's
    drivers. *)

From S2P Require Import Prelude Memory Io.

(** ** Data *)

(** The functions of the kernel whose address is stored in [irq_routines]. *)
Inductive handler := timer_routine | keyboard_routine | rtc_routine | syscall_routine.
#[export] Instance handler_eq_dec : EqDecision handler.
Proof. solve_decision. Defined.

(** [struct regs]: the stack frame the stubs build. *)
Record regs := mkRegs {
  gs : Z; fs : Z; es : Z; ds : Z;
  edi : Z; esi : Z; ebp : Z; esp : Z; ebx : Z; edx : Z; ecx : Z; eax : Z;
  int_no : Z; err_code : Z;
  eip : Z; cs : Z; eflags : Z; useresp : Z; ss : Z }.
Definition set_eax (v : Z) (r : regs) : regs :=
  mkRegs (gs r) (fs r) (es r) (ds r) (edi r) (esi r) (ebp r) (esp r) (ebx r) (edx r) (ecx r) v
    (int_no r) (err_code r) (eip r) (cs r) (eflags r) (useresp r) (ss r).

(** The static variables of rtc.c. *)
Record rtc_state := mkRtc {
  second : Z; minute : Z; hour : Z; day : Z; month : Z; year : Z; century : Z; century_register : Z }.

(** What the interrupt handlers share: the routines, the timer's and the clock's
    variables, and the memory system calls read their arguments from. *)
Record devices := mkDevices {
  irq_routines : list (option handler);
  jiffies : Z;
  rtc : rtc_state;
  memory : mem }.
Definition set_irq_routines (l : list (option handler)) (d : devices) : devices :=
  mkDevices l (jiffies d) (rtc d) (memory d).
Definition set_jiffies (j : Z) (d : devices) : devices :=
  mkDevices (irq_routines d) j (rtc d) (memory d).
Definition set_rtc (r : rtc_state) (d : devices) : devices :=
  mkDevices (irq_routines d) (jiffies d) r (memory d).
Definition set_memory (m : mem) (d : devices) : devices :=
  mkDevices (irq_routines d) (jiffies d) (rtc d) m.

Definition IRQ_ROUTINES : nat := Z.to_nat 256.

Section operations.
Context `{Env E}.

(** Port accesses and printing from a handler. *)
Definition io {A} (m : M E A) : M (devices * E) A := on_snd m.
Definition on_devices {A} (m : M devices A) : M (devices * E) A := on_fst m.

(** ** Operations *)

Definition st_routine (i : Z) (h : option handler) : M devices unit := λ d,
  if bool_decide (0 ≤ i < length (irq_routines d))
  then Ok tt (set_irq_routines (<[Z.to_nat i := h]> (irq_routines d)) d) else Fault.

Definition irq_install_handler (irq : Z) (h : handler) : M (devices * E) unit :=
  io (terminal_write (chars "installing handler" ++ [10])) ;;;
  on_devices (st_routine irq (Some h)) ;;;
  io (terminal_printhex32 irq).

Definition irq_uninstall_handler (irq : Z) : M (devices * E) unit :=
  on_devices (st_routine irq None).

Definition irq_remap : M E unit :=
  outb 0x20 0x11 ;;; outb 0xA0 0x11 ;;;
  outb 0x21 0x20 ;;; outb 0xA1 0x28 ;;;
  outb 0x21 0x04 ;;; outb 0xA1 0x02 ;;;
  outb 0x21 0x01 ;;; outb 0xA1 0x01 ;;;
  outb 0x21 0x0 ;;; outb 0xA1 0x0.

Definition irq_handler (run : handler → regs → M (devices * E) regs) (r : regs) :
    M (devices * E) regs :=
  let* d := gets fst in
  let i := u32 (int_no r - 32) in
  let* h := of_option (irq_routines d !! Z.to_nat i) in
  let* r := match h with Some h => run h r | None => ret r end in
  io (when ((40 <=? u8 (int_no r)) && negb (int_no r =? 0x80)) (outb 0xA0 0x20)) ;;;
  io (when (negb (int_no r =? 0x80)) (outb 0x20 0x20)) ;;;
  ret r.

(** ** Specification of the end of interrupt *)

(** The ports that receive an end-of-interrupt command for vector [n]: the
    slave controller's vectors are 40 to 47, the master's 32 to 39. *)
Definition eoi_ports (n : Z) : list Z :=
  if n =? 0x80 then [] else if 40 <=? n then [0xA0; 0x20] else [0x20].
Definition send_eoi (n : Z) (e : E) : E := fold_left (λ e p, env_out W8 p 0x20 e) (eoi_ports n) e.

(** ** Lemmas *)

Lemma io_ok {A} (m : M E A) d e a e' : m e = Ok a e' → io m (d, e) = Ok a (d, e').
Proof using. unfold io, on_snd, zoom. simpl. by intros ->. Qed.
Lemma on_devices_ok {A} (m : M devices A) d e a d' : m d = Ok a d' → on_devices m (d, e) = Ok a (d', e).
Proof using. unfold on_devices, on_fst, zoom. simpl. by intros ->. Qed.
Lemma io_returns {A} (m : M E A) d e :
  returns m → env_wf e → ∃ a e', io m (d, e) = Ok a (d, e') ∧ env_wf e'.
Proof using.
  intros Hm He. destruct (Hm e He) as (a & e' & E1 & He'). exists a, e'. by rewrite (io_ok _ _ _ _ _ E1).
Qed.

Lemma eoi_spec (r : regs) d e :
  0 ≤ int_no r < 256 →
  (io (when ((40 <=? u8 (int_no r)) && negb (int_no r =? 0x80)) (outb 0xA0 0x20)) ;;;
   io (when (negb (int_no r =? 0x80)) (outb 0x20 0x20)) ;;; ret r) (d, e)
  = Ok r (d, send_eoi (int_no r) e).
Proof using.
  intros Hn. unfold send_eoi, eoi_ports. rewrite u8_small by lia.
  destruct (Z.eqb_spec (int_no r) 0x80) as [->|Hne]; [done|].
  by destruct (Z.leb_spec 40 (int_no r)).
Qed.

Lemma install_spec i h d e :
  length (irq_routines d) = IRQ_ROUTINES → 0 ≤ i < 256 → env_wf e →
  ∃ e', irq_install_handler i h (d, e) =
      Ok tt (set_irq_routines (<[Z.to_nat i := Some h]> (irq_routines d)) d, e') ∧ env_wf e'.
Proof using.
  intros Hl Hi He. unfold irq_install_handler.
  destruct (io_returns _ d e (returns_write (chars "installing handler" ++ [10])) He) as ([] & e1 & E1 & He1).
  rewrite (bind_ok _ _ _ _ _ E1).
  assert (st_routine i (Some h) d = Ok tt (set_irq_routines (<[Z.to_nat i := Some h]> (irq_routines d)) d)) as E2.
  { unfold st_routine. rewrite Hl. unfold IRQ_ROUTINES. by rewrite bool_decide_eq_true_2 by lia. }
  rewrite (bind_ok _ _ _ _ _ (on_devices_ok _ d e1 _ _ E2)).
  destruct (io_returns _ (set_irq_routines (<[Z.to_nat i := Some h]> (irq_routines d)) d) e1
    (returns_printhex32 i) He1) as ([] & e2 & E3 & He2).
  by exists e2.
Qed.

(** Taking an interrupt whose entry of the table is known. *)
Lemma irq_handler_spec run r d e ho :
  32 ≤ int_no r < 256 → irq_routines d !! Z.to_nat (int_no r - 32) = Some ho →
  match ho with
  | None => irq_handler run r (d, e) = Ok r (d, send_eoi (int_no r) e)
  | Some h => ∀ r' d2 e2, run h r (d, e) = Ok r' (d2, e2) → int_no r' = int_no r →
      irq_handler run r (d, e) = Ok r' (d2, send_eoi (int_no r) e2)
  end.
Proof using.
  intros Hn Hl. unfold irq_handler. rewrite bind_gets, u32_small by lia. cbn [fst]. rewrite Hl. cbn [of_option].
  rewrite bind_ret_l. destruct ho as [h|].
  - intros r' d2 e2 E2 Hno. rewrite (bind_ok _ _ _ _ _ E2), eoi_spec by lia. by rewrite Hno.
  - by rewrite bind_ret_l, eoi_spec by lia.
Qed.

(** ** Theorems *)

(** Installing a routine for a line and then taking the interrupt of that line
    runs exactly that routine with the saved registers and acknowledges the
    interrupt afterwards: to both controllers for the slave's lines, to the
    master only for the others, and to none for the system call vector. *)
Theorem irq_install_dispatch run line h r d e :
  length (irq_routines d) = IRQ_ROUTINES → env_wf e →
  0 ≤ line < 224 → int_no r = 32 + line →
  (∀ s, ∃ r' s', run h r s = Ok r' s' ∧ int_no r' = int_no r) →
  ∃ e1 r' d2 e2, irq_install_handler line h (d, e) =
      Ok tt (set_irq_routines (<[Z.to_nat line := Some h]> (irq_routines d)) d, e1) ∧
    run h r (set_irq_routines (<[Z.to_nat line := Some h]> (irq_routines d)) d, e1) = Ok r' (d2, e2) ∧
    irq_handler run r (set_irq_routines (<[Z.to_nat line := Some h]> (irq_routines d)) d, e1)
      = Ok r' (d2, send_eoi (32 + line) e2).
Proof using.
  intros Hl He Hline Hno Hrun. destruct (install_spec line h d e Hl) as (e1 & E1 & He1); [lia|done|].
  set (d1 := set_irq_routines _ d) in *. destruct (Hrun (d1, e1)) as (r' & [d2 e2] & E2 & Hno').
  exists e1, r', d2, e2. split; [done|]. split; [done|].
  pose proof (irq_handler_spec run r d1 e1 (Some h)) as Hs. rewrite Hno in Hs.
  apply Hs; [lia| |done|congruence]. unfold d1. simpl. replace (32 + line - 32) with line by lia.
  apply list_lookup_insert_eq. rewrite Hl. unfold IRQ_ROUTINES. lia.
Qed.

(** A vector without routine is acknowledged and otherwise ignored, and a
    vector below 32 or above 287 makes the handler read outside of the table. *)
Theorem irq_handler_edges run r d e :
  length (irq_routines d) = IRQ_ROUTINES → 0 ≤ int_no r < 2 ^ 32 →
  if (32 <=? int_no r) && (int_no r <? 288) then
    int_no r < 256 → irq_routines d !! Z.to_nat (int_no r - 32) = Some None →
    irq_handler run r (d, e) = Ok r (d, send_eoi (int_no r) e)
  else irq_handler run r (d, e) = Fault.
Proof using.
  intros Hl Hn. unfold irq_handler. rewrite bind_gets. unfold IRQ_ROUTINES in Hl.
  destruct (Z.leb_spec 32 (int_no r)), (Z.ltb_spec (int_no r) 288); cbn [andb fst].
  - rewrite u32_small by lia. intros H256 ->. simpl. rewrite !bind_ret_l. by rewrite eoi_spec by lia.
  - rewrite u32_small, lookup_ge_None_2 by lia. done.
  - rewrite lookup_ge_None_2; [done|]. rewrite Hl. word_lia.
  - lia.
Qed.
End operations.
