(* ===== verification/Faults.v ===== *)
(** * Processor exceptions ([fault_handler] of src/idt.c)

    The stubs of the first 32 vectors enter [fault_handler] with the frame of [Irq.v];
    it says on the console what happened and stops the machine. *)

From S2P Require Import Prelude Memory Io Irq.

(** [for (;;);]: nothing happens any more, the state stays what it is. *)
Definition forever {S A} : M S A := kpanic "for (;;)".

Section operations.
Context `{Env E}.

(** [cr2] is the register the processor leaves the address of a page fault in. *)
Definition fault_handler (cr2 : Z) (r : regs) : M E unit :=
  when (int_no r <? 32)
    (terminal_writestring "PROBLEM" ;;;
     terminal_printhex (int_no r) ;;;
     when (int_no r =? 0x0E)
       (terminal_writestring "Page fault" ;;;
        let fault_addr := cr2 in
        terminal_printhex32 fault_addr) ;;;
     when (int_no r =? 0x0D)
       (terminal_writestring "General protection fault" ;;;
        terminal_printhex32 (eip r)) ;;;
     when (int_no r =? 0xA0)
       (terminal_writestring "Bad TSS") ;;;
     forever).

(** What is on the screen in the end. *)
Definition hex8 (k : Z) : list Z := [hex_digit (k / 16 mod 16); hex_digit (k mod 16)].
Definition fault_text (cr2 : Z) (r : regs) : list Z :=
  chars "PROBLEM" ++ hex8 (int_no r) ++
  (if int_no r =? 14 then chars "Page fault" ++ hex32 cr2 else []) ++
  (if int_no r =? 13 then chars "General protection fault" ++ hex32 (eip r) else []).

(** ** Lemmas *)

Lemma write_app l1 l2 (e : E) :
  terminal_write (l1 ++ l2) e = (terminal_write l1 ;;; terminal_write l2) e.
Proof using. apply for_each_app. Qed.
Lemma printhex_write k (e : E) : terminal_printhex k e = terminal_write (hex8 k) e.
Proof using.
  unfold terminal_printhex, hex8. rewrite nibble_high, nibble_low. unfold terminal_write. cbn [for_each].
  apply bind_ext. intros [] e'. by rewrite bind_ret_tt.
Qed.
Lemma printhex32_write k (e : E) : terminal_printhex32 k e = terminal_write (hex32 k) e.
Proof using.
  rewrite printhex32_digits. unfold terminal_write, hex32. cbn [fmap list_fmap for_each]. cbv zeta.
  do 7 (apply bind_ext; intros [] ?). by rewrite bind_ret_tt.
Qed.
(** [m] prints [l], here as the first of several steps: what is left to print is what the
    steps that follow print. *)
Definition says (m : M E unit) (l : list Z) : Prop := ∀ e, m e = terminal_write l e.
Lemma says_bind m1 l1 m2 l2 : says m1 l1 → says m2 l2 → says (m1 ;;; m2) (l1 ++ l2).
Proof using.
  intros H1 H2 e. rewrite write_app. unfold bind. rewrite H1. by destruct (terminal_write l1 e).
Qed.
Lemma says_when (b : bool) m l : says m l → says (when b m) (if b then l else []).
Proof using. intros Hm. by destruct b. Qed.
Lemma says_step m l rest (f : unit → M E unit) (e : E) :
  says m l → env_wf e →
  ∃ e1, bind m f e = f tt e1 ∧ terminal_write (l ++ rest) e = terminal_write rest e1 ∧ env_wf e1.
Proof using.
  intros Hm He. destruct (returns_write l e He) as ([] & e1 & E1 & He1). exists e1.
  rewrite write_app, (bind_ok _ _ _ tt e1) by (by rewrite Hm). by rewrite (bind_ok _ _ _ _ _ E1).
Qed.

Lemma says_text t : says (terminal_writestring t) (chars t).
Proof using. done. Qed.
Ltac says := first [apply says_text|exact (printhex_write _)|exact (printhex32_write _)
  |apply says_when; says|apply says_bind; says].
Ltac say_step l e' :=
  match goal with
  | |- context [terminal_write (l ++ ?rest) ?e] =>
      match goal with |- context [bind ?m ?f e] =>
        let He := fresh "He" in
        destruct (says_step m l rest f e) as (e' & -> & -> & He); [says|assumption|] end
  end.

Lemma fault_handler_spec cr2 r (e : E) :
  env_wf e →
  if int_no r <? 32 then
    ∃ e', terminal_write (fault_text cr2 r) e = Ok tt e' ∧ fault_handler cr2 r e = Panic "for (;;)" e'
  else fault_handler cr2 r e = Ok tt e.
Proof using.
  intros He. unfold fault_handler. destruct (Z.ltb_spec (int_no r) 32) as [Hlt|]; [|done]. cbn [when].
  unfold fault_text. rewrite (proj2 (Z.eqb_neq (int_no r) 0xA0)) by lia.
  set (pf := if int_no r =? 14 then _ else _). set (gp := if int_no r =? 13 then _ else _).
  say_step (chars "PROBLEM") e1. say_step (hex8 (int_no r)) e2. say_step pf e3.
  rewrite <-(app_nil_r gp). say_step gp e4.
  by exists e4.
Qed.
(** ** Theorem *)

(** An exception prints its number, for a page fault the faulting address and for a
    general protection fault the address of the instruction, and stops there; other
    vectors are ignored. The message for a bad task segment cannot appear. *)
Theorem fault_handler_correct cr2 r (e : E) :
  env_wf e →
  if int_no r <? 32 then
    ∃ e', terminal_write (fault_text cr2 r) e = Ok tt e' ∧ fault_handler cr2 r e = Panic "for (;;)" e'
  else fault_handler cr2 r e = Ok tt e.
Proof using. apply fault_handler_spec. Qed.
End operations.
