(* ===== verification/Drivers.v ===== *)
(** * Timer, keyboard and real-time clock (src/drivers/timer.c, keyboard.c, rtc.c)

    The handlers work on the devices of [Irq.v] and on the ports of an abstract
    environment.  What a theorem needs to know of a chip is a class of its own
    ([KeyboardPort], [Cmos]) with the behaviour its data sheet documents. *)

From S2P Require Import Prelude Memory Io Irq.

(** ** The programmable interval timer *)

Module Timer.
Section timer.
Context `{Env E}.

Definition timer_handler (r : regs) : M (devices * E) regs :=
  on_devices (modify (λ d, set_jiffies (u32 (jiffies d + 1)) d)) ;;; ret r.

Definition timer_install : M (devices * E) unit := irq_install_handler 0 timer_routine.

Definition timer_set_interval (hz : Z) : M E unit :=
  if hz =? 0 then fault else
  let divisor := 1193180 / hz in
  outb 0x43 0x36 ;;;
  outb 0x40 (Z.land divisor 0xFF) ;;;
  outb 0x40 (Z.shiftr divisor 8).

(** [timer_set_interval] sends the command byte and then the low and the high byte
    of the divisor; the 16-bit counter gets the divisor for 19 Hz and more and
    its remainder modulo 65536 below, and 0 Hz divides by zero. *)
Theorem timer_set_interval_correct hz e :
  0 ≤ hz < 2 ^ 32 →
  if hz =? 0 then timer_set_interval hz e = Fault
  else ∃ lo hi, 0 ≤ lo < 256 ∧ 0 ≤ hi < 256 ∧
    timer_set_interval hz e =
      Ok tt (env_out W8 0x40 hi (env_out W8 0x40 lo (env_out W8 0x43 0x36 e))) ∧
    lo + 256 * hi = 1193180 / hz mod 65536 ∧ (19 ≤ hz → lo + 256 * hi = 1193180 / hz).
Proof using.
  intros Hhz. unfold timer_set_interval. destruct (Z.eqb_spec hz 0); [done|].
  assert (0 ≤ 1193180 / hz ≤ 1193180) as Hd.
  { split; [apply Z.div_pos; lia|]. apply Z.div_le_upper_bound; nia. }
  set (q := 1193180 / hz) in *. exists (u8 (Z.land q 0xFF)), (u8 (Z.shiftr q 8)).
  split; [apply u8_range|]. split; [apply u8_range|]. split; [done|].
  rewrite byte_low, Z.shiftr_div_pow2 by lia. change (2 ^ 8) with 256.
  split; [word_lia|]. intros H19.
  assert (q ≤ 62799) by (apply Z.div_le_upper_bound; lia). word_lia.
Qed.
End timer.
End Timer.

(** ** The keyboard *)

(** Port 0x60 keeps the scan code of the last key event until the next one. *)
Class KeyboardPort (E : Type) `{Env E} := {
  scancode_of : E → Z;
  scancode_byte : ∀ e, 0 ≤ scancode_of e < 256;
  read_0x60 : ∀ e, (env_in W8 0x60 e).1 = scancode_of e ∧
    scancode_of (env_in W8 0x60 e).2 = scancode_of e }.

Module Keyboard.
Section keyboard.
Context `{Env E}.

Definition keyboard_table_uk : list Z :=
  let row := chars in
  [0; 27] ++ row "1234567890-=" ++ [8; 9] ++ row "qwertyuiop[]" ++ [10; 0] ++
  row "asdfghjkl;'`" ++ [0] ++ row "\zxcvbnm,./" ++ [0] ++ row "*" ++ [0] ++ row " " ++ [0; 0] ++
  replicate 8 0 ++ [0; 0; 0; 0; 0; 0] ++ row "-" ++ [0; 0; 0] ++ row "+" ++ replicate 49 0.

Definition keyboard_install : M (devices * E) unit := irq_install_handler 1 keyboard_routine.
Definition keyboard_uninstall : M (devices * E) unit := irq_uninstall_handler 1.

Fixpoint set_typematic (fuel : nat) (typematic : Z) : M E unit :=
  match fuel with
  | O => timeout
  | S f =>
      outb 0x6A 0xF3 ;;; outb 0x60 typematic ;;;
      let* v := inb 0x60 in
      if v =? 0xFE then set_typematic f typematic else ret tt
  end.

(** The [do ... while(1)] loop, which ends when a nonzero code was read. *)
Fixpoint read_scancode (fuel : nat) (scancode : Z) : M E Z :=
  match fuel with
  | O => timeout
  | S f =>
      let* v := inb 0x60 in
      if negb (v =? scancode) then
        let* scancode := inb 0x60 in
        if 0 <? scancode then ret scancode else read_scancode f scancode
      else read_scancode f scancode
  end.

Definition keyboard_handler (fuel : nat) (r : regs) : M (devices * E) regs :=
  let* scancode := io (read_scancode fuel 0) in
  (if Z.land scancode 0x80 =? 0 then
     let* c := of_option (keyboard_table_uk !! Z.to_nat scancode) in io (terminal_putchar c)
   else ret tt) ;;;
  ret r.

Lemma inb_0x60 `{!KeyboardPort E} (e : E) : inb 0x60 e = Ok (scancode_of e) (env_in W8 0x60 e).2.
Proof using.
  unfold inb, io_in. change (u16 96) with 96. destruct (read_0x60 e) as [R _].
  pose proof (scancode_byte e). destruct (env_in W8 96 e) as [v e']. simpl in *. subst v.
  by rewrite u8_small by lia.
Qed.

(** C39. With a nonzero scan code on the data port the handler returns after one
    round of its loop; it prints the table's character for a key press and
    nothing for a key release (the codes from 128 on). *)
Theorem keyboard_handler_correct `{!KeyboardPort E} fuel r d e :
  env_wf e → 0 < scancode_of e →
  ∃ e0 e', env_wf e0 ∧ scancode_of e0 = scancode_of e ∧
    keyboard_handler (S fuel) r (d, e) = Ok r (d, e') ∧
    if scancode_of e <? 128
    then ∃ c, keyboard_table_uk !! Z.to_nat (scancode_of e) = Some c ∧ terminal_putchar c e0 = Ok tt e'
    else e' = e0.
Proof using.
  intros He Hs. unfold keyboard_handler.
  destruct (read_0x60 e) as [R1 S1]. set (e1 := (env_in W8 96 e).2) in *.
  destruct (read_0x60 e1) as [R2 S2]. set (e2 := (env_in W8 96 e1).2) in *.
  pose proof (scancode_byte e) as Hb.
  assert (read_scancode (S fuel) 0 e = Ok (scancode_of e) e2) as E1.
  { cbn [read_scancode]. rewrite (bind_ok _ _ _ _ _ (inb_0x60 e)).
    rewrite (proj2 (Z.eqb_neq _ _)) by lia. cbn [negb].
    rewrite (bind_ok _ _ _ _ _ (inb_0x60 e1)), S1. by rewrite (proj2 (Z.ltb_lt _ _)) by lia. }
  rewrite (bind_ok _ _ _ _ _ (io_ok _ d _ _ _ E1)).
  assert (env_wf e2) as He2 by (apply env_in_wf, env_in_wf, He).
  rewrite land_bit7. exists e2.
  destruct (Z.ltb_spec (scancode_of e) 128) as [Hlt|Hge].
  - destruct (lookup_lt_is_Some_2 keyboard_table_uk (Z.to_nat (scancode_of e))) as [c Hc].
    { change (length keyboard_table_uk) with 128%nat. lia. }
    destruct (putchar_wf c e2 He2) as (e3 & E3 & _). exists e3.
    split; [done|]. split; [by rewrite S2, S1|].
    rewrite (proj2 (Z.eqb_eq _ 0)) by word_lia. rewrite Hc. split; [|by exists c].
    by rewrite (bind_ok _ _ _ tt (d, e3) (io_ok _ d _ _ _ E3)).
  - exists e2. split; [done|]. split; [by rewrite S2, S1|]. split; [|done].
    by rewrite (proj2 (Z.eqb_neq _ 0)) by word_lia.
Qed.
End keyboard.
End Keyboard.

(** ** The real-time clock *)

(** The index and data ports of the CMOS: a register other than the interrupt
    flags (0x0C, which reading clears) reads as its contents and keeps them. *)
Class Cmos (E : Type) `{Env E} := {
  cmos : E → Z → Z;
  cmos_byte : ∀ e r, 0 ≤ cmos e r < 256;
  cmos_read : ∀ e r, 0 ≤ r < 128 → r ≠ 0x0C →
    (env_in W8 0x71 (env_out W8 0x70 r e)).1 = cmos e r ∧
    cmos (env_in W8 0x71 (env_out W8 0x70 r e)).2 = cmos e }.

Module Rtc.
Section rtc.
Context `{Env E}.

Definition CMOS_ADDRESS : Z := 0x70.
Definition CMOS_DATA : Z := 0x71.
Definition CURRENT_YEAR : Z := 2017.

Definition rtc_install : M (devices * E) unit :=
  io (outb CMOS_ADDRESS 0x8B) ;;;
  let* prev := io (inb CMOS_DATA) in
  io (outb CMOS_ADDRESS 0x8B) ;;;
  io (outb CMOS_DATA (Z.lor prev 0x40)) ;;;
  irq_install_handler 8 rtc_routine.
Definition rtc_uninstall : M (devices * E) unit := irq_uninstall_handler 8.

Definition get_rtc_register (reg : Z) : M E Z := outb CMOS_ADDRESS reg ;;; inb CMOS_DATA.
Definition update_in_progress_flag : M E Z :=
  outb CMOS_ADDRESS 0x0A ;;; let* v := inb CMOS_DATA in ret (Z.land v 0x80).
Fixpoint wait_for_update (fuel : nat) : M E unit :=
  match fuel with
  | O => timeout
  | S f => let* v := update_in_progress_flag in if truth v then wait_for_update f else ret tt
  end.

(** [(v & 0x0F) + ((v / 16) * 10)] in a byte; the year is a 32-bit variable. *)
Definition from_bcd (v : Z) : Z := Z.land v 0x0F + v / 16 * 10.

#[local] Arguments from_bcd : simpl never.

(** Lines 65 to 77, 80 to 83 and 85 to 92. *)
Definition bcd_to_binary (t : rtc_state) : rtc_state :=
  mkRtc (u8 (from_bcd (second t))) (u8 (from_bcd (minute t)))
    (u8 (Z.lor (Z.land (hour t) 0x0F + Z.land (hour t) 0x70 / 16 * 10) (Z.land (hour t) 0x80)))
    (u8 (from_bcd (day t))) (u8 (from_bcd (month t))) (u32 (from_bcd (year t)))
    (if negb (century_register t =? 0) then u8 (from_bcd (century t)) else century t)
    (century_register t).
Definition to_24_hours (t : rtc_state) : rtc_state :=
  mkRtc (second t) (minute t) (u8 ((Z.land (hour t) 0x7F + 12) mod 24)) (day t) (month t) (year t)
    (century t) (century_register t).
Definition add_century (t : rtc_state) : rtc_state :=
  let y :=
    if negb (century_register t =? 0) then u32 (year t + century t * 100)
    else let y := u32 (year t + CURRENT_YEAR / 100 * 100) in
         if y <? CURRENT_YEAR then u32 (y + 100) else y in
  mkRtc (second t) (minute t) (hour t) (day t) (month t) y (century t) (century_register t).

Definition read_rtc (fuel : nat) : M (devices * E) unit :=
  io (wait_for_update fuel) ;;;
  let* s := io (get_rtc_register 0x00) in
  let* mi := io (get_rtc_register 0x02) in
  let* h := io (get_rtc_register 0x04) in
  let* da := io (get_rtc_register 0x07) in
  let* mo := io (get_rtc_register 0x08) in
  let* y := io (get_rtc_register 0x09) in
  let* d := gets fst in
  let cr := century_register (rtc d) in
  let* c := (if negb (cr =? 0) then io (get_rtc_register cr) else ret (century (rtc d))) in
  on_devices (modify (set_rtc (mkRtc s mi h da mo y c cr))) ;;;
  let* registerB := io (get_rtc_register 0x0B) in
  when (Z.land registerB 0x04 =? 0) (on_devices (modify (λ d, set_rtc (bcd_to_binary (rtc d)) d))) ;;;
  let* d := gets fst in
  when ((Z.land registerB 0x02 =? 0) && truth (Z.land (hour (rtc d)) 0x80))
    (on_devices (modify (λ d, set_rtc (to_24_hours (rtc d)) d))) ;;;
  on_devices (modify (λ d, set_rtc (add_century (rtc d)) d)).

Definition rtc_handler (fuel : nat) (r : regs) : M (devices * E) regs :=
  io (outb CMOS_ADDRESS 0x0C) ;;;
  io (inb CMOS_DATA) ;;;
  read_rtc fuel ;;;
  ret r.

Definition get_year : M (devices * E) Z := gets (λ s, year (rtc s.1)).
Definition get_month : M (devices * E) Z := gets (λ s, month (rtc s.1)).
Definition get_day : M (devices * E) Z := gets (λ s, day (rtc s.1)).
Definition get_hour : M (devices * E) Z := gets (λ s, hour (rtc s.1)).
Definition get_minute : M (devices * E) Z := gets (λ s, minute (rtc s.1)).
Definition get_second : M (devices * E) Z := gets (λ s, second (rtc s.1)).

(** ** What the chip shows for a point in time *)

Definition to_bcd (v : Z) : Z := v / 10 * 16 + v mod 10.
#[local] Arguments to_bcd : simpl never.
Definition shown (bcd : bool) (v : Z) : Z := if bcd then to_bcd v else v.
(** The hour register: in 12-hour mode 12, 1, .. 11 with bit 7 for PM. *)
Definition shown_hour (bcd h24 : bool) (h : Z) : Z :=
  if h24 then shown bcd h
  else shown bcd (if h mod 12 =? 0 then 12 else h mod 12) + if 12 <=? h then 128 else 0.

Record chip_shows `{!Cmos E} (e : E) (bcd h24 : bool) (t : rtc_state) : Prop := {
  sh_idle : Z.land (cmos e 0x0A) 0x80 = 0;
  sh_second : cmos e 0x00 = shown bcd (second t);
  sh_minute : cmos e 0x02 = shown bcd (minute t);
  sh_hour : cmos e 0x04 = shown_hour bcd h24 (hour t);
  sh_day : cmos e 0x07 = shown bcd (day t);
  sh_month : cmos e 0x08 = shown bcd (month t);
  sh_year : cmos e 0x09 = shown bcd (year t mod 100);
  sh_bcd : Z.land (cmos e 0x0B) 0x04 = if bcd then 0 else 4;
  sh_h24 : Z.land (cmos e 0x0B) 0x02 = if h24 then 2 else 0 }.

Definition valid_time (t : rtc_state) : Prop :=
  0 ≤ second t < 60 ∧ 0 ≤ minute t < 60 ∧ 0 ≤ hour t < 24 ∧ 1 ≤ day t ≤ 31 ∧ 1 ≤ month t ≤ 12 ∧
  CURRENT_YEAR ≤ year t < CURRENT_YEAR + 100 ∧ century_register t = 0.

(** The hour [read_rtc] computes: in 12-hour mode midnight and noon are exchanged. *)
Definition read_hour (h24 : bool) (h : Z) : Z :=
  if h24 then h else if h =? 0 then 12 else if h =? 12 then 0 else h.

(** ** Lemmas *)

Lemma get_rtc_register_ok `{!Cmos E} e r :
  0 ≤ r < 128 → r ≠ 0x0C →
  ∃ e', get_rtc_register r e = Ok (cmos e r) e' ∧ cmos e' = cmos e.
Proof using.
  intros Hr Hn. destruct (cmos_read e r Hr Hn) as [Hv Hs].
  eexists. split; [|exact Hs]. unfold get_rtc_register, outb, inb, io_out, io_in, bind.
  change (u16 CMOS_ADDRESS) with 0x70. change (u16 CMOS_DATA) with 0x71. unfold wrap.
  rewrite (u8_small r) by lia. pose proof (cmos_byte e r).
  destruct (env_in W8 0x71 (env_out W8 0x70 r e)) as [v e'] eqn:Ee. simpl in *. subst v.
  rewrite u8_small by lia. done.
Qed.

(** One register read in the body of [read_rtc]. *)
Lemma reg_step `{!Cmos E} {B} r d e (f : Z → M (devices * E) B) :
  0 ≤ r < 128 → r ≠ 0x0C →
  ∃ e', bind (io (get_rtc_register r)) f (d, e) = f (cmos e r) (d, e') ∧ cmos e' = cmos e.
Proof using.
  intros Hr Hn. destruct (get_rtc_register_ok e r Hr Hn) as (e' & E1 & Hc).
  exists e'. by rewrite (bind_ok _ _ _ _ _ (io_ok _ d _ _ _ E1)).
Qed.

Lemma wait_step `{!Cmos E} {B} fuel d e (f : unit → M (devices * E) B) :
  Z.land (cmos e 0x0A) 0x80 = 0 →
  ∃ e', bind (io (wait_for_update (S fuel))) f (d, e) = f tt (d, e') ∧ cmos e' = cmos e.
Proof using.
  intros Hu. destruct (get_rtc_register_ok e 0x0A) as (e' & E1 & Hc); [lia..|].
  exists e'. split; [|done]. apply bind_ok, io_ok. cbn [wait_for_update].
  unfold update_in_progress_flag. rewrite bind_assoc.
  rewrite (bind_ext _ _ (λ _, let* v := inb CMOS_DATA in
    if truth (Z.land v 0x80) then wait_for_update fuel else ret tt)).
  - rewrite <-bind_assoc. rewrite (bind_ok _ _ _ _ _ E1), Hu. done.
  - intros [] s. rewrite bind_assoc. apply bind_ext. done.
Qed.

Lemma from_to_bcd v : 0 ≤ v < 100 → from_bcd (to_bcd v) = v.
Proof using. intros. unfold from_bcd, to_bcd. rewrite nibble_low. word_lia. Qed.

Definition hour_of (bcd h24 : bool) (raw : Z) : Z :=
  let h := if bcd then u8 (Z.lor (Z.land raw 0x0F + Z.land raw 0x70 / 16 * 10) (Z.land raw 0x80)) else raw in
  if negb h24 && truth (Z.land h 0x80) then u8 ((Z.land h 0x7F + 12) mod 24) else h.

Lemma hour_of_shown bcd h24 h : 0 ≤ h < 24 → hour_of bcd h24 (shown_hour bcd h24 h) = read_hour h24 h.
Proof using.
  intros Hh.
  assert (Forall (λ h, hour_of bcd h24 (shown_hour bcd h24 h) = read_hour h24 h) (seqZ 0 24)) as HF.
  { apply (bool_decide_eq_true_1 _). by destruct bcd, h24; vm_compute. }
  rewrite Forall_forall in HF. apply HF, elem_of_seqZ. lia.
Qed.

(** The three conversions on the raw registers. *)
Definition convert (bcd h24 : bool) (t : rtc_state) : rtc_state :=
  let t := if bcd then bcd_to_binary t else t in
  let t := if negb h24 && truth (Z.land (hour t) 0x80) then to_24_hours t else t in
  add_century t.

Lemma convert_shown bcd h24 t c :
  valid_time t →
  convert bcd h24 (mkRtc (shown bcd (second t)) (shown bcd (minute t)) (shown_hour bcd h24 (hour t))
      (shown bcd (day t)) (shown bcd (month t)) (shown bcd (year t mod 100)) c 0)
  = mkRtc (second t) (minute t) (read_hour h24 (hour t)) (day t) (month t) (year t) c 0.
Proof using.
  intros (Hs & Hm & Hh & Hd & Hmo & Hy & _). pose proof (hour_of_shown bcd h24 (hour t) Hh) as Hho.
  unfold CURRENT_YEAR in Hy. pose proof (Z.mod_pos_bound (year t) 100 ltac:(lia)).
  assert (add_century (mkRtc (second t) (minute t) (read_hour h24 (hour t)) (day t) (month t) (year t mod 100) c 0)
    = mkRtc (second t) (minute t) (read_hour h24 (hour t)) (day t) (month t) (year t) c 0) as Hcent.
  { unfold add_century, CURRENT_YEAR. simpl. f_equal. rewrite (u32_small (_ + 2000)) by lia.
    destruct (Z.ltb_spec (year t mod 100 + 2000) 2017); rewrite ?u32_small by lia; word_lia. }
  rewrite <-Hcent, <-Hho. unfold convert, hour_of, bcd_to_binary, to_24_hours. destruct bcd; simpl.
  - rewrite !from_to_bcd, (u32_small (year t mod 100)) by lia. usmall. by destruct (_ && _).
  - by destruct (_ && _).
Qed.

Ltac read_reg e C := match goal with
  |- context [bind (io (get_rtc_register ?r)) ?f (?d, ?e0)] =>
    destruct (reg_step r d e0 f) as (e & -> & C); [lia..|] end.

(** C33. [read_rtc], on a chip that is not updating its registers: in each of the
    chip's four modes (BCD or binary, 12 or 24 hours) the variables get the time
    the registers show, in the years 2017 to 2116. The exception is 12-hour mode,
    where midnight reads as 12 and noon as 0. *)
Theorem read_rtc_correct `{!Cmos E} fuel d e bcd h24 t :
  chip_shows e bcd h24 t → valid_time t → century_register (rtc d) = 0 →
  ∃ e', read_rtc (S fuel) (d, e) =
      Ok tt (set_rtc (mkRtc (second t) (minute t) (read_hour h24 (hour t)) (day t) (month t) (year t)
                        (century (rtc d)) 0) d, e') ∧ cmos e' = cmos e.
Proof using.
  intros Hsh Hv Hcr. destruct Hsh as [Hi Hs Hm Hh Hd Hmo Hy Hb H24]. unfold read_rtc.
  match goal with |- context [bind (io (wait_for_update _)) ?f] =>
    destruct (wait_step fuel d e f Hi) as (e0 & -> & C0) end.
  read_reg e1 C1. read_reg e2 C2. read_reg e3 C3. read_reg e4 C4. read_reg e5 C5. read_reg e6 C6.
  rewrite C5, C4, C3, C2, C1, C0, Hs, Hm, Hh, Hd, Hmo, Hy.
  rewrite bind_gets. cbn [fst]. rewrite Hcr. cbn [Z.eqb negb]. rewrite bind_ret_l.
  set (raw := mkRtc (shown bcd (second t)) (shown bcd (minute t)) (shown_hour bcd h24 (hour t))
    (shown bcd (day t)) (shown bcd (month t)) (shown bcd (year t mod 100)) (century (rtc d)) 0).
  rewrite (bind_ok _ _ _ tt (set_rtc raw d, e6)) by reflexivity.
  read_reg e7 C7. rewrite C6, C5, C4, C3, C2, C1, C0, Hb, H24.
  exists e7. split; [|congruence].
  rewrite <-(convert_shown bcd h24 t (century (rtc d)) Hv). fold raw. unfold convert.
  clearbody raw. clear -E. destruct bcd, h24; cbn [Z.eqb negb andb];
    unfold on_devices, on_fst, zoom, modify, bind, gets, when, ret; cbn [fst snd rtc set_rtc];
    try destruct (truth _); reflexivity.
Qed.
End rtc.
End Rtc.
