(* ===== verification/Pci.v ===== *)
(** * PCI configuration space (src/drivers/pci.c)

    Reads of the configuration space through the address port 0xCF8 and the
    data port 0xCFC.  [PciBus] is the documented behaviour of the host bridge:
    after an enabled address has been written, the data port reads as the dword
    the address selects. *)

From S2P Require Import Prelude Io.

(** The dword [pci_config e bus device function register] of the space, with
    [register] the dword index. *)
Class PciBus (E : Type) `{Env E} := {
  pci_config : E → Z → Z → Z → Z → Z;
  pci_dword : ∀ e b d f r, 0 ≤ pci_config e b d f r < 2 ^ 32;
  pci_read : ∀ e b d f r, 0 ≤ b < 256 → 0 ≤ d < 32 → 0 ≤ f < 8 → 0 ≤ r < 64 →
    let e1 := env_out W32 0xCF8 (2 ^ 31 + b * 2 ^ 16 + d * 2 ^ 11 + f * 2 ^ 8 + r * 4) e in
    (env_in W32 0xCFC e1).1 = pci_config e b d f r ∧
    pci_config (env_in W32 0xCFC e1).2 = pci_config e }.

(** [pci_dev_t] *)
Record pci_dev := mkPciDev {
  interrupt : Z; bus : Z; dev : Z; func : Z; vendor_id : Z; dev_id : Z;
  class_id : Z; subclass_id : Z; interface_id : Z; revision : Z }.

Section operations.
Context `{Env E}.

(** The [address] all three functions build from bytes. *)
Definition config_address (bus device func offset : Z) : Z :=
  u32 (Z.lor (Z.lor (Z.lor (Z.lor (u32 (Z.shiftl (u8 bus) 16)) (u32 (Z.shiftl (u8 device) 11)))
    (u32 (Z.shiftl (u8 func) 8))) (Z.land (u8 offset) 0xfc)) 0x80000000).

Definition pci_config_read_double (bus device func offset : Z) : M E Z :=
  outl 0xCF8 (config_address bus device func offset) ;;;
  let* v := inl 0xCFC in
  ret (u16 (u32 (Z.land (Z.shiftr v (Z.land (u8 offset) 2 * 8)) 0xffff))).

Definition pci_config_read_word (bus device func offset : Z) : M E Z :=
  outl 0xCF8 (config_address bus device func offset) ;;;
  let* v := inl 0xCFC in
  ret (u16 (Z.land (Z.shiftr v (Z.land (u8 offset) 2 * 8)) 0xffff)).

Definition pci_config_read_byte (bus device func offset : Z) : M E Z :=
  outl 0xCF8 (config_address bus device func offset) ;;;
  let* v := inl 0xCFC in
  ret (u8 (Z.land (Z.shiftr v (Z.land (u8 offset) 2 * 8)) 0xffff)).

Definition pci_get_vendor (bus slot : Z) : M E Z := pci_config_read_word bus slot 0 0.
Definition pci_get_device (bus slot : Z) : M E Z := pci_config_read_word bus slot 0 2.
Definition pci_get_status (bus slot : Z) : M E Z := pci_config_read_word bus slot 0 4.
Definition pci_get_command (bus slot : Z) : M E Z := pci_config_read_word bus slot 0 6.
Definition pci_get_bar (bus slot bar : Z) : M E Z := pci_config_read_word bus slot 0 bar.

Definition fill_device_descriptor (bus device function : Z) : M E pci_dev :=
  let* vendor_id := pci_config_read_word bus device function 0x00 in
  let* dev_id := pci_config_read_word bus device function 0x02 in
  let* class_id := pci_config_read_byte bus device function 0x0B in
  let* subclass_id := pci_config_read_byte bus device function 0x0A in
  let* interface_id := pci_config_read_byte bus device function 0x09 in
  let* revision := pci_config_read_byte bus device function 0x08 in
  let* interrupt := pci_config_read_double bus device function 0x3C in
  ret (mkPciDev interrupt (u8 bus) (u8 device) (u8 function) vendor_id dev_id class_id subclass_id
         interface_id revision).

(** ** Specification: the bytes of the configuration space *)

Context `{!PciBus E}.

Definition config_byte (e : E) (b d f off : Z) : Z :=
  pci_config e b d f (off / 4) / 2 ^ (8 * (off mod 4)) mod 256.
Definition config_word (e : E) (b d f off : Z) : Z :=
  config_byte e b d f off + 256 * config_byte e b d f (off + 1).

(** ** Lemmas *)

Lemma config_address_fields b d f off :
  0 ≤ b < 256 → 0 ≤ d < 32 → 0 ≤ f < 8 → 0 ≤ off < 256 →
  config_address b d f off = 2 ^ 31 + b * 2 ^ 16 + d * 2 ^ 11 + f * 2 ^ 8 + off / 4 * 4.
Proof using.
  intros Hb Hd Hf Ho. unfold config_address. rewrite !u8_small, !Z.shiftl_mul_pow2 by lia.
  rewrite (u32_small (b * 2 ^ 16)), (u32_small (d * 2 ^ 11)), (u32_small (f * 2 ^ 8)) by lia.
  change 0xfc with (Z.shiftl (Z.ones 6) 2). rewrite land_shifted_ones by lia.
  change (2 ^ (2 + 6)) with 256. change (2 ^ 2) with 4. rewrite (Z.mod_small off) by lia.
  rewrite (lor_shifted_low b (d * 2 ^ 11) 16) by lia.
  replace (b * 2 ^ 16 + d * 2 ^ 11) with ((b * 32 + d) * 2 ^ 11) by lia.
  rewrite (lor_shifted_low _ (f * 2 ^ 8) 11) by lia.
  replace ((b * 32 + d) * 2 ^ 11 + f * 2 ^ 8) with ((b * 256 + d * 8 + f) * 2 ^ 8) by lia.
  rewrite (lor_shifted_low _ (off / 4 * 4) 8) by word_lia.
  rewrite Z.lor_comm. change 0x80000000 with (1 * 2 ^ 31).
  rewrite lor_shifted_low by word_lia. rewrite u32_small by word_lia. lia.
Qed.

(** One configuration access: the 16 bits at the even offset below. *)
Lemma config_access b d f off e (g : Z → Z) :
  0 ≤ b < 256 → 0 ≤ d < 32 → 0 ≤ f < 8 → 0 ≤ off < 256 →
  ∃ e', (outl 0xCF8 (config_address b d f off) ;;;
         let* v := inl 0xCFC in ret (g (Z.land (Z.shiftr v (Z.land (u8 off) 2 * 8)) 0xffff))) e
      = Ok (g (config_word e b d f (off / 2 * 2))) e' ∧
    pci_config e' = pci_config e.
Proof using Type*.
  intros Hb Hd Hf Ho. rewrite (config_address_fields b d f off) by done.
  destruct (pci_read e b d f (off / 4) Hb Hd Hf ltac:(word_lia)) as [Hv Hc].
  pose proof (pci_dword e b d f (off / 4)) as Hdw.
  eexists. split; [|exact Hc]. unfold outl, inl, io_out, io_in, bind, wrap.
  change (u16 0xCF8) with 0xCF8. change (u16 0xCFC) with 0xCFC.
  rewrite u32_small by (change (2 ^ 31) with 2147483648; change (2 ^ 16) with 65536;
    change (2 ^ 11) with 2048; change (2 ^ 8) with 256; word_lia).
  destruct (env_in W32 0xCFC _) as [v e'] eqn:Ee. simpl in Hv |- *. subst v.
  rewrite u32_small by (change (2 ^ 32) with 4294967296 in Hdw; lia).
  unfold ret. f_equal. f_equal. rewrite half_low, u8_small by lia.
  unfold config_word, config_byte.
  change 2 with (Z.shiftl (Z.ones 1) 1) at 1. rewrite land_shifted_ones by lia.
  change (2 ^ (1 + 1)) with 4. change (2 ^ 1) with 2.
  replace ((off / 2 * 2 + 1) / 4) with (off / 4) by word_lia.
  replace (off / 2 * 2 / 4) with (off / 4) by word_lia.
  replace ((off / 2 * 2 + 1) mod 4) with (off mod 4 / 2 * 2 + 1) by word_lia.
  replace (off / 2 * 2 mod 4) with (off mod 4 / 2 * 2) by word_lia.
  set (w := pci_config e b d f (off / 4)) in *. clearbody w.
  assert (off mod 4 / 2 = 0 ∨ off mod 4 / 2 = 1) as [-> | ->] by word_lia;
    rewrite Z.shiftr_div_pow2 by lia; simpl; word_lia.
Qed.

Lemma config_word_ext e e' b d f off :
  pci_config e' = pci_config e → config_word e' b d f off = config_word e b d f off.
Proof using. intros Hc. unfold config_word, config_byte. by rewrite Hc. Qed.

Lemma read_word_spec b d f off e :
  0 ≤ b < 256 → 0 ≤ d < 32 → 0 ≤ f < 8 → 0 ≤ off < 256 →
  ∃ e', pci_config_read_word b d f off e = Ok (config_word e b d f (off / 2 * 2)) e' ∧
    pci_config e' = pci_config e.
Proof using Type*.
  intros Hb Hd Hf Ho. destruct (config_access b d f off e u16) as (e' & E1 & Hc); [done..|].
  exists e'. split; [|done]. unfold pci_config_read_word. rewrite E1. f_equal. apply u16_small.
  unfold config_word, config_byte. word_lia.
Qed.
Lemma read_double_spec b d f off e :
  0 ≤ b < 256 → 0 ≤ d < 32 → 0 ≤ f < 8 → 0 ≤ off < 256 →
  ∃ e', pci_config_read_double b d f off e = Ok (config_word e b d f (off / 2 * 2)) e' ∧
    pci_config e' = pci_config e.
Proof using Type*.
  intros Hb Hd Hf Ho. destruct (config_access b d f off e (λ v, u16 (u32 v))) as (e' & E1 & Hc); [done..|].
  exists e'. split; [|done]. unfold pci_config_read_double. rewrite E1. f_equal.
  unfold config_word, config_byte. word_lia.
Qed.
Lemma read_byte_spec b d f off e :
  0 ≤ b < 256 → 0 ≤ d < 32 → 0 ≤ f < 8 → 0 ≤ off < 256 →
  ∃ e', pci_config_read_byte b d f off e = Ok (config_byte e b d f (off / 2 * 2)) e' ∧
    pci_config e' = pci_config e.
Proof using Type*.
  intros Hb Hd Hf Ho. destruct (config_access b d f off e u8) as (e' & E1 & Hc); [done..|].
  exists e'. split; [|done]. unfold pci_config_read_byte. rewrite E1. f_equal.
  unfold config_word, config_byte. word_lia.
Qed.

(** ** Theorems *)

(** C40. The three configuration reads, for a device number below 32, a function below
    8 and any byte offset: the word read returns the 16 bits at the offset
    rounded down to even; the double read returns these 16 bits only; the byte
    read returns the byte at the offset rounded down to even. *)
Theorem pci_config_read_correct b d f off e :
  0 ≤ b < 256 → 0 ≤ d < 32 → 0 ≤ f < 8 → 0 ≤ off < 256 →
  let even := off / 2 * 2 in
  (∃ e', pci_config_read_word b d f off e = Ok (config_word e b d f even) e') ∧
  (∃ e', pci_config_read_double b d f off e = Ok (config_word e b d f even) e') ∧
  (∃ e', pci_config_read_byte b d f off e = Ok (config_byte e b d f even) e').
Proof using Type*.
  intros Hb Hd Hf Ho.
  destruct (read_word_spec b d f off e) as (e1 & E1 & _); [done..|].
  destruct (read_double_spec b d f off e) as (e2 & E2 & _); [done..|].
  destruct (read_byte_spec b d f off e) as (e3 & E3 & _); [done..|].
  split_and!; eauto.
Qed.

(** The descriptor of a device: vendor, device, subclass and revision are the
    header's bytes, but the class read at offset 0x0B returns the subclass
    byte, the interface read at 0x09 the revision byte, and [interrupt] is the
    word at 0x3C; [pci_get_status] returns the command register and
    [pci_get_command] the status register. *)
Theorem fill_device_descriptor_correct b d f e :
  0 ≤ b < 256 → 0 ≤ d < 32 → 0 ≤ f < 8 →
  (∃ e', fill_device_descriptor b d f e = Ok
    (mkPciDev (config_word e b d f 0x3C) b d f (config_word e b d f 0x00) (config_word e b d f 0x02)
       (config_byte e b d f 0x0A) (config_byte e b d f 0x0A)
       (config_byte e b d f 0x08) (config_byte e b d f 0x08)) e') ∧
  (∃ e', pci_get_status b d e = Ok (config_word e b d 0 0x04) e') ∧
  (∃ e', pci_get_command b d e = Ok (config_word e b d 0 0x06) e').
Proof using Type*.
  intros Hb Hd Hf. split_and!.
  - unfold fill_device_descriptor.
    destruct (read_word_spec b d f 0x00 e) as (e1 & E1 & C1); [lia..|]. rewrite (bind_ok _ _ _ _ _ E1).
    destruct (read_word_spec b d f 0x02 e1) as (e2 & E2 & C2); [lia..|]. rewrite (bind_ok _ _ _ _ _ E2).
    destruct (read_byte_spec b d f 0x0B e2) as (e3 & E3 & C3); [lia..|]. rewrite (bind_ok _ _ _ _ _ E3).
    destruct (read_byte_spec b d f 0x0A e3) as (e4 & E4 & C4); [lia..|]. rewrite (bind_ok _ _ _ _ _ E4).
    destruct (read_byte_spec b d f 0x09 e4) as (e5 & E5 & C5); [lia..|]. rewrite (bind_ok _ _ _ _ _ E5).
    destruct (read_byte_spec b d f 0x08 e5) as (e6 & E6 & C6); [lia..|]. rewrite (bind_ok _ _ _ _ _ E6).
    destruct (read_double_spec b d f 0x3C e6) as (e7 & E7 & C7); [lia..|]. rewrite (bind_ok _ _ _ _ _ E7).
    exists e7. rewrite !u8_small by lia. unfold ret, config_word, config_byte. by rewrite C6, C5, C4, C3, C2, C1.
  - destruct (read_word_spec b d 0 4 e) as (e' & E' & _); [lia..|]. by exists e'.
  - destruct (read_word_spec b d 0 6 e) as (e' & E' & _); [lia..|]. by exists e'.
Qed.
End operations.
