(* ===== verification/Syscall.v ===== *)
(** * System calls and the interrupt entry (src/userspace/, src/irq.c)

    The table of system calls, their common handler, and the dispatch of all
    interrupt routines.  The kernel half is reached by [int 0x80]: vector 128,
    whose routine is entry 96 of the table of [Irq.v].  [fuel] bounds the polling
    loops of the keyboard and clock routines. *)

From S2P Require Import Prelude Memory Common Io Irq Drivers.

Section operations.
Context `{Env E}.

Definition on_memory {A} (m : M mem A) : M (devices * E) A := on_devices (zoom memory set_memory m).

(** ** The calls *)

Definition sys_read : M (devices * E) Z := kpanic "sys_read is currently unsupported".

(** [terminal_writestring] of a string in memory. *)
Definition writestring_at (str : Z) : M (devices * E) unit :=
  let* n := on_memory (strlen str) in
  let* data := on_memory (read_bytes (Z.to_nat n) str) in
  io (terminal_write data).

Definition sys_write (str : Z) : M (devices * E) Z := writestring_at str ;;; ret 0.

Definition MINUTE_TO_SECOND (a : Z) : Z := a * 60.
Definition HOUR_TO_SECOND (a : Z) : Z := a * 3600.
Definition DAY_TO_SECOND (a : Z) : Z := a * 86400.
Definition MONTH_TO_SECOND (a : Z) : Z := a * 2592000.
Definition YEAR_TO_SECOND (a : Z) : Z := a * 31536000.

Definition sys_time (tloc : Z) : M (devices * E) Z :=
  let* y := Rtc.get_year in
  let year := u32 (y - 1970) in
  let* month := Rtc.get_month in
  let* day := Rtc.get_day in
  let* hour := Rtc.get_hour in
  let* minute := Rtc.get_minute in
  let* second := Rtc.get_second in
  let r := s32 (u32 (YEAR_TO_SECOND year + MONTH_TO_SECOND month + DAY_TO_SECOND day
                     + HOUR_TO_SECOND hour + MINUTE_TO_SECOND minute + second)) in
  when (negb (tloc =? 0)) (on_memory (store32 tloc (u32 r))) ;;;
  ret r.

Inductive syscall := Sys_read | Sys_write | Sys_time.

(** [static void *syscalls[21]], with null entries as [None]. *)
Definition syscalls : list (option syscall) :=
  [Some Sys_read; Some Sys_write] ++ replicate 11 None ++ [Some Sys_time] ++ replicate 7 None.
Definition syscall_count : Z := 21.

(** The [call] of the handler with the five argument registers on the stack, of
    which a C function reads as many as it has parameters. *)
Definition run_syscall (h : syscall) (r : regs) : M (devices * E) Z :=
  match h with
  | Sys_read => sys_read
  | Sys_write => sys_write (ebx r)
  | Sys_time => sys_time (ebx r)
  end.

Definition syscall_handler (r : regs) : M (devices * E) regs :=
  if syscall_count <=? eax r then ret r else
  let* h := of_option (syscalls !! Z.to_nat (eax r)) in
  match h with
  | None => ret r
  | Some h => let* v := run_syscall h r in ret (set_eax (u32 v) r)
  end.

Definition syscall_install : M (devices * E) unit := irq_install_handler 0x60 syscall_routine.

(** ** All interrupt routines *)

Definition run_handler (fuel : nat) (h : handler) (r : regs) : M (devices * E) regs :=
  match h with
  | timer_routine => Timer.timer_handler r
  | keyboard_routine => Keyboard.keyboard_handler fuel r
  | rtc_routine => Rtc.rtc_handler fuel r
  | syscall_routine => syscall_handler r
  end.

(** ** The user-side stubs: [int 0x80] with the number in eax and the arguments in ebx, ecx
    and edx. DEFN_SYSCALL4 and DEFN_SYSCALL5, which nothing uses, ask for operands that
    are not registers. *)

Definition int80 (fuel : nat) (num b c d : Z) (r : regs) : M (devices * E) Z :=
  let r := mkRegs (gs r) (fs r) (es r) (ds r) (edi r) (esi r) (ebp r) (esp r) b d c num
             0x80 0 (eip r) (cs r) (eflags r) (useresp r) (ss r) in
  let* r' := irq_handler (run_handler fuel) r in
  ret (eax r').
Definition DEFN_SYSCALL0 (num : Z) (fuel : nat) (r : regs) : M (devices * E) Z := int80 fuel num (ebx r) (ecx r) (edx r) r.
Definition DEFN_SYSCALL1 (num : Z) (fuel : nat) (arg1 : Z) (r : regs) : M (devices * E) Z :=
  int80 fuel num arg1 (ecx r) (edx r) r.
Definition DEFN_SYSCALL2 (num : Z) (fuel : nat) (arg1 arg2 : Z) (r : regs) : M (devices * E) Z :=
  int80 fuel num arg1 arg2 (edx r) r.
Definition DEFN_SYSCALL3 (num : Z) (fuel : nat) (arg1 arg2 arg3 : Z) (r : regs) : M (devices * E) Z :=
  int80 fuel num arg1 arg2 arg3 r.
Definition syscall_sys_read : nat → regs → M (devices * E) Z := DEFN_SYSCALL0 0.
Definition syscall_sys_write : nat → Z → regs → M (devices * E) Z := DEFN_SYSCALL1 1.
Definition syscall_sys_time : nat → Z → regs → M (devices * E) Z := DEFN_SYSCALL1 1.

(** ** Lemmas *)

Lemma on_memory_ok {A} (m : M mem A) d e a m' :
  m (memory d) = Ok a m' → on_memory m (d, e) = Ok a (set_memory m' d, e).
Proof using. intros Hm. unfold on_memory. apply on_devices_ok. unfold zoom. by rewrite Hm. Qed.

Lemma set_memory_same d : set_memory (memory d) d = d.
Proof using. by destruct d. Qed.

Lemma writestring_spec d e p l :
  holds_string (memory d) p l → 0 ≤ p → p + length l < 4294967296 → env_wf e →
  ∃ e', terminal_write l e = Ok tt e' ∧ env_wf e' ∧ writestring_at p (d, e) = Ok tt (d, e').
Proof using.
  intros Hs Hp Hr He. destruct (returns_write l e He) as ([] & e' & E1 & He'). exists e'.
  split; [done|]. split; [done|]. unfold writestring_at.
  rewrite (bind_ok _ _ _ _ _ (on_memory_ok _ d e _ _ (strlen_spec _ p l Hs Hp Hr))), Nat2Z.id, set_memory_same.
  assert (read_bytes (length l) p (memory d) = Ok l (memory d)) as E2.
  { apply read_bytes_holds; [|done|lia]. intros i b Hi. apply Hs. by apply lookup_app_l_Some. }
  rewrite (bind_ok _ _ _ _ _ (on_memory_ok _ d e _ _ E2)), set_memory_same. by apply io_ok.
Qed.

Lemma int80_spec fuel num arg b c r d e v d' e' :
  length (irq_routines d) = IRQ_ROUTINES →
  irq_routines d !! 96%nat = Some (Some syscall_routine) →
  (∀ r', eax r' = num → ebx r' = arg →
     syscall_handler r' (d, e) = Ok (set_eax v r') (d', e')) →
  int80 fuel num arg b c r (d, e) = Ok v (d', e').
Proof using.
  intros Hl Hh Hsys. unfold int80. set (r1 := mkRegs _ _ _ _ _ _ _ _ _ _ _ _ _ _ _ _ _ _ _).
  unfold irq_handler. rewrite bind_assoc, bind_gets, bind_assoc. cbn [fst int_no r1].
  change (Z.to_nat (u32 (0x80 - 32))) with 96%nat. rewrite Hh. cbn [of_option]. rewrite bind_ret_l.
  cbn [run_handler]. rewrite bind_assoc, (bind_ok _ _ _ _ _ (Hsys r1 eq_refl eq_refl)). done.
Qed.

(** ** Theorems *)

(** C30. A write through the user stub, once [syscall_install] has run: the string at the
    argument is printed, the call returns 0, and no controller is acknowledged.
    The user stub of the time call does the same with its argument, because it
    raises the write call's number. *)
Theorem syscall_write_correct fuel p l r d e :
  length (irq_routines d) = IRQ_ROUTINES → env_wf e →
  holds_string (memory d) p l → 0 ≤ p → p + length l < 4294967296 →
  ∃ d1 e1 e2, syscall_install (d, e) = Ok tt (d1, e1) ∧ memory d1 = memory d ∧
    terminal_write l e1 = Ok tt e2 ∧ env_wf e2 ∧
    syscall_sys_write fuel p r (d1, e1) = Ok 0 (d1, e2) ∧
    syscall_sys_time fuel p r (d1, e1) = Ok 0 (d1, e2).
Proof using.
  intros Hl He Hs Hp Hr. destruct (install_spec 0x60 syscall_routine d e Hl) as (e1 & E1 & He1); [lia|done|].
  set (d1 := set_irq_routines _ d) in *.
  destruct (writestring_spec d1 e1 p l Hs Hp Hr He1) as (e2 & E2 & He2 & E3).
  exists d1, e1, e2. do 4 (split; [done|]).
  assert (int80 fuel 1 p (ecx r) (edx r) r (d1, e1) = Ok 0 (d1, e2)) as E4; [|by split]. apply int80_spec.
  - simpl. by rewrite length_insert.
  - simpl. apply list_lookup_insert_eq. rewrite Hl. by vm_compute; lia.
  - intros r' Ha Hb. unfold syscall_handler. rewrite Ha. simpl. rewrite bind_ret_l.
    unfold run_syscall, sys_write. rewrite bind_assoc, Hb, (bind_ok _ _ _ _ _ E3). done.
Qed.

(** The handler on every call number: 0 panics, 1 and 13 run the write and the time
    call on ebx and put the result in eax, and any other number, in the table or
    beyond it, leaves the registers and the kernel unchanged. *)
Theorem syscall_handler_correct r s :
  0 ≤ eax r < 2 ^ 32 →
  syscall_handler r s =
    if eax r =? 0 then Panic "sys_read is currently unsupported" s
    else if eax r =? 1 then (let* v := sys_write (ebx r) in ret (set_eax (u32 v) r)) s
    else if eax r =? 13 then (let* v := sys_time (ebx r) in ret (set_eax (u32 v) r)) s
    else Ok r s.
Proof using.
  intros Hn. unfold syscall_handler, syscall_count. destruct (Z.leb_spec 21 (eax r)).
  - by rewrite !(proj2 (Z.eqb_neq _ _)) by lia.
  - remember (eax r) as n eqn:En. assert (Z.of_nat (Z.to_nat n) = n) as Hz by lia.
    assert (Z.to_nat n < 21)%nat as Hlt by lia. rewrite <-Hz. clear Hz En.
    revert Hlt. generalize (Z.to_nat n). intros k Hk. rewrite Nat2Z.id.
    do 21 (destruct k as [|k]; [reflexivity|]). lia.
Qed.

(** [sys_time] returns the seconds of its own calendar, in which every month has 30
    days, the first of a month is day 1 and January is month 1, for the years
    up to 2037, and stores the result at a non-null argument. *)
Theorem sys_time_correct tloc d e :
  let t := rtc d in
  0 ≤ second t < 60 → 0 ≤ minute t < 60 → 0 ≤ hour t < 24 → 1 ≤ day t ≤ 31 → 1 ≤ month t ≤ 12 →
  1970 ≤ year t ≤ 2036 → mapped (memory d) tloc 4 →
  let v := (year t - 1970) * 31536000 + month t * 2592000 + day t * 86400
           + hour t * 3600 + minute t * 60 + second t in
  sys_time tloc (d, e) =
    Ok v (if tloc =? 0 then d else set_memory (wr32 (memory d) tloc v) d, e).
Proof using.
  intros t Hs Hm Hh Hd Hmo Hy Hmap v. unfold sys_time.
  unfold Rtc.get_year, Rtc.get_month, Rtc.get_day, Rtc.get_hour, Rtc.get_minute, Rtc.get_second.
  rewrite !bind_gets. cbn [fst]. fold t.
  unfold YEAR_TO_SECOND, MONTH_TO_SECOND, DAY_TO_SECOND, HOUR_TO_SECOND, MINUTE_TO_SECOND.
  rewrite (u32_small (year t - 1970)) by lia. fold v.
  assert (0 ≤ v < 2147483648) as Hv by (unfold v; lia).
  assert (s32 (u32 v) = v) as -> by word_lia. rewrite u32_small by lia.
  destruct (Z.eqb_spec tloc 0) as [->|Hne]; [done|]. cbn [negb when].
  by rewrite (bind_ok _ _ _ _ _ (on_memory_ok _ d e _ _ (store32_ok _ _ v Hmap))).
Qed.
End operations.
