(* ===== verification/Interrupts.v ===== *)
(** * Interrupts after boot (kernel.c, lines 215 to 221; src/asm/idt.asm)

    The calls of [kernel_main] that fill the interrupt table and install the routines,
    and what the processor then does with a vector: the gate selects a stub, the stub
    enters [fault_handler] or [irq_handler] with its number in the frame. *)

From S2P Require Import Prelude Memory Common Io Descriptors Irq Faults Drivers Syscall.

Definition HZ : Z := 100.

Section operations.
Context `{Env E} `{Symbols}.

(** Descriptor tables, routines and devices, environment. *)
Definition on_tables {A} (m : M descriptors A) : M (descriptors * (devices * E)) A := on_fst m.
Definition on_routines {A} (m : M (devices * E) A) : M (descriptors * (devices * E)) A := on_snd m.

Definition irq_install : M (descriptors * (devices * E)) unit :=
  on_routines (io irq_remap) ;;;
  on_tables irq_gates.

Definition install_interrupts : M (descriptors * (devices * E)) unit :=
  on_tables idt_install ;;;
  on_routines Keyboard.keyboard_install ;;;
  on_routines Timer.timer_install ;;;
  on_routines (io (Timer.timer_set_interval HZ)) ;;;
  on_routines Rtc.rtc_install ;;;
  on_routines syscall_install ;;;
  irq_install.

(** ** Taking an interrupt *)

(** The stubs of idt.asm and the number each of them pushes. *)
Inductive stub := Isr (n : Z) | Irq (n : Z).
#[export] Instance stub_eq_dec : EqDecision stub.
Proof using. solve_decision. Defined.
Definition stubs : list stub := (Isr <$> seqZ 0 32) ++ (Irq <$> seqZ 0 16) ++ [Irq 96].
Definition stub_address (s : stub) : Z := match s with Isr n => isr n | Irq n => irq n end.
Definition pushed (s : stub) : Z := match s with Isr n => n | Irq n => n + 32 end.

(** The stub at an address of the code segment. *)
Definition stub_at (a : Z) : option stub := snd <$> list_find (λ s, u32 (stub_address s) = a) stubs.

(** The number the stub leaves in the frame. Of the rest of the frame the handlers read
    only [eip] of vector 13, which the processor pushes an error code for. *)
Definition set_int_no (n : Z) (r : regs) : regs :=
  mkRegs (gs r) (fs r) (es r) (ds r) (edi r) (esi r) (ebp r) (esp r) (ebx r) (edx r) (ecx r) (eax r)
    n (err_code r) (eip r) (cs r) (eflags r) (useresp r) (ss r).

(** Vector [n] with the registers [r]; without a gate there is nothing to enter. *)
Definition enter (fuel : nat) (cr2 n : Z) (r : regs) : M (descriptors * (devices * E)) regs :=
  let* s := gets fst in
  let* g := of_option (idt s !! Z.to_nat n) in
  if gate_present g then
    let* st := of_option (stub_at (gate_offset g)) in
    match st with
    | Isr k => on_routines (io (fault_handler cr2 (set_int_no k r))) ;;; ret r
    | Irq k => on_routines (irq_handler (run_handler fuel) (set_int_no (pushed (Irq k)) r))
    end
  else fault.

(** ** Going to user mode ([usermode_switch] of kernel.c, asm/tss.asm) *)

(** What [iret] pops; [segments] is what ds, es, fs and gs were set to. *)
Record user_frame := mkUserFrame {
  uf_eip : Z; uf_cs : Z; uf_eflags : Z; uf_esp : Z; uf_ss : Z; uf_segments : Z }.
(** [int_enable] is the address of the label, [esp] and [flags] the registers; [cli] clears
    the interrupt flag and [OR EAX, 0x200] sets it in the flags that are popped. *)
Definition enter_usermode (int_enable esp flags : Z) : user_frame :=
  mkUserFrame int_enable 0x1B (Z.lor (Z.ldiff flags 0x200) 0x200) esp 0x23 0x23.
Definition usermode_switch (stack int_enable esp flags : Z) : M (descriptors * (devices * E)) user_frame :=
  on_routines (io (terminal_writestring "stack")) ;;;
  on_routines (io (terminal_printhex32 stack)) ;;;
  on_tables (set_kernel_stack stack) ;;;
  ret (enter_usermode int_enable esp flags).

(** ** Specification *)

(** The routine of every vector above the exceptions. *)
Definition routine_of (n : Z) : option handler :=
  if n =? 32 then Some timer_routine else if n =? 33 then Some keyboard_routine
  else if n =? 40 then Some rtc_routine else if n =? 128 then Some syscall_routine else None.
(** The stubs are at different addresses. *)
Definition stubs_distinct : Prop := NoDup ((λ s, u32 (stub_address s)) <$> stubs).

(** ** Lemmas *)

Lemma stub_found s : stubs_distinct → s ∈ stubs → stub_at (u32 (stub_address s)) = Some s.
Proof using.
  unfold stubs_distinct, stub_at. generalize stubs as l. intros l Hnd [i Hi]%list_elem_of_lookup.
  rewrite (proj2 (list_find_Some (λ t, u32 (stub_address t) = u32 (stub_address s)) l i s)); [done|].
  split; [done|]. split; [done|]. intros j t Hj Hlt Heq.
  assert (i = j) as ->; [|lia]. eapply NoDup_lookup; [exact Hnd|by rewrite list_lookup_fmap, Hi|].
  by rewrite list_lookup_fmap, Hj; simpl; rewrite Heq.
Qed.
Lemma stub_listed n a : vector_stub n = Some a → 0 ≤ n →
  ∃ s, s ∈ stubs ∧ stub_address s = a ∧ pushed s = n ∧ (if n <? 32 then s = Isr n else s = Irq (n - 32)).
Proof using.
  unfold vector_stub, stubs. intros Hv Hn.
  destruct (Z.ltb_spec n 32); [|destruct (Z.ltb_spec n 48); [|destruct (Z.eqb_spec n 128) as [->|]]]; simplify_eq.
  - exists (Isr n). split; [|done]. apply elem_of_app. left. apply list_elem_of_fmap. exists n. split; [done|].
    apply elem_of_seqZ. lia.
  - exists (Irq (n - 32)). split; [|split; [done|split; [simpl; lia|done]]]. apply elem_of_app. right.
    apply elem_of_app. left. apply list_elem_of_fmap. exists (n - 32). split; [done|]. apply elem_of_seqZ. lia.
  - exists (Irq 96). split; [|done]. apply elem_of_app. right. apply elem_of_app. right. by apply list_elem_of_singleton.
Qed.

Lemma on_tables_ok {A} (m : M descriptors A) s x a s' : m s = Ok a s' → on_tables m (s, x) = Ok a (s', x).
Proof using. unfold on_tables, on_fst, zoom. simpl. by intros ->. Qed.
Lemma on_routines_ok {A} (m : M (devices * E) A) (s : descriptors) x a x' :
  m x = Ok a x' → on_routines m (s, x) = Ok a (s, x').
Proof using. unfold on_routines, on_snd, zoom. simpl. by intros ->. Qed.

(** Each of the installations, from any state of the devices. *)
Definition with_routine (i : Z) (h : handler) (d : devices) : devices :=
  set_irq_routines (<[Z.to_nat i := Some h]> (irq_routines d)) d.
Lemma install_step {B} i h (f : unit → M (descriptors * (devices * E)) B) s d e :
  length (irq_routines d) = IRQ_ROUTINES → 0 ≤ i < 256 → env_wf e →
  ∃ e', bind (on_routines (irq_install_handler i h)) f (s, (d, e)) = f tt (s, (with_routine i h d, e')) ∧ env_wf e'.
Proof using.
  intros Hl Hi He. destruct (install_spec i h d e Hl Hi He) as (e' & E1 & He').
  exists e'. by rewrite (bind_ok _ _ _ _ _ (on_routines_ok _ s _ _ _ E1)).
Qed.
Lemma io_step {A B} (m : M E A) (f : A → M (descriptors * (devices * E)) B) s d e :
  returns m → env_wf e →
  ∃ a e', bind (on_routines (io m)) f (s, (d, e)) = f a (s, (d, e')) ∧ env_wf e'.
Proof using.
  intros Hm He. destruct (io_returns m d e Hm He) as (a & e' & E1 & He').
  exists a, e'. by rewrite (bind_ok _ _ _ _ _ (on_routines_ok _ s _ _ _ E1)).
Qed.
Lemma rtc_step {B} (f : unit → M (descriptors * (devices * E)) B) s d e :
  length (irq_routines d) = IRQ_ROUTINES → env_wf e →
  ∃ e', bind (on_routines Rtc.rtc_install) f (s, (d, e)) = f tt (s, (with_routine 8 rtc_routine d, e')) ∧ env_wf e'.
Proof using.
  intros Hl He. unfold Rtc.rtc_install.
  destruct (io_returns _ d e (returns_out W8 Rtc.CMOS_ADDRESS 0x8B) He) as ([] & e1 & E1 & He1).
  destruct (io_returns _ d e1 (returns_in W8 Rtc.CMOS_DATA) He1) as (prev & e2 & E2 & He2).
  destruct (io_returns _ d e2 (returns_out W8 Rtc.CMOS_ADDRESS 0x8B) He2) as ([] & e3 & E3 & He3).
  destruct (io_returns _ d e3 (returns_out W8 Rtc.CMOS_DATA (Z.lor prev 0x40)) He3) as ([] & e4 & E4 & He4).
  destruct (install_spec 8 rtc_routine d e4 Hl ltac:(lia) He4) as (e5 & E5 & He5). exists e5. split; [|done].
  apply bind_ok, on_routines_ok. unfold outb, inb.
  by rewrite (bind_ok _ _ _ _ _ E1), (bind_ok _ _ _ _ _ E2), (bind_ok _ _ _ _ _ E3), (bind_ok _ _ _ _ _ E4).
Qed.
Lemma remap_returns : returns irq_remap.
Proof using. unfold irq_remap. repeat (apply returns_bind; [apply returns_out|intros _]). apply returns_out. Qed.
Lemma interval_returns : returns (Timer.timer_set_interval HZ).
Proof using.
  unfold Timer.timer_set_interval. cbn [Z.eqb HZ].
  repeat (apply returns_bind; [apply returns_out|intros _]). apply returns_out.
Qed.

(** The table of routines after boot. *)
Definition boot_routines : list (option handler) :=
  <[96%nat := Some syscall_routine]> (<[8%nat := Some rtc_routine]> (<[0%nat := Some timer_routine]>
    (<[1%nat := Some keyboard_routine]> (replicate IRQ_ROUTINES None)))).
Lemma boot_routines_lookup n : 32 ≤ n < 256 → boot_routines !! Z.to_nat (n - 32) = Some (routine_of n).
Proof using.
  intros Hn. unfold boot_routines, routine_of, IRQ_ROUTINES.
  destruct (Z.eqb_spec n 32) as [->|]; [done|]. destruct (Z.eqb_spec n 33) as [->|]; [done|].
  destruct (Z.eqb_spec n 40) as [->|]; [done|]. destruct (Z.eqb_spec n 128) as [->|]; [done|].
  rewrite !list_lookup_insert_ne by lia. by rewrite lookup_replicate_2 by lia.
Qed.

Lemma with_routine_length i h d : length (irq_routines (with_routine i h d)) = length (irq_routines d).
Proof using. apply length_insert. Qed.
Ltac boot_step e' He' :=
  match goal with
  | |- context [bind (on_routines (irq_install_handler ?i ?h)) ?f (?s, (?d, ?e))] =>
      destruct (install_step i h f s d e) as (e' & -> & He'); [by rewrite ?with_routine_length|lia|assumption|]
  | |- context [bind (on_routines Rtc.rtc_install) ?f (?s, (?d, ?e))] =>
      destruct (rtc_step f s d e) as (e' & -> & He'); [by rewrite ?with_routine_length|assumption|]
  | |- context [bind (on_routines (io ?m)) ?f (?s, (?d, ?e))] =>
      destruct (io_step m f s d e) as ([] & e' & -> & He');
      [first [apply remap_returns|apply interval_returns]|assumption|]
  end.

Lemma install_interrupts_spec s d e :
  irq_routines d = replicate IRQ_ROUTINES None → env_wf e →
  ∃ s' e', install_interrupts (s, (d, e)) = Ok tt (s', (set_irq_routines boot_routines d, e')) ∧ env_wf e' ∧
    (gdtr s' = gdtr s ∧ tr s' = tr s) ∧ ∀ n, 0 ≤ n < 256 → ∃ g, idt s' !! Z.to_nat n = Some g ∧
      match vector_stub n with
      | Some stub => gate_offset g = u32 stub ∧ sel g = 0x08 ∧ gate_present g = true ∧ gate_dpl g = 3
      | None => gate_present g = false
      end.
Proof using.
  intros Hd He. destruct (idt_complete s) as (s' & E' & _ & _ & Htab & Hg).
  apply bind_inv_ok in E' as ([] & s1 & E1 & E2).
  assert (length (irq_routines d) = IRQ_ROUTINES) as Hl by (by rewrite Hd, length_replicate).
  unfold install_interrupts, Keyboard.keyboard_install, Timer.timer_install, syscall_install, irq_install.
  rewrite (bind_ok _ _ _ _ _ (on_tables_ok _ s (d, e) _ _ E1)).
  boot_step e1 He1. boot_step e2 He2. boot_step e3 He3. boot_step e4 He4. boot_step e5 He5. boot_step e6 He6.
  exists s', e6. split; [|split; [exact He6|split; [exact Htab|exact Hg]]]. rewrite (on_tables_ok _ s1 _ _ _ E2). unfold boot_routines. by rewrite <-Hd.
Qed.

(** Entering a vector of a stub of [irq_handler]. *)
Lemma enter_irq fuel cr2 n g a r s x :
  stubs_distinct → vector_stub n = Some a → 32 ≤ n → idt s !! Z.to_nat n = Some g → gate_present g = true → gate_offset g = u32 a →
  stub_at (gate_offset g) = Some (Irq (n - 32)) ∧
  enter fuel cr2 n r (s, x) = on_routines (irq_handler (run_handler fuel) (set_int_no n r)) (s, x).
Proof using.
  intros Hst Hvs Hn Hi Hp Hoff. destruct (stub_listed n a Hvs ltac:(lia)) as (st & Hin & <- & Hpush & Hst').
  rewrite (proj2 (Z.ltb_ge n 32)) in Hst' by done. subst st. rewrite Hoff, (stub_found _ Hst Hin). split; [done|].
  unfold enter. rewrite bind_gets. cbn [fst]. rewrite Hi. cbn [of_option]. rewrite bind_ret_l, Hp, Hoff, (stub_found _ Hst Hin).
  cbn [of_option]. by rewrite bind_ret_l, Hpush.
Qed.

(** ** Theorems *)

(** [usermode_switch] after [gdt_install]: the code and stack selectors it loads have
    privilege level 3 and name flat user segments of the table, interrupts are enabled,
    and an interrupt from user mode finds the kernel stack in the task state segment the
    task register names. *)
Theorem usermode_switch_correct boot_esp stack int_enable esp flags s d e :
  (6 ≤ length (gdt s))%nat → env_wf e →
  ∃ s' e' f, (on_tables (gdt_install boot_esp) ;;; usermode_switch stack int_enable esp flags) (s, (d, e)) =
      Ok f (s', (d, e')) ∧ env_wf e' ∧
    uf_cs f mod 4 = 3 ∧ uf_ss f mod 4 = 3 ∧ uf_segments f = uf_ss f ∧ Z.testbit (uf_eflags f) 9 = true ∧
    (∃ c, gdt s' !! Z.to_nat (uf_cs f / 8) = Some c ∧ segment_base c = 0 ∧ segment_limit c = 0xFFFFF ∧ access c = 0xFA) ∧
    (∃ c, gdt s' !! Z.to_nat (uf_ss f / 8) = Some c ∧ segment_base c = 0 ∧ segment_limit c = 0xFFFFF ∧ access c = 0xF2) ∧
    Descriptors.esp0 (tss_entry s') = stack ∧ Descriptors.ss0 (tss_entry s') = KERNEL_DATA_SEG ∧
    (0 ≤ tss_addr < 2 ^ 32 → ∃ c, gdt s' !! Z.to_nat (tr s' / 8) = Some c ∧ segment_base c = tss_addr).
Proof using.
  intros Hl He. destruct (gdt_install_spec boot_esp s Hl) as (s1 & E1 & _ & Htr & Htss & Hg & _).
  rewrite (bind_ok _ _ _ _ _ (on_tables_ok _ s (d, e) _ _ E1)). unfold usermode_switch.
  destruct (io_step (terminal_writestring "stack")
    (λ _, on_routines (io (terminal_printhex32 stack)) ;;; on_tables (set_kernel_stack stack) ;;; ret (enter_usermode int_enable esp flags))
    s1 d e (returns_write _) He) as ([] & e1 & -> & He1).
  destruct (io_step (terminal_printhex32 stack)
    (λ _, on_tables (set_kernel_stack stack) ;;; ret (enter_usermode int_enable esp flags)) s1 d e1 (returns_printhex32 _) He1)
    as ([] & e2 & -> & He2).
  assert (∀ i, (i < 6)%nat → gdt s1 !! i = take 6 (gdt s1) !! i) as Hlk by (intros i Hi; by rewrite lookup_take_lt).
  eexists _, e2, _. split; [reflexivity|]. split; [done|]. cbn [enter_usermode uf_cs uf_ss uf_segments uf_eflags gdt tss_entry set_tss tr Descriptors.esp0 Descriptors.ss0].
  split; [done|]. split; [done|]. split; [done|].
  split; [rewrite Z.lor_spec; apply orb_true_r|].
  change (Z.to_nat (0x1B / 8)) with 3%nat. change (Z.to_nat (0x23 / 8)) with 4%nat. rewrite !Hlk, Hg by lia.
  split; [eexists; split; [reflexivity|by split_and!]|]. split; [eexists; split; [reflexivity|by split_and!]|].
  split; [done|]. split; [change (Descriptors.ss0 (tss_entry s1) = KERNEL_DATA_SEG); by rewrite Htss|].
  cbn [fst]. intros Ht. rewrite Htr. change (Z.to_nat (0x2B / 8)) with 5%nat.
  rewrite Hlk, Hg by lia. eexists. split; [reflexivity|].
  unfold make_gate, segment_base. cbn [base_low base_middle base_high].
  rewrite !Z.shiftr_div_pow2, !land_ones16, !land_ones8 by lia.
  change (2 ^ 16) with 65536. change (2 ^ 24) with 16777216. word_lia.
Qed.

(** C14. Boot ends with every vector served: exceptions say what they are and stop the machine,
    the timer, the keyboard, the clock and the system call run their routines and are
    acknowledged to the controllers their lines belong to, the other lines are
    acknowledged only, and the remaining vectors have no gate. All gates have privilege
    level 3, so that user code can raise any of these vectors itself. *)
Theorem interrupts_dispatch fuel cr2 s d e :
  irq_routines d = replicate IRQ_ROUTINES None → env_wf e → stubs_distinct →
  ∃ s' d' e', install_interrupts (s, (d, e)) = Ok tt (s', (d', e')) ∧ env_wf e' ∧ jiffies d' = jiffies d ∧
    ∀ n r, 0 ≤ n < 256 → let r0 := set_int_no n r in
      match vector_stub n with
      | None => enter fuel cr2 n r (s', (d', e')) = Fault
      | Some _ =>
          (∃ g, idt s' !! Z.to_nat n = Some g ∧ gate_dpl g = 3) ∧
          if n <? 32 then
            ∃ e2, terminal_write (fault_text cr2 r0) e' = Ok tt e2 ∧
              enter fuel cr2 n r (s', (d', e')) = Panic "for (;;)" (s', (d', e2))
          else match routine_of n with
          | None => enter fuel cr2 n r (s', (d', e')) = Ok r0 (s', (d', send_eoi n e'))
          | Some h => ∀ r' d2 e2, run_handler fuel h r0 (d', e') = Ok r' (d2, e2) → int_no r' = n →
              enter fuel cr2 n r (s', (d', e')) = Ok r' (s', (d2, send_eoi n e2))
          end
      end.
Proof using.
  intros Hd He Hst. destruct (install_interrupts_spec s d e Hd He) as (s' & e' & E1 & He' & _ & Hg).
  exists s', (set_irq_routines boot_routines d), e'. split; [done|]. split; [done|]. split; [done|].
  intros n r Hn r0. destruct (Hg n Hn) as (g & Hi & Hv). unfold enter. rewrite bind_gets. cbn [fst].
  rewrite Hi. cbn [of_option]. rewrite bind_ret_l.
  destruct (vector_stub n) as [a|] eqn:Hvs; [|by rewrite Hv].
  destruct Hv as (Hoff & _ & Hp & Hdpl). split; [exists g; split; [reflexivity|exact Hdpl]|].
  destruct (Z.ltb_spec n 32) as [Hlt|Hge].
  - rewrite Hp, Hoff. destruct (stub_listed n a Hvs ltac:(lia)) as (st & Hin & <- & _ & Hst').
    rewrite (proj2 (Z.ltb_lt n 32) Hlt) in Hst'. subst st. rewrite (stub_found _ Hst Hin). cbn [of_option]. rewrite bind_ret_l.
    pose proof (fault_handler_spec cr2 r0 e' He') as Hf. cbn [int_no r0 set_int_no] in Hf.
    rewrite (proj2 (Z.ltb_lt n 32)) in Hf by done. destruct Hf as (e2 & E2 & E3). exists e2. split; [done|].
    apply bind_panic. unfold on_routines, io, on_snd, zoom. cbn [fst snd]. unfold r0 in E3. by rewrite E3.
  - destruct (enter_irq fuel cr2 n g a r s' (set_irq_routines boot_routines d, e') Hst Hvs Hge Hi Hp Hoff) as [_ Hen].
    unfold enter in Hen. rewrite bind_gets in Hen. cbn [fst] in Hen. rewrite Hi in Hen. cbn [of_option] in Hen. rewrite bind_ret_l in Hen. rewrite Hen.
    fold r0. pose proof (irq_handler_spec (run_handler fuel) r0 (set_irq_routines boot_routines d) e' (routine_of n)) as Hh.
    cbn [int_no r0 set_int_no irq_routines set_irq_routines] in Hh.
    specialize (Hh ltac:(lia) (boot_routines_lookup n ltac:(lia))).
    destruct (routine_of n) as [h|].
    + intros r' d2 e2 E2 Hno. apply on_routines_ok. by apply Hh.
    + by apply on_routines_ok.
Qed.
End operations.
