(* ===== verification/Stubs.v ===== *)
(** * The stubs of the interrupts, instruction by instruction (asm/idt.asm)

    What [Interrupts.enter] takes as given: the stub of a vector pushes its number, the
    common part saves the registers below it as a [struct regs], calls the handler with
    its address, restores the registers from it and returns with [iret]. *)

From S2P Require Import Prelude Memory Common Io Descriptors Irq Faults Drivers Syscall Interrupts.

(** ** The processor: registers, segment registers, and the stack, the last word first *)

Record stack_cpu := mkStackCpu {
  k_eax : Z; k_ecx : Z; k_edx : Z; k_ebx : Z; k_esp : Z; k_ebp : Z; k_esi : Z; k_edi : Z;
  k_ds : Z; k_es : Z; k_fs : Z; k_gs : Z; k_stack : list Z }.

Inductive segment := DS | ES | FS | GS.
Inductive stack_op :=
  | Cli | Push_imm (v : Z) | Pusha | Popa | Push_segment (g : segment) | Pop_segment (g : segment)
  | Mov_ax_imm (v : Z) | Mov_segment_ax (g : segment) | Mov_eax_esp | Mov_eax_imm (v : Z) | Push_eax | Pop_eax | Add_esp_8.

Definition with_eax (v : Z) (s : stack_cpu) : stack_cpu :=
  mkStackCpu v (k_ecx s) (k_edx s) (k_ebx s) (k_esp s) (k_ebp s) (k_esi s) (k_edi s) (k_ds s) (k_es s) (k_fs s) (k_gs s) (k_stack s).
Definition with_stack (esp : Z) (l : list Z) (s : stack_cpu) : stack_cpu :=
  mkStackCpu (k_eax s) (k_ecx s) (k_edx s) (k_ebx s) (u32 esp) (k_ebp s) (k_esi s) (k_edi s) (k_ds s) (k_es s) (k_fs s) (k_gs s) l.
Definition get_segment (g : segment) (s : stack_cpu) : Z :=
  match g with DS => k_ds s | ES => k_es s | FS => k_fs s | GS => k_gs s end.
(** A segment register has sixteen bits. *)
Definition with_segment (g : segment) (v : Z) (s : stack_cpu) : stack_cpu :=
  mkStackCpu (k_eax s) (k_ecx s) (k_edx s) (k_ebx s) (k_esp s) (k_ebp s) (k_esi s) (k_edi s)
    (match g with DS => u16 v | _ => k_ds s end) (match g with ES => u16 v | _ => k_es s end)
    (match g with FS => u16 v | _ => k_fs s end) (match g with GS => u16 v | _ => k_gs s end) (k_stack s).
Definition push_on (v : Z) (s : stack_cpu) : stack_cpu := with_stack (k_esp s - 4) (v :: k_stack s) s.

Definition exec_op (i : stack_op) (s : stack_cpu) : option stack_cpu :=
  match i with
  | Cli => Some s
  | Push_imm v => Some (push_on v s)
  | Pusha =>
      Some (push_on (k_edi s) (push_on (k_esi s) (push_on (k_ebp s) (push_on (k_esp s)
        (push_on (k_ebx s) (push_on (k_edx s) (push_on (k_ecx s) (push_on (k_eax s) s))))))))
  | Popa =>
      match k_stack s with
      | edi :: esi :: ebp :: _ :: ebx :: edx :: ecx :: eax :: l =>
          Some (mkStackCpu eax ecx edx ebx (u32 (k_esp s + 32)) ebp esi edi (k_ds s) (k_es s) (k_fs s) (k_gs s) l)
      | _ => None
      end
  | Push_segment g => Some (push_on (get_segment g s) s)
  | Pop_segment g =>
      match k_stack s with v :: l => Some (with_segment g v (with_stack (k_esp s + 4) l s)) | [] => None end
  | Mov_ax_imm v => Some (with_eax (Z.lor (Z.shiftl (Z.shiftr (k_eax s) 16) 16) (u16 v)) s)
  | Mov_segment_ax g => Some (with_segment g (k_eax s) s)
  | Mov_eax_esp => Some (with_eax (k_esp s) s)
  | Mov_eax_imm v => Some (with_eax v s)
  | Push_eax => Some (push_on (k_eax s) s)
  | Pop_eax =>
      match k_stack s with v :: l => Some (with_eax v (with_stack (k_esp s + 4) l s)) | [] => None end
  | Add_esp_8 =>
      match k_stack s with _ :: _ :: l => Some (with_stack (k_esp s + 8) l s) | _ => None end
  end.
Fixpoint exec_ops (l : list stack_op) (s : stack_cpu) : option stack_cpu :=
  match l with [] => Some s | i :: l => s ← exec_op i s; exec_ops l s end.

(** ** The code *)

(** The macros ISR_CODE, ISR_NOCODE and irq. *)
Definition stub_code (st : stub) : list stack_op :=
  match st with
  | Isr n => if n <? 19 then [Cli; Push_imm n] else [Cli; Push_imm 0; Push_imm n]
  | Irq n => [Cli; Push_imm 0; Push_imm (n + 32)]
  end.
(** [isr_common_stub] and [irq_common_stub] differ in the function they call. *)
Definition common_entry (handler_addr : Z) : list stack_op :=
  [Pusha; Push_segment DS; Push_segment ES; Push_segment FS; Push_segment GS;
   Mov_ax_imm 0x10; Mov_segment_ax DS; Mov_segment_ax ES; Mov_segment_ax FS; Mov_segment_ax GS;
   Mov_eax_esp; Push_eax; Mov_eax_imm handler_addr].
Definition common_exit : list stack_op :=
  [Pop_eax; Pop_segment GS; Pop_segment FS; Pop_segment ES; Pop_segment DS; Popa; Add_esp_8].

(** [struct regs] on the stack, and the five words the processor pushed itself; those of an
    interrupt in the kernel are the first three. *)
Definition pushed_by_cpu (r : regs) : list Z := [eip r; cs r; eflags r; useresp r; ss r].
Definition frame (r : regs) : list Z :=
  [gs r; fs r; es r; ds r; edi r; esi r; ebp r; esp r; ebx r; edx r; ecx r; eax r; int_no r; err_code r] ++ pushed_by_cpu r.
Definition read_frame (l : list Z) : option regs :=
  match l with
  | gs :: fs :: es :: ds :: edi :: esi :: ebp :: esp :: ebx :: edx :: ecx :: eax :: int_no :: err_code :: eip :: cs :: eflags :: useresp :: ss :: _ =>
      Some (mkRegs gs fs es ds edi esi ebp esp ebx edx ecx eax int_no err_code eip cs eflags useresp ss)
  | _ => None
  end.

(** A call of a C function with the address on top of the stack: it may change the object
    there, and eax, ecx and edx as it likes. *)
Definition call_handler (h : regs → option regs) (a c d : Z) (s : stack_cpu) : option stack_cpu :=
  match k_stack s with
  | p :: l =>
      if p =? u32 (k_esp s + 4) then
        r ← read_frame l;
        r' ← h r;
        Some (mkStackCpu a c d (k_ebx s) (k_esp s) (k_ebp s) (k_esi s) (k_edi s) (k_ds s) (k_es s) (k_fs s) (k_gs s)
                (p :: frame r' ++ drop 19 l))
      else None
  | [] => None
  end.
Definition run_stub (st : stub) (handler_addr : Z) (h : regs → option regs) (a c d : Z) (s : stack_cpu) : option stack_cpu :=
  s ← exec_ops (stub_code st ++ common_entry handler_addr) s;
  s ← call_handler h a c d s;
  exec_ops common_exit s.

(** ** Specification *)

(** The stubs of ISR_CODE leave the place of the error code to the processor. *)
Definition has_code (st : stub) : bool := match st with Isr n => n <? 19 | Irq _ => false end.
(** The registers of [s] as [struct regs]; [esp] is what it is before pusha, two words below
    the words of the processor. *)
Definition regs_of (s : stack_cpu) (n err : Z) (esp eip cs eflags useresp ss : Z) : regs :=
  mkRegs (k_gs s) (k_fs s) (k_es s) (k_ds s) (k_edi s) (k_esi s) (k_ebp s) esp (k_ebx s) (k_edx s) (k_ecx s) (k_eax s)
    n err eip cs eflags useresp ss.
(** The processor with the registers of [r], about to [iret] from the stack [l]. *)
Definition cpu_of (r : regs) (esp : Z) (l : list Z) : stack_cpu :=
  mkStackCpu (eax r) (ecx r) (edx r) (ebx r) esp (ebp r) (esi r) (edi r) (u16 (ds r)) (u16 (es r)) (u16 (fs r)) (u16 (gs r)) l.

(** ** Lemmas *)

Lemma read_frame_spec r l : read_frame (frame r ++ l) = Some r.
Proof. by destruct r. Qed.
Lemma u32_minus x k : u32 (u32 x - k) = u32 (x - k).
Proof. unfold u32. by rewrite Zminus_mod_idemp_l. Qed.
Lemma u32_plus x k : u32 (u32 x + k) = u32 (x + k).
Proof. unfold u32. by rewrite Zplus_mod_idemp_l. Qed.

Lemma low_word a v : 0 ≤ v < 65536 → u16 (Z.lor (Z.shiftl (Z.shiftr a 16) 16) (u16 v)) = v.
Proof.
  intros Hv. rewrite (u16_small v) by done. rewrite Z.shiftl_mul_pow2, lor_shifted_low by lia. unfold u16. change (2 ^ 16) with 65536.
  rewrite Z.add_comm, Z.mod_add, Z.mod_small by lia. done.
Qed.
Ltac fold_esp := repeat first [rewrite u32_minus | rewrite u32_plus | rewrite <-Z.sub_add_distr | rewrite <-Z.add_assoc].
Ltac run_ops :=
  cbv [exec_ops exec_op push_on with_stack with_eax with_segment get_segment mbind option_bind
    k_eax k_ecx k_edx k_ebx k_esp k_ebp k_esi k_edi k_ds k_es k_fs k_gs k_stack].

(** The common part: from a stack on which number and error code are already. *)
Lemma common_entry_spec addr s n err eip cs eflags useresp ss l :
  k_stack s = n :: err :: [eip; cs; eflags; useresp; ss] ++ l →
  exec_ops (common_entry addr) s = Some (mkStackCpu addr (k_ecx s) (k_edx s) (k_ebx s) (u32 (k_esp s - 52)) (k_ebp s) (k_esi s) (k_edi s)
    0x10 0x10 0x10 0x10 (u32 (k_esp s - 48) :: frame (regs_of s n err (k_esp s) eip cs eflags useresp ss) ++ l)).
Proof.
  destruct s as [a c d b sp bp si di sds ses sfs sgs st]. cbn [k_stack]. intros ->. unfold common_entry. run_ops.
  rewrite !low_word by lia. fold_esp. reflexivity.
Qed.
(** The way out: registers, segments and stack of the frame. *)
Lemma common_exit_spec s p r l :
  k_stack s = p :: frame r ++ l →
  exec_ops common_exit s = Some (cpu_of r (u32 (k_esp s + 60)) (pushed_by_cpu r ++ l)).
Proof.
  destruct s as [a c d b sp bp si di sds ses sfs sgs st]. cbn [k_stack]. intros ->. unfold common_exit, frame, pushed_by_cpu. cbn [app]. run_ops.
  fold_esp. reflexivity.
Qed.
Lemma stub_code_spec st s :
  exec_ops (stub_code st) s = Some (if has_code st then with_stack (k_esp s - 4) (pushed st :: k_stack s) s
                                    else with_stack (k_esp s - 8) (pushed st :: 0 :: k_stack s) s).
Proof.
  destruct s as [a c dx b sp bp si di sds ses sfs sgs sk], st as [n|n]; unfold stub_code, has_code; [destruct (n <? 19)|]; run_ops; fold_esp; reflexivity.
Qed.
Lemma exec_ops_app l1 l2 s : exec_ops (l1 ++ l2) s = s ← exec_ops l1 s; exec_ops l2 s.
Proof. revert s. induction l1 as [|i l1 IH]; intros s; [done|]. cbn [app exec_ops]. destruct (exec_op i s); [apply IH|done]. Qed.

Lemma run_stub_spec st addr h a c d s err eip cs eflags useresp ss l :
  k_stack s = (if has_code st then [err] else []) ++ [eip; cs; eflags; useresp; ss] ++ l →
  let r := regs_of s (pushed st) (if has_code st then err else 0) (u32 (k_esp s - if has_code st then 4 else 8)) eip cs eflags useresp ss in
  run_stub st addr h a c d s =
    r' ← h r; Some (cpu_of r' (u32 (k_esp s + if has_code st then 4 else 0)) (pushed_by_cpu r' ++ l)).
Proof.
  intros Hs r. unfold run_stub. rewrite exec_ops_app, stub_code_spec. cbn [mbind option_bind].
  set (s1 := if has_code st then _ else _).
  assert (k_stack s1 = pushed st :: (if has_code st then err else 0) :: [eip; cs; eflags; useresp; ss] ++ l) as H1
    by (unfold s1; destruct (has_code st); cbn [k_stack with_stack]; by rewrite Hs).
  rewrite (common_entry_spec addr s1 _ _ _ _ _ _ _ _ H1). cbn [mbind option_bind].
  assert (regs_of s1 (pushed st) (if has_code st then err else 0) (k_esp s1) eip cs eflags useresp ss = r) as -> by (unfold s1, r; by destruct (has_code st)).
  unfold call_handler. cbn [k_stack k_esp]. fold_esp. replace (k_esp s1 - 52 + 4) with (k_esp s1 - 48) by lia. rewrite Z.eqb_refl, read_frame_spec. cbn [mbind option_bind].
  destruct (h r) as [r'|]; [|done]. cbn [mbind option_bind]. rewrite (drop_app_length' (frame r) l 19) by done.
  rewrite (common_exit_spec _ _ r' l) by reflexivity. cbn [k_esp]. do 2 f_equal.
  rewrite u32_plus. replace (k_esp s1 - 52 + 60) with (k_esp s1 + 8) by lia. unfold s1.
  destruct (has_code st); cbn [k_esp with_stack]; rewrite u32_plus; f_equal; lia.
Qed.

(** ** Theorems *)

Section entered.
Context `{Env E} `{Symbols}.
(** What a C function leaves in the object it was given. *)
Definition called {S} (m : M S regs) (w : S) : option regs := match m w with Ok r _ => Some r | _ => None end.

(** C27. A vector whose gate leads to a stub of [irq_handler]: the instructions pass the handler
    the registers that [enter] passes it, and the registers that [enter] returns are in the
    processor when it gets to [iret], on the stack of five words that it pushed. *)
Theorem stub_implements_enter fuel cr2 n k g addr a c d s eip cs eflags useresp ss l (w w' : descriptors * (devices * E)) r' :
  idt (fst w) !! Z.to_nat n = Some g → gate_present g = true → stub_at (gate_offset g) = Some (Irq k) →
  k_stack s = [eip; cs; eflags; useresp; ss] ++ l →
  enter fuel cr2 n (regs_of s n 0 (u32 (k_esp s - 8)) eip cs eflags useresp ss) w = Ok r' w' →
  run_stub (Irq k) addr (λ r, called (irq_handler (run_handler fuel) r) (snd w)) a c d s =
    Some (cpu_of r' (u32 (k_esp s)) (pushed_by_cpu r' ++ l)).
Proof using.
  intros Hg Hp Hst Hs. unfold enter. rewrite bind_gets, Hg. cbn [of_option]. rewrite bind_ret_l, Hp, Hst. cbn [of_option]. rewrite bind_ret_l.
  intros He. rewrite (run_stub_spec (Irq k) addr _ a c d s 0 eip cs eflags useresp ss l Hs). cbn [has_code].
  rewrite Z.add_0_r. change (set_int_no (pushed (Irq k)) ?r) with (regs_of s (pushed (Irq k)) 0 (u32 (k_esp s - 8)) eip cs eflags useresp ss) in He.
  unfold on_routines, on_snd, zoom in He. unfold called. destruct w as [w1 w2]. cbn [snd] in *.
  destruct (irq_handler _ _ w2) as [r1 w3|?|?|]; simplify_eq/=. reflexivity.
Qed.
End entered.

(** A handler that leaves the frame alone is not noticed: registers, segments and stack
    pointer are those of the interrupted code. *)
Theorem stub_transparent st addr a c d s err l eip cs eflags useresp ss :
  k_stack s = (if has_code st then [err] else []) ++ [eip; cs; eflags; useresp; ss] ++ l →
  0 ≤ k_esp s < 4294967292 → (∀ g, 0 ≤ get_segment g s < 65536) →
  run_stub st addr Some a c d s =
    Some (with_stack (k_esp s + if has_code st then 4 else 0) ([eip; cs; eflags; useresp; ss] ++ l) s).
Proof.
  intros Hs Hesp Hseg. rewrite (run_stub_spec st addr Some a c d s err eip cs eflags useresp ss l Hs). cbn [mbind option_bind].
  unfold cpu_of, regs_of, with_stack. cbn [Irq.ds Irq.es Irq.fs Irq.gs Irq.eax Irq.ebx Irq.ecx Irq.edx Irq.ebp Irq.esi Irq.edi pushed_by_cpu Irq.eip Irq.cs Irq.eflags Irq.useresp Irq.ss].
  pose proof (Hseg DS). pose proof (Hseg ES). pose proof (Hseg FS). pose proof (Hseg GS). cbn [get_segment] in *.
  by rewrite !u16_small by done.
Qed.

(** An exception without an error code whose stub expects one (the macro ISR_CODE for
    vectors 0 to 7, 9, 15, 16 and 18): every word the processor pushed is taken for the one
    below it, so that [err_code] is the address of the instruction and [eip] its segment. *)
Theorem exception_frame_short n addr h a c d s eip cs eflags useresp ss x l :
  n < 19 → k_stack s = [eip; cs; eflags; useresp; ss; x] ++ l →
  run_stub (Isr n) addr h a c d s =
    r' ← h (regs_of s n eip (u32 (k_esp s - 4)) cs eflags useresp ss x);
    Some (cpu_of r' (u32 (k_esp s + 4)) (pushed_by_cpu r' ++ l)).
Proof.
  intros Hn Hs. pose proof (run_stub_spec (Isr n) addr h a c d s eip cs eflags useresp ss x l) as E. cbn [has_code pushed] in E.
  rewrite (proj2 (Z.ltb_lt n 19) Hn) in E. exact (E Hs).
Qed.

Definition cpu_user : stack_cpu := mkStackCpu 1 2 3 4 0xC0107FEC 5 6 7 0x23 0x23 0x23 0x23 [0x8048000; 0x1B; 0x202; 0xBFFFFFF0; 0x23].
Lemma stub_transparent_witness : run_stub (Irq 0) 0xC0101234 Some 0 0 0 cpu_user = Some cpu_user.
Proof.
  rewrite (stub_transparent (Irq 0) 0xC0101234 0 0 0 cpu_user 0 [] 0x8048000 0x1B 0x202 0xBFFFFFF0 0x23); [reflexivity|done|by split|by intros []].
Defined.
(** The message of a division by zero would show the code segment as address. *)
Lemma exception_frame_short_witness :
  run_stub (Isr 0) 0xC0101234 (λ r, if (int_no r =? 0) && (eip r =? 0x1B) then Some r else None) 0 0 0
    (with_stack 0xC0107FEC ([0x8048000; 0x1B; 0x202; 0xBFFFFFF0; 0x23; 0] ++ []) cpu_user) =
  Some (with_stack 0xC0107FF0 [0x1B; 0x202; 0xBFFFFFF0; 0x23; 0] cpu_user).
Proof. rewrite (exception_frame_short 0 0xC0101234 _ 0 0 0 _ 0x8048000 0x1B 0x202 0xBFFFFFF0 0x23 0 []); [reflexivity|done|done]. Defined.
