(* ===== verification/UserMode.v ===== *)
(** * The instructions that go to user mode (asm/tss.asm, userspace/tss.c)

    Two routines build the frame that [iret] pops: [enter_usermode] of asm/tss.asm, which
    the kernel is linked with, and the inline assembly of [switch_to_user_mode] in
    userspace/tss.c, which is not linked. Both are run here instruction by instruction,
    on a stack of words. *)

From S2P Require Import Prelude Memory Common Io Descriptors Irq Faults Drivers Syscall Interrupts.

(** ** The instructions *)

Inductive instr := Cli | Mov_ax (v : Z) | Mov_eax (v : Z) | Mov_segments | Mov_eax_esp | Push (v : Z) | Push_eax | Pushf | Pop_eax | Or_eax (v : Z).
(** The registers in use and the words above [r_esp], the last one pushed first. *)
Record cpu_state := mkCpu { r_eax : Z; r_esp : Z; r_eflags : Z; r_segments : Z; r_stack : list Z }.

Definition push (v : Z) (s : cpu_state) : cpu_state :=
  mkCpu (r_eax s) (u32 (r_esp s - 4)) (r_eflags s) (r_segments s) (u32 v :: r_stack s).
Definition set_r_eax (v : Z) (s : cpu_state) : cpu_state :=
  mkCpu (u32 v) (r_esp s) (r_eflags s) (r_segments s) (r_stack s).
(** [Mov_segments] moves ax to ds, es, fs and gs. *)
Definition exec (i : instr) (s : cpu_state) : option cpu_state :=
  match i with
  | Cli => Some (mkCpu (r_eax s) (r_esp s) (Z.ldiff (r_eflags s) 0x200) (r_segments s) (r_stack s))
  | Mov_ax v => Some (set_r_eax (Z.lor (Z.shiftl (Z.shiftr (r_eax s) 16) 16) (u16 v)) s)
  | Mov_eax v => Some (set_r_eax v s)
  | Mov_segments => Some (mkCpu (r_eax s) (r_esp s) (r_eflags s) (u16 (r_eax s)) (r_stack s))
  | Mov_eax_esp => Some (set_r_eax (r_esp s) s)
  | Push v => Some (push v s)
  | Push_eax => Some (push (r_eax s) s)
  | Pushf => Some (push (r_eflags s) s)
  | Pop_eax =>
      match r_stack s with
      | v :: l => Some (mkCpu v (u32 (r_esp s + 4)) (r_eflags s) (r_segments s) l)
      | [] => None
      end
  | Or_eax v => Some (set_r_eax (Z.lor (r_eax s) v) s)
  end.
Fixpoint exec_all (l : list instr) (s : cpu_state) : option cpu_state :=
  match l with
  | [] => Some s
  | i :: l => s ← exec i s; exec_all l s
  end.
(** [iret] from privilege level 0 to level 3 pops five words; the segment registers have
    sixteen bits. *)
Definition iret (s : cpu_state) : option user_frame :=
  match r_stack s with
  | eip :: cs :: eflags :: esp :: ss :: _ =>
      if cs mod 4 =? 3 then Some (mkUserFrame eip (u16 cs) eflags esp (u16 ss) (r_segments s)) else None
  | _ => None
  end.

(** ** The two routines; [label] is the address they continue at *)

Definition enter_usermode_code (label : Z) : list instr :=
  [Cli; Mov_ax 0x23; Mov_segments; Mov_eax_esp; Push 0x23; Push_eax; Pushf; Pop_eax; Or_eax 0x200; Push_eax; Push 0x1B; Push label].
Definition switch_to_user_mode_code (label : Z) : list instr :=
  [Cli; Mov_ax 0x23; Mov_segments; Mov_eax_esp; Push 0x23; Push_eax; Pushf; Mov_eax 0x200; Push_eax; Push 0x1B; Push label].
Definition to_user (code : Z → list instr) (label : Z) (s : cpu_state) : option user_frame :=
  s ← exec_all (code label) s; iret s.
Definition switch_to_user_mode := to_user switch_to_user_mode_code.

(** ** [set_tss] and [set_kernel_stack] of userspace/tss.c: the type the size is taken of is
    not declared anywhere; with [struct tss_struct] they are those of tss.c. *)

Definition set_tss `{Symbols} (esp : Z) : M descriptors unit :=
  gdt_set_gate 5 tss_addr (u32 (tss_addr + TSS_SIZE)) 0xE9 0x00 ;;;
  modify (Descriptors.set_tss (mkTss esp KERNEL_DATA_SEG 0x0B 0x13 0x13 0x13 0x13 0x13 TSS_SIZE)).

(** ** Theorems *)

(** A word of the processor. *)
Definition word (v : Z) : Prop := 0 ≤ v < 4294967296.
Lemma word_bit v i : word v → 32 ≤ i → Z.testbit v i = false.
Proof.
  intros [H0 H1] Hi. apply Z.bits_above_log2; [done|]. apply Z.lt_le_trans with 32; [|done].
  destruct (decide (v = 0)) as [->|]; [done|]. apply Z.log2_lt_pow2; lia.
Qed.
Lemma word_bits v : 0 ≤ v → (∀ i, 32 ≤ i → Z.testbit v i = false) → u32 v = v.
Proof.
  intros H0 Hb. unfold u32. change 4294967296 with (2 ^ 32). rewrite <-Z.land_ones by lia. apply Z.bits_inj'. intros i Hi.
  rewrite Z.land_spec. destruct (Z.ltb_spec i 32).
  - by rewrite Z.ones_spec_low, andb_true_r by lia.
  - by rewrite Z.ones_spec_high, Hb, andb_false_r by lia.
Qed.

Lemma flags_word f : word f → u32 (Z.ldiff f 0x200) = Z.ldiff f 0x200 ∧ u32 (Z.lor (Z.ldiff f 0x200) 0x200) = Z.lor (Z.ldiff f 0x200) 0x200.
Proof.
  intros Hf. assert (∀ i, 32 ≤ i → Z.testbit (Z.ldiff f 0x200) i = false) as Hb.
  { intros i Hi. by rewrite Z.ldiff_spec, (word_bit f i Hf Hi). }
  assert (0 ≤ Z.ldiff f 0x200) as H0 by (apply Z.ldiff_nonneg; left; apply Hf). split; [by apply word_bits|].
  apply word_bits; [apply Z.lor_nonneg; by split|]. intros i Hi. rewrite Z.lor_spec, Hb, (word_bit 0x200 i) by done. done.
Qed.

Lemma segments_loaded a v : 0 ≤ v < 65536 → u16 (u32 (Z.lor (Z.shiftl (Z.shiftr a 16) 16) (u16 v))) = v.
Proof.
  intros Hv. rewrite (u16_small v) by done. rewrite Z.shiftl_mul_pow2, lor_shifted_low by lia.
  unfold u16, u32. change (2 ^ 16) with 65536. set (y := Z.shiftr a 16). clearbody y. Z.div_mod_to_equations. lia.
Qed.
Ltac run_code :=
  cbv [to_user push set_r_eax exec exec_all iret mbind option_bind r_eax r_esp r_eflags r_segments r_stack].

(** The instructions of asm/tss.asm build the frame of [enter_usermode]. *)
Theorem enter_usermode_runs label s :
  word label → word (r_esp s) → word (r_eflags s) →
  to_user enter_usermode_code label s = Some (enter_usermode label (r_esp s) (r_eflags s)).
Proof.
  destruct s as [a esp f g l]. cbn [r_esp r_eflags]. intros Hl He Hf. destruct (flags_word _ Hf) as [H1 H2]. unfold enter_usermode_code. run_code.
  rewrite H1, H2, H2, !(u32_small esp), (u32_small label) by done. rewrite segments_loaded by lia. reflexivity.
Qed.

(** The ones of userspace/tss.c leave the flags on the stack: what is popped into the stack
    pointer of user mode are the flags of the kernel, and into ss half of its stack
    pointer. *)
Theorem switch_to_user_mode_frame label s :
  word label → word (r_esp s) → word (r_eflags s) →
  switch_to_user_mode label s =
    Some (mkUserFrame label 0x1B 0x200 (Z.ldiff (r_eflags s) 0x200) (u16 (r_esp s)) 0x23).
Proof.
  destruct s as [a esp f g l]. cbn [r_esp r_eflags]. intros Hl He Hf. destruct (flags_word _ Hf) as [H1 _]. unfold switch_to_user_mode, switch_to_user_mode_code. run_code.
  rewrite H1, !(u32_small esp), (u32_small label) by done. rewrite segments_loaded by lia. reflexivity.
Qed.

(** The gate and the segment are those of tss.c. *)
Lemma set_tss_same `{Symbols} esp s : set_tss esp s = write_tss esp s.
Proof. reflexivity. Qed.

Definition cpu0 : cpu_state := mkCpu 0xDEADBEEF 0xC0107F00 0x246 0x10 [].
Lemma enter_usermode_runs_witness :
  to_user enter_usermode_code 0xC0100ABC cpu0 = Some (mkUserFrame 0xC0100ABC 0x1B 0x246 0xC0107F00 0x23 0x23).
Proof. rewrite (enter_usermode_runs 0xC0100ABC cpu0); [reflexivity|by split..]. Defined.
Lemma switch_to_user_mode_frame_witness :
  switch_to_user_mode 0xC0100ABC cpu0 = Some (mkUserFrame 0xC0100ABC 0x1B 0x200 0x46 0x7F00 0x23).
Proof. rewrite (switch_to_user_mode_frame 0xC0100ABC cpu0); [reflexivity|by split..]. Defined.
