(* ===== verification/Loader.v ===== *)
(** * From the boot loader to [kernel_main] (boot.asm, mm/enable_paging.asm)

    The processor as far as the two files use it: five registers, three control registers,
    physical memory in words, and address translation with a translation buffer that the
    hardware fills and empties at any time. [_loader] runs until it calls [kernel_main];
    [loadPageDir] runs until it returns under the directory that [init_paging] built. *)

From S2P Require Import Prelude Paging.

(** ** Instructions and state *)

Inductive reg := Eax | Ebx | Ecx | Ebp | Esp.
Inductive creg := Cr0 | Cr3 | Cr4.
Inductive insn :=
  | Mov_imm (r : reg) (v : Z) | Mov_reg (r q : reg) | Mov_load (r q : reg) (off : Z) | Mov_store (a v : Z)
  | Mov_to (c : creg) (r : reg) | Mov_from (r : reg) (c : creg) | Or_imm (r : reg) (v : Z) | Add_imm (r : reg) (v : Z)
  | Lea (r : reg) (a : Z) | Invlpg (a : Z) | Push_reg (r : reg) | Pop_reg (r : reg)
  | Jmp (r : reg) | Call (a : Z) | Ret | Hlt.

(** The translation buffer maps a large page ([inl], 4 MB) or a page ([inr], 4 KB) to the
    physical address it starts at. *)
Definition buffer : Type := gmap (Z + Z) Z.
Record processor := mkProcessor {
  m_eax : Z; m_ebx : Z; m_ecx : Z; m_ebp : Z; m_esp : Z; m_eip : Z;
  m_cr0 : Z; m_cr3 : Z; m_cr4 : Z; m_mem : gmap Z Z; m_tlb : buffer }.

Definition set_m_eip (v : Z) (s : processor) : processor :=
  mkProcessor (m_eax s) (m_ebx s) (m_ecx s) (m_ebp s) (m_esp s) v (m_cr0 s) (m_cr3 s) (m_cr4 s) (m_mem s) (m_tlb s).
Definition set_m_mem (v : gmap Z Z) (s : processor) : processor :=
  mkProcessor (m_eax s) (m_ebx s) (m_ecx s) (m_ebp s) (m_esp s) (m_eip s) (m_cr0 s) (m_cr3 s) (m_cr4 s) v (m_tlb s).
Definition set_tlb (v : buffer) (s : processor) : processor :=
  mkProcessor (m_eax s) (m_ebx s) (m_ecx s) (m_ebp s) (m_esp s) (m_eip s) (m_cr0 s) (m_cr3 s) (m_cr4 s) (m_mem s) v.
Definition get_reg (r : reg) (s : processor) : Z :=
  match r with Eax => m_eax s | Ebx => m_ebx s | Ecx => m_ecx s | Ebp => m_ebp s | Esp => m_esp s end.
Definition set_reg (r : reg) (v : Z) (s : processor) : processor :=
  mkProcessor (match r with Eax => v | _ => m_eax s end) (match r with Ebx => v | _ => m_ebx s end)
    (match r with Ecx => v | _ => m_ecx s end) (match r with Ebp => v | _ => m_ebp s end)
    (match r with Esp => v | _ => m_esp s end) (m_eip s) (m_cr0 s) (m_cr3 s) (m_cr4 s) (m_mem s) (m_tlb s).
Definition get_creg (c : creg) (s : processor) : Z := match c with Cr0 => m_cr0 s | Cr3 => m_cr3 s | Cr4 => m_cr4 s end.

(** A new directory, or other paging bits, empty the translation buffer. *)
Definition PG : Z := 31.
Definition PSE : Z := 4.
Definition keeps_tlb (c : creg) (v : Z) (s : processor) : bool :=
  match c with
  | Cr3 => false
  | Cr0 => eqb (Z.testbit v PG) (Z.testbit (m_cr0 s) PG)
  | Cr4 => eqb (Z.testbit v PSE) (Z.testbit (m_cr4 s) PSE)
  end.
Definition set_creg (c : creg) (v : Z) (s : processor) : processor :=
  mkProcessor (m_eax s) (m_ebx s) (m_ecx s) (m_ebp s) (m_esp s) (m_eip s)
    (match c with Cr0 => v | _ => m_cr0 s end) (match c with Cr3 => v | _ => m_cr3 s end)
    (match c with Cr4 => v | _ => m_cr4 s end) (m_mem s) (m_tlb s).

(** ** Address translation. The kernel's code runs at privilege level 0 without write
    protection, so that of the flags of an entry only "present" and "page size" matter. *)

Definition large_page (va : Z) : Z := Z.shiftr va 22.
Definition small_page (va : Z) : Z := Z.shiftr va 12.
Definition walk (s : processor) (va : Z) : option ((Z + Z) * Z) :=
  e ← m_mem s !! (Z.land (m_cr3 s) 0xFFFFF000 + 4 * large_page va);
  if negb (Z.testbit e 0) then None
  else if Z.testbit e 7 && Z.testbit (m_cr4 s) PSE then Some (inl (large_page va), Z.land e 0xFFC00000)
  else
    e ← m_mem s !! (Z.land e 0xFFFFF000 + 4 * Z.land (small_page va) 0x3FF);
    if Z.testbit e 0 then Some (inr (small_page va), Z.land e 0xFFFFF000) else None.
Definition offset_in (k : Z + Z) (va : Z) : Z := match k with inl _ => va mod 4194304 | inr _ => va mod 4096 end.
Definition translate (s : processor) (va : Z) : option Z :=
  if negb (Z.testbit (m_cr0 s) PG) then Some va
  else match m_tlb s !! inl (large_page va), m_tlb s !! inr (small_page va) with
  | Some f, _ => Some (f + va mod 4194304)
  | None, Some f => Some (f + va mod 4096)
  | None, None => '(k, f) ← walk s va; Some (f + offset_in k va)
  end.

(** Accesses to aligned words. *)
Definition load (va : Z) (s : processor) : option Z :=
  if va mod 4 =? 0 then pa ← translate s va; m_mem s !! pa else None.
Definition store (va v : Z) (s : processor) : option processor :=
  if va mod 4 =? 0 then
    pa ← translate s va;
    if m_mem s !! pa is Some _ then Some (set_m_mem (<[pa := v]> (m_mem s)) s) else None
  else None.

(** ** Execution *)

Definition push_word (v : Z) (s : processor) : option processor :=
  let a := u32 (m_esp s - 4) in s ← store a v s; Some (set_reg Esp a s).
Definition pop_word (s : processor) : option (Z * processor) :=
  v ← load (m_esp s) s; Some (v, set_reg Esp (u32 (m_esp s + 4)) s).
(** [m_eip] is already the address of the next instruction; [hlt] does not go on. *)
Definition exec_insn (i : insn) (s : processor) : option processor :=
  match i with
  | Mov_imm r v | Lea r v => Some (set_reg r v s)
  | Mov_reg r q => Some (set_reg r (get_reg q s) s)
  | Mov_load r q off => v ← load (u32 (get_reg q s + off)) s; Some (set_reg r v s)
  | Mov_store a v => store a v s
  | Mov_to c r =>
      let v := get_reg r s in Some (set_tlb (if keeps_tlb c v s then m_tlb s else ∅) (set_creg c v s))
  | Mov_from r c => Some (set_reg r (get_creg c s) s)
  | Or_imm r v => Some (set_reg r (Z.lor (get_reg r s) v) s)
  | Add_imm r v => Some (set_reg r (u32 (get_reg r s + v)) s)
  | Invlpg a => Some (set_tlb (delete (inl (large_page a)) (delete (inr (small_page a)) (m_tlb s))) s)
  | Push_reg r => push_word (get_reg r s) s
  | Pop_reg r => '(v, s) ← pop_word s; Some (set_reg r v s)
  | Jmp r => Some (set_m_eip (get_reg r s) s)
  | Call a => s ← push_word (m_eip s) s; Some (set_m_eip a s)
  | Ret => '(v, s) ← pop_word s; Some (set_m_eip v s)
  | Hlt => None
  end.

(** The lengths of the instructions are the assembler's. *)
Class Assembler := { insn_len : insn → Z; insn_len_bound : ∀ i, 1 ≤ insn_len i ≤ 15 }.

Section execution.
Context `{Assembler}.

Fixpoint code_size (l : list insn) : Z := match l with [] => 0 | i :: l => insn_len i + code_size l end.
(** Instructions in physical memory, from address [a] on. *)
Fixpoint place_code (a : Z) (l : list insn) : gmap Z insn :=
  match l with [] => ∅ | i :: l => <[a := i]> (place_code (a + insn_len i) l) end.
Definition step (code : gmap Z insn) (s : processor) : option processor :=
  pa ← translate s (m_eip s);
  i ← code !! pa;
  exec_insn i (set_m_eip (u32 (m_eip s + insn_len i)) s).
Fixpoint run (n : nat) (code : gmap Z insn) (s : processor) : option processor :=
  match n with O => Some s | S n => s ← step code s; run n code s end.

(** What the hardware does between instructions. *)
Inductive hardware : processor → processor → Prop :=
  | hw_fill s va k f : Z.testbit (m_cr0 s) PG = true → 0 ≤ va < 4294967296 → walk s va = Some (k, f) →
      hardware s (set_tlb (<[k := f]> (m_tlb s)) s)
  | hw_drop s k : hardware s (set_tlb (delete k (m_tlb s)) s).
(** Both, until the processor is at [stop]. *)
Inductive cpu_step (code : gmap Z insn) (stop : Z) : processor → processor → Prop :=
  | cpu_hardware s s' : hardware s s' → cpu_step code stop s s'
  | cpu_insn s s' : m_eip s ≠ stop → step code s = Some s' → cpu_step code stop s s'.
End execution.

(** ** The code *)

(** Where the linker put things (linker.ld). *)
Class BootLink := {
  loader_addr : Z; StartInHigherHalf : Z; kernel_main_addr : Z; BootPageDirectory : Z; boot_stack : Z;
  loadPageDir_addr : Z }.
Definition STACKSIZE : Z := 0x4000.
Definition boot_directory : list Z := 0x83 :: replicate 767 0 ++ 0x83 :: replicate 255 0.

(** [MultiBootHeader], in front of [_loader]. *)
Definition MAGIC : Z := 0x1BADB002.
Definition FLAGS : Z := Z.lor (Z.shiftl 1 0) (Z.shiftl 1 1).
Definition MultiBootHeader : list Z := [MAGIC; FLAGS; u32 (- (MAGIC + FLAGS))].

Section code.
Context `{BootLink}.
Definition loader_low : list insn :=
  [Mov_imm Ecx (BootPageDirectory - KERNEL_VIRTUAL_BASE); Mov_to Cr3 Ecx;
   Mov_from Ecx Cr4; Or_imm Ecx 0x10; Mov_to Cr4 Ecx;
   Mov_from Ecx Cr0; Or_imm Ecx 0x80000000; Mov_to Cr0 Ecx;
   Lea Ecx StartInHigherHalf; Jmp Ecx].
Definition loader_high : list insn :=
  [Mov_store BootPageDirectory 0; Invlpg 0; Mov_imm Esp (boot_stack + STACKSIZE);
   Push_reg Esp; Push_reg Eax; Add_imm Ebx KERNEL_VIRTUAL_BASE; Push_reg Ebx; Call kernel_main_addr; Hlt].
Definition loader_code : list insn := loader_low ++ loader_high.
Definition loadPageDir_code : list insn :=
  [Push_reg Ebp; Mov_reg Ebp Esp; Mov_load Eax Ebp 8; Mov_to Cr3 Eax; Mov_reg Esp Ebp; Pop_reg Ebp; Ret].
(** Nothing calls this one. *)
Definition enablePaging_code : list insn :=
  [Push_reg Ebp; Mov_reg Ebp Esp; Mov_from Eax Cr0; Or_imm Eax 0x80000000; Mov_to Cr0 Eax; Mov_reg Esp Ebp; Pop_reg Ebp; Ret].
End code.

(** ** Runs under any behaviour of the translation buffer *)

Lemma set_tlb_twice t t' s : set_tlb t (set_tlb t' s) = set_tlb t s.
Proof. by destruct s. Qed.
Lemma walk_tlb t s va : walk (set_tlb t s) va = walk s va.
Proof. by destruct s. Qed.

Section runs.
Context `{Assembler}.

Lemma code_size_nonneg l : 0 ≤ code_size l.
Proof using. induction l as [|i l IH]; simpl; [lia|]. pose proof (insn_len_bound i). lia. Qed.
Lemma place_lookup l : ∀ a k, (k < length l)%nat → place_code a l !! (a + code_size (take k l)) = l !! k.
Proof using.
  induction l as [|i l IH]; intros a k Hk; [simpl in Hk; lia|]. destruct k as [|k]; simpl.
  - by rewrite Z.add_0_r, lookup_insert_eq.
  - pose proof (insn_len_bound i). pose proof (code_size_nonneg (take k l)).
    rewrite lookup_insert_ne by lia. rewrite Z.add_assoc. apply IH. simpl in Hk. lia.
Qed.
Lemma code_size_next l : ∀ k i, l !! k = Some i → code_size (take (S k) l) = code_size (take k l) + insn_len i.
Proof using.
  induction l as [|j l IH]; intros [|k] i Hk; simplify_eq/=; [lia|]. pose proof (IH _ _ Hk) as E. simpl in E. lia.
Qed.
Lemma code_size_take l k : code_size (take k l) ≤ code_size l.
Proof using.
  revert k. induction l as [|i l IH]; intros [|k]; simpl; try lia.
  - pose proof (insn_len_bound i). pose proof (code_size_nonneg l). lia.
  - specialize (IH k). lia.
Qed.

Context (code : gmap Z insn) (stop : Z) (Q : processor → Prop).

(** The translation buffers [ok] allows are closed under what the hardware does to them. *)
Definition closed (ok : buffer → Prop) (s : processor) : Prop :=
  (∀ t k, ok t → ok (delete k t)) ∧
  ∀ t va k f, ok t → Z.testbit (m_cr0 s) PG = true → 0 ≤ va < 4294967296 → walk s va = Some (k, f) → ok (<[k := f]> t).

(** From [s] with any buffer in [ok] the processor gets to [stop] with [Q]. *)
Inductive reaches : processor → (buffer → Prop) → Prop :=
  | reaches_done s ok : closed ok s → m_eip s = stop → (∀ t, ok t → Q (set_tlb t s)) → reaches s ok
  | reaches_step s ok s1 ok1 : closed ok s →
      (∀ t, ok t → ∃ t1, step code (set_tlb t s) = Some (set_tlb t1 s1) ∧ ok1 t1) → reaches s1 ok1 → reaches s ok.

Definition on_way (s' : processor) : Prop := ∃ s ok t, s' = set_tlb t s ∧ ok t ∧ reaches s ok.
Lemma on_way_runs s' : on_way s' → ∃ n s'', run n code s' = Some s'' ∧ m_eip s'' = stop ∧ Q s''.
Proof using.
  intros (s & ok & t & -> & Ht & Hr). revert t Ht. induction Hr as [s ok Hc He Hq|s ok s1 ok1 Hc Hs Hr IH]; intros t Ht.
  - exists 0%nat, (set_tlb t s). split; [done|]. split; [done|by apply Hq].
  - destruct (Hs t Ht) as (t1 & E & Ht1). destruct (IH t1 Ht1) as (n & s2 & E2 & Hq).
    exists (S n), s2. split; [|done]. simpl. by rewrite E.
Qed.
Lemma on_way_step s' s'' : on_way s' → cpu_step code stop s' s'' → on_way s''.
Proof using.
  intros (s & ok & t & -> & Ht & Hr) Hs.
  assert (closed ok s) as [Hd Hf] by (by destruct Hr). inversion Hs as [? ? Hh|? ? Hne E]; subst.
  - inversion Hh as [? va k f Hpg Hva Hw|? k]; subst; simpl; rewrite set_tlb_twice; eexists s, ok, _; (split; [reflexivity|]).
    + rewrite walk_tlb in Hw. split; [by eapply Hf|done].
    + split; [by apply Hd|done].
  - inversion Hr as [? ? ? He|? ? s1 ok1 ? Hst Hr1]; subst; [done|].
    destruct (Hst t Ht) as (t1 & E1 & Ht1). rewrite E1 in E. simplify_eq. by eexists s1, ok1, t1.
Qed.
(** Wherever the hardware and the instructions have got to, [stop] is still reached. *)
Lemma reaches_all s ok t s' : reaches s ok → ok t → rtc (cpu_step code stop) (set_tlb t s) s' →
  ∃ n s'', run n code s' = Some s'' ∧ m_eip s'' = stop ∧ Q s''.
Proof using.
  intros Hr Ht Hs. apply on_way_runs. assert (on_way (set_tlb t s)) as Hw by by eexists s, ok, t.
  clear Hr Ht. induction Hs as [|x y z Hxy _ IH]; [done|]. apply IH. by eapply on_way_step.
Qed.
End runs.

(** ** Code in a row: fetching, and the steps of the instructions *)

Section rows.
Context `{Assembler} (code : list insn) (phys : Z) (stop : Z) (Q : processor → Prop).
#[local] Abbreviation off k := (code_size (take k code)).
#[local] Abbreviation goes := (reaches (place_code phys code) stop Q).

(** For the processor the code is at [base]. *)
Definition fetches (base : Z) (ok : buffer → Prop) (s : processor) : Prop :=
  closed ok s ∧ (0 ≤ base ∧ base + code_size code < 4294967296) ∧
  ∀ t va, ok t → base ≤ va ≤ base + code_size code → translate (set_tlb t s) va = Some (va - base + phys).

Lemma goes_next k i base ok ok1 (s s1 : processor) (g : buffer → buffer) :
  code !! k = Some i → m_eip s = base + off k → fetches base ok s →
  (∀ t, ok t → exec_insn i (set_tlb t (set_m_eip (base + off (S k)) s)) = Some (set_tlb (g t) s1) ∧ ok1 (g t)) →
  goes s1 ok1 → goes s ok.
Proof using.
  intros Hk He (Hc & Hb & Hf) Hx Hr. eapply reaches_step; [exact Hc| |exact Hr]. intros t Ht. exists (g t).
  destruct (Hx t Ht) as [E Ht1]. split; [|exact Ht1]. rewrite <-E. unfold step. change (m_eip (set_tlb t s)) with (m_eip s).
  pose proof (code_size_nonneg (take k code)). pose proof (code_size_take code k). pose proof (insn_len_bound i).
  pose proof (code_size_take code (S k)). pose proof (code_size_next _ _ _ Hk).
  rewrite He, Hf by (done || lia). cbn [mbind option_bind].
  replace (base + off k - base + phys) with (phys + off k) by lia.
  rewrite place_lookup by (by eapply lookup_lt_Some). rewrite Hk. cbn [mbind option_bind].
  rewrite u32_small by lia. replace (base + off k + insn_len i) with (base + off (S k)) by lia. apply (f_equal (exec_insn i)). reflexivity.
Qed.

(** Instructions on registers only. *)
Definition on_registers (i : insn) : bool :=
  match i with Mov_imm _ _ | Mov_reg _ _ | Mov_from _ _ | Or_imm _ _ | Add_imm _ _ | Lea _ _ | Jmp _ => true | _ => false end.
Definition effect (i : insn) (s : processor) : processor := default s (exec_insn i s).
Lemma exec_registers i t s : on_registers i = true → exec_insn i (set_tlb t s) = Some (set_tlb t (effect i s)).
Proof using. by destruct s, i as [[]|[]|[]| |[]|[]|[]|[]|[]| |[]|[]|[]| | |]. Qed.
Lemma goes_registers k i base ok s :
  code !! k = Some i → m_eip s = base + off k → fetches base ok s → on_registers i = true →
  goes (effect i (set_m_eip (base + off (S k)) s)) ok → goes s ok.
Proof using.
  intros Hk He Hf Hi. apply (goes_next k i base ok ok s _ (λ t, t) Hk He Hf). intros t Ht. split; [|exact Ht].
  by apply exec_registers.
Qed.
Lemma goes_creg k c r base ok ok1 s :
  code !! k = Some (Mov_to c r) → m_eip s = base + off k → fetches base ok s →
  (∀ t, ok t → ok1 (if keeps_tlb c (get_reg r s) s then t else ∅)) →
  goes (set_creg c (get_reg r s) (set_m_eip (base + off (S k)) s)) ok1 → goes s ok.
Proof using.
  intros Hk He Hf Hok. apply (goes_next k _ base ok ok1 s _ (λ t, if keeps_tlb c (get_reg r s) s then t else ∅) Hk He Hf).
  intros t Ht. split; [|by apply Hok]. by destruct c, r.
Qed.

(** Accesses to memory, when the address is translated to [pa] whatever the buffer holds. *)
Definition maps (ok : buffer → Prop) (s : processor) (va pa : Z) : Prop := ∀ t, ok t → translate (set_tlb t s) va = Some pa.
Lemma goes_store k a v base ok s pa :
  code !! k = Some (Mov_store a v) → m_eip s = base + off k → fetches base ok s →
  maps ok s a pa → a mod 4 = 0 → is_Some (m_mem s !! pa) →
  goes (set_m_mem (<[pa := v]> (m_mem s)) (set_m_eip (base + off (S k)) s)) ok → goes s ok.
Proof using.
  intros Hk He Hf Hm Ha [w Hw]. apply (goes_next k _ base ok ok s _ (λ t, t) Hk He Hf). intros t Ht. split; [|exact Ht].
  cbn [exec_insn]. unfold store. rewrite Ha. cbn [Z.eqb].
  change (translate (set_tlb t (set_m_eip (base + off (S k)) s)) a) with (translate (set_tlb t s) a). rewrite (Hm t Ht). cbn [mbind option_bind].
  change (m_mem (set_tlb t (set_m_eip (base + off (S k)) s))) with (m_mem s). by rewrite Hw.
Qed.
Lemma push_word_spec ok s t v pa : ok t → maps ok s (u32 (m_esp s - 4)) pa → u32 (m_esp s - 4) mod 4 = 0 → is_Some (m_mem s !! pa) →
  push_word v (set_tlb t s) = Some (set_tlb t (set_reg Esp (u32 (m_esp s - 4)) (set_m_mem (<[pa := v]> (m_mem s)) s))).
Proof using.
  intros Ht Hm Ha [w Hw]. unfold push_word, store. change (m_esp (set_tlb t s)) with (m_esp s). rewrite Ha, (Hm t Ht). cbn [Z.eqb mbind option_bind].
  change (m_mem (set_tlb t s)) with (m_mem s). by rewrite Hw.
Qed.
Lemma goes_push k r base ok s pa :
  code !! k = Some (Push_reg r) → m_eip s = base + off k → fetches base ok s →
  maps ok s (u32 (m_esp s - 4)) pa → u32 (m_esp s - 4) mod 4 = 0 → is_Some (m_mem s !! pa) →
  goes (set_reg Esp (u32 (m_esp s - 4)) (set_m_mem (<[pa := get_reg r s]> (m_mem s)) (set_m_eip (base + off (S k)) s))) ok → goes s ok.
Proof using.
  intros Hk He Hf Hm Ha Hw. apply (goes_next k _ base ok ok s _ (λ t, t) Hk He Hf). intros t Ht. split; [|exact Ht].
  cbn [exec_insn]. rewrite (push_word_spec ok (set_m_eip (base + off (S k)) s) t _ pa) by done. by destruct r.
Qed.
Lemma goes_call k a base ok s pa :
  code !! k = Some (Call a) → m_eip s = base + off k → fetches base ok s →
  maps ok s (u32 (m_esp s - 4)) pa → u32 (m_esp s - 4) mod 4 = 0 → is_Some (m_mem s !! pa) →
  goes (set_m_eip a (set_reg Esp (u32 (m_esp s - 4)) (set_m_mem (<[pa := base + off (S k)]> (m_mem s)) s))) ok → goes s ok.
Proof using.
  intros Hk He Hf Hm Ha Hw. apply (goes_next k _ base ok ok s _ (λ t, t) Hk He Hf). intros t Ht. split; [|exact Ht].
  cbn [exec_insn]. by rewrite (push_word_spec ok (set_m_eip (base + off (S k)) s) t _ pa).
Qed.
Lemma load_word ok s t va pa v : ok t → maps ok s va pa → va mod 4 = 0 → m_mem s !! pa = Some v → load va (set_tlb t s) = Some v.
Proof using.
  intros Ht Hm Ha Hw. unfold load. rewrite Ha, (Hm t Ht). cbn [Z.eqb mbind option_bind]. exact Hw.
Qed.
Lemma goes_load k r q o base ok s pa v :
  code !! k = Some (Mov_load r q o) → m_eip s = base + off k → fetches base ok s →
  maps ok s (u32 (get_reg q s + o)) pa → u32 (get_reg q s + o) mod 4 = 0 → m_mem s !! pa = Some v →
  goes (set_reg r v (set_m_eip (base + off (S k)) s)) ok → goes s ok.
Proof using.
  intros Hk He Hf Hm Ha Hw. apply (goes_next k _ base ok ok s _ (λ t, t) Hk He Hf). intros t Ht. split; [|exact Ht].
  cbn [exec_insn]. replace (get_reg q (set_tlb t _)) with (get_reg q s) by (by destruct q).
  by rewrite (load_word ok (set_m_eip (base + off (S k)) s) t _ pa v).
Qed.
Lemma pop_word_spec ok s t pa v : ok t → maps ok s (m_esp s) pa → m_esp s mod 4 = 0 → m_mem s !! pa = Some v →
  pop_word (set_tlb t s) = Some (v, set_tlb t (set_reg Esp (u32 (m_esp s + 4)) s)).
Proof using.
  intros Ht Hm Ha Hw. unfold pop_word. change (m_esp (set_tlb t s)) with (m_esp s). by rewrite (load_word ok s t _ pa v).
Qed.
Lemma goes_pop k r base ok s pa v :
  code !! k = Some (Pop_reg r) → m_eip s = base + off k → fetches base ok s →
  maps ok s (m_esp s) pa → m_esp s mod 4 = 0 → m_mem s !! pa = Some v →
  goes (set_reg r v (set_reg Esp (u32 (m_esp s + 4)) (set_m_eip (base + off (S k)) s))) ok → goes s ok.
Proof using.
  intros Hk He Hf Hm Ha Hw. apply (goes_next k _ base ok ok s _ (λ t, t) Hk He Hf). intros t Ht. split; [|exact Ht].
  cbn [exec_insn]. by rewrite (pop_word_spec ok (set_m_eip (base + off (S k)) s) t pa v).
Qed.
Lemma goes_ret k base ok s pa v :
  code !! k = Some Ret → m_eip s = base + off k → fetches base ok s →
  maps ok s (m_esp s) pa → m_esp s mod 4 = 0 → m_mem s !! pa = Some v →
  goes (set_m_eip v (set_reg Esp (u32 (m_esp s + 4)) s)) ok → goes s ok.
Proof using.
  intros Hk He Hf Hm Ha Hw. apply (goes_next k _ base ok ok s _ (λ t, t) Hk He Hf). intros t Ht. split; [|exact Ht].
  cbn [exec_insn]. by rewrite (pop_word_spec ok (set_m_eip (base + off (S k)) s) t pa v).
Qed.
End rows.

(** One instruction on registers, and one that writes a control register. *)
Ltac run_registers k := eapply (goes_registers _ _ _ _ k); [reflexivity|reflexivity|solve [eauto]|reflexivity|];
  cbv [effect default id exec_insn set_reg set_m_eip get_reg get_creg m_eax m_ebx m_ecx m_ebp m_esp m_eip m_cr0 m_cr3 m_cr4 m_mem m_tlb].
Ltac run_creg k ok1 := eapply (goes_creg _ _ _ _ k _ _ _ _ ok1); [reflexivity|reflexivity|solve [eauto]|..];
  cbv [set_creg set_m_eip get_reg m_eax m_ebx m_ecx m_ebp m_esp m_eip m_cr0 m_cr3 m_cr4 m_mem m_tlb].

(** ** [_loader] *)

Lemma land_pages x : 0 ≤ x < 4294967296 → x mod 4096 = 0 → Z.land x 0xFFFFF000 = x.
Proof. intros Hx Hm. rewrite frame_bits by done. Z.div_mod_to_equations. lia. Qed.
Lemma large_page_spec va k : large_page va = k ↔ k * 4194304 ≤ va < (k + 1) * 4194304.
Proof. unfold large_page. rewrite Z.shiftr_div_pow2 by done. change (2 ^ 22) with 4194304. Z.div_mod_to_equations. lia. Qed.

Section loader.
Context `{Assembler} `{BootLink}.
#[local] Abbreviation BASE := KERNEL_VIRTUAL_BASE.
#[local] Abbreviation loader_at := (place_code (loader_addr - BASE) loader_code).

(** The linker script: code and data of the kernel in the four megabytes from 3 GB on, the
    stack behind the directory. *)
Record linked : Prop := {
  lk_start : StartInHigherHalf = loader_addr + code_size loader_low;
  lk_code : 0xC0100000 ≤ loader_addr ∧ loader_addr + code_size loader_code < 0xC0400000;
  lk_dir : 0xC0100000 ≤ BootPageDirectory ∧ BootPageDirectory mod 4096 = 0;
  lk_stack : BootPageDirectory + 4096 ≤ boot_stack ∧ boot_stack + STACKSIZE ≤ 0xC0400000 ∧ boot_stack mod 4 = 0 }.
(** What a boot loader leaves: paging is off, the image is in memory, [_loader] is next. *)
Record loaded (s : processor) : Prop := {
  ld_eip : m_eip s = loader_addr - BASE;
  ld_off : Z.testbit (m_cr0 s) PG = false;
  ld_dir : ∀ i, 0 ≤ i < 1024 → m_mem s !! (BootPageDirectory - BASE + 4 * i) = boot_directory !! Z.to_nat i;
  ld_stack : ∀ a, boot_stack ≤ a < boot_stack + STACKSIZE → a mod 4 = 0 → is_Some (m_mem s !! (a - BASE)) }.
(** What [kernel_main] finds: its three arguments above the return address, and the first
    four megabytes of memory at 3 GB and nowhere else, whatever the buffer holds. *)
Record entered (mbd magic : Z) (s : processor) : Prop := {
  en_esp : m_esp s = boot_stack + STACKSIZE - 16;
  en_args : load (m_esp s + 4) s = Some (u32 (mbd + BASE)) ∧ load (m_esp s + 8) s = Some magic ∧
    load (m_esp s + 12) s = Some (boot_stack + STACKSIZE);
  en_memory : ∀ va, 0 ≤ va < 4294967296 →
    translate s va = if large_page va =? 768 then Some (va - BASE) else None }.

Context (Hl : linked).

(** The boot directory, with or without its first entry, and the buffers it leads to. *)
Record boot_paging (low : bool) (s : processor) : Prop := {
  bp_bits : Z.testbit (m_cr0 s) PG = true ∧ Z.testbit (m_cr4 s) PSE = true;
  bp_dir : m_cr3 s = BootPageDirectory - BASE;
  bp_entries : ∀ i, 0 ≤ i < 1024 → m_mem s !! (BootPageDirectory - BASE + 4 * i) =
    Some (if (i =? 768) || (low && (i =? 0)) then 0x83 else 0) }.
Definition boot_tlb (low : bool) (t : buffer) : Prop :=
  ∀ k f, t !! k = Some f → f = 0 ∧ (k = inl 768 ∨ low = true ∧ k = inl 0).

Lemma walk_boot low s va : boot_paging low s → 0 ≤ va < 4294967296 →
  walk s va = if (large_page va =? 768) || (low && (large_page va =? 0)) then Some (inl (large_page va), 0) else None.
Proof using Hl.
  intros [[_ Hpse] Hcr He] Hva. destruct (lk_dir Hl), (lk_stack Hl) as (? & ? & ?).
  unfold walk. rewrite Hcr, land_pages.
  2,3: unfold BASE, STACKSIZE in *; Z.div_mod_to_equations; lia.
  assert (0 ≤ large_page va < 1024) as Hp.
  { unfold large_page. rewrite Z.shiftr_div_pow2 by done. change (2 ^ 22) with 4194304. Z.div_mod_to_equations. lia. }
  rewrite (He _ Hp). cbn [mbind option_bind]. rewrite Hpse.
  by destruct ((large_page va =? 768) || (low && (large_page va =? 0))).
Qed.
Lemma boot_closed low low' s : boot_paging low s → (low = true → low' = true) → closed (boot_tlb low') s.
Proof using Hl.
  intros Hb Hlow. split.
  - intros t k Ht k' f Hk. apply Ht. by apply lookup_delete_Some in Hk as [_ Hk].
  - intros t va k f Ht _ Hva Hw k' f' Hk. rewrite (walk_boot _ _ _ Hb Hva) in Hw.
    apply lookup_insert_Some in Hk as [[<- <-]|[_ Hk]]; [|by apply Ht].
    destruct (Z.eqb_spec (large_page va) 768) as [E|]; [rewrite E in Hw; simplify_eq/=; by auto|].
    destruct low; [|done]. destruct (Z.eqb_spec (large_page va) 0) as [E|]; [|done]. rewrite E in Hw. simplify_eq/=. auto.
Qed.
Lemma translate_boot low low' t s va : boot_paging low s → boot_tlb low' t → 0 ≤ va < 4294967296 →
  (large_page va = 768 ∨ low = true ∧ large_page va = 0 → translate (set_tlb t s) va = Some (va mod 4194304)) ∧
  (large_page va ≠ 768 → low' = false → low = false → translate (set_tlb t s) va = None).
Proof using Hl.
  intros Hb Ht Hva. pose proof (walk_boot _ _ _ Hb Hva) as Hw. destruct (bp_bits _ _ Hb) as [Hpg _].
  assert (t !! inr (small_page va) = None) as Hs.
  { destruct (t !! inr (small_page va)) as [f|] eqn:E; [|done]. by destruct (Ht _ _ E) as [_ [?|[_ ?]]]. }
  unfold translate. change (m_cr0 (set_tlb t s)) with (m_cr0 s). change (m_tlb (set_tlb t s)) with t. rewrite Hpg, Hs, walk_tlb, Hw. cbn [negb].
  destruct (t !! inl (large_page va)) as [f|] eqn:E.
  - destruct (Ht _ _ E) as [-> Hk]. split; [done|]. intros Hne -> _. destruct Hk as [?|[? _]]; [congruence|done].
  - split.
    + intros [->|[-> ->]]; [|reflexivity]. by rewrite Z.eqb_refl.
    + intros Hne _ ->. by rewrite (proj2 (Z.eqb_neq _ _) Hne).
Qed.
Lemma translate_high low low' t s va : boot_paging low s → boot_tlb low' t → BASE ≤ va < 0xC0400000 →
  translate (set_tlb t s) va = Some (va - BASE).
Proof using Hl.
  intros Hb Ht Hva. unfold BASE in *. assert (0 ≤ va < 4294967296) as Hr by lia.
  destruct (translate_boot _ _ _ _ _ Hb Ht Hr) as [E _]. rewrite E.
  - f_equal. Z.div_mod_to_equations. lia.
  - left. apply large_page_spec. lia.
Qed.

#[local] Abbreviation fetches := (fetches loader_code (loader_addr - BASE)).
Definition any_tlb (t : buffer) : Prop := True.
Lemma fetches_off s : Z.testbit (m_cr0 s) PG = false → fetches (loader_addr - BASE) any_tlb s.
Proof using Hl.
  intros Hpg. destruct (lk_code Hl). unfold BASE. split; [by split|]. split; [lia|]. intros t va _ _. unfold translate.
  change (m_cr0 (set_tlb t s)) with (m_cr0 s). rewrite Hpg. cbn [negb]. f_equal. unfold BASE. lia.
Qed.
Lemma fetches_low s : boot_paging true s → fetches (loader_addr - BASE) (boot_tlb true) s.
Proof using Hl.
  intros Hb. destruct (lk_code Hl) as [Hc1 Hc2]. unfold BASE in *. split; [by eapply boot_closed|]. split; [lia|]. intros t va Ht Hva.
  destruct (translate_boot _ _ _ _ va Hb Ht) as [E _]; [lia|]. rewrite E.
  - f_equal. unfold BASE. Z.div_mod_to_equations. lia.
  - right. split; [done|]. apply large_page_spec. lia.
Qed.
Lemma fetches_high low low' s : boot_paging low s → (low = true → low' = true) → fetches loader_addr (boot_tlb low') s.
Proof using Hl.
  intros Hb Hlow. destruct (lk_code Hl) as [Hc1 Hc2]. split; [by eapply boot_closed|]. split; [lia|]. intros t va Ht Hva.
  rewrite (translate_high _ _ _ _ va Hb Ht) by (unfold BASE; lia). f_equal. lia.
Qed.

(** *** Part one: until paging is on *)

Section parts.
Context (stop : Z) (Q : processor → Prop).
#[local] Abbreviation goes := (reaches loader_at stop Q).
#[local] Abbreviation off k := (code_size (take k loader_code)).

Lemma boot_entries (m : gmap Z Z) : (∀ i, 0 ≤ i < 1024 → m !! (BootPageDirectory - BASE + 4 * i) = boot_directory !! Z.to_nat i) →
  ∀ i, 0 ≤ i < 1024 → m !! (BootPageDirectory - BASE + 4 * i) = Some (if (i =? 768) || (true && (i =? 0)) then 0x83 else 0).
Proof using.
  intros Hd i Hi. rewrite (Hd i Hi). clear Hd. revert i Hi.
  assert (Forall (λ i, boot_directory !! Z.to_nat i = Some (if (i =? 768) || (true && (i =? 0)) then 0x83 else 0)) (seqZ 0 1024)) as Hf
    by (apply (bool_decide_eq_true_1 _); by vm_compute).
  intros i Hi. rewrite Forall_forall in Hf. apply (Hf i). apply elem_of_seqZ. lia.
Qed.

(** The processor before instruction [k]. *)
Definition at_insn (base a b c bp sp c0 c3 c4 : Z) (m : gmap Z Z) (t : buffer) (k : nat) : processor :=
  mkProcessor a b c bp sp (base + off k) c0 c3 c4 m t.
Lemma goes_paging_on s :
  loaded s →
  goes (at_insn loader_addr (m_eax s) (m_ebx s) StartInHigherHalf (m_ebp s) (m_esp s) (Z.lor (m_cr0 s) 0x80000000)
    (BootPageDirectory - BASE) (Z.lor (m_cr4 s) 0x10) (m_mem s) (m_tlb s) 10) (boot_tlb true) → goes s any_tlb.
Proof using Hl.
  destruct s as [a b c bp sp ip c0 c3 c4 m t]. intros [He Hpg Hd _]. cbn [m_eax m_ebx m_ecx m_ebp m_esp m_eip m_cr0 m_cr3 m_cr4 m_mem m_tlb] in *. intros Hgo.
  set (base := loader_addr - BASE) in *.
  assert (ip = base + off 0) as -> by (rewrite take_0; cbn [code_size]; lia).
  assert (∀ s, m_cr0 s = c0 → fetches base any_tlb s) as Hf by (intros s E; apply fetches_off; by rewrite E).
  assert (Z.testbit (Z.lor c0 0x80000000) PG = true) as Hpg1 by (rewrite Z.lor_spec; apply orb_true_r).
  assert (Z.testbit (Z.lor c4 0x10) PSE = true) as Hpse1 by (rewrite Z.lor_spec; apply orb_true_r).
  run_registers 0%nat. run_creg 1%nat any_tlb; [done|]. run_registers 2%nat. run_registers 3%nat. run_creg 4%nat any_tlb; [done|]. run_registers 5%nat. run_registers 6%nat.
  run_creg 7%nat (boot_tlb true).
  { intros t' _. unfold keeps_tlb. cbn [m_cr0]. by rewrite Hpg1, Hpg. }
  assert (∀ s, m_cr0 s = Z.lor c0 0x80000000 → m_cr3 s = BootPageDirectory - BASE → m_cr4 s = Z.lor c4 0x10 → m_mem s = m →
    fetches base (boot_tlb true) s) as Hf2.
  { intros s E0 E3 E4 Em. apply fetches_low. constructor; [by rewrite E0, E4|exact E3|]. rewrite Em. by apply boot_entries. }
  run_registers 8%nat. run_registers 9%nat.
  unfold at_insn in Hgo. replace (loader_addr + off 10) with StartInHigherHalf in Hgo by (rewrite (lk_start Hl); reflexivity). exact Hgo.
Qed.

(** *** Part two: in the higher half *)

(** Words of the stack, and paging while they change. *)
Definition stacked (m : gmap Z Z) : Prop := ∀ a, boot_stack ≤ a < boot_stack + STACKSIZE → a mod 4 = 0 → is_Some (m !! (a - BASE)).
Lemma stacked_insert m a v : stacked m → stacked (<[a := v]> m).
Proof using. intros Hs b Hb Hb4. destruct (decide (a = b - BASE)) as [->|]; [by rewrite lookup_insert_eq|]. rewrite lookup_insert_ne by done. by apply Hs. Qed.
Definition high_mem (low : bool) (m : gmap Z Z) : Prop :=
  stacked m ∧ ∀ i, 0 ≤ i < 1024 → m !! (BootPageDirectory - BASE + 4 * i) = Some (if (i =? 768) || (low && (i =? 0)) then 0x83 else 0).
Lemma high_mem_push low m a v : high_mem low m → boot_stack ≤ a → high_mem low (<[a - BASE := v]> m).
Proof using Hl.
  intros [Hs He] Ha. destruct (lk_stack Hl) as [H1' _]. split; [by apply stacked_insert|]. intros i Hi. rewrite lookup_insert_ne by lia. by apply He.
Qed.
Lemma high_mem_unmap low m : high_mem low m → high_mem false (<[BootPageDirectory - BASE := 0]> m).
Proof using.
  intros [Hs He]. split; [by apply stacked_insert|]. intros i Hi. destruct (decide (i = 0)) as [->|].
  - by rewrite Z.mul_0_r, Z.add_0_r, lookup_insert_eq.
  - rewrite lookup_insert_ne by lia. rewrite (He i Hi). by rewrite (proj2 (Z.eqb_neq i 0)), andb_false_r by done.
Qed.

Section high.
Context (c0 c4 : Z) (Hpg : Z.testbit c0 PG = true) (Hpse : Z.testbit c4 PSE = true).
#[local] Abbreviation high := (at_insn loader_addr).
#[local] Abbreviation pd := (BootPageDirectory - BASE).
#[local] Abbreviation top := (boot_stack + STACKSIZE).

Lemma high_paging low a b c bp sp m t k : high_mem low m → boot_paging low (high a b c bp sp c0 pd c4 m t k).
Proof using Hpg Hpse. by intros [_ He]. Qed.
Lemma high_fetches low low' a b c bp sp m t k : high_mem low m → (low = true → low' = true) →
  fetches loader_addr (boot_tlb low') (high a b c bp sp c0 pd c4 m t k).
Proof using All. intros Hm Hlow. eapply fetches_high; [by apply high_paging|exact Hlow]. Qed.
Lemma high_maps low low' a b c bp sp m t k va : high_mem low m → BASE ≤ va < 0xC0400000 →
  maps (boot_tlb low') (high a b c bp sp c0 pd c4 m t k) va (va - BASE).
Proof using All. intros Hm Hva t' Ht'. eapply translate_high; [by apply high_paging|done..]. Qed.

(** A push within the stack. *)
Lemma high_push k r a b c bp sp m t :
  loader_code !! k = Some (Push_reg r) → high_mem false m → boot_stack + 4 ≤ sp ≤ top → sp mod 4 = 0 →
  goes (high a b c bp (sp - 4) c0 pd c4 (<[sp - 4 - BASE := get_reg r (high a b c bp sp c0 pd c4 m t k)]> m) t (S k)) (boot_tlb false) →
  goes (high a b c bp sp c0 pd c4 m t k) (boot_tlb false).
Proof using All.
  intros Hk Hm Hsp H4 Hgo. destruct (lk_stack Hl) as (? & ? & ?), (lk_dir Hl).
  assert (u32 (sp - 4) = sp - 4) as Eu by (apply u32_small; unfold STACKSIZE in *; lia).
  eapply (goes_push _ _ _ _ k r loader_addr _ _ (sp - 4 - BASE)); [exact Hk|reflexivity|by eapply high_fetches|..]; cbn [m_esp at_insn m_mem].
  - rewrite Eu. eapply high_maps; [done|]. unfold BASE, STACKSIZE in *. lia.
  - rewrite Eu. Z.div_mod_to_equations. lia.
  - apply Hm; [unfold STACKSIZE in *; lia|]. Z.div_mod_to_equations. lia.
  - rewrite Eu. by destruct r.
Qed.
Lemma entered_spec mbd magic a b c bp m t t' :
  high_mem false m → boot_tlb false t' → m !! (top - 12 - BASE) = Some (u32 (mbd + BASE)) →
  m !! (top - 8 - BASE) = Some magic → m !! (top - 4 - BASE) = Some top →
  entered mbd magic (set_tlb t' (mkProcessor a b c bp (top - 16) kernel_main_addr c0 pd c4 m t)).
Proof using All.
  intros Hm Ht A1 A2 A3. destruct (lk_stack Hl) as (Hs1 & Hs2 & Hs3), (lk_dir Hl) as [Hd1 Hd2].
  set (s := mkProcessor _ _ _ _ _ _ _ _ _ _ _). assert (boot_paging false s) as Hb by (by destruct Hm).
  assert (∀ d v, d ≤ 12 → 4 ≤ d → d mod 4 = 0 → m !! (top - d - BASE) = Some v → load (top - d) (set_tlb t' s) = Some v) as Hload.
  { intros d v Hd1' Hd2' Hd4 Hv. eapply (load_word (boot_tlb false)); [done| |clear -Hs3 Hd4; unfold STACKSIZE; Z.div_mod_to_equations; lia|exact Hv].
    intros t1 Ht1. eapply translate_high; [exact Hb|done|]. unfold BASE, STACKSIZE in *. lia. }
  constructor; cbn [set_tlb m_esp s].
  - reflexivity.
  - replace (top - 16 + 4) with (top - 12) by lia. replace (top - 16 + 8) with (top - 8) by lia.
    replace (top - 16 + 12) with (top - 4) by lia. by repeat split; apply Hload.
  - intros va Hva. destruct (translate_boot _ _ _ _ va Hb Ht Hva) as [E1 E2].
    destruct (Z.eqb_spec (large_page va) 768) as [E|]; [|by apply E2]. rewrite E1 by auto. apply large_page_spec in E.
    f_equal. unfold BASE. clear -E. Z.div_mod_to_equations. lia.
Qed.
Lemma goes_unmapped a b c bp sp m t :
  high_mem true m →
  (∀ m1, high_mem false m1 → goes (high a b c bp top c0 pd c4 m1 t 13) (boot_tlb false)) →
  goes (high a b c bp sp c0 pd c4 m t 10) (boot_tlb true).
Proof using All.
  intros Hm Hnext. destruct (lk_stack Hl) as (Hs1 & Hs2 & Hs3), (lk_dir Hl) as [Hd1 Hd2].
  assert (0xC0100000 ≤ boot_stack ∧ STACKSIZE = 16384) as [Hs0 Es] by (split; [lia|reflexivity]).
  eapply (goes_store _ _ _ _ 10 BootPageDirectory 0 loader_addr _ _ pd); [reflexivity|reflexivity|by eapply high_fetches|..].
  { eapply high_maps; [done|]. unfold BASE. lia. }
  { clear -Hd2. Z.div_mod_to_equations. lia. }
  { cbn [at_insn m_mem]. destruct Hm as [_ He]. specialize (He 0 ltac:(lia)). rewrite Z.mul_0_r, Z.add_0_r in He. by eexists. }
  pose proof (high_mem_unmap _ _ Hm) as Hm1. clear Hm.
  enough (goes (high a b c bp sp c0 pd c4 (<[pd := 0]> m) t 11) (boot_tlb true)) as Hgo by exact Hgo.
  set (m1 := <[pd := 0]> m) in *. clearbody m1.
  eapply (goes_next _ _ _ _ 11 (Invlpg 0) loader_addr _ (boot_tlb false) _ (high a b c bp sp c0 pd c4 m1 t 12) (λ t, delete (inl 0) (delete (inr 0) t)));
    [reflexivity|reflexivity|by eapply high_fetches|..].
  { intros t' Ht'. split; [reflexivity|]. intros k f [Hk [_ Hf]%lookup_delete_Some]%lookup_delete_Some.
    destruct (Ht' k f Hf) as [-> [->|[_ ->]]]; [by auto|done]. }
  eapply (goes_registers _ _ _ _ 12); [reflexivity|reflexivity|by eapply high_fetches|reflexivity|].
  enough (goes (high a b c bp top c0 pd c4 m1 t 13) (boot_tlb false)) as Hgo by exact Hgo.
  apply Hnext. exact Hm1.
Qed.
Lemma goes_entered a b c bp m1 t :
  high_mem false m1 → stop = kernel_main_addr → (∀ s, entered b a s → Q s) →
  goes (high a b c bp top c0 pd c4 m1 t 13) (boot_tlb false).
Proof using All.
  intros Hm1 Hstop HQ. destruct (lk_stack Hl) as (Hs1 & Hs2 & Hs3), (lk_dir Hl) as [Hd1 Hd2].
  assert (top mod 4 = 0 ∧ (top - 4) mod 4 = 0 ∧ (top - 4 - 4) mod 4 = 0 ∧ (top - 4 - 4 - 4) mod 4 = 0) as (M0 & M1 & M2 & M3)
    by (unfold STACKSIZE; clear -Hs3; Z.div_mod_to_equations; lia).
  assert (0xC0100000 ≤ boot_stack ∧ STACKSIZE = 16384) as [Hs0 Es] by (split; [lia|reflexivity]).
  eapply high_push; [reflexivity|done|lia|done|]. set (m2 := <[_ := _]> m1).
  assert (high_mem false m2) as Hm2 by (apply high_mem_push; [done|lia]).
  eapply high_push; [reflexivity|done|lia|done|]. set (m3 := <[_ := _]> m2).
  assert (high_mem false m3) as Hm3 by (apply high_mem_push; [done|lia]).
  eapply (goes_registers _ _ _ _ 15); [reflexivity|reflexivity|by eapply high_fetches|reflexivity|].
  enough (goes (high a (u32 (b + BASE)) c bp (top - 4 - 4) c0 pd c4 m3 t 16) (boot_tlb false)) as Hgo by exact Hgo.
  eapply high_push; [reflexivity|done|lia|done|]. set (m4 := <[_ := _]> m3).
  assert (high_mem false m4) as Hm4 by (apply high_mem_push; [done|lia]).
  assert (u32 (top - 4 - 4 - 4 - 4) = top - 16) as Eu by (rewrite u32_small; lia).
  eapply (goes_call _ _ _ _ 17 kernel_main_addr loader_addr _ _ (top - 16 - BASE)); [reflexivity|reflexivity|by eapply high_fetches|..];
    change (m_esp (high a (u32 (b + BASE)) c bp (top - 4 - 4 - 4) c0 pd c4 m4 t 17)) with (top - 4 - 4 - 4); rewrite ?Eu.
  { eapply high_maps; [done|]. unfold BASE. lia. }
  { clear -M0. Z.div_mod_to_equations. lia. }
  { apply Hm4; [lia|]. clear -M0. Z.div_mod_to_equations. lia. }
  set (m5 := <[_ := _]> (m_mem _)). assert (high_mem false m5) as Hm5 by (apply high_mem_push; [done|lia]).
  assert (boot_paging false (set_m_eip kernel_main_addr (set_reg Esp (top - 16) (set_m_mem m5 (high a (u32 (b + BASE)) c bp (top - 4 - 4 - 4) c0 pd c4 m4 t 17))))) as Hb
    by (by destruct Hm5).
  apply reaches_done; [by eapply boot_closed|by symmetry|]. intros t' Ht'. apply HQ.
  apply (entered_spec b a a (u32 (b + BASE)) c bp m5 t t'); [done|done|..]; unfold m5; cbn [m_mem at_insn]; unfold m4, m3, m2.
  - rewrite lookup_insert_ne by lia. replace (top - 12 - BASE) with (top - 4 - 4 - 4 - BASE) by lia. by rewrite lookup_insert_eq.
  - rewrite !lookup_insert_ne by lia. replace (top - 8 - BASE) with (top - 4 - 4 - BASE) by lia. by rewrite lookup_insert_eq.
  - rewrite !lookup_insert_ne by lia. by rewrite lookup_insert_eq.
Qed.
End high.
End parts.

(** C16. From the state the boot loader leaves to the first instruction of [kernel_main],
    whatever the translation buffer keeps, drops or fetches on the way: the processor never
    gets stuck, and in [kernel_main] the arguments and the memory are as said. *)
Theorem loader_enters_kernel s s' :
  loaded s → rtc (cpu_step loader_at kernel_main_addr) s s' →
  ∃ n s'', run n loader_at s' = Some s'' ∧ m_eip s'' = kernel_main_addr ∧ entered (m_ebx s) (m_eax s) s''.
Proof using Hl.
  intros Hs Hr. destruct (Hs) as [_ _ Hd Hst]. eapply (reaches_all _ _ (entered (m_ebx s) (m_eax s)) s any_tlb (m_tlb s)); [|done|by destruct s].
  assert (Z.testbit (Z.lor (m_cr0 s) 0x80000000) PG = true) as Hpg by (rewrite Z.lor_spec; apply orb_true_r).
  assert (Z.testbit (Z.lor (m_cr4 s) 0x10) PSE = true) as Hpse by (rewrite Z.lor_spec; apply orb_true_r).
  apply goes_paging_on; [exact Hs|]. apply goes_unmapped; [exact Hpg|exact Hpse|split; [exact Hst|by apply boot_entries]|].
  intros m1 Hm1. by apply goes_entered.
Qed.
End loader.

(** The header is what the Multiboot standard asks for: the words add up to nothing. *)
Lemma header_checksum : u32 (foldr Z.add 0 MultiBootHeader) = 0 ∧ MultiBootHeader !! 0%nat = Some 0x1BADB002.
Proof. by vm_compute. Qed.

(** ** A machine: the lengths of the instructions, a link map and an image in memory *)

Definition x86_len (i : insn) : Z :=
  match i with
  | Mov_imm _ _ | Call _ => 5 | Mov_reg _ _ | Jmp _ => 2 | Mov_load _ _ _ | Mov_to _ _ | Mov_from _ _ => 3
  | Mov_store _ _ => 10 | Or_imm _ v => if v <? 128 then 3 else 6 | Add_imm _ _ | Lea _ _ => 6 | Invlpg _ => 7
  | Push_reg _ | Pop_reg _ | Ret | Hlt => 1
  end.
Lemma x86_len_bound i : 1 ≤ x86_len i ≤ 15.
Proof. destruct i as [| | | | | |r v| | | | | | | | |]; simpl; try lia. by destruct (v <? 128). Qed.
Definition x86 : Assembler := {| insn_len := x86_len; insn_len_bound := x86_len_bound |}.
Definition link0 : BootLink :=
  {| loader_addr := 0xC010000C; StartInHigherHalf := 0xC0100031; kernel_main_addr := 0xC0101000; BootPageDirectory := 0xC0110000;
     boot_stack := 0xC0124000; loadPageDir_addr := 0xC0102000 |}.
#[local] Existing Instances x86 link0.

Definition boot_image : gmap Z Z := with_words 0x110000 boot_directory (with_words 0x124000 (replicate 4096 0) ∅).
Definition at_boot : processor := mkProcessor 0x2BADB002 0x9500 0 0 0x7FF0 0x10000C 0x11 0 0 boot_image {[inl 0 := 0x400000]}.

Lemma link0_linked : linked.
Proof. by constructor; vm_compute. Qed.
Lemma at_boot_loaded : loaded at_boot.
Proof.
  constructor; [done|done|..]; change (m_mem at_boot) with boot_image; unfold boot_image.
  - intros i Hi. change (BootPageDirectory - KERNEL_VIRTUAL_BASE) with 0x110000.
    rewrite <-(Z2Nat.id i) at 1 by lia. apply with_words_at. change (length boot_directory) with 1024%nat. lia.
  - cbn [boot_stack link0]. unfold STACKSIZE, KERNEL_VIRTUAL_BASE. intros a Ha Ha4. exists 0.
    rewrite with_words_other by (change (length boot_directory) with 1024%nat; lia).
    apply with_words_stack; Z.div_mod_to_equations; lia.
Qed.
(** The buffer has lost its stale entry before the first instruction. *)
Lemma loader_enters_kernel_witness :
  ∃ n s, run n (place_code 0x10000C loader_code) (set_tlb ∅ at_boot) = Some s ∧ m_eip s = 0xC0101000 ∧
    load (m_esp s + 4) s = Some 0xC0009500 ∧ load (m_esp s + 8) s = Some 0x2BADB002 ∧ translate s 0xB8000 = None ∧ translate s 0xC00B8000 = Some 0xB8000.
Proof.
  destruct (loader_enters_kernel link0_linked at_boot (set_tlb ∅ at_boot) at_boot_loaded) as (n & s & E & He & [_ (A1 & A2 & _) Hm]).
  - apply rtc_once, cpu_hardware. exact (hw_drop at_boot (inl 0)).
  - exists n, s. split; [exact E|]. split; [exact He|]. split; [exact A1|]. split; [exact A2|].
    split; [by rewrite Hm by lia|]. by rewrite Hm by lia.
Defined.
