(* ===== verification/Mmu.v ===== *)
(** * Switching to the kernel's page directory (mm/enable_paging.asm, mm/paging.c)

    [init_paging] fills a directory and a table in memory and calls [loadPageDir], which
    runs and returns while the processor changes from the four-megabyte page of the loader
    to these. What the processor translates an address to is then what [get_phys_addr]
    computes for it. *)

From S2P Require Import Prelude Paging Loader.

Section mmu.
Context `{Assembler} `{BootLink} `{Layout}.
#[local] Abbreviation BASE := KERNEL_VIRTUAL_BASE.

(** ** Specification *)

(** The tables of [Paging.v] are in memory, [n] pages mapped. *)
Record in_memory (p : paging) (n : Z) (m : gmap Z Z) : Prop := {
  im_tables : tables_repr p n;
  im_words : ∀ a l i v, a = kernel_page_dir ∨ a = first_page_table → tables p !! a = Some l → l !! i = Some v → m !! (a - BASE + 4 * Z.of_nat i) = Some v }.
(** The linker placed both in the first four megabytes, the directory on a page. *)
Record tables_linked : Prop := {
  tl_dir : BASE ≤ kernel_page_dir ∧ kernel_page_dir mod 4096 = 0 ∧ kernel_page_dir + 4096 ≤ 0xC0400000;
  tl_table : first_page_table + 4096 ≤ 0xC0400000 }.
(** The call [loadPageDir(kernel_page_dir - KERNEL_VIRTUAL_BASE)], to return to [ra]: code
    and stack are among the [n] pages, and the word that is pushed is in none of the
    tables. *)
Record calling (p : paging) (n ra : Z) (s : processor) : Prop := {
  ca_eip : m_eip s = loadPageDir_addr;
  ca_code : BASE ≤ loadPageDir_addr ∧ loadPageDir_addr + code_size loadPageDir_code < BASE + n * 4096;
  ca_stack : BASE + 4 ≤ m_esp s ∧ m_esp s + 8 ≤ BASE + n * 4096 ∧ m_esp s mod 4 = 0;
  ca_words : is_Some (m_mem s !! (m_esp s - 4 - BASE)) ∧ m_mem s !! (m_esp s - BASE) = Some ra ∧
    m_mem s !! (m_esp s + 4 - BASE) = Some (kernel_page_dir - BASE);
  ca_apart : ∀ a, a = kernel_page_dir ∨ a = first_page_table ∨ a = BootPageDirectory → m_esp s ≤ a ∨ a + 4096 ≤ m_esp s - 4 }.
(** What an address translates to. *)
Definition mmu_is (p : paging) (s : processor) : Prop :=
  ∀ va, 0 ≤ va < 4294967296 → translate s va = match get_phys_addr kernel_page_dir va p with Ok pa _ => Some pa | _ => None end.
(** The return: the registers of the caller but eax, and the new translation. *)
Record returned (p : paging) (s s' : processor) : Prop := {
  re_registers : m_ebx s' = m_ebx s ∧ m_ecx s' = m_ecx s ∧ m_ebp s' = m_ebp s ∧ m_esp s' = m_esp s + 4;
  re_cr3 : m_cr3 s' = kernel_page_dir - BASE;
  re_mmu : mmu_is p s' }.

(** ** Lemmas *)

Context (Hl : linked) (Ht : tables_linked) (p : paging) (n : Z).

Record kernel_paging (s : processor) : Prop := {
  kp_on : Z.testbit (m_cr0 s) PG = true;
  kp_dir : m_cr3 s = kernel_page_dir - BASE;
  kp_memory : in_memory p n (m_mem s) }.
Definition kernel_tlb (t : buffer) : Prop :=
  ∀ k f, t !! k = Some f → ∃ i, 0 ≤ i < n ∧ k = inr (786432 + i) ∧ f = i * 4096.
Definition in_pages (va : Z) : bool := (BASE <=? va) && (va <? BASE + n * 4096).

Lemma entry_bits x k : 0 ≤ x → 0 ≤ k < 12 → Z.testbit (x * 4096 + 7) k = (k <? 3).
Proof using.
  intros Hx Hk. rewrite <-(Z.mod_pow2_bits_low _ 12) by lia. change (2 ^ 12) with 4096.
  replace ((x * 4096 + 7) mod 4096) with 7 by (Z.div_mod_to_equations; lia).
  assert (k = 0 ∨ k = 1 ∨ k = 2 ∨ k = 3 ∨ k = 4 ∨ k = 5 ∨ k = 6 ∨ k = 7 ∨ k = 8 ∨ k = 9 ∨ k = 10 ∨ k = 11) as Hc by lia.
  by repeat destruct Hc as [->|Hc]; [..|rewrite Hc].
Qed.
Lemma page_number va : Z.land (small_page va) 0x3FF = va / 4096 mod 1024.
Proof using. unfold small_page. change 0x3FF with (Z.ones 10). by rewrite Z.land_ones, Z.shiftr_div_pow2. Qed.
Lemma small_page_spec va : small_page va = va / 4096.
Proof using. unfold small_page. by rewrite Z.shiftr_div_pow2. Qed.

Lemma walk_kernel s va : kernel_paging s → 0 ≤ va < 4294967296 →
  walk s va = if in_pages va then Some (inr (small_page va), (va - BASE) / 4096 * 4096) else None.
Proof using Hl Ht.
  intros [_ Hcr [[Hd Htb Hn] Hw]] Hva. destruct (tl_dir Ht) as (D1 & D2 & D3), layout_high as [T1 T2]. pose proof layout_aligned as T3.
  pose proof (tl_table Ht) as T4. unfold walk. rewrite Hcr, land_pages by (unfold BASE in *; Z.div_mod_to_equations; lia).
  assert (large_page va = va / 4194304) as -> by (unfold large_page; by rewrite Z.shiftr_div_pow2).
  assert (0 ≤ va / 4194304 < 1024) as Hi by (Z.div_mod_to_equations; lia).
  destruct (decide (va / 4194304 = 768)) as [E|Hne].
  - rewrite E. pose proof (Hw _ _ 768%nat (first_page_table - BASE + 7) (or_introl eq_refl) Hd eq_refl) as Hw1. change (Z.of_nat 768) with 768 in Hw1.
    rewrite Hw1. cbn [mbind option_bind].
    set (e := first_page_table - BASE + 7). replace e with ((first_page_table - BASE) / 4096 * 4096 + 7)
      by (unfold e, BASE in *; Z.div_mod_to_equations; lia).
    rewrite !entry_bits by (unfold BASE in *; Z.div_mod_to_equations; lia). change (0 <? 3) with true. cbn [negb].
    rewrite frame_bits by (unfold BASE in *; Z.div_mod_to_equations; lia). rewrite page_number.
    change (7 <? 3) with false. cbn [andb].
    match goal with |- context [m_mem s !! (?x + _)] => replace x with (first_page_table - BASE) by (unfold BASE in *; Z.div_mod_to_equations; lia) end.
    set (j := va / 4096 mod 1024). assert (0 ≤ j < 1024) as Hj by (apply Z.mod_pos_bound; lia).
    pose proof (Hw _ _ _ _ (or_intror eq_refl) Htb (identity_table_lookup n j Hn Hj)) as Hw2. rewrite Z2Nat.id in Hw2 by lia. rewrite Hw2. cbn [mbind option_bind].
    assert (in_pages va = (j <? n)) as ->.
    { unfold in_pages, j, BASE. destruct (Z.ltb_spec (va / 4096 mod 1024) n), (Z.leb_spec 3221225472 va), (Z.ltb_spec va (3221225472 + n * 4096));
        try done; exfalso; Z.div_mod_to_equations; lia. }
    destruct (Z.ltb_spec j n); [|by rewrite Z.bits_0].
    rewrite entry_bits, frame_bits by lia. change (0 <? 3) with true. do 2 f_equal. unfold j, BASE. Z.div_mod_to_equations. lia.
  - assert (kernel_dir !! Z.to_nat (va / 4194304) = Some 2) as Hk.
    { unfold kernel_dir. rewrite list_lookup_insert_ne by (change KERNEL_PAGE_NUMBER with 768; lia). apply lookup_replicate_2. lia. }
    pose proof (Hw _ _ _ _ (or_introl eq_refl) Hd Hk) as Hw2. rewrite Z2Nat.id in Hw2 by lia. rewrite Hw2. cbn [mbind option_bind]. change (Z.testbit 2 0) with false. cbn [negb].
    assert (in_pages va = false) as ->; [|done]. unfold in_pages, BASE.
    destruct (Z.leb_spec 3221225472 va), (Z.ltb_spec va (3221225472 + n * 4096)); try done. exfalso. Z.div_mod_to_equations. lia.
Qed.
Lemma in_pages_spec va : in_pages va = true ↔ BASE ≤ va < BASE + n * 4096.
Proof using. unfold in_pages. by rewrite andb_true_iff, Z.leb_le, Z.ltb_lt. Qed.
Lemma page_facts va : in_pages va = true → 0 ≤ (va - BASE) / 4096 < n ∧ small_page va = 786432 + (va - BASE) / 4096.
Proof using. rewrite in_pages_spec, small_page_spec. unfold BASE. intros Hva. Z.div_mod_to_equations. lia. Qed.

Lemma kernel_closed s : kernel_paging s → closed kernel_tlb s.
Proof using Hl Ht.
  intros Hk. split.
  - intros t k Hok k' f [_ Hf]%lookup_delete_Some. by apply Hok.
  - intros t va k f Hok _ Hva Hw k' f' Hf. rewrite (walk_kernel _ _ Hk Hva) in Hw. destruct (in_pages va) eqn:E; [|done]. simplify_eq.
    apply lookup_insert_Some in Hf as [[<- <-]|[_ Hf]]; [|by apply Hok].
    destruct (page_facts _ E) as [Hb ->]. by eexists.
Qed.
Lemma translate_kernel s t va : kernel_paging s → kernel_tlb t → 0 ≤ va < 4294967296 →
  translate (set_tlb t s) va = if in_pages va then Some (va - BASE) else None.
Proof using Hl Ht.
  intros Hk Hok Hva. pose proof (walk_kernel _ _ Hk Hva) as Hw. unfold translate.
  change (m_cr0 (set_tlb t s)) with (m_cr0 s). change (m_tlb (set_tlb t s)) with t. rewrite (kp_on _ Hk), walk_tlb, Hw. cbn [negb].
  assert (t !! inl (large_page va) = None) as ->.
  { destruct (t !! inl (large_page va)) as [f|] eqn:E; [|done]. by destruct (Hok _ _ E) as (? & _ & ? & _). }
  assert (in_pages va = true → (va - BASE) / 4096 * 4096 + va mod 4096 = va - BASE) as Hin.
  { rewrite in_pages_spec. unfold BASE. intros Hv. Z.div_mod_to_equations. lia. }
  destruct (t !! inr (small_page va)) as [f|] eqn:E.
  - destruct (Hok _ _ E) as (i & Hi & Hp & ->). injection Hp as Hp. rewrite small_page_spec in Hp.
    assert (in_pages va = true) as Hv by (apply in_pages_spec; unfold BASE; Z.div_mod_to_equations; lia).
    rewrite Hv. f_equal. rewrite <-(Hin Hv). do 2 f_equal. unfold BASE. clear -Hp. Z.div_mod_to_equations. lia.
  - destruct (in_pages va); [|done]. cbn [mbind option_bind offset_in]. by rewrite Hin.
Qed.
Lemma kernel_mmu s t : kernel_paging s → kernel_tlb t → mmu_is p (set_tlb t s).
Proof using Hl Ht.
  intros Hk Hok va Hva. rewrite (translate_kernel _ _ _ Hk Hok Hva).
  rewrite (get_phys_addr_spec p n va (im_tables _ _ _ (kp_memory _ Hk))) by (change (2 ^ 32) with 4294967296; lia).
  destruct (im_tables _ _ _ (kp_memory _ Hk)) as [_ _ Hn]. unfold in_pages.
  destruct (Z.leb_spec BASE va), (Z.ltb_spec va (BASE + n * 4096)), (Z.ltb_spec va (BASE + 0x400000)); try done. lia.
Qed.

(** A word pushed outside of the tables. *)
Lemma in_memory_push m a v :
  in_memory p n m → (∀ t, t = kernel_page_dir ∨ t = first_page_table → a + 4 ≤ t ∨ t + 4096 ≤ a) →
  in_memory p n (<[a - BASE := v]> m).
Proof using.
  intros [Htb Hw] Ha. constructor; [exact Htb|]. intros t l i w Hor Hl' Hi.
  assert (0 ≤ Z.of_nat i < 1024) as Hr.
  { apply lookup_lt_Some in Hi. destruct Htb as [Hd Hb Hn]. destruct Hor as [->| ->].
    - rewrite Hd in Hl'. simplify_eq. unfold kernel_dir in Hi. rewrite length_insert, length_replicate in Hi. lia.
    - rewrite Hb in Hl'. simplify_eq. rewrite identity_table_length in Hi by done. lia. }
  destruct (Ha t Hor); rewrite lookup_insert_ne by lia; by eapply Hw.
Qed.
Lemma boot_paging_push s m a v :
  boot_paging false s → m = <[a - BASE := v]> (m_mem s) → a + 4 ≤ BootPageDirectory ∨ BootPageDirectory + 4096 ≤ a →
  boot_paging false (set_m_mem m s).
Proof using.
  intros [Hb Hcr He] -> Ha. constructor; [exact Hb|exact Hcr|]. intros i Hi. cbn [set_m_mem m_mem]. rewrite lookup_insert_ne by lia. by apply He.
Qed.

(** ** The run *)

Section call.
Context (ra : Z) (Q : processor → Prop).
#[local] Abbreviation code := loadPageDir_code.
#[local] Abbreviation phys := (loadPageDir_addr - BASE).
#[local] Abbreviation goes := (reaches (place_code phys code) ra Q).
#[local] Abbreviation off k := (code_size (take k code)).
Context (Hn : 0 ≤ n ≤ 1024) (Hcode : BASE ≤ loadPageDir_addr ∧ loadPageDir_addr + code_size code < BASE + n * 4096).

Lemma fetches_boot s : boot_paging false s → fetches code phys loadPageDir_addr (boot_tlb false) s.
Proof using Hl Hcode Hn.
  intros Hb. split; [by eapply boot_closed|]. unfold BASE in *. split; [lia|]. intros t va Hok Hva.
  rewrite (translate_high Hl _ _ _ _ va Hb Hok) by (unfold BASE; lia). f_equal. unfold BASE. lia.
Qed.
Lemma fetches_kernel s : kernel_paging s → fetches code phys loadPageDir_addr kernel_tlb s.
Proof using Hl Ht Hcode Hn.
  intros Hk. split; [by apply kernel_closed|]. unfold BASE in *. split; [lia|]. intros t va Hok Hva.
  rewrite (translate_kernel _ _ _ Hk Hok) by lia. rewrite (proj2 (in_pages_spec va)) by (unfold BASE; lia). f_equal. unfold BASE. lia.
Qed.

(** The processor before instruction [k]. *)
Definition at_call (a b c bp sp c0 c3 c4 : Z) (m : gmap Z Z) (t : buffer) (k : nat) : processor :=
  mkProcessor a b c bp sp (loadPageDir_addr + off k) c0 c3 c4 m t.

(** Under the new directory: the registers are popped and the call returns. *)
Lemma goes_return a b c bp sp c0 c4 m t :
  Z.testbit c0 PG = true → in_memory p n m → BASE ≤ sp → sp + 12 ≤ BASE + n * 4096 → sp mod 4 = 0 →
  m !! (sp - BASE) = Some bp → m !! (sp + 4 - BASE) = Some ra →
  (∀ s t', kernel_paging s → kernel_tlb t' → m_ebx s = b → m_ecx s = c → m_ebp s = bp → m_esp s = sp + 8 → Q (set_tlb t' s)) →
  goes (at_call a b c sp sp c0 (kernel_page_dir - BASE) c4 m t 4) kernel_tlb.
Proof using Hl Ht Hn Hcode.
  intros Hpg Hm Hs1 Hs2 Hs4 Hw1 Hw2 HQ.
  assert (∀ a' bp' sp' t' k, kernel_paging (at_call a' b c bp' sp' c0 (kernel_page_dir - BASE) c4 m t' k)) as Hk by by intros.
  assert (u32 (sp + 4) = sp + 4 ∧ u32 (sp + 4 + 4) = sp + 8) as [U1 U2].
  { unfold BASE in *. split; rewrite u32_small by lia; lia. }
  assert ((sp + 4) mod 4 = 0) as Hs5 by (clear -Hs4; Z.div_mod_to_equations; lia).
  assert (∀ a' bp' sp' t' k va, BASE ≤ va < BASE + n * 4096 →
    maps kernel_tlb (at_call a' b c bp' sp' c0 (kernel_page_dir - BASE) c4 m t' k) va (va - BASE)) as Hmaps.
  { intros a' bp' sp' t' k va Hva t1 Ht1. rewrite (translate_kernel _ _ _ (Hk _ _ _ _ _) Ht1) by (unfold BASE in *; lia).
    by rewrite (proj2 (in_pages_spec va)). }
  eapply (goes_registers _ _ _ _ 4); [reflexivity|reflexivity|by apply fetches_kernel, Hk|reflexivity|].
  enough (goes (at_call a b c sp sp c0 (kernel_page_dir - BASE) c4 m t 5) kernel_tlb) as Hgo by exact Hgo.
  eapply (goes_pop _ _ _ _ 5 Ebp loadPageDir_addr _ _ (sp - BASE) bp); [reflexivity|reflexivity|by apply fetches_kernel, Hk|apply Hmaps; lia|exact Hs4|exact Hw1|].
  enough (goes (at_call a b c bp (sp + 4) c0 (kernel_page_dir - BASE) c4 m t 6) kernel_tlb) as Hgo.
  { unfold at_call in Hgo. rewrite <-U1 in Hgo. exact Hgo. }
  eapply (goes_ret _ _ _ _ 6 loadPageDir_addr _ _ (sp + 4 - BASE) ra); [reflexivity|reflexivity|by apply fetches_kernel, Hk|apply Hmaps; cbn; lia|exact Hs5|exact Hw2|].
  set (s1 := set_m_eip ra _). assert (kernel_paging s1) as Hk1 by done.
  apply reaches_done; [by apply kernel_closed|done|]. intros t' Ht'. by apply HQ.
Qed.

(** Under the directory of the loader: ebp is pushed, the argument loaded, the directory
    switched. *)
Lemma goes_switch a b c bp sp c0 c4 m t :
  boot_paging false (at_call a b c bp sp c0 (BootPageDirectory - BASE) c4 m t 0) →
  BASE + 4 ≤ sp → sp + 8 ≤ BASE + n * 4096 → sp mod 4 = 0 → is_Some (m !! (sp - 4 - BASE)) →
  m !! (sp + 4 - BASE) = Some (kernel_page_dir - BASE) → sp ≤ BootPageDirectory ∨ BootPageDirectory + 4096 ≤ sp - 4 →
  goes (at_call (kernel_page_dir - BASE) b c (sp - 4) (sp - 4) c0 (kernel_page_dir - BASE) c4 (<[sp - 4 - BASE := bp]> m) t 4) kernel_tlb →
  goes (at_call a b c bp sp c0 (BootPageDirectory - BASE) c4 m t 0) (boot_tlb false).
Proof using Hl Ht Hn Hcode.
  intros Hb Hs1 Hs2 Hs4 Hw Harg Hbp Hgo. set (m1 := <[sp - 4 - BASE := bp]> m) in *.
  assert (∀ a' bp' sp' k, boot_paging false (at_call a' b c bp' sp' c0 (BootPageDirectory - BASE) c4 m1 t k)) as Hb1.
  { intros a' bp' sp' k. pose proof (boot_paging_push _ m1 (sp - 4) bp Hb eq_refl ltac:(lia)) as [B1 B2 B3]. by constructor. }
  assert (u32 (sp - 4) = sp - 4 ∧ u32 (sp - 4 + 8) = sp + 4) as [U1 U2].
  { unfold BASE in *. split; rewrite u32_small by lia; lia. }
  assert ((sp - 4) mod 4 = 0 ∧ (sp + 4) mod 4 = 0) as [Hs5 Hs6] by (clear -Hs4; split; Z.div_mod_to_equations; lia).
  eapply (goes_push _ _ _ _ 0 Ebp loadPageDir_addr _ _ (sp - 4 - BASE)); [reflexivity|reflexivity|by apply fetches_boot| | |exact Hw|].
  { cbn [m_esp at_call]. rewrite U1. intros t' Ht'. apply (translate_high Hl _ _ _ _ (sp - 4) Hb Ht'). unfold BASE in *. lia. }
  { cbn [m_esp at_call]. by rewrite U1. }
  enough (goes (at_call a b c bp (sp - 4) c0 (BootPageDirectory - BASE) c4 m1 t 1) (boot_tlb false)) as Hgo1.
  { unfold at_call in Hgo1. rewrite <-U1 in Hgo1. exact Hgo1. }
  eapply (goes_registers _ _ _ _ 1); [reflexivity|reflexivity|by apply fetches_boot|reflexivity|].
  enough (goes (at_call a b c (sp - 4) (sp - 4) c0 (BootPageDirectory - BASE) c4 m1 t 2) (boot_tlb false)) as Hgo1 by exact Hgo1.
  eapply (goes_load _ _ _ _ 2 Eax Ebp 8 loadPageDir_addr _ _ (sp + 4 - BASE) (kernel_page_dir - BASE)); [reflexivity|reflexivity|by apply fetches_boot|..].
  { cbn [get_reg m_ebp at_call]. rewrite U2. intros t' Ht'. apply (translate_high Hl _ _ _ _ (sp + 4) (Hb1 _ _ _ _) Ht'). unfold BASE in *. lia. }
  { cbn [get_reg m_ebp at_call]. by rewrite U2. }
  { cbn [m_mem at_call]. unfold m1. rewrite lookup_insert_ne by lia. exact Harg. }
  enough (goes (at_call (kernel_page_dir - BASE) b c (sp - 4) (sp - 4) c0 (BootPageDirectory - BASE) c4 m1 t 3) (boot_tlb false)) as Hgo1 by exact Hgo1.
  eapply (goes_creg _ _ _ _ 3 Cr3 Eax loadPageDir_addr _ kernel_tlb); [reflexivity|reflexivity|by apply fetches_boot| |exact Hgo].
  intros t' _. by cbn [keeps_tlb].
Qed.
End call.

(** ** Theorem *)

(** C17. [loadPageDir], called under the loader's page with the tables of [init_paging] in memory,
    returns under them, whatever the translation buffer keeps, drops or fetches on the way;
    from then on the processor translates every address as [get_phys_addr] does. *)
Theorem loadPageDir_returns ra s s' :
  boot_paging false s → boot_tlb false (m_tlb s) → in_memory p n (m_mem s) → calling p n ra s →
  rtc (cpu_step (place_code (loadPageDir_addr - BASE) loadPageDir_code) ra) s s' →
  ∃ k s'', run k (place_code (loadPageDir_addr - BASE) loadPageDir_code) s' = Some s'' ∧ m_eip s'' = ra ∧ returned p s s''.
Proof using Hl Ht.
  intros Hb Htlb Hm [He Hcode (Hs1 & Hs2 & Hs4) (Hw1 & Hw2 & Hw3) Ha] Hr. pose proof (tr_n _ _ (im_tables _ _ _ Hm)) as Hn.
  eapply (reaches_all _ _ (returned p s) s (boot_tlb false) (m_tlb s)); [|done|by destruct s].
  destruct s as [a b c bp sp ip c0 c3 c4 m t]. cbn [m_eax m_ebx m_ecx m_ebp m_esp m_eip m_cr0 m_cr3 m_cr4 m_mem m_tlb] in *. subst ip.
  pose proof (bp_dir _ _ Hb) as Hc3. cbn [m_cr3] in Hc3. subst c3. destruct (bp_bits _ _ Hb) as [Hpg _].
  assert (∀ t', t' = kernel_page_dir ∨ t' = first_page_table → sp - 4 + 4 ≤ t' ∨ t' + 4096 ≤ sp - 4) as Hap.
  { intros t' [->| ->]; [destruct (Ha kernel_page_dir); [by auto|..]|destruct (Ha first_page_table); [by auto|..]]; lia. }
  enough (reaches (place_code (loadPageDir_addr - BASE) loadPageDir_code) ra (returned p (at_call a b c bp sp c0 (BootPageDirectory - BASE) c4 m t 0))
    (at_call a b c bp sp c0 (BootPageDirectory - BASE) c4 m t 0) (boot_tlb false)) as Hgo.
  { unfold at_call in Hgo. rewrite take_0, Z.add_0_r in Hgo. exact Hgo. }
  apply goes_switch; try done.
  - by destruct Hb.
  - destruct (Ha BootPageDirectory); [by auto|lia..].
  - assert (in_memory p n (<[sp - 4 - BASE := bp]> m)) as Hm1 by (by apply in_memory_push).
    apply (goes_return ra _ Hn Hcode _ _ _ bp); [done|done|lia|lia|clear -Hs4; Z.div_mod_to_equations; lia|by rewrite lookup_insert_eq| |].
    + rewrite lookup_insert_ne by lia. by replace (sp - 4 + 4 - BASE) with (sp - BASE) by lia.
    + intros s1 t1 Hk Ht1 E1 E2 E3 E4. constructor; [|exact (kp_dir _ Hk)|by apply kernel_mmu].
      cbn [m_ebx m_ecx m_ebp m_esp set_tlb at_call]. rewrite E1, E2, E3, E4. split_and!; [done..|lia].
Qed.
End mmu.

(** ** A machine whose kernel has 512 pages *)

Definition layout1 : Layout := Build_Layout 0xC0105000 0xC0106000 layout0_ne eq_refl layout0_high.
#[local] Existing Instances x86 link0 layout1.
Definition paging1 : paging := mkPaging {[0xC0105000 := kernel_dir; 0xC0106000 := identity_table 512]} KERNEL_PAGE_NUMBER 0 0.
Definition unmapped_directory : list Z := <[0%nat := 0]> boot_directory.
(** The stack is at 0xC0127FEC: the return address and the argument. *)
Definition mmu_image : gmap Z Z :=
  with_words 0x110000 unmapped_directory (with_words 0x105000 kernel_dir (with_words 0x106000 (identity_table 512)
    (with_words 0x127FE8 [0; 0xC0103000; 0x105000] ∅))).
Definition at_load : processor :=
  mkProcessor 1 2 3 4 0xC0127FEC 0xC0102000 0x80000011 0x110000 0x10 mmu_image {[inl 768 := 0]}.

Lemma length_kernel_dir : length kernel_dir = 1024%nat.
Proof. by vm_compute. Qed.
Lemma length_unmapped : length unmapped_directory = 1024%nat.
Proof. by vm_compute. Qed.
Lemma length_identity : length (identity_table 512) = 1024%nat.
Proof. by vm_compute. Qed.
Lemma paging1_tables : tables_repr paging1 512.
Proof. by constructor; [apply lookup_insert_eq|by vm_compute|]. Qed.
Lemma at_load_memory : in_memory paging1 512 mmu_image.
Proof.
  constructor; [exact paging1_tables|]. destruct paging1_tables as [Hd Htb _]. intros a l i v Ha Hp Hi. unfold mmu_image.
  destruct Ha as [->| ->]; [rewrite Hd in Hp|rewrite Htb in Hp]; injection Hp as <-; pose proof (lookup_lt_Some _ _ _ Hi) as Hlt;
    [rewrite length_kernel_dir in Hlt|rewrite length_identity in Hlt].
  - change (kernel_page_dir - KERNEL_VIRTUAL_BASE) with 0x105000. rewrite with_words_other by (rewrite length_unmapped; lia).
    by rewrite with_words_at by by rewrite length_kernel_dir.
  - change (first_page_table - KERNEL_VIRTUAL_BASE) with 0x106000. rewrite with_words_other by (rewrite length_unmapped; lia).
    rewrite with_words_other by (rewrite length_kernel_dir; lia). by rewrite with_words_at by by rewrite length_identity.
Qed.
Lemma at_load_boot : boot_paging false at_load.
Proof.
  constructor; [by split; vm_compute|done|]. change (m_mem at_load) with mmu_image. unfold mmu_image. intros i Hi.
  change (BootPageDirectory - KERNEL_VIRTUAL_BASE) with 0x110000. rewrite <-(Z2Nat.id i) at 1 by lia.
  rewrite with_words_at by (rewrite length_unmapped; lia). revert i Hi.
  assert (Forall (λ i, unmapped_directory !! Z.to_nat i = Some (if (i =? 768) || (false && (i =? 0)) then 0x83 else 0)) (seqZ 0 1024)) as Hf
    by (apply (bool_decide_eq_true_1 _); by vm_compute).
  intros i Hi. rewrite Forall_forall in Hf. apply Hf, elem_of_seqZ. lia.
Qed.
Lemma at_load_calling : calling paging1 512 0xC0103000 at_load.
Proof.
  constructor; [done|by split; vm_compute|by split_and!; vm_compute|..].
  - change (m_mem at_load) with mmu_image. change (m_esp at_load) with 0xC0127FEC. unfold mmu_image, KERNEL_VIRTUAL_BASE.
    rewrite !(with_words_other unmapped_directory) by (rewrite length_unmapped; lia). rewrite !(with_words_other kernel_dir) by (rewrite length_kernel_dir; lia).
    rewrite !(with_words_other (identity_table 512)) by (rewrite length_identity; lia). by split; [by eexists|].
  - intros a [->|[->| ->]]; right; by vm_compute.
Qed.
Lemma tables1_linked : tables_linked.
Proof. constructor; [split_and!|]; by vm_compute. Qed.
Lemma loadPageDir_returns_witness :
  ∃ k s, run k (place_code 0x102000 loadPageDir_code) at_load = Some s ∧ m_eip s = 0xC0103000 ∧ m_ebp s = 4 ∧
    translate s 0xC0102000 = Some 0x102000 ∧ translate s 0xC0200000 = None.
Proof.
  assert (boot_tlb false (m_tlb at_load)) as Htlb.
  { intros k f Hk. change (m_tlb at_load) with ({[inl 768 := 0]} : gmap (Z + Z) Z) in Hk. apply lookup_singleton_Some in Hk as [<- <-]. auto. }
  destruct (loadPageDir_returns link0_linked tables1_linked
      paging1 512 0xC0103000 at_load at_load at_load_boot Htlb at_load_memory at_load_calling (rtc_refl _ _))
    as (k & s & E & He & [(_ & _ & Hbp & _) _ Hm]).
  exists k, s. split; [exact E|]. split; [exact He|]. split; [exact Hbp|].
  rewrite !Hm by lia. rewrite !(get_phys_addr_spec paging1 512) by (apply at_load_memory || (by split)). by split.
Defined.
