(* ===== verification/Ata.v ===== *)
(** * The ATA driver (src/drivers/ata.c, src/fs/mbr.c)

    PIO reads and writes of sectors through the task file registers of a bus.
    [AtaBus] is the documented behaviour of a drive in 28-bit LBA mode: the
    registers keep what is written to them, a command selects sectors by them,
    the status register shows busy for a bounded number of polls, and the data
    register transfers the sector's words in order. [fuel] bounds the polling. *)

From S2P Require Import Prelude Io.

(** ** Data *)

(** [bdev_t] *)
Record bdev := mkBdev {
  minor : Z; start_lba : Z; part_size : Z; slave_bit : Z; base : Z; dev_ctl : Z;
  permissions : Z; next : Z }.
Definition set_start_lba (l : Z) (d : bdev) : bdev :=
  mkBdev (minor d) l (part_size d) (slave_bit d) (base d) (dev_ctl d) (permissions d) (next d).

Definition REG_DATA_PORT : Z := 0x00.
Definition REG_INFO_PORT : Z := 0x01.
Definition REG_SECT_CNT_PORT : Z := 0x02.
Definition REG_LBA_LOW_PORT : Z := 0x03.
Definition REG_LBA_MID_PORT : Z := 0x04.
Definition REG_LBA_HIGH_PORT : Z := 0x05.
Definition REG_DEV_SEL_PORT : Z := 0x06.
Definition REG_CMD_PORT : Z := 0x07.
Definition REG_DEV_CTL_PORT : Z := 0x3F6.
Definition MASTER_DRIVE : Z := 0xA0.
Definition SOFT_RESET : Z := 0x04.
Definition READ_SECTS_CMD : Z := 0x20.
Definition WRITE_SECTS_CMD : Z := 0x30.
Definition CACHE_FLUSH : Z := 0xE7.
Inductive ata_device := ATADEV_UNKNOWN | ATADEV_PATAPI | ATADEV_SATAPI | ATADEV_PATA | ATADEV_SATA.

Section operations.
Context `{Env E}.

(** ** Operations *)

Definition ata_soft_reset (cntrl : Z) : M E unit :=
  let* old_value := inw REG_DEV_CTL_PORT in
  outw REG_DEV_CTL_PORT (Z.lor old_value SOFT_RESET) ;;;
  outw REG_DEV_CTL_PORT old_value.

Definition detect_device_type (slave_bit : Z) (dev : bdev) : M E ata_device :=
  ata_soft_reset (dev_ctl dev) ;;;
  outb (base dev + REG_DEV_SEL_PORT) (Z.lor MASTER_DRIVE (Z.shiftl slave_bit 4)) ;;;
  inb (dev_ctl dev) ;;; inb (dev_ctl dev) ;;; inb (dev_ctl dev) ;;; inb (dev_ctl dev) ;;;
  let* cl := inb (base dev + REG_LBA_MID_PORT) in
  let* ch := inb (base dev + REG_LBA_HIGH_PORT) in
  if (cl =? 0x14) && (ch =? 0xEB) then ret ATADEV_PATAPI
  else if (cl =? 0x69) && (ch =? 0x96) then ret ATADEV_SATAPI
  else if (cl =? 0) && (ch =? 0) then ret ATADEV_PATA
  else if (cl =? 0x3c) && (ch =? 0xc3) then ret ATADEV_SATA
  else ret ATADEV_UNKNOWN.

(** The seven register writes that start each command. *)
Definition issue (dev : bdev) (real_lba sect_count cmd : Z) : M E unit :=
  outb (base dev + REG_DEV_SEL_PORT)
    (Z.lor (if truth (slave_bit dev) then 0xF0 else 0xE0) (Z.land (Z.shiftr real_lba 24) 0x0F)) ;;;
  outb (base dev + REG_INFO_PORT) 0x00 ;;;
  outb (base dev + REG_SECT_CNT_PORT) sect_count ;;;
  outb (base dev + REG_LBA_LOW_PORT) (u8 real_lba) ;;;
  outb (base dev + REG_LBA_MID_PORT) (u8 (Z.shiftr real_lba 8)) ;;;
  outb (base dev + REG_LBA_HIGH_PORT) (u8 (Z.shiftr real_lba 16)) ;;;
  outb (base dev + REG_CMD_PORT) cmd.

(** [while ((status & 0x80) == 0x80 && (status & 0x01) != 0x01)] *)
Fixpoint poll (fuel : nat) (dev : bdev) (status : Z) : M E Z :=
  match fuel with
  | O => timeout
  | S f =>
      if (Z.land status 0x80 =? 0x80) && negb (Z.land status 0x01 =? 0x01) then
        let* status := inb (base dev + REG_CMD_PORT) in
        terminal_write (chars "status:" ++ [10]) ;;;
        terminal_printhex status ;;;
        poll f dev status
      else ret status
  end.

(** [((sect_count == 0) ? 256 : sect_count) * 256] words *)
Definition words_of (sect_count : Z) : nat := Z.to_nat ((if sect_count =? 0 then 256 else sect_count) * 256).

Fixpoint read_words (n : nat) (dev : bdev) : M E (list Z) :=
  match n with
  | O => ret []
  | S n =>
      let* tmp := inw (base dev) in
      terminal_printhex (u8 tmp) ;;;
      terminal_printhex (u8 (Z.shiftr tmp 8)) ;;;
      let* l := read_words n dev in
      ret (u8 tmp :: u8 (Z.shiftr tmp 8) :: l)
  end.

(** The bytes stored to [dest]. *)
Definition ata_read_sects_28_pio (fuel : nat) (sect_count : Z) (dev : bdev) (rel_lba : Z) : M E (list Z) :=
  terminal_write (chars "Reading from drive" ++ [10]) ;;;
  let real_lba := u32 (rel_lba + start_lba dev) in
  issue dev real_lba sect_count READ_SECTS_CMD ;;;
  let* status := inb (base dev + REG_CMD_PORT) in
  let* status := poll fuel dev status in
  if truth (Z.land status 0x01) then kpanic "Status = 0x01" else
  read_words (words_of sect_count) dev.

Fixpoint write_words (n : nat) (i : nat) (src : list Z) (dev : bdev) : M E unit :=
  match n with
  | O => ret tt
  | S n =>
      let* lo := of_option (src !! (2 * i)%nat) in
      let* hi := of_option (src !! (2 * i + 1)%nat) in
      let w := lo + 256 * hi in
      outw (base dev) w ;;;
      terminal_printhex16 w ;;;
      write_words n (S i) src dev
  end.

(** [src] holds the bytes at the argument. *)
Definition ata_write_sects_28_pio (fuel : nat) (src : list Z) (sect_count : Z) (dev : bdev)
    (rel_lba : Z) : M E unit :=
  terminal_write (chars "Writing to drive" ++ [10]) ;;;
  let real_lba := u32 (rel_lba + start_lba dev) in
  issue dev real_lba sect_count WRITE_SECTS_CMD ;;;
  let* status := inb (base dev + REG_CMD_PORT) in
  let* status := poll fuel dev status in
  if truth (Z.land status 0x01) then kpanic "Status = 0x01" else
  write_words (words_of sect_count) 0 src dev.

Definition prepare_disk_read (fuel : nat) (dev : bdev) (lba sect_count : Z) : M E unit :=
  issue dev lba sect_count READ_SECTS_CMD ;;;
  let* status := inb (base dev + REG_CMD_PORT) in
  poll fuel dev status ;;; ret tt.

Definition ata_flush_cache (fuel : nat) (dev : bdev) : M E unit :=
  outb (base dev + REG_DEV_SEL_PORT) (Z.lor MASTER_DRIVE (Z.shiftl (slave_bit dev) 4)) ;;;
  outb (base dev + REG_CMD_PORT) CACHE_FLUSH ;;;
  let* status := inb (base dev + REG_CMD_PORT) in
  terminal_write (chars "status:" ++ [10]) ;;;
  terminal_printhex status ;;;
  if status =? 0x00 then ret tt else
  let* status := poll fuel dev status in
  if truth (Z.land status 0x01) || truth (Z.land status 0x50) then kpanic "ERROR" else ret tt.

(** ** mbr.c: the 16-bit word 227 of the first sector becomes the start of the
    partition. *)

Fixpoint mbr_words (n : nat) (i : Z) (dev : bdev) : M E bdev :=
  match n with
  | O => ret dev
  | S n =>
      let* tmp := inw (base dev) in
      let dev := if i =? 227 then set_start_lba tmp dev else dev in
      terminal_printhex16 tmp ;;;
      mbr_words n (i + 1) dev
  end.
Definition parse_mbr (fuel : nat) (dev : bdev) : M E bdev :=
  issue dev (start_lba dev) 1 READ_SECTS_CMD ;;;
  let* status := inb (base dev + REG_CMD_PORT) in
  poll fuel dev status ;;;
  let* dev := mbr_words 256 0 dev in
  terminal_printhex32 (start_lba dev) ;;;
  terminal_write (chars "Finished parsing mbr" ++ [10]) ;;;
  ret dev.
End operations.

(** ** The drive: an interface between the driver and the hardware *)

(** What a command in progress still transfers; [busy] counts the status reads
    that will still show the drive as busy. *)
Inductive phase :=
| Idle
| Data_in (busy : nat) (words : list Z)
| Data_out (busy : nat) (slave : bool) (lba : Z) (acc : list Z)
| Failed.

Class AtaBus (E : Type) `{Env E} := {
  on_bus : Z → Prop;
  task_file : E → Z → Z → Z;
  drive_phase : E → Z → phase;
  sector : E → Z → bool → Z → list Z;
  capacity : Z → bool → Z;
  max_busy : nat;
  addressed e b : bool * Z :=
    (Z.testbit (task_file e b 6) 4,
     task_file e b 3 + 256 * task_file e b 4 + 65536 * task_file e b 5
     + 16777216 * (task_file e b 6 mod 16));
  on_bus_range : ∀ b, on_bus b → 0 ≤ b < 65528;
  sector_words : ∀ e b s l, length (sector e b s l) = 256%nat ∧ Forall (λ w, 0 ≤ w < 65536) (sector e b s l);
  ata_register : ∀ e b i v, on_bus b → 1 ≤ i ≤ 6 →
    task_file (env_out W8 (b + i) v e) b i = v ∧
    (∀ j, j ≠ i → task_file (env_out W8 (b + i) v e) b j = task_file e b j) ∧
    sector (env_out W8 (b + i) v e) = sector e;
  ata_read_command : ∀ e b, on_bus b → task_file e b 2 = 1 →
    let e' := env_out W8 (b + 7) 0x20 e in
    let '(s, l) := addressed e b in
    sector e' = sector e ∧
    if l <? capacity b s then ∃ k, (k ≤ max_busy)%nat ∧ drive_phase e' b = Data_in k (sector e b s l)
    else drive_phase e' b = Failed;
  ata_write_command : ∀ e b, on_bus b → task_file e b 2 = 1 →
    let e' := env_out W8 (b + 7) 0x30 e in
    let '(s, l) := addressed e b in
    sector e' = sector e ∧
    if l <? capacity b s then ∃ k, (k ≤ max_busy)%nat ∧ drive_phase e' b = Data_out k s l []
    else drive_phase e' b = Failed;
  ata_status : ∀ e b, on_bus b →
    let '(v, e') := env_in W8 (b + 7) e in
    0 ≤ v < 256 ∧ sector e' = sector e ∧
    match drive_phase e b with
    | Idle => True
    | Data_in O ws => Z.land v 0x80 = 0 ∧ Z.land v 0x01 = 0 ∧ drive_phase e' b = Data_in O ws
    | Data_in (S k) ws => Z.land v 0x80 = 0x80 ∧ Z.land v 0x01 = 0 ∧ drive_phase e' b = Data_in k ws
    | Data_out O s l acc => Z.land v 0x80 = 0 ∧ Z.land v 0x01 = 0 ∧ drive_phase e' b = Data_out O s l acc
    | Data_out (S k) s l acc =>
        Z.land v 0x80 = 0x80 ∧ Z.land v 0x01 = 0 ∧ drive_phase e' b = Data_out k s l acc
    | Failed => Z.land v 0x01 = 1 ∧ drive_phase e' b = Failed
    end;
  ata_data_in : ∀ e b w ws, on_bus b → drive_phase e b = Data_in O (w :: ws) →
    let '(v, e') := env_in W16 b e in
    v = w ∧ drive_phase e' b = Data_in O ws ∧ sector e' = sector e;
  ata_data_out : ∀ e b s l acc w, on_bus b → drive_phase e b = Data_out O s l acc →
    (length acc < 256)%nat → Forall (λ w, 0 ≤ w < 65536) acc → 0 ≤ w < 65536 →
    let e' := env_out W16 b w e in
    if decide (length acc = 255%nat)
    then sector e' b s l = acc ++ [w] ∧
         ∀ b' s' l', (b', s', l') ≠ (b, s, l) → sector e' b' s' l' = sector e b' s' l'
    else sector e' = sector e ∧ drive_phase e' b = Data_out O s l (acc ++ [w]);
  ata_console : ∀ c e e', terminal_putchar c e = Ok tt e' →
    task_file e' = task_file e ∧ drive_phase e' = drive_phase e ∧ sector e' = sector e }.

Section correctness.
Context `{AtaBus E}.

(** The bytes of a list of words, and back. *)
Definition bytes_of (ws : list Z) : list Z := ws ≫= λ w, [w mod 256; w / 256].

(** ** Lemmas *)

Definition same_drive (e e' : E) : Prop :=
  task_file e' = task_file e ∧ drive_phase e' = drive_phase e ∧ sector e' = sector e.
#[export] Instance same_drive_preorder : PreOrder same_drive.
Proof using.
  split; [done|]. intros e1 e2 e3 (A1 & B1 & C1) (A2 & B2 & C2). unfold same_drive. by split_and!; congruence.
Qed.

Lemma outb_at b i v (e : E) : on_bus b → 0 ≤ i ≤ 7 → 0 ≤ v < 256 →
  outb (b + i) v e = Ok tt (env_out W8 (b + i) v e).
Proof using.
  intros Hb Hi Hv. pose proof (on_bus_range b Hb). unfold outb, io_out, wrap.
  by rewrite u16_small, u8_small by lia.
Qed.

Lemma select_bits (s : bool) x :
  let v := Z.lor (if s then 0xF0 else 0xE0) (Z.land x 0x0F) in
  0 ≤ v < 256 ∧ v mod 16 = x mod 16 ∧ Z.testbit v 4 = s.
Proof using.
  cbv zeta. change 0x0F with (Z.ones 4). rewrite Z.land_ones by lia.
  pose proof (Z.mod_pos_bound x (2 ^ 4) ltac:(lia)) as Hx. split; [|split].
  - destruct s; [change 0xF0 with (15 * 2 ^ 4)|change 0xE0 with (14 * 2 ^ 4)];
      rewrite lor_shifted_low by lia; lia.
  - destruct s; [change 0xF0 with (15 * 2 ^ 4)|change 0xE0 with (14 * 2 ^ 4)];
      rewrite lor_shifted_low by lia; change (2 ^ 4) with 16; word_lia.
  - rewrite Z.lor_spec, Z.mod_pow2_bits_high by lia. by destruct s.
Qed.

(** The register writes of a command for one sector. *)
Lemma issue_spec dev lba cmd (e : E) :
  on_bus (base dev) → 0 ≤ cmd < 256 → env_wf e →
  ∃ e6, issue dev lba 1 cmd e = Ok tt (env_out W8 (base dev + 7) cmd e6) ∧ env_wf e6 ∧
    sector e6 = sector e ∧ task_file e6 (base dev) 2 = 1 ∧
    addressed e6 (base dev) = (truth (slave_bit dev), lba mod 2 ^ 28).
Proof using Type*.
  intros Hb Hcmd He. set (b := base dev) in *. set (s := truth (slave_bit dev)).
  destruct (select_bits s (Z.shiftr lba 24)) as (Hv & Hmod & Hbit).
  set (v := Z.lor (if s then 0xF0 else 0xE0) (Z.land (Z.shiftr lba 24) 0x0F)) in *.
  set (e1 := env_out W8 (b + 6) v e). set (e2 := env_out W8 (b + 1) 0 e1).
  set (e3 := env_out W8 (b + 2) 1 e2). set (e4 := env_out W8 (b + 3) (u8 lba) e3).
  set (e5 := env_out W8 (b + 4) (u8 (Z.shiftr lba 8)) e4).
  set (e6 := env_out W8 (b + 5) (u8 (Z.shiftr lba 16)) e5).
  exists e6. split; [|split; [by repeat apply env_out_wf|]].
  - unfold issue, REG_DEV_SEL_PORT, REG_INFO_PORT, REG_SECT_CNT_PORT, REG_LBA_LOW_PORT,
      REG_LBA_MID_PORT, REG_LBA_HIGH_PORT, REG_CMD_PORT. fold b s v.
    rewrite (bind_ok _ _ _ _ _ (outb_at b 6 v e Hb ltac:(lia) Hv)).
    rewrite (bind_ok _ _ _ _ _ (outb_at b 1 0 e1 Hb ltac:(lia) ltac:(lia))).
    rewrite (bind_ok _ _ _ _ _ (outb_at b 2 1 e2 Hb ltac:(lia) ltac:(lia))).
    rewrite (bind_ok _ _ _ _ _ (outb_at b 3 _ e3 Hb ltac:(lia) (u8_range _))).
    rewrite (bind_ok _ _ _ _ _ (outb_at b 4 _ e4 Hb ltac:(lia) (u8_range _))).
    rewrite (bind_ok _ _ _ _ _ (outb_at b 5 _ e5 Hb ltac:(lia) (u8_range _))).
    apply outb_at; [done|lia|done].
  - destruct (ata_register e b 6 v Hb ltac:(lia)) as (R6 & O6 & S1).
    destruct (ata_register e1 b 1 0 Hb ltac:(lia)) as (_ & O1 & S2).
    destruct (ata_register e2 b 2 1 Hb ltac:(lia)) as (R2 & O2 & S3).
    destruct (ata_register e3 b 3 (u8 lba) Hb ltac:(lia)) as (R3 & O3 & S4).
    destruct (ata_register e4 b 4 (u8 (Z.shiftr lba 8)) Hb ltac:(lia)) as (R4 & O4 & S5).
    destruct (ata_register e5 b 5 (u8 (Z.shiftr lba 16)) Hb ltac:(lia)) as (R5 & O5 & S6).
    split; [unfold e6, e5, e4, e3, e2, e1 in *; congruence|].
    unfold addressed. fold e1 e2 e3 e4 e5 e6 in R6, R2, R3, R4, R5, O1, O2, O3, O4, O5.
    rewrite (O5 2), (O4 2), (O3 2), R2 by lia. split; [done|].
    rewrite (O5 6), (O4 6), (O3 6), (O2 6), (O1 6), R6, (O5 3), (O4 3), R3, (O5 4), R4, R5 by lia.
    rewrite Hbit, Hmod, !Z.shiftr_div_pow2 by lia. f_equal.
    change (2 ^ 8) with 256. change (2 ^ 16) with 65536. change (2 ^ 24) with 16777216.
    change (2 ^ 28) with 268435456. word_lia.
Qed.

(** A phase that is left after [k] status reads. *)
Definition waits (b : Z) (ph : nat → phase) : Prop :=
  ∀ e k, drive_phase e b = ph k →
    let '(v, e') := env_in W8 (b + 7) e in
    0 ≤ v < 256 ∧ sector e' = sector e ∧ Z.land v 0x01 = 0 ∧
    Z.land v 0x80 = (match k with O => 0 | S _ => 0x80 end) ∧ drive_phase e' b = ph (pred k).

Lemma waits_in b ws : on_bus b → waits b (λ k, Data_in k ws).
Proof using.
  intros Hb e k Hp. pose proof (ata_status e b Hb) as Hs. rewrite Hp in Hs.
  destruct (env_in W8 (b + 7) e) as [v e']. destruct k; tauto.
Qed.
Lemma waits_out b s l acc : on_bus b → waits b (λ k, Data_out k s l acc).
Proof using.
  intros Hb e k Hp. pose proof (ata_status e b Hb) as Hs. rewrite Hp in Hs.
  destruct (env_in W8 (b + 7) e) as [v e']. destruct k; tauto.
Qed.

(** The status register at the start of a command and after each poll. *)
Lemma inb_status dev ph k (e : E) :
  on_bus (base dev) → env_wf e → waits (base dev) ph → drive_phase e (base dev) = ph k →
  ∃ v e', inb (base dev + REG_CMD_PORT) e = Ok v e' ∧ env_wf e' ∧ sector e' = sector e ∧
    Z.land v 0x01 = 0 ∧ Z.land v 0x80 = (match k with O => 0 | S _ => 0x80 end) ∧
    drive_phase e' (base dev) = ph (pred k).
Proof using Type*.
  intros Hb He Hw Hp. pose proof (on_bus_range _ Hb). specialize (Hw e k Hp).
  pose proof (env_in_wf W8 (base dev + 7) e He) as Hwf. unfold inb, io_in, REG_CMD_PORT.
  rewrite u16_small by lia. destruct (env_in W8 (base dev + 7) e) as [v e'].
  destruct Hw as (Hv & Hs & Hone & H80 & Hph). exists v, e'. unfold wrap. by rewrite u8_small by lia.
Qed.

Lemma poll_spec dev ph k : ∀ fuel v (e : E),
  on_bus (base dev) → waits (base dev) ph → (k < fuel)%nat → env_wf e →
  Z.land v 0x01 = 0 → Z.land v 0x80 = (match k with O => 0 | S _ => 0x80 end) →
  drive_phase e (base dev) = ph (pred k) →
  ∃ v' e', poll fuel dev v e = Ok v' e' ∧ env_wf e' ∧ Z.land v' 0x01 = 0 ∧
    sector e' = sector e ∧ drive_phase e' (base dev) = ph O.
Proof using Type*.
  induction k as [|k IH]; intros [|fuel] v e Hb Hw Hf He Hone H80 Hp; try lia; cbn [poll]; rewrite H80, Hone; cbn [andb negb Z.eqb Pos.eqb].
  - by exists v, e.
  - destruct (inb_status dev ph k e Hb He Hw Hp) as (v1 & e1 & E1 & He1 & S1 & B1 & B80 & P1).
    rewrite (bind_ok _ _ _ _ _ E1).
    destruct (print_step same_drive _ (λ _, terminal_printhex v1 ;;; poll fuel dev v1) e1
      (prints_write same_drive ata_console (chars "status:" ++ [10])) He1) as (e2 & -> & He2 & _ & P2 & S2).
    destruct (print_step same_drive _ (λ _, poll fuel dev v1) e2 (prints_hex same_drive ata_console v1) He2) as (e3 & -> & He3 & _ & P3 & S3).
    destruct (IH fuel v1 e3) as (v' & e' & E' & He' & B' & S' & P'); try done; try lia; [congruence|].
    exists v', e'. split; [done|]. split; [done|]. split; [done|]. split; [congruence|done].
Qed.

Lemma status_poll dev ph k fuel (e : E) :
  on_bus (base dev) → waits (base dev) ph → (k < fuel)%nat → env_wf e → drive_phase e (base dev) = ph k →
  ∃ v e', (let* status := inb (base dev + REG_CMD_PORT) in poll fuel dev status) e = Ok v e' ∧
    env_wf e' ∧ Z.land v 0x01 = 0 ∧ sector e' = sector e ∧ drive_phase e' (base dev) = ph O.
Proof using Type*.
  intros Hb Hw Hf He Hp.
  destruct (inb_status dev ph k e Hb He Hw Hp) as (v1 & e1 & E1 & He1 & S1 & B1 & B80 & P1).
  rewrite (bind_ok _ _ _ _ _ E1).
  destruct (poll_spec dev ph k fuel v1 e1) as (v' & e' & E' & He' & B' & S' & P'); try done.
  exists v', e'. split_and!; try done. congruence.
Qed.

(** The error status: the loop ends at once. *)
Lemma status_failed dev fuel (e : E) :
  on_bus (base dev) → (0 < fuel)%nat → env_wf e → drive_phase e (base dev) = Failed →
  ∃ v e', (let* status := inb (base dev + REG_CMD_PORT) in poll fuel dev status) e = Ok v e' ∧
    Z.land v 0x01 = 1 ∧ sector e' = sector e.
Proof using Type*.
  intros Hb Hf He Hp. pose proof (on_bus_range _ Hb). pose proof (ata_status e (base dev) Hb) as Hs.
  rewrite Hp in Hs. destruct (env_in W8 (base dev + 7) e) as [v e'] eqn:Ee.
  destruct Hs as (Hv & Hsec & Hone & _). exists v, e'. split; [|done].
  rewrite (bind_ok _ _ _ v e').
  - destruct fuel as [|fuel]; [lia|]. cbn [poll]. rewrite Hone, andb_false_r. done.
  - unfold inb, io_in, REG_CMD_PORT. rewrite u16_small by lia. rewrite Ee. unfold wrap. by rewrite u8_small by lia.
Qed.

(** One word from the data register. *)
Lemma inw_word dev w ws (e : E) :
  on_bus (base dev) → env_wf e → drive_phase e (base dev) = Data_in 0 (w :: ws) → 0 ≤ w < 65536 →
  ∃ e1, inw (base dev) e = Ok w e1 ∧ env_wf e1 ∧ drive_phase e1 (base dev) = Data_in 0 ws ∧
    sector e1 = sector e.
Proof using Type*.
  intros Hb He Hp Hw. pose proof (on_bus_range _ Hb).
  pose proof (ata_data_in e (base dev) w ws Hb Hp) as Hd.
  pose proof (env_in_wf W16 (base dev) e He) as He1. unfold inw, io_in. rewrite u16_small by lia.
  destruct (env_in W16 (base dev) e) as [v e1]. destruct Hd as (-> & P1 & S1).
  exists e1. unfold wrap. by rewrite u16_small by lia.
Qed.

Lemma read_words_spec dev ws : ∀ (e : E),
  on_bus (base dev) → env_wf e → drive_phase e (base dev) = Data_in 0 ws →
  Forall (λ w, 0 ≤ w < 65536) ws →
  ∃ e', read_words (length ws) dev e = Ok (bytes_of ws) e' ∧ env_wf e' ∧ sector e' = sector e.
Proof using Type*.
  induction ws as [|w ws IH]; intros e Hb He Hp Hw; [by exists e|].
  apply Forall_cons in Hw as [Hw Hws].
  destruct (inw_word dev w ws e Hb He Hp Hw) as (e1 & E1 & He1 & P1 & S1).
  cbn [length read_words]. rewrite (bind_ok _ _ _ _ _ E1).
  assert (u8 w = w mod 256) as -> by done.
  assert (u8 (Z.shiftr w 8) = w / 256) as ->.
  { rewrite Z.shiftr_div_pow2 by lia. change (2 ^ 8) with 256. word_lia. }
  destruct (print_step same_drive _ (λ _, terminal_printhex (w / 256) ;;;
    let* l := read_words (length ws) dev in ret (w mod 256 :: w / 256 :: l)) e1 (prints_hex same_drive ata_console (w mod 256)) He1)
    as (e2 & -> & He2 & _ & P2 & S2).
  destruct (print_step same_drive _ (λ _, let* l := read_words (length ws) dev in ret (w mod 256 :: w / 256 :: l))
    e2 (prints_hex same_drive ata_console (w / 256)) He2) as (e3 & -> & He3 & _ & P3 & S3).
  destruct (IH e3 Hb He3) as (e' & E' & He' & S'); [congruence|done|].
  exists e'. rewrite (bind_ok _ _ _ _ _ E'). split; [done|]. split; [done|congruence].
Qed.

Lemma bytes_of_lookup ws i :
  bytes_of ws !! (2 * i)%nat = (λ w, w mod 256) <$> ws !! i ∧
  bytes_of ws !! (2 * i + 1)%nat = (λ w, w / 256) <$> ws !! i.
Proof using.
  revert i. induction ws as [|w ws IH]; intros i.
  - unfold bytes_of. simpl. by rewrite !lookup_nil.
  - destruct i as [|i]; [done|]. destruct (IH i) as [Hone Htwo].
    unfold bytes_of in *. simpl. rewrite <-Hone, <-Htwo.
    replace (i + S (i + 0))%nat with (S (2 * i)) by lia.
    replace (i + S (i + 0) + 1)%nat with (S (2 * i + 1)) by lia. done.
Qed.

Lemma bytes_of_length ws : length (bytes_of ws) = (2 * length ws)%nat.
Proof using.
  induction ws as [|w ws IH]; [done|]. change (bytes_of (w :: ws)) with (w mod 256 :: w / 256 :: bytes_of ws).
  simpl. lia.
Qed.

Lemma bytes_of_bytes ws : Forall (λ w, 0 ≤ w < 65536) ws → Forall (λ x, 0 ≤ x < 256) (bytes_of ws).
Proof using.
  intros Hw. apply Forall_forall. intros y Hy. unfold bytes_of in Hy. apply list_elem_of_bind in Hy as (w & Hy & Hin).
  rewrite Forall_forall in Hw. specialize (Hw w Hin).
  apply elem_of_cons in Hy as [->|Hy]; [word_lia|]. apply list_elem_of_singleton in Hy as ->. word_lia.
Qed.

(** Sending word number [i] of the source. *)
Lemma write_word_step dev ws i w n (e : E) :
  on_bus (base dev) → env_wf e → ws !! i = Some w → 0 ≤ w < 65536 →
  ∃ e2, write_words (S n) i (bytes_of ws) dev e = write_words n (S i) (bytes_of ws) dev e2 ∧
    env_wf e2 ∧ same_drive (env_out W16 (base dev) w e) e2.
Proof using Type*.
  intros Hb He Hi Hw. pose proof (on_bus_range _ Hb).
  destruct (bytes_of_lookup ws i) as [Hlo Hhi]. rewrite Hi in Hlo, Hhi.
  pose proof (env_out_wf W16 (base dev) w e He) as He1.
  destruct (print_step same_drive _ (λ _, write_words n (S i) (bytes_of ws) dev) _ (prints_hex16 same_drive ata_console w) He1)
    as (e2 & E2 & He2 & Hs). exists e2. split; [|done].
  rewrite <-E2. cbn [write_words]. rewrite Hlo, Hhi. cbn [fmap option_fmap option_map of_option].
  rewrite !bind_ret_l. replace (w mod 256 + 256 * (w / 256)) with w by word_lia.
  rewrite (bind_ok _ _ _ tt (env_out W16 (base dev) w e)); [done|].
  unfold outw, io_out, wrap. by rewrite !u16_small by lia.
Qed.

(** The words still to be sent, [acc] having been sent. *)
Lemma write_words_spec dev s l n : ∀ acc rest (e : E),
  on_bus (base dev) → env_wf e → drive_phase e (base dev) = Data_out 0 s l acc →
  length rest = S n → (length acc + S n = 256)%nat →
  Forall (λ w, 0 ≤ w < 65536) acc → Forall (λ w, 0 ≤ w < 65536) rest →
  ∃ e', write_words (S n) (length acc) (bytes_of (acc ++ rest)) dev e = Ok tt e' ∧ env_wf e' ∧
    sector e' (base dev) s l = acc ++ rest ∧
    ∀ b' s' l', (b', s', l') ≠ (base dev, s, l) → sector e' b' s' l' = sector e b' s' l'.
Proof using Type*.
  induction n as [|n IH]; intros acc [|w rest] e Hb He Hp Hr Hl Ha Hw; simpl in Hr; try lia;
    apply Forall_cons in Hw as [Hw Hws];
    pose proof (ata_data_out e (base dev) s l acc w Hb Hp ltac:(lia) Ha Hw) as Hd; cbv zeta in Hd.
  - destruct (write_word_step dev (acc ++ w :: rest) (length acc) w 0 e) as (e2 & -> & He2 & _ & P2 & S2);
      [done..|by apply list_lookup_middle|done|].
    destruct rest; [|simpl in Hr; lia]. rewrite decide_True in Hd by lia. destruct Hd as [Hdone Hother].
    exists e2. rewrite S2. by split.
  - destruct (write_word_step dev (acc ++ w :: rest) (length acc) w (S n) e) as (e2 & -> & He2 & _ & P2 & S2);
      [done..|by apply list_lookup_middle|done|].
    rewrite decide_False in Hd by lia. destruct Hd as [S1 P1].
    destruct (IH (acc ++ [w]) rest e2 Hb He2) as (e' & E' & He' & Hs' & Ho');
      [congruence|lia|rewrite length_app; simpl; lia|by apply Forall_app_2, Forall_singleton|done|].
    rewrite length_app, Nat.add_1_r, <-app_assoc in E'. rewrite <-app_assoc in Hs'.
    exists e'. split; [done|]. split; [done|]. split; [done|]. intros b' s' l' Hne. rewrite Ho' by done. congruence.
Qed.

(** ** Theorems *)

(** The address a driver call selects: the 28 bits the registers hold. *)
Definition selected (dev : bdev) (rel_lba : Z) : Z := u32 (rel_lba + start_lba dev) mod 2 ^ 28.

Lemma read_sector_spec dev rel_lba fuel (e : E) :
  on_bus (base dev) → env_wf e → (max_busy < fuel)%nat →
  let s := truth (slave_bit dev) in let l := selected dev rel_lba in
  if l <? capacity (base dev) s then
    ∃ e', ata_read_sects_28_pio fuel 1 dev rel_lba e = Ok (bytes_of (sector e (base dev) s l)) e' ∧
      env_wf e' ∧ sector e' = sector e
  else ∃ e', ata_read_sects_28_pio fuel 1 dev rel_lba e = Panic "Status = 0x01" e'.
Proof using Type*.
  intros Hb He Hf s l. unfold ata_read_sects_28_pio.
  match goal with |- context [bind (terminal_write ?m) ?f] =>
    destruct (print_step same_drive _ f e (prints_write same_drive ata_console m) He) as (e0 & -> & He0 & _ & _ & S0) end.
  destruct (issue_spec dev (u32 (rel_lba + start_lba dev)) READ_SECTS_CMD e0 Hb ltac:(done) He0)
    as (e6 & E6 & He6 & S6 & Hcnt & Haddr).
  rewrite (bind_ok _ _ _ _ _ E6). rewrite <-bind_assoc.
  pose proof (ata_read_command e6 (base dev) Hb Hcnt) as Hc. cbv zeta in Hc. rewrite Haddr in Hc.
  fold s (selected dev rel_lba) l in Hc.
  change READ_SECTS_CMD with 0x20 in *. set (e7 := env_out W8 (base dev + 7) 0x20 e6) in *.
  assert (env_wf e7) as He7 by (by apply env_out_wf). destruct Hc as [S7 Hc].
  destruct (l <? capacity (base dev) s).
  - destruct Hc as (k & Hk & P7).
    destruct (status_poll dev _ k fuel e7 Hb (waits_in _ _ Hb) ltac:(lia) He7 P7)
      as (v & e8 & E8 & He8 & B8 & S8 & P8).
    rewrite (bind_ok _ _ _ _ _ E8), B8. change (truth 0) with false. cbv iota.
    destruct (sector_words e6 (base dev) s l) as [Hlen Hws].
    destruct (read_words_spec dev _ e8 Hb He8 P8 Hws) as (e9 & E9 & He9 & S9). rewrite Hlen in E9.
    exists e9. split; [|split; [done|congruence]]. change (words_of 1) with 256%nat.
    rewrite E9. do 2 f_equal. congruence.
  - destruct (status_failed dev fuel e7 Hb ltac:(lia) He7 Hc) as (v & e8 & E8 & B8 & S8).
    rewrite (bind_ok _ _ _ _ _ E8), B8. by exists e8.
Qed.

Lemma write_sector_spec dev rel_lba ws fuel (e : E) :
  on_bus (base dev) → env_wf e → (max_busy < fuel)%nat →
  length ws = 256%nat → Forall (λ w, 0 ≤ w < 65536) ws →
  let s := truth (slave_bit dev) in let l := selected dev rel_lba in
  if l <? capacity (base dev) s then
    ∃ e', ata_write_sects_28_pio fuel (bytes_of ws) 1 dev rel_lba e = Ok tt e' ∧ env_wf e' ∧
      sector e' (base dev) s l = ws ∧
      ∀ b' s' l', (b', s', l') ≠ (base dev, s, l) → sector e' b' s' l' = sector e b' s' l'
  else ∃ e', ata_write_sects_28_pio fuel (bytes_of ws) 1 dev rel_lba e = Panic "Status = 0x01" e'.
Proof using Type*.
  intros Hb He Hf Hlen Hws s l. unfold ata_write_sects_28_pio.
  match goal with |- context [bind (terminal_write ?m) ?f] =>
    destruct (print_step same_drive _ f e (prints_write same_drive ata_console m) He) as (e0 & -> & He0 & _ & _ & S0) end.
  destruct (issue_spec dev (u32 (rel_lba + start_lba dev)) WRITE_SECTS_CMD e0 Hb ltac:(done) He0)
    as (e6 & E6 & He6 & S6 & Hcnt & Haddr).
  rewrite (bind_ok _ _ _ _ _ E6). rewrite <-bind_assoc.
  pose proof (ata_write_command e6 (base dev) Hb Hcnt) as Hc. cbv zeta in Hc. rewrite Haddr in Hc.
  fold s (selected dev rel_lba) l in Hc.
  change WRITE_SECTS_CMD with 0x30 in *. set (e7 := env_out W8 (base dev + 7) 0x30 e6) in *.
  assert (env_wf e7) as He7 by (by apply env_out_wf). destruct Hc as [S7 Hc].
  destruct (l <? capacity (base dev) s).
  - destruct Hc as (k & Hk & P7).
    destruct (status_poll dev _ k fuel e7 Hb (waits_out _ _ _ _ Hb) ltac:(lia) He7 P7)
      as (v & e8 & E8 & He8 & B8 & S8 & P8).
    rewrite (bind_ok _ _ _ _ _ E8), B8. change (truth 0) with false. cbv iota. change (words_of 1) with (S 255).
    destruct (write_words_spec dev s l 255 [] ws e8 Hb He8 P8 Hlen eq_refl ltac:(done) Hws)
      as (e9 & E9 & He9 & Hs9 & Ho9).
    exists e9. split; [done|]. split; [done|]. split; [done|]. intros b' s' l' Hne.
    rewrite Ho9 by done. congruence.
  - destruct (status_failed dev fuel e7 Hb ltac:(lia) He7 Hc) as (v & e8 & E8 & B8 & S8).
    rewrite (bind_ok _ _ _ _ _ E8), B8. by exists e8.
Qed.

Lemma mbr_words_spec ws : ∀ i dev (e : E),
  on_bus (base dev) → env_wf e → drive_phase e (base dev) = Data_in 0 ws →
  Forall (λ w, 0 ≤ w < 65536) ws → 0 ≤ i →
  ∃ e', mbr_words (length ws) i dev e =
      Ok (match ws !! Z.to_nat (227 - i) with
          | Some w => if i <=? 227 then set_start_lba w dev else dev
          | None => dev end) e' ∧ env_wf e' ∧ sector e' = sector e.
Proof using Type*.
  induction ws as [|w ws IH]; intros i dev e Hb He Hp Hw Hi; [by exists e|].
  apply Forall_cons in Hw as [Hw Hws].
  destruct (inw_word dev w ws e Hb He Hp Hw) as (e1 & E1 & He1 & P1 & S1).
  cbn [length mbr_words]. rewrite (bind_ok _ _ _ _ _ E1).
  set (dev1 := if i =? 227 then set_start_lba w dev else dev).
  assert (base dev1 = base dev) as Hb1 by (unfold dev1; by destruct (i =? 227)).
  destruct (print_step same_drive _ (λ _, mbr_words (length ws) (i + 1) dev1) e1 (prints_hex16 same_drive ata_console w) He1)
    as (e2 & -> & He2 & _ & P2 & S2).
  destruct (IH (i + 1) dev1 e2) as (e' & E' & He' & S'); [by rewrite Hb1|done| |done|lia|].
  { rewrite Hb1. congruence. }
  exists e'. rewrite E'. split; [|split; [done|congruence]]. f_equal. unfold dev1.
  destruct (Z.eqb_spec i 227) as [->|Hne].
  - by destruct (ws !! Z.to_nat (227 - (227 + 1))).
  - destruct (Z.leb_spec i 227), (Z.leb_spec (i + 1) 227); try lia.
    + replace (Z.to_nat (227 - i)) with (S (Z.to_nat (227 - (i + 1)))) by lia. done.
    + by destruct (ws !! _), (_ !! _).
Qed.

(** Reading one sector, with enough fuel for the drive's busy time: the buffer gets
    the sector at the 28-bit address of the request relative to the start of the
    partition, the disk is unchanged, and an address beyond the drive panics. *)
Theorem ata_read_correct dev rel_lba fuel (e : E) :
  on_bus (base dev) → env_wf e → (max_busy < fuel)%nat →
  let s := truth (slave_bit dev) in let l := selected dev rel_lba in
  if l <? capacity (base dev) s then
    ∃ e', ata_read_sects_28_pio fuel 1 dev rel_lba e = Ok (bytes_of (sector e (base dev) s l)) e' ∧
      env_wf e' ∧ sector e' = sector e
  else ∃ e', ata_read_sects_28_pio fuel 1 dev rel_lba e = Panic "Status = 0x01" e'.
Proof using Type*. apply read_sector_spec. Qed.

(** C24. Writing one sector of 512 bytes and reading it back gives the bytes written,
    and no other sector of any drive has changed. *)
Theorem ata_write_read dev rel_lba ws fuel (e : E) :
  on_bus (base dev) → env_wf e → (max_busy < fuel)%nat →
  length ws = 256%nat → Forall (λ w, 0 ≤ w < 65536) ws →
  let s := truth (slave_bit dev) in let l := selected dev rel_lba in
  l < capacity (base dev) s →
  ∃ e1 e2, ata_write_sects_28_pio fuel (bytes_of ws) 1 dev rel_lba e = Ok tt e1 ∧
    ata_read_sects_28_pio fuel 1 dev rel_lba e1 = Ok (bytes_of ws) e2 ∧
    ∀ b' s' l', (b', s', l') ≠ (base dev, s, l) → sector e2 b' s' l' = sector e b' s' l'.
Proof using Type*.
  intros Hb He Hf Hlen Hws s l Hcap.
  pose proof (write_sector_spec dev rel_lba ws fuel e Hb He Hf Hlen Hws) as Hw. cbv zeta in Hw.
  fold s l in Hw. rewrite (proj2 (Z.ltb_lt _ _) Hcap) in Hw. destruct Hw as (e1 & E1 & He1 & Hs1 & Ho1).
  pose proof (read_sector_spec dev rel_lba fuel e1 Hb He1 Hf) as Hr. cbv zeta in Hr.
  fold s l in Hr. rewrite (proj2 (Z.ltb_lt _ _) Hcap), Hs1 in Hr. destruct Hr as (e2 & E2 & _ & S2).
  exists e1, e2. split; [done|]. split; [done|]. intros. rewrite S2. by apply Ho1.
Qed.

(** [parse_mbr] sets the start of the partition to the 16-bit word at byte 454 of
    the sector the device starts at, the low half of the first partition entry's
    start address; the other fields and the disk are unchanged. *)
Theorem parse_mbr_correct dev fuel (e : E) :
  on_bus (base dev) → env_wf e → (max_busy < fuel)%nat →
  let s := truth (slave_bit dev) in let l := start_lba dev mod 2 ^ 28 in
  l < capacity (base dev) s →
  ∃ w e', parse_mbr fuel dev e = Ok (set_start_lba w dev) e' ∧ sector e' = sector e ∧
    sector e (base dev) s l !! 227%nat = Some w ∧
    bytes_of (sector e (base dev) s l) !! 454%nat = Some (w mod 256) ∧
    bytes_of (sector e (base dev) s l) !! 455%nat = Some (w / 256) ∧ env_wf e'.
Proof using Type*.
  intros Hb He Hf s l Hcap. unfold parse_mbr.
  destruct (issue_spec dev (start_lba dev) READ_SECTS_CMD e Hb ltac:(done) He)
    as (e6 & E6 & He6 & S6 & Hcnt & Haddr).
  rewrite (bind_ok _ _ _ _ _ E6). rewrite <-bind_assoc.
  pose proof (ata_read_command e6 (base dev) Hb Hcnt) as Hc. cbv zeta in Hc. rewrite Haddr in Hc.
  fold s l in Hc. change READ_SECTS_CMD with 0x20 in *. set (e7 := env_out W8 (base dev + 7) 0x20 e6) in *.
  assert (env_wf e7) as He7 by (by apply env_out_wf). destruct Hc as [S7 Hc].
  rewrite (proj2 (Z.ltb_lt _ _) Hcap) in Hc. destruct Hc as (k & Hk & P7).
  destruct (status_poll dev _ k fuel e7 Hb (waits_in _ _ Hb) ltac:(lia) He7 P7)
    as (v & e8 & E8 & He8 & _ & S8 & P8).
  rewrite (bind_ok _ _ _ _ _ E8).
  destruct (sector_words e6 (base dev) s l) as [Hlen Hws].
  destruct (mbr_words_spec _ 0 dev e8 Hb He8 P8 Hws ltac:(lia)) as (e9 & E9 & He9 & S9).
  rewrite Hlen in E9. rewrite S6 in *.
  destruct (lookup_lt_is_Some_2 (sector e (base dev) s l) 227) as [w Hlk]; [lia|].
  change (Z.to_nat (227 - 0)) with 227%nat in E9. rewrite Hlk in E9. change (0 <=? 227) with true in E9.
  rewrite (bind_ok _ _ _ _ _ E9).
  match goal with |- context [bind (terminal_printhex32 ?k) ?f] =>
    destruct (print_step same_drive _ f e9 (prints_hex32 same_drive ata_console k) He9) as (e10 & -> & He10 & _ & _ & S10) end.
  match goal with |- context [bind (terminal_write ?m) ?f] =>
    destruct (print_step same_drive _ f e10 (prints_write same_drive ata_console m) He10) as (e11 & -> & He11 & _ & _ & S11) end.
  destruct (bytes_of_lookup (sector e (base dev) s l) 227) as [Hlo Hhi]. rewrite Hlk in Hlo, Hhi.
  exists w, e11. split; [done|]. split; [congruence|]. by split_and!.
Qed.
End correctness.
