(* ===== verification/AtaLegacy.v ===== *)
(** * Older transfer routines of the ATA driver (src/drivers/ata.c, lines 34 to 115)

    [ata_write_28_pio] and the two [_sect_lba28_pio] routines, which nothing calls any
    more, and the cache flush the first of them ends with. [AtaDrq] adds to [AtaBus]
    the bit of the status register these routines poll. *)

From S2P Require Import Prelude Io Ata.

Definition IDENTIFY : Z := 0xEC.
Definition STATUS_DRQ : Z := 0x08.

Section operations.
Context `{Env E}.

(** [ptr[i]] of the 16-bit words at [src]. *)
Definition word_at (src : list Z) (i : Z) : M E Z :=
  let* lo := of_option (src !! Z.to_nat (2 * i)) in
  let* hi := of_option (src !! Z.to_nat (2 * i + 1)) in
  ret (lo + 256 * hi).

(** The counter of the loop is a [uint16_t]; [n] bounds the iterations. *)
Fixpoint send_words (n : nat) (i bound : Z) (src : list Z) (dev : bdev) : M E unit :=
  match n with
  | O => timeout
  | S n =>
      if i <? bound then
        let* w := word_at src i in
        outw (base dev) w ;;;
        send_words n (u16 (i + 1)) bound src dev
      else ret tt
  end.

Definition ata_write_28_pio (n fuel : nat) (src : list Z) (sect_count : Z) (dev : bdev) (rel_lba : Z) : M E unit :=
  terminal_writestring "Writing to drive" ;;;
  let real_lba := u32 (rel_lba + start_lba dev) in
  issue dev real_lba sect_count WRITE_SECTS_CMD ;;;
  send_words n 0 ((if sect_count =? 0 then 256 else sect_count) * 256) src dev ;;;
  ata_flush_cache fuel dev.

(** The register writes of the other two routines: always the primary bus, one sector,
    the device selected last. *)
Definition issue_sect (dev : bdev) (lba cmd : Z) : M E unit :=
  outb (0x1F0 + REG_INFO_PORT) 0x00 ;;;
  outb (0x1F0 + REG_SECT_CNT_PORT) 0x01 ;;;
  outb (0x1F0 + REG_LBA_LOW_PORT) (u8 lba) ;;;
  outb (0x1F0 + REG_LBA_MID_PORT) (u8 (Z.shiftr lba 8)) ;;;
  outb (0x1F0 + REG_LBA_HIGH_PORT) (u8 (Z.shiftr lba 16)) ;;;
  outb (0x1F0 + REG_DEV_SEL_PORT)
    (Z.lor (if truth (slave_bit dev) then 0xF0 else 0xE0) (Z.land (Z.shiftr lba 24) 0x0F)) ;;;
  outb (0x1F0 + REG_CMD_PORT) cmd.

(** [while (!(inb(0x1F0 + REG_CMD_PORT) & 0x08)) {}] *)
Fixpoint wait_drq (fuel : nat) : M E unit :=
  match fuel with
  | O => timeout
  | S f =>
      let* status := inb (0x1F0 + REG_CMD_PORT) in
      if truth (Z.land status STATUS_DRQ) then ret tt else wait_drq f
  end.

(** The string that the first two characters of the literal make after the stores. *)
Definition pair_text (hi lo : Z) : list Z := if hi =? 0 then [] else if lo =? 0 then [hi] else [hi; lo].

(** The characters of the word are stored to a string literal, which C leaves undefined;
    [rodata_writable] says whether the literals of this kernel can be written. The result
    is the words stored to [dest]. *)
Fixpoint identify_words (k : nat) (rodata_writable : bool) : M E (list Z) :=
  match k with
  | O => ret []
  | S k =>
      let* w := inw (0x1F0 + REG_DATA_PORT) in
      (if rodata_writable then ret tt else fault) ;;;
      terminal_write (pair_text (Z.land (Z.shiftr w 8) 0xFF) (Z.land w 0xFF)) ;;;
      let* l := identify_words k rodata_writable in
      ret (w :: l)
  end.
Definition ata_read_sect_lba28_pio (fuel : nat) (rodata_writable : bool) (dev : bdev) (lba : Z) : M E (list Z) :=
  issue_sect dev lba IDENTIFY ;;;
  wait_drq fuel ;;;
  identify_words 256 rodata_writable.

Definition ata_write_sect_lba28_pio (fuel : nat) (src : list Z) (dev : bdev) (lba : Z) : M E unit :=
  issue_sect dev lba WRITE_SECTS_CMD ;;;
  wait_drq fuel ;;;
  for_each (seqZ 0 256) (λ i, let* w := word_at src i in outw 0x1F0 w).
End operations.

(** ** The status bit that asks for data *)

Class AtaDrq (E : Type) `{AtaBus E} := {
  identity : Z → bool → list Z;
  identity_words : ∀ b s, length (identity b s) = 256%nat ∧ Forall (λ w, 0 ≤ w < 65536) (identity b s);
  ata_drq : ∀ e b, on_bus b →
    Z.land (env_in W8 (b + 7) e).1 STATUS_DRQ =
      match drive_phase e b with Data_in O _ | Data_out O _ _ _ => STATUS_DRQ | _ => 0 end;
  ata_identify_command : ∀ e b, on_bus b →
    let e' := env_out W8 (b + 7) IDENTIFY e in
    sector e' = sector e ∧
    ∃ k, (k ≤ max_busy)%nat ∧ drive_phase e' b = Data_in k (identity b (addressed e b).1) }.

Section correctness.
Context `{Henv : Env E, Hbus : !AtaBus E}.

(** ** Lemmas *)

Lemma word_at_bytes ws i w (e : E) :
  0 ≤ i → ws !! Z.to_nat i = Some w → 0 ≤ w < 65536 → word_at (bytes_of ws) i e = Ok w e.
Proof using.
  intros Hi Hw Hr. destruct (bytes_of_lookup ws (Z.to_nat i)) as [Hlo Hhi]. rewrite Hw in Hlo, Hhi.
  unfold word_at. replace (Z.to_nat (2 * i + 1)) with (2 * Z.to_nat i + 1)%nat by lia.
  replace (Z.to_nat (2 * i)) with (2 * Z.to_nat i)%nat by lia. rewrite Hlo, Hhi.
  simpl. rewrite !bind_ret_l. unfold ret. f_equal. word_lia.
Qed.

Lemma returns_issue dev lba cnt cmd : returns (issue dev lba cnt cmd).
Proof using. unfold issue. repeat (apply returns_bind; [apply returns_out|intros _]). apply returns_out. Qed.

(** With 65536 words to send the counter never gets there. *)
Lemma send_words_loops src dev n : ∀ i (e : E),
  131072 ≤ length src → 0 ≤ i < 65536 → send_words n i 65536 src dev e = Timeout.
Proof using.
  induction n as [|n IH]; intros i e Hl Hi; [done|]. cbn [send_words].
  rewrite (proj2 (Z.ltb_lt _ _)) by lia.
  destruct (lookup_lt_is_Some_2 src (Z.to_nat (2 * i))) as [lo Hlo]; [lia|].
  destruct (lookup_lt_is_Some_2 src (Z.to_nat (2 * i + 1))) as [hi Hhi]; [lia|].
  unfold word_at. rewrite Hlo, Hhi. cbn [of_option]. rewrite !bind_assoc, bind_ret_l, bind_assoc, !bind_ret_l.
  erewrite bind_ok by done. apply IH; [done|apply u16_range].
Qed.

(** A series of register writes. *)
Definition outs (b : Z) (rs : list (Z * Z)) (e : E) : E :=
  fold_left (λ e r, env_out W8 (b + r.1) r.2 e) rs e.
Definition last_write (j old : Z) (rs : list (Z * Z)) : Z :=
  fold_left (λ acc r, if r.1 =? j then r.2 else acc) rs old.
Lemma outs_spec b rs : ∀ (e : E), on_bus b → Forall (λ r, 1 ≤ r.1 ≤ 6) rs → env_wf e →
  env_wf (outs b rs e) ∧ sector (outs b rs e) = sector e ∧
  ∀ j, task_file (outs b rs e) b j = last_write j (task_file e b j) rs.
Proof using.
  induction rs as [|[i v] rs IH]; intros e Hb Hrs He; [done|]. apply Forall_cons in Hrs as [Hi Hrs].
  destruct (ata_register e b i v Hb Hi) as (Hv & Ho & Hs).
  destruct (IH (env_out W8 (b + i) v e) Hb Hrs (env_out_wf _ _ _ _ He)) as (Hw & Hs' & Ht).
  split; [done|]. split; [unfold outs in *; simpl; congruence|]. intros j. unfold outs in *. simpl. rewrite Ht.
  unfold last_write. simpl. destruct (Z.eqb_spec i j) as [<-|Hne]; [by rewrite Hv|by rewrite Ho].
Qed.

(** What the device selects. *)
Lemma issue_sect_spec dev lba cmd (e : E) :
  on_bus 0x1F0 → 0 ≤ cmd < 256 → env_wf e →
  ∃ e6, issue_sect dev lba cmd e = Ok tt (env_out W8 (0x1F0 + 7) cmd e6) ∧ env_wf e6 ∧
    sector e6 = sector e ∧ task_file e6 0x1F0 2 = 1 ∧
    addressed e6 0x1F0 = (truth (slave_bit dev), lba mod 2 ^ 28).
Proof using.
  intros Hb Hcmd He. set (s := truth (slave_bit dev)).
  destruct (select_bits s (Z.shiftr lba 24)) as (Hv & Hmod & Hbit).
  set (v := Z.lor (if s then 0xF0 else 0xE0) (Z.land (Z.shiftr lba 24) 0x0F)) in *.
  set (rs := [(1, 0); (2, 1); (3, u8 lba); (4, u8 (Z.shiftr lba 8)); (5, u8 (Z.shiftr lba 16)); (6, v)]).
  destruct (outs_spec 0x1F0 rs e Hb) as (Hw & Hs & Ht); [by repeat constructor|done|].
  exists (outs 0x1F0 rs e). split; [|split; [done|split; [done|]]].
  - unfold issue_sect, REG_DEV_SEL_PORT, REG_INFO_PORT, REG_SECT_CNT_PORT, REG_LBA_LOW_PORT,
      REG_LBA_MID_PORT, REG_LBA_HIGH_PORT, REG_CMD_PORT. fold s v.
    do 6 (erewrite bind_ok by (apply (outb_at 0x1F0); [done|lia|first [lia|apply u8_range|done]])).
    apply (outb_at 0x1F0); [done|lia|done].
  - unfold addressed. rewrite !Ht. split; [done|]. unfold last_write, rs. cbn [fold_left fst snd Z.eqb Pos.eqb].
    rewrite Hbit, Hmod, !Z.shiftr_div_pow2 by lia. f_equal.
    change (2 ^ 8) with 256. change (2 ^ 16) with 65536. change (2 ^ 24) with 16777216.
    change (2 ^ 28) with 268435456. clear. word_lia.
Qed.

(** Waiting for the data request of a phase. *)
Lemma wait_drq_spec ph k : ∀ fuel (e : E),
  on_bus 0x1F0 → waits 0x1F0 ph →
  (∀ e j, drive_phase e 0x1F0 = ph j →
    Z.land (env_in W8 (0x1F0 + 7) e).1 STATUS_DRQ = match j with O => STATUS_DRQ | S _ => 0 end) →
  (k < fuel)%nat → env_wf e → drive_phase e 0x1F0 = ph k →
  ∃ e', wait_drq fuel e = Ok tt e' ∧ env_wf e' ∧ sector e' = sector e ∧ drive_phase e' 0x1F0 = ph O.
Proof using.
  induction k as [|k IH]; intros [|fuel] e Hb Hw Hd Hf He Hp; try lia; cbn [wait_drq];
    pose proof (Hw e _ Hp) as Hs; pose proof (Hd e _ Hp) as Hq;
    pose proof (env_in_wf W8 (0x1F0 + 7) e He) as He1;
    unfold inb, io_in, REG_CMD_PORT; unfold bind at 1;
    change (u16 (0x1F0 + 0x07)) with (0x1F0 + 7); destruct (env_in W8 (0x1F0 + 7) e) as [v e1];
    destruct Hs as (Hv & Hs & _ & _ & Hp1); cbn [wrap fst snd] in *; rewrite u8_small, Hq by lia.
  - by exists e1.
  - change (truth 0) with false. cbv iota.
    destruct (IH fuel e1 Hb Hw Hd ltac:(lia) He1 Hp1) as (e' & E' & He' & Hs' & Hp').
    exists e'. split; [done|]. split; [done|]. split; [congruence|done].
Qed.

Lemma send_spec s l n : ∀ acc rest (e : E),
  on_bus 0x1F0 → env_wf e → drive_phase e 0x1F0 = Data_out 0 s l acc →
  length rest = S n → (length acc + S n = 256)%nat →
  Forall (λ w, 0 ≤ w < 65536) acc → Forall (λ w, 0 ≤ w < 65536) rest →
  ∃ e', for_each (seqZ (length acc) (S n))
      (λ i, let* w := word_at (bytes_of (acc ++ rest)) i in outw 0x1F0 w) e = Ok tt e' ∧
    sector e' 0x1F0 s l = acc ++ rest ∧
    ∀ b' s' l', (b', s', l') ≠ (0x1F0, s, l) → sector e' b' s' l' = sector e b' s' l'.
Proof using.
  induction n as [|n IH]; intros acc [|w rest] e Hb He Hp Hr Hl Ha Hw; simpl in Hr; try lia;
    apply Forall_cons in Hw as [Hw Hws];
    pose proof (ata_data_out e 0x1F0 s l acc w Hb Hp ltac:(lia) Ha Hw) as Hd; cbv zeta in Hd;
    rewrite seqZ_cons by lia; cbn [for_each];
    rewrite bind_assoc, (bind_ok _ _ _ w e)
      by (apply word_at_bytes; [lia|rewrite Nat2Z.id; by apply list_lookup_middle|done]);
    rewrite (bind_ok _ _ _ tt (env_out W16 0x1F0 w e))
      by (unfold outw, io_out, wrap; by rewrite !u16_small by lia).
  - destruct rest; [|simpl in Hr; lia]. rewrite decide_True in Hd by lia. destruct Hd as [Hdone Hother].
    by eexists.
  - rewrite decide_False in Hd by lia. destruct Hd as [S1 P1].
    destruct (IH (acc ++ [w]) rest (env_out W16 0x1F0 w e) Hb (env_out_wf _ _ _ _ He) P1) as (e' & E' & Hs' & Ho');
      [lia|rewrite length_app; simpl; lia|by apply Forall_app_2, Forall_singleton|done|].
    rewrite length_app, <-app_assoc in E'. rewrite <-app_assoc in Hs'. cbn [app length] in E', Hs'.
    replace (Z.succ (length acc)) with (Z.of_nat (length acc + 1)) by lia.
    replace (Z.pred (S (S n))) with (Z.of_nat (S n)) by lia. exists e'. split; [done|]. split; [done|].
    intros b' s' l' Hne. rewrite Ho' by done. congruence.
Qed.

(** Reading what the drive offers. *)
Definition primary : bdev := mkBdev 0 0 0 0 0x1F0 0 0 0.
Lemma identify_spec ws : ∀ (e : E),
  on_bus 0x1F0 → env_wf e → drive_phase e 0x1F0 = Data_in 0 ws → Forall (λ w, 0 ≤ w < 65536) ws →
  ∃ e', identify_words (length ws) true e = Ok ws e' ∧ sector e' = sector e.
Proof using.
  induction ws as [|w ws IH]; intros e Hb He Hp Hws; [by exists e|]. apply Forall_cons in Hws as [Hw Hws].
  destruct (inw_word primary w ws e Hb He Hp Hw) as (e1 & E1 & He1 & P1 & S1).
  cbn [length identify_words]. rewrite (bind_ok _ _ _ _ _ E1), bind_ret_l.
  match goal with |- context [bind (terminal_write ?m) ?f] =>
    destruct (print_step same_drive _ f e1 (prints_write same_drive ata_console m) He1) as (e2 & -> & He2 & _ & P2 & S2) end.
  destruct (IH e2 Hb He2) as (e' & E' & S'); [by rewrite P2|done|].
  exists e'. rewrite (bind_ok _ _ _ _ _ E'). split; [done|congruence].
Qed.
Lemma identify_faults ws (e : E) :
  on_bus 0x1F0 → env_wf e → drive_phase e 0x1F0 = Data_in 0 ws → Forall (λ w, 0 ≤ w < 65536) ws →
  length ws = 256%nat → identify_words (length ws) false e = Fault.
Proof using.
  intros Hb He Hp Hws Hl. destruct ws as [|w ws]; [done|]. apply Forall_cons in Hws as [Hw Hws].
  destruct (inw_word primary w ws e Hb He Hp Hw) as (e1 & E1 & _). cbn [length identify_words].
  by rewrite (bind_ok _ _ _ _ _ E1).
Qed.

(** ** Theorems *)

(** A write of 256 sectors (a count of 0) never returns: the 16-bit counter of the loop
    stays below the 65536 words to be sent, and words are sent for ever. *)
Theorem ata_write_28_pio_hangs n fuel src dev rel_lba (e : E) :
  env_wf e → 131072 ≤ length src → ata_write_28_pio n fuel src 0 dev rel_lba e = Timeout.
Proof using.
  intros He Hl. unfold ata_write_28_pio.
  destruct (returns_write (chars "Writing to drive") e He) as ([] & e1 & E1 & He1).
  rewrite (bind_ok _ _ _ _ _ E1). cbv zeta.
  destruct (returns_issue dev (u32 (rel_lba + start_lba dev)) 0 WRITE_SECTS_CMD e1 He1) as ([] & e2 & E2 & He2).
  rewrite (bind_ok _ _ _ _ _ E2). apply bind_timeout. apply send_words_loops; [done|lia].
Qed.

(** The cache flush on a drive that is not busy: it returns only from a drive whose
    status is 0 or shows neither error nor readiness; the ready bit of the status makes
    it panic. *)
Theorem ata_flush_cache_correct fuel dev (e : E) :
  0 ≤ base dev < 65528 → env_wf e → (0 < fuel)%nat →
  let sel := u8 (Z.lor MASTER_DRIVE (Z.shiftl (slave_bit dev) 4)) in
  let v := u8 (env_in W8 (base dev + 7) (env_out W8 (base dev + 7) CACHE_FLUSH (env_out W8 (base dev + 6) sel e))).1 in
  Z.land v 0x80 = 0 →
  if truth (Z.land v 0x01) || truth (Z.land v 0x50) then ∃ e', ata_flush_cache fuel dev e = Panic "ERROR" e'
  else ∃ e', ata_flush_cache fuel dev e = Ok tt e' ∧ env_wf e'.
Proof using.
  intros Hb He Hf. cbv zeta. unfold ata_flush_cache, REG_DEV_SEL_PORT, REG_CMD_PORT, CACHE_FLUSH.
  set (sel := Z.lor MASTER_DRIVE _). set (e2 := env_out W8 (base dev + 7) _ _).
  rewrite (bind_ok _ _ _ tt (env_out W8 (base dev + 6) (u8 sel) e)) by (unfold outb, io_out; by rewrite u16_small by lia).
  rewrite (bind_ok _ _ _ tt e2) by (unfold outb, io_out; by rewrite u16_small by lia).
  assert (env_wf (env_in W8 (base dev + 7) e2).2) as He3 by by repeat first [apply env_in_wf|apply env_out_wf].
  rewrite (bind_ok _ _ _ (u8 (env_in W8 (base dev + 7) e2).1) (env_in W8 (base dev + 7) e2).2).
  2:{ unfold inb, io_in. rewrite u16_small by lia. by destruct (env_in W8 (base dev + 7) e2). }
  set (v := u8 _). intros Hbusy.
  destruct (returns_write (chars "status:" ++ [10]) _ He3) as ([] & e4 & E4 & He4).
  rewrite (bind_ok _ _ _ _ _ E4).
  destruct (returns_printhex v e4 He4) as ([] & e5 & E5 & He5). rewrite (bind_ok _ _ _ _ _ E5).
  destruct (Z.eqb_spec v 0) as [Hz|Hz]; [rewrite Hz; by exists e5|].
  destruct fuel as [|fuel]; [lia|]. cbn [poll]. rewrite Hbusy. cbn [Z.eqb andb]. rewrite bind_ret_l.
  destruct (_ || _); by exists e5.
Qed.

(** [ata_write_sect_lba28_pio] writes the 256 words to the sector at the address itself,
    not relative to a partition, on the primary bus whatever bus the device has. *)
Theorem ata_write_sect_correct `{!AtaDrq E} dev lba ws fuel (e : E) :
  on_bus 0x1F0 → env_wf e → (max_busy < fuel)%nat →
  length ws = 256%nat → Forall (λ w, 0 ≤ w < 65536) ws →
  let s := truth (slave_bit dev) in let l := lba mod 2 ^ 28 in
  l < capacity 0x1F0 s →
  ∃ e', ata_write_sect_lba28_pio fuel (bytes_of ws) dev lba e = Ok tt e' ∧
    sector e' 0x1F0 s l = ws ∧
    ∀ b' s' l', (b', s', l') ≠ (0x1F0, s, l) → sector e' b' s' l' = sector e b' s' l'.
Proof using.
  intros Hb He Hf Hlen Hws s l Hcap. unfold ata_write_sect_lba28_pio.
  destruct (issue_sect_spec dev lba WRITE_SECTS_CMD e Hb ltac:(done) He) as (e6 & E6 & He6 & S6 & Hcnt & Haddr).
  rewrite (bind_ok _ _ _ _ _ E6). pose proof (ata_write_command e6 0x1F0 Hb Hcnt) as Hc. cbv zeta in Hc.
  rewrite Haddr in Hc. fold s l in Hc. rewrite (proj2 (Z.ltb_lt _ _) Hcap) in Hc. destruct Hc as (S7 & k & Hk & P7).
  change WRITE_SECTS_CMD with 0x30 in *.
  destruct (wait_drq_spec (λ k, Data_out k s l []) k fuel (env_out W8 (0x1F0 + 7) 0x30 e6))
    as (e8 & E8 & He8 & S8 & P8); [done|by apply waits_out| |lia|by apply env_out_wf|done|].
  { intros e0 j Hj. rewrite (ata_drq e0 0x1F0 Hb), Hj. by destruct j. }
  rewrite (bind_ok _ _ _ _ _ E8).
  destruct (send_spec s l 255 [] ws e8 Hb He8 P8 Hlen eq_refl ltac:(done) Hws) as (e9 & E9 & Hs9 & Ho9).
  exists e9. split; [exact E9|]. split; [done|]. intros b' s' l' Hne. rewrite Ho9 by done. congruence.
Qed.

(** [ata_read_sect_lba28_pio] sends the identify command: whatever the address, the words
    stored are those the drive describes itself with, and only if the kernel's string
    literals can be written. *)
Theorem ata_read_sect_identifies `{!AtaDrq E} dev lba (rodata_writable : bool) fuel (e : E) :
  on_bus 0x1F0 → env_wf e → (max_busy < fuel)%nat →
  if rodata_writable then
    ∃ e', ata_read_sect_lba28_pio fuel true dev lba e = Ok (identity 0x1F0 (truth (slave_bit dev))) e' ∧
      sector e' = sector e
  else ata_read_sect_lba28_pio fuel false dev lba e = Fault.
Proof using.
  intros Hb He Hf. unfold ata_read_sect_lba28_pio. set (s := truth (slave_bit dev)).
  destruct (issue_sect_spec dev lba IDENTIFY e Hb ltac:(done) He) as (e6 & E6 & He6 & S6 & Hcnt & Haddr).
  destruct (ata_identify_command e6 0x1F0 Hb) as (S7 & k & Hk & P7). rewrite Haddr in P7. cbn [fst] in P7. fold s in P7.
  destruct (identity_words 0x1F0 s) as [Hlen Hws].
  destruct (wait_drq_spec (λ k, Data_in k (identity 0x1F0 s)) k fuel (env_out W8 (0x1F0 + 7) IDENTIFY e6))
    as (e8 & E8 & He8 & S8 & P8); [done|by apply waits_in| |lia|by apply env_out_wf|done|].
  { intros e0 j Hj. rewrite (ata_drq e0 0x1F0 Hb), Hj. by destruct j. }
  assert (∀ b, (issue_sect dev lba IDENTIFY ;;; wait_drq fuel ;;; identify_words 256 b) e = identify_words 256 b e8) as Hrun.
  { intros b. by rewrite (bind_ok _ _ _ _ _ E6), (bind_ok _ _ _ _ _ E8). }
  destruct rodata_writable; rewrite Hrun.
  - destruct (identify_spec _ e8 Hb He8 P8 Hws) as (e9 & E9 & S9). rewrite Hlen in E9.
    exists e9. split; [done|congruence].
  - rewrite <-Hlen. by apply identify_faults.
Qed.
End correctness.
