(* ===== verification/Buffer.v ===== *)
(** * The buffer cache (src/fs/devfs/buffer.c, and find_bdev of devfs.c)

    Buffer heads and block devices are typed stores from addresses to records;
    0 is the null pointer. The hash chains go through the [next] fields, the free
    list through [next_free]. The disk below is the class [BlockDevice], which the
    ATA driver implements at the end of the file. [fuel] bounds the walk along a
    hash chain: more than the number of buffers is enough for every chain that
    ends. *)

From S2P Require Import Prelude Io Ata.

(** ** The disk, as the cache sees it *)

(** One sector of 512 bytes is read or written per call; [content] is what is on
    the disk. Two requests concern the same sector when their [location]s are equal. *)
Class BlockDevice (E : Type) `{Env E} := {
  bd_read : bdev → Z → M E (list Z);
  bd_write : bdev → list Z → Z → M E unit;
  location : bdev → Z → Z * bool * Z;
  present : bdev → Z → Prop;
  content : E → Z * bool * Z → list Z;
  content_length : ∀ e a, length (content e a) = 512%nat;
  bd_read_ok : ∀ e d b, env_wf e → present d b →
    ∃ e', bd_read d b e = Ok (content e (location d b)) e' ∧ env_wf e' ∧ content e' = content e;
  bd_write_ok : ∀ e d b l, env_wf e → present d b → length l = 512%nat → Forall (λ x, 0 ≤ x < 256) l →
    ∃ e', bd_write d l b e = Ok tt e' ∧ env_wf e' ∧ content e' (location d b) = l ∧
      ∀ a, a ≠ location d b → content e' a = content e a;
  bd_console : ∀ c e e', terminal_putchar c e = Ok tt e' → content e' = content e }.

(** ** State *)

Definition BLOCK_SIZE : Z := 512.
Definition MAX_BUFFER : nat := 100.
Definition CLASS_DIR : Z := 1.

(** [struct buffer_head]. The code only compares the byte [dirty] with [true]: the field is
    whether the byte equals it. *)
Record buffer_head := mkBuffer {
  bh_flags : Z; block_num : Z; dirty : bool; dev : Z; count : Z;
  next : Z; prev : Z; next_free : Z; prev_free : Z; buff : list Z }.
Definition set_dirty (b : bool) (h : buffer_head) : buffer_head :=
  mkBuffer (bh_flags h) (block_num h) b (dev h) (count h) (next h) (prev h) (next_free h) (prev_free h) (buff h).
Definition set_count (c : Z) (h : buffer_head) : buffer_head :=
  mkBuffer (bh_flags h) (block_num h) (dirty h) (dev h) c (next h) (prev h) (next_free h) (prev_free h) (buff h).
Definition set_next (p : Z) (h : buffer_head) : buffer_head :=
  mkBuffer (bh_flags h) (block_num h) (dirty h) (dev h) (count h) p (prev h) (next_free h) (prev_free h) (buff h).
Definition set_prev (p : Z) (h : buffer_head) : buffer_head :=
  mkBuffer (bh_flags h) (block_num h) (dirty h) (dev h) (count h) (next h) p (next_free h) (prev_free h) (buff h).
Definition set_next_free (p : Z) (h : buffer_head) : buffer_head :=
  mkBuffer (bh_flags h) (block_num h) (dirty h) (dev h) (count h) (next h) (prev h) p (prev_free h) (buff h).
Definition set_prev_free (p : Z) (h : buffer_head) : buffer_head :=
  mkBuffer (bh_flags h) (block_num h) (dirty h) (dev h) (count h) (next h) (prev h) (next_free h) p (buff h).
Definition set_buff (l : list Z) (h : buffer_head) : buffer_head :=
  mkBuffer (bh_flags h) (block_num h) (dirty h) (dev h) (count h) (next h) (prev h) (next_free h) (prev_free h) l.
Definition set_tag (block d : Z) (h : buffer_head) : buffer_head :=
  mkBuffer (bh_flags h) block (dirty h) d (count h) (next h) (prev h) (next_free h) (prev_free h) (buff h).

Record cache := mkCache {
  buffers : gmap Z buffer_head;
  buff_head : list Z;
  mru_buff : Z;
  lru_buff : Z;
  bdevs : gmap Z bdev;
  block_head : Z }.
Definition set_buffers (m : gmap Z buffer_head) (s : cache) : cache :=
  mkCache m (buff_head s) (mru_buff s) (lru_buff s) (bdevs s) (block_head s).
Definition set_buff_head (l : list Z) (s : cache) : cache :=
  mkCache (buffers s) l (mru_buff s) (lru_buff s) (bdevs s) (block_head s).
Definition set_mru (p : Z) (s : cache) : cache :=
  mkCache (buffers s) (buff_head s) p (lru_buff s) (bdevs s) (block_head s).
Definition set_lru (p : Z) (s : cache) : cache :=
  mkCache (buffers s) (buff_head s) (mru_buff s) p (bdevs s) (block_head s).

(** [p->field] and [p->field = v] *)
Definition ld_buffer (p : Z) : M cache buffer_head := λ s, of_option (buffers s !! p) s.
Definition upd_buffer (p : Z) (f : buffer_head → buffer_head) : M cache unit :=
  let* h := ld_buffer p in modify (λ s, set_buffers (<[p := f h]> (buffers s)) s).

Definition MAJOR_NUMBER (flags : Z) : Z := u8 (Z.shiftr flags 8).
Definition MINOR_NUMBER (flags : Z) : Z := u8 (Z.land flags 0xFF).
Definition BLOCK_DEV : Z := 3.

Section operations.
Context `{BlockDevice E}.

Definition disk_io {A} (m : M E A) : M (cache * E) A := on_snd m.
Definition on_cache {A} (m : M cache A) : M (cache * E) A := on_fst m.

(** ** devfs.c: the table of block devices. Falling off the end of the list leaves
    the result undefined: a [Fault]. *)

Fixpoint find_bdev_loop (fuel : nat) (p d : Z) : M cache bdev :=
  match fuel with
  | O => timeout
  | S f =>
      if p =? 0 then fault else
      let* s := get in
      let* b := of_option (bdevs s !! p) in
      if MINOR_NUMBER d =? minor b then ret b else find_bdev_loop f (Ata.next b) d
  end.
Definition find_bdev (d : Z) : M cache bdev := λ s,
  find_bdev_loop (S (size (bdevs s))) (block_head s) d s.

Definition add_bdev (p : Z) : M cache Z :=
  modify (λ s, mkCache (buffers s) (buff_head s) (mru_buff s) (lru_buff s) (bdevs s) p) ;;;
  ret (Z.lor (Z.shiftl BLOCK_DEV 8) 0).

(** ** buffer.c *)

(** [new] are the addresses [kmalloc] returns; the heads keep whatever the memory
    held in the fields that are not assigned. *)
Fixpoint init_chain (current : Z) (new : list Z) : M cache unit :=
  match new with
  | [] => modify (set_mru current)
  | p :: new =>
      upd_buffer current (set_next p) ;;;
      upd_buffer current (set_next_free p) ;;;
      upd_buffer p (set_prev current) ;;;
      upd_buffer p (set_prev_free current) ;;;
      init_chain p new
  end.
Definition init_buffer (first : Z) (new : list Z) : M cache unit :=
  modify (set_buff_head (first :: replicate 255 0)) ;;;
  upd_buffer first (set_prev 0) ;;;
  upd_buffer first (set_prev_free 0) ;;;
  modify (set_lru first) ;;;
  init_chain first new.

(** The search of the hash chain from the pointer [p] on; the result is null when
    the chain ends without a match. *)
Fixpoint search (fuel : nat) (p block d : Z) : M cache Z :=
  match fuel with
  | O => timeout
  | S f =>
      if p =? 0 then ret 0 else
      let* h := ld_buffer p in
      if (block_num h =? block) && (dev h =? d) then ret p else search f (next h) block d
  end.

(** Lines 33 to 55: a hit. *)
Definition take_hit (p block d : Z) : M (cache * E) Z :=
  disk_io (terminal_printhex32 block) ;;;
  let* h := on_cache (ld_buffer p) in
  (if count h =? 0 then
     on_cache
       (when (truth (prev_free h)) (upd_buffer (prev_free h) (set_next_free (next_free h))) ;;;
        let* h := ld_buffer p in
        when (truth (next_free h)) (upd_buffer (next_free h) (set_prev_free (prev_free h))) ;;;
        upd_buffer p (set_next_free 0) ;;;
        upd_buffer p (set_prev_free 0)) ;;;
     let* h := on_cache (ld_buffer p) in
     when (dirty h)
       (let* b := on_cache (find_bdev d) in
        disk_io (bd_write b (buff h) block) ;;;
        on_cache (upd_buffer p (set_dirty false)))
   else ret tt) ;;;
  on_cache (let* h := ld_buffer p in upd_buffer p (set_count (u32 (count h + 1)))) ;;;
  ret p.

(** Lines 59 to 85: the least recently used buffer is taken for the block. *)
Definition evict (block d : Z) : M (cache * E) Z :=
  let* s := gets fst in
  let new_head := lru_buff s in
  let* h := on_cache (ld_buffer new_head) in
  on_cache (modify (set_lru (next_free h))) ;;;
  on_cache (when (truth (next_free h)) (upd_buffer (next_free h) (set_prev_free 0))) ;;;
  let* h := on_cache (ld_buffer new_head) in
  when (dirty h)
    (let* b := on_cache (find_bdev (dev h)) in
     disk_io (bd_write b (buff h) (block_num h)) ;;;
     on_cache (upd_buffer new_head (set_dirty false))) ;;;
  on_cache (upd_buffer new_head (λ h, set_tag block d (set_count (u32 (count h + 1)) h))) ;;;
  let* b := on_cache (find_bdev d) in
  let* data := disk_io (bd_read b block) in
  on_cache
    (upd_buffer new_head (set_buff data) ;;;
     let* s := get in
     let* first := of_option (buff_head s !! Z.to_nat (Z.land block 0xFF)) in
     upd_buffer new_head (set_next first) ;;;
     when (truth first) (upd_buffer first (set_prev new_head)) ;;;
     modify (λ s, set_buff_head (<[Z.to_nat (Z.land block 0xFF) := new_head]> (buff_head s)) s) ;;;
     upd_buffer new_head (set_next_free 0) ;;;
     upd_buffer new_head (set_prev_free 0) ;;;
     upd_buffer new_head (set_prev 0)) ;;;
  ret new_head.

Definition get_block (fuel : nat) (block d : Z) : M (cache * E) Z :=
  let* s := gets fst in
  let* first := of_option (buff_head s !! Z.to_nat (Z.land block 0xFF)) in
  let* p := on_cache (search fuel first block d) in
  if truth p then take_hit p block d else evict block d.

Definition put_block (p : Z) : M cache unit :=
  let* h := ld_buffer p in
  if 1 <? count h then upd_buffer p (set_count (count h - 1))
  else
    let* s := get in
    if bh_flags h =? CLASS_DIR then
      upd_buffer (mru_buff s) (set_next_free p) ;;;
      upd_buffer p (set_prev_free (mru_buff s)) ;;;
      modify (set_mru p)
    else
      upd_buffer (lru_buff s) (set_prev_free p) ;;;
      upd_buffer p (set_next_free (lru_buff s)) ;;;
      modify (set_lru p).

(** ** Specification *)

(** The hash chain from [p] on consists of the buffers [l] and ends. *)
Fixpoint chain (m : gmap Z buffer_head) (p : Z) (l : list Z) : Prop :=
  match l with
  | [] => p = 0
  | q :: l => p = q ∧ q ≠ 0 ∧ ∃ h, m !! q = Some h ∧ chain m (next h) l
  end.
Definition tag_is (m : gmap Z buffer_head) (block d q : Z) : bool :=
  match m !! q with Some h => (block_num h =? block) && (dev h =? d) | None => false end.

(** A pointer field is null or the address of a buffer. *)
Definition valid_ptr (m : gmap Z buffer_head) (q : Z) : Prop := q = 0 ∨ is_Some (m !! q).
Definition valid_ptrs (m : gmap Z buffer_head) (h : buffer_head) : Prop :=
  valid_ptr m (next h) ∧ valid_ptr m (next_free h) ∧ valid_ptr m (prev_free h).

#[global] Instance valid_ptr_dec m q : Decision (valid_ptr m q).
Proof using. unfold valid_ptr. apply _. Defined.
#[global] Instance valid_ptrs_dec m h : Decision (valid_ptrs m h).
Proof using. unfold valid_ptrs. apply _. Defined.

(** The cache while nothing has been written: null is not a buffer, pointers are
    valid, no buffer is dirty, device [d] is [b], and each buffer of device [d],
    other than [ex], holds the contents of its block. *)
Record clean (ex : Z) (s : cache) (e : E) (d : Z) (b : bdev) : Prop := {
  cl_null : buffers s !! 0 = None;
  cl_heads : Forall (valid_ptr (buffers s)) (buff_head s);
  cl_ptrs : ∀ q h, buffers s !! q = Some h → valid_ptrs (buffers s) h;
  cl_clean : ∀ q h, buffers s !! q = Some h → dirty h = false;
  cl_data : ∀ q h, buffers s !! q = Some h → q ≠ ex → dev h = d →
    buff h = content e (location b (block_num h));
  cl_dev : find_bdev d s = Ok b s }.

(** Everything of a buffer but its place in the free list and its back link. *)
Definition core (h : buffer_head) : Z * Z * bool * list Z * Z * Z * Z :=
  (block_num h, dev h, dirty h, buff h, bh_flags h, count h, next h).
Definition core_at (s : cache) (q : Z) := core <$> buffers s !! q.

(** ** Lemmas *)

Lemma ld_buffer_ok p h s : buffers s !! p = Some h → ld_buffer p s = Ok h s.
Proof using. unfold ld_buffer. by intros ->. Qed.
Lemma upd_buffer_ok p h f s :
  buffers s !! p = Some h → upd_buffer p f s = Ok tt (set_buffers (<[p := f h]> (buffers s)) s).
Proof using. intros Hp. unfold upd_buffer. by rewrite (bind_ok _ _ _ _ _ (ld_buffer_ok _ _ _ Hp)). Qed.

Lemma on_cache_ok {A} (m : M cache A) s (e : E) a s' : m s = Ok a s' → on_cache m (s, e) = Ok a (s', e).
Proof using. unfold on_cache, on_fst, zoom. simpl. by intros ->. Qed.
Lemma disk_io_ok {A} (m : M E A) (s : cache) e a e' : m e = Ok a e' → disk_io m (s, e) = Ok a (s, e').
Proof using. unfold disk_io, on_snd, zoom. simpl. by intros ->. Qed.

Lemma search_spec m l : ∀ fuel p block d s,
  buffers s = m → chain m p l → (length l < fuel)%nat →
  search fuel p block d s = Ok (default 0 (List.find (tag_is m block d) l)) s.
Proof using.
  induction l as [|q l IH]; intros [|fuel] p block d s Hm Hc Hf; simpl in Hf; try lia; cbn [search].
  - simpl in Hc. by subst p.
  - destruct Hc as (-> & Hq & h & Hh & Hc). rewrite (proj2 (Z.eqb_neq q 0)) by done.
    rewrite (bind_ok _ _ _ _ _ (ld_buffer_ok q h s ltac:(by rewrite Hm))). simpl.
    unfold tag_is at 1. rewrite Hh. destruct (_ && _); [done|]. apply IH; [done|done|lia].
Qed.

Lemma find_bdev_frame d b s s' :
  find_bdev d s = Ok b s → bdevs s' = bdevs s → block_head s' = block_head s → find_bdev d s' = Ok b s'.
Proof using.
  unfold find_bdev. intros Hf Hb Hh. rewrite Hb, Hh.
  revert Hf. generalize (S (size (bdevs s))) as n, (block_head s) as q.
  induction n as [|n IH]; intros q Hf; [done|]. cbn [find_bdev_loop] in *.
  destruct (q =? 0); [done|]. rewrite bind_get in *. rewrite Hb.
  destruct (bdevs s !! q) as [h|]; [|done]. simpl in *. rewrite bind_ret_l in *.
  destruct (_ =? _); [by injection Hf as ->|]. by apply IH.
Qed.

Lemma valid_ptr_insert m p h q : valid_ptr m q → valid_ptr (<[p := h]> m) q.
Proof using.
  intros [->|Hq]; [by left|right]. destruct (decide (p = q)) as [->|].
  - by rewrite lookup_insert_eq.
  - by rewrite lookup_insert_ne.
Qed.
Lemma valid_ptrs_insert m p h h' : valid_ptrs m h' → valid_ptrs (<[p := h]> m) h'.
Proof using. intros (?&?&?). split_and!; by apply valid_ptr_insert. Qed.

(** An update of one buffer that keeps the cache clean. *)
Lemma clean_upd ex p f s e d b h :
  clean ex s e d b → buffers s !! p = Some h →
  (valid_ptrs (buffers s) h → valid_ptrs (buffers s) (f h)) →
  dirty (f h) = dirty h →
  (p = ex ∨ dev (f h) = dev h ∧ block_num (f h) = block_num h ∧ buff (f h) = buff h) →
  let s' := set_buffers (<[p := f h]> (buffers s)) s in
  upd_buffer p f s = Ok tt s' ∧ clean ex s' e d b.
Proof using.
  intros [Hnull Hheads Hptrs Hcl Hdata Hdev] Hp Hv Hd Hsame. split; [by apply upd_buffer_ok|].
  constructor; simpl.
  - rewrite lookup_insert_ne; [done|]. intros ->. congruence.
  - eapply Forall_impl; [exact Hheads|]. intros q. apply valid_ptr_insert.
  - intros q h' Hq. apply valid_ptrs_insert. apply lookup_insert_Some in Hq as [[<- <-]|[_ Hq]]; eauto.
  - intros q h' Hq. apply lookup_insert_Some in Hq as [[<- <-]|[_ Hq]]; [|eauto]. rewrite Hd. eauto.
  - intros q h' Hq Hne Hdv. apply lookup_insert_Some in Hq as [[<- <-]|[_ Hq]]; [|eauto].
    destruct Hsame as [->|(E1 & E2 & E3)]; [done|]. rewrite E3, E2. apply (Hdata p); congruence.
  - by apply (find_bdev_frame d b s).
Qed.

(** The same for a change of the free list or of a back link. *)
Lemma clean_link ex p f s e d b :
  clean ex s e d b → is_Some (buffers s !! p) →
  (∀ h, valid_ptrs (buffers s) h → valid_ptrs (buffers s) (f h)) →
  (∀ h, core (f h) = core h) →
  ∃ s', upd_buffer p f s = Ok tt s' ∧ clean ex s' e d b ∧
    (∀ q, core_at s' q = core_at s q) ∧
    buff_head s' = buff_head s ∧ lru_buff s' = lru_buff s ∧ mru_buff s' = mru_buff s.
Proof using.
  intros Hc [h Hp] Hv Hcore. specialize (Hcore h) as Hch. unfold core in Hch. injection Hch as H1' H2' H3' H4' H5' H6' H7'.
  destruct (clean_upd ex p f s e d b h Hc Hp) as [E1 Hc']; [apply Hv|done|by right|].
  eexists. split; [exact E1|]. split; [done|]. split; [|done]. intros q. unfold core_at. simpl.
  destruct (decide (p = q)) as [<-|Hne].
  - rewrite lookup_insert_eq, Hp. simpl. by rewrite Hcore.
  - by rewrite lookup_insert_ne.
Qed.

(** [if (q) q->field = ...] for a field outside of [core]. *)
Lemma clean_when ex q f s e d b :
  clean ex s e d b → valid_ptr (buffers s) q →
  (∀ h, valid_ptrs (buffers s) h → valid_ptrs (buffers s) (f h)) →
  (∀ h, core (f h) = core h) →
  ∃ s', when (truth q) (upd_buffer q f) s = Ok tt s' ∧ clean ex s' e d b ∧
    (∀ q, core_at s' q = core_at s q) ∧
    buff_head s' = buff_head s ∧ lru_buff s' = lru_buff s ∧ mru_buff s' = mru_buff s.
Proof using.
  intros Hc Hq Hv Hcore. unfold truth. destruct (Z.eqb_spec q 0) as [->|Hne]; simpl.
  - by exists s.
  - apply clean_link; try done. by destruct Hq.
Qed.

Lemma core_some s s' q : core_at s' q = core_at s q → is_Some (buffers s !! q) → is_Some (buffers s' !! q).
Proof using.
  unfold core_at. intros Hc [h Hq]. rewrite Hq in Hc. destruct (buffers s' !! q); [by eexists|done].
Qed.
Lemma core_valid s s' q : (∀ q, core_at s' q = core_at s q) → valid_ptr (buffers s) q → valid_ptr (buffers s') q.
Proof using. intros Hc [->|Hq]; [by left|right]. apply (core_some s); [apply Hc|exact Hq]. Qed.

(** Setting a pointer field to a valid pointer. *)
Lemma set_next_free_valid m q h : valid_ptr m q → valid_ptrs m h → valid_ptrs m (set_next_free q h).
Proof using. intros Hq (?&?&?). split_and!; assumption. Qed.
Lemma set_prev_free_valid m q h : valid_ptr m q → valid_ptrs m h → valid_ptrs m (set_prev_free q h).
Proof using. intros Hq (?&?&?). split_and!; assumption. Qed.
Lemma set_next_valid m q h : valid_ptr m q → valid_ptrs m h → valid_ptrs m (set_next q h).
Proof using. intros Hq (?&?&?). split_and!; assumption. Qed.
Lemma null_valid m : valid_ptr m 0.
Proof using. by left. Qed.

(** Changes of the variables outside of the store. *)
Lemma clean_set_lru ex s e d b p : clean ex s e d b → clean ex (set_lru p s) e d b.
Proof using. intros []. constructor; try done. by apply (find_bdev_frame d b s). Qed.
Lemma clean_set_head ex s e d b i p :
  clean ex s e d b → valid_ptr (buffers s) p → clean ex (set_buff_head (<[i := p]> (buff_head s)) s) e d b.
Proof using.
  intros [] Hp. constructor; try done; simpl; [by apply Forall_insert|]. by apply (find_bdev_frame d b s).
Qed.
Lemma clean_content ex s e e' d b : clean ex s e d b → content e' = content e → clean ex s e' d b.
Proof using. intros [] Hc. constructor; try done. by rewrite Hc. Qed.

Definition same_content (e e' : E) : Prop := content e' = content e.
#[export] Instance same_content_preorder : PreOrder same_content.
Proof using. split; [done|]. intros e1 e2 e3. unfold same_content. congruence. Qed.

Lemma core_lookup s q c : core_at s q = Some c → ∃ h, buffers s !! q = Some h ∧ core h = c.
Proof using.
  unfold core_at. destruct (buffers s !! q) as [h|] eqn:Eq; [|done]. intros [= <-]. by exists h.
Qed.

(** Setting the count of a buffer, the last step of a hit. *)
Lemma count_spec ex p c s e d b h :
  clean ex s e d b → buffers s !! p = Some h →
  let s' := set_buffers (<[p := set_count c h]> (buffers s)) s in
  upd_buffer p (set_count c) s = Ok tt s' ∧ clean ex s' e d b ∧
  core_at s' p = Some (block_num h, dev h, dirty h, buff h, bh_flags h, c, next h) ∧
  ∀ q, q ≠ p → core_at s' q = core_at s q.
Proof using.
  intros Hc Hp. destruct (clean_upd ex p (set_count c) s e d b h Hc Hp) as [E1 Hc']; [done..|by right|].
  split; [done|]. split; [done|]. unfold core_at. simpl. split.
  - by rewrite lookup_insert_eq.
  - intros q Hq. by rewrite lookup_insert_ne.
Qed.

(** Taking a buffer off the free list. *)
Lemma unlink_spec p s e d b h :
  clean 0 s e d b → buffers s !! p = Some h →
  ∃ s', (when (truth (prev_free h)) (upd_buffer (prev_free h) (set_next_free (next_free h))) ;;;
         let* h := ld_buffer p in
         when (truth (next_free h)) (upd_buffer (next_free h) (set_prev_free (prev_free h))) ;;;
         upd_buffer p (set_next_free 0) ;;;
         upd_buffer p (set_prev_free 0)) s = Ok tt s' ∧ clean 0 s' e d b ∧
    (∀ q, core_at s' q = core_at s q) ∧ buff_head s' = buff_head s ∧ lru_buff s' = lru_buff s.
Proof using.
  intros Hc Hp. destruct (cl_ptrs _ _ _ _ _ Hc p h Hp) as (_ & Hnf & Hpf).
  destruct (clean_when 0 (prev_free h) (set_next_free (next_free h)) s e d b Hc Hpf)
    as (s1 & E1 & Hc1 & Hcore1 & Hh1 & Hl1 & _); [intros; by apply set_next_free_valid|done|].
  rewrite (bind_ok _ _ _ _ _ E1).
  destruct (core_some s s1 p (Hcore1 p)) as [h1 Hp1]; [by eexists|].
  rewrite (bind_ok _ _ _ _ _ (ld_buffer_ok _ _ _ Hp1)).
  destruct (cl_ptrs _ _ _ _ _ Hc1 p h1 Hp1) as (_ & Hnf1 & Hpf1).
  destruct (clean_when 0 (next_free h1) (set_prev_free (prev_free h1)) s1 e d b Hc1 Hnf1)
    as (s2 & E2 & Hc2 & Hcore2 & Hh2 & Hl2 & _); [intros; by apply set_prev_free_valid|done|].
  rewrite (bind_ok _ _ _ _ _ E2).
  destruct (clean_link 0 p (set_next_free 0) s2 e d b Hc2) as (s3 & E3 & Hc3 & Hcore3 & Hh3 & Hl3 & _);
    [eapply core_some; [apply Hcore2|by eexists]|intros; by apply set_next_free_valid; [apply null_valid|]|done|].
  rewrite (bind_ok _ _ _ _ _ E3).
  destruct (clean_link 0 p (set_prev_free 0) s3 e d b Hc3) as (s4 & E4 & Hc4 & Hcore4 & Hh4 & Hl4 & _);
    [eapply core_some; [apply Hcore3|eapply core_some; [apply Hcore2|by eexists]]
    |intros; by apply set_prev_free_valid; [apply null_valid|]|done|].
  exists s4. split; [done|]. split; [done|]. split; [|split; congruence].
  intros q. by rewrite Hcore4, Hcore3, Hcore2, Hcore1.
Qed.

Lemma take_hit_spec p block s e d b h :
  clean 0 s e d b → env_wf e → buffers s !! p = Some h →
  ∃ s' e', take_hit p block d (s, e) = Ok p (s', e') ∧ env_wf e' ∧ content e' = content e ∧
    clean 0 s' e' d b ∧ lru_buff s' = lru_buff s ∧ buff_head s' = buff_head s ∧
    core_at s' p = Some (block_num h, dev h, dirty h, buff h, bh_flags h, u32 (count h + 1), next h) ∧
    ∀ q, q ≠ p → core_at s' q = core_at s q.
Proof using.
  intros Hc He Hp. unfold take_hit.
  destruct (prints_hex32 same_content bd_console block e He) as (e1 & E1 & He1 & Hcont).
  rewrite (bind_ok _ _ _ _ _ (disk_io_ok _ s _ _ _ E1)).
  pose proof (clean_content _ _ _ e1 _ _ Hc Hcont) as Hc1.
  rewrite (bind_ok _ _ _ _ _ (on_cache_ok _ _ e1 _ _ (ld_buffer_ok _ _ _ Hp))).
  assert (∃ s1, (if count h =? 0 then
     on_cache
       (when (truth (prev_free h)) (upd_buffer (prev_free h) (set_next_free (next_free h))) ;;;
        let* h := ld_buffer p in
        when (truth (next_free h)) (upd_buffer (next_free h) (set_prev_free (prev_free h))) ;;;
        upd_buffer p (set_next_free 0) ;;;
        upd_buffer p (set_prev_free 0)) ;;;
     let* h := on_cache (ld_buffer p) in
     when (dirty h)
       (let* b := on_cache (find_bdev d) in
        disk_io (bd_write b (buff h) block) ;;;
        on_cache (upd_buffer p (set_dirty false)))
   else ret tt) (s, e1) = Ok tt (s1, e1) ∧ clean 0 s1 e1 d b ∧ (∀ q, core_at s1 q = core_at s q) ∧
     buff_head s1 = buff_head s ∧ lru_buff s1 = lru_buff s) as (s1 & E2 & Hc2 & Hcore & Hbh & Hlru).
  { destruct (count h =? 0); [|by exists s].
    destruct (unlink_spec p s e1 d b h Hc1 Hp) as (s1 & E2 & Hc2 & Hcore & Hbh & Hlru). exists s1.
    rewrite (bind_ok _ _ _ _ _ (on_cache_ok _ _ e1 _ _ E2)).
    destruct (core_some s s1 p (Hcore p)) as [h1 Hp1]; [by eexists|].
    rewrite (bind_ok _ _ _ _ _ (on_cache_ok _ _ e1 _ _ (ld_buffer_ok _ _ _ Hp1))).
    by rewrite (cl_clean _ _ _ _ _ Hc2 _ _ Hp1). }
  rewrite (bind_ok _ _ _ _ _ E2).
  destruct (core_lookup s1 p (core h)) as (h1 & Hp1 & Hh1).
  { rewrite Hcore. unfold core_at. by rewrite Hp. }
  unfold core in Hh1. injection Hh1 as T1 T2 T3 T4 T5 T6 T7.
  destruct (count_spec 0 p (u32 (count h1 + 1)) s1 e1 d b h1 Hc2 Hp1) as (E3 & Hc3 & Hat & Hother).
  rewrite (bind_ok _ _ _ tt (set_buffers (<[p := set_count (u32 (count h1 + 1)) h1]> (buffers s1)) s1, e1)).
  - eexists _, e1. split; [done|]. split; [done|]. split; [done|]. split; [done|]. split; [done|].
    split; [done|]. split; [congruence|]. intros q Hq. by rewrite Hother, Hcore.
  - apply on_cache_ok. by rewrite (bind_ok _ _ _ _ _ (ld_buffer_ok _ _ _ Hp1)).
Qed.

Lemma clean_weaken p s e d b : clean 0 s e d b → clean p s e d b.
Proof using.
  intros [Hnull ? ? ? Hdata ?]. constructor; try done. intros q h Hq _.
  apply (Hdata q h Hq). intros ->. congruence.
Qed.
Lemma clean_fill p s e d b h :
  clean p s e d b → buffers s !! p = Some h → buff h = content e (location b (block_num h)) →
  clean 0 s e d b.
Proof using.
  intros [? ? ? ? Hdata ?] Hp Hb. constructor; try done. intros q h' Hq _ Hd.
  destruct (decide (q = p)) as [->|Hne]; [congruence|eauto].
Qed.

(** The first half of [evict]: the tag is set, then the data is read. *)
Lemma load_spec p block s e d b h :
  clean 0 s e d b → env_wf e → present b block → buffers s !! p = Some h →
  ∃ s' e', (on_cache (upd_buffer p (λ h, set_tag block d (set_count (u32 (count h + 1)) h))) ;;;
            let* b := on_cache (find_bdev d) in
            let* data := disk_io (bd_read b block) in
            on_cache (upd_buffer p (set_buff data))) (s, e) = Ok tt (s', e') ∧
    env_wf e' ∧ content e' = content e ∧ clean 0 s' e' d b ∧
    buff_head s' = buff_head s ∧ lru_buff s' = lru_buff s ∧
    core_at s' p = Some (block, d, false, content e (location b block), bh_flags h, u32 (count h + 1), next h) ∧
    ∀ q, q ≠ p → core_at s' q = core_at s q.
Proof using.
  intros Hc He Hpres Hp. set (f := λ h, set_tag block d (set_count (u32 (count h + 1)) h)).
  destruct (clean_upd p p f s e d b h (clean_weaken _ _ _ _ _ Hc) Hp) as [E1 Hc1]; [done|done|by left|].
  set (s1 := set_buffers _ s) in *. rewrite (bind_ok _ _ _ _ _ (on_cache_ok _ _ e _ _ E1)).
  rewrite (bind_ok _ _ _ _ _ (on_cache_ok _ _ e _ _ (cl_dev _ _ _ _ _ Hc1))).
  destruct (bd_read_ok e b block He Hpres) as (e1 & E2 & He1 & Hcont).
  rewrite (bind_ok _ _ _ _ _ (disk_io_ok _ s1 _ _ _ E2)).
  assert (buffers s1 !! p = Some (f h)) as Hp1 by apply lookup_insert_eq.
  destruct (clean_upd p p (set_buff (content e (location b block))) s1 e1 d b (f h)
    (clean_content _ _ _ _ _ _ Hc1 Hcont) Hp1) as [E3 Hc3]; [done|done|by left|].
  eexists _, e1. split; [by apply on_cache_ok|]. split; [done|]. split; [done|].
  split; [|split; [done|split; [done|split]]].
  - eapply clean_fill; [exact Hc3|simpl; by rewrite lookup_insert_eq|]. simpl. by rewrite Hcont.
  - unfold core_at. simpl. rewrite lookup_insert_eq. simpl. unfold core. simpl.
    by rewrite (cl_clean _ _ _ _ _ Hc p h Hp).
  - intros q Hq. unfold core_at. simpl. by rewrite !lookup_insert_ne.
Qed.

(** The second half: the buffer becomes the head of its chain. *)
Lemma push_spec p block s e d b h first :
  clean 0 s e d b → buffers s !! p = Some h →
  buff_head s !! Z.to_nat (Z.land block 0xFF) = Some first →
  ∃ s', (let* s := get in
         let* first := of_option (buff_head s !! Z.to_nat (Z.land block 0xFF)) in
         upd_buffer p (set_next first) ;;;
         when (truth first) (upd_buffer first (set_prev p)) ;;;
         modify (λ s, set_buff_head (<[Z.to_nat (Z.land block 0xFF) := p]> (buff_head s)) s) ;;;
         upd_buffer p (set_next_free 0) ;;;
         upd_buffer p (set_prev_free 0) ;;;
         upd_buffer p (set_prev 0)) s = Ok tt s' ∧ clean 0 s' e d b ∧
    buff_head s' = <[Z.to_nat (Z.land block 0xFF) := p]> (buff_head s) ∧ lru_buff s' = lru_buff s ∧
    core_at s' p = Some (block_num h, dev h, dirty h, buff h, bh_flags h, count h, first) ∧
    ∀ q, q ≠ p → core_at s' q = core_at s q.
Proof using.
  intros Hc Hp Hfirst. rewrite bind_get, Hfirst. simpl. rewrite bind_ret_l.
  assert (valid_ptr (buffers s) first) as Hv.
  { pose proof (cl_heads _ _ _ _ _ Hc) as HF. rewrite Forall_lookup in HF. by eapply HF. }
  destruct (clean_upd 0 p (set_next first) s e d b h Hc Hp) as [E1 Hc1];
    [by apply set_next_valid|done|by right|]. set (s1 := set_buffers _ s) in *.
  rewrite (bind_ok _ _ _ _ _ E1).
  destruct (clean_when 0 first (set_prev p) s1 e d b Hc1) as (s2 & E2 & Hc2 & Hcore2 & Hh2 & Hl2 & _);
    [by apply valid_ptr_insert|done|done|].
  rewrite (bind_ok _ _ _ _ _ E2), bind_modify.
  assert (is_Some (buffers s1 !! p)) as Hp1 by (simpl; rewrite lookup_insert_eq; by eexists).
  pose proof (core_some s1 s2 p (Hcore2 p) Hp1) as Hp2.
  set (s3 := set_buff_head _ s2).
  assert (clean 0 s3 e d b) as Hc3 by (by apply clean_set_head; [|right]).
  destruct (clean_link 0 p (set_next_free 0) s3 e d b Hc3 Hp2) as (s4 & E4 & Hc4 & Hcore4 & Hh4 & Hl4 & _);
    [intros; by apply set_next_free_valid; [apply null_valid|]|done|].
  pose proof (core_some s3 s4 p (Hcore4 p) Hp2) as Hp4.
  destruct (clean_link 0 p (set_prev_free 0) s4 e d b Hc4 Hp4) as (s5 & E5 & Hc5 & Hcore5 & Hh5 & Hl5 & _);
    [intros; by apply set_prev_free_valid; [apply null_valid|]|done|].
  pose proof (core_some s4 s5 p (Hcore5 p) Hp4) as Hp5.
  destruct (clean_link 0 p (set_prev 0) s5 e d b Hc5 Hp5) as (s6 & E6 & Hc6 & Hcore6 & Hh6 & Hl6 & _); [done|done|].
  rewrite (bind_ok _ _ _ _ _ E4), (bind_ok _ _ _ _ _ E5). exists s6.
  assert (∀ q, core_at s6 q = core_at s1 q) as Hcore.
  { intros q. rewrite Hcore6, Hcore5, Hcore4. apply (Hcore2 q). }
  split; [exact E6|]. split; [done|]. split; [rewrite Hh6, Hh5, Hh4; simpl; by rewrite Hh2|].
  split; [rewrite Hl6, Hl5, Hl4; exact Hl2|]. split.
  - rewrite Hcore. unfold core_at. simpl. by rewrite lookup_insert_eq.
  - intros q Hq. rewrite Hcore. unfold core_at. simpl. by rewrite lookup_insert_ne.
Qed.

(** [evict] as the composition of its two halves. *)
Lemma split_load p block d (s s1 : cache) (e e1 : E) (k : M cache unit) (r : M (cache * E) Z) :
  (on_cache (upd_buffer p (λ h, set_tag block d (set_count (u32 (count h + 1)) h))) ;;;
   let* b := on_cache (find_bdev d) in
   let* data := disk_io (bd_read b block) in
   on_cache (upd_buffer p (set_buff data))) (s, e) = Ok tt (s1, e1) →
  (on_cache (upd_buffer p (λ h, set_tag block d (set_count (u32 (count h + 1)) h))) ;;;
   let* b := on_cache (find_bdev d) in
   let* data := disk_io (bd_read b block) in
   on_cache (upd_buffer p (set_buff data) ;;; k) ;;; r) (s, e) = bind (on_cache k) (λ _, r) (s1, e1).
Proof using.
  unfold on_cache, on_fst, zoom, bind. simpl.
  destruct (upd_buffer p _ s) as [[] s2| | |]; simpl; try done.
  destruct (find_bdev d s2) as [b s3| | |]; simpl; try done.
  destruct (disk_io (bd_read b block) (s3, e)) as [data [s4 e4]| | |]; simpl; try done.
  destruct (upd_buffer p (set_buff data) s4) as [[] s5| | |]; simpl; try done.
  intros [= -> ->]. simpl. by destruct (k s1).
Qed.

Lemma evict_spec block s e d b h first :
  clean 0 s e d b → env_wf e → present b block → buffers s !! lru_buff s = Some h →
  buff_head s !! Z.to_nat (Z.land block 0xFF) = Some first →
  ∃ s' e', evict block d (s, e) = Ok (lru_buff s) (s', e') ∧ env_wf e' ∧ content e' = content e ∧
    clean 0 s' e' d b ∧ lru_buff s' = next_free h ∧
    buff_head s' = <[Z.to_nat (Z.land block 0xFF) := lru_buff s]> (buff_head s) ∧
    core_at s' (lru_buff s) = Some (block, d, false, content e (location b block), bh_flags h,
      u32 (count h + 1), first) ∧
    ∀ q, q ≠ lru_buff s → core_at s' q = core_at s q.
Proof using.
  intros Hc He Hpres Hp Hfirst. set (p := lru_buff s) in *. unfold evict.
  rewrite bind_gets. cbn [fst]. fold p.
  rewrite (bind_ok _ _ _ _ _ (on_cache_ok _ _ e _ _ (ld_buffer_ok _ _ _ Hp))).
  set (s1 := set_lru (next_free h) s).
  rewrite (bind_ok _ _ _ tt (s1, e)) by done.
  pose proof (clean_set_lru 0 s e d b (next_free h) Hc) as Hc1. fold s1 in Hc1.
  destruct (cl_ptrs _ _ _ _ _ Hc p h Hp) as (_ & Hnf & _).
  destruct (clean_when 0 (next_free h) (set_prev_free 0) s1 e d b Hc1 Hnf)
    as (s2 & E2 & Hc2 & Hcore2 & Hh2 & Hl2 & _); [intros; by apply set_prev_free_valid; [apply null_valid|]|done|].
  rewrite (bind_ok _ _ _ _ _ (on_cache_ok _ _ e _ _ E2)).
  destruct (core_lookup s2 p (core h)) as (h2 & Hp2 & Hh2').
  { rewrite Hcore2. unfold core_at. simpl. by rewrite Hp. }
  rewrite (bind_ok _ _ _ _ _ (on_cache_ok _ _ e _ _ (ld_buffer_ok _ _ _ Hp2))).
  rewrite (cl_clean _ _ _ _ _ Hc2 p h2 Hp2). unfold when at 1. rewrite bind_ret_l.
  unfold core in Hh2'. injection Hh2' as T1 T2 T3 T4 T5 T6 T7.
  destruct (load_spec p block s2 e d b h2 Hc2 He Hpres Hp2)
    as (s3 & e1 & E3 & He1 & Hcont & Hc3 & Hh3 & Hl3 & Hat3 & Hoth3).
  destruct (core_lookup s3 p _ Hat3) as (h3 & Hp3 & Hh3'). unfold core in Hh3'.
  injection Hh3' as U1 U2 U3 U4 U5 U6 U7.
  destruct (push_spec p block s3 e1 d b h3 first Hc3 Hp3) as (s4 & E4 & Hc4 & Hh4 & Hl4 & Hat4 & Hoth4);
    [by rewrite Hh3, Hh2|].
  exists s4, e1. split; [|split; [done|split; [done|split; [done|split; [rewrite Hl4, Hl3; exact Hl2|split; [rewrite Hh4, Hh3, Hh2; done|split]]]]]].
  - rewrite (split_load _ _ _ _ _ _ _ _ _ E3). by rewrite (bind_ok _ _ _ _ _ (on_cache_ok _ _ e1 _ _ E4)).
  - rewrite Hat4. congruence.
  - intros q Hq. rewrite Hoth4, Hoth3, Hcore2 by done. done.
Qed.

(** What a search of the chains sees of a buffer. *)
Definition view (s : cache) (q : Z) : option (Z * Z * Z) :=
  (λ h, (block_num h, dev h, next h)) <$> buffers s !! q.

Lemma core_view s q b' d' x y z c n : core_at s q = Some (b', d', x, y, z, c, n) → view s q = Some (b', d', n).
Proof using.
  intros Hc. destruct (core_lookup s q _ Hc) as (h & Hq & Hh). unfold core in Hh. injection Hh as <- <- _ _ _ _ <-.
  unfold view. by rewrite Hq.
Qed.
Lemma core_same_view s s' q : core_at s' q = core_at s q → view s' q = view s q.
Proof using.
  intros Hc. destruct (core_at s q) as [[[[[[[b' d'] x] y] z] c] n]|] eqn:Eq.
  - by rewrite (core_view _ _ _ _ _ _ _ _ _ Hc), (core_view _ _ _ _ _ _ _ _ _ Eq).
  - unfold core_at, view in *. by destruct (buffers s' !! q), (buffers s !! q).
Qed.

Lemma chain_frame s s' l : ∀ p,
  (∀ q, q ∈ l → view s' q = view s q) → chain (buffers s) p l → chain (buffers s') p l.
Proof using.
  induction l as [|q l IH]; intros p Hv Hc; [done|]. destruct Hc as (-> & Hq & h & Hh & Hc).
  specialize (Hv q ltac:(set_solver)) as Hvq. unfold view in Hvq. rewrite Hh in Hvq.
  destruct (buffers s' !! q) as [h'|] eqn:Hh'; [|done]. simpl in Hvq. injection Hvq as _ _ Hn.
  split; [done|]. split; [done|]. exists h'. split; [done|]. rewrite Hn. apply IH; [set_solver|done].
Qed.
Lemma chain_view s s' p l :
  (∀ q, view s' q = view s q) → chain (buffers s) p l → chain (buffers s') p l.
Proof using. intros Hv. apply chain_frame. intros q _. apply Hv. Qed.
Lemma chain_det m l : ∀ p l', chain m p l → chain m p l' → l = l'.
Proof using.
  induction l as [|q l IH]; intros p [|q' l'] Hc Hc'; [done|..].
  - destruct Hc' as (-> & Hq & _). by simpl in Hc.
  - destruct Hc as (-> & Hq & _). by simpl in Hc'.
  - destruct Hc as (-> & _ & h & Hh & Hc), Hc' as (<- & _ & h' & Hh' & Hc').
    rewrite Hh in Hh'. injection Hh' as <-. f_equal. by apply (IH (next h)).
Qed.
Lemma find_view s s' block d l :
  (∀ q, view s' q = view s q) →
  List.find (tag_is (buffers s') block d) l = List.find (tag_is (buffers s) block d) l.
Proof using.
  intros Hv. induction l as [|q l IH]; [done|]. simpl.
  assert (tag_is (buffers s') block d q = tag_is (buffers s) block d q) as ->; [|by rewrite IH].
  specialize (Hv q). unfold view in Hv. unfold tag_is.
  destruct (buffers s' !! q), (buffers s !! q); try done. simpl in Hv. by injection Hv as -> -> _.
Qed.

Lemma find_some {A} (f : A → bool) l x : List.find f l = Some x → x ∈ l ∧ f x = true.
Proof using. intros Hf. apply List.find_some in Hf as [Hin ?]. by rewrite list_elem_of_In. Qed.
Lemma chain_elem m l : ∀ p q, chain m p l → q ∈ l → q ≠ 0.
Proof using.
  induction l as [|x l IH]; intros p q Hc Hq; [by apply elem_of_nil in Hq|].
  destruct Hc as (-> & Hx & h & _ & Hc). apply elem_of_cons in Hq as [->|Hq]; [done|]. by eapply IH.
Qed.

(** The place of [block] in the hash table, with the chain that starts there. *)
Definition bucket (s : cache) (block : Z) (l : list Z) : Prop :=
  ∃ first, buff_head s !! Z.to_nat (Z.land block 0xFF) = Some first ∧ chain (buffers s) first l.

Lemma bucket_view s s' block l :
  (∀ q, view s' q = view s q) → buff_head s' = buff_head s → bucket s block l → bucket s' block l.
Proof using.
  intros Hv Hh (first & Hf & Hch). exists first. rewrite Hh. split; [done|]. by apply (chain_view s).
Qed.

(** [get_block] on a chain that ends: a hit, or the buffer is taken off the free list. *)
Lemma get_block_cases fuel block s (e : E) d l :
  bucket s block l → (length l < fuel)%nat →
  get_block fuel block d (s, e) =
    (match List.find (tag_is (buffers s) block d) l with
     | Some p => take_hit p block d
     | None => evict block d
     end) (s, e).
Proof using.
  intros (first & Hfirst & Hch) Hf.
  unfold get_block. rewrite bind_gets. cbn [fst]. rewrite Hfirst. cbn [of_option]. rewrite bind_ret_l.
  rewrite (bind_ok _ _ _ _ _ (on_cache_ok _ _ e _ _ (search_spec _ l fuel first block d s eq_refl Hch Hf))).
  destruct (List.find _ l) as [p|] eqn:Hfind; [|done].
  apply find_some in Hfind as [Hin _]. unfold truth. cbn [default from_option id].
  by rewrite (proj2 (Z.eqb_neq _ _) (chain_elem _ _ _ _ Hch Hin)).
Qed.

Lemma get_block_hit fuel block s e d b l p h :
  clean 0 s e d b → env_wf e → bucket s block l → (length l < fuel)%nat →
  List.find (tag_is (buffers s) block d) l = Some p → buffers s !! p = Some h →
  ∃ s' e', get_block fuel block d (s, e) = Ok p (s', e') ∧ env_wf e' ∧ content e' = content e ∧
    clean 0 s' e' d b ∧ lru_buff s' = lru_buff s ∧ buff_head s' = buff_head s ∧
    core_at s' p = Some (block_num h, dev h, dirty h, buff h, bh_flags h, u32 (count h + 1), next h) ∧
    ∀ q, q ≠ p → core_at s' q = core_at s q.
Proof using.
  intros Hc He Hb Hf Hfind Hp. rewrite (get_block_cases fuel block s e d l Hb Hf), Hfind.
  by apply take_hit_spec.
Qed.
Lemma get_block_miss fuel block s e d b l h :
  clean 0 s e d b → env_wf e → present b block → bucket s block l → (length l < fuel)%nat →
  List.find (tag_is (buffers s) block d) l = None → buffers s !! lru_buff s = Some h →
  ∃ first s' e', get_block fuel block d (s, e) = Ok (lru_buff s) (s', e') ∧ env_wf e' ∧ content e' = content e ∧
    clean 0 s' e' d b ∧ lru_buff s' = next_free h ∧
    buff_head s !! Z.to_nat (Z.land block 0xFF) = Some first ∧
    buff_head s' = <[Z.to_nat (Z.land block 0xFF) := lru_buff s]> (buff_head s) ∧
    core_at s' (lru_buff s) = Some (block, d, false, content e (location b block), bh_flags h,
      u32 (count h + 1), first) ∧
    ∀ q, q ≠ lru_buff s → core_at s' q = core_at s q.
Proof using.
  intros Hc He Hpres Hb Hf Hfind Hp. rewrite (get_block_cases fuel block s e d l Hb Hf), Hfind.
  destruct Hb as (first & Hfirst & _).
  destruct (evict_spec block s e d b h first Hc He Hpres Hp Hfirst) as (s' & e' & E' & He' & Hcon & Hc' & Hrest).
  exists first, s', e'. split_and!; tauto.
Qed.

Lemma find_tag m block d l p :
  List.find (tag_is m block d) l = Some p → ∃ h, m !! p = Some h ∧ block_num h = block ∧ dev h = d.
Proof using.
  intros Hf. apply find_some in Hf as [_ Ht]. unfold tag_is in Ht. destruct (m !! p) as [h|]; [|done].
  exists h. apply andb_true_iff in Ht as [Hone Htwo]. by apply Z.eqb_eq in Hone, Htwo.
Qed.

(** The free list gets the buffer back. The link fields change, and the count if it
    was more than one. *)
Lemma put_block_spec p s e d b h :
  clean 0 s e d b → buffers s !! p = Some h →
  is_Some (buffers s !! lru_buff s) → is_Some (buffers s !! mru_buff s) →
  ∃ s', put_block p s = Ok tt s' ∧ clean 0 s' e d b ∧ buff_head s' = buff_head s ∧
    core_at s' p = Some (block_num h, dev h, dirty h, buff h, bh_flags h,
      if 1 <? count h then count h - 1 else count h, next h) ∧
    (∀ q, q ≠ p → core_at s' q = core_at s q) ∧
    lru_buff s' = (if (1 <? count h) || (bh_flags h =? CLASS_DIR) then lru_buff s else p) ∧
    mru_buff s' = (if negb (1 <? count h) && (bh_flags h =? CLASS_DIR) then p else mru_buff s).
Proof using.
  intros Hc Hp Hlru Hmru. unfold put_block.
  rewrite (bind_ok _ _ _ _ _ (ld_buffer_ok _ _ _ Hp)). destruct (Z.ltb_spec 1 (count h)) as [Hcount|Hcount].
  - destruct (count_spec 0 p (count h - 1) s e d b h Hc Hp) as (E1 & Hc1 & Hat & Hoth). eexists. by split_and!.
  - rewrite bind_get. set (dir := bh_flags h =? CLASS_DIR).
    set (q := if dir then mru_buff s else lru_buff s).
    assert (is_Some (buffers s !! q)) as Hq by (unfold q; by destruct dir).
    destruct (clean_link 0 q (if dir then set_next_free p else set_prev_free p) s e d b Hc Hq)
      as (s1 & E1 & Hc1 & Hcore1 & Hh1 & Hl1 & Hm1).
    { intros h'. destruct dir; [apply set_next_free_valid|apply set_prev_free_valid]; right; by eexists. }
    { intros h'. by destruct dir. }
    pose proof (core_some s s1 p (Hcore1 p) ltac:(by eexists)) as Hp1.
    pose proof (core_some s s1 q (Hcore1 q) Hq) as Hq1.
    destruct (clean_link 0 p (if dir then set_prev_free q else set_next_free q) s1 e d b Hc1 Hp1)
      as (s2 & E2 & Hc2 & Hcore2 & Hh2 & Hl2 & Hm2).
    { intros h'. destruct dir; [apply set_prev_free_valid|apply set_next_free_valid]; by right. }
    { intros h'. by destruct dir. }
    assert (core_at s p = Some (core h)) as Hat by (unfold core_at; by rewrite Hp).
    exists (if dir then set_mru p s2 else set_lru p s2). unfold q in *. clear q.
    destruct dir; cbn [orb andb negb]; rewrite (bind_ok _ _ _ _ _ E1), (bind_ok _ _ _ _ _ E2);
      (split; [done|]); (split; [destruct Hc2; constructor; try done; by apply (find_bdev_frame d b s2)|]);
      (split; [simpl; congruence|]); change (core_at (set_mru p s2)) with (core_at s2);
      change (core_at (set_lru p s2)) with (core_at s2); rewrite Hcore2, Hcore1, Hat;
      (split; [done|]); (split; [intros; by rewrite Hcore2, Hcore1|]); simpl; split; congruence.
Qed.

(** C9. [get_block] on a cache that nothing has been written to: the search ends, the
    buffer returned is tagged with the block and holds the block's contents on disk,
    whether the block was cached or not; the disk is unchanged, every other buffer
    keeps its data, and the cache stays in this state. *)
Theorem get_block_reads fuel block s e d b l :
  clean 0 s e d b → env_wf e → present b block → is_Some (buffers s !! lru_buff s) →
  bucket s block l → (length l < fuel)%nat →
  ∃ p s' e' h, get_block fuel block d (s, e) = Ok p (s', e') ∧
    buffers s' !! p = Some h ∧ block_num h = block ∧ dev h = d ∧ buff h = content e (location b block) ∧
    clean 0 s' e' d b ∧ content e' = content e ∧ env_wf e' ∧
    ∀ q, q ≠ p → core_at s' q = core_at s q.
Proof using Type*.
  intros Hc He Hpres [hl Hlru] Hb Hf. destruct (List.find (tag_is (buffers s) block d) l) as [p|] eqn:Hfind.
  - destruct (find_tag _ _ _ _ _ Hfind) as (h & Hp & <- & <-).
    destruct (get_block_hit fuel _ s e _ b l p h Hc He Hb Hf Hfind Hp)
      as (s' & e' & E' & He' & Hcont & Hc' & _ & _ & Hat & Hoth).
    destruct (core_lookup s' p _ Hat) as (h' & Hp' & Hh'). unfold core in Hh'. injection Hh' as T1 T2 T3 T4 T5 T6 T7.
    exists p, s', e', h'. split_and!; try done. rewrite T4. apply (cl_data _ _ _ _ _ Hc p h Hp); [|done].
    intros ->. by rewrite (cl_null _ _ _ _ _ Hc) in Hp.
  - destruct (get_block_miss fuel block s e d b l hl Hc He Hpres Hb Hf Hfind Hlru)
      as (first & s' & e' & E' & He' & Hcont & Hc' & _ & _ & _ & Hat & Hoth).
    destruct (core_lookup s' _ _ Hat) as (h' & Hp' & Hh'). unfold core in Hh'. injection Hh' as T1 T2 T3 T4 T5 T6 T7.
    exists (lru_buff s), s', e', h'. by split_and!.
Qed.

(** A chain that runs into a buffer that is its own successor has no end. *)
Lemma search_loops m fuel p block d h s :
  buffers s = m → m !! p = Some h → p ≠ 0 → next h = p → block_num h ≠ block → search fuel p block d s = Timeout.
Proof using.
  intros Hm Hp Hz Hn Hb. induction fuel as [|fuel IH]; [done|]. cbn [search].
  rewrite (proj2 (Z.eqb_neq p 0)) by done.
  rewrite (bind_ok _ _ _ _ _ (ld_buffer_ok p h s ltac:(by rewrite Hm))).
  by rewrite (proj2 (Z.eqb_neq _ _) Hb), Hn.
Qed.

(** When the least recently used buffer heads the chain of the block that is
    missed, [get_block] makes it its own successor: it returns, but from then on a
    request for any other block of that chain never returns, whatever the fuel. *)
Theorem get_block_self_loop fuel block s e d b l :
  clean 0 s e d b → env_wf e → present b block → is_Some (buffers s !! lru_buff s) →
  bucket s block l → (length l < fuel)%nat →
  List.find (tag_is (buffers s) block d) l = None →
  buff_head s !! Z.to_nat (Z.land block 0xFF) = Some (lru_buff s) →
  ∃ s' e', get_block fuel block d (s, e) = Ok (lru_buff s) (s', e') ∧
    ∀ block2 d2 fuel2, block2 ≠ block → Z.land block2 0xFF = Z.land block 0xFF →
      get_block fuel2 block2 d2 (s', e') = Timeout.
Proof using Type*.
  intros Hc He Hpres [hl Hlru] Hb Hf Hfind Hhead.
  destruct (get_block_miss fuel block s e d b l hl Hc He Hpres Hb Hf Hfind Hlru)
    as (first & s' & e' & E' & He' & Hcont & Hc' & _ & Hfirst & Hbh & Hat & Hoth).
  exists s', e'. split; [done|]. intros block2 d2 fuel2 Hne Hsame.
  destruct (core_lookup s' _ _ Hat) as (h' & Hp' & Hh'). unfold core in Hh'. injection Hh' as T1 T2 T3 T4 T5 T6 T7.
  unfold get_block. rewrite bind_gets. cbn [fst].
  rewrite Hsame, Hbh, list_lookup_insert_eq by (by eapply lookup_lt_Some). cbn [of_option]. rewrite bind_ret_l.
  unfold bind at 1, on_cache, on_fst, zoom. cbn [fst].
  rewrite (search_loops _ fuel2 (lru_buff s) block2 d2 h' s' eq_refl Hp'); [done| |congruence|congruence].
  intros Hz. rewrite Hz in Hlru. by rewrite (cl_null _ _ _ _ _ Hc) in Hlru.
Qed.

(** A buffer that is put back and then found again is still the next one to be
    taken from the free list: [put_block] leaves its count at one, so the second
    [get_block] does not take it off the list, and a request for another block
    returns the same buffer, overwritten, while the first request still holds it. *)
Theorem get_block_aliases fuel block2 s e d b p h l1 l2 :
  clean 0 s e d b → env_wf e → buffers s !! p = Some h → dev h = d → count h = 1 → bh_flags h ≠ CLASS_DIR →
  is_Some (buffers s !! lru_buff s) → is_Some (buffers s !! mru_buff s) →
  bucket s (block_num h) l1 → List.find (tag_is (buffers s) (block_num h) d) l1 = Some p →
  bucket s block2 l2 → List.find (tag_is (buffers s) block2 d) l2 = None →
  (length l1 < fuel)%nat → (length l2 < fuel)%nat → present b block2 →
  ∃ s1 s2 e2 s3 e3 h3, put_block p s = Ok tt s1 ∧
    get_block fuel (block_num h) d (s1, e) = Ok p (s2, e2) ∧
    get_block fuel block2 d (s2, e2) = Ok p (s3, e3) ∧
    buffers s3 !! p = Some h3 ∧ block_num h3 = block2 ∧ buff h3 = content e (location b block2).
Proof using Type*.
  intros Hc He Hp Hd Hcount Hdir Hlru Hmru Hb1 Hfind1 Hb2 Hfind2 Hf1 Hf2 Hpres.
  destruct (put_block_spec p s e d b h Hc Hp Hlru Hmru) as (s1 & E1 & Hc1 & Hh1 & Hat1 & Hoth1 & Hl1 & _).
  rewrite Hcount in Hat1, Hl1. rewrite (proj2 (Z.eqb_neq _ _) Hdir) in Hl1. simpl in Hat1, Hl1.
  assert (core_at s p = Some (core h)) as Hat by (unfold core_at; by rewrite Hp).
  assert (∀ q, view s1 q = view s q) as Hv1.
  { intros q. destruct (decide (q = p)) as [->|]; [|by apply core_same_view, Hoth1].
    by rewrite (core_view _ _ _ _ _ _ _ _ _ Hat1), (core_view _ _ _ _ _ _ _ _ _ Hat). }
  destruct (core_lookup s1 p _ Hat1) as (h1 & Hp1 & Hh1').
  unfold core in Hh1'. injection Hh1' as T1 T2 T3 T4 T5 T6 T7.
  destruct (get_block_hit fuel (block_num h) s1 e d b l1 p h1 Hc1 He)
    as (s2 & e2 & E2 & He2 & Hcont2 & Hc2 & Hl2 & Hh2 & Hat2 & Hoth2);
    [by apply (bucket_view s)|done|by rewrite (find_view s s1)|done|].
  assert (∀ q, view s2 q = view s q) as Hv2.
  { intros q. rewrite <-Hv1. destruct (decide (q = p)) as [->|]; [|by apply core_same_view, Hoth2].
    rewrite (core_view _ _ _ _ _ _ _ _ _ Hat2), (core_view _ _ _ _ _ _ _ _ _ Hat1). congruence. }
  destruct (core_lookup s2 p _ Hat2) as (h2 & Hp2 & _). rewrite Hl1 in Hl2.
  destruct (get_block_miss fuel block2 s2 e2 d b l2 h2 Hc2 He2 Hpres)
    as (first & s3 & e3 & E3 & He3 & Hcont3 & Hc3 & _ & _ & _ & Hat3 & _);
    [apply (bucket_view s); [done|congruence|done]|done|by rewrite (find_view s s2)|by rewrite Hl2|].
  rewrite Hl2 in E3, Hat3. destruct (core_lookup s3 p _ Hat3) as (h3 & Hp3 & Hh3').
  unfold core in Hh3'. injection Hh3' as U1 U2 U3 U4 U5 U6 U7.
  exists s1, s2, e2, s3, e3, h3. split_and!; try done. congruence.
Qed.

(** What an update of link fields keeps, dirty buffers or not. *)
Definition payload (h : buffer_head) : Z * Z * bool * list Z := (block_num h, dev h, dirty h, buff h).
Definition same_payload (s s' : cache) : Prop :=
  (∀ q, payload <$> buffers s' !! q = payload <$> buffers s !! q) ∧
  buff_head s' = buff_head s ∧ bdevs s' = bdevs s ∧ block_head s' = block_head s.
#[export] Instance same_payload_preorder : PreOrder same_payload.
Proof using.
  split; [done|]. intros s1 s2 s3 (A1&A2&A3&A4) (B1&B2&B3&B4). split_and!; congruence.
Qed.

Lemma payload_lookup s s' q h :
  same_payload s s' → buffers s !! q = Some h → ∃ h', buffers s' !! q = Some h' ∧ payload h' = payload h.
Proof using.
  intros (Hp & _) Hq. specialize (Hp q). rewrite Hq in Hp. destruct (buffers s' !! q) as [h'|]; [|done].
  exists h'. split; [done|]. by apply (inj Some).
Qed.
Lemma upd_payload q f s :
  is_Some (buffers s !! q) → (∀ h, payload (f h) = payload h) →
  ∃ s', upd_buffer q f s = Ok tt s' ∧ same_payload s s'.
Proof using.
  intros [h Hq] Hf. eexists. split; [by apply upd_buffer_ok|]. split; [|done]. intros r. simpl.
  destruct (decide (q = r)) as [<-|]; [by rewrite lookup_insert_eq, Hq; simpl; rewrite Hf|by rewrite lookup_insert_ne].
Qed.
Lemma when_payload q f s :
  valid_ptr (buffers s) q → (∀ h, payload (f h) = payload h) →
  ∃ s', when (truth q) (upd_buffer q f) s = Ok tt s' ∧ same_payload s s'.
Proof using.
  intros Hq Hf. unfold truth. destruct (Z.eqb_spec q 0) as [->|]; [by exists s|].
  apply upd_payload; [by destruct Hq|done].
Qed.
Lemma payload_valid s s' q : same_payload s s' → valid_ptr (buffers s) q → valid_ptr (buffers s') q.
Proof using.
  intros Hs [->|[h Hq]]; [by left|right]. destruct (payload_lookup s s' q h Hs Hq) as (h' & -> & _). by eexists.
Qed.

Lemma push_payload p i s h :
  buffers s !! p = Some h → Forall (valid_ptr (buffers s)) (buff_head s) → (i < length (buff_head s))%nat →
  ∃ s' h', (let* s := get in
         let* first := of_option (buff_head s !! i) in
         upd_buffer p (set_next first) ;;;
         when (truth first) (upd_buffer first (set_prev p)) ;;;
         modify (λ s, set_buff_head (<[i := p]> (buff_head s)) s) ;;;
         upd_buffer p (set_next_free 0) ;;;
         upd_buffer p (set_prev_free 0) ;;;
         upd_buffer p (set_prev 0)) s = Ok tt s' ∧ buffers s' !! p = Some h' ∧ payload h' = payload h.
Proof using.
  intros Hp HF Hi. destruct (lookup_lt_is_Some_2 (buff_head s) i Hi) as [first Hfirst].
  rewrite bind_get, Hfirst. simpl. rewrite bind_ret_l. rewrite Forall_lookup in HF. specialize (HF i first Hfirst).
  destruct (upd_payload p (set_next first) s) as (s1 & E1 & K1); [by eexists|done|]. rewrite (bind_ok _ _ _ _ _ E1).
  destruct (when_payload first (set_prev p) s1) as (s2 & E2 & K2); [by apply (payload_valid s)|done|].
  rewrite (bind_ok _ _ _ _ _ E2), bind_modify. set (s3 := set_buff_head _ s2).
  destruct (payload_lookup s s2 p h) as (h3 & Hp3 & Hh3); [by etrans|done|].
  destruct (upd_payload p (set_next_free 0) s3) as (s4 & E4 & K4); [by eexists|done|].
  destruct (payload_lookup s3 s4 p h3 K4 Hp3) as (h4 & Hp4 & Hh4).
  destruct (upd_payload p (set_prev_free 0) s4) as (s5 & E5 & K5); [by eexists|done|].
  destruct (payload_lookup s4 s5 p h4 K5 Hp4) as (h5 & Hp5 & Hh5).
  destruct (upd_payload p (set_prev 0) s5) as (s6 & E6 & K6); [by eexists|done|].
  destruct (payload_lookup s5 s6 p h5 K6 Hp5) as (h6 & Hp6 & Hh6).
  exists s6, h6. rewrite (bind_ok _ _ _ _ _ E4), (bind_ok _ _ _ _ _ E5). split; [done|]. split; [done|congruence].
Qed.

(** The first half of [evict] in any cache. *)
Lemma load_any p block s e d b h :
  find_bdev d s = Ok b s → env_wf e → present b block → buffers s !! p = Some h →
  ∃ s' e' h', (on_cache (upd_buffer p (λ h, set_tag block d (set_count (u32 (count h + 1)) h))) ;;;
            let* b := on_cache (find_bdev d) in
            let* data := disk_io (bd_read b block) in
            on_cache (upd_buffer p (set_buff data))) (s, e) = Ok tt (s', e') ∧
    env_wf e' ∧ content e' = content e ∧ buffers s' = <[p := h']> (buffers s) ∧ buff_head s' = buff_head s ∧
    payload h' = (block, d, dirty h, content e (location b block)).
Proof using.
  intros Hb He Hpres Hp. set (f := λ h, set_tag block d (set_count (u32 (count h + 1)) h)).
  set (s1 := set_buffers (<[p := f h]> (buffers s)) s).
  rewrite (bind_ok _ _ _ tt (s1, e)) by (apply on_cache_ok; by rewrite (upd_buffer_ok p _ f s Hp)).
  rewrite (bind_ok _ _ _ _ _ (on_cache_ok _ _ e _ _ (find_bdev_frame _ _ s s1 Hb eq_refl eq_refl))).
  destruct (bd_read_ok e b block He Hpres) as (e1 & E1 & He1 & Hc1).
  rewrite (bind_ok _ _ _ _ _ (disk_io_ok _ s1 _ _ _ E1)).
  eexists _, e1, _. split; [apply on_cache_ok, upd_buffer_ok; apply lookup_insert_eq|].
  split; [done|]. split; [done|]. simpl. rewrite insert_insert_eq. by split_and!.
Qed.

(** Evicting a dirty buffer. *)
Lemma evict_dirty block d s e h b0 b :
  find_bdev (dev h) s = Ok b0 s → find_bdev d s = Ok b s → env_wf e →
  buffers s !! lru_buff s = Some h → valid_ptr (buffers s) (next_free h) → next_free h ≠ lru_buff s →
  Forall (valid_ptr (buffers s)) (buff_head s) → length (buff_head s) = 256%nat → 0 ≤ block →
  dirty h = true → length (buff h) = 512%nat → Forall (λ x, 0 ≤ x < 256) (buff h) →
  present b0 (block_num h) → present b block →
  ∃ s' e' h', evict block d (s, e) = Ok (lru_buff s) (s', e') ∧ env_wf e' ∧
    content e' (location b0 (block_num h)) = buff h ∧
    (∀ a, a ≠ location b0 (block_num h) → content e' a = content e a) ∧
    buffers s' !! lru_buff s = Some h' ∧ payload h' = (block, d, false, content e' (location b block)).
Proof using Type*.
  intros Hb0 Hb He Hp Hnf Hne HF Hlen Hblock Hd Hl Hbytes Hpres0 Hpres. set (p := lru_buff s) in *.
  unfold evict. rewrite bind_gets. cbn [fst]. fold p.
  rewrite (bind_ok _ _ _ _ _ (on_cache_ok _ _ e _ _ (ld_buffer_ok _ _ _ Hp))).
  rewrite (bind_ok _ _ _ tt (set_lru (next_free h) s, e)) by done. set (s1 := set_lru _ s).
  assert (same_payload s s1) as K1 by done.
  destruct (when_payload (next_free h) (set_prev_free 0) s1) as (s2 & E2 & K2); [done|done|].
  rewrite (bind_ok _ _ _ _ _ (on_cache_ok _ _ e _ _ E2)).
  destruct (payload_lookup s s2 p h) as (h2 & Hp2 & Hh2); [by etrans|done|]. unfold payload in Hh2.
  injection Hh2 as T1 T2 T3 T4.
  rewrite (bind_ok _ _ _ _ _ (on_cache_ok _ _ e _ _ (ld_buffer_ok _ _ _ Hp2))), T1, T2, T3, T4, Hd.
  destruct K2 as (K2a & K2b & K2c & K2d).
  pose proof (find_bdev_frame _ _ s s2 Hb0 K2c K2d) as Hb2.
  destruct (bd_write_ok e b0 (block_num h) (buff h) He Hpres0 Hl Hbytes) as (e1 & E3 & He1 & Hc1 & Ho1).
  set (s3 := set_buffers (<[p := set_dirty false h2]> (buffers s2)) s2).
  rewrite (bind_ok _ _ _ tt (s3, e1)).
  2:{ unfold when. rewrite (bind_ok _ _ _ _ _ (on_cache_ok _ _ e _ _ Hb2)), (bind_ok _ _ _ _ _ (disk_io_ok _ s2 _ _ _ E3)).
      by apply on_cache_ok, upd_buffer_ok. }
  destruct (load_any p block s3 e1 d b (set_dirty false h2) (find_bdev_frame _ _ s s3 Hb K2c K2d) He1 Hpres)
    as (s5 & e2 & h5 & E5 & He2 & Hc2 & Hm5 & Hh5 & Hpay); [apply lookup_insert_eq|].
  rewrite (split_load _ _ _ _ _ _ _ _ _ E5).
  destruct (push_payload p (Z.to_nat (Z.land block 0xFF)) s5 h5) as (s6 & h6 & E6 & Hp6 & Hh6).
  { rewrite Hm5. apply lookup_insert_eq. }
  { rewrite Hh5, Hm5. simpl. rewrite K2b. eapply Forall_impl; [exact HF|]. intros q Hq.
    do 2 apply valid_ptr_insert. by apply (payload_valid s s2). }
  { rewrite Hh5. simpl. rewrite K2b. change (buff_head s1) with (buff_head s). rewrite Hlen. change 0xFF with (Z.ones 8).
    rewrite Z.land_ones by lia. change (2 ^ 8) with 256. word_lia. }
  exists s6, e2, h6. rewrite (bind_ok _ _ _ _ _ (on_cache_ok _ _ e2 _ _ E6)), Hc2.
  split_and!; done || by rewrite Hh6, Hpay.
Qed.

(** C34. A miss that takes a dirty buffer writes it to the block it holds before the
    new block is read: afterwards the disk has the buffer's data there and is
    otherwise unchanged, and the new block's data is in a clean buffer. *)
Theorem evict_writes_back block d s e h b0 b :
  find_bdev (dev h) s = Ok b0 s → find_bdev d s = Ok b s → env_wf e →
  buffers s !! lru_buff s = Some h → valid_ptr (buffers s) (next_free h) → next_free h ≠ lru_buff s →
  Forall (valid_ptr (buffers s)) (buff_head s) → length (buff_head s) = 256%nat → 0 ≤ block →
  dirty h = true → length (buff h) = 512%nat → Forall (λ x, 0 ≤ x < 256) (buff h) →
  present b0 (block_num h) → present b block →
  ∃ s' e' h', evict block d (s, e) = Ok (lru_buff s) (s', e') ∧ env_wf e' ∧
    content e' (location b0 (block_num h)) = buff h ∧
    (∀ a, a ≠ location b0 (block_num h) → content e' a = content e a) ∧
    buffers s' !! lru_buff s = Some h' ∧ payload h' = (block, d, false, content e' (location b block)).
Proof using Type*. apply evict_dirty. Qed.
End operations.

(** ** The ATA driver as the disk of the cache *)

Section ata.
Context `{AtaBus E}.

Lemma words_of_bytes n : ∀ l, length l = (2 * n)%nat → Forall (λ x, 0 ≤ x < 256) l →
  ∃ ws, length ws = n ∧ Forall (λ w, 0 ≤ w < 65536) ws ∧ bytes_of ws = l.
Proof using.
  induction n as [|n IH]; intros l Hl HF.
  - exists []. by destruct l.
  - destruct l as [|x [|y l]]; simpl in Hl; try lia. apply Forall_cons in HF as [Hx HF].
    apply Forall_cons in HF as [Hy HF]. destruct (IH l ltac:(lia) HF) as (ws & Hw & HFw & Hb).
    exists ((x + 256 * y) :: ws). split; [simpl; lia|]. split; [constructor; [lia|done]|].
    change (bytes_of ((x + 256 * y) :: ws)) with ((x + 256 * y) mod 256 :: (x + 256 * y) / 256 :: bytes_of ws).
    rewrite Hb. f_equal; [word_lia|f_equal; word_lia].
Qed.

#[export] Program Instance ata_block_device : BlockDevice E := {
  bd_read b block := ata_read_sects_28_pio (S max_busy) 1 b block;
  bd_write b l block := ata_write_sects_28_pio (S max_busy) l 1 b block;
  location b block := (base b, truth (slave_bit b), selected b block);
  present b block := on_bus (base b) ∧ selected b block < capacity (base b) (truth (slave_bit b));
  content e a := bytes_of (sector e a.1.1 a.1.2 a.2) }.
Next Obligation.
  intros e a. cbv beta. etrans; [apply bytes_of_length|]. by destruct (sector_words e a.1.1 a.1.2 a.2) as [-> _].
Qed.
Next Obligation.
  intros e d b He [Hb Hc]. pose proof (read_sector_spec d b (S max_busy) e Hb He ltac:(lia)) as Hr. cbv zeta in Hr.
  rewrite (proj2 (Z.ltb_lt _ _) Hc) in Hr. destruct Hr as (e' & E' & He' & Hs). exists e'.
  split; [exact E'|]. split; [done|]. simpl. by rewrite Hs.
Qed.
Next Obligation.
  intros e d b l He [Hb Hc] Hl HF. destruct (words_of_bytes 256 l Hl HF) as (ws & Hw & HFw & <-).
  pose proof (write_sector_spec d b ws (S max_busy) e Hb He ltac:(lia) Hw HFw) as Hr. cbv zeta in Hr.
  rewrite (proj2 (Z.ltb_lt _ _) Hc) in Hr. destruct Hr as (e' & E' & He' & Hs & Ho). exists e'.
  split; [exact E'|]. split; [done|]. simpl. rewrite Hs. split; [done|].
  intros [[b' s'] l'] Hne. simpl. by rewrite Ho.
Qed.
Next Obligation.
  intros c e e' Hp. destruct (ata_console c e e' Hp) as (_ & _ & Hs). simpl. by rewrite Hs.
Qed.
End ata.
