(* ===== verification/BufferInit.v ===== *)
(** * The buffer cache as [init_buffer] leaves it (src/fs/devfs/buffer.c)

    [init_buffer] assigns the links of the buffers and nothing else: the buffers are in
    one chain, which is the free list and the bucket of block 0, and the other fields are
    what the memory held. *)

From S2P Require Import Prelude Io Ata Buffer.

(** The four links, from the place in the row. *)
Definition link_prev (p : Z) (h : buffer_head) : buffer_head := set_prev_free p (set_prev p h).
Definition link_next (p : option Z) (h : buffer_head) : buffer_head :=
  match p with Some p => set_next_free p (set_next p h) | None => h end.
Definition pred_of (l : list Z) (i : nat) : Z := match i with O => 0 | S j => nth j l 0 end.
Definition placed (l : list Z) (i : nat) (h : buffer_head) : buffer_head :=
  link_next (l !! S i) (link_prev (pred_of l i) h).
(** What [init_buffer] does not assign. *)
Definition unassigned (h : buffer_head) : Z * Z * bool * Z * Z * list Z :=
  (bh_flags h, block_num h, dirty h, dev h, Buffer.count h, buff h).

Lemma placed_unassigned l i h : unassigned (placed l i h) = unassigned h.
Proof. unfold placed, link_next. by destruct (l !! S i). Qed.

(** Two updates of one buffer. *)
Lemma upd_twice {B} p f g h (k : unit → M cache B) s :
  buffers s !! p = Some h →
  (upd_buffer p f ;;; (upd_buffer p g ;;; k tt)) s = k tt (set_buffers (<[p := g (f h)]> (buffers s)) s).
Proof.
  intros Hp. rewrite (bind_ok _ _ _ _ _ (upd_buffer_ok _ _ f _ Hp)).
  rewrite (bind_ok _ _ _ _ _ (upd_buffer_ok p (f h) g (set_buffers _ s) ltac:(apply lookup_insert_eq))).
  simpl. by rewrite insert_insert_eq.
Qed.

Lemma init_chain_spec new : ∀ current s,
  NoDup (current :: new) → (∀ q, q ∈ current :: new → is_Some (buffers s !! q)) →
  ∃ m, init_chain current new s =
      Ok tt (mkCache m (buff_head s) (default current (last new)) (lru_buff s) (bdevs s) (block_head s)) ∧
    (∀ q, q ∉ current :: new → m !! q = buffers s !! q) ∧
    (∀ h, buffers s !! current = Some h → m !! current = Some (link_next (new !! 0%nat) h)) ∧
    (∀ i q h, new !! i = Some q → buffers s !! q = Some h →
      m !! q = Some (link_next (new !! S i) (link_prev (nth i (current :: new) 0) h))).
Proof.
  induction new as [|p new IH]; intros current s Hnd Hin.
  { exists (buffers s). by split_and!. }
  apply NoDup_cons in Hnd as [Hc Hnd].
  destruct (Hin current) as [hc Hhc]; [by left|]. destruct (Hin p) as [hp Hhp]; [right; by left|].
  assert (current ≠ p) as Hcp by (intros ->; apply Hc; by left).
  cbn [init_chain].
  rewrite (upd_twice current (set_next p) (set_next_free p) hc (λ _, upd_buffer p (set_prev current) ;;; (upd_buffer p (set_prev_free current) ;;; init_chain p new)) s Hhc).
  set (s1 := set_buffers _ s).
  rewrite (upd_twice p (set_prev current) (set_prev_free current) hp (λ _, init_chain p new) s1) by (simpl; by rewrite lookup_insert_ne).
  set (s2 := set_buffers _ s1). destruct (IH p s2 Hnd) as (m & E & Ho & Hfirst & Hrest).
  { intros q Hq. simpl. destruct (decide (q = p)) as [->|]; [by rewrite lookup_insert_eq|rewrite lookup_insert_ne by done].
    destruct (decide (q = current)) as [->|]; [by rewrite lookup_insert_eq|rewrite lookup_insert_ne by done]. apply Hin. by right. }
  exists m. split; [rewrite E; f_equal; f_equal; rewrite last_cons; by destruct (last new)|]. split; [|split].
  - intros q [Hq1 Hq2]%not_elem_of_cons. rewrite Ho by done. simpl. apply not_elem_of_cons in Hq2 as [Hq2 _].
    by rewrite !lookup_insert_ne by congruence.
  - intros h Hh. rewrite Ho by done. simpl. rewrite lookup_insert_ne, lookup_insert_eq by done. by simplify_eq.
  - intros [|i] q h Hq Hh.
    + injection Hq as <-. apply Hfirst. simpl. rewrite lookup_insert_eq. by simplify_eq.
    + assert (q ∈ new) as Hqn by (by eapply list_elem_of_lookup_2).
      assert (q ≠ p) by (intros ->; by apply NoDup_cons in Hnd as [? _]).
      assert (q ≠ current) by (intros ->; apply Hc; by right).
      apply Hrest; [done|]. simpl. by rewrite !lookup_insert_ne by congruence.
Qed.

(** [init_buffer] makes one doubly linked row of the buffers, the free list from [lru_buff]
    to [mru_buff] and at the same time the bucket of block 0, empties the other buckets,
    and assigns nothing else: block, device, count and [dirty] of every buffer, its data,
    and the forward links of the last one are what the memory held. *)
Lemma init_buffer_spec first new s :
  NoDup (first :: new) → (∀ q, q ∈ first :: new → is_Some (buffers s !! q)) →
  ∃ m, init_buffer first new s =
      Ok tt (mkCache m (first :: replicate 255 0) (default first (last new)) first (bdevs s) (block_head s)) ∧
    (∀ q, q ∉ first :: new → m !! q = buffers s !! q) ∧
    ∀ i q h, (first :: new) !! i = Some q → buffers s !! q = Some h →
      m !! q = Some (placed (first :: new) i h) ∧ unassigned (placed (first :: new) i h) = unassigned h.
Proof.
  intros Hnd Hin. destruct (Hin first) as [hf Hf]; [by left|]. unfold init_buffer. rewrite bind_modify.
  set (s1 := set_buff_head _ s).
  rewrite (upd_twice first (set_prev 0) (set_prev_free 0) hf (λ _, modify (set_lru first) ;;; init_chain first new) s1 Hf), bind_modify.
  set (s2 := set_lru _ _). destruct (init_chain_spec new first s2 Hnd) as (m & E & Ho & Hfirst & Hrest).
  { intros q Hq. simpl. destruct (decide (q = first)) as [->|]; [by rewrite lookup_insert_eq|].
    rewrite lookup_insert_ne by done. by apply Hin. }
  exists m. split; [exact E|]. split.
  - intros q Hq. rewrite Ho by done. apply not_elem_of_cons in Hq as [Hq _]. simpl. by rewrite lookup_insert_ne.
  - intros i q h Hi Hq. split; [|apply placed_unassigned]. destruct i as [|i].
    + injection Hi as <-. rewrite (Hfirst (link_prev 0 hf)) by (simpl; apply lookup_insert_eq).
      assert (hf = h) as -> by congruence. done.
    + unfold placed. cbn [pred_of]. apply Hrest; [done|]. simpl. rewrite lookup_insert_ne; [done|].
      intros <-. apply NoDup_cons in Hnd as [Hnf _]. apply Hnf. by eapply list_elem_of_lookup_2.
Qed.
