(* ===== verification/Requests.v ===== *)
(** * Sequences of requests to the buffer cache

    What a client of [Buffer.v] that reads several blocks needs: a predicate [ready]
    on the cache that says which blocks can still be requested, and the two steps
    that keep it, a request that is put back and one that is held. *)

From S2P Require Import Prelude Io Ata Buffer.

Section requests.
Context `{BlockDevice E}.

(** ** The free list

    [F] is a part of the free list, from the least recently used buffer on. *)

Definition nfree (s : cache) (q : Z) : option Z := next_free <$> buffers s !! q.

Fixpoint free_path (s : cache) (p : Z) (F : list Z) : Prop :=
  match F with
  | [] => True
  | q :: F => p = q ∧ ∃ n, nfree s q = Some n ∧ free_path s n F
  end.

Lemma free_path_ext s s' F : ∀ p,
  (∀ q, q ∈ F → nfree s' q = nfree s q) → free_path s p F → free_path s' p F.
Proof using.
  induction F as [|q F IH]; intros p Hext Hp; [done|]. destruct Hp as (-> & n & Hn & Hp).
  split; [done|]. exists n. rewrite Hext by set_solver. split; [done|]. apply IH; set_solver.
Qed.

(** Computations that leave [mru_buff], and the free links of the buffers outside of
    [X], alone. *)
Definition same_free (X : Z → Prop) (s s' : cache) : Prop :=
  mru_buff s' = mru_buff s ∧ ∀ q, ¬ X q → nfree s' q = nfree s q.
Definition keeps (X : Z → Prop) {A} (m : M (cache * E) A) : Prop := ∀ s e a s' e',
  m (s, e) = Ok a (s', e') → same_free X s s'.
Definition keepsc (X : Z → Prop) {A} (m : M cache A) : Prop := ∀ s a s',
  m s = Ok a s' → same_free X s s'.

#[local] Instance same_free_preorder X : PreOrder (same_free X).
Proof using.
  split; [done|]. intros s1 s2 s3 [A1 A2] [B1 B2]. split; [congruence|]. intros q Hq. by rewrite B2, A2.
Qed.

Section keeps.
Context (X : Z → Prop).

Lemma keeps_bind {A B} (m : M (cache * E) A) (f : A → M (cache * E) B) :
  keeps X m → (∀ a, keeps X (f a)) → keeps X (bind m f).
Proof using.
  intros Hm Hf s e b s' e' Hb. destruct (bind_inv_ok _ _ _ _ _ Hb) as (a & [s1 e1] & E1 & E2).
  etrans; [by apply (Hm s e a s1 e1)|by apply (Hf a s1 e1 b s' e')].
Qed.
Lemma keepsc_bind {A B} (m : M cache A) (f : A → M cache B) :
  keepsc X m → (∀ a, keepsc X (f a)) → keepsc X (bind m f).
Proof using.
  intros Hm Hf s b s' Hb. destruct (bind_inv_ok _ _ _ _ _ Hb) as (a & s1 & E1 & E2).
  etrans; [by apply (Hm s a s1)|by apply (Hf a s1 b s')].
Qed.
Lemma keeps_ret {A} (a : A) : keeps X (ret a).
Proof using. by intros s e a' s' e' [= _ -> _]. Qed.
Lemma keepsc_ret {A} (a : A) : keepsc X (ret a).
Proof using. by intros s a' s' [= _ ->]. Qed.
Lemma keeps_io {A} (m : M E A) : keeps X (disk_io m).
Proof using.
  intros s e a s' e'. unfold disk_io, on_snd, zoom. simpl. destruct (m e); [|done..]. by intros [= _ -> _].
Qed.
Lemma keeps_on_cache {A} (m : M cache A) : keepsc X m → keeps X (on_cache m).
Proof using.
  intros Hm s e a s' e'. unfold on_cache, on_fst, zoom. simpl. destruct (m s) eqn:Em; [|done..].
  intros [= -> -> ->]. by apply (Hm s a).
Qed.
Lemma keepsc_ld p : keepsc X (ld_buffer p).
Proof using. intros s a s'. unfold ld_buffer. destruct (buffers s !! p); [|done]. by intros [= _ ->]. Qed.
Lemma keepsc_of_option {A} (o : option A) : keepsc X (of_option o).
Proof using. intros s a s'. destruct o; [|done]. by intros [= _ ->]. Qed.
Lemma keepsc_get : keepsc X get.
Proof using. by intros s a s' [= _ ->]. Qed.
Lemma keeps_gets {A} (f : cache * E → A) : keeps X (gets f).
Proof using. by intros s e a s' e' [= _ -> _]. Qed.
Lemma keepsc_modify f :
  (∀ s, buffers (f s) = buffers s ∧ mru_buff (f s) = mru_buff s) → keepsc X (modify f).
Proof using.
  intros Hf s a s' [= _ <-]. destruct (Hf s) as [Hb Hm]. split; [done|]. intros q _. unfold nfree. by rewrite Hb.
Qed.
Lemma keepsc_upd p f : X p ∨ (∀ h, next_free (f h) = next_free h) → keepsc X (upd_buffer p f).
Proof using.
  intros Hf s a s' Hs. unfold upd_buffer in Hs.
  destruct (bind_inv_ok _ _ _ _ _ Hs) as (h & s1 & E1 & E2). unfold ld_buffer in E1.
  destruct (buffers s !! p) as [h'|] eqn:Hp; [|done]. injection E1 as <- <-. injection E2 as _ <-.
  split; [done|]. intros q Hq. unfold nfree. simpl. destruct (decide (p = q)) as [<-|Hne].
  - destruct Hf as [|Hf]; [done|]. by rewrite lookup_insert_eq, Hp; simpl; rewrite Hf.
  - by rewrite lookup_insert_ne.
Qed.
Lemma keepsc_when b m : keepsc X m → keepsc X (when b m).
Proof using. destruct b; [done|]. intros _. apply keepsc_ret. Qed.
Lemma keeps_when b m : keeps X m → keeps X (when b m).
Proof using. destruct b; [done|]. intros _. apply keeps_ret. Qed.
Lemma keepsc_find_bdev d : keepsc X (find_bdev d).
Proof using.
  intros s b s'. unfold find_bdev. generalize (S (size (bdevs s))) as n, (block_head s) as p.
  induction n as [|n IH]; intros p; [done|]. cbn [find_bdev_loop]. destruct (p =? 0); [done|].
  rewrite bind_get. destruct (bdevs s !! p) as [h|]; [|done]. simpl. rewrite bind_ret_l.
  destruct (_ =? _); [by intros [= _ ->]|apply IH].
Qed.
End keeps.

(** Syntax-directed: one rule per construct of the monad. *)
Ltac keeps_step :=
  lazymatch goal with
  | |- ∀ _, _ => intro; cbv beta
  | |- keeps _ (bind _ _) => apply keeps_bind
  | |- keeps _ (ret _) => apply keeps_ret
  | |- keeps _ (gets _) => apply keeps_gets
  | |- keeps _ (disk_io _) => apply keeps_io
  | |- keeps _ (on_cache _) => apply keeps_on_cache
  | |- keeps _ (when _ _) => apply keeps_when
  | |- keepsc _ (bind _ _) => apply keepsc_bind
  | |- keepsc _ (ret _) => apply keepsc_ret
  | |- keepsc _ get => apply keepsc_get
  | |- keepsc _ (ld_buffer _) => apply keepsc_ld
  | |- keepsc _ (of_option _) => apply keepsc_of_option
  | |- keepsc _ (find_bdev _) => apply keepsc_find_bdev
  | |- keepsc _ (modify _) => apply keepsc_modify; by intros
  | |- keepsc _ (when _ _) => apply keepsc_when
  | |- keepsc _ (upd_buffer _ _) => apply keepsc_upd; first [left; reflexivity|right; reflexivity]
  end.
Ltac keeps_auto := repeat keeps_step.

Lemma evict_keeps block d s e a s' e' :
  evict block d (s, e) = Ok a (s', e') → same_free (λ q, q = lru_buff s) s s'.
Proof using.
  unfold evict. rewrite bind_gets. cbn [fst]. cbv zeta. intros Hrun.
  set (p := lru_buff s) in *. clearbody p.
  refine ((_ : keeps (λ q, q = p) _) s e a s' e' Hrun). keeps_auto.
Qed.

(** A hit on a buffer that is held by someone does not touch the free list. *)
Lemma take_hit_keeps p block d s e a s' e' h :
  take_hit p block d (s, e) = Ok a (s', e') → buffers s !! p = Some h → count h ≠ 0 →
  same_free (λ _, False) s s'.
Proof using.
  intros Hrun Hp Hcount. unfold take_hit in Hrun.
  destruct (bind_inv_ok _ _ _ _ _ Hrun) as ([] & [s1 e1] & E1 & Hrun1).
  assert (s1 = s) as ->.
  { unfold disk_io, on_snd, zoom in E1. simpl in E1. destruct (terminal_printhex32 block e); [|done..].
    injection E1 as _ <- _. done. }
  rewrite (bind_ok _ _ _ _ _ (on_cache_ok _ _ e1 _ _ (ld_buffer_ok _ _ _ Hp))) in Hrun1.
  rewrite (proj2 (Z.eqb_neq _ _) Hcount), bind_ret_l in Hrun1.
  refine ((_ : keeps (λ _, False) _) s e1 a s' e' Hrun1). keeps_auto.
Qed.

(** Putting a buffer back: on the free list if it was the last use. *)
Lemma put_block_nfree p s s' h :
  put_block p s = Ok tt s' → buffers s !! p = Some h → bh_flags h ≠ CLASS_DIR ∨ 1 < count h →
  same_free (λ q, q = p) s s' ∧ nfree s' p = Some (if 1 <? count h then next_free h else lru_buff s).
Proof using.
  intros Hrun Hp Hor. unfold put_block in Hrun.
  rewrite (bind_ok _ _ _ _ _ (ld_buffer_ok _ _ _ Hp)) in Hrun. destruct (Z.ltb_spec 1 (count h)) as [Hc|Hc].
  - split; [eapply (keepsc_upd (λ q, q = p) p); [by left|exact Hrun]|].
    rewrite (upd_buffer_ok _ _ _ _ Hp) in Hrun. injection Hrun as <-. unfold nfree. simpl. by rewrite lookup_insert_eq.
  - rewrite bind_get in Hrun. destruct Hor as [Hdir|]; [|lia]. rewrite (proj2 (Z.eqb_neq _ _) Hdir) in Hrun.
    destruct (bind_inv_ok _ _ _ _ _ Hrun) as ([] & s1 & E1 & Hrun1).
    destruct (bind_inv_ok _ _ _ _ _ Hrun1) as ([] & s2 & E2 & Hrun2). injection Hrun2 as <-. split.
    + etrans; [refine ((_ : keepsc _ _) s tt s1 E1); keeps_auto|].
      etrans; [refine (keepsc_upd _ _ _ _ s1 tt s2 E2); by left|done].
    + unfold upd_buffer in E2. destruct (bind_inv_ok _ _ _ _ _ E2) as (h1 & s3 & E3 & E4).
      unfold ld_buffer in E3. destruct (buffers s1 !! p); [|done]. injection E3 as <- <-. injection E4 as <-.
      unfold nfree. simpl. by rewrite lookup_insert_eq.
Qed.

(** ** The set of buffers

    Neither function adds a buffer or forgets one, so none of them is ever at null. *)

Definition buffer_set (s : cache * E) : gset Z := dom (buffers s.1).
Lemma steady_upd p f : steady (λ s, dom (buffers s)) (upd_buffer p f).
Proof using.
  intros s [] s' E1. unfold upd_buffer in E1. apply bind_inv_ok in E1 as (h & s1 & E1 & [= <-]).
  unfold ld_buffer in E1. destruct (buffers s !! p) eqn:Hp; [|done]. injection E1 as _ <-. simpl.
  apply dom_insert_lookup_L. by eexists.
Qed.
Lemma steady_ld p : steady (λ s, dom (buffers s)) (ld_buffer p).
Proof using. intros s h s' E1. unfold ld_buffer in E1. by destruct (buffers s !! p); [injection E1 as _ <-|]. Qed.
Lemma steady_find_bdev d : steady (λ s, dom (buffers s)) (find_bdev d).
Proof using.
  intros s b s'. unfold find_bdev. generalize (S (size (bdevs s))) as n, (block_head s) as p.
  induction n as [|n IH]; intros p; [done|]. cbn [find_bdev_loop]. destruct (p =? 0); [done|].
  rewrite bind_get. destruct (bdevs s !! p) as [h|]; [|done]. simpl. rewrite bind_ret_l.
  destruct (_ =? _); [by intros [= _ ->]|apply IH].
Qed.
Lemma steady_on_cache {A} (m : M cache A) : steady (λ s, dom (buffers s)) m → steady buffer_set (on_cache m).
Proof using. by apply steady_zoom. Qed.
Lemma steady_disk_io {A} (m : M E A) : steady buffer_set (disk_io m).
Proof using. by apply steady_zoom_other. Qed.
#[local] Hint Resolve steady_upd steady_ld steady_find_bdev steady_on_cache steady_disk_io steady_modify : steady.
Lemma steady_search fuel block d : ∀ p, steady (λ s, dom (buffers s)) (search fuel p block d).
Proof using. induction fuel as [|fuel IH]; intros p; [by apply steady_stop|]. cbn [search]. keep. Qed.
#[local] Hint Resolve steady_search : steady.
Ltac keep_buffers := repeat first [progress keep | apply steady_on_cache | apply steady_disk_io | by apply steady_modify].
Lemma steady_take_hit p block d : steady buffer_set (take_hit p block d).
Proof using. unfold take_hit. keep_buffers. Qed.
Lemma steady_evict block d : steady buffer_set (evict block d).
Proof using. unfold evict. keep_buffers. Qed.
Lemma steady_get_block fuel block d : steady buffer_set (get_block fuel block d).
Proof using. unfold get_block. keep_buffers. Qed.
Lemma steady_put_block p : steady buffer_set (on_cache (put_block p)).
Proof using. apply steady_on_cache. unfold put_block. keep_buffers. Qed.

(** The pointer [get_block] returns was dereferenced. *)
Lemma get_block_nonnull fuel block d s p s' :
  get_block fuel block d s = Ok p s' → buffers s.1 !! 0 = None → p ≠ 0.
Proof using.
  intros E1 Hz ->. unfold get_block in E1. apply bind_inv_ok in E1 as (s0 & s1 & [= <- <-] & E1).
  apply bind_inv_ok in E1 as (first & s2 & E2 & E1). apply bind_inv_ok in E1 as (p & s3 & E3 & E1).
  assert (dom (buffers s3.1) = dom (buffers s.1)) as Hdom.
  { etrans; [apply (steady_on_cache _ (steady_search fuel block d first) _ _ _ E3)|].
    f_equal. destruct (buff_head s.1 !! _); [by injection E2 as _ ->|done]. }
  destruct (truth p) eqn:Ht.
  - unfold take_hit in E1. repeat (apply bind_inv_ok in E1 as (? & ? & _ & E1)). injection E1 as -> _. done.
  - unfold evict in E1. apply bind_inv_ok in E1 as (s4 & s5 & [= <- <-] & E1).
    cbv zeta in E1. apply bind_inv_ok in E1 as (h & s6 & E4 & E1).
    repeat (apply bind_inv_ok in E1 as (? & ? & _ & E1)). injection E1 as E1 _.
    unfold on_cache, on_fst, zoom, ld_buffer in E4. rewrite E1 in E4.
    assert (buffers s3.1 !! 0 = None) as Hn by (apply not_elem_of_dom; rewrite Hdom; by apply not_elem_of_dom).
    by rewrite Hn in E4.
Qed.

(** ** The invariant of a sequence of requests *)

(** The blocks [ks] of device [d] can be requested, in this order, each in a bucket
    of its own whose chain ends and holds no buffer of the free list [F]. *)
Record ready (fuel : nat) (d : Z) (b : bdev) (ks : list Z) (F : list Z) (s : cache) (e : E) : Prop := {
  rd_clean : clean 0 s e d b;
  rd_env : env_wf e;
  rd_present : Forall (present b) ks;
  rd_buckets : NoDup ((λ k, Z.land k 0xFF) <$> ks);
  rd_bucket : ∀ k, k ∈ ks → 0 ≤ k ∧ ∃ l, bucket s k l ∧ (length l < fuel)%nat ∧ ∀ q, q ∈ l → q ∉ F;
  rd_free : free_path s (lru_buff s) F;
  rd_distinct : NoDup F;
  rd_flags : ∀ q h, buffers s !! q = Some h → q ∈ F → bh_flags h ≠ CLASS_DIR;
  rd_counts : ∀ q h, buffers s !! q = Some h → 0 ≤ count h ∧ count h + 2 * length ks < 4294967295;
  rd_held : ∀ q h, buffers s !! q = Some h → dev h = d → 1 ≤ count h;
  rd_mru : is_Some (buffers s !! mru_buff s) }.

(** Two blocks of different buckets: the heads of the table are different. *)
Lemma bucket_index k k' : 0 ≤ k → 0 ≤ k' → Z.land k 0xFF ≠ Z.land k' 0xFF →
  Z.to_nat (Z.land k 0xFF) ≠ Z.to_nat (Z.land k' 0xFF).
Proof using.
  intros Hk Hk' Hne Heq. apply Hne.
  assert (0 ≤ Z.land k 0xFF) by (apply Z.land_nonneg; lia).
  assert (0 ≤ Z.land k' 0xFF) by (apply Z.land_nonneg; lia). lia.
Qed.

Lemma bucket_det s k l l' : bucket s k l → bucket s k l' → l = l'.
Proof using.
  intros (f & Hf & Hc) (f' & Hf' & Hc'). rewrite Hf in Hf'. injection Hf' as <-. by eapply chain_det.
Qed.

Lemma core_at_lookup s q h : buffers s !! q = Some h → core_at s q = Some (core h).
Proof using. unfold core_at. by intros ->. Qed.

(** What a change of one buffer [p] preserves of the facts about all buffers. *)
Lemma counts_step (P : Z → buffer_head → Prop) s s' p h' :
  (∀ q, q ≠ p → core_at s' q = core_at s q) → buffers s' !! p = Some h' →
  (∀ q h h0, core h = core h0 → P q h0 → P q h) → P p h' →
  (∀ q h, buffers s !! q = Some h → P q h) → ∀ q h, buffers s' !! q = Some h → P q h.
Proof using.
  intros Hcore Hp Hext HPp HP q h Hq. destruct (decide (q = p)) as [->|Hne]; [congruence|].
  specialize (Hcore q Hne). rewrite (core_at_lookup _ _ _ Hq) in Hcore. symmetry in Hcore.
  destruct (core_lookup _ _ _ Hcore) as (h0 & Hq0 & Hh0). by apply (Hext q h h0), HP.
Qed.

Lemma core_count h h0 : core h = core h0 → count h = count h0 ∧ dev h = dev h0 ∧ bh_flags h = bh_flags h0.
Proof using. unfold core. by intros [=]. Qed.

Lemma is_Some_step s s' p q :
  (∀ q, q ≠ p → core_at s' q = core_at s q) → is_Some (buffers s' !! p) → is_Some (buffers s !! q) →
  is_Some (buffers s' !! q).
Proof using.
  intros Hcore Hp Hq. destruct (decide (q = p)) as [->|Hne]; [done|]. by eapply core_some; [apply Hcore|].
Qed.

(** What requests leave to the holders of buffers: a buffer that is not on the free list
    stays off it, keeps its block and data, and its count does not fall. *)
Definition kept (F : list Z) (s : cache) (F' : list Z) (s' : cache) : Prop :=
  (∀ q, is_Some (buffers s' !! q) → is_Some (buffers s !! q)) ∧
  ∀ q h, q ∉ F → buffers s !! q = Some h → q ∉ F' ∧ ∃ h', buffers s' !! q = Some h' ∧
    block_num h' = block_num h ∧ dev h' = dev h ∧ buff h' = buff h ∧ bh_flags h' = bh_flags h ∧ count h ≤ count h'.
Lemma kept_trans F s F1 s1 F2 s2 : kept F s F1 s1 → kept F1 s1 F2 s2 → kept F s F2 s2.
Proof using.
  intros [D1 K1] [D2 K2]. split; [auto|]. intros q h Hq Hh.
  destruct (K1 q h Hq Hh) as (Hq1 & h1 & Hh1 & ? & ? & ? & ? & ?).
  destruct (K2 q h1 Hq1 Hh1) as (Hq2 & h2 & Hh2 & ? & ? & ? & ? & ?). split; [done|]. exists h2.
  split_and!; try congruence. lia.
Qed.

(** A change of one buffer [p] that is on the free list, or whose count rises. *)
Lemma same_domain s s' p :
  (∀ q, q ≠ p → core_at s' q = core_at s q) → is_Some (buffers s !! p) →
  ∀ q, is_Some (buffers s' !! q) → is_Some (buffers s !! q).
Proof using.
  intros Hoth Hp q [h' Hq]. destruct (decide (q = p)) as [->|Hne]; [done|]. specialize (Hoth q Hne).
  rewrite (core_at_lookup _ _ _ Hq) in Hoth. symmetry in Hoth.
  destruct (core_lookup _ _ _ Hoth) as (h & -> & _). by eexists.
Qed.
Lemma kept_step F s F' s' p :
  (∀ q, q ≠ p → core_at s' q = core_at s q) → is_Some (buffers s !! p) → (∀ q, q ∉ F → q ∉ F' ) →
  (p ∉ F → ∀ h, buffers s !! p = Some h → ∃ h', buffers s' !! p = Some h' ∧
    block_num h' = block_num h ∧ dev h' = dev h ∧ buff h' = buff h ∧ bh_flags h' = bh_flags h ∧ count h ≤ count h') →
  kept F s F' s'.
Proof using.
  intros Hoth Hps HF Hp. split; [by apply (same_domain s s' p)|].
  intros q h Hq Hh. split; [by apply HF|]. destruct (decide (q = p)) as [->|Hne]; [by apply Hp|].
  specialize (Hoth q Hne). rewrite (core_at_lookup _ _ _ Hh) in Hoth.
  destruct (core_lookup _ _ _ Hoth) as (h' & Hh' & Hc). unfold core in Hc. injection Hc as T1 T2 T3 T4 T5 T6 T7.
  exists h'. split_and!; try done. lia.
Qed.

(** What changes of data, counts and free links keep: the tags and the chains. *)
Definition same_view (s s' : cache) : Prop :=
  (∀ q, view s' q = view s q) ∧ buff_head s' = buff_head s.
#[export] Instance same_view_preorder : PreOrder same_view.
Proof using. split; [done|]. intros s1 s2 s3 [A1 A2] [B1 B2]. split; [|congruence]. intros q. by rewrite B1. Qed.


Section steps.
Context (fuel : nat) (d : Z) (b : bdev).

(** Printing does not matter to the requests. *)
Lemma ready_env ks F s e e' : ready fuel d b ks F s e → env_wf e' → content e' = content e → ready fuel d b ks F s e'.
Proof using. intros [] He Hc. constructor; try done. by apply (clean_content _ _ e). Qed.

(** Fewer requests, in any order of the others. *)
Lemma ready_drop ks ks' F s e : ready fuel d b (ks ++ ks') F s e → ready fuel d b ks' F s e.
Proof using.
  intros [Hc He Hpres Hnd Hbk Hfree HF Hfl Hcnt Hheld Hmru].
  apply Forall_app in Hpres as [_ Hpres]. rewrite fmap_app in Hnd. apply NoDup_app in Hnd as (_ & _ & Hnd).
  constructor; try done; [intros k Hk; apply Hbk, elem_of_app; by right|].
  intros q h Hq. specialize (Hcnt q h Hq). rewrite length_app in Hcnt. lia.
Qed.

(** Block [k] is in the cache, in a buffer that may be back on the free list, and can be
    requested once more before the blocks [ks]. *)
Record again (k : Z) (ks F : list Z) (s : cache) (e : E) : Prop := {
  ag_ready : ready fuel d b ks F s e;
  ag_found : ∃ l p, bucket s k l ∧ (length l ≤ fuel)%nat ∧ List.find (tag_is (buffers s) k d) l = Some p;
  ag_counts : ∀ q h, buffers s !! q = Some h → count h + S (2 * length ks) < 4294967295 }.

(** The search ends at the buffer of the block before the end of the chain. *)
Lemma search_found m block l : ∀ n p s q,
  buffers s = m → chain m p l → (length l ≤ n)%nat → List.find (tag_is m block d) l = Some q →
  search n p block d s = Ok q s.
Proof using.
  induction l as [|y l IH]; intros n p s q Hm Hc Hn Hf; [done|]. destruct n as [|n]; [simpl in Hn; lia|].
  destruct Hc as (-> & Hy & h & Hh & Hc). cbn [search]. rewrite (proj2 (Z.eqb_neq y 0)) by done.
  rewrite (bind_ok _ _ _ _ _ (ld_buffer_ok y h s ltac:(by rewrite Hm))). simpl in Hf. unfold tag_is at 1 in Hf.
  rewrite Hh in Hf. destruct (_ && _); [by injection Hf as ->|]. apply (IH n); try done. simpl in Hn. lia.
Qed.
Lemma get_found block s (e : E) l p :
  bucket s block l → (length l ≤ fuel)%nat → List.find (tag_is (buffers s) block d) l = Some p →
  get_block fuel block d (s, e) = take_hit p block d (s, e).
Proof using.
  intros (first & Hfirst & Hch) Hl Hf. unfold get_block. rewrite bind_gets. cbn [fst]. rewrite Hfirst. cbn [of_option].
  rewrite bind_ret_l, (bind_ok _ _ _ _ _ (on_cache_ok _ _ e _ _ (search_found _ _ l fuel first s p eq_refl Hch Hl Hf))).
  apply find_some in Hf as [Hin _]. unfold truth. by rewrite (proj2 (Z.eqb_neq _ _) (chain_elem _ _ _ _ Hch Hin)).
Qed.

(** A hit: the count rises, and the free list, the chains and the tags stay. *)
Lemma again_get k ks F s e l p :
  again k ks F s e → bucket s k l → (length l ≤ fuel)%nat → List.find (tag_is (buffers s) k d) l = Some p →
  ∃ s1 e1 h, get_block fuel k d (s, e) = Ok p (s1, e1) ∧ buffers s1 !! p = Some h ∧
    block_num h = k ∧ dev h = d ∧ buff h = content e (location b k) ∧ content e1 = content e ∧
    ready fuel d b ks F s1 e1 ∧ 1 < count h ∧ kept F s F s1 ∧
    (∃ h0, buffers s !! p = Some h0 ∧ 1 ≤ count h0 ∧ count h = count h0 + 1) ∧
    same_view s s1 ∧ (∀ q, q ≠ p → core_at s1 q = core_at s q).
Proof using.
  intros [[Hc He Hpres Hnd Hbk Hfree HF Hfl Hcnt Hheld Hmru] _ Hspare] Hbl Hl Hfind.
  destruct (find_tag _ _ _ _ _ Hfind) as (h & Hp & Hbn & Hdv).
  destruct (take_hit_spec p k s e d b h Hc He Hp) as (s1 & e1 & E1 & He1 & Hcont & Hc1 & Hl1 & Hh1 & Hat & Hoth).
  pose proof (get_found k s e l p Hbl Hl Hfind) as Eget.
  destruct (core_lookup s1 p _ Hat) as (h1 & Hp1 & Hh1'). unfold core in Hh1'.
  injection Hh1' as T1 T2 T3 T4 T5 T6 T7.
  pose proof (Hspare p h Hp) as Hcp. pose proof (Hheld p h Hp Hdv) as Hhp. rewrite u32_small in T6 by lia.
  assert (same_free (λ _, False) s s1) as [Hm1 Hnf] by (eapply take_hit_keeps; [exact E1|exact Hp|lia]).
  assert (∀ q, view s1 q = view s q) as Hview.
  { intros q. destruct (decide (q = p)) as [->|]; [|by apply core_same_view, Hoth].
    unfold view. rewrite Hp1, Hp. simpl. congruence. }
  exists s1, e1, h1. split; [congruence|]. split; [done|]. split; [congruence|]. split; [congruence|].
  split; [|split; [done|split; [|split; [lia|split; [|split; [|done]]]]]].
  - rewrite T4. rewrite <-Hbn. apply (cl_data _ _ _ _ _ Hc p h Hp); [|done]. intros ->.
    by rewrite (cl_null _ _ _ _ _ Hc) in Hp.
  - constructor; try done.
    + intros k' Hk'. destruct (Hbk k' Hk') as (? & l' & Hbl' & ? & ?).
      split; [done|]. exists l'. split; [by apply (bucket_view s)|done].
    + rewrite Hl1. apply (free_path_ext s); [|done]. intros q _. apply Hnf. tauto.
    + refine (counts_step (λ q h, q ∈ F → bh_flags h ≠ CLASS_DIR) s s1 p h1 Hoth Hp1 _ _ _).
      * intros q h' h0 Hh. destruct (core_count _ _ Hh) as (_ & _ & ->). done.
      * rewrite T5. intros Hin. by eapply Hfl.
      * intros q h' Hq Hin. by eapply Hfl.
    + refine (counts_step (λ _ h, 0 ≤ count h ∧ count h + 2 * length ks < 4294967295) s s1 p h1 Hoth Hp1 _ _ Hcnt).
      * intros q h' h0 Hh. destruct (core_count _ _ Hh) as (-> & _ & _). done.
      * lia.
    + refine (counts_step (λ _ h, dev h = d → 1 ≤ count h) s s1 p h1 Hoth Hp1 _ _ Hheld).
      * intros q h' h0 Hh. destruct (core_count _ _ Hh) as (-> & -> & _). done.
      * lia.
    + rewrite Hm1. eapply is_Some_step; [exact Hoth|by eexists|done].
  - apply (kept_step _ _ _ _ p Hoth); [by eexists|done|]. intros _ h0 Hh0. rewrite Hp in Hh0. injection Hh0 as <-.
    exists h1. split_and!; try congruence. lia.
  - exists h. split; [done|]. lia.
Qed.

(** The counts of the buffers other than [p]. *)
Lemma count_back s s1 p q h :
  (∀ q, q ≠ p → core_at s1 q = core_at s q) → q ≠ p → buffers s1 !! q = Some h →
  ∃ h0, buffers s !! q = Some h0 ∧ count h = count h0.
Proof using.
  intros Hoth Hne Hq. specialize (Hoth q Hne). rewrite (core_at_lookup _ _ _ Hq) in Hoth. symmetry in Hoth.
  destruct (core_lookup _ _ _ Hoth) as (h0 & Hh0 & Hc0). exists h0. split; [done|]. by destruct (core_count _ _ Hc0).
Qed.

(** What stays findable when tags and chains stay, and counts do not rise too far. *)
Lemma again_step k ks F s e F1 s1 e1 :
  again k ks F s e → ready fuel d b ks F1 s1 e1 → same_view s s1 →
  (∀ q h, buffers s1 !! q = Some h → ∃ h0, buffers s !! q = Some h0 ∧ count h ≤ count h0) → again k ks F1 s1 e1.
Proof using.
  intros [_ (l & p & Hbl & Hl & Hf) Hcnt] Hr [Hv Hh] Hle. constructor; [done| |].
  - exists l, p. split; [by apply (bucket_view s)|]. split; [done|]. by rewrite (find_view s s1).
  - intros q h Hq. destruct (Hle q h Hq) as (h0 & Hq0 & ?). specialize (Hcnt q h0 Hq0). lia.
Qed.

(** The first of the blocks to be requested, when it is in the cache. *)
Lemma ready_again k ks F s e l p :
  ready fuel d b (k :: ks) F s e → bucket s k l → (length l ≤ fuel)%nat →
  List.find (tag_is (buffers s) k d) l = Some p → again k ks F s e.
Proof using.
  intros Hr Hbl Hl Hf. constructor.
  - by apply (ready_drop [k]).
  - by exists l, p.
  - intros q h Hq. pose proof (rd_counts _ _ _ _ _ _ _ Hr q h Hq) as Hc. cbn [length] in Hc. lia.
Qed.

(** The chain of a bucket whose head was not set, and that does not hold [p]. *)
Lemma bucket_frame s s1 k k' l p y :
  0 ≤ k → 0 ≤ k' → Z.land k 0xFF ≠ Z.land k' 0xFF → buff_head s1 = <[Z.to_nat (Z.land k 0xFF) := y]> (buff_head s) →
  (∀ q, q ≠ p → core_at s1 q = core_at s q) → p ∉ l → bucket s k' l → bucket s1 k' l.
Proof using.
  intros Hk Hk' Hne Hbh Hoth Hp (f & Hf & Hch). exists f. split.
  - rewrite Hbh, list_lookup_insert_ne; [done|]. by apply bucket_index.
  - apply (chain_frame s); [|done]. intros q Hq. apply core_same_view, Hoth. by intros ->.
Qed.

(** A miss takes the first buffer of the free list, which heads the chain afterwards; the
    chains of the other blocks stay. *)
Lemma miss_get k ks p F s e l :
  ready fuel d b (k :: ks) (p :: F) s e → bucket s k l → (length l < fuel)%nat → (∀ q, q ∈ l → q ∉ p :: F) →
  List.find (tag_is (buffers s) k d) l = None →
  ∃ s1 e1 h, get_block fuel k d (s, e) = Ok p (s1, e1) ∧ buffers s1 !! p = Some h ∧
    block_num h = k ∧ dev h = d ∧ buff h = content e (location b k) ∧ content e1 = content e ∧
    ready fuel d b ks F s1 e1 ∧ bh_flags h ≠ CLASS_DIR ∧ kept (p :: F) s F s1 ∧
    (∀ k' l', k' ∈ ks → bucket s k' l' → bucket s1 k' l') ∧
    (∀ q h, buffers s1 !! q = Some h → count h + S (2 * length ks) < 4294967295) ∧
    bucket s1 k (p :: l) ∧ List.find (tag_is (buffers s1) k d) (p :: l) = Some p.
Proof using.
  intros [Hc He Hpres Hnd Hbk Hfree HF Hfl Hcnt Hheld Hmru] Hbl Hl Hav Hfind.
  apply Forall_cons in Hpres as [Hpk Hpres]. rewrite fmap_cons in Hnd. apply NoDup_cons in Hnd as [Hk Hnd].
  destruct (Hbk k ltac:(set_solver)) as (Hk0 & _). destruct Hfree as (Hlru & n & Hn & Hfree).
  unfold nfree in Hn. destruct (buffers s !! p) as [h|] eqn:Hp; [|done]. simpl in Hn. injection Hn as Hn.
  apply NoDup_cons in HF as [HpF HF].
  destruct (get_block_miss fuel k s e d b l h Hc He Hpk Hbl Hl Hfind) as
    (first & s1 & e1 & E1 & He1 & Hcont & Hc1 & Hl1 & Hfirst & Hbh & Hat & Hoth); [by rewrite Hlru|].
  rewrite Hlru in *. assert (same_free (λ q, q = p) s s1) as [Hm1 Hnf].
  { rewrite <-Hlru. eapply evict_keeps. rewrite <-E1, (get_block_cases _ _ _ _ _ _ Hbl Hl). by rewrite Hfind. }
  destruct (core_lookup s1 p _ Hat) as (h1 & Hp1 & Hh1'). unfold core in Hh1'.
  injection Hh1' as T1 T2 T3 T4 T5 T6 T7.
  pose proof (Hcnt p h Hp) as Hcp. cbn [length] in Hcp. rewrite u32_small in T6 by lia.
  assert (∀ k' l', k' ∈ ks → bucket s k' l' → bucket s1 k' l' ∧ ∀ q, q ∈ l' → q ∉ p :: F) as Hchains.
  { intros k' l' Hk' Hb'. destruct (Hbk k' ltac:(set_solver)) as (Hk0' & l2 & Hb2 & _ & Hav').
    rewrite <-(bucket_det _ _ _ _ Hb' Hb2) in Hav'. split; [|done].
    apply (bucket_frame s s1 k k' l' p p Hk0 Hk0'); try done; [|intros Hin; destruct (Hav' p Hin); by left].
    intros Heq. apply Hk. apply list_elem_of_fmap. by exists k'. }
  assert (∀ q h', buffers s1 !! q = Some h' → 0 ≤ count h' ∧ count h' + S (2 * length ks) < 4294967295) as Hcnt1.
  { refine (counts_step (λ _ h, 0 ≤ count h ∧ count h + S (2 * length ks) < 4294967295) s s1 p h1 Hoth Hp1 _ _ _); [|lia|].
    - intros q h' h0 Hh. destruct (core_count _ _ Hh) as (-> & _ & _). done.
    - intros q h' Hq. specialize (Hcnt q h' Hq). cbn [length] in Hcnt. lia. }
  exists s1, e1, h1. do 6 (split; [done|]). split; [|split; [|split; [|split; [|split; [|split]]]]].
  - constructor; try done.
    + intros k' Hk'. destruct (Hbk k' ltac:(set_solver)) as (? & l' & Hb' & ? & _). split; [done|]. exists l'.
      destruct (Hchains k' l' Hk' Hb') as [Hb1 Hav']. split; [done|]. split; [done|].
      intros q Hq HqF. destruct (Hav' q Hq). by right.
    + rewrite Hl1, Hn. apply (free_path_ext s); [|done]. intros q Hq. apply Hnf. by intros ->.
    + refine (counts_step (λ q h, q ∈ F → bh_flags h ≠ CLASS_DIR) s s1 p h1 Hoth Hp1 _ _ _); [|done|].
      * intros q h' h0 Hh. destruct (core_count _ _ Hh) as (_ & _ & ->). done.
      * intros q h' Hq Hin. eapply Hfl; [exact Hq|]. by right.
    + intros q h' Hq. specialize (Hcnt1 q h' Hq). lia.
    + refine (counts_step (λ _ h, dev h = d → 1 ≤ count h) s s1 p h1 Hoth Hp1 _ _ Hheld); [|lia].
      intros q h' h0 Hh. destruct (core_count _ _ Hh) as (-> & -> & _). done.
    + rewrite Hm1. eapply is_Some_step; [exact Hoth|by eexists|done].
  - rewrite T5. eapply Hfl; [exact Hp|by left].
  - apply (kept_step _ _ _ _ p Hoth); [by eexists|intros q Hq HqF; apply Hq; by right|]. by intros []; left.
  - intros k' l' Hk' Hb'. by apply Hchains.
  - intros q h' Hq. by apply (Hcnt1 q h').
  - exists p. rewrite Hbh, list_lookup_insert_eq by (by eapply lookup_lt_Some). split; [done|].
    split; [done|]. split; [intros ->; by rewrite (cl_null _ _ _ _ _ Hc) in Hp|]. exists h1.
    split; [done|]. rewrite T7. destruct Hbl as (f' & Hf' & Hch). rewrite Hfirst in Hf'. injection Hf' as <-.
    apply (chain_frame s); [|done]. intros q Hq. apply core_same_view, Hoth. intros ->. destruct (Hav p Hq). by left.
  - cbn [List.find]. unfold tag_is at 1. by rewrite Hp1, T1, T2, !Z.eqb_refl.
Qed.

(** One request: the buffer holds the block, and the other requests can follow. A
    buffer taken from the free list is in no chain that is still to be searched. *)
Lemma ready_get k ks F s e :
  ready fuel d b (k :: ks) F s e → (length (k :: ks) ≤ length F)%nat →
  ∃ p s1 e1 h F1, get_block fuel k d (s, e) = Ok p (s1, e1) ∧ buffers s1 !! p = Some h ∧
    block_num h = k ∧ dev h = d ∧ buff h = content e (location b k) ∧ content e1 = content e ∧
    ready fuel d b ks F1 s1 e1 ∧ (length F ≤ S (length F1))%nat ∧ (p ∉ F1) ∧
    (1 < count h ∧ length F1 = length F ∨
     bh_flags h ≠ CLASS_DIR ∧ (∀ k' l, k' ∈ ks → bucket s1 k' l → p ∉ l)) ∧
    kept F s F1 s1 ∧ (∀ h0, p ∉ F → buffers s !! p = Some h0 → 1 ≤ count h0 < count h) ∧
    (∀ k' l, k' ∈ ks → bucket s k' l → bucket s1 k' l) ∧ again k ks F1 s1 e1 ∧
    ∃ l, bucket s1 k l ∧ (length l ≤ fuel)%nat ∧ List.find (tag_is (buffers s1) k d) l = Some p.
Proof using.
  intros Hr HlenF. pose proof Hr as [Hc He Hpres Hnd Hbk Hfree HF Hfl Hcnt Hheld Hmru].
  apply Forall_cons in Hpres as [Hpk Hpres]. rewrite fmap_cons in Hnd. apply NoDup_cons in Hnd as [Hk Hnd].
  destruct (Hbk k ltac:(set_solver)) as (Hk0 & l & Hbl & Hl & Hav).
  destruct (List.find (tag_is (buffers s) k d) l) as [p|] eqn:Hfind.
  - pose proof (ready_again k ks F s e l p Hr Hbl ltac:(lia) Hfind) as Hag.
    destruct (again_get k ks F s e l p Hag Hbl ltac:(lia) Hfind)
      as (s1 & e1 & h1 & E1 & Hp1 & B1 & D1 & Hd1 & Hc1 & Hr1 & Hn1 & Hk1 & (h2 & Hp2 & Hn2 & Hc2) & [Hv Hh] & Hoth).
    assert (List.find (tag_is (buffers s1) k d) l = Some p) as Hf1 by (by rewrite (find_view s s1)).
    assert (bucket s1 k l) as Hb1 by (by apply (bucket_view s)).
    exists p, s1, e1, h1, F. do 7 (split; [done|]). split; [lia|]. split; [apply Hav; by apply find_some in Hfind as [? _]|].
    split; [by left|]. split; [done|]. split; [intros h0 _ Hh0; rewrite Hp2 in Hh0; injection Hh0 as <-; lia|].
    split; [intros k' l2 _; by apply bucket_view|]. split; [|exists l; split; [done|split; [lia|done]]].
    constructor; [done|exists l, p; split; [done|split; [lia|done]]|].
    intros q h Hq. cbn [length] in Hcnt. destruct (decide (q = p)) as [->|Hne].
    + rewrite Hp1 in Hq. injection Hq as <-. specialize (Hcnt p h2 Hp2). lia.
    + destruct (count_back s s1 p q h Hoth Hne Hq) as (h0 & Hq0 & ->). specialize (Hcnt q h0 Hq0). lia.
  - destruct F as [|p F]; [simpl in HlenF; lia|].
    destruct (miss_get k ks p F s e l Hr Hbl Hl Hav Hfind)
      as (s1 & e1 & h1 & E1 & Hp1 & B1 & D1 & Hd1 & Hc1 & Hr1 & Hfl1 & Hk1 & Hch & Hcnt1 & Hb1 & Hf1).
    apply NoDup_cons in HF as [HpF HF]. exists p, s1, e1, h1, F. do 7 (split; [done|]). split; [simpl; lia|].
    split; [done|]. split; [|split; [done|split; [intros h0 []; by left|]]].
    { right. split; [done|]. intros k' l' Hk' Hbl' Hin.
      destruct (Hbk k' ltac:(set_solver)) as (_ & l2 & Hb2 & _ & Hav').
      pose proof (Hch k' l2 Hk' Hb2) as Hb3. rewrite (bucket_det _ _ _ _ Hbl' Hb3) in Hin. destruct (Hav' p Hin). by left. }
    split; [done|]. split; [|exists (p :: l); split; [done|split; [simpl; lia|done]]].
    constructor; [done|exists (p :: l), p; split; [done|split; [simpl; lia|done]]|]. exact Hcnt1.
Qed.

Lemma free_path_head s F : free_path s (lru_buff s) F → F ≠ [] → is_Some (buffers s !! lru_buff s).
Proof using.
  destruct F as [|q F]; [done|]. intros (-> & n & Hn & _) _. unfold nfree in Hn.
  destruct (buffers s !! q); [by eexists|done].
Qed.

(** Putting a requested buffer back: on the free list if it was the last use. *)
Lemma put_step p ks F s e h :
  ready fuel d b ks F s e → buffers s !! p = Some h → dev h = d → p ∉ F ∨ 1 < count h → F ≠ [] →
  (1 < count h ∨ bh_flags h ≠ CLASS_DIR ∧ (∀ k' l, k' ∈ ks → bucket s k' l → p ∉ l)) →
  let F' := if 1 <? count h then F else p :: F in
  ∃ s' h', put_block p s = Ok tt s' ∧ ready fuel d b ks F' s' e ∧ same_view s s' ∧ buffers s' !! p = Some h' ∧
    (block_num h' = block_num h ∧ dev h' = dev h ∧ buff h' = buff h ∧ bh_flags h' = bh_flags h ∧
     count h' = if 1 <? count h then count h - 1 else count h) ∧
    ∀ q, q ≠ p → core_at s' q = core_at s q.
Proof using.
  intros [Hc He Hpres Hnd Hbk Hfree HF Hfl Hcnt Hheld Hmru] Hp Hdv HpF HneF Hor F'.
  destruct (put_block_spec p s e d b h Hc Hp (free_path_head _ _ Hfree HneF) Hmru)
    as (s' & E1 & Hc1 & Hh1 & Hat & Hoth & Hl1 & _).
  destruct (put_block_nfree p s s' h E1 Hp) as [[Hm1 Hnf] Hnp]; [clear -Hor; tauto|].
  destruct (core_lookup s' p _ Hat) as (h1 & Hp1 & Hh1'). unfold core in Hh1'.
  injection Hh1' as T1 T2 T3 T4 T5 T6 T7.
  pose proof (Hcnt p h Hp) as Hcp. pose proof (Hheld p h Hp Hdv) as Hhp.
  assert (∀ q, view s' q = view s q) as Hview.
  { intros q. destruct (decide (q = p)) as [->|]; [|by apply core_same_view, Hoth].
    unfold view. rewrite Hp1, Hp. simpl. congruence. }
  exists s', h1. split; [done|]. split; [|done]. constructor; try done.
  - intros k Hk. destruct (Hbk k Hk) as (? & l & Hbl & ? & Hav). split; [done|]. exists l.
    split; [by apply (bucket_view s)|]. split; [done|]. intros q Hq. unfold F'.
    destruct (Z.ltb_spec 1 (count h)); [by apply Hav|]. destruct Hor as [|[_ Hp']]; [lia|].
    specialize (Hp' k l Hk Hbl). specialize (Hav q Hq). set_solver.
  - unfold F'. rewrite Hl1. destruct (Z.ltb_spec 1 (count h)) as [Hgt|Hle].
    + apply (free_path_ext s); [|done]. intros q Hq. destruct (decide (q = p)) as [->|Hne]; [|by apply Hnf].
      rewrite Hnp. unfold nfree. by rewrite Hp.
    + destruct Hor as [|[Hdir _]]; [lia|]. destruct HpF as [HpF|]; [|lia].
      rewrite (proj2 (Z.eqb_neq _ _) Hdir). split; [done|]. exists (lru_buff s). split; [done|].
      apply (free_path_ext s); [|done]. intros q Hq. apply Hnf. by intros ->.
  - unfold F'. destruct (Z.ltb_spec 1 (count h)); [done|]. destruct HpF as [HpF|]; [|lia]. by apply NoDup_cons.
  - refine (counts_step (λ q h, q ∈ F' → bh_flags h ≠ CLASS_DIR) s s' p h1 Hoth Hp1 _ _ _).
    + intros q h' h0 Hh. destruct (core_count _ _ Hh) as (_ & _ & ->). done.
    + rewrite T5. unfold F'. destruct (Z.ltb_spec 1 (count h)); [by apply Hfl|]. destruct Hor as [|[Hdir _]]; [lia|done].
    + intros q h' Hq Hin. unfold F' in Hin. destruct (Z.ltb_spec 1 (count h)); [by apply (Hfl q)|].
      apply elem_of_cons in Hin as [->|Hin]; [|by apply (Hfl q)]. rewrite Hp in Hq. injection Hq as <-.
      destruct Hor as [|[Hdir _]]; [lia|done].
  - refine (counts_step (λ _ h, 0 ≤ count h ∧ count h + 2 * length ks < 4294967295) s s' p h1 Hoth Hp1 _ _ Hcnt).
    + intros q h' h0 Hh. destruct (core_count _ _ Hh) as (-> & _ & _). done.
    + rewrite T6. destruct (1 <? count h); lia.
  - refine (counts_step (λ _ h, dev h = d → 1 ≤ count h) s s' p h1 Hoth Hp1 _ _ Hheld).
    + intros q h' h0 Hh. destruct (core_count _ _ Hh) as (-> & -> & _). done.
    + rewrite T6. destruct (Z.ltb_spec 1 (count h)); lia.
  - rewrite Hm1. eapply is_Some_step; [exact Hoth|by eexists|done].
Qed.
Lemma ready_put p ks F s e h :
  ready fuel d b ks F s e → buffers s !! p = Some h → dev h = d → p ∉ F ∨ 1 < count h → F ≠ [] →
  (1 < count h ∨ bh_flags h ≠ CLASS_DIR ∧ (∀ k' l, k' ∈ ks → bucket s k' l → p ∉ l)) →
  ∃ s' F', put_block p s = Ok tt s' ∧ ready fuel d b ks F' s' e ∧ (length F ≤ length F')%nat ∧
    same_view s s' ∧ (∀ k, again k ks F s e → again k ks F' s' e) ∧
    ∀ F0 s0, kept F0 s0 F s → (∀ h0, p ∉ F0 → buffers s0 !! p = Some h0 → 1 ≤ count h0 < count h) → kept F0 s0 F' s'.
Proof using.
  intros Hr Hp Hdv HpF HneF Hor.
  destruct (put_step p ks F s e h Hr Hp Hdv HpF HneF Hor) as (s' & h1 & E1 & Hr' & Hv & Hp1 & (T1 & T2 & T3 & T4 & T5) & Hoth).
  set (F' := if 1 <? count h then F else p :: F) in *.
  exists s', F'. split; [done|]. split; [done|]. split; [unfold F'; destruct (1 <? count h); simpl; lia|]. split; [done|]. split.
  - intros k Ha. apply (again_step k ks F s e F' s' e Ha Hr' Hv). intros q h' Hq. destruct (decide (q = p)) as [->|Hne].
    + exists h. split; [done|]. rewrite Hp1 in Hq. injection Hq as <-. rewrite T5. destruct (1 <? count h); lia.
    + destruct (count_back s s' p q h' Hoth Hne Hq) as (h0 & Hq0 & ->). by exists h0.
  - intros F0 s0 [KD K] Hp0. split; [intros q Hq; apply KD, (same_domain s s' p Hoth); [by eexists|done]|].
    intros q h0 Hq Hh0. destruct (K q h0 Hq Hh0) as (HqF & h2 & Hh2 & ? & ? & ? & ? & ?).
    destruct (decide (q = p)) as [->|Hne].
    + rewrite Hp in Hh2. injection Hh2 as <-. specialize (Hp0 h0 Hq Hh0). unfold F'.
      rewrite (proj2 (Z.ltb_lt 1 (count h))) in * by lia. split; [done|]. exists h1. split_and!; try congruence. lia.
    + split; [unfold F'; destruct (1 <? count h); [done|]; by intros [|]%elem_of_cons|].
      specialize (Hoth q Hne). rewrite (core_at_lookup _ _ _ Hh2) in Hoth.
      destruct (core_lookup _ _ _ Hoth) as (h3 & Hh3 & Hc3). unfold core in Hc3. injection Hc3 as U1 U2 U3 U4 U5 U6 U7.
      exists h3. split_and!; congruence.
Qed.

(** The result [p] of a request for block [k], the buffer [h] there, and what the cache
    is ready for afterwards. *)
Record got (k : Z) (ks F : list Z) (s : cache) (e : E) (p : Z) (s1 : cache) (e1 : E) (h : buffer_head) (F1 : list Z) :
    Prop := {
  got_buffer : buffers s1 !! p = Some h;
  got_block : block_num h = k;
  got_dev : dev h = d;
  got_data : buff h = content e (location b k);
  got_content : content e1 = content e;
  got_ready : ready fuel d b ks F1 s1 e1;
  got_length : (length F ≤ S (length F1))%nat;
  got_held : p ∉ F1;
  got_taken : (1 < count h ∧ length F1 = length F ∨
     bh_flags h ≠ CLASS_DIR ∧ (∀ k' l, k' ∈ ks → bucket s1 k' l → p ∉ l));
  got_kept : kept F s F1 s1;
  got_count : ∀ h0, p ∉ F → buffers s !! p = Some h0 → 1 ≤ count h0 < count h;
  got_chains : ∀ k' l, k' ∈ ks → bucket s k' l → bucket s1 k' l;
  got_again : again k ks F1 s1 e1 }.

Lemma ready_got k ks F s e :
  ready fuel d b (k :: ks) F s e → (length (k :: ks) ≤ length F)%nat →
  ∃ p s1 e1 h F1, get_block fuel k d (s, e) = Ok p (s1, e1) ∧ got k ks F s e p s1 e1 h F1.
Proof using.
  intros Hr HF. destruct (ready_get k ks F s e Hr HF)
    as (p & s1 & e1 & h & F1 & E1 & Hp & Hk & Hdv & Hb & Hcont & Hr1 & HF1 & HpF & Hor & Hkp & Hpk & Hch & Hag & _).
  exists p, s1, e1, h, F1. split; [done|]. by constructor.
Qed.

Lemma got_env k ks F s e e' p s1 e1 h F1 : got k ks F s e p s1 e1 h F1 → content e = content e' → got k ks F s e' p s1 e1 h F1.
Proof using. intros [] Hc. constructor; done || congruence. Qed.

(** Putting it back at once, or after further requests. *)
Lemma got_put k ks F s e p s1 e1 h F1 :
  got k ks F s e p s1 e1 h F1 → F1 ≠ [] →
  ∃ s2 F2, put_block p s1 = Ok tt s2 ∧ ready fuel d b ks F2 s2 e1 ∧ (length F1 ≤ length F2)%nat ∧ kept F s F2 s2 ∧
    again k ks F2 s2 e1 ∧ ∀ k' l, k' ∈ ks → bucket s k' l → bucket s2 k' l.
Proof using.
  intros [Hp _ Hdv _ _ Hr _ HpF Hor Hk Hcnt Hch Ha] HF1.
  destruct (ready_put p ks F1 s1 e1 h Hr Hp Hdv (or_introl HpF) HF1) as (s2 & F2 & E2 & Hr2 & HF2 & [Hv Hh] & Ha2 & Hk2).
  - destruct Hor as [[? _]|?]; [by left|by right].
  - exists s2, F2. do 3 (split; [done|]). split; [by apply Hk2|]. split; [by apply Ha2|].
    intros k' l Hk' Hb. by apply (bucket_view s1), Hch.
Qed.
Lemma got_put_later k ks F s e p s1 e1 h F1 ks' s2 e2 F2 :
  got k ks F s e p s1 e1 h F1 → kept F1 s1 F2 s2 → (∀ k' l, k' ∈ ks' → bucket s1 k' l → bucket s2 k' l) → ks' ⊆ ks →
  ready fuel d b ks' F2 s2 e2 → F2 ≠ [] →
  ∃ s3 F3, put_block p s2 = Ok tt s3 ∧ ready fuel d b ks' F3 s3 e2 ∧ (length F2 ≤ length F3)%nat ∧ kept F s F3 s3 ∧
    ∀ k, again k ks' F2 s2 e2 → again k ks' F3 s3 e2.
Proof using.
  intros [Hp _ Hdv _ _ Hr _ HpF Hor Hk Hcnt _ _] Hk2 Hch Hks Hr2 HF2.
  destruct (proj2 Hk2 p h HpF Hp) as (HpF2 & h2 & Hp2 & _ & Hdv2 & _ & Hfl & Hle).
  destruct (ready_put p ks' F2 s2 e2 h2 Hr2 Hp2 ltac:(congruence) (or_introl HpF2) HF2)
    as (s3 & F3 & E3 & Hr3 & HF3 & _ & Ha3 & Hk3).
  - destruct Hor as [[? _]|[? Hav]]; [left; lia|]. right. split; [congruence|]. intros k' l Hin Hbl.
    destruct (rd_bucket _ _ _ _ _ _ _ Hr k' (Hks k' Hin)) as (_ & l' & Hb1 & _).
    pose proof (Hch k' l' Hin Hb1) as Hb2. rewrite (bucket_det _ _ _ _ Hbl Hb2). apply (Hav k'); [by apply Hks|done].
  - exists s3, F3. do 3 (split; [done|]). split; [|done]. apply Hk3; [by eapply kept_trans|].
    intros h0 Hq Hh0. specialize (Hcnt h0 Hq Hh0). lia.
Qed.

Lemma got_nonempty k ks F s e p s1 e1 h F1 :
  got k ks F s e p s1 e1 h F1 → (2 ≤ length F)%nat → F1 ≠ [].
Proof using. intros Hg HF ->. pose proof (got_length _ _ _ _ _ _ _ _ _ _ Hg) as Hl. simpl in Hl. lia. Qed.

(** The two together: what a client does for each block. The request can be made in any
    environment with this content of the disk. *)
Definition requested (k : Z) (ks F : list Z) (s : cache) (e : E) (p : Z) (s1 : cache) (e1 : E) : Prop :=
  ∃ h s2 F2, buffers s1 !! p = Some h ∧ buff h = content e (location b k) ∧ content e1 = content e ∧
    put_block p s1 = Ok tt s2 ∧ ready fuel d b ks F2 s2 e1 ∧ (length F ≤ S (length F2))%nat ∧ kept F s F2 s2 ∧
    again k ks F2 s2 e1.
Definition requestable (k : Z) (ks F : list Z) (s : cache) (e : E) : Prop :=
  env_wf e ∧ ∀ e0, env_wf e0 → content e0 = content e →
    ∃ p s1 e1, get_block fuel k d (s, e0) = Ok p (s1, e1) ∧ requested k ks F s e p s1 e1.

Lemma again_env k ks F s e e' : again k ks F s e → env_wf e' → content e' = content e → again k ks F s e'.
Proof using. intros [] He Hc. constructor; try done. by apply (ready_env _ _ _ e). Qed.

Lemma requestable_env k ks F s e e' :
  requestable k ks F s e → env_wf e' → content e' = content e → requestable k ks F s e'.
Proof using.
  intros [_ Hreq] He' Hc. split; [done|]. intros e0 He0 Hc0.
  destruct (Hreq e0 He0 ltac:(congruence)) as (p & s1 & e1 & E1 & h & s2 & F2 & Hp & Hb & Hc1 & Hrest).
  exists p, s1, e1. split; [done|]. exists h, s2, F2. split_and!; try done; congruence || apply Hrest.
Qed.

Lemma ready_requestable k ks F s e :
  ready fuel d b (k :: ks) F s e → (length (k :: ks) < length F)%nat → requestable k ks F s e.
Proof using Type*.
  intros Hr HF. split; [by apply Hr|]. intros e0 He0 Hc0. pose proof (ready_env _ _ _ _ _ Hr He0 Hc0) as Hr0. cbn [length] in HF.
  destruct (ready_got k ks F s e0 Hr0 ltac:(cbn [length]; lia)) as (p & s1 & e1 & h & F1 & E1 & Hg).
  destruct (got_put _ _ _ _ _ _ _ _ _ _ Hg) as (s2 & F2 & E2 & Hr2 & HF2 & Hk2 & Ha2 & _).
  - apply (got_nonempty _ _ _ _ _ _ _ _ _ _ Hg). lia.
  - exists p, s1, e1. split; [done|]. destruct Hg as [Hp _ _ Hb Hcont _ Hl _ _ _ _ _ _].
    exists h, s2, F2. split; [done|]. split; [congruence|]. split; [congruence|]. split; [done|].
    split; [done|]. split; [lia|done].
Qed.
Lemma again_requestable k ks F s e : again k ks F s e → F ≠ [] → requestable k ks F s e.
Proof using Type*.
  intros Ha HF. split; [apply Ha|]. intros e0 He0 Hc0. pose proof (again_env _ _ _ _ _ _ Ha He0 Hc0) as Ha0.
  destruct (ag_found _ _ _ _ _ Ha) as (l & p & Hbl & Hl & Hf).
  destruct (again_get k ks F s e0 l p Ha0 Hbl Hl Hf)
    as (s1 & e1 & h & E1 & Hp & _ & Hdv & Hd & Hc1 & Hr1 & Hn & Hk1 & (h0 & Hp0 & Hn0 & Hcn) & Hv & Hoth).
  destruct (put_step p ks F s1 e1 h Hr1 Hp Hdv (or_intror Hn) HF (or_introl Hn))
    as (s2 & h2 & E2 & Hr2 & Hv2 & Hp2 & (_ & _ & _ & _ & T5) & Hoth2). rewrite (proj2 (Z.ltb_lt _ _) Hn) in Hr2, T5.
  destruct (ready_put p ks F s1 e1 h Hr1 Hp Hdv (or_intror Hn) HF (or_introl Hn))
    as (s2' & F2 & E2' & Hr2' & HF2 & _ & _ & Hk2). rewrite E2 in E2'. injection E2' as <-.
  exists p, s1, e1. split; [done|]. exists h, s2, F2. split; [done|]. split; [congruence|]. split; [congruence|].
  split; [done|]. split; [done|]. split; [lia|]. split; [apply Hk2; [done|]; intros h' _ Hh'; rewrite Hp0 in Hh'; injection Hh' as <-; lia|].
  apply (again_step k ks F s e1 F2 s2 e1); [by apply (again_env _ _ _ _ e); [|apply Hr2|congruence]|done|by etrans|].
  intros q h' Hq. destruct (decide (q = p)) as [->|Hne].
  - exists h0. split; [done|]. rewrite Hp2 in Hq. injection Hq as <-. lia.
  - destruct (count_back s1 s2 p q h' Hoth2 Hne Hq) as (h1 & Hq1 & ->).
    destruct (count_back s s1 p q h1 Hoth Hne Hq1) as (h3 & Hq3 & ->). by exists h3.
Qed.

Lemma ready_request k ks F s e :
  ready fuel d b (k :: ks) F s e → (length (k :: ks) < length F)%nat →
  ∃ p s1 e1 h s2 F2, get_block fuel k d (s, e) = Ok p (s1, e1) ∧ buffers s1 !! p = Some h ∧
    buff h = content e (location b k) ∧ content e1 = content e ∧ put_block p s1 = Ok tt s2 ∧
    ready fuel d b ks F2 s2 e1 ∧ (length ks < length F2)%nat ∧ kept F s F2 s2 ∧ (length F ≤ S (length F2))%nat.
Proof using Type*.
  intros Hr HF. destruct (ready_requestable k ks F s e Hr HF) as [He Hreq].
  destruct (Hreq e He eq_refl) as (p & s1 & e1 & E1 & h & s2 & F2 & Hp & Hb & Hc & E2 & Hr2 & HF2 & Hk2 & _).
  exists p, s1, e1, h, s2, F2. cbn [length] in HF. split_and!; try done. lia.
Qed.
End steps.

(** ** Buffers that have been written to *)

Lemma view_some s s' q : same_view s s' → is_Some (buffers s !! q) → is_Some (buffers s' !! q).
Proof using.
  intros [Hv _] [h Hq]. specialize (Hv q). unfold view in Hv. rewrite Hq in Hv. destruct (buffers s' !! q); [by eexists|done].
Qed.
Lemma upd_view p f h s :
  buffers s !! p = Some h → (∀ h, block_num (f h) = block_num h ∧ dev (f h) = dev h ∧ next (f h) = next h) →
  ∃ s', upd_buffer p f s = Ok tt s' ∧ same_view s s' ∧ lru_buff s' = lru_buff s ∧ mru_buff s' = mru_buff s ∧
    ∀ q, buffers s' !! q = if decide (q = p) then Some (f h) else buffers s !! q.
Proof using.
  intros Hp Hf. eexists. split; [by apply upd_buffer_ok|]. split; [split; [|done]|split; [done|split; [done|]]]; intros q.
  - unfold view. simpl. destruct (decide (p = q)) as [<-|]; [|by rewrite lookup_insert_ne].
    rewrite lookup_insert_eq, Hp. simpl. by destruct (Hf h) as (-> & -> & ->).
  - simpl. case_decide; [subst; by rewrite lookup_insert_eq|by rewrite lookup_insert_ne].
Qed.

(** [put_block] in any cache, dirty buffers or not. *)
Lemma put_any p h s :
  buffers s !! p = Some h → is_Some (buffers s !! lru_buff s) → is_Some (buffers s !! mru_buff s) →
  ∃ s' h', put_block p s = Ok tt s' ∧ same_payload s s' ∧ same_view s s' ∧ buffers s' !! p = Some h' ∧ payload h' = payload h ∧
    (1 ≤ count h → 1 ≤ count h') ∧ count h' ≤ count h ∧
    is_Some (buffers s' !! lru_buff s') ∧ is_Some (buffers s' !! mru_buff s').
Proof using.
  intros Hp Hl Hm. unfold put_block. rewrite (bind_ok _ _ _ _ _ (ld_buffer_ok _ _ _ Hp)).
  destruct (Z.ltb_spec 1 (count h)) as [Hc|Hc].
  - destruct (upd_view p (set_count (count h - 1)) h s Hp) as (s1 & E1 & V1 & L1 & M1 & B1); [done|].
    destruct (upd_payload p (set_count (count h - 1)) s) as (s1' & E1' & P1); [by eexists|done|].
    rewrite E1 in E1'. injection E1' as <-.
    exists s1, (set_count (count h - 1) h). split; [done|]. split; [done|]. split; [done|]. split; [by rewrite B1, decide_True|].
    rewrite L1, M1. split_and!; try done; simpl; try lia; by apply (view_some s).
  - rewrite bind_get. set (dir := bh_flags h =? CLASS_DIR). set (x := if dir then mru_buff s else lru_buff s).
    set (f := if dir then set_next_free p else set_prev_free p).
    set (g := if dir then set_prev_free x else set_next_free x).
    assert (∀ h, payload (f h) = payload h) as Hf by (intros; unfold f; by destruct dir).
    assert (∀ h, payload (g h) = payload h) as Hg by (intros; unfold g; by destruct dir).
    assert (∃ hx, buffers s !! x = Some hx) as [hx Hx] by (unfold x; by destruct dir).
    destruct (upd_view x f hx s Hx) as (s1 & E1 & V1 & L1 & M1 & B1); [intros; unfold f; by destruct dir|].
    destruct (upd_payload x f s) as (s1' & E1' & P1); [by eexists|done|]. rewrite E1 in E1'. injection E1' as <-.
    destruct (payload_lookup s s1 p h P1 Hp) as (h1 & Hp1 & Hb1).
    assert (count h1 = count h) as Hc1.
    { rewrite B1 in Hp1. case_decide as Heq; [|congruence]. rewrite Heq, Hx in Hp. injection Hp as ->.
      injection Hp1 as <-. unfold f. by destruct dir. }
    destruct (upd_view p g h1 s1 Hp1) as (s2 & E2 & V2 & L2 & M2 & B2); [intros; unfold g; by destruct dir|].
    destruct (upd_payload p g s1) as (s2' & E2' & P2); [by eexists|done|]. rewrite E2 in E2'. injection E2' as <-.
    assert (same_view s s2) as V by (by etrans). assert (same_payload s s2) as P by (by etrans).
    assert (is_Some (buffers s2 !! p)) as Hp2 by (rewrite B2, decide_True by done; by eexists).
    exists (if dir then set_mru p s2 else set_lru p s2), (g h1).
    assert (buffers (if dir then set_mru p s2 else set_lru p s2) = buffers s2) as HB by (by destruct dir).
    split; [|split; [by destruct dir|split; [by destruct dir|rewrite HB; split; [by rewrite B2, decide_True|]]]].
    + unfold x, f, g in *. destruct dir; by rewrite (bind_ok _ _ _ _ _ E1), (bind_ok _ _ _ _ _ E2).
    + assert (count (g h1) = count h1) as -> by (unfold g; by destruct dir).
      split; [by rewrite Hg|]. split; [lia|]. split; [lia|].
      destruct dir; simpl; (split; [|]); try done; rewrite ?L2, ?L1, ?M2, ?M1; by apply (view_some s).
Qed.

End requests.
