(* ===== verification/Alloc.v ===== *)
(** * What the heap promises to its clients

    The interface [Allocator] between the file systems and the kernel heap: a client
    owns regions, can store to and load from what it owns, and gives them back. The
    heap of [Heap.v] implements it; the invariant of its clients discharges the laws. *)

From S2P Require Import Prelude Memory Common HeapSpec Heap.

(** [mm_owns h G]: the regions handed out and not yet freed are [G]. *)
Class Allocator (H : Type) := {
  mm_alloc : Z → M H Z;
  mm_free : Z → M H unit;
  mm_store : list Z → Z → M H unit;
  mm_load : nat → Z → M H (list Z);
  mm_owns : H → gmap Z Z → Prop;
  mm_alloc_ok : ∀ h G n p h', mm_owns h G → word_request n → mm_alloc n h = Ok p h' →
    mm_owns h' (<[p := n]> G) ∧ G !! p = None;
  mm_free_ok : ∀ h G n p, mm_owns h G → G !! p = Some n →
    ∃ h', mm_free p h = Ok tt h' ∧ mm_owns h' (delete p G);
  mm_store_ok : ∀ h G n p l, mm_owns h G → G !! p = Some n → length l ≤ n → Forall (λ x, 0 ≤ x < 256) l →
    ∃ h', mm_store l p h = Ok tt h' ∧ mm_owns h' G ∧ mm_load (length l) p h' = Ok l h' }.

(** There is room for [n] bytes. *)
Definition has_room `{Allocator H} (h : H) (n : Z) : Prop := ∃ p h', mm_alloc n h = Ok p h'.

(** What a client that allocates, stores, and frees does to the heap. *)
Lemma alloc_store_free `{Allocator H} h G n l :
  mm_owns h G → word_request n → has_room h n → length l ≤ n → Forall (λ x, 0 ≤ x < 256) l →
  ∃ p h1 h2 h3, mm_alloc n h = Ok p h1 ∧ mm_store l p h1 = Ok tt h2 ∧ mm_load (length l) p h2 = Ok l h2 ∧
    mm_owns h2 (<[p := n]> G) ∧ G !! p = None ∧ mm_free p h2 = Ok tt h3 ∧ mm_owns h3 G.
Proof.
  intros Ho Hn (p & h1 & E1) Hl HF. destruct (mm_alloc_ok _ _ _ _ _ Ho Hn E1) as [Ho1 Hp].
  destruct (mm_store_ok h1 _ n p l Ho1 (lookup_insert_eq _ _ _) Hl HF) as (h2 & E2 & Ho2 & E3).
  destruct (mm_free_ok h2 _ n p Ho2 (lookup_insert_eq _ _ _)) as (h3 & E4 & Ho3).
  rewrite delete_insert_id in Ho3 by done. by exists p, h1, h2, h3.
Qed.

(** ** The kernel heap *)

Section heap.
Context (start endd : Z) (Hbounds : heap_bounds start endd).

(** Storing bytes one after the other. *)
Fixpoint stored (m : mem) (a : Z) (l : list Z) : mem :=
  match l with [] => m | x :: l => stored (wr8 m a x) (a + 1) l end.

Lemma stored_mapped l : ∀ m a b n, mapped m b n → mapped (stored m a l) b n.
Proof using. induction l as [|x l IH]; intros m a b n Hm; [done|]. apply IH. by apply mapped_wr8. Qed.
Lemma stored_below l : ∀ m a x, x < a → stored m a l !! x = m !! x.
Proof using.
  induction l as [|y l IH]; intros m a x Hx; [done|]. simpl. rewrite IH by lia. apply wr8_other. lia.
Qed.
Lemma stored_holds l : ∀ m a, Forall (λ x, 0 ≤ x < 256) l → holds_bytes (stored m a l) a l.
Proof using.
  induction l as [|x l IH]; intros m a HF; [by intros i x|]. apply Forall_cons in HF as [Hx HF].
  apply holds_bytes_cons. split; [|by apply IH]. simpl. rewrite stored_below by lia.
  rewrite lookup_wr8, decide_True by done. by rewrite u8_small.
Qed.

Lemma stored_other l : ∀ m a x, x < a ∨ a + length l ≤ x → stored m a l !! x = m !! x.
Proof using.
  induction l as [|y l IH]; intros m a x Hx; [done|]. cbn [stored length] in *. rewrite IH by lia. apply wr8_other. lia.
Qed.
(** Storing into a used block leaves the row of blocks as it is. *)
Lemma stored_repr h bs p n l :
  heap_repr h bs → (p, n) ∈ live (heap_start h) bs → length l ≤ n → heap_repr (set_mem h (stored (hmem h) p l)) bs.
Proof using.
  intros Hr Hp Hl. apply heap_repr_agree; [done|intros b k Hk; by apply stored_mapped|].
  intros x Hx. apply stored_other. destruct (decide (p ≤ x < p + n)) as [Hin|]; [|lia].
  destruct Hx. by exists p, n.
Qed.

(** A client may store to what it owns. *)
Lemma client_inv_stored l : ∀ h G p n a,
  client_inv start endd (h, G) → G !! p = Some n → p ≤ a → a + length l ≤ p + n →
  client_inv start endd (set_mem h (stored (hmem h) a l), G).
Proof using.
  induction l as [|x l IH]; intros h G p n a Hinv Hp Ha Hl; cbn [stored length] in *.
  - by rewrite set_mem_id.
  - assert (client_inv start endd (set_mem h (wr8 (hmem h) a x), G)) as Hinv1.
    { eapply client_inv_step; [|exact Hinv]. eapply client_write; [done|lia]. }
    apply (IH (set_mem h (wr8 (hmem h) a x)) G p n (a + 1)); [done|done|lia|lia].
Qed.

Lemma client_inv_mapped h G p n :
  client_inv start endd (h, G) → G !! p = Some n → mapped (hmem h) p n ∧ 0 ≤ p ∧ p + n < 4294967296.
Proof using Hbounds.
  intros Hinv Hp. destruct (client_inv_regions _ _ _ Hbounds Hinv) as [Hr _]. destruct (Hr p n Hp) as (H1 & H2 & _).
  destruct Hinv as (bs & Hrep & _ & Hs & He & _). simpl in *. destruct Hbounds as (? & ? & ? & ? & ?).
  split; [|lia]. eapply mapped_sub; [apply (hr_mapped _ _ Hrep)|lia|lia].
Qed.

Lemma write_bytes_stored l : ∀ m a, mapped m a (length l) → 0 ≤ a → a + length l < 4294967296 →
  write_bytes l a m = Ok tt (stored m a l).
Proof using.
  induction l as [|x l IH]; intros m a Hm Ha Hl; [done|]. cbn [write_bytes stored length] in *.
  rewrite (bind_ok _ _ _ _ _ (store8_ok m a x ltac:(eapply mapped_sub; [exact Hm|lia|lia]))).
  rewrite u32_small by lia. apply IH; [|lia|lia]. apply mapped_wr8. eapply mapped_sub; [exact Hm|lia|lia].
Qed.
Program Definition heap_allocator : Allocator heap := {|
  mm_alloc := kmalloc;
  mm_free := kfree;
  mm_store l p := on_mem (write_bytes l p);
  mm_load n p := on_mem (read_bytes n p);
  mm_owns h G := client_inv start endd (h, G) |}.
Next Obligation.
  intros h G n p h' Hinv Hn E. destruct (client_inv_malloc _ _ _ _ _ _ _ Hinv Hn E) as (? & _ & ?). done.
Qed.
Next Obligation.
  intros h G n p Hinv Hp. destruct (client_inv_free _ _ _ _ _ _ Hinv Hp) as (m' & E & Hinv' & _). by eexists.
Qed.
Next Obligation.
  intros h G n p l Hinv Hp Hl HF. simpl.
  destruct (client_inv_mapped h G p n Hinv Hp) as (Hm & Hp0 & Hpn).
  exists (set_mem h (stored (hmem h) p l)). split; [|split].
  - unfold on_mem, zoom. rewrite write_bytes_stored; [done| |lia|lia]. eapply mapped_sub; [exact Hm|lia|lia].
  - apply (client_inv_stored l h G p n p); [done|done|lia|lia].
  - unfold on_mem, zoom. simpl. rewrite read_bytes_holds; [by destruct h|by apply stored_holds|lia|lia].
Qed.
End heap.
