(* ===== verification/Ext2Format.v ===== *)
(** * The on-disk structures of ext2 (include/fs/ext2/ext2.h)

    The packed structs of the header as records, with their layout: a list of field
    widths in bytes, little endian. A struct is read by reinterpreting bytes, which is
    [decode]; [encode] is the bytes a struct occupies. *)

From S2P Require Import Prelude.

(** ** Fields of a packed struct *)

Fixpoint le_value (l : list Z) : Z := match l with [] => 0 | x :: l => x + 256 * le_value l end.
Fixpoint le_bytes (w : nat) (v : Z) : list Z :=
  match w with O => [] | S w => v mod 256 :: le_bytes w (v / 256) end.

Fixpoint get_fields (ws : list nat) (l : list Z) : list Z :=
  match ws with [] => [] | w :: ws => le_value (take w l) :: get_fields ws (drop w l) end.
Fixpoint put_fields (ws : list nat) (vs : list Z) : list Z :=
  match ws, vs with
  | w :: ws, v :: vs => le_bytes w v ++ put_fields ws vs
  | _, _ => []
  end.

Definition is_byte (x : Z) : Prop := 0 ≤ x < 256.
(** The value [v] fits a field of [w] bytes. *)
Definition fits (w : nat) (v : Z) : Prop := 0 ≤ v < 256 ^ w.

Lemma pow_S w : 256 ^ S w = 256 * 256 ^ w.
Proof. replace (Z.of_nat (S w)) with (1 + w) by lia. rewrite Z.pow_add_r by lia. lia. Qed.

Lemma le_bytes_length w : ∀ v, length (le_bytes w v) = w.
Proof. induction w; intros v; simpl; auto. Qed.
Lemma le_bytes_bytes w : ∀ v, Forall is_byte (le_bytes w v).
Proof. induction w; intros v; constructor; [apply Z.mod_pos_bound; lia|done]. Qed.
Lemma le_value_bytes w : ∀ v, fits w v → le_value (le_bytes w v) = v.
Proof.
  induction w as [|w IH]; intros v Hv; unfold fits in *; [change (256 ^ 0%nat) with 1 in Hv; simpl; lia|].
  rewrite pow_S in Hv. cbn [le_bytes le_value]. rewrite IH; [|split; [|apply Z.div_lt_upper_bound]];
    pose proof (Z.div_mod v 256); try lia. apply Z.div_pos; lia.
Qed.
Lemma le_value_fits l : Forall is_byte l → fits (length l) (le_value l).
Proof.
  unfold fits. induction 1 as [|x l Hx _ IH]; [change (256 ^ length (@nil Z)) with 1; simpl; lia|].
  cbn [length le_value]. rewrite pow_S. unfold is_byte in Hx. lia.
Qed.
Lemma le_bytes_value l : Forall is_byte l → le_bytes (length l) (le_value l) = l.
Proof.
  induction 1 as [|x l Hx Hl IH]; [done|]. cbn [length le_value le_bytes]. unfold is_byte in Hx.
  rewrite Z.mul_comm, Z.mod_add, Z.mod_small, Z.div_add, Z.div_small, Z.add_0_l by lia. by rewrite IH.
Qed.

Lemma get_fields_length ws : ∀ l, length (get_fields ws l) = length ws.
Proof. induction ws as [|w ws IH]; intros l; simpl; auto. Qed.
Lemma get_put_fields ws : ∀ vs, Forall2 fits ws vs → get_fields ws (put_fields ws vs) = vs.
Proof.
  induction ws as [|w ws IH]; intros vs HF; [by apply Forall2_nil_inv_l in HF as ->|].
  apply Forall2_cons_inv_l in HF as (v & vs' & Hv & HF & ->). cbn [put_fields get_fields].
  rewrite take_app_length', drop_app_length' by (symmetry; apply le_bytes_length). by rewrite le_value_bytes, IH.
Qed.
Lemma put_get_fields ws : ∀ l, Forall is_byte l → length l = sum_list ws → put_fields ws (get_fields ws l) = l.
Proof.
  induction ws as [|w ws IH]; intros l HF Hl; simpl in Hl; [by apply nil_length_inv in Hl as ->|].
  cbn [put_fields get_fields]. rewrite IH; [|by apply Forall_drop|rewrite length_drop; lia].
  assert (length (take w l) = w) as Hw by (rewrite length_take; lia).
  rewrite <-Hw at 1. rewrite le_bytes_value by (by apply Forall_take). apply take_drop.
Qed.
Lemma get_fields_fit ws : ∀ l, Forall is_byte l → (sum_list ws ≤ length l)%nat → Forall2 fits ws (get_fields ws l).
Proof.
  induction ws as [|w ws IH]; intros l HF Hl; simpl in Hl; constructor.
  - assert (length (take w l) = w) as Hw by (rewrite length_take; lia).
    rewrite <-Hw at 1. apply le_value_fits. by apply Forall_take.
  - apply IH; [by apply Forall_drop|rewrite length_drop; lia].
Qed.
Lemma put_fields_length ws : ∀ vs, length vs = length ws → length (put_fields ws vs) = sum_list ws.
Proof.
  induction ws as [|w ws IH]; intros [|v vs] Hl; try done. cbn [put_fields]. simpl in Hl.
  rewrite length_app, le_bytes_length, IH by lia. done.
Qed.
Lemma put_fields_bytes ws : ∀ vs, Forall is_byte (put_fields ws vs).
Proof.
  induction ws as [|w ws IH]; intros [|v vs]; try constructor. apply Forall_app_2; [apply le_bytes_bytes|apply IH].
Qed.

(** ** [ext2_inode_t] *)

Record ext2_inode := mkDiskInode {
  type_permissions : Z; uid : Z; size_low : Z; last_access : Z; creation : Z; last_mod : Z; deletion : Z;
  gid : Z; hard_links_count : Z; used_sectors_count : Z; flags : Z; reserved0 : Z;
  direct_block : list Z;
  singly_indirect_block : Z; doubly_indirect_block : Z; triply_indirect_block : Z; gen_number : Z;
  reserved1 : Z; reserved2 : Z; fragment_blockaddr : Z;
  os_spec : list Z }.

Definition inode_layout : list nat :=
  [2; 2; 4; 4; 4; 4; 4; 2; 2; 4; 4; 4]%nat ++ replicate 12 4%nat ++ replicate 7 4%nat ++ replicate 3 4%nat.
Definition SIZEOF_INODE : nat := 128.

Definition inode_fields (i : ext2_inode) : list Z :=
  [type_permissions i; uid i; size_low i; last_access i; creation i; last_mod i; deletion i; gid i;
   hard_links_count i; used_sectors_count i; flags i; reserved0 i] ++ direct_block i ++
  [singly_indirect_block i; doubly_indirect_block i; triply_indirect_block i; gen_number i; reserved1 i;
   reserved2 i; fragment_blockaddr i] ++ os_spec i.
Definition inode_of_fields (v : list Z) : ext2_inode :=
  let f i := nth i v 0 in
  mkDiskInode (f 0%nat) (f 1%nat) (f 2%nat) (f 3%nat) (f 4%nat) (f 5%nat) (f 6%nat) (f 7%nat) (f 8%nat) (f 9%nat)
    (f 10%nat) (f 11%nat) (take 12 (drop 12 v)) (f 24%nat) (f 25%nat) (f 26%nat) (f 27%nat) (f 28%nat) (f 29%nat)
    (f 30%nat) (take 3 (drop 31 v)).

Definition decode_inode (l : list Z) : ext2_inode := inode_of_fields (get_fields inode_layout l).
Definition encode_inode (i : ext2_inode) : list Z := put_fields inode_layout (inode_fields i).

(** The types of the fields: unsigned words of 2 or 4 bytes ([size_low], declared as
    [int32_t], by its bit pattern), arrays of 12 and 3. *)
Definition inode_typed (i : ext2_inode) : Prop := Forall2 fits inode_layout (inode_fields i).

(** ** [ext2_bgd_t] and [ext2_directory_entry_t] *)

Record ext2_bgd := mkBgd {
  block_usage_bitmap : Z; inode_usage_bitmap : Z; inode_table : Z; free_block_count : Z; free_inode_count : Z;
  directory_count : Z; bgd_unused : list Z }.
Definition bgd_layout : list nat := [4; 4; 4; 2; 2; 2]%nat ++ replicate 14 1%nat.
Definition SIZEOF_BGD : Z := 32.
Definition bgd_of_fields (v : list Z) : ext2_bgd :=
  let f i := nth i v 0 in mkBgd (f 0%nat) (f 1%nat) (f 2%nat) (f 3%nat) (f 4%nat) (f 5%nat) (drop 6 v).
Definition decode_bgd (l : list Z) : ext2_bgd := bgd_of_fields (get_fields bgd_layout l).

Record ext2_directory_entry := mkDirEntry { de_inode : Z; entry_size : Z; name_length : Z; de_type : Z }.
Definition dir_layout : list nat := [4; 2; 1; 1]%nat.
Definition SIZEOF_DIR_ENTRY : Z := 8.
Definition dir_fields (e : ext2_directory_entry) : list Z := [de_inode e; entry_size e; name_length e; de_type e].
Definition decode_dir (l : list Z) : ext2_directory_entry :=
  let v := get_fields dir_layout l in mkDirEntry (nth 0 v 0) (nth 1 v 0) (nth 2 v 0) (nth 3 v 0).
Definition encode_dir (e : ext2_directory_entry) : list Z := put_fields dir_layout (dir_fields e).

(** ** [ext2_superblock_t] and [ext2_extended_superblock_t] *)

Record ext2_superblock := mkSuperblock {
  es_inode_count : Z; es_block_count : Z; res_block_count : Z; es_free_block_count : Z; es_free_inode_count : Z;
  superblock_num : Z; es_block_size : Z; es_fragment_size : Z; es_blocks_per_group : Z; fragments_per_group : Z;
  es_inodes_per_group : Z; last_mount_time : Z; last_written_time : Z; mount_count : Z; allowed_mount_count : Z;
  ext2_signature : Z; fs_state : Z; error_handle_info : Z; minor_version : Z; last_consistency_check : Z;
  check_interval : Z; os_id : Z; major_version : Z; res_uid : Z; res_gid : Z;
  (** the extension; the identifiers and the padding after [features_RO] as bytes *)
  first_inode : Z; es_inode_size : Z; partof_block_group : Z; optional_features : Z; required_features : Z;
  features_RO : Z; es_rest : list Z }.
Definition superblock_layout : list nat :=
  replicate 13 4%nat ++ replicate 6 2%nat ++ [4; 4; 4; 4; 2; 2; 4; 2; 2; 4; 4; 4]%nat ++ replicate 920 1%nat.
Definition superblock_of_fields (v : list Z) : ext2_superblock :=
  let f i := nth i v 0 in
  mkSuperblock (f 0%nat) (f 1%nat) (f 2%nat) (f 3%nat) (f 4%nat) (f 5%nat) (f 6%nat) (f 7%nat) (f 8%nat) (f 9%nat)
    (f 10%nat) (f 11%nat) (f 12%nat) (f 13%nat) (f 14%nat) (f 15%nat) (f 16%nat) (f 17%nat) (f 18%nat) (f 19%nat)
    (f 20%nat) (f 21%nat) (f 22%nat) (f 23%nat) (f 24%nat) (f 25%nat) (f 26%nat) (f 27%nat) (f 28%nat) (f 29%nat)
    (f 30%nat) (drop 31 v).
Definition decode_superblock (l : list Z) : ext2_superblock :=
  superblock_of_fields (get_fields superblock_layout l).

(** ** Round trips *)

Lemma inode_of_inode_fields i : length (direct_block i) = 12%nat → length (os_spec i) = 3%nat →
  inode_of_fields (inode_fields i) = i.
Proof.
  intros Hd Ho. destruct i as [? ? ? ? ? ? ? ? ? ? ? ? db ? ? ? ? ? ? ? os]. simpl in *.
  do 12 (destruct db as [|? db]; [done|]). destruct db; [|done].
  do 3 (destruct os as [|? os]; [done|]). by destruct os.
Qed.
Lemma fields_of_inode_fields v : length v = 34%nat → inode_fields (inode_of_fields v) = v.
Proof. intros Hv. do 34 (destruct v as [|? v]; [done|]). by destruct v. Qed.

(** An inode of 128 bytes is read into typed fields, and written back as the same
    bytes; a typed inode survives being written and read. *)
Theorem inode_roundtrip :
  (∀ l, length l = SIZEOF_INODE → Forall is_byte l →
    inode_typed (decode_inode l) ∧ encode_inode (decode_inode l) = l) ∧
  (∀ i, length (direct_block i) = 12%nat → length (os_spec i) = 3%nat → inode_typed i →
    decode_inode (encode_inode i) = i ∧ length (encode_inode i) = SIZEOF_INODE ∧ Forall is_byte (encode_inode i)).
Proof.
  split.
  - intros l Hl HF. unfold inode_typed, encode_inode, decode_inode.
    rewrite fields_of_inode_fields by apply get_fields_length. split.
    + apply get_fields_fit; [done|]. by rewrite Hl.
    + apply put_get_fields; [done|]. by rewrite Hl.
  - intros i Hd Ho Ht. unfold decode_inode, encode_inode. rewrite get_put_fields by done.
    split; [by apply inode_of_inode_fields|]. split; [|apply put_fields_bytes].
    apply put_fields_length. unfold inode_typed in Ht. by apply Forall2_length in Ht.
Qed.
