(* ===== verification/Vfs.v ===== *)
(** * The virtual file system (src/fs/vfs/vfs.c, include/fs/vfs/vfs.h)

    File system types, super blocks, inodes and directory entries are typed stores
    from addresses to records, chained through their [next] fields; 0 is the null
    pointer. Names are C strings in byte memory, compared by [Common.v]. Walks along a
    list run with one unit of fuel per object of the store and one more: a list that
    ends visits none twice. *)

From S2P Require Import Prelude Memory Common.

(** ** Data *)

Definition TYPE_DIRECTORY : Z := 0x4000.
Definition TYPE_REG_FILE : Z := 0x8000.

(** The functions of the kernel whose address is stored in [read_super], and the
    operation tables objects point to (a null pointer is [None]). *)
Inductive read_super_fn := Devfs_read_super | Ext2_read_super.
Inductive inode_operations := Devfs_inode_ops | Ext2_inode_ops.
Inductive super_operations := Devfs_super_ops | Ext2_super_operations.

(** [struct inode] *)
Record inode := mkInode {
  i_dev : Z; i_no : Z; i_size : Z; i_ops : option inode_operations; i_sb : Z; i_gid : Z; i_uid : Z;
  i_flags : Z; i_permissions : Z; i_mount_point : bool; i_counter : Z; i_next : Z; i_prev : Z }.

(** [struct super_block] *)
Record super_block := mkSuper {
  sb_dev : Z; sb_fs_type : Z; sb_ops : option super_operations; sb_mount_point : Z; sb_root : Z; sb_next : Z }.

(** [struct file_system_type] *)
Record file_system_type := mkFsType { fs_read_super : read_super_fn; fs_name : Z; fs_next : Z }.
Definition set_fs_next (n : Z) (t : file_system_type) : file_system_type :=
  mkFsType (fs_read_super t) (fs_name t) n.

(** [struct file] *)
Record file := mkFile { f_inode : Z; f_name : Z; f_pos : Z }.

(** [struct dentry] *)
Record dentry := mkDentry {
  d_name : Z; d_inode : Z; d_sb : Z; d_mounted : bool; d_count : Z; d_child : Z; d_next : Z; d_prev : Z }.

Record vfs := mkVfs {
  fs_types : gmap Z file_system_type;
  file_systems : Z;
  super_blocks : gmap Z super_block;
  sb_head : Z;
  inodes : gmap Z inode;
  i_head : Z;
  dentries : gmap Z dentry;
  d_head : Z;
  vmem : mem }.
Definition set_fs_types (m : gmap Z file_system_type) (s : vfs) : vfs :=
  mkVfs m (file_systems s) (super_blocks s) (sb_head s) (inodes s) (i_head s) (dentries s) (d_head s) (vmem s).
Definition set_file_systems (p : Z) (s : vfs) : vfs :=
  mkVfs (fs_types s) p (super_blocks s) (sb_head s) (inodes s) (i_head s) (dentries s) (d_head s) (vmem s).
Definition set_super_blocks (m : gmap Z super_block) (s : vfs) : vfs :=
  mkVfs (fs_types s) (file_systems s) m (sb_head s) (inodes s) (i_head s) (dentries s) (d_head s) (vmem s).
Definition set_sb_head (p : Z) (s : vfs) : vfs :=
  mkVfs (fs_types s) (file_systems s) (super_blocks s) p (inodes s) (i_head s) (dentries s) (d_head s) (vmem s).
Definition set_inodes (m : gmap Z inode) (s : vfs) : vfs :=
  mkVfs (fs_types s) (file_systems s) (super_blocks s) (sb_head s) m (i_head s) (dentries s) (d_head s) (vmem s).
Definition set_i_head (p : Z) (s : vfs) : vfs :=
  mkVfs (fs_types s) (file_systems s) (super_blocks s) (sb_head s) (inodes s) p (dentries s) (d_head s) (vmem s).
Definition set_dentries (m : gmap Z dentry) (s : vfs) : vfs :=
  mkVfs (fs_types s) (file_systems s) (super_blocks s) (sb_head s) (inodes s) (i_head s) m (d_head s) (vmem s).
Definition set_d_head (p : Z) (s : vfs) : vfs :=
  mkVfs (fs_types s) (file_systems s) (super_blocks s) (sb_head s) (inodes s) (i_head s) (dentries s) p (vmem s).
Definition set_vmem (m : mem) (s : vfs) : vfs :=
  mkVfs (fs_types s) (file_systems s) (super_blocks s) (sb_head s) (inodes s) (i_head s) (dentries s) (d_head s) m.

Definition on_vmem {A} (c : M mem A) : M vfs A := zoom vmem set_vmem c.

(** [p->field] and [p->field = v] for the four kinds of object. *)
Definition ld_fs (p : Z) : M vfs file_system_type := λ s, of_option (fs_types s !! p) s.
Definition upd_fs (p : Z) (f : file_system_type → file_system_type) : M vfs unit :=
  let* t := ld_fs p in modify (λ s, set_fs_types (<[p := f t]> (fs_types s)) s).
Definition ld_sb (p : Z) : M vfs super_block := λ s, of_option (super_blocks s !! p) s.
Definition upd_sb (p : Z) (f : super_block → super_block) : M vfs unit :=
  let* t := ld_sb p in modify (λ s, set_super_blocks (<[p := f t]> (super_blocks s)) s).
Definition ld_inode (p : Z) : M vfs inode := λ s, of_option (inodes s !! p) s.
Definition upd_inode (p : Z) (f : inode → inode) : M vfs unit :=
  let* t := ld_inode p in modify (λ s, set_inodes (<[p := f t]> (inodes s)) s).
Definition ld_dentry (p : Z) : M vfs dentry := λ s, of_option (dentries s !! p) s.
Definition upd_dentry (p : Z) (f : dentry → dentry) : M vfs unit :=
  let* t := ld_dentry p in modify (λ s, set_dentries (<[p := f t]> (dentries s)) s).

Definition set_i_next (n : Z) (i : inode) : inode :=
  mkInode (i_dev i) (i_no i) (i_size i) (i_ops i) (i_sb i) (i_gid i) (i_uid i) (i_flags i) (i_permissions i)
    (i_mount_point i) (i_counter i) n (i_prev i).
Definition set_sb_next (n : Z) (b : super_block) : super_block :=
  mkSuper (sb_dev b) (sb_fs_type b) (sb_ops b) (sb_mount_point b) (sb_root b) n.
Definition set_d_next (n : Z) (d : dentry) : dentry :=
  mkDentry (d_name d) (d_inode d) (d_sb d) (d_mounted d) (d_count d) (d_child d) n (d_prev d).
Definition set_d_prev (n : Z) (d : dentry) : dentry :=
  mkDentry (d_name d) (d_inode d) (d_sb d) (d_mounted d) (d_count d) (d_child d) (d_next d) n.

(** ** Operations *)

Definition add_inode (p : Z) : M vfs unit :=
  let* s := get in
  upd_inode p (set_i_next (i_head s)) ;;;
  modify (set_i_head p).
Definition add_dir (p : Z) : M vfs unit :=
  let* s := get in
  upd_dentry p (set_d_next (d_head s)) ;;;
  upd_dentry (d_head s) (set_d_prev p) ;;;
  modify (set_d_head p).
Definition add_sb (p : Z) : M vfs unit :=
  let* s := get in
  upd_sb p (set_sb_next (sb_head s)) ;;;
  modify (set_sb_head p).

(** A [struct file_system_type **]: the head of the list or a [next] field. *)
Inductive link := Head | Next (p : Z).
Definition ld_link (l : link) : M vfs Z :=
  match l with
  | Head => gets file_systems
  | Next p => let* t := ld_fs p in ret (fs_next t)
  end.
Definition st_link (l : link) (v : Z) : M vfs unit :=
  match l with
  | Head => modify (set_file_systems v)
  | Next p => upd_fs p (set_fs_next v)
  end.

Fixpoint find_loop (fuel : nat) (ptr : link) (name len : Z) : M vfs link :=
  match fuel with
  | O => timeout
  | S f =>
      let* p := ld_link ptr in
      if p =? 0 then ret ptr else
      let* c := (if len =? 0 then ret 1
                 else let* t := ld_fs p in on_vmem (strncmp name (fs_name t) len)) in
      if c =? 0 then ret ptr else find_loop f (Next p) name len
  end.
Definition find_file_system (name len : Z) : M vfs link := λ s,
  find_loop (S (size (fs_types s))) Head name (u8 len) s.

Definition register_filesystem (fs : Z) : M vfs Z :=
  let* t := ld_fs fs in
  if truth (fs_next t) then ret (-1) else
  let* n := on_vmem (strlen (fs_name t)) in
  let* ptr := find_file_system (fs_name t) n in
  let* p := ld_link ptr in
  if truth p then ret (-1) else
  st_link ptr fs ;;;
  ret 0.

Fixpoint unregister_loop (fuel : nat) (ptr : link) (fs : Z) : M vfs Z :=
  match fuel with
  | O => timeout
  | S f =>
      let* p := ld_link ptr in
      if p =? 0 then ret (-1) else
      if p =? fs then
        let* t := ld_fs fs in
        st_link ptr (fs_next t) ;;;
        upd_fs fs (set_fs_next 0) ;;;
        ret 0
      else unregister_loop f (Next p) fs
  end.
Definition unregister_filesystem (fs : Z) : M vfs Z := λ s,
  unregister_loop (S (size (fs_types s))) Head fs s.

Fixpoint find_sb_loop (fuel : nat) (sb fs_type : Z) : M vfs Z :=
  match fuel with
  | O => timeout
  | S f =>
      if sb =? 0 then ret 0 else
      let* b := ld_sb sb in
      if sb_fs_type b =? fs_type then ret sb else find_sb_loop f (sb_next b) fs_type
  end.
Definition find_super_block (name : Z) : M vfs Z :=
  let* n := on_vmem (strlen name) in
  let* ptr := find_file_system name n in
  let* fs_type := ld_link ptr in
  if fs_type =? 0 then ret 0 else
  let* s := get in
  find_sb_loop (S (size (super_blocks s))) (sb_head s) fs_type.

(** ** Specification: the registry is a list of types with their names *)

(** The list from the pointer [p] on, null-terminated. *)
Fixpoint types_from (s : vfs) (p : Z) (l : list Z) : Prop :=
  match l with
  | [] => p = 0
  | q :: l => p = q ∧ q ≠ 0 ∧ ∃ t, fs_types s !! q = Some t ∧ types_from s (fs_next t) l
  end.

(** The C string at [a]. *)
Definition string_at (m : mem) (a : Z) (str : list Z) : Prop :=
  holds_string m a str ∧ 0 ≤ a ∧ a + length str < 4294967296.
Definition named (s : vfs) (q : Z) (str : list Z) : Prop :=
  ∃ t, fs_types s !! q = Some t ∧ string_at (vmem s) (fs_name t) str.

Record registry (s : vfs) (ts : list (Z * list Z)) : Prop := {
  rg_list : types_from s (file_systems s) ts.*1;
  rg_nodup : NoDup ts.*1;
  rg_names : ∀ q nm, (q, nm) ∈ ts → named s q nm;
  rg_bytes : bytes_ok (vmem s) }.

(** Where a search for the prefix [str] ends: at the link to the first type whose
    name starts with it, or at the end of the list. *)
Fixpoint place (pre : link) (str : list Z) (ts : list (Z * list Z)) : link :=
  match ts with
  | [] => pre
  | (q, nm) :: ts => if decide (str `prefix_of` nm) then pre else place (Next q) str ts
  end.
Definition found (str : list Z) (ts : list (Z * list Z)) : Z :=
  match list_find (λ x, str `prefix_of` x.2) ts with Some (_, (q, _)) => q | None => 0 end.

(** ** Lemmas *)

Lemma on_vmem_ok {A} (c : M mem A) s a : c (vmem s) = Ok a (vmem s) → on_vmem c s = Ok a s.
Proof. intros Hc. unfold on_vmem. rewrite (zoom_ok _ _ _ _ _ _ Hc). by destruct s. Qed.
Lemma ld_fs_ok p t s : fs_types s !! p = Some t → ld_fs p s = Ok t s.
Proof. unfold ld_fs. by intros ->. Qed.
Lemma upd_fs_ok p t f s :
  fs_types s !! p = Some t → upd_fs p f s = Ok tt (set_fs_types (<[p := f t]> (fs_types s)) s).
Proof. intros Hp. unfold upd_fs. by rewrite (bind_ok _ _ _ _ _ (ld_fs_ok _ _ _ Hp)). Qed.

Lemma types_length s l : ∀ p, types_from s p l → NoDup l → (length l ≤ size (fs_types s))%nat.
Proof.
  intros p Hl Hnd. rewrite <-size_dom, <-(size_list_to_set (C := gset Z) l Hnd). apply subseteq_size.
  revert p Hl. clear Hnd. induction l as [|q l IH]; intros p Hl; [set_solver|].
  destruct Hl as (-> & _ & t & Ht & Hl). specialize (IH _ Hl).
  assert (q ∈ dom (fs_types s)) by (by apply elem_of_dom_2 in Ht). set_solver.
Qed.

Lemma found_nil str ts : (∀ q nm, (q, nm) ∈ ts → ¬ str `prefix_of` nm) → found str ts = 0.
Proof.
  intros Hno. unfold found. destruct (list_find _ ts) as [[i [q nm]]|] eqn:Hf; [|done].
  apply list_find_Some in Hf as (Hi & Hp & _). destruct (Hno q nm); [by eapply list_elem_of_lookup_2|done].
Qed.

(** The search loop. *)
Lemma find_loop_spec s name str n ts : ∀ fuel pre p,
  string_at (vmem s) name str → bytes_ok (vmem s) → 0 < n ≤ length str →
  (∀ q nm, (q, nm) ∈ ts → named s q nm) → ld_link pre s = Ok p s → types_from s p ts.*1 →
  (length ts < fuel)%nat →
  let l := place pre (take (Z.to_nat n) str) ts in
  find_loop fuel pre name n s = Ok l s ∧ ld_link l s = Ok (found (take (Z.to_nat n) str) ts) s.
Proof.
  induction ts as [|[q nm] ts IH]; intros [|fuel] pre p (Hstr & Hn0 & Hn1) Hok Hn Hnames Hld Hl Hf; simpl in Hf; try lia;
    cbn [find_loop place]; rewrite (bind_ok _ _ _ _ _ Hld).
  - simpl in Hl. subst p. split; [done|exact Hld].
  - destruct Hl as (-> & Hq & t & Ht & Hl). cbn [fst fmap list_fmap] in *. rewrite (proj2 (Z.eqb_neq q 0)) by done.
    rewrite (proj2 (Z.eqb_neq n 0)) by lia.
    destruct (Hnames q nm) as (t' & Ht' & Hnm & Hnm0 & Hnm1); [left|]. rewrite Ht in Ht'. injection Ht' as <-.
    destruct (cmp_strings (vmem s) (Z.to_nat n) str nm name (fs_name t)) as (c & Ec & Hc); [done|done|done|lia|done..|].
    assert ((let* t := ld_fs q in on_vmem (strncmp name (fs_name t) n)) s = Ok c s) as E.
    { rewrite (bind_ok _ _ _ _ _ (ld_fs_ok _ _ _ Ht)). apply on_vmem_ok. unfold strncmp.
      by rewrite (proj2 (Z.eqb_neq n 0)) by lia. }
    rewrite (bind_ok _ _ _ _ _ E). unfold found. cbn [list_find]. simpl.
    destruct (decide (take (Z.to_nat n) str `prefix_of` nm)) as [Hpre|Hpre].
    + apply Hc in Hpre as ->. split; [done|exact Hld].
    + rewrite (proj2 (Z.eqb_neq c 0)) by (intros H0; by apply Hpre, Hc).
      destruct (IH fuel (Next q) (fs_next t)) as [E1 E2]; try done; try lia.
      { intros q' nm' Hin. apply Hnames. by right. }
      { simpl. by rewrite (bind_ok _ _ _ _ _ (ld_fs_ok _ _ _ Ht)). }
      split; [exact E1|]. rewrite E2. unfold found. by destruct (list_find _ ts) as [[? []]|].
Qed.

(** [find_file_system] for a name of at most 255 characters. *)
Lemma find_spec s ts name str n :
  registry s ts → string_at (vmem s) name str → 0 < n ≤ length str → n < 256 →
  let l := place Head (take (Z.to_nat n) str) ts in
  find_file_system name n s = Ok l s ∧ ld_link l s = Ok (found (take (Z.to_nat n) str) ts) s.
Proof.
  intros [Hl Hnd Hnames Hok] Hstr Hn Hn256. unfold find_file_system. rewrite u8_small by lia.
  apply (find_loop_spec s name str n ts _ Head (file_systems s)); try done.
  pose proof (types_length s _ _ Hl Hnd) as Hlen. rewrite length_fmap in Hlen. lia.
Qed.

(** A link changed: what it holds, and that the names and the other links stay. *)
Definition set_link (l : link) (v : Z) (s : vfs) : vfs :=
  match l with
  | Head => set_file_systems v s
  | Next p => set_fs_types (alter (set_fs_next v) p (fs_types s)) s
  end.
Definition same_names (s s' : vfs) : Prop :=
  vmem s' = vmem s ∧ ∀ q, fs_name <$> fs_types s' !! q = fs_name <$> fs_types s !! q.
#[export] Instance same_names_preorder : PreOrder same_names.
Proof. split; [done|]. intros s1 s2 s3 [A1 A2] [B1 B2]. split; [congruence|]. intros q. by rewrite B2. Qed.

Lemma st_link_ok l v w s : ld_link l s = Ok w s → st_link l v s = Ok tt (set_link l v s).
Proof.
  destruct l as [|p]; [done|]. simpl. unfold ld_fs, bind. destruct (fs_types s !! p) as [t|] eqn:Hp; [|done].
  intros _. rewrite (upd_fs_ok _ _ _ _ Hp). do 2 f_equal. apply map_eq. intros q.
  destruct (decide (p = q)) as [<-|].
  - by rewrite lookup_insert_eq, lookup_alter_eq, Hp.
  - by rewrite lookup_insert_ne, lookup_alter_ne.
Qed.
Lemma set_link_names l v s : same_names s (set_link l v s).
Proof.
  destruct l as [|p]; [done|]. split; [done|]. intros q. simpl. destruct (decide (p = q)) as [<-|].
  - rewrite lookup_alter_eq. by destruct (fs_types s !! p).
  - by rewrite lookup_alter_ne.
Qed.
(** Everything else stays, and so do the functions of the types. *)
Lemma set_link_rest l v s :
  super_blocks (set_link l v s) = super_blocks s ∧ inodes (set_link l v s) = inodes s ∧
  dentries (set_link l v s) = dentries s ∧
  ∀ q, fs_read_super <$> fs_types (set_link l v s) !! q = fs_read_super <$> fs_types s !! q.
Proof.
  destruct l as [|p]; [done|]. do 3 (split; [done|]). intros q. simpl. destruct (decide (p = q)) as [<-|].
  - rewrite lookup_alter_eq. by destruct (fs_types s !! p).
  - by rewrite lookup_alter_ne.
Qed.
Lemma set_link_eq l v w s : ld_link l s = Ok w s → ld_link l (set_link l v s) = Ok v (set_link l v s).
Proof.
  destruct l as [|p]; [done|]. simpl. unfold ld_fs, bind. destruct (fs_types s !! p) as [t|] eqn:Hp; [|done].
  intros _. simpl. by rewrite lookup_alter_eq, Hp.
Qed.
Lemma set_link_ne l l' v w s : l ≠ l' → ld_link l' s = Ok w s → ld_link l' (set_link l v s) = Ok w (set_link l v s).
Proof.
  intros Hne. destruct l as [|p], l' as [|p']; simpl; unfold gets, ld_fs, bind; [done|..]; simpl.
  - destruct (fs_types s !! p') as [t|]; [|done]. simpl. unfold ret. congruence.
  - congruence.
  - rewrite lookup_alter_ne by congruence.
    destruct (fs_types s !! p') as [t|]; [|done]. simpl. unfold ret. congruence.
Qed.
Lemma named_same s s' q str : same_names s s' → named s q str → named s' q str.
Proof.
  intros [Hm Hn] (t & Ht & Hs). specialize (Hn q). rewrite Ht in Hn.
  destruct (fs_types s' !! q) as [t'|] eqn:Ht'; [|done]. simpl in Hn. injection Hn as Hn.
  exists t'. by rewrite Hm, Hn.
Qed.

(** Lists and links: a chain depends on the links of its elements only. *)
Lemma next_link s q t : fs_types s !! q = Some t → ld_link (Next q) s = Ok (fs_next t) s.
Proof. intros Hq. simpl. by rewrite (bind_ok _ _ _ _ _ (ld_fs_ok _ _ _ Hq)). Qed.
Lemma types_cons s q v l : q ≠ 0 → ld_link (Next q) s = Ok v s → types_from s v l → types_from s q (q :: l).
Proof.
  intros Hq Hld Hl. split; [done|]. split; [done|]. simpl in Hld. unfold ld_fs, bind in Hld.
  destruct (fs_types s !! q) as [t|]; [|done]. simpl in Hld. unfold ret in Hld. injection Hld as <-. by exists t.
Qed.
Lemma types_frame s s' l : ∀ p,
  (∀ q w, q ∈ l → ld_link (Next q) s = Ok w s → ld_link (Next q) s' = Ok w s') →
  types_from s p l → types_from s' p l.
Proof.
  induction l as [|q l IH]; intros p Hlinks Hl; [done|]. destruct Hl as (-> & Hq & t & Ht & Hl).
  apply types_cons with (fs_next t); [done| |].
  - apply Hlinks; [left|]. by apply next_link.
  - apply IH; [|done]. intros q' w Hq'. apply Hlinks. by right.
Qed.

(** The link at the end of the list, where a search without a match ends. *)
Fixpoint end_link (pre : link) (l : list Z) : link :=
  match l with [] => pre | q :: l => end_link (Next q) l end.
Lemma place_none str ts : ∀ pre,
  (∀ q nm, (q, nm) ∈ ts → ¬ str `prefix_of` nm) → place pre str ts = end_link pre ts.*1.
Proof.
  induction ts as [|[q nm] ts IH]; intros pre Hno; [done|]. simpl.
  rewrite decide_False by (eapply Hno; left). apply IH. intros q' nm' Hin. eapply Hno. by right.
Qed.
Lemma end_link_cases l : ∀ pre, end_link pre l = pre ∨ ∃ q, q ∈ l ∧ end_link pre l = Next q.
Proof.
  induction l as [|q l IH]; intros pre; simpl; [by left|].
  right. destruct (IH (Next q)) as [-> |(q' & Hq' & ->)].
  - exists q. split; [left|done].
  - exists q'. split; [by right|done].
Qed.
Lemma end_link_null s l : ∀ pre p, ld_link pre s = Ok p s → types_from s p l → ld_link (end_link pre l) s = Ok 0 s.
Proof.
  induction l as [|q l IH]; intros pre p Hld Hl; [simpl in Hl; by subst p|].
  destruct Hl as (-> & Hq & t & Ht & Hl). simpl. eapply IH; [by apply next_link|done].
Qed.

Lemma append_type_spec s fs t l : ∀ pre p,
  ld_link pre s = Ok p s → types_from s p l → NoDup l → (∀ q, q ∈ l → pre ≠ Next q) →
  fs_types s !! fs = Some t → fs_next t = 0 → fs ≠ 0 → fs ∉ l → pre ≠ Next fs →
  let s' := set_link (end_link pre l) fs s in
  st_link (end_link pre l) fs s = Ok tt s' ∧
  ∃ p', ld_link pre s' = Ok p' s' ∧ types_from s' p' (l ++ [fs]).
Proof.
  induction l as [|q l IH]; intros pre p Hld Hl Hnd Hpre Hfs Hnx Hfs0 Hnin Hpf; cbn zeta.
  - cbn [end_link app]. split; [by apply (st_link_ok _ _ p)|]. exists fs.
    split; [by apply (set_link_eq _ _ p)|]. apply types_cons with 0; [done| |done].
    apply set_link_ne; [done|]. rewrite <-Hnx. by apply next_link.
  - destruct Hl as (-> & Hq & tq & Htq & Hl). apply NoDup_cons in Hnd as [Hqn Hnd]. cbn [end_link].
    destruct (IH (Next q) (fs_next tq)) as (E1 & p' & Hp' & Hl'); try done.
    + by apply next_link.
    + intros q' Hq' [= ->]. done.
    + set_solver.
    + intros [= ->]. set_solver.
    + split; [done|]. exists q. split.
      * apply set_link_ne; [|done]. intros Heq. destruct (end_link_cases l (Next q)) as [He|(q' & Hq' & He)].
        -- apply (Hpre q); [left|congruence].
        -- apply (Hpre q'); [by right|congruence].
      * simpl. by apply types_cons with p'.
Qed.

(** Removing an element of the list. *)
Lemma remove_spec fs l2 l1 : ∀ fuel pre p s,
  ld_link pre s = Ok p s → types_from s p (l1 ++ fs :: l2) → NoDup (l1 ++ fs :: l2) →
  (∀ q, q ∈ l1 ++ fs :: l2 → pre ≠ Next q) → (length l1 < fuel)%nat →
  ∃ s' p', unregister_loop fuel pre fs s = Ok 0 s' ∧ ld_link pre s' = Ok p' s' ∧
    types_from s' p' (l1 ++ l2) ∧ same_names s s' ∧ ld_link (Next fs) s' = Ok 0 s' ∧
    ∀ l w, l ≠ pre → l ≠ Next fs → (∀ q, q ∈ l1 → l ≠ Next q) → ld_link l s = Ok w s → ld_link l s' = Ok w s'.
Proof.
  induction l1 as [|q l1 IH]; intros [|fuel] pre p s Hld Hl Hnd Hpre Hf; simpl in Hf; try lia;
    cbn [unregister_loop app] in *; rewrite (bind_ok _ _ _ _ _ Hld); destruct Hl as (-> & Hq & t & Ht & Hl);
    apply NoDup_cons in Hnd as [Hqn Hnd]; rewrite (proj2 (Z.eqb_neq _ 0)) by done.
  - rewrite Z.eqb_refl, (bind_ok _ _ _ _ _ (ld_fs_ok _ _ _ Ht)).
    rewrite (bind_ok _ _ _ _ _ (st_link_ok pre (fs_next t) fs s Hld)).
    assert (pre ≠ Next fs) as Hpf by (apply Hpre; left).
    set (s1 := set_link pre (fs_next t) s).
    assert (ld_link (Next fs) s1 = Ok (fs_next t) s1) as Hn1.
    { apply set_link_ne; [done|]. by apply next_link. }
    change (upd_fs fs (set_fs_next 0)) with (st_link (Next fs) 0).
    rewrite (bind_ok _ _ _ _ _ (st_link_ok (Next fs) 0 _ s1 Hn1)).
    exists (set_link (Next fs) 0 s1), (fs_next t). split; [done|].
    assert (∀ l w, l ≠ pre → l ≠ Next fs → ld_link l s = Ok w s →
      ld_link l (set_link (Next fs) 0 s1) = Ok w (set_link (Next fs) 0 s1)) as Hoth.
    { intros l w Hl1 Hl2 Hw. by apply set_link_ne, set_link_ne. }
    split; [apply set_link_ne; [done|]; by apply (set_link_eq _ _ fs)|].
    split; [|split; [etrans; apply set_link_names|split; [by apply (set_link_eq _ _ (fs_next t))|eauto]]].
    apply (types_frame s); [|done]. intros q w Hq' Hw. apply Hoth; [|intros [= ->]; done|done].
    intros <-. apply (Hpre q); [by right|done].
  - rewrite (proj2 (Z.eqb_neq q fs)) by set_solver.
    destruct (IH fuel (Next q) (fs_next t) s) as (s' & p' & E & Hp' & Hl' & Hn & Hz & Hoth); try done; try lia.
    { by apply next_link. }
    { intros q' Hq' [= ->]. done. }
    exists s', q. split; [done|]. split.
    { apply Hoth; [apply Hpre; left|apply Hpre; set_solver|intros q' Hq'; apply Hpre; set_solver|done]. }
    split; [by apply types_cons with p'|]. split; [done|]. split; [done|].
    intros l w H1 H2 H3 Hw. apply Hoth; [apply H3; left|done|intros q' Hq'; apply H3; by right|done].
Qed.

Lemma unregister_missing fs ts : ∀ fuel pre p s,
  ld_link pre s = Ok p s → types_from s p ts → fs ∉ ts → (length ts < fuel)%nat →
  unregister_loop fuel pre fs s = Ok (-1) s.
Proof.
  induction ts as [|q ts IH]; intros [|fuel] pre p s Hld Hl Hnin Hf; simpl in Hf; try lia;
    cbn [unregister_loop]; rewrite (bind_ok _ _ _ _ _ Hld).
  - simpl in Hl. by subst p.
  - destruct Hl as (-> & Hq & t & Ht & Hl). rewrite (proj2 (Z.eqb_neq q 0)), (proj2 (Z.eqb_neq q fs)) by set_solver.
    apply (IH fuel _ (fs_next t)); [by apply next_link|done|set_solver|lia].
Qed.

Lemma matches_find (str : list Z) (ts : list (Z * list Z)) :
  Exists (λ x, str `prefix_of` x.2) ts ∨ ∀ q nm, (q, nm) ∈ ts → ¬ str `prefix_of` nm.
Proof.
  destruct (decide (Exists (λ x, str `prefix_of` x.2) ts)) as [|Hno]; [by left|right].
  intros q nm Hin Hp. apply Hno, Exists_exists. by exists (q, nm).
Qed.
Lemma types_nonzero s l : ∀ p, types_from s p l → Forall (λ q, q ≠ 0) l.
Proof.
  induction l as [|q l IH]; intros p; [constructor|]. intros (-> & Hq & t & _ & Hl). constructor; [done|eauto].
Qed.
Lemma found_nonzero s str ts :
  registry s ts → Exists (λ x, str `prefix_of` x.2) ts → found str ts ≠ 0.
Proof.
  intros Hr Hex. apply Exists_exists in Hex as (x & Hx & Hp). unfold found.
  destruct (list_find_elem_of (λ x : Z * list Z, str `prefix_of` x.2) ts x Hx Hp) as [[i [q nm]] Hf].
  rewrite Hf. apply list_find_Some in Hf as (Hi & _ & _).
  pose proof (types_nonzero _ _ _ (rg_list _ _ Hr)) as HF. rewrite Forall_forall in HF. apply HF.
  apply list_elem_of_fmap. exists (q, nm). split; [done|]. by eapply list_elem_of_lookup_2.
Qed.

(** The name of the type itself, searched for before the type is registered. *)
Lemma register_search s ts fs t str :
  registry s ts → fs_types s !! fs = Some t → fs_next t = 0 → string_at (vmem s) (fs_name t) str →
  0 < length str < 256 →
  register_filesystem fs s =
    (if truth (found str ts) then Ok (-1) s
     else bind (st_link (place Head str ts) fs) (λ _, ret 0) s).
Proof.
  intros Hr Hfs Hn Hstr Hlen. unfold register_filesystem.
  rewrite (bind_ok _ _ _ _ _ (ld_fs_ok _ _ _ Hfs)), Hn. cbn [truth Z.eqb negb].
  destruct Hstr as (Hs & Hs0 & Hs1).
  rewrite (bind_ok _ _ _ _ _ (on_vmem_ok _ s _ (strlen_spec _ _ _ Hs Hs0 Hs1))).
  destruct (find_spec s ts (fs_name t) str (length str) Hr) as [E1 E2]; [done|lia|lia|].
  rewrite Nat2Z.id, firstn_all in E1, E2.
  rewrite (bind_ok _ _ _ _ _ E1), (bind_ok _ _ _ _ _ E2). by destruct (truth (found str ts)).
Qed.

Lemma fresh_type s ts fs t str :
  registry s ts → fs_types s !! fs = Some t → string_at (vmem s) (fs_name t) str →
  (∀ q nm, (q, nm) ∈ ts → ¬ str `prefix_of` nm) → fs ∉ ts.*1.
Proof.
  intros Hr Hfs Hstr Hno Hin. apply list_elem_of_fmap in Hin as ([q nm] & Heq & Hin). simpl in Heq. subst q.
  destruct (rg_names _ _ Hr _ _ Hin) as (t' & Ht' & Hnm). rewrite Hfs in Ht'. injection Ht' as <-.
  apply (Hno _ _ Hin). assert (str = nm) as ->; [|done].
  destruct Hstr as ([H1 Hz1] & Hs0 & Hs1), Hnm as ([H2 Hz2] & _ & Hs2).
  clear -H1 H2 Hz1 Hz2. revert nm H2 Hz2. generalize (fs_name t) as a, H1. clear H1.
  induction str as [|x str IH]; intros a H1 [|y nm] H2 Hz2; [done|..]; simpl in *;
    apply holds_bytes_cons in H1 as [H1 H1'], H2 as [H2 H2'].
  - apply Forall_cons in Hz2 as [Hy _]. congruence.
  - apply Forall_cons in Hz1 as [Hx _]. congruence.
  - apply Forall_cons in Hz1 as [_ Hz1], Hz2 as [_ Hz2]. f_equal; [congruence|]. by eapply IH.
Qed.

Lemma register_new s ts fs t str :
  registry s ts → fs_types s !! fs = Some t → fs_next t = 0 → fs ≠ 0 → string_at (vmem s) (fs_name t) str →
  0 < length str < 256 → (∀ q nm, (q, nm) ∈ ts → ¬ str `prefix_of` nm) →
  ∃ s', register_filesystem fs s = Ok 0 s' ∧ registry s' (ts ++ [(fs, str)]) ∧ same_names s s' ∧
    ∃ l, s' = set_link l fs s.
Proof.
  intros Hr Hfs Hn Hfs0 Hstr Hlen Hno. pose proof (fresh_type s ts fs t str Hr Hfs Hstr Hno) as Hfresh.
  pose proof Hr as [Hl Hnd Hnames Hok].
  destruct (append_type_spec s fs t ts.*1 Head (file_systems s)) as (E1 & p' & Hp' & Hl'); try done.
  pose proof (set_link_names (end_link Head ts.*1) fs s) as Hsame.
  set (s' := set_link (end_link Head ts.*1) fs s) in *. exists s'. split; [|split; [|split; [done|by eexists]]].
  - rewrite (register_search s ts fs t str Hr Hfs Hn Hstr Hlen), (found_nil str ts Hno), (place_none str ts Head Hno).
    simpl. by rewrite (bind_ok _ _ _ _ _ E1).
  - simpl in Hp'. injection Hp' as <-. constructor.
    + by rewrite fmap_app.
    + rewrite fmap_app. apply NoDup_app. split; [done|]. split; [set_solver|]. apply NoDup_singleton.
    + intros q nm [Hin|Hin]%elem_of_app; [eapply named_same; eauto|].
      apply list_elem_of_singleton in Hin. injection Hin as -> ->. eapply named_same; [done|]. by exists t.
    + by destruct Hsame as [-> _].
Qed.

Lemma unregister_ok s ts1 ts2 fs nm :
  registry s (ts1 ++ (fs, nm) :: ts2) →
  ∃ s', unregister_filesystem fs s = Ok 0 s' ∧ registry s' (ts1 ++ ts2) ∧ same_names s s' ∧
    ld_link (Next fs) s' = Ok 0 s'.
Proof.
  intros [Hl Hnd Hnames Hok]. pose proof (types_length s _ _ Hl Hnd) as Hlen.
  rewrite fmap_app in Hl, Hnd, Hlen. cbn [fmap list_fmap fst] in *.
  rewrite length_app in Hlen. cbn [length] in Hlen.
  destruct (remove_spec fs (ts2.*1) (ts1.*1) (S (size (fs_types s))) Head (file_systems s) s)
    as (s' & p' & E & Hp' & Hl' & Hsame & Hz & _); try done; [lia|].
  exists s'. split; [exact E|]. split; [|done]. simpl in Hp'. injection Hp' as <-. constructor.
  - by rewrite fmap_app.
  - rewrite fmap_app. apply NoDup_app in Hnd as (H1 & H2 & H3). apply NoDup_cons in H3 as [_ H3].
    apply NoDup_app. split; [done|]. split; [set_solver|done].
  - intros q nm' Hin. eapply named_same; [exact Hsame|]. apply Hnames. set_solver.
  - by destruct Hsame as [-> _].
Qed.

(** A search for zero characters goes to the end of the list. *)
Lemma find_zero s name l : ∀ fuel pre p,
  ld_link pre s = Ok p s → types_from s p l → (length l < fuel)%nat →
  find_loop fuel pre name 0 s = Ok (end_link pre l) s.
Proof.
  induction l as [|q l IH]; intros [|fuel] pre p Hld Hl Hf; simpl in Hf; try lia; cbn [find_loop];
    rewrite (bind_ok _ _ _ _ _ Hld).
  - simpl in Hl. by subst p.
  - destruct Hl as (-> & Hq & t & Ht & Hl). rewrite (proj2 (Z.eqb_neq q 0)) by done. cbn [Z.eqb].
    rewrite bind_ret_l. cbn [Z.eqb end_link]. apply (IH _ _ (fs_next t)); [by apply next_link|done|lia].
Qed.

(** Registering a type whose name's length is a multiple of 256. *)
Lemma register_zero s fs t str p l :
  file_systems s = p → types_from s p l → NoDup l → fs_types s !! fs = Some t → fs_next t = 0 →
  string_at (vmem s) (fs_name t) str → length str mod 256 = 0 →
  register_filesystem fs s = bind (st_link (end_link Head l) fs) (λ _, ret 0) s.
Proof.
  intros Hp Hl Hnd Hfs Hn (Hs & Hs0 & Hs1) Hlen. unfold register_filesystem.
  rewrite (bind_ok _ _ _ _ _ (ld_fs_ok _ _ _ Hfs)), Hn. cbn [truth Z.eqb negb].
  rewrite (bind_ok _ _ _ _ _ (on_vmem_ok _ s _ (strlen_spec _ _ _ Hs Hs0 Hs1))).
  assert (find_file_system (fs_name t) (length str) s = Ok (end_link Head l) s) as E.
  { unfold find_file_system, u8. rewrite Hlen. apply (find_zero _ _ _ _ _ p); [simpl; by rewrite <-Hp|done|].
    pose proof (types_length s _ _ Hl Hnd). lia. }
  rewrite (bind_ok _ _ _ _ _ E), (bind_ok _ _ _ _ _ (end_link_null s l Head p ltac:(by rewrite <-Hp) Hl)). done.
Qed.

(** A list whose last element points to itself has no end. *)
Lemma unregister_loops s fs fs' fuel :
  ld_link (Next fs) s = Ok fs s → fs ≠ 0 → fs ≠ fs' → unregister_loop fuel (Next fs) fs' s = Timeout.
Proof.
  intros Hld Hz Hne. induction fuel as [|fuel IH]; [done|]. cbn [unregister_loop].
  rewrite (bind_ok _ _ _ _ _ Hld), (proj2 (Z.eqb_neq fs 0)), (proj2 (Z.eqb_neq fs fs')) by done. apply IH.
Qed.

(** ** Theorems *)

(** [find_file_system], for a name of at least [len] characters: the pointer behind
    the link it returns is the first registered type whose name starts with these
    [len] characters, and null when there is none; the comparison never reads past
    the end of a registered name. *)
Theorem find_file_system_correct s ts name str n :
  registry s ts → string_at (vmem s) name str → 0 < n ≤ length str → n < 256 →
  ∃ l, find_file_system name n s = Ok l s ∧ ld_link l s = Ok (found (take (Z.to_nat n) str) ts) s.
Proof. intros Hr Hstr Hn Hn'. eexists. by apply find_spec. Qed.

(** [register_filesystem] on every branch, for a name of 1 to 255 characters: a type
    that has a successor, or whose name is a prefix of a registered one (its own
    included), is refused and nothing changes; otherwise it is appended. *)
Theorem register_filesystem_correct s ts fs t str :
  registry s ts → fs_types s !! fs = Some t → fs ≠ 0 → string_at (vmem s) (fs_name t) str →
  0 < length str < 256 →
  if decide (fs_next t ≠ 0 ∨ Exists (λ x, str `prefix_of` x.2) ts)
  then register_filesystem fs s = Ok (-1) s
  else ∃ s', register_filesystem fs s = Ok 0 s' ∧ registry s' (ts ++ [(fs, str)]).
Proof.
  intros Hr Hfs Hfs0 Hstr Hlen. case_decide as Hd.
  - destruct (decide (fs_next t = 0)) as [Hn|Hn].
    + rewrite (register_search s ts fs t str) by done. destruct Hd as [|Hex]; [done|].
      unfold truth. by rewrite (proj2 (Z.eqb_neq _ _) (found_nonzero s str ts Hr Hex)).
    + unfold register_filesystem. rewrite (bind_ok _ _ _ _ _ (ld_fs_ok _ _ _ Hfs)).
      unfold truth. by rewrite (proj2 (Z.eqb_neq _ _) Hn).
  - apply Decidable.not_or in Hd as [Hn Hex]. apply dec_stable in Hn.
    destruct (matches_find str ts) as [|Hno]; [done|].
    destruct (register_new s ts fs t str) as (s' & E & Hr' & _); try done. by exists s'.
Qed.

(** C31. Registering a type and unregistering it again: in between it is found by its
    name, afterwards the registry is what it was and the type can be registered again. *)
Theorem register_unregister s ts fs t str :
  registry s ts → fs_types s !! fs = Some t → fs ≠ 0 → fs_next t = 0 → string_at (vmem s) (fs_name t) str →
  0 < length str < 256 → ¬ Exists (λ x, str `prefix_of` x.2) ts →
  ∃ s1 l s2 s3, register_filesystem fs s = Ok 0 s1 ∧
    find_file_system (fs_name t) (length str) s1 = Ok l s1 ∧ ld_link l s1 = Ok fs s1 ∧
    unregister_filesystem fs s1 = Ok 0 s2 ∧ registry s2 ts ∧
    register_filesystem fs s2 = Ok 0 s3 ∧ registry s3 (ts ++ [(fs, str)]).
Proof.
  intros Hr Hfs Hfs0 Hn Hstr Hlen Hex. destruct (matches_find str ts) as [|Hno]; [done|].
  destruct (register_new s ts fs t str) as (s1 & E1 & Hr1 & Hs1 & _); try done.
  assert (string_at (vmem s1) (fs_name t) str) as Hstr1 by (by destruct Hs1 as [-> _]).
  destruct (find_spec s1 _ (fs_name t) str (length str) Hr1 Hstr1) as [E2 E3]; [lia|lia|].
  rewrite Nat2Z.id, firstn_all in E2, E3.
  assert (found str (ts ++ [(fs, str)]) = fs) as Hfound.
  { unfold found. rewrite list_find_app_r; [simpl; by rewrite decide_True by done|].
    apply list_find_None, Forall_forall. intros [q nm] Hin. by eapply Hno. }
  rewrite Hfound in E3.
  destruct (unregister_ok s1 ts [] fs str Hr1) as (s2 & E4 & Hr2 & Hs2 & Hz). rewrite app_nil_r in Hr2.
  pose proof (transitivity Hs1 Hs2) as [Hm Hnm].
  specialize (Hnm fs). rewrite Hfs in Hnm. simpl in Hz. unfold ld_fs, bind in Hz.
  destruct (fs_types s2 !! fs) as [t2|] eqn:Ht2; [|done]. simpl in Hnm, Hz. injection Hnm as Hnm.
  unfold ret in Hz. injection Hz as Hz.
  destruct (register_new s2 ts fs t2 str) as (s3 & E5 & Hr3 & _); try done.
  { by rewrite Hm, Hnm. }
  by exists s1, (place Head str (ts ++ [(fs, str)])), s2, s3.
Qed.

(** [unregister_filesystem] on every branch. *)
Theorem unregister_filesystem_correct s ts fs :
  registry s ts →
  if decide (fs ∈ ts.*1)
  then ∃ s' ts1 nm ts2, ts = ts1 ++ (fs, nm) :: ts2 ∧ unregister_filesystem fs s = Ok 0 s' ∧ registry s' (ts1 ++ ts2)
  else unregister_filesystem fs s = Ok (-1) s.
Proof.
  intros Hr. case_decide as Hin.
  - apply list_elem_of_fmap in Hin as ([q nm] & Heq & Hin). simpl in Heq. subst q.
    apply list_elem_of_split in Hin as (ts1 & ts2 & ->).
    destruct (unregister_ok s ts1 ts2 fs nm Hr) as (s' & E & Hr' & _). by exists s', ts1, nm, ts2.
  - pose proof (types_length s _ _ (rg_list _ _ Hr) (rg_nodup _ _ Hr)) as Hlen.
    apply (unregister_missing fs ts.*1 _ Head (file_systems s)); [done|apply Hr|done|lia].
Qed.

(** The length of the name is passed as a byte: a type with a name of a multiple of 256
    characters is never found, so registering it a second time succeeds as well and
    makes it its own successor; walks for a type that is not registered then never end. *)
Theorem register_long_name_twice s fs t str :
  file_systems s = 0 → fs_types s !! fs = Some t → fs ≠ 0 → fs_next t = 0 → string_at (vmem s) (fs_name t) str →
  length str mod 256 = 0 →
  ∃ s1 s2, register_filesystem fs s = Ok 0 s1 ∧ register_filesystem fs s1 = Ok 0 s2 ∧
    ∀ fs' fuel, fs' ≠ fs → unregister_loop fuel Head fs' s2 = Timeout.
Proof.
  intros Hhead Hfs Hfs0 Hn Hstr Hlen. set (s1 := set_file_systems fs s).
  assert (ld_link (Next fs) s1 = Ok 0 s1) as Hld1 by (rewrite <-Hn; by apply next_link).
  exists s1, (set_link (Next fs) fs s1). split; [|split].
  - by rewrite (register_zero s fs t str 0 []) by (done || apply NoDup_nil_2).
  - rewrite (register_zero s1 fs t str fs [fs]); try done; [|by apply types_cons with 0|apply NoDup_singleton].
    cbn [end_link]. by rewrite (bind_ok _ _ _ _ _ (st_link_ok (Next fs) fs 0 s1 Hld1)).
  - intros fs' [|fuel] Hne; [done|]. cbn [unregister_loop].
    rewrite (bind_ok _ _ _ fs (set_link (Next fs) fs s1)) by done.
    rewrite (proj2 (Z.eqb_neq fs 0)), (proj2 (Z.eqb_neq fs fs')) by done.
    apply unregister_loops; [by apply (set_link_eq _ _ 0)|done|done].
Qed.
