(* ===== verification/Ext2.v ===== *)
(** * The ext2 file system (src/fs/ext2/ext2.c, include/fs/ext2/ext2.h)

    Parsing the super block, finding inodes, reading and writing files and looking up
    names, on the buffer cache ([Requests.v]), the inodes of [Vfs.v] and an
    [Allocator]. [fuel] bounds the walks along the hash chains of the cache, [n] the
    loops of this file that need not end. Bytes stored to the caller's memory are part
    of the result. *)

From S2P Require Import Prelude Memory Common Io Ata Buffer Requests Alloc Vfs Ext2Format.

(** ** State *)

Definition SUPERBLOCK_ADDR : Z := 2.
Definition DIR_ENTRY_HAS_TYPEFIELD : Z := 2.
Definition SKIP_DIR : Z := 0.
Definition ROOT_DIRECTORY : Z := 2.

(** The static variables; [bgdt_entries] points to the data of the buffer at this
    address, [super_block] is the pointer set by [ext2_read_super]. *)
Record ext2 := mkExt2 {
  ext2_sb : list Z; block_size : Z; fragment_size : Z; inode_count : Z; block_count : Z; blocks_per_group : Z;
  inodes_per_group : Z; block_group_count : Z; bgd_addr : Z; inode_size : Z; inodes_per_block : Z;
  dir_has_typefield : bool; bgdt_entries : Z; super_block : Z }.
Definition set_ext2_sb (l : list Z) (x : ext2) : ext2 :=
  mkExt2 l (block_size x) (fragment_size x) (inode_count x) (block_count x) (blocks_per_group x)
    (inodes_per_group x) (block_group_count x) (bgd_addr x) (inode_size x) (inodes_per_block x)
    (dir_has_typefield x) (bgdt_entries x) (super_block x).
Definition set_bgdt (p : Z) (x : ext2) : ext2 :=
  mkExt2 (ext2_sb x) (block_size x) (fragment_size x) (inode_count x) (block_count x) (blocks_per_group x)
    (inodes_per_group x) (block_group_count x) (bgd_addr x) (inode_size x) (inodes_per_block x)
    (dir_has_typefield x) p (super_block x).
Definition set_super_block (p : Z) (x : ext2) : ext2 :=
  mkExt2 (ext2_sb x) (block_size x) (fragment_size x) (inode_count x) (block_count x) (blocks_per_group x)
    (inodes_per_group x) (block_group_count x) (bgd_addr x) (inode_size x) (inodes_per_block x)
    (dir_has_typefield x) (bgdt_entries x) p.

(** Addresses the compiler and linker choose, and what uninitialised memory reads as:
    the address of the variable [super_block] and of the literal "ext2"; the object
    that is found in memory just allocated at an address. *)
Class Ext2Layout := {
  super_block_var : Z;
  ext2_literal : Z;
  raw_inode : Z → Vfs.inode }.

(** Address arithmetic of the header, on 32-bit unsigned words; a division by zero traps.
    The arguments of the macros are not parenthesised: [addr_of_sum] is
    [ADDR_OF_BLOCK(a + b)]. *)
Definition ADDR_OF_BLOCK (x : ext2) (block : Z) : Z := u32 (block_size x / BLOCK_SIZE * block).
Definition addr_of_sum (x : ext2) (a b : Z) : Z := u32 (block_size x / BLOCK_SIZE * a + b).
Definition BG_OF_INODE (x : ext2) (i : Z) : Z := u32 (i - 1) / inodes_per_group x.
Definition INODE_INDEX (x : ext2) (i : Z) : Z := u32 (i - 1) mod inodes_per_group x.
Definition BLOCK_OF_INODE (x : ext2) (index : Z) : Z := u32 (index * inode_size x) / block_size x.
(** The byte of its block an inode starts at. *)
Definition block_byte (x : ext2) (index : Z) : Z := u32 (inode_size x * (index mod inodes_per_block x)).

(** [CEILING_DIV(x, y)] of common.h *)
Definition CEILING_DIV (x y : Z) : Z := u32 (1 + u32 (x - 1) / y).

Section operations.
Context `{BlockDevice E} `{Allocator H2} `{Ext2Layout}.

Record world := mkWorld { w_ext2 : ext2; w_vfs : vfs; w_heap : H2; w_disk : cache * E }.
Definition on_ext2 {A} : M ext2 A → M world A :=
  zoom w_ext2 (λ x s, mkWorld x (w_vfs s) (w_heap s) (w_disk s)).
Definition on_vfs {A} : M vfs A → M world A :=
  zoom w_vfs (λ x s, mkWorld (w_ext2 s) x (w_heap s) (w_disk s)).
Definition on_heap {A} : M H2 A → M world A :=
  zoom w_heap (λ x s, mkWorld (w_ext2 s) (w_vfs s) x (w_disk s)).
Definition on_disk {A} : M (cache * E) A → M world A :=
  zoom w_disk (λ x s, mkWorld (w_ext2 s) (w_vfs s) (w_heap s) x).
Definition print (m : M E unit) : M world unit := on_disk (disk_io m).

Definition data_of (bh : Z) : M world (list Z) :=
  let* h := on_disk (on_cache (ld_buffer bh)) in ret (buff h).
(** [n] bytes of a buffer from [off] on; reading behind the buffer is undefined. *)
Definition slice (l : list Z) (off n : Z) : M world (list Z) :=
  if off + n <=? BLOCK_SIZE then ret (take (Z.to_nat n) (drop (Z.to_nat off) l)) else fault.

(** [bgdt_entries[g]] *)
Definition bgd_entry (g : Z) : M world ext2_bgd :=
  let* x := on_ext2 get in
  let* l := data_of (bgdt_entries x) in
  let* d := slice l (SIZEOF_BGD * g) SIZEOF_BGD in
  ret (decode_bgd d).

Definition check (b : bool) : M world unit := if b then ret tt else fault.

(** ** The super block *)

Definition read_bgd_table (fuel : nat) (dev : Z) : M world unit :=
  let* x := on_ext2 get in
  let* bh := on_disk (get_block fuel (ADDR_OF_BLOCK x (bgd_addr x)) dev) in
  on_ext2 (modify (set_bgdt bh)).

(** Lines 47 to 66: the variables computed from the super block. A shift of the [int]
    0x400 into the sign is undefined, a division by zero traps. *)
Definition geometry (sb : ext2_superblock) (x : ext2) : option ext2 :=
  let bs := Z.shiftl 0x400 (es_block_size sb) in
  let isz := if 1 <=? major_version sb then es_inode_size sb else 128 in
  if (es_block_size sb <? 21) && (es_fragment_size sb <? 21) && truth (es_blocks_per_group sb) && truth isz
  then Some (mkExt2 (ext2_sb x) bs (Z.shiftl 0x400 (es_fragment_size sb)) (es_inode_count sb) (es_block_count sb)
    (es_blocks_per_group sb) (es_inodes_per_group sb) (CEILING_DIV (es_block_count sb) (es_blocks_per_group sb))
    (if bs =? 0x400 then 2 else 1) isz (bs / isz)
    (truth (Z.land (required_features sb) DIR_ENTRY_HAS_TYPEFIELD)) (bgdt_entries x) (super_block x))
  else None.

(** Lines 36 to 42; [dest] is the variable [ext2_sb]. *)
Definition copy_superblock (fuel : nat) (dev : Z) : M world unit :=
  let* bh := on_disk (get_block fuel SUPERBLOCK_ADDR dev) in
  let* l1 := data_of bh in
  on_ext2 (modify (λ x, set_ext2_sb (l1 ++ drop 512 (ext2_sb x)) x)) ;;;
  on_disk (on_cache (put_block bh)) ;;;
  let* bh := on_disk (get_block fuel (SUPERBLOCK_ADDR + 1) dev) in
  let* l2 := data_of bh in
  on_ext2 (modify (λ x, set_ext2_sb (take 512 (ext2_sb x) ++ l2) x)) ;;;
  on_disk (on_cache (put_block bh)).
Definition ext2_parse_superblock (fuel : nat) (dev : Z) : M world unit :=
  copy_superblock fuel dev ;;;
  let* x := on_ext2 get in
  let sb := decode_superblock (ext2_sb x) in
  if negb (ext2_signature sb =? 0xEF53) then kpanic "not ext2" else
  let* x' := of_option (geometry sb x) in
  on_ext2 (modify (λ _, x')) ;;;
  read_bgd_table fuel dev.

(** ** Inodes *)

(** The buffer of the inode's sector, still held, and the bytes stored to [dest]. *)
Definition read_inode (fuel : nat) (inode dev : Z) : M world (Z * list Z) :=
  let* x := on_ext2 get in
  check (truth (inodes_per_group x)) ;;;
  let inode_block_group := BG_OF_INODE x inode in
  print (terminal_writestring "Reading inode") ;;;
  let index := INODE_INDEX x inode in
  let* d := bgd_entry inode_block_group in
  check (truth (block_size x)) ;;;
  let block_of_inode := u32 (inode_table d + BLOCK_OF_INODE x index) in
  print (terminal_printhex32 (ADDR_OF_BLOCK x block_of_inode)) ;;;
  print (terminal_write [10; 10; 10]) ;;;
  check (truth (inodes_per_block x)) ;;;
  let* bh := on_disk (get_block fuel
    (u32 (ADDR_OF_BLOCK x block_of_inode + block_byte x index / BLOCK_SIZE)) dev) in
  let* l := data_of bh in
  let* bytes := slice l (block_byte x index mod BLOCK_SIZE) SIZEOF_INODE in
  ret (bh, bytes).

(** [REAL_INODE_BLOCK(inode)]: the macro multiplies the inode table only, and adds the
    block of the inode to the sector number. *)
Definition change_file_size (fuel : nat) (inode size dev : Z) : M world unit :=
  let* x := on_ext2 get in
  check (truth (inodes_per_group x) && truth (block_size x) && truth (inodes_per_block x)) ;;;
  let index := INODE_INDEX x inode in
  let* d := bgd_entry (BG_OF_INODE x inode) in
  let* bh := on_disk (get_block fuel
    (u32 (addr_of_sum x (inode_table d) (BLOCK_OF_INODE x index) + block_byte x index / BLOCK_SIZE)) dev) in
  let offset := block_byte x index mod BLOCK_SIZE in
  check (offset + 8 <=? BLOCK_SIZE) ;;;
  on_disk (on_cache
    (upd_buffer bh (λ h, set_dirty true h) ;;;
     upd_buffer bh (λ h, set_buff (take (Z.to_nat (offset + 4)) (buff h) ++ le_bytes 4 (u32 size) ++
       drop (Z.to_nat (offset + 8)) (buff h)) h) ;;;
     put_block bh)).

(** ** Reading and writing files *)

(** [strcmp(inode->i_sb->fs_type->name, "ext2") != 0] *)
Definition wrong_filesystem (i : Vfs.inode) : M world bool :=
  on_vfs
    (let* b := ld_sb (i_sb i) in
     let* t := ld_fs (sb_fs_type b) in
     let* c := on_vmem (strcmp (fs_name t) ext2_literal) in
     ret (truth c)).
(** [inode->flags & 0xF000 != TYPE_REG_FILE] compares first. *)
Definition not_regular (fl : Z) : bool := truth (Z.land fl (b2z (negb (0xF000 =? TYPE_REG_FILE)))).

(** [kmalloc] of an inode and the inode read into it. *)
Definition load_inode (fuel : nat) (inode dev : Z) : M world (Z * Z * ext2_inode) :=
  let* p := on_heap (mm_alloc SIZEOF_INODE) in
  let* (bh, bytes) := read_inode fuel inode dev in
  on_heap (mm_store bytes p) ;;;
  let* data := on_heap (mm_load SIZEOF_INODE p) in
  ret (p, bh, decode_inode data).

(** The variables of the loops of [ext2_read] and [ext2_write]; [moved] are the bytes
    stored by a read, or still to be written by a write. *)
Record transfer := mkTransfer {
  t_i : Z; t_offset : Z; t_off : Z; t_done : Z; t_count : Z; t_bytes : list Z }.

Definition nth_block (l : list Z) (i : Z) : M world Z := of_option (l !! Z.to_nat i).

(** The inner loop; [todo] are its remaining iterations [block_size / BLOCK_SIZE - k].
    [None] is the early return when there is no buffer. *)
Fixpoint read_block_loop (fuel : nat) (x : ext2) (blocks : list Z) (dev : Z) (todo : nat) (k : Z) (t : transfer) :
    M world (bool * transfer) :=
  match todo with
  | O => ret (true, t)
  | S todo =>
      if negb (0 <? t_count t) then ret (true, t) else
      let* b := nth_block blocks (t_i t) in
      let* bh := on_disk (get_block fuel (u32 (ADDR_OF_BLOCK x b + k)) dev) in
      if bh =? 0 then ret (false, t) else
      let chars := if t_count t <? BLOCK_SIZE then t_count t else BLOCK_SIZE in
      let* l := data_of bh in
      let* bytes := slice l (t_offset t) chars in
      print (terminal_write bytes) ;;;
      on_disk (on_cache (put_block bh)) ;;;
      read_block_loop fuel x blocks dev todo (k + 1)
        (mkTransfer (u32 (t_i t + 1)) 0 (u32 (t_off t + chars)) (u32 (t_done t + chars)) (u32 (t_count t - chars))
           (t_bytes t ++ bytes))
  end.
Fixpoint read_loop (n fuel : nat) (x : ext2) (blocks : list Z) (dev : Z) (t : transfer) : M world (bool * transfer) :=
  match n with
  | O => timeout
  | S n =>
      let* stop := (if t_i t <? 12 then let* b := nth_block blocks (t_i t) in ret (b =? 0) else ret true) in
      if (stop : bool) then ret (true, t) else
      let* (ok, t) := read_block_loop fuel x blocks dev (Z.to_nat (block_size x / BLOCK_SIZE)) 0 t in
      if (ok : bool) then read_loop n fuel x blocks dev t else ret (false, t)
  end.

(** The result: the return value, [*off], and the bytes stored to [buff]. *)
Definition ext2_read (n fuel : nat) (filep : file) (count off : Z) : M world (Z * Z * list Z) :=
  print (terminal_writestring "in ext2_read") ;;;
  let* inode := on_vfs (ld_inode (f_inode filep)) in
  let dev := u16 (i_dev inode) in
  let* wrong := wrong_filesystem inode in
  if (wrong : bool) then kpanic "ext2_read. wrong filesystem" else
  if i_size inode <=? u32 (off + count) then ret (-1, off, []) else
  if not_regular (i_flags inode) then ret (-1, off, []) else
  let* (p, bh, tmp_inode) := load_inode fuel (i_no inode) dev in
  on_disk (on_cache (put_block bh)) ;;;
  let* shown := on_heap (mm_load SIZEOF_INODE p) in
  print (for_each shown terminal_printhex) ;;;
  if negb (truth (Z.land (type_permissions tmp_inode) TYPE_REG_FILE)) then ret (-1, off, []) else
  let* x := on_ext2 get in
  let* (ok, t) := read_loop n fuel x (direct_block tmp_inode) dev
    (mkTransfer (off / BLOCK_SIZE) (off mod BLOCK_SIZE) off 0 count []) in
  if negb ok then ret (-1, t_off t, t_bytes t) else
  on_heap (mm_free p) ;;;
  ret (s32 (t_done t), t_off t, t_bytes t).

(** [src] are the bytes at [buff]. *)
Fixpoint write_block_loop (fuel : nat) (x : ext2) (blocks : list Z) (dev : Z) (todo : nat) (k : Z) (t : transfer) :
    M world (bool * transfer) :=
  match todo with
  | O => ret (true, t)
  | S todo =>
      if negb (0 <? t_count t) then ret (true, t) else
      let* b := nth_block blocks (t_i t) in
      let* bh := on_disk (get_block fuel (u32 (ADDR_OF_BLOCK x b + k)) dev) in
      if bh =? 0 then ret (false, t) else
      let chars := if t_count t <? BLOCK_SIZE then t_count t else BLOCK_SIZE in
      let off := t_offset t in
      let* l := data_of bh in
      let* old := slice l off chars in
      check (bool_decide (chars ≤ length (t_bytes t))) ;;;
      print (terminal_write old) ;;;
      on_disk (on_cache
        (upd_buffer bh (λ h, set_buff (take (Z.to_nat off) (buff h) ++ take (Z.to_nat chars) (t_bytes t) ++
           drop (Z.to_nat (off + chars)) (buff h)) h) ;;;
         upd_buffer bh (set_dirty true) ;;;
         put_block bh)) ;;;
      write_block_loop fuel x blocks dev todo (k + 1)
        (mkTransfer (u32 (t_i t + 1)) 0 (u32 (t_off t + chars)) (u32 (t_done t + chars)) (u32 (t_count t - chars))
           (drop (Z.to_nat chars) (t_bytes t)))
  end.
(** Here the index is not checked; beyond the twelve blocks it is out of the array. *)
Fixpoint write_loop (n fuel : nat) (x : ext2) (blocks : list Z) (dev : Z) (t : transfer) : M world transfer :=
  match n with
  | O => timeout
  | S n =>
      let* b := nth_block blocks (t_i t) in
      if b =? 0 then ret t else
      let* (ok, t) := write_block_loop fuel x blocks dev (Z.to_nat (block_size x / BLOCK_SIZE)) 0 t in
      if (ok : bool) then write_loop n fuel x blocks dev t else ret t
  end.
(** [tmp_inode->size_low = wrote]: the copy in the heap, which is then freed. *)
Definition store_size (p wrote : Z) : M world unit :=
  let* data := on_heap (mm_load SIZEOF_INODE p) in
  on_heap (mm_store (take 4 data ++ le_bytes 4 wrote ++ drop 8 data) p).

Definition ext2_write (n fuel : nat) (filep : file) (src : list Z) (count off : Z) : M world (Z * Z) :=
  print (terminal_writestring "in ext2_write") ;;;
  let* inode := on_vfs (ld_inode (f_inode filep)) in
  let dev := u16 (i_dev inode) in
  let* wrong := wrong_filesystem inode in
  if (wrong : bool) then kpanic "ext2_write. wrong filesystem" else
  if i_size inode <=? u32 (off + count) then ret (-1, off) else
  if not_regular (i_flags inode) then ret (-1, off) else
  let* (p, inode_bh, tmp_inode) := load_inode fuel (i_no inode) dev in
  if negb (truth (Z.land (type_permissions tmp_inode) TYPE_REG_FILE)) then ret (-1, off) else
  let* x := on_ext2 get in
  let* t := write_loop n fuel x (direct_block tmp_inode) dev
    (mkTransfer (off / BLOCK_SIZE) (off mod BLOCK_SIZE) off 0 count src) in
  store_size p (t_done t) ;;;
  on_disk (on_cache (upd_buffer inode_bh (set_dirty true) ;;; put_block inode_bh)) ;;;
  on_heap (mm_free p) ;;;
  ret (s32 (t_done t), t_off t).

(** ** Directories *)

(** The data of a buffer as memory: its bytes are at [BUFF_OFFSET] of the struct. *)
Definition BUFF_OFFSET : Z := 32.
Definition with_buffer (bh : Z) (l : list Z) (m : mem) : mem :=
  list_to_map (zip (seqZ (bh + BUFF_OFFSET) (length l)) l) ∪ m.
(** [strncmp(filename, de + 1, len)], the entry at byte [off] of the buffer. *)
Definition compare_name (filename bh off len : Z) : M world Z :=
  let* l := data_of bh in
  let* s := on_vfs get in
  of_option (match strncmp filename (bh + BUFF_OFFSET + off + SIZEOF_DIR_ENTRY) len (with_buffer bh l (vmem s)) with
             | Ok c _ => Some c
             | _ => None
             end).
Definition dir_entry (bh off : Z) : M world ext2_directory_entry :=
  let* l := data_of bh in
  let* d := slice l off SIZEOF_DIR_ENTRY in
  ret (decode_dir d).

Definition set_result (ino : Z) (s : ext2_inode) (i : Vfs.inode) : Vfs.inode :=
  mkInode (i_dev i) ino (size_low s) (i_ops i) (i_sb i) (i_gid i) (i_uid i) (i_flags i) (type_permissions s)
    (i_mount_point i) (i_counter i) (i_next i) (i_prev i).

(** What a sector's scan ends with: the function returns, or the scan is done, with
    the sizes of the entries so far. *)
Inductive scan := Return (r : Z) | Continue (size : Z).

(** The branch of a matching entry, at byte [off] of the buffer; [de->inode] is read again
    after the request for the inode's sector. *)
Definition take_entry (fuel : nat) (off dev result_inode bh : Z) : M world scan :=
  let* de := dir_entry bh off in
  let* (ibh, bytes) := read_inode fuel (de_inode de) dev in
  on_disk (on_cache (put_block ibh)) ;;;
  let* de := dir_entry bh off in
  on_vfs (upd_inode result_inode (set_result (de_inode de) (decode_inode bytes))) ;;;
  on_disk (on_cache (put_block bh)) ;;;
  ret (Return 0).

(** The entries of a sector, from byte [off] on. *)
Fixpoint scan_loop (n fuel : nat) (d : ext2_inode) (dev filename len result_inode bh off size : Z) : M world scan :=
  match n with
  | O => timeout
  | S n =>
      let* de := dir_entry bh off in
      if negb (off + entry_size de <? BLOCK_SIZE) then ret (Continue size) else
      let* found :=
        (if negb (de_inode de =? SKIP_DIR) && (name_length de =? len)
         then let* c := compare_name filename bh off len in ret (c =? 0) else ret false) in
      if (found : bool) then take_entry fuel off dev result_inode bh else
        let size := u32 (size + entry_size de) in
        if size_low d <? size then ret (Return (-1)) else
        scan_loop n fuel d dev filename len result_inode bh (off + entry_size de) size
  end.

(** The sectors of a block; the counter [k] is a byte, so [m] runs out when a block has
    more than 255 sectors. *)
Fixpoint sector_loop (m n fuel : nat) (x : ext2) (d : ext2_inode) (dev filename len result_inode block k size : Z) :
    M world scan :=
  match m with
  | O => timeout
  | S m =>
      if negb (k <? block_size x / BLOCK_SIZE) then ret (Continue size) else
      let* bh := on_disk (get_block fuel (u32 (ADDR_OF_BLOCK x block + k)) dev) in
      if bh =? 0 then ret (Return (-1)) else
      let* r := scan_loop n fuel d dev filename len result_inode bh 0 size in
      match r with
      | Return r => ret (Return r)
      | Continue size =>
          on_disk (on_cache (put_block bh)) ;;;
          sector_loop m n fuel x d dev filename len result_inode block (u8 (k + 1)) size
      end
  end.
Fixpoint block_loop (n fuel : nat) (x : ext2) (d : ext2_inode) (dev filename len result_inode : Z)
    (blocks : list Z) (size : Z) : M world Z :=
  match blocks with
  | [] => ret (-1)
  | b :: blocks =>
      if b =? 0 then ret (-1) else
      let* r := sector_loop (S (Z.to_nat (block_size x / BLOCK_SIZE))) n fuel x d dev filename len result_inode b 0 size in
      match r with
      | Return r => ret r
      | Continue size => block_loop n fuel x d dev filename len result_inode blocks size
      end
  end.
Definition ext2_lookup (n fuel : nat) (dir : Vfs.inode) (filename len result_inode : Z) : M world Z :=
  print (terminal_writestring "in ext2_lookup") ;;;
  let dev := u16 (i_dev dir) in
  let* (bh, bytes) := read_inode fuel (i_no dir) dev in
  on_disk (on_cache (put_block bh)) ;;;
  let inode := decode_inode bytes in
  if len =? 0 then ret (-1) else
  if negb (truth (type_permissions inode) && truth TYPE_DIRECTORY) then ret (-1) else
  let* x := on_ext2 get in
  block_loop n fuel x inode dev filename len result_inode (direct_block inode) 0.

(** ** Inodes and the super block of a mounted file system *)

Definition set_i_ops (o : option inode_operations) (sb : Z) (i : Vfs.inode) : Vfs.inode :=
  mkInode (i_dev i) (i_no i) (i_size i) o sb (i_gid i) (i_uid i) (i_flags i) (i_permissions i)
    (i_mount_point i) (i_counter i) (i_next i) (i_prev i).
Definition set_owner (size g u : Z) (i : Vfs.inode) : Vfs.inode :=
  mkInode (i_dev i) (i_no i) size (i_ops i) (i_sb i) g u (i_flags i) (i_permissions i)
    (i_mount_point i) (i_counter i) (i_next i) (i_prev i).

(** The inode is never read: size and owner are what the memory just allocated holds. *)
Definition ext2_read_inode (dest : Z) : M world unit :=
  print (terminal_writestring "in read inode") ;;;
  on_vfs (upd_inode dest (set_i_ops (Some Ext2_inode_ops) super_block_var)) ;;;
  let* i := on_vfs (ld_inode dest) in
  when (negb (i_no i =? 0))
    (let* p := on_heap (mm_alloc SIZEOF_INODE) in
     let* data := on_heap (mm_load SIZEOF_INODE p) in
     let tmp_inode := decode_inode data in
     on_vfs (upd_inode dest (set_owner (size_low tmp_inode) (gid tmp_inode) (uid tmp_inode))) ;;;
     on_heap (mm_free p)).

Definition SIZEOF_VFS_INODE : Z := 52.
Definition root_of (root : Z) (s : ext2_inode) : Vfs.inode :=
  let i := raw_inode root in
  mkInode (i_dev i) ROOT_DIRECTORY (size_low s) (i_ops i) (i_sb i) (gid s) (uid s) (flags s) (i_permissions i)
    (i_mount_point i) (i_counter i) (i_next i) (i_prev i).
Definition ext2_read_super (fuel : nat) (sb dev : Z) : M world Z :=
  ext2_parse_superblock fuel dev ;;;
  let* (tmp, _, inode) := load_inode fuel ROOT_DIRECTORY dev in
  let* root := on_heap (mm_alloc SIZEOF_VFS_INODE) in
  on_vfs (modify (λ s, set_inodes (<[root := root_of root inode]> (inodes s)) s)) ;;;
  on_vfs (upd_sb sb (λ b, mkSuper (sb_dev b) (sb_fs_type b) (Some Ext2_super_operations) (sb_mount_point b) root (sb_next b))) ;;;
  let* b := on_vfs (ld_sb sb) in
  when (sb_fs_type b =? 0)
    (on_vfs
      (let* l := find_file_system ext2_literal 4 in
       let* t := ld_link l in
       upd_sb sb (λ b, mkSuper (sb_dev b) t (sb_ops b) (sb_mount_point b) (sb_root b) (sb_next b)))) ;;;
  on_vfs (upd_sb sb (λ b, mkSuper dev (sb_fs_type b) (sb_ops b) (sb_mount_point b) (sb_root b) (sb_next b))) ;;;
  on_ext2 (modify (set_super_block sb)) ;;;
  on_heap (mm_free tmp) ;;;
  ret sb.

End operations.
