(* ===== verification/Ext2Inode.v ===== *)
(** * ext2: super block and inodes

    Where the operations of [Ext2.v] find inodes, and what mounting reads. *)

From S2P Require Import Prelude Memory Common Io Ata Buffer Requests Alloc Vfs Ext2Format Ext2.

Section steps.
Context `{BlockDevice E} `{Allocator H2} `{Ext2Layout}.
Implicit Types (hp : H2) (t : cache * E).
#[local] Abbreviation W := (world (E := E) (H2 := H2)).

(** ** Lemmas: one part of the state at a time *)

Lemma on_disk_ok {A} (m : M (cache * E) A) x v hp t a t' :
  m t = Ok a t' → on_disk m (mkWorld x v hp t) = Ok a (mkWorld x v hp t').
Proof using. intros Hm. unfold on_disk, zoom. simpl. by rewrite Hm. Qed.
Lemma on_vfs_ok {A} (m : M vfs A) x v hp t a v' :
  m v = Ok a v' → on_vfs m (mkWorld x v hp t) = Ok a (mkWorld x v' hp t).
Proof using. intros Hm. unfold on_vfs, zoom. simpl. by rewrite Hm. Qed.
Lemma on_heap_ok {A} (m : M H2 A) x v hp t a hp' :
  m hp = Ok a hp' → on_heap m (mkWorld x v hp t) = Ok a (mkWorld x v hp' t).
Proof using. intros Hm. unfold on_heap, zoom. simpl. by rewrite Hm. Qed.
Lemma bind_ext2 {B} (f : ext2 → M W B) x v hp t : bind (on_ext2 get) f (mkWorld x v hp t) = f x (mkWorld x v hp t).
Proof using. done. Qed.
Lemma bind_check {B} (b : bool) (f : unit → M W B) w : b = true → bind (check b) f w = f tt w.
Proof using. by intros ->. Qed.

(** Printing: only the console changes. *)
Lemma bind_print {B} m (f : unit → M W B) x v hp (s : cache) e :
  prints same_content m → env_wf e →
  ∃ e', bind (print m) f (mkWorld x v hp (s, e)) = f tt (mkWorld x v hp (s, e')) ∧ env_wf e' ∧ content e' = content e.
Proof using.
  intros Hm He. destruct (Hm e He) as (e' & E1 & He' & Hc). exists e'. split; [|done].
  apply bind_ok. unfold print. by apply on_disk_ok, disk_io_ok.
Qed.
Lemma prints_string str : prints same_content (terminal_writestring str).
Proof using. apply prints_write; [apply _|apply bd_console]. Qed.

Lemma data_of_ok p hb x v hp s (e : E) :
  buffers s !! p = Some hb → data_of p (mkWorld x v hp (s, e)) = Ok (buff hb) (mkWorld x v hp (s, e)).
Proof using.
  intros Hp. unfold data_of. by rewrite (bind_ok _ _ _ _ _ (on_disk_ok _ x v hp _ _ _ (on_cache_ok _ _ e _ _ (ld_buffer_ok _ _ _ Hp)))).
Qed.
Lemma slice_ok l off n (w : W) : off + n ≤ 512 → slice l off n w = Ok (take (Z.to_nat n) (drop (Z.to_nat off) l)) w.
Proof using. intros Hle. unfold slice, BLOCK_SIZE. by rewrite (proj2 (Z.leb_le _ _)). Qed.
Lemma prints_hex_bytes l : prints same_content (for_each l terminal_printhex).
Proof using.
  induction l as [|y l IH]; [by apply prints_ret, _|].
  apply prints_bind; [apply _|apply prints_hex; [apply _|apply bd_console]|exact IH].
Qed.
End steps.

(** Step over a [print]; the environment afterwards is [e']. *)
Ltac skip_print e' He' Hc' :=
  match goal with
  | |- context [bind (print ?p) ?f (mkWorld ?x ?v ?h (?s, ?e))] =>
      let E := fresh in
      destruct (bind_print p f x v h s e) as (e' & E & He' & Hc');
      [first [apply prints_hex_bytes|apply prints_hex32; [apply _|apply bd_console]
        |apply prints_write; [apply _|apply bd_console]]|assumption|rewrite E; clear E]
  end.

Section inodes.
Context `{BlockDevice E} `{Allocator H2} `{Ext2Layout}.
Implicit Types (hp : H2) (t : cache * E).
#[local] Abbreviation W := (world (E := E) (H2 := H2)).

(** ** Finding inodes *)

(** A file system as its super block describes it: blocks are sectors, inodes fill
    blocks and do not cross sectors. *)
Record well_formed (x : ext2) (m : Z) : Prop := {
  wf_block : block_size x = 512 * m;
  wf_blocks : 0 < m;
  wf_fill : inode_size x * inodes_per_block x = block_size x;
  wf_inode : 0 < inode_size x ∧ inode_size x mod 128 = 0;
  wf_per_block : 0 < inodes_per_block x;
  wf_group : 0 < inodes_per_group x;
  wf_size : inodes_per_group x * inode_size x < 4294967296;
  wf_word : block_size x < 4294967296 }.

(** The byte of the device at which an inode starts, given the block of its table. *)
Definition inode_byte (x : ext2) (table inode : Z) : Z :=
  table * block_size x + (inode - 1) mod inodes_per_group x * inode_size x.

Lemma inode_location x m table inode :
  well_formed x m → 0 < inode < 4294967296 → 0 ≤ table → inode_byte x table inode < 512 * 4294967296 →
  let index := INODE_INDEX x inode in
  let A := inode_byte x table inode in
  u32 (ADDR_OF_BLOCK x (u32 (table + BLOCK_OF_INODE x index)) + block_byte x index / BLOCK_SIZE) = A / 512 ∧
  block_byte x index mod BLOCK_SIZE = A mod 512 ∧ A mod 512 + 128 ≤ 512 ∧ 0 ≤ A ∧ 0 ≤ BLOCK_OF_INODE x index ∧
  0 ≤ block_byte x index / 512 ∧ A / 512 = m * (table + BLOCK_OF_INODE x index) + block_byte x index / 512.
Proof using.
  intros [Hb Hm Hf [Hi Hi2] Hpb Hg Hs Hw] Hino Ht Hlt. cbv zeta.
  unfold INODE_INDEX, BLOCK_OF_INODE, ADDR_OF_BLOCK, block_byte, inode_byte, BLOCK_SIZE in *.
  rewrite (u32_small (inode - 1)) by lia. set (idx := (inode - 1) mod inodes_per_group x) in *.
  assert (0 ≤ idx < inodes_per_group x) as Hidx by (apply Z.mod_pos_bound; lia).
  assert (0 ≤ idx * inode_size x < 4294967296) as Hoff by nia.
  rewrite (u32_small (idx * inode_size x)) by done.
  assert (0 ≤ idx mod inodes_per_block x < inodes_per_block x) as Hr by (apply Z.mod_pos_bound; lia).
  assert (0 ≤ inode_size x * (idx mod inodes_per_block x) < block_size x) as Hrb by nia.
  rewrite (u32_small (inode_size x * (idx mod inodes_per_block x))) by lia.
  set (q := idx * inode_size x / block_size x). set (r := inode_size x * (idx mod inodes_per_block x)) in *.
  assert (idx * inode_size x = block_size x * q + r) as Hsplit.
  { unfold q, r. rewrite <-Hf. rewrite (Z.mul_comm idx), Z.div_mul_cancel_l by lia.
    rewrite (Z.div_mod idx (inodes_per_block x)) at 1 by lia. ring. }
  assert (0 ≤ q) as Hq by (apply Z.div_pos; lia).
  assert (block_size x / 512 = m) as Hm' by (rewrite Hb, Z.mul_comm; apply Z.div_mul; lia). rewrite Hm'.
  replace (table * block_size x + idx * inode_size x) with (512 * (m * (table + q)) + r) in * by (rewrite Hsplit, Hb; ring).
  assert (0 ≤ r / 512) as Hr5 by (apply Z.div_pos; lia).
  assert ((512 * (m * (table + q)) + r) / 512 = m * (table + q) + r / 512) as Hdiv.
  { rewrite Z.mul_comm, Z.div_add_l by lia. done. }
  assert ((512 * (m * (table + q)) + r) mod 512 = r mod 512) as Hmod.
  { rewrite Z.add_comm, (Z.mul_comm 512), Z.mod_add by lia. done. }
  assert (m * (table + q) + r / 512 < 4294967296) as Hsm.
  { rewrite <-Hdiv. apply Z.div_lt_upper_bound; lia. }
  assert (0 ≤ table + q ≤ m * (table + q)) as Htq.
  { split; [lia|]. rewrite <-(Z.mul_1_l (table + q)) at 1. apply Z.mul_le_mono_nonneg_r; lia. }
  rewrite (u32_small (table + q)), (u32_small (m * (table + q))), u32_small, Hdiv, Hmod by lia.
  split; [done|]. split; [done|]. split; [|split_and!; done || lia].
  assert (r mod 128 = 0) as Hr128.
  { unfold r. rewrite Z.mul_mod, Hi2 by lia. done. }
  apply Z.mod_divide in Hr128 as [j Hj]; [|lia]. rewrite Hj. change 512 with (4 * 128) at 1.
  rewrite Z.mul_mod_distr_r by lia. pose proof (Z.mod_pos_bound j 4 ltac:(lia)). lia.
Qed.

(** A block has at least one sector. *)
Lemma block_sectors x m : well_formed x m → ∃ todo, Z.to_nat (block_size x / BLOCK_SIZE) = S todo.
Proof using.
  intros [Hb Hm _ _ _ _ _ _]. unfold BLOCK_SIZE. rewrite Hb, Z.mul_comm, Z.div_mul by lia. exists (Z.to_nat (m - 1)). lia.
Qed.

(** The descriptor table's sector [T] is in a buffer somebody holds. *)
Definition table_held (x : ext2) (T F : list Z) (s : cache) : Prop :=
  ∃ hb, buffers s !! bgdt_entries x = Some hb ∧ buff hb = T ∧ bgdt_entries x ∉ F.
Lemma table_kept x T F s F' s' : kept F s F' s' → table_held x T F s → table_held x T F' s'.
Proof using.
  intros [_ Hk] (hb & Hp & HT & HF). destruct (Hk _ _ HF Hp) as (HF' & h' & Hp' & _ & _ & Hb & _ & _).
  exists h'. split_and!; congruence.
Qed.

(** The block of the inode table of the inode's group, in a descriptor table. *)
Definition table_of_inode (x : ext2) (T : list Z) (inode : Z) : Z :=
  inode_table (decode_bgd (take 32 (drop (Z.to_nat (32 * ((inode - 1) / inodes_per_group x))) T))).
(** The byte of the device the inode starts at, and the inode there. *)
Definition inode_at (x : ext2) (T : list Z) (inode : Z) : Z := inode_byte x (table_of_inode x T inode) inode.
Definition inode_bytes (e : E) (b : bdev) (A : Z) : list Z :=
  take SIZEOF_INODE (drop (Z.to_nat (A mod 512)) (content e (location b (A / 512)))).

(** An inode the descriptor table describes. *)
Record valid_inode (x : ext2) (T : list Z) (inode : Z) : Prop := {
  vi_number : 0 < inode < 4294967296;
  vi_group : 32 * ((inode - 1) / inodes_per_group x) + 32 ≤ 512;
  vi_table : 0 ≤ table_of_inode x T inode;
  vi_byte : inode_at x T inode < 512 * 4294967296 }.

Lemma inode_bytes_length x m T inode (e : E) b :
  well_formed x m → valid_inode x T inode → length (inode_bytes e b (inode_at x T inode)) = SIZEOF_INODE.
Proof using.
  intros Hx Hv.
  destruct (inode_location x m (table_of_inode x T inode) inode Hx (vi_number _ _ _ Hv) (vi_table _ _ _ Hv) (vi_byte _ _ _ Hv))
    as (_ & _ & Hin & _). fold (inode_at x T inode) in Hin.
  unfold inode_bytes. rewrite length_take, length_drop, content_length. unfold SIZEOF_INODE.
  pose proof (Z.mod_pos_bound (inode_at x T inode) 512). lia.
Qed.

Lemma bgd_entry_ok g x v hp s (e : E) T F :
  table_held x T F s → 32 * g + 32 ≤ 512 →
  bgd_entry g (mkWorld x v hp (s, e)) =
    Ok (decode_bgd (take 32 (drop (Z.to_nat (32 * g)) T))) (mkWorld x v hp (s, e)).
Proof using.
  intros (hb & Hp & <- & _) Hg. unfold bgd_entry. rewrite bind_ext2, (bind_ok _ _ _ _ _ (data_of_ok _ _ x v hp s e Hp)).
  unfold SIZEOF_BGD. by rewrite (bind_ok _ _ _ _ _ (slice_ok _ (32 * g) 32 _ ltac:(lia))).
Qed.

Section requests.
Context (fuel : nat) (d : Z) (b : bdev) (x : ext2) (m : Z) (T : list Z) (Hx : well_formed x m).

(** [read_inode] makes one request, in an environment with the same content of the disk. *)
Lemma read_inode_via (P : Z → cache → E → Prop) inode F s e v hp :
  let A := inode_at x T inode in
  valid_inode x T inode → table_held x T F s → env_wf e →
  (∀ e0, env_wf e0 → content e0 = content e → ∃ p s1 e1 h, get_block fuel (A / 512) d (s, e0) = Ok p (s1, e1) ∧
    buffers s1 !! p = Some h ∧ buff h = content e (location b (A / 512)) ∧ P p s1 e1) →
  ∃ p s1 e1, read_inode fuel inode d (mkWorld x v hp (s, e)) = Ok (p, inode_bytes e b A) (mkWorld x v hp (s1, e1)) ∧
    P p s1 e1.
Proof using Hx.
  intros A [Hino Hgrp Htab Hbyte] Hheld He Hreq. pose proof Hx as [Hb Hm _ _ Hpb Hg _ _].
  destruct (inode_location x m (table_of_inode x T inode) inode Hx Hino Htab Hbyte) as (Hsec & Hoff & Hin & _).
  unfold read_inode. rewrite bind_ext2.
  rewrite bind_check by (unfold truth; by rewrite (proj2 (Z.eqb_neq _ _)) by lia). cbv zeta.
  skip_print e1 He1 Hc1.
  assert (BG_OF_INODE x inode = (inode - 1) / inodes_per_group x) as Hbg.
  { unfold BG_OF_INODE. by rewrite u32_small by lia. }
  rewrite Hbg, (bind_ok _ _ _ _ _ (bgd_entry_ok _ x v hp s e1 T F Hheld Hgrp)). fold (table_of_inode x T inode).
  rewrite bind_check by (unfold truth; by rewrite (proj2 (Z.eqb_neq _ _)) by lia).
  skip_print e2 He2 Hc2. skip_print e3 He3 Hc3.
  rewrite bind_check by (unfold truth; by rewrite (proj2 (Z.eqb_neq _ _)) by lia).
  fold (table_of_inode x T inode). cbv zeta in Hsec, Hoff, Hin. fold (inode_at x T inode) in Hsec, Hoff, Hin. fold A in Hsec, Hoff, Hin.
  rewrite Hsec, Hoff. destruct (Hreq e3 He3 ltac:(congruence)) as (p & s4 & e4 & h & E4 & Hp & Hd & HP).
  rewrite (bind_ok _ _ _ _ _ (on_disk_ok _ x v hp _ _ _ E4)).
  rewrite (bind_ok _ _ _ _ _ (data_of_ok _ _ x v hp s4 e4 Hp)).
  rewrite (bind_ok _ _ _ _ _ (slice_ok _ _ SIZEOF_INODE _ Hin)).
  exists p, s4, e4. by rewrite Hd.
Qed.
Lemma read_inode_ok inode ks F s e v hp :
  let A := inode_at x T inode in
  valid_inode x T inode → table_held x T F s → ready fuel d b (A / 512 :: ks) F s e →
  (S (length ks) ≤ length F)%nat →
  ∃ p s1 e1 h F1, read_inode fuel inode d (mkWorld x v hp (s, e)) =
      Ok (p, inode_bytes e b A) (mkWorld x v hp (s1, e1)) ∧
    got fuel d b (A / 512) ks F s e p s1 e1 h F1.
Proof using Hx.
  intros A Hv Ht Hr HF. pose proof (rd_env _ _ _ _ _ _ _ Hr) as He.
  destruct (read_inode_via (λ p s1 e1, ∃ h F1, got fuel d b (A / 512) ks F s e p s1 e1 h F1) inode F s e v hp Hv Ht He)
    as (p & s1 & e1 & E1 & h & F1 & Hg); [|by exists p, s1, e1, h, F1].
  intros e0 He0 Hc0. destruct (ready_got fuel d b (A / 512) ks F s e0 (ready_env _ _ _ _ _ _ _ _ Hr He0 Hc0) HF)
    as (p & s1 & e1 & h & F1 & E1 & Hg). apply (got_env _ _ _ _ _ _ _ _ e) in Hg; [|done].
  pose proof Hg as [Hp _ _ Hd _ _ _ _ _ _ _ _ _]. exists p, s1, e1, h. split_and!; try done. by exists h, F1.
Qed.
Lemma read_inode_requested inode ks F s e v hp :
  let A := inode_at x T inode in
  valid_inode x T inode → table_held x T F s → requestable fuel d b (A / 512) ks F s e →
  ∃ p s1 e1, read_inode fuel inode d (mkWorld x v hp (s, e)) = Ok (p, inode_bytes e b A) (mkWorld x v hp (s1, e1)) ∧
    requested fuel d b (A / 512) ks F s e p s1 e1.
Proof using Hx.
  intros A Hv Ht [He Hreq]. apply (read_inode_via _ inode F s e v hp Hv Ht He). intros e0 He0 Hc0.
  destruct (Hreq e0 He0 Hc0) as (p & s1 & e1 & E1 & Hr). pose proof Hr as (h & _ & _ & Hp & Hd & _).
  by exists p, s1, e1, h.
Qed.

(** C10. The place [read_inode] computes from the super block's geometry, by blocks, indices
    and offsets, is the one of a flat array of inodes that starts at the block of the
    group's table: for every valid inode it returns the 128 bytes at that place of the
    device, in the buffer of their sector, which is held. *)
Theorem read_inode_correct inode F s e v hp :
  let A := inode_at x T inode in
  valid_inode x T inode → table_held x T F s → ready fuel d b [A / 512] F s e → F ≠ [] →
  ∃ p s1 e1 h F1, read_inode fuel inode d (mkWorld x v hp (s, e)) =
      Ok (p, inode_bytes e b A) (mkWorld x v hp (s1, e1)) ∧
    buffers s1 !! p = Some h ∧ block_num h = A / 512 ∧ content e1 = content e ∧
    table_held x T F1 s1 ∧ ready fuel d b [] F1 s1 e1.
Proof using Hx.
  intros A Hv Ht Hr HF.
  destruct (read_inode_ok inode [] F s e v hp Hv Ht Hr) as (p & s1 & e1 & h & F1 & E1 & Hg).
  { destruct F; [done|simpl; lia]. }
  exists p, s1, e1, h, F1. split; [exact E1|]. destruct Hg. split_and!; try done. by eapply table_kept.
Qed.
End requests.

(** ** The super block *)

Lemma on_ext2_modify {B} g (f : unit → M W B) x v hp t :
  bind (on_ext2 (modify g)) f (mkWorld x v hp t) = f tt (mkWorld (g x) v hp t).
Proof using. done. Qed.

(** The two sectors of the super block. *)
Definition superblock_bytes (e : E) (b : bdev) : list Z := content e (location b 2) ++ content e (location b 3).

(** Up to the check of the signature. *)
Lemma copy_superblock_ok fuel d b ks F s e x v hp :
  length (ext2_sb x) = 1024%nat → ready fuel d b (2 :: 3 :: ks) F s e → (S (S (length ks)) < length F)%nat →
  ∃ s' e' F', copy_superblock fuel d (mkWorld x v hp (s, e)) =
      Ok tt (mkWorld (set_ext2_sb (superblock_bytes e b) x) v hp (s', e')) ∧
    content e' = content e ∧ ready fuel d b ks F' s' e' ∧ (length ks < length F')%nat ∧
    kept F s F' s' ∧ (length F ≤ 2 + length F')%nat.
Proof using.
  intros Hlen Hr HF. unfold copy_superblock, SUPERBLOCK_ADDR.
  destruct (ready_request fuel d b 2 (3 :: ks) F s e Hr) as (p & s1 & e1 & h & s2 & F2 & E1 & Hp & Hd & Hc1 & E2 & Hr2 & HF2 & Hk2 & Hl2);
    [simpl in *; lia|].
  rewrite (bind_ok _ _ _ _ _ (on_disk_ok _ x v hp _ _ _ E1)), (bind_ok _ _ _ _ _ (data_of_ok _ _ x v hp s1 e1 Hp)).
  rewrite on_ext2_modify. set (x1 := set_ext2_sb _ x).
  rewrite (bind_ok _ _ _ _ _ (on_disk_ok _ x1 v hp _ _ _ (on_cache_ok _ _ e1 _ _ E2))).
  destruct (ready_request fuel d b 3 ks F2 s2 e1 Hr2) as (q & s3 & e3 & h3 & s4 & F4 & E3 & Hp3 & Hd3 & Hc3 & E4 & Hr4 & HF4 & Hk4 & Hl4);
    [simpl in *; lia|].
  change (2 + 1) with 3.
  rewrite (bind_ok _ _ _ _ _ (on_disk_ok _ x1 v hp _ _ _ E3)), (bind_ok _ _ _ _ _ (data_of_ok _ _ x1 v hp s3 e3 Hp3)).
  rewrite on_ext2_modify. set (x2 := set_ext2_sb _ x1).
  rewrite (on_disk_ok _ x2 v hp _ _ _ (on_cache_ok _ _ e3 _ _ E4)).
  exists s4, e3, F4. split; [|split; [congruence|split; [done|split; [lia|split; [by eapply kept_trans|lia]]]]].
  assert (x2 = set_ext2_sb (superblock_bytes e b) x) as ->; [|done].
  unfold x2, x1, superblock_bytes, set_ext2_sb. simpl. rewrite Hd, Hd3, Hc1.
  by rewrite take_app_length' by (symmetry; apply content_length).
Qed.

(** The sector of the descriptor table. *)
Definition bgd_sector (x : ext2) : Z := ADDR_OF_BLOCK x (bgd_addr x).

Lemma parse_ok fuel d b ks F s e x x' v hp :
  let sb := decode_superblock (superblock_bytes e b) in
  length (ext2_sb x) = 1024%nat → ext2_signature sb = 0xEF53 →
  geometry sb (set_ext2_sb (superblock_bytes e b) x) = Some x' →
  ready fuel d b (2 :: 3 :: bgd_sector x' :: ks) F s e → (S (S (S (length ks))) < length F)%nat →
  ∃ p s' e' F', ext2_parse_superblock fuel d (mkWorld x v hp (s, e)) = Ok tt (mkWorld (set_bgdt p x') v hp (s', e')) ∧
    content e' = content e ∧ ready fuel d b ks F' s' e' ∧ (length ks < length F')%nat ∧
    table_held (set_bgdt p x') (content e (location b (bgd_sector x'))) F' s' ∧
    kept F s F' s' ∧ (length F ≤ 3 + length F')%nat.
Proof using.
  intros sb Hlen Hsig Hgeo Hr HF. unfold ext2_parse_superblock.
  destruct (copy_superblock_ok fuel d b (bgd_sector x' :: ks) F s e x v hp Hlen Hr)
    as (s1 & e1 & F1 & E1 & Hc1 & Hr1 & HF1 & Hk1 & Hl1); [simpl in *; lia|].
  rewrite (bind_ok _ _ _ _ _ E1), bind_ext2. clear E1. cbn [ext2_sb set_ext2_sb]. fold sb. rewrite (proj2 (Z.eqb_eq _ _) Hsig).
  rewrite Hgeo. cbn [of_option negb]. rewrite bind_ret_l, on_ext2_modify. unfold read_bgd_table. rewrite bind_ext2.
  fold (bgd_sector x'). destruct (ready_got fuel d b _ _ _ _ _ Hr1) as (p & s2 & e2 & h & F2 & E2 & Hg); [simpl in *; lia|].
  rewrite (bind_ok _ _ _ _ _ (on_disk_ok _ x' v hp _ _ _ E2)).
  exists p, s2, e2, F2. split; [done|]. destruct Hg as [Hp _ _ Hd Hcg Hr2 Hl2 HpF _ Hk2 _ _ _].
  split; [congruence|]. split; [done|]. split; [simpl in *; lia|]. split; [|split; [by eapply kept_trans|lia]].
  exists h. split; [done|]. split; [congruence|done].
Qed.

(** Mounting reads the super block from sectors 2 and 3 and takes the geometry and the
    group descriptors from it; a disk without the ext2 signature is a panic. *)
Theorem ext2_parse_superblock_correct fuel d b F s e x x' v hp :
  let sb := decode_superblock (superblock_bytes e b) in
  length (ext2_sb x) = 1024%nat → geometry sb (set_ext2_sb (superblock_bytes e b) x) = Some x' →
  ready fuel d b [2; 3; bgd_sector x'] F s e → (4 ≤ length F)%nat →
  ∃ s' e', content e' = content e ∧
    if ext2_signature sb =? 0xEF53
    then ∃ p F', ext2_parse_superblock fuel d (mkWorld x v hp (s, e)) = Ok tt (mkWorld (set_bgdt p x') v hp (s', e')) ∧
      table_held (set_bgdt p x') (content e (location b (bgd_sector x'))) F' s' ∧ ready fuel d b [] F' s' e'
    else ext2_parse_superblock fuel d (mkWorld x v hp (s, e)) =
      Panic "not ext2" (mkWorld (set_ext2_sb (superblock_bytes e b) x) v hp (s', e')).
Proof using.
  intros sb Hlen Hgeo Hr HF. destruct (Z.eqb_spec (ext2_signature sb) 0xEF53) as [Hsig|Hsig].
  - destruct (parse_ok fuel d b [] F s e x x' v hp Hlen Hsig Hgeo Hr) as (p & s' & e' & F' & E1 & Hc & Hr' & _ & Ht & _);
      [simpl; lia|]. exists s', e'. split; [done|]. by exists p, F'.
  - unfold ext2_parse_superblock.
    destruct (copy_superblock_ok fuel d b [bgd_sector x'] F s e x v hp Hlen Hr)
      as (s1 & e1 & F1 & E1 & Hc1 & _ & _); [simpl in *; lia|].
    exists s1, e1. split; [done|]. rewrite (bind_ok _ _ _ _ _ E1), bind_ext2. cbn [ext2_sb set_ext2_sb]. fold sb.
    by rewrite (proj2 (Z.eqb_neq _ _) Hsig).
Qed.

(** C32. The static variables computed from a super block whose inodes fill the blocks, and
    whose numbers do not overflow the words of the address arithmetic, are well formed:
    blocks are whole sectors, inodes do not cross sectors, no divisor is zero. *)
Theorem geometry_well_formed sb x x' :
  geometry sb x = Some x' → 0 ≤ es_block_size sb →
  0 < inode_size x' → inode_size x' mod 128 = 0 → block_size x' mod inode_size x' = 0 →
  0 < es_inodes_per_group sb → es_inodes_per_group sb * inode_size x' < 4294967296 →
  well_formed x' (2 * 2 ^ es_block_size sb).
Proof using.
  unfold geometry. intros Hg Hk. destruct (_ && _) eqn:Hc; [|done]. injection Hg as <-. cbn.
  set (isz := if 1 <=? major_version sb then es_inode_size sb else 128). intros Hi Hi2 Hd Hg Hs.
  rewrite !andb_true_iff in Hc. destruct Hc as [[[Hc _] _] _]. apply Z.ltb_lt in Hc.
  rewrite Z.shiftl_mul_pow2 in * by done.
  assert (0 < 2 ^ es_block_size sb) as Hp by (apply Z.pow_pos_nonneg; lia).
  assert (2 ^ es_block_size sb ≤ 2 ^ 20) as Hp2 by (apply Z.pow_le_mono_r; lia). change (2 ^ 20) with 1048576 in Hp2.
  assert (isz * (0x400 * 2 ^ es_block_size sb / isz) = 0x400 * 2 ^ es_block_size sb) as Hm.
  { symmetry. apply Z.div_exact; lia. }
  constructor; cbn; fold isz; rewrite ?Z.shiftl_mul_pow2 by done; lia.
Qed.
End inodes.
