(* ===== verification/Ext2File.v ===== *)
(** * ext2: reading files

    [ext2_read] of [Ext2.v] on every path that a file of the file system can take it. *)

From S2P Require Import Prelude Memory Common Io Ata Buffer Requests Alloc Vfs Ext2Format Ext2 Ext2Inode.

Section files.
Context `{BlockDevice E} `{Allocator H2} `{Ext2Layout}.
Implicit Types (hp : H2) (w : world (E := E) (H2 := H2)).

(** ** Reading a file *)

Lemma got_nonnull fuel d b k ks F s e p s1 (e1 : E) h F1 : got fuel d b k ks F s e p s1 e1 h F1 → p ≠ 0.
Proof using.
  intros [Hp _ _ _ _ Hr _ _ _ _ _ _ _] ->. by rewrite (cl_null _ _ _ _ _ (rd_clean _ _ _ _ _ _ _ Hr)) in Hp.
Qed.

(** The sector of block [blk], and the transfer of [count] bytes of it. *)
Definition block_sector (x : ext2) (blk k : Z) : Z := u32 (ADDR_OF_BLOCK x blk + k).
Lemma block_loop_stops fuel x blocks d todo k t w : t_count t = 0 → read_block_loop fuel x blocks d todo k t w = Ok (true, t) w.
Proof using. intros Ht. destruct todo as [|todo]; [done|]. cbn [read_block_loop]. by rewrite Ht. Qed.

Lemma read_sector_ok fuel d b ks F s e x v hp blocks todo k t blk :
  0 < t_count t ≤ 512 → 0 ≤ t_offset t → t_offset t + t_count t ≤ 512 → blocks !! Z.to_nat (t_i t) = Some blk →
  ready fuel d b (block_sector x blk k :: ks) F s e → (S (length ks) < length F)%nat →
  ∃ s' e' F', read_block_loop fuel x blocks d (S todo) k t (mkWorld x v hp (s, e)) =
      Ok (true, mkTransfer (u32 (t_i t + 1)) 0 (u32 (t_off t + t_count t)) (u32 (t_done t + t_count t)) 0
        (t_bytes t ++ take (Z.to_nat (t_count t)) (drop (Z.to_nat (t_offset t)) (content e (location b (block_sector x blk k))))))
        (mkWorld x v hp (s', e')) ∧
    content e' = content e ∧ ready fuel d b ks F' s' e' ∧ (length ks < length F')%nat ∧ kept F s F' s'.
Proof using.
  intros Hc Ho Hoc Hblk Hr HF. cbn [read_block_loop].
  rewrite (proj2 (Z.ltb_lt _ _)) by lia. cbn [negb]. unfold nth_block at 1. rewrite Hblk. cbn [of_option]. rewrite bind_ret_l.
  fold (block_sector x blk k).
  destruct (ready_got fuel d b _ ks F s e Hr) as (p & s1 & e1 & h & F1 & E1 & Hg); [cbn [length]; lia|].
  rewrite (bind_ok _ _ _ _ _ (on_disk_ok _ x v hp _ _ _ E1)).
  rewrite (proj2 (Z.eqb_neq _ _) (got_nonnull _ _ _ _ _ _ _ _ _ _ _ _ _ Hg)). cbv zeta. unfold BLOCK_SIZE.
  assert ((if t_count t <? 512 then t_count t else 512) = t_count t) as ->.
  { destruct (Z.ltb_spec (t_count t) 512); lia. }
  destruct (got_put _ _ _ _ _ _ _ _ _ _ _ _ _ Hg) as (s2 & F2 & E2 & Hr2 & HF2 & Hk2 & _).
  { apply (got_nonempty _ _ _ _ _ _ _ _ _ _ _ _ _ Hg). lia. }
  pose proof Hg as [Hp _ _ Hd Hcont Hr1 Hl1 _ _ _ _ _ _].
  rewrite (bind_ok _ _ _ _ _ (data_of_ok _ _ x v hp s1 e1 Hp)).
  rewrite (bind_ok _ _ _ _ _ (slice_ok _ _ (t_count t) _ Hoc)).
  pose proof (rd_env _ _ _ _ _ _ _ Hr1) as He1. skip_print e2 He2 Hc2.
  rewrite (bind_ok _ _ _ _ _ (on_disk_ok _ x v hp _ _ _ (on_cache_ok _ _ e2 _ _ E2))).
  rewrite Z.sub_diag. change (u32 0) with 0. exists s2, e2, F2. rewrite block_loop_stops by done. rewrite Hd.
  split; [done|]. split; [congruence|]. split; [apply (ready_env _ _ _ _ _ _ e1); [done|done|congruence]|].
  split; [lia|done].
Qed.

(** With nothing left to read and a block at the index the outer loop goes round. *)
Lemma read_loop_spins n fuel x blocks d t blk w :
  t_count t = 0 → t_i t < 12 → blocks !! Z.to_nat (t_i t) = Some blk → blk ≠ 0 →
  read_loop n fuel x blocks d t w = Timeout.
Proof using.
  intros Ht Hi Hblk Hz. induction n as [|n IH]; [done|]. cbn [read_loop].
  rewrite (proj2 (Z.ltb_lt _ _) Hi). unfold nth_block. rewrite Hblk. cbn [of_option].
  rewrite (bind_ok _ _ _ (blk =? 0) w), (proj2 (Z.eqb_neq _ _) Hz) by done.
  by rewrite (bind_ok _ _ _ _ _ (block_loop_stops _ _ _ _ _ _ _ w Ht)).
Qed.

(** ** The loops never stop for want of a buffer

    [get_block] dereferences the pointer it returns, so that the test for null behind it
    never holds. *)

Definition w_buffers (w : world (E := E) (H2 := H2)) : gset Z := buffer_set (w_disk w).
Lemma steady_on_disk {A} (m : M (cache * E) A) : steady buffer_set m → steady w_buffers (on_disk m).
Proof using. by apply steady_zoom. Qed.
Lemma steady_data_of p : steady w_buffers (data_of p).
Proof using. unfold data_of. apply steady_bind; [|intros h; apply steady_ret]. apply steady_on_disk, steady_on_cache, steady_ld. Qed.
Lemma steady_slice l off n : steady w_buffers (slice l off n).
Proof using. unfold slice. destruct (_ <=? _); [apply steady_ret|by apply steady_stop]. Qed.

(** What the loops do to their variables, [off] and [total] being those at the start. *)
Definition transferred (off total : Z) (t : transfer) : Prop :=
  0 ≤ t_done t ∧ 0 ≤ t_count t ∧ t_done t + t_count t = total ∧ t_off t = u32 (off + t_done t).
Lemma block_loop_transfers fuel x blocks dev off total todo : ∀ k t w ok t' w',
  0 ∉ w_buffers w → total < 4294967296 → transferred off total t →
  read_block_loop fuel x blocks dev todo k t w = Ok (ok, t') w' →
  ok = true ∧ transferred off total t' ∧ 0 ∉ w_buffers w'.
Proof using.
  induction todo as [|todo IH]; intros k t w ok t' w' Hz Htot Ht E1; [by injection E1 as <- <- <-|].
  cbn [read_block_loop] in E1. destruct (Z.ltb_spec 0 (t_count t)) as [Hc|Hc]; cbn [negb] in E1; [|by injection E1 as <- <- <-].
  apply bind_inv_ok in E1 as (blk & w1 & E2 & E1).
  assert (w1 = w) as -> by (unfold nth_block in E2; by destruct (blocks !! _); [injection E2 as _ ->|]).
  apply bind_inv_ok in E1 as (bh & w2 & E3 & E1).
  pose proof (steady_on_disk _ (steady_get_block fuel _ dev) _ _ _ E3) as Hs2.
  assert (bh ≠ 0) as Hbh.
  { unfold on_disk, zoom in E3. destruct (get_block _ _ _ _) eqn:E4 in E3; [|done..]. injection E3 as <- _.
    apply (get_block_nonnull _ _ _ _ _ _ E4). by apply not_elem_of_dom. }
  rewrite (proj2 (Z.eqb_neq _ _) Hbh) in E1. cbv zeta in E1.
  apply bind_inv_ok in E1 as (l & w3 & E4 & E1). pose proof (steady_data_of _ _ _ _ E4) as Hs3.
  apply bind_inv_ok in E1 as (bytes & w4 & E5 & E1). pose proof (steady_slice _ _ _ _ _ _ E5) as Hs4.
  apply bind_inv_ok in E1 as ([] & w5 & E6 & E1). pose proof (steady_on_disk _ (steady_disk_io _) _ _ _ E6) as Hs5.
  apply bind_inv_ok in E1 as ([] & w6 & E7 & E1). pose proof (steady_on_disk _ (steady_put_block _) _ _ _ E7) as Hs6.
  apply IH in E1; [done|by rewrite Hs6, Hs5, Hs4, Hs3, Hs2|done|].
  destruct Ht as (T1 & T2 & T3 & T4). unfold transferred, BLOCK_SIZE. cbn [t_done t_count t_off].
  destruct (Z.ltb_spec (t_count t) 512); rewrite T4; split_and!; word_lia.
Qed.
Lemma read_loop_transfers fuel x blocks dev off total n : ∀ t w ok t' w',
  0 ∉ w_buffers w → total < 4294967296 → transferred off total t →
  read_loop n fuel x blocks dev t w = Ok (ok, t') w' → ok = true ∧ transferred off total t'.
Proof using.
  induction n as [|n IH]; intros t w ok t' w' Hz Htot Ht E1; [done|]. cbn [read_loop] in E1.
  apply bind_inv_ok in E1 as (stop & w1 & E2 & E1).
  assert (w1 = w) as ->.
  { destruct (t_i t <? 12); [|by injection E2 as _ ->]. apply bind_inv_ok in E2 as (blk & w2 & E2 & [= _ <-]).
    unfold nth_block in E2. by destruct (blocks !! _); [injection E2 as _ ->|]. }
  destruct stop; [by injection E1 as <- <- _|]. apply bind_inv_ok in E1 as ([ok1 t1] & w1 & E3 & E1).
  apply (block_loop_transfers _ _ _ _ _ _ _ _ _ _ _ _ _ Hz Htot Ht) in E3 as (-> & Ht1 & Hz1).
  by apply (IH _ _ _ _ _ Hz1 Htot Ht1 E1).
Qed.

(** The file system of an inode is always taken for ext2: [strcmp] returns 0. *)
Lemma right_filesystem i sb t x v hp (dk : cache * E) :
  super_blocks v !! i_sb i = Some sb → fs_types v !! sb_fs_type sb = Some t →
  wrong_filesystem i (mkWorld x v hp dk) = Ok false (mkWorld x v hp dk).
Proof using.
  intros Hs Ht. unfold wrong_filesystem. apply on_vfs_ok. unfold ld_sb, ld_fs, bind. rewrite Hs. simpl.
  rewrite Ht. simpl. unfold on_vmem, zoom. simpl. by destruct v.
Qed.

(** Allocating an inode and reading it from the disk, with one request. *)
Lemma load_inode_via (P : Z → cache → E → Prop) fuel d b x m T F s e v hp G inode :
  let A := inode_at x T inode in
  well_formed x m → valid_inode x T inode → table_held x T F s → env_wf e →
  mm_owns hp G → has_room hp SIZEOF_INODE → Forall is_byte (inode_bytes e b A) →
  (∀ e0, env_wf e0 → content e0 = content e → ∃ p s1 e1 h, get_block fuel (A / 512) d (s, e0) = Ok p (s1, e1) ∧
    buffers s1 !! p = Some h ∧ buff h = content e (location b (A / 512)) ∧ P p s1 e1) →
  ∃ p q s1 e1 hp1, load_inode fuel inode d (mkWorld x v hp (s, e)) =
      Ok (p, q, decode_inode (inode_bytes e b A)) (mkWorld x v hp1 (s1, e1)) ∧ P q s1 e1 ∧
    mm_load SIZEOF_INODE p hp1 = Ok (inode_bytes e b A) hp1 ∧
    mm_owns hp1 (<[p := Z.of_nat SIZEOF_INODE]> G) ∧ G !! p = None ∧
    (∃ h0, mm_alloc SIZEOF_INODE hp = Ok p h0 ∧ mm_store (inode_bytes e b A) p h0 = Ok tt hp1) ∧
    ∃ hp2, mm_free p hp1 = Ok tt hp2 ∧ mm_owns hp2 G.
Proof using.
  intros A Hx Hv Ht He Ho Hroom Hbytes Hreq.
  assert (length (inode_bytes e b A) = SIZEOF_INODE) as Hlen by (by apply (inode_bytes_length x m T)).
  destruct (alloc_store_free hp G SIZEOF_INODE (inode_bytes e b A) Ho) as (p & h1 & h2 & h3 & E1 & E2 & E3 & Ho2 & Hp & E4 & Ho4);
    [by split|done|by rewrite Hlen|done|].
  destruct (read_inode_via fuel d b x m T Hx P inode F s e v h1 Hv Ht He Hreq) as (q & s1 & e1 & E5 & HP).
  exists p, q, s1, e1, h2. split; [|split; [done|split; [by rewrite <-Hlen|split; [done|split; [done|split; [by exists h1|by exists h3]]]]]].
  unfold load_inode. rewrite (bind_ok _ _ _ _ _ (on_heap_ok _ x v hp (s, e) _ _ E1)), (bind_ok _ _ _ _ _ E5).
  rewrite (bind_ok _ _ _ _ _ (on_heap_ok _ x v h1 (s1, e1) _ _ E2)).
  rewrite Hlen in E3. by rewrite (bind_ok _ _ _ _ _ (on_heap_ok _ x v h2 (s1, e1) _ _ E3)).
Qed.
Lemma load_inode_ok fuel d b x m T ks F s e v hp G inode :
  well_formed x m → valid_inode x T inode → table_held x T F s →
  ready fuel d b (inode_at x T inode / 512 :: ks) F s e → (S (length ks) ≤ length F)%nat →
  mm_owns hp G → has_room hp SIZEOF_INODE → Forall is_byte (inode_bytes e b (inode_at x T inode)) →
  ∃ p q s1 e1 h F1 hp1, load_inode fuel inode d (mkWorld x v hp (s, e)) =
      Ok (p, q, decode_inode (inode_bytes e b (inode_at x T inode))) (mkWorld x v hp1 (s1, e1)) ∧
    got fuel d b (inode_at x T inode / 512) ks F s e q s1 e1 h F1 ∧
    mm_load SIZEOF_INODE p hp1 = Ok (inode_bytes e b (inode_at x T inode)) hp1 ∧
    mm_owns hp1 (<[p := Z.of_nat SIZEOF_INODE]> G) ∧ G !! p = None ∧
    (∃ h0, mm_alloc SIZEOF_INODE hp = Ok p h0 ∧ mm_store (inode_bytes e b (inode_at x T inode)) p h0 = Ok tt hp1) ∧ ∃ hp2, mm_free p hp1 = Ok tt hp2 ∧ mm_owns hp2 G.
Proof using.
  intros Hx Hv Ht Hr HF Ho Hroom Hbytes. set (A := inode_at x T inode) in *.
  destruct (load_inode_via (λ p s1 e1, ∃ h F1, got fuel d b (A / 512) ks F s e p s1 e1 h F1)
    fuel d b x m T F s e v hp G inode) as (p & q & s1 & e1 & hp1 & E1 & (h & F1 & Hg) & Hrest); try done.
  - apply (rd_env _ _ _ _ _ _ _ Hr).
  - intros e0 He0 Hc0. destruct (ready_got fuel d b (A / 512) ks F s e0 (ready_env _ _ _ _ _ _ _ _ Hr He0 Hc0) HF)
      as (p & s1 & e1 & h & F1 & E1 & Hg). apply (got_env _ _ _ _ _ _ _ _ e) in Hg; [|done].
    pose proof Hg as [Hp _ _ Hd _ _ _ _ _ _ _ _ _]. exists p, s1, e1, h. split_and!; try done. by exists h, F1.
  - by exists p, q, s1, e1, h, F1, hp1.
Qed.
Lemma load_inode_requested fuel d b x m T ks F s e v hp G inode :
  let A := inode_at x T inode in
  well_formed x m → valid_inode x T inode → table_held x T F s → requestable fuel d b (A / 512) ks F s e →
  mm_owns hp G → has_room hp SIZEOF_INODE → Forall is_byte (inode_bytes e b A) →
  ∃ p q s1 e1 hp1, load_inode fuel inode d (mkWorld x v hp (s, e)) =
      Ok (p, q, decode_inode (inode_bytes e b A)) (mkWorld x v hp1 (s1, e1)) ∧
    requested fuel d b (A / 512) ks F s e q s1 e1 ∧
    mm_load SIZEOF_INODE p hp1 = Ok (inode_bytes e b A) hp1 ∧ ∃ hp2, mm_free p hp1 = Ok tt hp2 ∧ mm_owns hp2 G.
Proof using.
  intros A Hx Hv Ht [He Hreq] Ho Hroom Hbytes.
  destruct (load_inode_via (requested fuel d b (A / 512) ks F s e) fuel d b x m T F s e v hp G inode)
    as (p & q & s1 & e1 & hp1 & E1 & Hq & Hload & _ & _ & _ & Hfree); try done; [|by exists p, q, s1, e1, hp1].
  intros e0 He0 Hc0. destruct (Hreq e0 He0 Hc0) as (p & s1 & e1 & E1 & Hr). pose proof Hr as (h & _ & _ & Hp & Hd & _).
  by exists p, s1, e1, h.
Qed.

Lemma direct_block_length l : length (direct_block (decode_inode l)) = 12%nat.
Proof using.
  unfold decode_inode, inode_of_fields. cbn [direct_block]. by rewrite length_take, length_drop, get_fields_length.
Qed.

(** A file whose inode and super block are in the tables. *)
Record open_file (v : vfs) (filep : file) (i : Vfs.inode) (d : Z) : Prop := {
  of_inode : inodes v !! f_inode filep = Some i;
  of_dev : u16 (i_dev i) = d;
  of_super : ∃ sb t, super_blocks v !! i_sb i = Some sb ∧ fs_types v !! sb_fs_type sb = Some t }.

Lemma land_odd fl : Z.land fl 1 = Z.b2z (Z.odd fl).
Proof using. change 1 with (Z.ones 1) at 1. rewrite Z.land_ones by lia. change (2 ^ 1) with 2. by rewrite Zmod_odd; destruct (Z.odd fl). Qed.
Lemma not_regular_odd fl : not_regular fl = Z.odd fl.
Proof using. unfold not_regular. change (b2z (negb (0xF000 =? TYPE_REG_FILE))) with 1. rewrite land_odd. by destruct (Z.odd fl). Qed.
Lemma not_regular_flags fl : Z.land fl 1 = 0 → not_regular fl = false.
Proof using. unfold not_regular. change (b2z (negb (0xF000 =? TYPE_REG_FILE))) with 1. by intros ->. Qed.

Section reading.
Context (fuel : nat) (d : Z) (b : bdev) (x : ext2) (m : Z) (T : list Z) (Hx : well_formed x m).
Context (v : vfs) (filep : file) (i : Vfs.inode) (Hfile : open_file v filep i d).
Context (hp : H2) (G : gmap Z Z) (Hown : mm_owns hp G) (Hroom : has_room hp SIZEOF_INODE).
Let A := inode_at x T (i_no i).
Context (e : E) (Hbytes : Forall is_byte (inode_bytes e b A)).
Let D := decode_inode (inode_bytes e b A).
Context (Hvalid : valid_inode x T (i_no i)).

(** Up to the transfer, when bit 0 of the flags is clear. *)
Lemma ext2_read_start n count off ks F s :
  u32 (off + count) < i_size i → Z.land (i_flags i) 1 = 0 → Z.land (type_permissions D) TYPE_REG_FILE ≠ 0 →
  table_held x T F s → requestable fuel d b (A / 512) ks F s e → (S (length ks) < length F)%nat →
  ∃ s' e' F' p hp1 hp2, content e' = content e ∧ table_held x T F' s' ∧ ready fuel d b ks F' s' e' ∧
    (length ks < length F')%nat ∧ mm_free p hp1 = Ok tt hp2 ∧ mm_owns hp2 G ∧
    ext2_read n fuel filep count off (mkWorld x v hp (s, e)) =
      (let* (ok, t) := read_loop n fuel x (direct_block D) d (mkTransfer (off / BLOCK_SIZE) (off mod BLOCK_SIZE) off 0 count []) in
       if negb ok then ret (-1, t_off t, t_bytes t) else
       on_heap (mm_free p) ;;; ret (s32 (t_done t), t_off t, t_bytes t)) (mkWorld x v hp1 (s', e')).
Proof using All.
  intros Hsize Hfl Htype Ht Hr HF. destruct Hfile as [Hi Hd (sb & t & Hsb & Hty)].
  unfold ext2_read. pose proof (proj1 Hr) as He. skip_print e1 He1 Hc1.
  rewrite (bind_ok _ _ _ i (mkWorld x v hp (s, e1))) by (apply on_vfs_ok; unfold ld_inode; by rewrite Hi). cbv zeta.
  rewrite (bind_ok _ _ _ _ _ (right_filesystem i sb t x v hp (s, e1) Hsb Hty)).
  rewrite (proj2 (Z.leb_gt _ _) Hsize), (not_regular_flags _ Hfl), Hd.
  assert (inode_bytes e1 b A = inode_bytes e b A) as Hib by (unfold inode_bytes; by rewrite Hc1).
  destruct (load_inode_requested fuel d b x m T ks F s e1 v hp G (i_no i)) as
    (p & q & s2 & e2 & hp1 & E2 & (h & s3 & F3 & _ & _ & Hcg & E3 & Hr3 & HF3 & Hk3 & _) & Hload & hp2 & Hfree & Hown2); try done.
  { by apply (requestable_env _ _ _ _ _ _ _ e). }
  { fold A. by rewrite Hib. }
  fold A in E2, Hload. rewrite Hib in E2, Hload. fold D in E2.
  rewrite (bind_ok _ _ _ _ _ E2).
  rewrite (bind_ok _ _ _ _ _ (on_disk_ok _ x v hp1 _ _ _ (on_cache_ok _ _ e2 _ _ E3))).
  rewrite (bind_ok _ _ _ _ _ (on_heap_ok _ x v hp1 (s3, e2) _ _ Hload)).
  pose proof (rd_env _ _ _ _ _ _ _ Hr3) as He2. skip_print e3 He3 Hc3.
  assert (truth (Z.land (type_permissions D) TYPE_REG_FILE) = true) as -> by (unfold truth; by rewrite (proj2 (Z.eqb_neq _ _) Htype)).
  cbn [negb]. rewrite bind_ext2.
  exists s3, e3, F3, p, hp1, hp2. split; [congruence|]. split; [by eapply table_kept|].
  split; [by apply (ready_env _ _ _ _ _ _ e2)|]. split; [lia|]. done.
Qed.

(** The first turn of the loop over the blocks. *)
Lemma read_loop_first count off blk :
  0 ≤ off → 0 < count → off mod 512 + count ≤ 512 → off + count < 2147483648 → off / 512 < 12 →
  direct_block D !! Z.to_nat (off / 512) = Some blk → blk ≠ 0 →
  ∀ n s1 e1 F1 hp1, content e1 = content e → table_held x T F1 s1 →
    ready fuel d b [block_sector x blk 0] F1 s1 e1 → (1 < length F1)%nat →
    ∃ s2 e2 F2, read_loop (S n) fuel x (direct_block D) d (mkTransfer (off / BLOCK_SIZE) (off mod BLOCK_SIZE) off 0 count [])
        (mkWorld x v hp1 (s1, e1)) =
      read_loop n fuel x (direct_block D) d (mkTransfer (off / 512 + 1) 0 (off + count) count 0
        (take (Z.to_nat count) (drop (Z.to_nat (off mod 512)) (content e (location b (block_sector x blk 0))))))
        (mkWorld x v hp1 (s2, e2)) ∧
      content e2 = content e ∧ table_held x T F2 s2 ∧ ready fuel d b [] F2 s2 e2.
Proof using All.
  intros Hoff Hcount Hin Hmax Hi12 Hblk Hnz.
  assert (0 ≤ off / 512) as Hi0 by (apply Z.div_pos; lia).
  destruct (block_sectors x m Hx) as [todo Htodo].
  intros n' s1 e1 F1 hp1 Hc1 Ht1 Hr1 HF1. cbn [read_loop t_i]. change BLOCK_SIZE with 512 in *.
  rewrite (proj2 (Z.ltb_lt _ _) Hi12). unfold nth_block. rewrite Hblk. cbn [of_option].
  rewrite (bind_ok _ _ _ (blk =? 0) (mkWorld x v hp1 (s1, e1))), (proj2 (Z.eqb_neq _ _) Hnz) by done.
  rewrite Htodo. destruct (read_sector_ok fuel d b [] F1 s1 e1 x v hp1 (direct_block D) todo 0
    (mkTransfer (off / 512) (off mod 512) off 0 count []) blk) as (s2 & e2 & F2 & E2 & Hc2 & Hr2 & _ & Hk2);
    try (cbn; word_lia); try done.
  rewrite (bind_ok _ _ _ _ _ E2). cbn [t_i t_off t_done t_count t_bytes t_offset].
  exists s2, e2, F2. rewrite !u32_small by word_lia. rewrite Z.add_0_l, Hc1. split; [done|].
  split; [congruence|]. split; [by eapply table_kept|done].
Qed.

(** The exits that do not get to the transfer. *)
Lemma ext2_read_refused n count off F s :
  ready fuel d b [A / 512] F s e → i_size i ≤ u32 (off + count) ∨ Z.odd (i_flags i) = true →
  ∃ e', content e' = content e ∧
    ext2_read n fuel filep count off (mkWorld x v hp (s, e)) = Ok (-1, off, []) (mkWorld x v hp (s, e')).
Proof using All.
  intros Hr Hor. destruct Hfile as [Hi Hd (sb & t & Hsb & Hty)].
  unfold ext2_read. pose proof (rd_env _ _ _ _ _ _ _ Hr) as He. skip_print e1 He1 Hc1. exists e1. split; [done|].
  rewrite (bind_ok _ _ _ i (mkWorld x v hp (s, e1))) by (apply on_vfs_ok; unfold ld_inode; by rewrite Hi). cbv zeta.
  rewrite (bind_ok _ _ _ _ _ (right_filesystem i sb t x v hp (s, e1) Hsb Hty)), not_regular_odd.
  destruct Hor as [Hsize| ->]; [by rewrite (proj2 (Z.leb_le _ _) Hsize)|by destruct (_ <=? _)].
Qed.
Lemma ext2_read_leaks n count off F s :
  u32 (off + count) < i_size i → Z.land (i_flags i) 1 = 0 → Z.land (type_permissions D) TYPE_REG_FILE = 0 →
  table_held x T F s → ready fuel d b [A / 512] F s e → (1 < length F)%nat → ∃ p s' e' F' hp',
    ext2_read n fuel filep count off (mkWorld x v hp (s, e)) = Ok (-1, off, []) (mkWorld x v hp' (s', e')) ∧
    content e' = content e ∧ ready fuel d b [] F' s' e' ∧
    G !! p = None ∧ mm_owns hp' (<[p := Z.of_nat SIZEOF_INODE]> G).
Proof using All.
  intros Hsize Hfl Htype Ht Hr HF. destruct Hfile as [Hi Hd (sb & t & Hsb & Hty)].
  unfold ext2_read. pose proof (rd_env _ _ _ _ _ _ _ Hr) as He. skip_print e1 He1 Hc1.
  rewrite (bind_ok _ _ _ i (mkWorld x v hp (s, e1))) by (apply on_vfs_ok; unfold ld_inode; by rewrite Hi). cbv zeta.
  rewrite (bind_ok _ _ _ _ _ (right_filesystem i sb t x v hp (s, e1) Hsb Hty)).
  rewrite (proj2 (Z.leb_gt _ _) Hsize), (not_regular_flags _ Hfl), Hd.
  assert (inode_bytes e1 b A = inode_bytes e b A) as Hib by (unfold inode_bytes; by rewrite Hc1).
  destruct (load_inode_ok fuel d b x m T [] F s e1 v hp G (i_no i)) as
    (p & q & s2 & e2 & h & F2 & hp1 & E2 & Hg & Hload & Hown1 & Hp & _); try done.
  { by apply (ready_env _ _ _ _ _ _ e). }
  { simpl. lia. }
  { fold A. by rewrite Hib. }
  fold A in E2, Hg, Hload. rewrite Hib in E2, Hload. fold D in E2. rewrite (bind_ok _ _ _ _ _ E2).
  destruct (got_put _ _ _ _ _ _ _ _ _ _ _ _ _ Hg) as (s3 & F3 & E3 & Hr3 & HF3 & Hk3 & _).
  { apply (got_nonempty _ _ _ _ _ _ _ _ _ _ _ _ _ Hg). lia. }
  rewrite (bind_ok _ _ _ _ _ (on_disk_ok _ x v hp1 _ _ _ (on_cache_ok _ _ e2 _ _ E3))).
  rewrite (bind_ok _ _ _ _ _ (on_heap_ok _ x v hp1 (s3, e2) _ _ Hload)).
  pose proof (rd_env _ _ _ _ _ _ _ Hr3) as He2. skip_print e3 He3 Hc3. rewrite Htype. cbn [truth Z.eqb negb].
  destruct Hg as [_ _ _ _ Hcg _ _ _ _ _ _ _ _].
  exists p, s3, e3, F3, hp1. split; [done|]. split; [congruence|]. by split; [apply (ready_env _ _ _ _ _ _ e2)|].
Qed.

Lemma ext2_read_sector_spec n count off F s blk :
  0 ≤ off → 0 < count → off mod 512 + count ≤ 512 → off + count < i_size i → i_size i < 2147483648 →
  Z.land (i_flags i) 1 = 0 → Z.land (type_permissions D) TYPE_REG_FILE ≠ 0 →
  off / 512 < 12 → direct_block D !! Z.to_nat (off / 512) = Some blk → blk ≠ 0 →
  table_held x T F s → requestable fuel d b (A / 512) [block_sector x blk 0] F s e → (2 < length F)%nat →
  if decide (off / 512 = 11 ∨ direct_block D !! Z.to_nat (off / 512 + 1) = Some 0)
  then ∃ s' e' F' hp', ext2_read (S (S n)) fuel filep count off (mkWorld x v hp (s, e)) =
      Ok (count, off + count,
        take (Z.to_nat count) (drop (Z.to_nat (off mod 512)) (content e (location b (block_sector x blk 0)))))
        (mkWorld x v hp' (s', e')) ∧
    content e' = content e ∧ mm_owns hp' G ∧ table_held x T F' s' ∧ ready fuel d b [] F' s' e'
  else ext2_read n fuel filep count off (mkWorld x v hp (s, e)) = Timeout.
Proof using All.
  intros Hoff Hcount Hin Hsize Hmax Hfl Htype Hi12 Hblk Hnz Ht Hr HF.
  assert (u32 (off + count) < i_size i) as Hsz by (rewrite u32_small by lia; done).
  assert (0 ≤ off / 512) as Hi0 by (apply Z.div_pos; lia).
  pose proof (read_loop_first count off blk Hoff Hcount Hin ltac:(lia) Hi12 Hblk Hnz) as Hfirst.
  destruct (decide (off / 512 = 11 ∨ direct_block D !! Z.to_nat (off / 512 + 1) = Some 0)) as [Hend|Hgo].
  - destruct (ext2_read_start (S (S n)) count off [block_sector x blk 0] F s Hsz Hfl Htype Ht Hr HF)
      as (s1 & e1 & F1 & p & hp1 & hp2 & Hc1 & Ht1 & Hr1 & HF1 & Hfree & Hown2 & ->).
    destruct (Hfirst (S n) s1 e1 F1 hp1 Hc1 Ht1 Hr1 HF1) as (s2 & e2 & F2 & E2 & Hc2 & Ht2 & Hr2).
    exists s2, e2, F2, hp2. split; [|done]. unfold bind at 1. rewrite E2. cbn [read_loop t_i].
    assert ((if off / 512 + 1 <? 12 then let* b0 := nth_block (direct_block D) (off / 512 + 1) in ret (b0 =? 0) else ret true)
      (mkWorld x v hp1 (s2, e2)) = Ok true (mkWorld x v hp1 (s2, e2))) as E3.
    { destruct (Z.ltb_spec (off / 512 + 1) 12); [|done]. destruct Hend as [|Hz]; [lia|]. unfold nth_block. by rewrite Hz. }
    rewrite (bind_ok _ _ _ _ _ E3). cbn [negb ret t_off t_done t_bytes]. unfold ret.
    rewrite (bind_ok _ _ _ _ _ (on_heap_ok _ x v hp1 (s2, e2) _ _ Hfree)). do 4 f_equal. word_lia.
  - destruct (lookup_lt_is_Some_2 (direct_block D) (Z.to_nat (off / 512 + 1))) as [nb Hnb].
    { assert (length (direct_block D) = 12%nat) as -> by apply direct_block_length. assert (off / 512 ≠ 11) by tauto. lia. }
    destruct (ext2_read_start n count off [block_sector x blk 0] F s Hsz Hfl Htype Ht Hr HF)
      as (s1 & e1 & F1 & p & hp1 & hp2 & Hc1 & Ht1 & Hr1 & HF1 & Hfree & Hown2 & ->).
    destruct n as [|n]; [done|]. destruct (Hfirst n s1 e1 F1 hp1 Hc1 Ht1 Hr1 HF1) as (s2 & e2 & F2 & E2 & _).
    unfold bind at 1. rewrite E2, (read_loop_spins _ _ _ _ _ _ nb); [done|done|..]; cbn [t_i].
    + assert (off / 512 ≠ 11) by tauto. lia.
    + done.
    + intros ->. tauto.
Qed.

(** C12. A read within one sector, of a file that has a block at the sector's index: the
    bytes come from the first sector of that block (the index counts sectors of 512
    bytes, the array blocks), and the function returns only if the list of blocks ends
    there; with another block it never returns. The read ends before the file does, bit 0 of
    the inode's flags is clear, and the file is regular on the disk: C37 has the rest. *)
Theorem ext2_read_sector n count off F s blk :
  0 ≤ off → 0 < count → off mod 512 + count ≤ 512 → off + count < i_size i → i_size i < 2147483648 →
  Z.land (i_flags i) 1 = 0 → Z.land (type_permissions D) TYPE_REG_FILE ≠ 0 →
  off / 512 < 12 → direct_block D !! Z.to_nat (off / 512) = Some blk → blk ≠ 0 →
  table_held x T F s → ready fuel d b [A / 512; block_sector x blk 0] F s e → (2 < length F)%nat →
  if decide (off / 512 = 11 ∨ direct_block D !! Z.to_nat (off / 512 + 1) = Some 0)
  then ∃ s' e' F' hp', ext2_read (S (S n)) fuel filep count off (mkWorld x v hp (s, e)) =
      Ok (count, off + count,
        take (Z.to_nat count) (drop (Z.to_nat (off mod 512)) (content e (location b (block_sector x blk 0)))))
        (mkWorld x v hp' (s', e')) ∧
    content e' = content e ∧ mm_owns hp' G ∧ table_held x T F' s' ∧ ready fuel d b [] F' s' e'
  else ext2_read n fuel filep count off (mkWorld x v hp (s, e)) = Timeout.
Proof using All.
  intros Hoff Hcount Hin Hsize Hmax Hfl Htype Hi12 Hblk Hnz Ht Hr HF. apply (ext2_read_sector_spec n count off F s blk); try done.
  by apply ready_requestable.
Qed.

(** C37. Every exit of [ext2_read] for a file of ext2. It returns -1 and has done nothing but
    print for a read up to the end of the file or beyond, which also rules out reading the
    whole file, and for flags with bit 0 set: the comparison of line 284 is made first, so
    that not the type is tested but that bit. It returns -1 after 128 bytes have been
    allocated that nobody frees for an inode that is not a regular file on disk. For any
    other file it does not return -1: if it returns, the result is a number of bytes up to
    [count], by which the offset advanced; the exit for a missing buffer (line 315) is never
    taken, since [get_block] dereferences the pointer it returns. *)
Theorem ext2_read_errors n count off F s :
  table_held x T F s → ready fuel d b [A / 512] F s e → (1 < length F)%nat →
  if (i_size i <=? u32 (off + count)) || Z.odd (i_flags i)
  then ∃ e', content e' = content e ∧
    ext2_read n fuel filep count off (mkWorld x v hp (s, e)) = Ok (-1, off, []) (mkWorld x v hp (s, e'))
  else if Z.land (type_permissions D) TYPE_REG_FILE =? 0
  then ∃ p s' e' F' hp',
    ext2_read n fuel filep count off (mkWorld x v hp (s, e)) = Ok (-1, off, []) (mkWorld x v hp' (s', e')) ∧
    content e' = content e ∧ ready fuel d b [] F' s' e' ∧
    G !! p = None ∧ mm_owns hp' (<[p := Z.of_nat SIZEOF_INODE]> G)
  else 0 ≤ off < 4294967296 → 0 ≤ count < 2147483648 → ∀ r off' bytes w,
    ext2_read n fuel filep count off (mkWorld x v hp (s, e)) = Ok (r, off', bytes) w → 0 ≤ r ≤ count ∧ off' = u32 (off + r).
Proof using All.
  intros Ht Hr HF. destruct (Z.leb_spec (i_size i) (u32 (off + count))) as [Hsize|Hsize]; cbn [orb].
  { by apply (ext2_read_refused n count off F s); [|left]. }
  destruct (Z.odd (i_flags i)) eqn:Hodd; [by apply (ext2_read_refused n count off F s); [|right]|].
  assert (Z.land (i_flags i) 1 = 0) as Hfl by (rewrite land_odd, Hodd; done).
  destruct (Z.eqb_spec (Z.land (type_permissions D) TYPE_REG_FILE) 0) as [Htype|Htype]; [by eapply ext2_read_leaks|].
  intros Hoff Hcount r off' bytes w E1.
  destruct (ext2_read_start n count off [] F s Hsize Hfl Htype Ht (ready_requestable _ _ _ _ _ _ _ _ Hr HF) HF)
    as (s1 & e1 & F1 & p & hp1 & hp2 & _ & _ & Hr1 & _ & _ & _ & E2).
  rewrite E2 in E1. apply bind_inv_ok in E1 as ([ok t] & w1 & E3 & E1).
  apply (read_loop_transfers _ _ _ _ off count) in E3 as (-> & T1 & T2 & T3 & T4); [|..|].
  - cbn [negb] in E1. apply bind_inv_ok in E1 as ([] & w2 & _ & [= <- <- _ _]).
    unfold s32. rewrite T4. split; [|f_equal]; word_lia.
  - apply not_elem_of_dom. apply (cl_null _ _ _ _ _ (rd_clean _ _ _ _ _ _ _ Hr1)).
  - lia.
  - unfold transferred. cbn [t_done t_count t_off]. rewrite Z.add_0_r, u32_small; lia.
Qed.
End reading.
End files.
