(* ===== verification/Ext2Write.v ===== *)
(** * ext2: writing files

    [ext2_write] of [Ext2.v]: what reaches the buffer cache, what does not reach the
    disk, and where the loop over the blocks stops. *)

From S2P Require Import Prelude Memory Common Io Ata Buffer Requests Alloc Vfs Ext2Format Ext2 Ext2Inode Ext2File.

Section files.
Context `{BlockDevice E} `{Allocator H2} `{Ext2Layout}.
Implicit Types (hp : H2) (w : world (E := E) (H2 := H2)).

(** The sector with [src] written over it from [off] on. *)
Definition spliced (off : Z) (src l : list Z) : list Z :=
  take (Z.to_nat off) l ++ src ++ drop (Z.to_nat (off + length src)) l.

Lemma write_stops fuel x blocks d todo k t w : t_count t = 0 → write_block_loop fuel x blocks d todo k t w = Ok (true, t) w.
Proof using. intros Ht. destruct todo as [|todo]; [done|]. cbn [write_block_loop]. by rewrite Ht. Qed.

(** A buffer that holds sector [k] with data [l]. *)
Definition cached (s : cache) (p d k : Z) (dt : bool) (l : list Z) : Prop :=
  ∃ h, buffers s !! p = Some h ∧ payload h = (k, d, dt, l).
Lemma cached_same s s' p d k dt l : same_payload s s' → cached s p d k dt l → cached s' p d k dt l.
Proof using. intros Hs (h & Hp & Hl). destruct (payload_lookup s s' p h Hs Hp) as (h' & Hp' & E1). exists h'. split; [done|congruence]. Qed.

(** Every buffer but [p] keeps its block and data. *)
Definition untouched (p : Z) (s s' : cache) : Prop :=
  ∀ q d k dt l, q ≠ p → cached s q d k dt l → cached s' q d k dt l.
#[local] Instance untouched_preorder p : PreOrder (untouched p).
Proof using. split; [by intros s q|]. intros s1 s2 s3 A1 A2 q d k dt l Hq Hc. by apply A2, A1. Qed.
(** The ends of the free list are buffers. *)
Definition ends (s : cache) : Prop := is_Some (buffers s !! lru_buff s) ∧ is_Some (buffers s !! mru_buff s).

Lemma upd_cached f p h s :
  buffers s !! p = Some h → (∀ h, block_num (f h) = block_num h ∧ dev (f h) = dev h ∧ next (f h) = next h) → ends s →
  ∃ s', upd_buffer p f s = Ok tt s' ∧ buffers s' !! p = Some (f h) ∧ untouched p s s' ∧ ends s'.
Proof using.
  intros Hp Hf [Hl Hm]. destruct (upd_view p f h s Hp Hf) as (s1 & E1 & V1 & L1 & M1 & B1).
  exists s1. split; [done|]. split; [by rewrite B1, decide_True|]. split.
  - intros q d k dt l Hne (h' & Hq & Hl'). exists h'. by rewrite B1, decide_False.
  - split; [rewrite L1|rewrite M1]; by apply (view_some s).
Qed.
Lemma put_cached p h s :
  buffers s !! p = Some h → ends s →
  ∃ s', put_block p s = Ok tt s' ∧ cached s' p (dev h) (block_num h) (dirty h) (buff h) ∧ untouched p s s' ∧ ends s'.
Proof using.
  intros Hp [Hl Hm]. destruct (put_any p _ s Hp Hl Hm) as (s2 & _ & E2 & P2 & _ & _ & _ & _ & _ & Hlm).
  exists s2. split; [done|]. split; [|split; [|done]].
  - apply (cached_same s); [done|]. by exists h.
  - intros q d k dt l _. by apply cached_same.
Qed.

(** Marking a held buffer dirty and giving it back; the same with a store before. *)
Lemma mark_and_put p h s :
  buffers s !! p = Some h → ends s →
  ∃ s', (upd_buffer p (set_dirty true) ;;; put_block p) s = Ok tt s' ∧
    cached s' p (dev h) (block_num h) true (buff h) ∧ untouched p s s' ∧ ends s'.
Proof using.
  intros Hp Hs. destruct (upd_cached (set_dirty true) p h s Hp ltac:(done) Hs) as (s1 & E1 & Hp1 & U1 & Hs1).
  destruct (put_cached p _ s1 Hp1 Hs1) as (s2 & E2 & Hc & U2 & Hs2).
  exists s2. rewrite (bind_ok _ _ _ _ _ E1). split; [done|]. split; [done|]. split; [by etrans|done].
Qed.
Lemma store_and_put f p h s :
  buffers s !! p = Some h → (∀ h, block_num (f h) = block_num h ∧ dev (f h) = dev h ∧ next (f h) = next h) → ends s →
  ∃ s', (upd_buffer p f ;;; upd_buffer p (set_dirty true) ;;; put_block p) s = Ok tt s' ∧
    cached s' p (dev h) (block_num h) true (buff (f h)) ∧ untouched p s s' ∧ ends s'.
Proof using.
  intros Hp Hf Hs. destruct (upd_cached f p h s Hp Hf Hs) as (s1 & E1 & Hp1 & U1 & Hs1).
  destruct (mark_and_put p _ s1 Hp1 Hs1) as (s2 & E2 & Hc & U2 & Hs2). destruct (Hf h) as (Hb & Hd & _). rewrite Hb, Hd in Hc.
  exists s2. rewrite (bind_ok _ _ _ _ _ E1). split; [done|]. split; [done|]. split; [by etrans|done].
Qed.
Lemma ready_ends fuel d b ks F s (e : E) : ready fuel d b ks F s e → F ≠ [] → ends s.
Proof using.
  intros Hr HF. split; [apply (free_path_head s F); [apply (rd_free _ _ _ _ _ _ _ Hr)|done]|apply (rd_mru _ _ _ _ _ _ _ Hr)].
Qed.

(** One sector: its buffer gets the bytes and is marked dirty; the disk and the buffers
    somebody holds for other sectors stay as they are. *)
Lemma write_sector_ok fuel d b F s e x v hp blocks todo k t blk :
  let K := block_sector x blk k in
  0 < t_count t ≤ 512 → 0 ≤ t_offset t → t_offset t + t_count t ≤ 512 → t_count t = length (t_bytes t) →
  blocks !! Z.to_nat (t_i t) = Some blk → ready fuel d b [K] F s e → (1 < length F)%nat →
  ∃ p s' e', write_block_loop fuel x blocks d (S todo) k t (mkWorld x v hp (s, e)) =
      Ok (true, mkTransfer (u32 (t_i t + 1)) 0 (u32 (t_off t + t_count t)) (u32 (t_done t + t_count t)) 0 [])
        (mkWorld x v hp (s', e')) ∧
    content e' = content e ∧ env_wf e' ∧
    cached s' p d K true (spliced (t_offset t) (t_bytes t) (content e (location b K))) ∧
    (∀ q h, q ∉ F → buffers s !! q = Some h → block_num h ≠ K → cached s' q (dev h) (block_num h) false (buff h)) ∧
    ends s'.
Proof using.
  intros K Hc Ho Hoc Hlen Hblk Hr HF. cbn [write_block_loop].
  rewrite (proj2 (Z.ltb_lt _ _)) by lia. cbn [negb]. unfold nth_block at 1. rewrite Hblk. cbn [of_option]. rewrite bind_ret_l.
  fold (block_sector x blk k). fold K.
  destruct (ready_got fuel d b _ [] F s e Hr) as (p & s1 & e1 & h & F1 & E1 & Hg); [cbn [length]; lia|].
  rewrite (bind_ok _ _ _ _ _ (on_disk_ok _ x v hp _ _ _ E1)).
  rewrite (proj2 (Z.eqb_neq _ _) (got_nonnull _ _ _ _ _ _ _ _ _ _ _ _ _ Hg)). cbv zeta. unfold BLOCK_SIZE.
  assert ((if t_count t <? 512 then t_count t else 512) = t_count t) as ->.
  { destruct (Z.ltb_spec (t_count t) 512); lia. }
  pose proof (got_nonempty _ _ _ _ _ _ _ _ _ _ _ _ _ Hg HF) as HF1.
  pose proof Hg as [Hp Hbn Hdv Hd Hcont Hr1 _ HpF _ Hk _ _ _].
  rewrite (bind_ok _ _ _ _ _ (data_of_ok _ _ x v hp s1 e1 Hp)).
  rewrite (bind_ok _ _ _ _ _ (slice_ok _ _ (t_count t) _ Hoc)).
  rewrite bind_check by (apply bool_decide_eq_true_2; lia).
  pose proof (rd_env _ _ _ _ _ _ _ Hr1) as He1. skip_print e2 He2 Hc2.
  rewrite firstn_all2 by lia. rewrite skipn_all2 by lia.
  set (f := λ h, set_buff _ h).
  destruct (store_and_put f p h s1 Hp ltac:(done) (ready_ends _ _ _ _ _ _ _ Hr1 HF1)) as (s2 & E2 & Hpay & Hoth & Hs2).
  rewrite (bind_ok _ _ _ _ _ (on_disk_ok _ x v hp _ _ _ (on_cache_ok _ _ e2 _ _ E2))).
  rewrite Z.sub_diag. change (u32 0) with 0. rewrite write_stops by done.
  exists p, s2, e2. split; [done|]. split; [congruence|]. split; [done|]. split; [|split; [|done]].
  - rewrite Hbn, Hdv in Hpay. unfold f in Hpay. simpl in Hpay. rewrite Hd, Hlen in Hpay. exact Hpay.
  - intros q h0 HqF Hq Hne. destruct (proj2 Hk q h0 HqF Hq) as (_ & h1 & Hq1 & B1 & D1 & U1 & _).
    apply Hoth; [intros ->; congruence|]. exists h1. split; [done|]. unfold payload.
    rewrite (cl_clean _ _ _ _ _ (rd_clean _ _ _ _ _ _ _ Hr1) _ _ Hq1). congruence.
Qed.

(** With nothing left to write and a block at the index the outer loop goes round. *)
Lemma write_loop_spins n fuel x blocks d t blk w :
  t_count t = 0 → blocks !! Z.to_nat (t_i t) = Some blk → blk ≠ 0 → write_loop n fuel x blocks d t w = Timeout.
Proof using.
  intros Ht Hblk Hz. induction n as [|n IH]; [done|]. cbn [write_loop]. unfold nth_block. rewrite Hblk. cbn [of_option].
  rewrite bind_ret_l, (proj2 (Z.eqb_neq _ _) Hz). by rewrite (bind_ok _ _ _ _ _ (write_stops _ _ _ _ _ _ _ w Ht)).
Qed.

Section writing.
Context (fuel : nat) (d : Z) (b : bdev) (x : ext2) (m : Z) (T : list Z) (Hx : well_formed x m).
Context (v : vfs) (filep : file) (i : Vfs.inode) (Hfile : open_file v filep i d).
Context (hp : H2) (G : gmap Z Z) (Hown : mm_owns hp G) (Hroom : has_room hp SIZEOF_INODE).
Let A := inode_at x T (i_no i).
Context (e : E) (Hbytes : Forall is_byte (inode_bytes e b A)).
Let D := decode_inode (inode_bytes e b A).
Context (Hvalid : valid_inode x T (i_no i)).

(** Up to the transfer: the inode is in the heap and its sector in a held buffer. *)
Lemma ext2_write_start n src count off ks F s :
  u32 (off + count) < i_size i → Z.land (i_flags i) 1 = 0 → Z.land (type_permissions D) TYPE_REG_FILE ≠ 0 →
  table_held x T F s → ready fuel d b (A / 512 :: ks) F s e → (S (length ks) < length F)%nat →
  ∃ p q s' e' h F' hp1, got fuel d b (A / 512) ks F s e q s' e' h F' ∧
    mm_load SIZEOF_INODE p hp1 = Ok (inode_bytes e b A) hp1 ∧ mm_owns hp1 (<[p := Z.of_nat SIZEOF_INODE]> G) ∧ G !! p = None ∧
    ext2_write n fuel filep src count off (mkWorld x v hp (s, e)) =
      (let* t := write_loop n fuel x (direct_block D) d (mkTransfer (off / BLOCK_SIZE) (off mod BLOCK_SIZE) off 0 count src) in
       store_size p (t_done t) ;;;
       on_disk (on_cache (upd_buffer q (set_dirty true) ;;; put_block q)) ;;;
       on_heap (mm_free p) ;;; ret (s32 (t_done t), t_off t)) (mkWorld x v hp1 (s', e')).
Proof using All.
  intros Hsize Hfl Htype Ht Hr HF. destruct Hfile as [Hi Hd (sb & t & Hsb & Hty)].
  unfold ext2_write. pose proof (rd_env _ _ _ _ _ _ _ Hr) as He. skip_print e1 He1 Hc1.
  rewrite (bind_ok _ _ _ i (mkWorld x v hp (s, e1))) by (apply on_vfs_ok; unfold ld_inode; by rewrite Hi). cbv zeta.
  rewrite (bind_ok _ _ _ _ _ (right_filesystem i sb t x v hp (s, e1) Hsb Hty)).
  rewrite (proj2 (Z.leb_gt _ _) Hsize), (not_regular_flags _ Hfl), Hd.
  assert (inode_bytes e1 b A = inode_bytes e b A) as Hib by (unfold inode_bytes; by rewrite Hc1).
  destruct (load_inode_ok fuel d b x m T ks F s e1 v hp G (i_no i)) as
    (p & q & s2 & e2 & h & F2 & hp1 & E2 & Hg & Hload & Hown1 & Hp & _); try done.
  { by apply (ready_env _ _ _ _ _ _ e). }
  { lia. }
  { fold A. by rewrite Hib. }
  fold A in E2, Hg, Hload. rewrite Hib in E2, Hload. fold D in E2. rewrite (bind_ok _ _ _ _ _ E2).
  assert (truth (Z.land (type_permissions D) TYPE_REG_FILE) = true) as -> by (unfold truth; by rewrite (proj2 (Z.eqb_neq _ _) Htype)).
  cbn [negb]. rewrite bind_ext2. exists p, q, s2, e2, h, F2, hp1.
  split; [|done]. destruct Hg. constructor; done || congruence.
Qed.
(** The size stored to the inode in the heap. *)
Lemma store_size_ok p n (wrote : Z) hp1 (t : cache * E) :
  mm_load SIZEOF_INODE p hp1 = Ok (inode_bytes e b A) hp1 → mm_owns hp1 (<[p := n]> G) → n = Z.of_nat SIZEOF_INODE →
  ∃ hp2, store_size p wrote (mkWorld x v hp1 t) = Ok tt (mkWorld x v hp2 t) ∧ mm_owns hp2 (<[p := n]> G).
Proof using All.
  intros Hload Hown1 ->.
  assert (length (inode_bytes e b A) = SIZEOF_INODE) as Hl by (by apply (inode_bytes_length x m T)).
  destruct (mm_store_ok hp1 _ SIZEOF_INODE p (take 4 (inode_bytes e b A) ++ le_bytes 4 wrote ++ drop 8 (inode_bytes e b A)) Hown1)
    as (hp2 & E2 & Hown2 & _).
  - apply lookup_insert_eq.
  - rewrite !length_app, length_take, length_drop, le_bytes_length, Hl. done.
  - repeat apply Forall_app_2; [by apply Forall_take|apply le_bytes_bytes|by apply Forall_drop].
  - exists hp2. split; [|done]. unfold store_size. rewrite (bind_ok _ _ _ _ _ (on_heap_ok _ x v hp1 t _ _ Hload)).
    by apply on_heap_ok.
Qed.

(** Up to the second turn of the loop over the blocks. *)
Lemma ext2_write_first n src off F s blk :
  let count := Z.of_nat (length src) in
  let K := block_sector x blk 0 in
  0 ≤ off → 0 < count → off mod 512 + count ≤ 512 → off + count < i_size i → i_size i < 2147483648 →
  Z.land (i_flags i) 1 = 0 → Z.land (type_permissions D) TYPE_REG_FILE ≠ 0 → direct_block D !! Z.to_nat (off / 512) = Some blk → blk ≠ 0 →
  off / 512 < 12 → table_held x T F s → ready fuel d b [A / 512; K] F s e → (2 < length F)%nat →
  ∃ p q s1 e1 h F1 hp1 pk s2 e2, got fuel d b (A / 512) [K] F s e q s1 e1 h F1 ∧
    mm_load SIZEOF_INODE p hp1 = Ok (inode_bytes e b A) hp1 ∧ mm_owns hp1 (<[p := Z.of_nat SIZEOF_INODE]> G) ∧ G !! p = None ∧
    content e2 = content e ∧ cached s2 pk d K true (spliced (off mod 512) src (content e (location b K))) ∧
    cached s2 q d (A / 512) false (content e (location b (A / 512))) ∧ pk ≠ q ∧
    ends s2 ∧
    ext2_write (S n) fuel filep src count off (mkWorld x v hp (s, e)) =
      (let* t := write_loop n fuel x (direct_block D) d (mkTransfer (off / 512 + 1) 0 (off + count) count 0 []) in
       store_size p (t_done t) ;;;
       on_disk (on_cache (upd_buffer q (set_dirty true) ;;; put_block q)) ;;;
       on_heap (mm_free p) ;;; ret (s32 (t_done t), t_off t)) (mkWorld x v hp1 (s2, e2)).
Proof using All.
  intros count K Hoff Hcount Hin Hsize Hmax Hfl Htype Hblk Hnz Hi12 Ht Hr HF.
  assert (u32 (off + count) < i_size i) as Hsz by (rewrite u32_small by lia; done).
  assert (0 ≤ off / 512) as Hi0 by (apply Z.div_pos; lia).
  destruct (block_sectors x m Hx) as [todo Htodo].
  destruct (ext2_write_start (S n) src count off [K] F s Hsz Hfl Htype Ht Hr HF)
    as (p & q & s1 & e1 & h & F1 & hp1 & Hg & Hload & Hown1 & Hp & E1).
  pose proof Hg as [Hq Hbn Hdv Hd Hc1 Hr1 HF1 HqF _ _ _ _ _].
  destruct (write_sector_ok fuel d b F1 s1 e1 x v hp1 (direct_block D) todo 0
    (mkTransfer (off / 512) (off mod 512) off 0 count src) blk) as (pk & s2 & e2 & E2 & Hc2 & _ & Hpk & Hoth & Hs2);
    try (cbn; word_lia); try done.
  assert (A / 512 ≠ K) as HAK.
  { intros Heq. pose proof (rd_buckets _ _ _ _ _ _ _ Hr) as Hnd. rewrite Heq in Hnd. simpl in Hnd.
    apply NoDup_cons_1_1 in Hnd. apply Hnd. left. }
  rewrite Hc1 in Hpk. cbn [t_offset t_bytes] in Hpk. fold K in Hpk.
  assert (cached s2 q d (A / 512) false (content e (location b (A / 512)))) as Hq2.
  { rewrite <-Hbn in HAK. specialize (Hoth q h HqF Hq HAK). by rewrite Hbn, Hdv, Hd in Hoth. }
  exists p, q, s1, e1, h, F1, hp1, pk, s2, e2. split; [done|]. do 3 (split; [done|]). split; [congruence|].
  split; [done|]. split; [done|]. split.
  { intros ->. destruct Hpk as (? & Hk1 & Hk2), Hq2 as (? & Hk3 & Hk4). rewrite Hk1 in Hk3. injection Hk3 as ->. rewrite Hk2 in Hk4. injection Hk4. done. }
  split; [done|]. rewrite E1. unfold bind at 1.
  assert (∀ t w, write_loop (S n) fuel x (direct_block D) d t w = (let* blk := nth_block (direct_block D) (t_i t) in
    if blk =? 0 then ret t else
    let* (ok, t) := write_block_loop fuel x (direct_block D) d (Z.to_nat (block_size x / BLOCK_SIZE)) 0 t in
    if (ok : bool) then write_loop n fuel x (direct_block D) d t else ret t) w) as -> by done.
  change BLOCK_SIZE with 512 in *. unfold nth_block. cbn [t_i]. rewrite Hblk. cbn [of_option]. rewrite bind_ret_l, (proj2 (Z.eqb_neq _ _) Hnz), Htodo.
  rewrite (bind_ok _ _ _ _ _ E2). cbn [t_i t_off t_done t_count t_bytes t_offset]. rewrite !u32_small by word_lia.
  by rewrite Z.add_0_l.
Qed.

(** C13. Writing within one sector of a file that has a block at the sector's index: the
    bytes get to the buffer of the block's first sector, which is marked dirty, and the
    disk does not change yet. The function returns only if the list of blocks ends
    there; with another block it never returns, and at the last block of the inode it
    runs off the array. The size goes to the copy of the inode in the heap: the sector
    of the inode keeps its data, although it is marked dirty, too. *)
Theorem ext2_write_sector n src off F s blk :
  let count := Z.of_nat (length src) in
  let K := block_sector x blk 0 in
  0 ≤ off → 0 < count → off mod 512 + count ≤ 512 → off + count < i_size i → i_size i < 2147483648 →
  Z.land (i_flags i) 1 = 0 → Z.land (type_permissions D) TYPE_REG_FILE ≠ 0 →
  off / 512 < 12 → direct_block D !! Z.to_nat (off / 512) = Some blk → blk ≠ 0 →
  table_held x T F s → ready fuel d b [A / 512; K] F s e → (2 < length F)%nat →
  match direct_block D !! Z.to_nat (off / 512 + 1) with
  | Some 0 => ∃ p q s' e' hp', ext2_write (S (S n)) fuel filep src count off (mkWorld x v hp (s, e)) =
        Ok (count, off + count) (mkWorld x v hp' (s', e')) ∧ content e' = content e ∧ mm_owns hp' G ∧
      cached s' p d K true (spliced (off mod 512) src (content e (location b K))) ∧
      cached s' q d (A / 512) true (content e (location b (A / 512)))
  | Some _ => ext2_write n fuel filep src count off (mkWorld x v hp (s, e)) = Timeout
  | None => ext2_write (S (S n)) fuel filep src count off (mkWorld x v hp (s, e)) = Fault
  end.
Proof using All.
  intros count K Hoff Hcount Hin Hsize Hmax Hfl Htype Hi12 Hblk Hnz Ht Hr HF.
  assert (u32 (off + count) < i_size i) as Hsz by (rewrite u32_small by lia; done).
  assert (0 ≤ off / 512) as Hi0 by (apply Z.div_pos; lia).
  pose proof (λ n, ext2_write_first n src off F s blk Hoff Hcount Hin Hsize Hmax Hfl Htype Hblk Hnz Hi12 Ht Hr HF) as Hfirst.
  cbv zeta in Hfirst. fold count K in Hfirst.
  assert (ext2_write 0 fuel filep src count off (mkWorld x v hp (s, e)) = Timeout) as Hzero.
  { destruct (ext2_write_start 0 src count off [K] F s Hsz Hfl Htype Ht Hr HF) as (? & ? & ? & ? & ? & ? & ? & _ & _ & _ & _ & ->).
    by apply bind_timeout. }
  destruct (direct_block D !! Z.to_nat (off / 512 + 1)) as [[|nb|nb]|] eqn:Hnb.
  - destruct (Hfirst (S n)) as (p & q & s1 & e1 & h & F1 & hp1 & pk & s2 & e2 & Hg & Hload & Hown1 & Hp & Hc & Hpk & Hq & Hne & Hs2 & ->).
    rewrite (bind_ok _ _ _ (mkTransfer (off / 512 + 1) 0 (off + count) count 0 []) (mkWorld x v hp1 (s2, e2))).
    2:{ cbn [write_loop t_i]. unfold nth_block. rewrite Hnb. done. }
    cbn [t_done t_off].
    destruct (store_size_ok p _ count hp1 (s2, e2) Hload Hown1 eq_refl) as (hp2 & E3 & Hown2).
    rewrite (bind_ok _ _ _ _ _ E3).
    destruct Hq as (hq & Hq & Hpay). unfold payload in Hpay. injection Hpay as T1 T2 T3 T4.
    destruct (mark_and_put q hq s2 Hq Hs2) as (s3 & E4 & Hq3 & Hoth & _). rewrite T1, T2, T4 in Hq3.
    rewrite (bind_ok _ _ _ _ _ (on_disk_ok _ x v hp2 _ _ _ (on_cache_ok _ _ e2 _ _ E4))).
    destruct (mm_free_ok hp2 _ SIZEOF_INODE p Hown2 (lookup_insert_eq _ _ _)) as (hp3 & E5 & Hown3).
    rewrite (bind_ok _ _ _ _ _ (on_heap_ok _ x v hp2 (s3, e2) _ _ E5)). rewrite delete_insert_id in Hown3 by done.
    exists pk, q, s3, e2, hp3. split; [|split; [done|split; [done|split; [by apply Hoth|done]]]].
    unfold ret. do 3 f_equal. word_lia.
  - destruct n as [|n]; [by apply Hzero|].
    destruct (Hfirst n) as (p & q & s1 & e1 & h & F1 & hp1 & pk & s2 & e2 & _ & _ & _ & _ & _ & _ & _ & _ & _ & ->).
    apply bind_timeout. by apply (write_loop_spins _ _ _ _ _ _ (Z.pos nb)).
  - destruct n as [|n]; [by apply Hzero|].
    destruct (Hfirst n) as (p & q & s1 & e1 & h & F1 & hp1 & pk & s2 & e2 & _ & _ & _ & _ & _ & _ & _ & _ & _ & ->).
    apply bind_timeout. by apply (write_loop_spins _ _ _ _ _ _ (Z.neg nb)).
  - destruct (Hfirst (S n)) as (p & q & s1 & e1 & h & F1 & hp1 & pk & s2 & e2 & _ & _ & _ & _ & _ & _ & _ & _ & _ & ->).
    apply bind_fault. cbn [write_loop t_i]. apply bind_fault. unfold nth_block. by rewrite Hnb.
Qed.
End writing.

(** ** The size of an inode on the disk *)

(** The block within the inode table that holds the inode, and the sector
    [REAL_INODE_BLOCK] computes: the block is added as if it were a sector. *)
Definition block_in_table (x : ext2) (inode : Z) : Z := BLOCK_OF_INODE x (INODE_INDEX x inode).
Definition wrong_sector (x : ext2) (m A inode : Z) : Z := A / 512 - (m - 1) * block_in_table x inode.
Lemma real_inode_block x m table inode :
  well_formed x m → 0 < inode < 4294967296 → 0 ≤ table → inode_byte x table inode < 512 * 4294967296 →
  u32 (addr_of_sum x table (block_in_table x inode) + block_byte x (INODE_INDEX x inode) / BLOCK_SIZE) =
    wrong_sector x m (inode_byte x table inode) inode.
Proof using.
  intros Hx Hino Ht Hlt. destruct (inode_location x m table inode Hx Hino Ht Hlt) as (_ & _ & _ & HA & Hq & Hr & Hdiv).
  unfold wrong_sector. rewrite Hdiv. unfold addr_of_sum, block_in_table. change BLOCK_SIZE with 512.
  set (q := BLOCK_OF_INODE x _) in *. set (r := block_byte x _ / 512) in *.
  assert (block_size x / 512 = m) as -> by (rewrite (wf_block _ _ Hx), Z.mul_comm; apply Z.div_mul; lia).
  pose proof (wf_blocks _ _ Hx) as Hm.
  assert (q ≤ m * q) as Hmq by (rewrite <-(Z.mul_1_l q) at 1; apply Z.mul_le_mono_nonneg_r; lia).
  assert (0 ≤ m * table) as Hmt by (apply Z.mul_nonneg_nonneg; lia).
  assert (m * (table + q) + r < 4294967296) as Hsm.
  { rewrite <-Hdiv. apply Z.div_lt_upper_bound; lia. }
  rewrite Z.mul_add_distr_l in *. rewrite (u32_small (m * table + q)), u32_small by lia. ring.
Qed.

(** C35. Changing the size of an inode on the disk stores to the right place of the sector
    [(m - 1) * q] before the inode's one, where [m] is the number of sectors of a block
    and [q] the block of the inode table the inode is in: with blocks of more than one
    sector only the inodes of the first block of the table get their size. *)
Theorem change_file_size_sector fuel d b x m T inode size F s e v hp :
  let A := inode_at x T inode in
  let K := wrong_sector x m A inode in
  well_formed x m → valid_inode x T inode → table_held x T F s → ready fuel d b [K] F s e → (1 < length F)%nat →
  (K = A / 512 ↔ m = 1 ∨ block_in_table x inode = 0) ∧
  ∃ p s' e', change_file_size fuel inode size d (mkWorld x v hp (s, e)) = Ok tt (mkWorld x v hp (s', e')) ∧
    content e' = content e ∧
    cached s' p d K true (spliced (A mod 512 + 4) (le_bytes 4 (u32 size)) (content e (location b K))).
Proof using.
  intros A K Hx Hv Ht Hr HF. split; [unfold K, wrong_sector; nia|]. destruct Hv as [Hino Hgrp Htab Hbyte].
  pose proof Hx as [Hb Hm _ _ Hpb Hgr _ _].
  destruct (inode_location x m (table_of_inode x T inode) inode Hx Hino Htab Hbyte) as (_ & Hoff & Hin & _).
  pose proof (real_inode_block x m _ inode Hx Hino Htab Hbyte) as Hsec. fold (inode_at x T inode) in *. fold A in Hoff, Hin, Hsec. fold K in Hsec.
  unfold change_file_size. rewrite bind_ext2.
  rewrite bind_check by (rewrite !andb_true_iff; unfold truth; rewrite !negb_true_iff, !Z.eqb_neq; lia). cbv zeta.
  assert (BG_OF_INODE x inode = (inode - 1) / inodes_per_group x) as -> by (unfold BG_OF_INODE; by rewrite u32_small by lia).
  rewrite (bind_ok _ _ _ _ _ (bgd_entry_ok _ x v hp s e T F Ht Hgrp)). fold (table_of_inode x T inode).
  fold (block_in_table x inode). rewrite Hsec, Hoff.
  destruct (ready_got fuel d b K [] F s e Hr) as (p & s1 & e1 & h & F1 & E1 & Hg); [cbn [length]; lia|].
  rewrite (bind_ok _ _ _ _ _ (on_disk_ok _ x v hp _ _ _ E1)), bind_check by (apply Z.leb_le; unfold BLOCK_SIZE; lia).
  pose proof (got_nonempty _ _ _ _ _ _ _ _ _ _ _ _ _ Hg HF) as HF1.
  pose proof Hg as [Hp Hbn Hdv Hd Hcont Hr1 _ HpF _ Hk _ _ _].
  destruct (upd_cached (set_dirty true) p h s1 Hp ltac:(done) (ready_ends _ _ _ _ _ _ _ Hr1 HF1)) as (s2 & E2 & Hp2 & _ & Hs2).
  set (f := λ h, set_buff _ h).
  destruct (upd_cached f p _ s2 Hp2 ltac:(done) Hs2) as (s3 & E3 & Hp3 & _ & Hs3).
  destruct (put_cached p _ s3 Hp3 Hs3) as (s4 & E4 & Hc4 & _).
  exists p, s4, e1. split; [|split; [done|]].
  - apply on_disk_ok, on_cache_ok. by rewrite (bind_ok _ _ _ _ _ E2), (bind_ok _ _ _ _ _ E3).
  - simpl in Hc4. rewrite Hbn, Hdv, Hd in Hc4. unfold spliced. rewrite le_bytes_length.
    replace (A mod 512 + 4 + 4%nat) with (A mod 512 + 8) by lia. exact Hc4.
Qed.
End files.
