(* ===== verification/Ext2Dir.v ===== *)
(** * ext2: looking up names

    [ext2_lookup] of [Ext2.v]: the entries of a directory's sector, which names are found
    and which lookups never return. *)

From S2P Require Import Prelude Memory Common Io Ata Buffer Requests Alloc Vfs Ext2Format Ext2 Ext2Inode Ext2File.

Section directories.
Context `{BlockDevice E} `{Allocator H2} `{Ext2Layout}.
Implicit Types (hp : H2) (w : world (E := E) (H2 := H2)).

(** ** Looking up names *)

(** The entries [es] of a sector from byte [off] on, with their names: those the scan
    looks at, that end before the end of the sector. *)
Fixpoint entries (l : list Z) (off : Z) (es : list (ext2_directory_entry * list Z)) : Prop :=
  match es with
  | [] => True
  | (de, nm) :: es =>
      0 ≤ off ∧ off + SIZEOF_DIR_ENTRY + length nm ≤ 512 ∧ decode_dir (take 8 (drop (Z.to_nat off) l)) = de ∧
      name_length de = length nm ∧ take (length nm) (drop (Z.to_nat (off + SIZEOF_DIR_ENTRY)) l) = nm ∧
      0 < entry_size de ∧ off + entry_size de < 512 ∧ entries l (off + entry_size de) es
  end.
Definition sizes (es : list (ext2_directory_entry * list Z)) : Z := sum_list_with (λ x, Z.to_nat (entry_size x.1)) es.
(** An entry that is in use and has the name. *)
Definition matches (fn : list Z) (x : ext2_directory_entry * list Z) : Prop := de_inode x.1 ≠ SKIP_DIR ∧ x.2 = fn.

(** The buffer's data and the name looked for are at different addresses. *)
Definition apart (filename len bh : Z) : Prop :=
  0 ≤ bh ∧ bh + BUFF_OFFSET + 512 ≤ 4294967296 ∧ 0 ≤ filename ∧ filename + len ≤ 4294967296 ∧
  (filename + len ≤ bh + BUFF_OFFSET ∨ bh + BUFF_OFFSET + 512 ≤ filename).

Lemma with_buffer_in bh l m i y :
  l !! i = Some y → with_buffer bh l m !! (bh + BUFF_OFFSET + Z.of_nat i) = Some y.
Proof using.
  intros Hi. unfold with_buffer. apply lookup_union_Some_l, elem_of_list_to_map_1.
  - rewrite fst_zip by (rewrite length_seqZ; lia). apply NoDup_seqZ.
  - apply list_elem_of_lookup_2 with i. rewrite lookup_zip_with, Hi.
    rewrite lookup_seqZ_lt by (apply lookup_lt_Some in Hi; lia). done.
Qed.
Lemma with_buffer_out bh l m a :
  a < bh + BUFF_OFFSET ∨ bh + BUFF_OFFSET + length l ≤ a → with_buffer bh l m !! a = m !! a.
Proof using.
  intros Ha. unfold with_buffer. apply lookup_union_r, not_elem_of_list_to_map_1.
  rewrite fst_zip by (rewrite length_seqZ; lia). intros Hin%elem_of_seqZ. lia.
Qed.

Lemma compare_name_ok filename fn bh h off nm x v hp s (e : E) :
  buffers s !! bh = Some h → length (buff h) = 512%nat → Forall is_byte (buff h) → 0 ≤ off → off + SIZEOF_DIR_ENTRY + length nm ≤ 512 →
  take (length nm) (drop (Z.to_nat (off + SIZEOF_DIR_ENTRY)) (buff h)) = nm →
  holds_bytes (vmem v) filename fn → Forall is_byte fn → apart filename (length fn) bh → length nm = length fn →
  0 < length fn →
  ∃ c, compare_name filename bh off (length fn) (mkWorld x v hp (s, e)) = Ok c (mkWorld x v hp (s, e)) ∧ (c = 0 ↔ nm = fn).
Proof using.
  intros Hp Hlen Hbytes Hoff Hin Hnm Hfn Hfb (Hb0 & Hb1 & Hf0 & Hf1 & Hap) Hl Hpos. unfold SIZEOF_DIR_ENTRY in *.
  unfold compare_name. rewrite (bind_ok _ _ _ _ _ (data_of_ok _ _ x v hp s e Hp)).
  rewrite (bind_ok _ _ _ v (mkWorld x v hp (s, e))) by done.
  set (m' := with_buffer bh (buff h) (vmem v)). set (a := bh + BUFF_OFFSET + off + SIZEOF_DIR_ENTRY).
  assert (holds_bytes m' filename fn) as H1'.
  { intros i y Hi. unfold m'. rewrite with_buffer_out; [by apply Hfn|]. apply lookup_lt_Some in Hi. lia. }
  assert (holds_bytes m' a nm) as H2'.
  { intros i y Hi. rewrite <-Hnm in Hi. apply lookup_take_Some in Hi as [Hi Hlt]. rewrite lookup_drop in Hi.
    unfold m', a, SIZEOF_DIR_ENTRY. rewrite <-(with_buffer_in bh (buff h) (vmem v) _ y Hi). f_equal. lia. }
  exists (lex_cmp s8 fn nm). unfold strncmp. fold m' a. rewrite (proj2 (Z.eqb_neq _ _)) by lia. rewrite Nat2Z.id.
  rewrite (cmp_loop_spec s8 fn nm filename a m') by (unfold a, SIZEOF_DIR_ENTRY, BUFF_OFFSET in *; done || lia).
  split; [done|]. rewrite lex_cmp_zero; [split; by intros ->| |done]. intros y z Hy Hz.
  rewrite Forall_forall in Hfb. specialize (Hfb y Hy). rewrite <-Hnm in Hz.
  rewrite Forall_forall in Hbytes. unfold is_byte in *.
  assert (z ∈ buff h) as Hz'.
  { rewrite <-(take_drop (Z.to_nat (off + 8)) (buff h)), elem_of_app. right.
    rewrite <-(take_drop (length nm) (drop _ _)), elem_of_app. by left. }
  specialize (Hbytes z Hz'). unfold s8. intros Hs. Z.div_mod_to_equations. lia.
Qed.

Section scanning.
Context (fuel : nat) (D : ext2_inode) (d filename r bh : Z) (fn : list Z) (x : ext2) (v : vfs) (hp : H2) (s : cache) (e : E).
Context (h : buffer_head) (Hbh : buffers s !! bh = Some h) (Hlen : length (buff h) = 512%nat) (Hbytes : Forall is_byte (buff h)).
Context (Hfn : holds_bytes (vmem v) filename fn) (Hfb : Forall is_byte fn) (Hap : apart filename (length fn) bh).
Context (Hpos : 0 < length fn).
Let w := mkWorld x v hp (s, e).
Let scan n := scan_loop (E := E) (H2 := H2) n fuel D d filename (length fn) r bh.

Lemma dir_entry_ok off : 0 ≤ off → off + 8 ≤ 512 →
  dir_entry bh off w = Ok (decode_dir (take 8 (drop (Z.to_nat off) (buff h)))) w.
Proof using Hbh.
  intros Ho Hin. unfold dir_entry, SIZEOF_DIR_ENTRY, w. rewrite (bind_ok _ _ _ _ _ (data_of_ok _ _ x v hp s e Hbh)).
  by rewrite (bind_ok _ _ _ _ _ (slice_ok _ off 8 _ Hin)).
Qed.

(** The test of an entry. *)
Lemma entry_test off de nm es :
  entries (buff h) off ((de, nm) :: es) →
  (if negb (de_inode de =? SKIP_DIR) && (name_length de =? length fn)
   then let* c := compare_name filename bh off (length fn) in ret (c =? 0) else ret false) w =
  Ok (bool_decide (matches fn (de, nm))) w.
Proof using All.
  intros (Ho & Hin & _ & Hnl & Hnm & _). unfold matches. cbn [fst snd].
  destruct (Z.eqb_spec (de_inode de) SKIP_DIR) as [Hz|Hz]; cbn [negb andb].
  { rewrite bool_decide_false; [done|]. tauto. }
  destruct (Z.eqb_spec (name_length de) (length fn)) as [Hl|Hl].
  - destruct (compare_name_ok filename fn bh h off nm x v hp s e Hbh Hlen Hbytes Ho Hin Hnm Hfn Hfb Hap) as (c & E1 & Hc);
      [lia|done|]. unfold w. rewrite (bind_ok _ _ _ _ _ E1). unfold ret. f_equal.
    apply Bool.eq_iff_eq_true. rewrite bool_decide_eq_true, Z.eqb_eq. tauto.
  - rewrite bool_decide_false; [done|]. intros [_ ->]. lia.
Qed.

Lemma scan_step n off de nm es size :
  entries (buff h) off ((de, nm) :: es) →
  scan (S n) off size w =
    (if bool_decide (matches fn (de, nm)) then take_entry fuel off d r bh w
     else let size := u32 (size + entry_size de) in
       if size_low D <? size then Ok (Return (-1)) w else scan n (off + entry_size de) size w).
Proof using All.
  intros He. pose proof He as (Ho & Hin & Hde & _ & _ & _ & Hend & _). unfold scan. cbn [scan_loop].
  unfold SIZEOF_DIR_ENTRY in Hin. rewrite (bind_ok _ _ _ _ _ (dir_entry_ok off Ho ltac:(lia))), Hde.
  unfold BLOCK_SIZE. rewrite (proj2 (Z.ltb_lt _ _) Hend). cbn [negb].
  rewrite (bind_ok _ _ _ _ _ (entry_test off de nm es He)). destruct (bool_decide _); [done|].
  cbv zeta. by destruct (_ <? _).
Qed.

(** Entries that do not match are passed, or the fuel runs out on them. *)
Lemma scan_skip es es' : ∀ n off size,
  entries (buff h) off (es ++ es') → Forall (λ y, ¬ matches fn y) es →
  0 ≤ size → size + sizes es ≤ size_low D → size_low D < 4294967296 →
  (∃ n', n = (length es + n')%nat ∧ scan n off size w = scan n' (off + sizes es) (size + sizes es) w) ∨
  ((n < length es)%nat ∧ scan n off size w = Timeout).
Proof using All.
  induction es as [|[de nm] es IH]; intros n off size He Hno Hs Hsz Hlow.
  - left. exists n. split; [done|]. unfold sizes. simpl. by rewrite !Z.add_0_r.
  - apply Forall_cons in Hno as [Hde Hno]. destruct n as [|n]; [right; split; [simpl; lia|done]|].
    pose proof He as (_ & _ & _ & _ & _ & Hp & _ & He'). unfold sizes in *. cbn [sum_list_with fst length app] in *.
    rewrite (scan_step _ _ _ _ _ _ He), bool_decide_false by done. cbv zeta.
    rewrite u32_small by lia. rewrite (proj2 (Z.ltb_ge _ _)) by lia.
    destruct (IH n (off + entry_size de) (size + entry_size de)) as [(n' & Hn & E1)|[Hn E1]]; try done; try lia.
    + left. exists n'. split; [lia|]. rewrite E1. f_equal; lia.
    + right. split; [lia|done].
Qed.
End scanning.

Lemma entries_app l es es' : ∀ off, entries l off (es ++ es') → entries l (off + sizes es) es'.
Proof using.
  unfold sizes. induction es as [|[de nm] es IH]; intros off He; cbn [sum_list_with app fst] in *; [by rewrite Z.add_0_r|].
  destruct He as (_ & _ & _ & _ & _ & Hp & _ & He). specialize (IH _ He).
  replace (off + _) with (off + entry_size de + Z.of_nat (sum_list_with (λ x, Z.to_nat (entry_size x.1)) es)) by lia. done.
Qed.

Section lookup.
Context (fuel : nat) (d : Z) (b : bdev) (x : ext2) (m : Z) (T : list Z) (Hx : well_formed x m) (Hm : m < 256).
Context (v : vfs) (hp : H2) (e : E) (Hbytes : ∀ a, Forall is_byte (content e a)).

Lemma inode_bytes_ok inode : valid_inode x T inode →
  length (inode_bytes e b (inode_at x T inode)) = SIZEOF_INODE ∧ Forall is_byte (inode_bytes e b (inode_at x T inode)).
Proof using Hx Hbytes.
  intros Hv. split; [by apply (inode_bytes_length x m T)|by apply Forall_take, Forall_drop].
Qed.
Lemma size_low_word l : length l = SIZEOF_INODE → Forall is_byte l → 0 ≤ size_low (decode_inode l) < 4294967296.
Proof using.
  intros Hl HF. assert (inode_typed (decode_inode l)) as Ht.
  { unfold inode_typed, decode_inode. rewrite fields_of_inode_fields by apply get_fields_length.
    apply get_fields_fit; [done|]. by rewrite Hl. }
  unfold inode_typed, inode_layout, inode_fields in Ht. cbn [app] in Ht.
  apply Forall2_cons in Ht as [_ Ht]. apply Forall2_cons in Ht as [_ Ht]. apply Forall2_cons in Ht as [Hf _].
  unfold fits in Hf. by change (256 ^ 4%nat) with 4294967296 in Hf.
Qed.

Context (dir : Vfs.inode) (Hdev : u16 (i_dev dir) = d) (Hdir : valid_inode x T (i_no dir)).
Let D := decode_inode (inode_bytes e b (inode_at x T (i_no dir))).
Context (Htype : type_permissions D ≠ 0).
Context (filename r : Z) (fn : list Z) (Hfn : holds_bytes (vmem v) filename fn) (Hfb : Forall is_byte fn) (Hpos : 0 < length fn).

(** Up to the search of the directory's blocks. *)
Lemma ext2_lookup_start n ks F s :
  table_held x T F s → requestable fuel d b (inode_at x T (i_no dir) / 512) ks F s e →
  ∃ s' e' F', content e' = content e ∧ kept F s F' s' ∧ ready fuel d b ks F' s' e' ∧ (length F ≤ S (length F'))%nat ∧
    ext2_lookup n fuel dir filename (length fn) r (mkWorld x v hp (s, e)) =
      block_loop n fuel x D d filename (length fn) r (direct_block D) 0 (mkWorld x v hp (s', e')).
Proof using Hx Hdev Hdir Htype Hpos.
  intros Ht Hr. unfold ext2_lookup. pose proof (proj1 Hr) as He. skip_print e1 He1 Hc1.
  cbv zeta. rewrite Hdev. set (A := inode_at x T (i_no dir)) in *.
  destruct (read_inode_requested fuel d b x m T Hx (i_no dir) ks F s e1 v hp Hdir Ht)
    as (p & s2 & e2 & E2 & h & s3 & F3 & _ & _ & Hcg & E3 & Hr3 & HF3 & Hk3 & _).
  { by apply (requestable_env _ _ _ _ _ _ _ e). }
  fold A in E2. assert (inode_bytes e1 b A = inode_bytes e b A) as Hib by (unfold inode_bytes; by rewrite Hc1).
  rewrite (bind_ok _ _ _ _ _ E2), Hib. fold D.
  rewrite (bind_ok _ _ _ _ _ (on_disk_ok _ x v hp _ _ _ (on_cache_ok _ _ e2 _ _ E3))).
  rewrite (proj2 (Z.eqb_neq (length fn) 0)) by lia.
  assert ((truth (type_permissions D) && truth TYPE_DIRECTORY) = true) as ->.
  { unfold truth. by rewrite (proj2 (Z.eqb_neq _ _) Htype). }
  cbn [negb]. rewrite bind_ext2.
  exists s3, e2, F3. split; [congruence|]. split; [done|]. split; [done|]. split; [done|done].
Qed.

(** The first sector of a block is requested and searched. *)
Lemma sector_start mm n blk k ks F s e1 :
  content e1 = content e → 0 ≤ k < m → ready fuel d b (block_sector x blk k :: ks) F s e1 → (S (length ks) ≤ length F)%nat →
  ∃ p s' e' h F', got fuel d b (block_sector x blk k) ks F s e1 p s' e' h F' ∧ content e' = content e ∧
    ∀ size, sector_loop (S mm) n fuel x D d filename (length fn) r blk k size (mkWorld x v hp (s, e1)) =
      bind (scan_loop n fuel D d filename (length fn) r p 0 size) (λ q,
        match q with
        | Return r => ret (Return r)
        | Continue size => on_disk (on_cache (put_block p)) ;;;
            sector_loop mm n fuel x D d filename (length fn) r blk (u8 (k + 1)) size
        end) (mkWorld x v hp (s', e')).
Proof using Hx.
  intros Hc1 Hk Hr HF. destruct (ready_got fuel d b _ ks F s e1 Hr HF) as (p & s2 & e2 & h & F2 & E2 & Hg).
  exists p, s2, e2, h, F2. split; [done|]. split; [destruct Hg; congruence|]. intros size. cbn [sector_loop].
  assert ((k <? block_size x / BLOCK_SIZE) = true) as ->.
  { pose proof (wf_block _ _ Hx) as Hb. unfold BLOCK_SIZE. rewrite Hb, Z.mul_comm, Z.div_mul by lia. apply Z.ltb_lt. lia. }
  cbn [negb]. fold (block_sector x blk k). rewrite (bind_ok _ _ _ _ _ (on_disk_ok _ x v hp _ _ _ E2)).
  by rewrite (proj2 (Z.eqb_neq _ _) (got_nonnull _ _ _ _ _ _ _ _ _ _ _ _ _ Hg)).
Qed.

(** A name that is found; the sector of its inode can be requested again. *)
Lemma ext2_lookup_finds_spec ks n es1 de nm es2 F s blk ri :
  let K := block_sector x blk 0 in
  let A1 := inode_at x T (de_inode de) in
  direct_block D !! 0%nat = Some blk → blk ≠ 0 →
  entries (content e (location b K)) 0 (es1 ++ (de, nm) :: es2) → Forall (λ y, ¬ matches fn y) es1 → matches fn (de, nm) →
  sizes es1 ≤ size_low D → valid_inode x T (de_inode de) → inodes v !! r = Some ri →
  (∀ q, is_Some (buffers s !! q) → apart filename (length fn) q) →
  table_held x T F s → requestable fuel d b (inode_at x T (i_no dir) / 512) (K :: A1 / 512 :: ks) F s e →
  (S (S (S (length ks))) < length F)%nat →
  (length es1 < n)%nat →
  ∃ s' e' F', ext2_lookup n fuel dir filename (length fn) r (mkWorld x v hp (s, e)) =
      Ok 0 (mkWorld x (set_inodes (<[r := set_result (de_inode de) (decode_inode (inode_bytes e b A1)) ri]> (inodes v)) v)
        hp (s', e')) ∧
    content e' = content e ∧ table_held x T F' s' ∧ again fuel d b (A1 / 512) ks F' s' e' ∧
    kept F s F' s' ∧ (length F ≤ 3 + length F')%nat.
Proof using All.
  intros K A1 Hblk Hnz Hes Hno Hyes Hsize Hino Hri Hapart Ht Hr HF Hn.
  destruct (ext2_lookup_start n (K :: A1 / 512 :: ks) F s Ht Hr) as (s1 & e1 & F1 & Hc1 & Hk1 & Hr1 & HF1 & ->).
  destruct (direct_block D) as [|blk' blocks] eqn:Hdb; [done|]. simpl in Hblk. injection Hblk as ->.
  cbn [block_loop]. rewrite (proj2 (Z.eqb_neq _ _) Hnz).
  pose proof Hx as [Hbs Hm0 _ _ _ _ _ _].
  destruct (sector_start (Z.to_nat (block_size x / BLOCK_SIZE)) n blk 0 (A1 / 512 :: ks) F1 s1 e1 Hc1 ltac:(lia) Hr1)
    as (p & s2 & e2 & h & F2 & Hg & Hc2 & Hsec); [simpl; lia|].
  pose proof Hg as [Hp _ _ Hd _ Hr2 HF2 _ _ Hk2 _ _ _]. fold K in Hd.
  assert (apart filename (length fn) p) as Hap.
  { apply Hapart, (proj1 Hk1), (proj1 Hk2). by eexists. }
  assert (buff h = content e (location b K)) as Hd' by congruence.
  destruct (inode_bytes_ok _ Hdir) as [Hl1 Hb1]. destruct (size_low_word _ Hl1 Hb1) as [_ Hlow]. fold D in Hlow.
  assert (0 ≤ sizes es1) as Hsz0 by (unfold sizes; lia).
  destruct (scan_skip fuel D d filename r p fn x v hp s2 e2 h Hp ltac:(by rewrite Hd', content_length) ltac:(rewrite Hd'; apply Hbytes)
    Hfn Hfb Hap Hpos es1 ((de, nm) :: es2) n 0 0 ltac:(by rewrite Hd') Hno ltac:(lia) ltac:(lia) Hlow) as [(n' & Hn' & E3)|[? _]]; [|lia].
  destruct n' as [|n']; [lia|].
  assert (entries (buff h) (0 + sizes es1) ((de, nm) :: es2)) as Hent by (rewrite Hd'; by apply entries_app).
  rewrite (scan_step fuel D d filename r p fn x v hp s2 e2 h Hp ltac:(by rewrite Hd', content_length) ltac:(rewrite Hd'; apply Hbytes)
    Hfn Hfb Hap Hpos n' _ de nm es2 _ Hent), bool_decide_true in E3 by done.
  assert (table_held x T F2 s2) as Ht2 by (by eapply table_kept, table_kept).
  destruct (read_inode_ok fuel d b x m T Hx (de_inode de) ks F2 s2 e2 v hp Hino Ht2 Hr2) as (q & s4 & e4 & h4 & F4 & E4 & Hg4);
    [simpl; simpl in HF2; lia|]. fold A1 in E4, Hg4.
  destruct (got_put _ _ _ _ _ _ _ _ _ _ _ _ _ Hg4) as (s5 & F5 & E5 & Hr5 & HF5 & Hk5 & Ha5 & Hch5).
  { apply (got_nonempty _ _ _ _ _ _ _ _ _ _ _ _ _ Hg4). simpl in *. lia. }
  assert (F5 ≠ []) as HF5'.
  { intros ->. destruct Hg4 as [_ _ _ _ _ _ Hl4 _ _ _ _ _ _]. simpl in *. lia. }
  destruct (got_put_later _ _ _ _ _ _ _ _ _ _ _ _ _ ks s5 e4 F5 Hg Hk5 Hch5 ltac:(intros y Hy; by right) Hr5 HF5')
    as (s6 & F6 & E6 & Hr6 & HF6 & Hk6 & Ha6).
  assert (inode_bytes e2 b A1 = inode_bytes e b A1) as Hib by (unfold inode_bytes; by rewrite Hc2).
  set (v' := set_inodes (<[r := set_result (de_inode de) (decode_inode (inode_bytes e b A1)) ri]> (inodes v)) v).
  destruct (proj2 Hk5 p h (got_held _ _ _ _ _ _ _ _ _ _ _ _ _ Hg) Hp) as (_ & h5 & Hp5 & _ & _ & Hd5 & _).
  destruct Hent as (Ho & Hin & Hde & _). unfold SIZEOF_DIR_ENTRY in Hin.
  assert (take_entry fuel (0 + sizes es1) d r p (mkWorld x v hp (s2, e2)) = Ok (Return 0) (mkWorld x v' hp (s6, e4))) as Etake.
  { unfold take_entry. rewrite (bind_ok _ _ _ _ _ (dir_entry_ok p x v hp s2 e2 h Hp _ Ho ltac:(lia))), Hde, (bind_ok _ _ _ _ _ E4).
    rewrite (bind_ok _ _ _ _ _ (on_disk_ok _ x v hp _ _ _ (on_cache_ok _ _ e4 _ _ E5))), Hib.
    rewrite (bind_ok _ _ _ _ _ (dir_entry_ok p x v hp s5 e4 h5 Hp5 _ Ho ltac:(lia))), Hd5, Hde.
    rewrite (bind_ok _ _ _ tt (mkWorld x v' hp (s5, e4))).
    2:{ apply on_vfs_ok. unfold upd_inode, ld_inode, bind. by rewrite Hri. }
    by rewrite (bind_ok _ _ _ _ _ (on_disk_ok _ x v' hp _ _ _ (on_cache_ok _ _ e4 _ _ E6))). }
  rewrite Etake in E3. exists s6, e4, F6. split; [|split; [destruct Hg4; congruence|split; [|split; [by apply Ha6|split]]]].
  - unfold bind at 1. rewrite Hsec. by rewrite (bind_ok _ _ _ _ _ E3).
  - eapply table_kept; [|exact Ht]. by eapply kept_trans.
  - by eapply kept_trans.
  - destruct Hg4 as [_ _ _ _ _ _ Hl4 _ _ _ _ _ _]. lia.
Qed.

(** C11. A name whose entry is in the first sector of a directory and ends before that sector
    does is found: the lookup fills the caller's inode with the number, size and mode of the
    inode on disk. The entry must not be the last of the sector (the scan never compares that
    one: C36), the entries before it are other names, the table of block groups is held in the
    cache, and the three sectors that are read (the one of the directory's inode, the one of
    the entries, the one of the inode found) are in hash chains of their own, with no dirty
    buffer and more than three free ones ([ready]). *)
Theorem ext2_lookup_finds n es1 de nm es2 F s blk ri :
  let K := block_sector x blk 0 in
  let A1 := inode_at x T (de_inode de) in
  direct_block D !! 0%nat = Some blk → blk ≠ 0 →
  entries (content e (location b K)) 0 (es1 ++ (de, nm) :: es2) → Forall (λ y, ¬ matches fn y) es1 → matches fn (de, nm) →
  sizes es1 ≤ size_low D → valid_inode x T (de_inode de) → inodes v !! r = Some ri →
  (∀ q, is_Some (buffers s !! q) → apart filename (length fn) q) →
  table_held x T F s → ready fuel d b [inode_at x T (i_no dir) / 512; K; A1 / 512] F s e → (3 < length F)%nat →
  (length es1 < n)%nat →
  ∃ s' e' F', ext2_lookup n fuel dir filename (length fn) r (mkWorld x v hp (s, e)) =
      Ok 0 (mkWorld x (set_inodes (<[r := set_result (de_inode de) (decode_inode (inode_bytes e b A1)) ri]> (inodes v)) v)
        hp (s', e')) ∧
    content e' = content e ∧ table_held x T F' s' ∧ ready fuel d b [] F' s' e'.
Proof using All.
  intros K A1 Hblk Hnz Hes Hno Hyes Hsize Hino Hri Hapart Ht Hr HF Hn.
  destruct (ext2_lookup_finds_spec [] n es1 de nm es2 F s blk ri Hblk Hnz Hes Hno Hyes Hsize Hino Hri Hapart Ht)
    as (s' & e' & F' & E1 & Hc & Ht' & Ha & _); try done; [by apply ready_requestable|].
  exists s', e', F'. split; [done|]. split; [done|]. split; [done|]. apply Ha.
Qed.

(** A sector of zeros is an entry of size 0: the scan stays at it. *)
Lemma scan_spins n p h size s e1 :
  buffers s !! p = Some h → take 8 (buff h) = replicate 8 0 → 0 ≤ size ≤ size_low D → size_low D < 4294967296 →
  scan_loop n fuel D d filename (length fn) r p 0 size (mkWorld x v hp (s, e1)) = Timeout.
Proof using.
  intros Hp Hz Hs Hlow. induction n as [|n IH]; [done|]. cbn [scan_loop].
  rewrite (bind_ok _ _ _ _ _ (dir_entry_ok p x v hp s e1 h Hp 0 ltac:(lia) ltac:(lia))).
  change (Z.to_nat 0) with 0%nat. rewrite drop_0, Hz.
  change (decode_dir (replicate 8 0)) with (mkDirEntry 0 0 0 0). cbn [entry_size de_inode name_length].
  change (0 + 0 <? BLOCK_SIZE) with true. change (0 =? SKIP_DIR) with true. cbn [negb andb]. rewrite bind_ret_l. cbv zeta.
  rewrite Z.add_0_r, u32_small by lia. rewrite (proj2 (Z.ltb_ge _ _)) by lia. exact IH.
Qed.

(** C36. The last entry of a sector, whose size reaches the sector's end, is never compared,
    and the search goes on in the next sector of the block. When that is zero, as in a
    directory of few entries, it never ends: a name that is the last entry of the
    sector, or not in the directory at all, hangs the lookup. *)
Theorem ext2_lookup_hangs n es F s blk :
  let K0 := block_sector x blk 0 in
  let K1 := block_sector x blk 1 in
  let de := decode_dir (take 8 (drop (Z.to_nat (sizes es)) (content e (location b K0)))) in
  direct_block D !! 0%nat = Some blk → blk ≠ 0 → 1 < m →
  entries (content e (location b K0)) 0 es → Forall (λ y, ¬ matches fn y) es →
  sizes es ≤ size_low D → sizes es + 8 ≤ 512 → 512 ≤ sizes es + entry_size de →
  take 8 (content e (location b K1)) = replicate 8 0 →
  (∀ q, is_Some (buffers s !! q) → apart filename (length fn) q) →
  table_held x T F s → ready fuel d b [inode_at x T (i_no dir) / 512; K0; K1] F s e → (3 < length F)%nat →
  ext2_lookup n fuel dir filename (length fn) r (mkWorld x v hp (s, e)) = Timeout.
Proof using All.
  intros K0 K1 de Hblk Hnz Hm1 Hes Hno Hsize Hin Hend Hzero Hapart Ht Hr HF.
  destruct (ext2_lookup_start n [K0; K1] F s Ht (ready_requestable _ _ _ _ _ _ _ _ Hr HF)) as (s1 & e1 & F1 & Hc1 & Hk1 & Hr1 & HF1 & ->).
  destruct (direct_block D) as [|blk' blocks] eqn:Hdb; [done|]. simpl in Hblk. injection Hblk as ->.
  cbn [block_loop]. rewrite (proj2 (Z.eqb_neq _ _) Hnz).
  assert (∃ mm, Z.to_nat (block_size x / BLOCK_SIZE) = S mm) as [mm ->].
  { unfold BLOCK_SIZE. rewrite (wf_block _ _ Hx), Z.mul_comm, Z.div_mul by lia. exists (Z.to_nat (m - 1)). lia. }
  destruct (sector_start (S mm) n blk 0 [K1] F1 s1 e1 Hc1 ltac:(lia) Hr1)
    as (p & s2 & e2 & h & F2 & Hg & Hc2 & Hsec); [simpl; lia|].
  pose proof Hg as [Hp _ _ Hd _ Hr2 HF2 _ _ Hk2 _ _ _]. fold K0 in Hd.
  assert (apart filename (length fn) p) as Hap.
  { apply Hapart, (proj1 Hk1), (proj1 Hk2). by eexists. }
  assert (buff h = content e (location b K0)) as Hd' by congruence.
  destruct (inode_bytes_ok _ Hdir) as [Hl1 Hb1]. destruct (size_low_word _ Hl1 Hb1) as [_ Hlow]. fold D in Hlow.
  assert (0 ≤ sizes es) as Hsz0 by (unfold sizes; lia).
  apply bind_timeout. rewrite Hsec.
  destruct (scan_skip fuel D d filename r p fn x v hp s2 e2 h Hp ltac:(by rewrite Hd', content_length) ltac:(rewrite Hd'; apply Hbytes)
    Hfn Hfb Hap Hpos es [] n 0 0 ltac:(by rewrite Hd', app_nil_r) Hno ltac:(lia) ltac:(lia) Hlow) as [(n' & Hn' & E3)|[_ E3]];
    [|by apply bind_timeout].
  destruct n' as [|n']; [by apply bind_timeout|].
  assert (scan_loop (S n') fuel D d filename (length fn) r p (0 + sizes es) (0 + sizes es) (mkWorld x v hp (s2, e2)) =
    Ok (Continue (sizes es)) (mkWorld x v hp (s2, e2))) as E4.
  { cbn [scan_loop]. rewrite (bind_ok _ _ _ _ _ (dir_entry_ok p x v hp s2 e2 h Hp (0 + sizes es) ltac:(lia) ltac:(lia))).
    rewrite Z.add_0_l, Hd'. fold de. unfold BLOCK_SIZE. by rewrite (proj2 (Z.ltb_ge _ _)) by lia. }
  rewrite E4 in E3. rewrite (bind_ok _ _ _ _ _ E3).
  destruct (got_put _ _ _ _ _ _ _ _ _ _ _ _ _ Hg) as (s3 & F3 & E5 & Hr3 & HF3 & _).
  { apply (got_nonempty _ _ _ _ _ _ _ _ _ _ _ _ _ Hg). simpl in *. lia. }
  rewrite (bind_ok _ _ _ _ _ (on_disk_ok _ x v hp _ _ _ (on_cache_ok _ _ e2 _ _ E5))). change (u8 (0 + 1)) with 1.
  destruct (sector_start mm n blk 1 [] F3 s3 e2 ltac:(congruence) ltac:(lia) Hr3)
    as (q & s4 & e4 & h4 & F4 & Hg4 & Hc4 & Hsec4); [simpl in *; lia|].
  rewrite Hsec4. apply bind_timeout. destruct Hg4 as [Hp4 _ _ Hd4 _ _ _ _ _ _ _ _ _].
  apply (scan_spins n q h4); [done| |done|done]. rewrite Hd4, Hc2. exact Hzero.
Qed.
End lookup.
End directories.
