(* ===== verification/Ext2Device.v ===== *)
(** * ext2 on a device pointer ([read_file], [write_file], [alloc_inode] of ext2.c)

    The functions that do not go through the buffer cache. They are declared with a
    [device_t *] and pass it on as the [bdev_t *] the driver expects: [dev] is what the
    memory behind that pointer reads as. *)

From S2P Require Import Prelude Memory Common Io Ata Buffer Requests Alloc Vfs Ext2Format Ext2 Ext2Inode.

Section operations.
Context `{BlockDevice E} `{Allocator H2} `{Ext2Layout}.
#[local] Abbreviation W := (world (E := E) (H2 := H2)).

(** ** [read_file] *)

(** The variable [i] and how many blocks are left; [tmp_buff] is an array of one sector,
    and printing goes on behind it when there is no zero in it. *)
Fixpoint read_file_loop (todo : nat) (i : Z) (file : ext2_inode) (dev : bdev) : M W unit :=
  match todo with
  | O => ret tt
  | S todo =>
      print (terminal_writestring "direct block: ") ;;;
      let* b := nth_block (direct_block file) i in
      print (terminal_printhex32 b) ;;;
      let* x := on_ext2 get in
      if (s32 (size_low file) <=? i * 512) || (b =? 0) || (block_count x <=? b) then ret tt else
      let* tmp_buff := on_disk (disk_io (bd_read dev (ADDR_OF_BLOCK x b))) in
      let* text := of_option (c_string tmp_buff) in
      print (terminal_write text) ;;;
      read_file_loop todo (i + 1) file dev
  end.
Definition read_file (file : ext2_inode) (dev : bdev) : M W unit :=
  print (terminal_write (chars "In read_file" ++ [10])) ;;;
  if not_regular (type_permissions file) then kpanic "not a file" else
  read_file_loop 12 0 file dev.

(** ** [write_file] *)

(** [src] are the bytes at [ptr]. The loop leaves at the twelfth block at the latest. *)
Fixpoint write_file_loop (n : nat) (i : Z) (src : list Z) (size nmemb : Z) (file : ext2_inode) (dev : bdev) : M W Z :=
  match n with
  | O => timeout
  | S n =>
      if negb (i <? u32 (nmemb * size)) then ret nmemb else
      let count := u32 (u32 (nmemb * size) - i) in
      let len := if 512 <=? count then 512 else count in
      check (i + len <=? length src) ;;;
      let tmp_buff := take (Z.to_nat len) (drop (Z.to_nat i) src) ++ replicate (Z.to_nat (512 - len)) 0 in
      let* x := on_ext2 get in
      let* b := nth_block (direct_block file) (i / 512) in
      on_disk (disk_io (bd_write dev tmp_buff (ADDR_OF_BLOCK x b))) ;;;
      if (0x1800 <=? u32 (i + 512)) || (block_count x <=? b) then ret (i / size)
      else write_file_loop n (u32 (i + 512)) src size nmemb file dev
  end.
Definition write_file (src : list Z) (size nmemb : Z) (file : ext2_inode) (dev : bdev) : M W Z :=
  print (terminal_write (chars "In write file" ++ [10])) ;;;
  if not_regular (type_permissions file) then kpanic "not a file" else
  write_file_loop 13 0 src size nmemb file dev.

(** ** [alloc_inode] *)

(** The inner loop: the inodes from [free_inode] on, [todo] of them; [tmp_buff] has signed
    elements, and a shift by more than the width of an [int] is undefined. *)
Fixpoint scan_bitmap (todo : nat) (free_inode bitmap : Z) (tmp_buff : list Z) (dev : bdev) : M W unit :=
  match todo with
  | O => ret tt
  | S todo =>
      let sect := u32 (bitmap + u32 (free_inode * SIZEOF_BGD) / 512) in
      let* tmp_buff := (if u32 (free_inode * SIZEOF_BGD) mod 512 =? 0
                        then on_disk (disk_io (bd_read dev sect)) else ret tmp_buff) in
      let* c := nth_block tmp_buff (free_inode / 512) in
      let k := free_inode mod 512 in
      if 31 <? k then fault else
      let* tmp_buff :=
        (if Z.shiftr (s8 c) k =? 0 then
           let l := <[Z.to_nat (free_inode / 512) := u8 (Z.lor (s8 c) (Z.shiftl 1 k))]> tmp_buff in
           on_disk (disk_io (bd_write dev l sect)) ;;; ret l
         else ret tmp_buff) in
      scan_bitmap todo (free_inode + 1) bitmap tmp_buff dev
  end.
(** The variables [i] and [free_inode] when the loop ends; [raw] is the array before it is
    read into. *)
Fixpoint alloc_groups (todo : nat) (i free_inode : Z) (raw : list Z) (dev : bdev) : M W (Z * Z) :=
  match todo with
  | O => ret (i, free_inode)
  | S todo =>
      if negb (free_inode =? 0) then ret (i, free_inode) else
      let* d := bgd_entry i in
      if free_inode_count d =? 0 then alloc_groups todo (i + 1) free_inode raw dev else
      let* x := on_ext2 get in
      scan_bitmap (Z.to_nat (inodes_per_group x)) 0 (inode_usage_bitmap d) raw dev ;;;
      alloc_groups todo (i + 1) (inodes_per_group x) raw dev
  end.
(** [free_inode] is not initialised: [raw_free] is what it reads as at first. *)
Definition alloc_inode (raw_free : Z) (raw : list Z) (dev : bdev) : M W Z :=
  let* x := on_ext2 get in
  let* (i, free_inode) := alloc_groups (Z.to_nat (block_group_count x)) 0 raw_free raw dev in
  ret (u32 (free_inode + inodes_per_group x * (i + 1))).

(** ** Specification *)

(** The blocks [read_file] reads: up to the size of the file, a hole, or a block number
    that is not in the file system. *)
Fixpoint blocks_read (x : ext2) (size i : Z) (blocks : list Z) : list Z :=
  match blocks with
  | [] => []
  | b :: blocks =>
      if (s32 size <=? i * 512) || (b =? 0) || (block_count x <=? b) then []
      else b :: blocks_read x size (i + 1) blocks
  end.
Definition terminated (l : list Z) : bool := match c_string l with Some _ => true | None => false end.

(** The bytes of the block number [j] of what is written. *)
Definition chunk (src : list Z) (total : Z) (j : nat) : list Z :=
  let len := Z.to_nat (Z.min 512 (total - 512 * j)) in
  take len (drop (512 * j) src) ++ replicate (512 - len) 0.
(** Twelve blocks at most. *)
Definition chunks (total : Z) : nat := Z.to_nat (Z.min 12 ((total + 511) / 512)).

(** ** Lemmas *)

Lemma bind_bd_read {B} dev b (f : list Z → M W B) x v (hp : H2) (s : cache) (e : E) :
  present dev b → env_wf e →
  ∃ e', bind (on_disk (disk_io (bd_read dev b))) f (mkWorld x v hp (s, e)) =
      f (content e (location dev b)) (mkWorld x v hp (s, e')) ∧ env_wf e' ∧ content e' = content e.
Proof using.
  intros Hp He. destruct (bd_read_ok e dev b He Hp) as (e' & E1 & He' & Hc). exists e'.
  split; [|by split]. by apply bind_ok, on_disk_ok, disk_io_ok.
Qed.
Lemma bind_bd_write {B} dev b l (f : unit → M W B) x v (hp : H2) (s : cache) (e : E) :
  present dev b → env_wf e → length l = 512%nat → Forall is_byte l →
  ∃ e', bind (on_disk (disk_io (bd_write dev l b))) f (mkWorld x v hp (s, e)) = f tt (mkWorld x v hp (s, e')) ∧
    env_wf e' ∧ content e' (location dev b) = l ∧ ∀ a, a ≠ location dev b → content e' a = content e a.
Proof using.
  intros Hp He Hl Hb. destruct (bd_write_ok e dev b l He Hp Hl Hb) as (e' & E1 & He' & Hc & Ho). exists e'.
  split; [|by split_and!]. by apply bind_ok, on_disk_ok, disk_io_ok.
Qed.

Lemma read_file_loop_spec (file : ext2_inode) (dev : bdev) x v (hp : H2) (s : cache) blocks : ∀ i (e : E),
  drop (Z.to_nat i) (direct_block file) = blocks → 0 ≤ i → env_wf e →
  (∀ b, b ∈ blocks_read x (size_low file) i blocks → present dev (ADDR_OF_BLOCK x b)) →
  let o := read_file_loop (length blocks) i file dev (mkWorld x v hp (s, e)) in
  if forallb (λ b, terminated (content e (location dev (ADDR_OF_BLOCK x b)))) (blocks_read x (size_low file) i blocks)
  then ∃ e', o = Ok tt (mkWorld x v hp (s, e')) ∧ env_wf e' ∧ content e' = content e else o = Fault.
Proof using Type*.
  induction blocks as [|b blocks IH]; intros i e Hd Hi He Hp; cbn [length read_file_loop blocks_read forallb].
  { exists e. by split_and!. }
  assert (∀ w : W, nth_block (direct_block file) i w = Ok b w) as Hb.
  { intros w. unfold nth_block. rewrite <-(Nat.add_0_r (Z.to_nat i)), <-lookup_drop, Hd. done. }
  assert (drop (Z.to_nat (i + 1)) (direct_block file) = blocks) as Hd'.
  { replace (Z.to_nat (i + 1)) with (Z.to_nat i + 1)%nat by lia. rewrite <-drop_drop, Hd. done. }
  cbn [blocks_read] in Hp.
  skip_print e1 He1 Hc1. rewrite (bind_ok _ _ _ _ _ (Hb _)). skip_print e2 He2 Hc2.
  rewrite bind_ext2. destruct (_ || _ || _).
  { exists e2. split; [done|]. split; [done|]. congruence. }
  cbn [forallb]. destruct (bind_bd_read dev (ADDR_OF_BLOCK x b)
    (λ tmp, let* text := of_option (c_string tmp) in print (terminal_write text) ;;; read_file_loop (length blocks) (i + 1) file dev)
    x v hp s e2) as (e3 & -> & He3 & Hc3); [apply Hp; by left|done|].
  rewrite Hc2, Hc1. unfold terminated at 1. destruct (c_string _) as [text|]; [|done].
  cbn [of_option andb]. rewrite bind_ret_l. skip_print e4 He4 Hc4.
  assert (content e4 = content e) as Hc by congruence.
  pose proof (IH (i + 1) e4 Hd' ltac:(lia) He4 ltac:(intros c Hc'; apply Hp; by right)) as Hrest.
  cbv zeta in Hrest. rewrite Hc in Hrest. exact Hrest.
Qed.

Lemma chunk_length src total (j : nat) : 512 * j < total → total ≤ length src → length (chunk src total j) = 512%nat.
Proof using. intros Hj Hl. unfold chunk. rewrite length_app, length_take, length_drop, length_replicate. lia. Qed.
Lemma chunk_bytes src total (j : nat) : Forall is_byte src → Forall is_byte (chunk src total j).
Proof using. intros Hs. apply Forall_app_2; [by apply Forall_take, Forall_drop|by apply Forall_replicate]. Qed.

Section write.
Context (file : ext2_inode) (dev : bdev) (x : ext2) (src : list Z) (size nmemb : Z).
Let total : Z := u32 (nmemb * size).
(** The sector of block number [j] of the file. *)
Definition file_sector (j : nat) : Z := ADDR_OF_BLOCK x (nth j (direct_block file) 0).

(** The blocks there are in the file system, at different places of the disk. *)
Record writable : Prop := {
  wr_src : total ≤ length src ∧ Forall is_byte src;
  wr_blocks : length (direct_block file) = 12%nat;
  wr_present : ∀ j, (j < chunks total)%nat →
    nth j (direct_block file) 0 < block_count x ∧ present dev (file_sector j);
  wr_distinct : ∀ j k, (j < chunks total)%nat → (k < chunks total)%nat → j ≠ k →
    location dev (file_sector j) ≠ location dev (file_sector k) }.

Lemma write_file_loop_spec v (hp : H2) (s : cache) n : ∀ (j : nat) (e : E),
  writable → (j + n = 13)%nat → (j < chunks total)%nat ∨ j = chunks total ∧ total ≤ 5632 → env_wf e →
  ∃ e', write_file_loop n (512 * j) src size nmemb file dev (mkWorld x v hp (s, e)) =
      Ok (if 5632 <? total then 5632 / size else nmemb) (mkWorld x v hp (s, e')) ∧
    (∀ k, (j ≤ k < chunks total)%nat → content e' (location dev (file_sector k)) = chunk src total k) ∧
    ∀ a, (∀ k, (j ≤ k < chunks total)%nat → a ≠ location dev (file_sector k)) → content e' a = content e a.
Proof using Type*.
  pose proof (u32_range (nmemb * size)) as Htot. fold total in Htot.
  assert (chunks total = Z.to_nat (Z.min 12 ((total + 511) / 512))) as Hch by done.
  induction n as [|n IH]; intros j e Hw Hn Hj He; [exfalso; word_lia|]. pose proof Hw as [[Hsrc Hby] Hlb Hpr Hdi].
  cbn [write_file_loop]. fold total. destruct (Z.ltb_spec (512 * j) total) as [Hlt|Hge]; cbn [negb].
  2:{ exists e. rewrite (proj2 (Z.ltb_ge 5632 total)) by word_lia. split; [done|].
      split; [intros k Hk; word_lia|done]. }
  assert (j < chunks total)%nat as Hjc by word_lia. destruct (Hpr j Hjc) as [Hbc Hpres].
  rewrite (u32_small (total - 512 * j)) by lia.
  assert ((if 512 <=? total - 512 * j then 512 else total - 512 * j) = Z.min 512 (total - 512 * j)) as ->
    by (destruct (Z.leb_spec 512 (total - 512 * j)); lia).
  rewrite bind_check by (apply Z.leb_le; lia). rewrite bind_ext2.
  assert (∀ w : W, nth_block (direct_block file) (512 * j / 512) w = Ok (nth j (direct_block file) 0) w) as Hb.
  { intros w. unfold nth_block. replace (Z.to_nat (512 * j / 512)) with j by word_lia.
    destruct (nth_lookup_or_length (direct_block file) j 0) as [Hl|Hl]; [|unfold chunks in Hjc; lia].
    by rewrite Hl. }
  rewrite (bind_ok _ _ _ _ _ (Hb _)). fold (file_sector j).
  assert (take (Z.to_nat (Z.min 512 (total - 512 * j))) (drop (Z.to_nat (512 * j)) src) ++
    replicate (Z.to_nat (512 - Z.min 512 (total - 512 * j))) 0 = chunk src total j) as ->.
  { unfold chunk. f_equal; [do 2 f_equal; lia|f_equal; lia]. }
  match goal with |- context [bind (on_disk (disk_io (bd_write _ _ _))) ?f _] =>
    destruct (bind_bd_write dev (file_sector j) (chunk src total j) f x v hp s e) as (e1 & -> & He1 & Hc1 & Ho1);
    [done|done|apply chunk_length; lia|by apply chunk_bytes|] end.
  rewrite (proj2 (Z.leb_gt (block_count x) _)), orb_false_r by lia. rewrite (u32_small (512 * j + 512)) by word_lia.
  destruct (Z.leb_spec 0x1800 (512 * j + 512)) as [Hend|Hend].
  - assert (chunks total = S j) as Hlast by word_lia. exists e1. rewrite (proj2 (Z.ltb_lt 5632 total)) by lia.
    replace (512 * j) with 5632 by word_lia. split; [done|]. split.
    + intros k Hk. by replace k with j by lia.
    + intros a Ha. apply Ho1, Ha. lia.
  - replace (512 * j + 512) with (512 * S j) by lia.
    destruct (IH (S j) e1 Hw) as (e2 & E2 & Hc2 & Ho2); [lia|word_lia|done|]. exists e2. split; [exact E2|]. split.
    + intros k Hk. destruct (decide (k = j)) as [->|Hne]; [|apply Hc2; lia].
      rewrite Ho2, Hc1; [done|]. intros i Hi. apply Hdi; lia.
    + intros a Ha. rewrite Ho2, Ho1; [done|apply Ha; lia|]. intros k Hk. apply Ha. lia.
Qed.
End write.

(** ** Theorems *)

(** [read_file] prints the first sector of each of the blocks of the file and leaves the
    disk as it is when every one of these sectors has a zero in it; if one has none, which
    is every full sector of a text, it reads on behind its buffer. *)
Theorem read_file_correct (file : ext2_inode) (dev : bdev) x v (hp : H2) (s : cache) (e : E) :
  not_regular (type_permissions file) = false → length (direct_block file) = 12%nat → env_wf e →
  let bs := blocks_read x (size_low file) 0 (direct_block file) in
  (∀ b, b ∈ bs → present dev (ADDR_OF_BLOCK x b)) →
  if forallb (λ b, terminated (content e (location dev (ADDR_OF_BLOCK x b)))) bs
  then ∃ e', read_file file dev (mkWorld x v hp (s, e)) = Ok tt (mkWorld x v hp (s, e')) ∧ content e' = content e
  else read_file file dev (mkWorld x v hp (s, e)) = Fault.
Proof using Type*.
  intros Hr Hl He bs Hp. unfold read_file. skip_print e1 He1 Hc1. rewrite Hr.
  pose proof (read_file_loop_spec file dev x v hp s (direct_block file) 0 e1 eq_refl ltac:(lia) He1 Hp) as Hs.
  cbv zeta in Hs. rewrite Hl, Hc1 in Hs. fold bs in Hs. destruct (forallb _ bs); [|exact Hs].
  destruct Hs as (e2 & E2 & _ & Hc2). exists e2. by split.
Qed.

(** C29. [write_file] puts the bytes, padded with zeros, into the first sectors of the blocks of
    the file, whichever blocks they are: a block number 0, which stands for a hole, is the
    start of the partition. It returns [nmemb] up to eleven sectors; beyond, it writes
    twelve and says that it wrote eleven. *)
Theorem write_file_correct (file : ext2_inode) (dev : bdev) x v (hp : H2) (s : cache) (e : E) src size nmemb :
  not_regular (type_permissions file) = false → writable file dev x src size nmemb → env_wf e →
  let total := u32 (nmemb * size) in
  ∃ e', write_file src size nmemb file dev (mkWorld x v hp (s, e)) =
      Ok (if 5632 <? total then 5632 / size else nmemb) (mkWorld x v hp (s, e')) ∧
    (∀ k, (k < chunks total)%nat → content e' (location dev (file_sector file x k)) = chunk src total k) ∧
    ∀ a, (∀ k, (k < chunks total)%nat → a ≠ location dev (file_sector file x k)) → content e' a = content e a.
Proof using Type*.
  intros Hr Hw He total. unfold write_file. skip_print e1 He1 Hc1. rewrite Hr.
  destruct (write_file_loop_spec file dev x src size nmemb v hp s 13 0 e1 Hw eq_refl) as (e2 & E2 & Hc2 & Ho2); [|done|].
  { pose proof (u32_range (nmemb * size)) as Htot. fold total in Htot. fold total. unfold chunks.
    destruct (Z_lt_le_dec 0 total); [left|right]; word_lia. }
  exists e2. split; [exact E2|]. split; [intros k Hk; apply Hc2; split; [lia|exact Hk]|].
  intros a Ha. rewrite Ho2, Hc1; [done|]. intros k [_ Hk]. apply Ha, Hk.
Qed.

(** The bitmap scan ends and keeps the disk well formed when there are no more inodes than
    an [int] has bits. *)
Lemma scan_bitmap_spec (dev : bdev) bitmap x v (hp : H2) (s : cache) (todo : nat) : ∀ k buf (e : E),
  0 ≤ k → k + todo ≤ 32 → env_wf e → present dev (u32 bitmap) → present dev (u32 (bitmap + 1)) →
  (k mod 16 ≠ 0 → length buf = 512%nat ∧ Forall is_byte buf) → (∀ e a, Forall is_byte (content (E := E) e a)) →
  ∃ e', scan_bitmap todo k bitmap buf dev (mkWorld x v hp (s, e)) = Ok tt (mkWorld x v hp (s, e')) ∧ env_wf e'.
Proof using Type*.
  induction todo as [|todo IH]; intros k buf e Hk Hle He Hp0 Hp1 Hbuf Hbytes; cbn [scan_bitmap]; [by exists e|].
  unfold SIZEOF_BGD. rewrite (u32_small (k * 32)) by lia.
  assert (present dev (u32 (bitmap + k * 32 / 512))) as Hp.
  { destruct (decide (k < 16)); [replace (k * 32 / 512) with 0 by word_lia; by rewrite Z.add_0_r|].
    by replace (k * 32 / 512) with 1 by word_lia. }
  assert (∀ l (e : E), length l = 512%nat → Forall is_byte l → env_wf e →
    ∃ e', (let* c := nth_block l (k / 512) in
      if 31 <? k mod 512 then fault else
      let* l' := (if Z.shiftr (s8 c) (k mod 512) =? 0 then
        on_disk (disk_io (bd_write dev (<[Z.to_nat (k / 512) := u8 (Z.lor (s8 c) (Z.shiftl 1 (k mod 512)))]> l)
          (u32 (bitmap + k * 32 / 512)))) ;;; ret (<[Z.to_nat (k / 512) := u8 (Z.lor (s8 c) (Z.shiftl 1 (k mod 512)))]> l)
        else ret l) in scan_bitmap todo (k + 1) bitmap l' dev) (mkWorld x v hp (s, e)) =
        Ok tt (mkWorld x v hp (s, e')) ∧ env_wf e') as Hbody.
  { intros l e0 Hl Hlb He0. rewrite (Z.div_small k 512), (Z.mod_small k 512) by lia.
    destruct l as [|c l]; [done|]. rewrite (bind_ok _ _ _ c (mkWorld x v hp (s, e0))) by done.
    rewrite (proj2 (Z.ltb_ge 31 k)) by lia.
    destruct (_ =? 0).
    - rewrite bind_assoc. match goal with |- context [bind (on_disk (disk_io (bd_write _ ?m _))) ?f _] =>
        assert (length m = 512%nat ∧ Forall is_byte m) as [Hml Hmb];
          [split; [by rewrite length_insert|apply Forall_insert; [done|apply u8_range]]|];
        destruct (bind_bd_write dev _ m f x v hp s e0 Hp He0 Hml Hmb) as (e1 & -> & He1 & _) end.
      rewrite bind_ret_l. apply IH; auto; lia.
    - rewrite bind_ret_l. apply IH; auto; lia. }
  destruct (Z.eqb_spec ((k * 32) mod 512) 0) as [Hz|Hz].
  - match goal with |- context [bind (on_disk (disk_io (bd_read _ _))) ?f _] =>
      destruct (bind_bd_read dev (u32 (bitmap + k * 32 / 512)) f x v hp s e Hp He) as (e1 & -> & He1 & _) end.
    apply Hbody; [apply content_length|apply Hbytes|done].
  - rewrite bind_ret_l. destruct Hbuf as [Hl Hb]; [word_lia|]. by apply Hbody.
Qed.

(** [alloc_inode] on a first group with free inodes: the scan does not stop at a free inode,
    marks bits of all of them that read as clear, and the result is the number of
    inodes of three groups, whatever the bitmap says. It is no inode of the group. *)
Theorem alloc_inode_result raw (dev : bdev) x v (hp : H2) (s : cache) (e : E) hb :
  buffers s !! bgdt_entries x = Some hb → env_wf e → 0 < block_group_count x → 0 < inodes_per_group x ≤ 32 →
  let d := decode_bgd (take 32 (buff hb)) in
  free_inode_count d ≠ 0 → present dev (u32 (inode_usage_bitmap d)) → present dev (u32 (inode_usage_bitmap d + 1)) →
  (∀ e a, Forall is_byte (content (E := E) e a)) →
  ∃ e', alloc_inode 0 raw dev (mkWorld x v hp (s, e)) = Ok (3 * inodes_per_group x) (mkWorld x v hp (s, e')) ∧
    ¬ 1 ≤ 3 * inodes_per_group x ≤ inodes_per_group x.
Proof using Type*.
  intros Hb He Hg Hi d Hfree Hp0 Hp1 Hbytes. unfold alloc_inode. rewrite bind_ext2.
  destruct (Z.to_nat (block_group_count x)) as [|todo] eqn:Ht; [lia|]. cbn [alloc_groups].
  assert (∀ {B} (f : ext2_bgd → M W B), bind (bgd_entry 0) f (mkWorld x v hp (s, e)) = f d (mkWorld x v hp (s, e))) as Hd.
  { intros B f. apply bind_ok. unfold bgd_entry. rewrite bind_ext2, (bind_ok _ _ _ _ _ (data_of_ok _ _ x v hp s e Hb)).
    unfold SIZEOF_BGD. by rewrite (bind_ok _ _ _ _ _ (slice_ok (buff hb) (32 * 0) 32 _ ltac:(lia))). }
  cbn [Z.eqb negb]. rewrite bind_assoc, Hd. rewrite (proj2 (Z.eqb_neq _ 0) Hfree), bind_assoc, bind_ext2, bind_assoc.
  destruct (scan_bitmap_spec dev (inode_usage_bitmap d) x v hp s (Z.to_nat (inodes_per_group x)) 0 raw e) as (e1 & E1 & He1);
    try done; try lia.
  rewrite (bind_ok _ _ _ _ _ E1). exists e1. split; [|lia].
  assert (alloc_groups todo (0 + 1) (inodes_per_group x) raw dev (mkWorld x v hp (s, e1)) =
    Ok (1, inodes_per_group x) (mkWorld x v hp (s, e1))) as E2.
  { destruct todo as [|todo]; [done|]. cbn [alloc_groups]. by rewrite (proj2 (Z.eqb_neq _ 0)) by lia. }
  rewrite (bind_ok _ _ _ _ _ E2). unfold ret. do 2 f_equal. rewrite u32_small; lia.
Qed.
End operations.
