(* ===== verification/Devfs.v ===== *)
(** * The device file system (src/fs/devfs/devfs.c)

    Reading and writing a block device as a sequence of bytes through the buffer
    cache, and the file operations and super block on top of it. [fuel] bounds the walks
    along the hash chains of the cache. The bytes a read stores to the caller's memory,
    in order, are part of its result, and those a write takes from it an argument. *)

From S2P Require Import Prelude Memory Common Io Ata Buffer Requests Vfs.

Section operations.
Context `{BlockDevice E}.

(** ** Block devices *)

(** [while (chars-- > 0) *(dest++) = *(ptr++)], from [ptr = offset + bh->buff] on; reading
    behind the buffer is undefined. *)
Definition buffer_bytes (h : buffer_head) (offset chars : Z) : M cache (list Z) :=
  if offset + chars <=? BLOCK_SIZE
  then ret (take (Z.to_nat chars) (drop (Z.to_nat offset) (buff h))) else fault.

(** The loop; [n] bounds its iterations, [read] counts the bytes. *)
Fixpoint bdev_read_loop (n fuel : nat) (d block offset count pos read : Z) :
    M (cache * E) (Z * Z * list Z) :=
  match n with
  | O => timeout
  | S n =>
      if 0 <? count then
        let* bh := get_block fuel block d in
        let chars := if count <? BLOCK_SIZE then count else BLOCK_SIZE in
        let* h := on_cache (ld_buffer bh) in
        let* data := on_cache (buffer_bytes h offset chars) in
        on_cache (put_block bh) ;;;
        let* (read', pos', rest) :=
          bdev_read_loop n fuel d (u32 (block + 1)) 0 (count - chars) (u32 (pos + chars)) (u32 (read + chars)) in
        ret (read', pos', data ++ rest)
      else ret (read, pos, [])
  end.

(** The result: the number of bytes, the new position and the bytes stored to [dest]. *)
Definition bdev_read (fuel : nat) (d count pos : Z) : M (cache * E) (Z * Z * list Z) :=
  let* (read, pos, data) :=
    bdev_read_loop (S (Z.to_nat count)) fuel d (pos / BLOCK_SIZE) (pos mod BLOCK_SIZE) count pos 0 in
  ret (s32 read, pos, data).

(** [*(ptr++) = *(src++)] into the buffer. *)
Definition store_bytes (bh offset : Z) (l : list Z) : M cache unit :=
  if offset + length l <=? BLOCK_SIZE
  then upd_buffer bh (λ h,
    set_buff (take (Z.to_nat offset) (buff h) ++ l ++ drop (Z.to_nat offset + length l) (buff h)) h)
  else fault.

(** [src] are the bytes at the argument. *)
Fixpoint bdev_write_loop (n fuel : nat) (d block offset : Z) (src : list Z) (count pos written : Z) :
    M (cache * E) (Z * Z) :=
  match n with
  | O => timeout
  | S n =>
      if 0 <? count then
        let* bh := get_block fuel block d in
        on_cache (upd_buffer bh (set_dirty true)) ;;;
        let chars := if count <? BLOCK_SIZE then count else BLOCK_SIZE in
        (if bool_decide (chars ≤ length src) then on_cache (store_bytes bh offset (take (Z.to_nat chars) src))
         else fault) ;;;
        on_cache (put_block bh) ;;;
        bdev_write_loop n fuel d (u32 (block + 1)) 0 (drop (Z.to_nat chars) src) (count - chars)
          (u32 (pos + chars)) (u32 (written + chars))
      else ret (written, pos)
  end.
Definition bdev_write (fuel : nat) (d : Z) (src : list Z) (count pos : Z) : M (cache * E) (Z * Z) :=
  let* (written, pos) :=
    bdev_write_loop (S (Z.to_nat count)) fuel d (pos / BLOCK_SIZE) (pos mod BLOCK_SIZE) src count pos 0 in
  ret (s32 written, pos).

(** ** File operations. The count of a file operation is a [size_t], that of the device
    functions an [int]. *)

Definition devfs_read (fuel : nat) (filp : file) (count pos : Z) : M (vfs * (cache * E)) (Z * Z * list Z) :=
  let* i := on_fst (ld_inode (f_inode filp)) in
  if MAJOR_NUMBER (i_no i) =? BLOCK_DEV then on_snd (bdev_read fuel (u16 (i_no i)) (s32 count) pos)
  else kpanic "in devfs read only supports block devices".
Definition devfs_write (fuel : nat) (filp : file) (src : list Z) (count pos : Z) : M (vfs * (cache * E)) (Z * Z) :=
  let* i := on_fst (ld_inode (f_inode filp)) in
  if MAJOR_NUMBER (i_no i) =? BLOCK_DEV then on_snd (bdev_write fuel (u16 (i_no i)) src (s32 count) pos)
  else kpanic "in devfs write: unsupported".
Definition devfs_open (ino : Z) (filp : file) : Z * file := (0, mkFile ino (f_name filp) 0).
Definition devfs_release (ino : Z) (filp : file) : Z := 0.

(** ** Inodes and the super block *)

(** The statics of devfs.c; the root inode and the name "devfs" are at fixed addresses. *)
Class DevfsLayout := { devfs_root : Z; devfs_literal : Z }.
Record devfs := mkDevfs { devfs_vfs : vfs; devfs_super_block : Z }.
Definition on_devfs_vfs {A} (m : M vfs A) : M devfs A :=
  zoom devfs_vfs (λ v s, mkDevfs v (devfs_super_block s)) m.

Definition set_i_permissions (p : Z) (i : inode) : inode :=
  mkInode (i_dev i) (i_no i) (i_size i) (i_ops i) (i_sb i) (i_gid i) (i_uid i) (i_flags i) p
    (i_mount_point i) (i_counter i) (i_next i) (i_prev i).

(** The walk over the devices that sets the permissions. *)
Fixpoint permissions_loop (fuel : nat) (p dest : Z) : M (devfs * cache) unit :=
  match fuel with
  | O => timeout
  | S f =>
      if p =? 0 then ret tt else
      let* c := gets snd in
      let* b := of_option (bdevs c !! p) in
      let* i := on_fst (on_devfs_vfs (ld_inode dest)) in
      when (MINOR_NUMBER (i_no i) =? minor b)
        (on_fst (on_devfs_vfs (upd_inode dest (set_i_permissions (permissions b))))) ;;;
      permissions_loop f (Ata.next b) dest
  end.

(** [MAJOR_NUMBER(dest->i_no == BLOCK_DEV)] expands to [dest->i_no == BLOCK_DEV >> 8]. *)
Definition devfs_read_inode (dest : Z) : M (devfs * cache) unit :=
  let* s := gets fst in
  on_fst (on_devfs_vfs (upd_inode dest (λ i,
    mkInode (i_dev i) (i_no i) (i_size i) (Some Devfs_inode_ops) (devfs_super_block s) (i_gid i) (i_uid i)
      (i_flags i) (i_permissions i) (i_mount_point i) (i_counter i) (i_next i) (i_prev i)))) ;;;
  let* i := on_fst (on_devfs_vfs (ld_inode dest)) in
  when ((0 <? i_no i) && truth (u8 (b2z (i_no i =? Z.shiftr BLOCK_DEV 8))))
    (let* c := gets snd in permissions_loop (S (size (bdevs c))) (block_head c) dest) ;;;
  on_fst (on_devfs_vfs (upd_inode dest (λ i,
    mkInode (i_dev i) (i_no i) (i_size i) (i_ops i) (i_sb i) (i_gid i) (i_uid i) (i_flags i) (i_permissions i)
      false 0 (i_next i) (i_prev i)))).

Definition devfs_read_super `{DevfsLayout} (sb : Z) : M (devfs * cache) unit :=
  let* b := on_fst (on_devfs_vfs (ld_sb sb)) in
  when (sb_fs_type b =? 0)
    (on_fst (on_devfs_vfs
      (let* l := find_file_system devfs_literal 5 in
       let* t := ld_link l in
       upd_sb sb (λ b, mkSuper (sb_dev b) t (sb_ops b) (sb_mount_point b) (sb_root b) (sb_next b))))) ;;;
  devfs_read_inode devfs_root ;;;
  on_fst (on_devfs_vfs
    (upd_inode devfs_root (λ i,
       mkInode (i_dev i) 0 (i_size i) (i_ops i) (i_sb i) (i_gid i) (i_uid i) (i_flags i) (i_permissions i)
         (i_mount_point i) (i_counter i) (i_next i) (i_prev i)) ;;;
     upd_sb sb (λ b, mkSuper (sb_dev b) (sb_fs_type b) (Some Devfs_super_ops) (sb_mount_point b) devfs_root (sb_next b)))) ;;;
  on_fst (modify (λ s, mkDevfs (devfs_vfs s) sb)).

(** ** Reading *)

(** The blocks a read of [count] bytes from the start of block [k] touches. *)
Definition blocks (k count : Z) : list Z := seqZ k ((count + 511) / 512).
(** The bytes of the device from block [k] on. *)
Definition device_bytes (e : E) (b : bdev) (ks : list Z) : list Z := ks ≫= λ k, content e (location b k).

Lemma blocks_cons k count : 0 < count → blocks k count = k :: blocks (k + 1) (count - 512).
Proof using.
  intros Hc. unfold blocks. rewrite seqZ_cons by word_lia. f_equal. replace (Z.succ k) with (k + 1) by lia.
  f_equal. word_lia.
Qed.
Lemma blocks_nil k count : count ≤ 0 → blocks k count = [].
Proof using. intros Hc. unfold blocks. apply seqZ_nil. word_lia. Qed.

Lemma device_bytes_app e b k ks : device_bytes e b (k :: ks) = content e (location b k) ++ device_bytes e b ks.
Proof using. done. Qed.

Lemma buffer_bytes_ok h offset chars s :
  offset + chars ≤ 512 →
  buffer_bytes h offset chars s = Ok (take (Z.to_nat chars) (drop (Z.to_nat offset) (buff h))) s.
Proof using. intros Hle. unfold buffer_bytes, BLOCK_SIZE. by rewrite (proj2 (Z.leb_le _ _)). Qed.

Lemma bdev_read_loop_ok fuel d b n : ∀ k off cnt pos rd F s e,
  (Z.to_nat cnt < n)%nat → 0 ≤ cnt → 0 ≤ off < 512 → off = 0 ∨ off + cnt ≤ 512 →
  0 ≤ k → k + cnt < 4294967296 → 0 ≤ pos → pos + cnt < 4294967296 → 0 ≤ rd → rd + cnt < 4294967296 →
  ready fuel d b (blocks k cnt) F s e → (length (blocks k cnt) < length F)%nat →
  ∃ s' e' F', bdev_read_loop n fuel d k off cnt pos rd (s, e) =
      Ok (rd + cnt, pos + cnt, take (Z.to_nat cnt) (drop (Z.to_nat off) (device_bytes e b (blocks k cnt)))) (s', e') ∧
    content e' = content e ∧ ready fuel d b [] F' s' e' ∧ F' ≠ [].
Proof using Type*.
  induction n as [|n IH]; intros k off cnt pos rd F s e Hn Hcnt Hoff Hal Hk0 Hk Hp0 Hp Hr0 Hr Hrd HF; [lia|].
  cbn [bdev_read_loop]. destruct (Z.ltb_spec 0 cnt) as [Hpos|Hz].
  - rewrite blocks_cons in Hrd, HF |- * by done.
    destruct (ready_request _ _ _ _ _ _ _ _ Hrd HF) as (p & s1 & e1 & h & s2 & F2 & E1 & Hh & Hb & Hc & E2 & Hrd2 & HF2).
    rewrite (bind_ok _ _ _ _ _ E1). cbv zeta. change BLOCK_SIZE with 512.
    set (chars := if cnt <? 512 then cnt else 512).
    assert (0 < chars ∧ (cnt ≤ 512 ∧ chars = cnt ∨ off = 0 ∧ 512 < cnt ∧ chars = 512)) as [Hch0 Hch].
    { unfold chars. destruct (Z.ltb_spec cnt 512); lia. }
    rewrite (bind_ok _ _ _ _ _ (on_cache_ok _ _ e1 _ _ (ld_buffer_ok _ _ _ Hh))).
    rewrite (bind_ok _ _ _ _ _ (on_cache_ok _ _ e1 _ _ (buffer_bytes_ok h off chars s1 ltac:(lia)))).
    rewrite (bind_ok _ _ _ _ _ (on_cache_ok _ _ e1 _ _ E2)).
    assert (blocks (k + 1) (cnt - 512) = blocks (k + 1) (cnt - chars)) as Heq.
    { destruct Hch as [[? ->]|(_ & _ & ->)]; [|done]. by rewrite !blocks_nil by lia. }
    rewrite Heq in *. usmall.
    destruct (IH (k + 1) 0 (cnt - chars) (pos + chars) (rd + chars) F2 s2 e1) as (s' & e' & F' & E3 & Hc' & Hrd' & HF');
      try done; try lia.
    exists s', e', F'. rewrite (bind_ok _ _ _ _ _ E3). split; [|split; [congruence|done]].
    unfold ret. do 2 f_equal; [f_equal; lia|]. rewrite device_bytes_app, Hb.
    assert (device_bytes e1 b (blocks (k + 1) (cnt - chars)) = device_bytes e b (blocks (k + 1) (cnt - chars))) as ->
      by (unfold device_bytes; by rewrite Hc).
    pose proof (content_length e (location b k)) as Hlen. rewrite drop_0.
    destruct Hch as [[? ->]|(-> & ? & ->)].
    + rewrite blocks_nil, Z.sub_diag by lia. unfold device_bytes at 2. cbn [mbind list_bind]. by rewrite take_0, !app_nil_r.
    + rewrite drop_0. change (Z.to_nat 512) with 512%nat. rewrite !drop_0, (take_ge (content _ _)) by lia.
      rewrite take_app_ge by lia. do 2 f_equal. lia.
  - exists s, e, F. assert (cnt = 0) as -> by lia. rewrite !Z.add_0_r, take_0. split; [done|].
    split; [done|]. rewrite blocks_nil in Hrd, HF by lia. split; [done|]. intros ->; simpl in HF; lia.
Qed.

(** C25. A read that starts at a block boundary, or stays within a block, returns the bytes
    of the device at the position, moves the position, and leaves the disk alone. The blocks
    it touches are in hash chains of their own, no buffer is dirty, and there are more free
    buffers than blocks ([ready]), so that at most 99 blocks are read at once. From any
    other position the copy runs over the end of a buffer: C38. *)
Theorem bdev_read_correct fuel d b count pos F s e :
  0 ≤ count → 0 ≤ pos → pos + count < 2147483648 → pos mod 512 = 0 ∨ pos mod 512 + count ≤ 512 →
  ready fuel d b (blocks (pos / 512) count) F s e → (length (blocks (pos / 512) count) < length F)%nat →
  ∃ s' e' F', bdev_read fuel d count pos (s, e) =
      Ok (count, pos + count,
        take (Z.to_nat count) (drop (Z.to_nat (pos mod 512)) (device_bytes e b (blocks (pos / 512) count)))) (s', e') ∧
    content e' = content e ∧ ready fuel d b [] F' s' e'.
Proof using Type*.
  intros Hc Hp Hlt Hal Hr HF. unfold bdev_read, BLOCK_SIZE.
  destruct (bdev_read_loop_ok fuel d b (S (Z.to_nat count)) (pos / 512) (pos mod 512) count pos 0 F s e)
    as (s' & e' & F' & E1 & Hcont & Hr' & _); try done; try word_lia.
  exists s', e', F'. rewrite (bind_ok _ _ _ _ _ E1). split; [|done]. unfold ret. do 3 f_equal. word_lia.
Qed.

(** C38. A read whose first block is to be left with a partial count: the loop copies a whole
    block's worth from the offset on, and runs over the end of the buffer. *)
Theorem bdev_read_unaligned_faults fuel d b count pos F s e :
  0 ≤ pos → 0 < count → 512 < pos mod 512 + count `min` 512 →
  ready fuel d b [pos / 512] F s e → F ≠ [] →
  bdev_read fuel d count pos (s, e) = Fault.
Proof using Type*.
  intros Hp Hc Hover Hr HF. unfold bdev_read. apply bind_fault. cbn [bdev_read_loop].
  rewrite (proj2 (Z.ltb_lt _ _)) by done. change BLOCK_SIZE with 512.
  destruct (ready_get fuel d b (pos / 512) [] F s e Hr) as (p & s1 & e1 & h & F1 & E1 & Hh & _).
  { destruct F; [done|simpl; lia]. }
  rewrite (bind_ok _ _ _ _ _ E1). cbv zeta.
  rewrite (bind_ok _ _ _ _ _ (on_cache_ok _ _ e1 _ _ (ld_buffer_ok _ _ _ Hh))). apply bind_fault.
  unfold on_cache, on_fst, zoom. cbn [fst]. unfold buffer_bytes, BLOCK_SIZE.
  rewrite (proj2 (Z.leb_gt _ _)); [done|]. destruct (Z.ltb_spec count 512); lia.
Qed.

(** ** Writing *)

(** A request for a block that is held. *)
Lemma get_held fuel k d s e l p h :
  env_wf e → bucket s k l → (length l < fuel)%nat → List.find (tag_is (buffers s) k d) l = Some p →
  buffers s !! p = Some h → count h ≠ 0 →
  ∃ s' e' h', get_block fuel k d (s, e) = Ok p (s', e') ∧ content e' = content e ∧ env_wf e' ∧
    same_view s s' ∧ buffers s' !! p = Some h' ∧ buff h' = buff h ∧
    lru_buff s' = lru_buff s ∧ mru_buff s' = mru_buff s.
Proof using Type*.
  intros He Hb Hl Hf Hp Hc. rewrite (get_block_cases _ _ _ _ _ _ Hb Hl), Hf. unfold take_hit.
  destruct (prints_hex32 same_content bd_console k e He) as (e1 & E1 & He1 & Hcont).
  rewrite (bind_ok _ _ _ _ _ (disk_io_ok _ s _ _ _ E1)).
  rewrite (bind_ok _ _ _ _ _ (on_cache_ok _ _ e1 _ _ (ld_buffer_ok _ _ _ Hp))).
  rewrite (proj2 (Z.eqb_neq _ _) Hc), bind_ret_l.
  destruct (upd_view p (set_count (u32 (count h + 1))) h s Hp) as (s1 & E2 & V1 & L1 & M1 & B1); [done|].
  exists s1, e1, (set_count (u32 (count h + 1)) h). rewrite (bind_ok _ _ _ tt (s1, e1)).
  - split_and!; try done. by rewrite B1, decide_True.
  - apply on_cache_ok. by rewrite (bind_ok _ _ _ _ _ (ld_buffer_ok _ _ _ Hp)).
Qed.

Lemma splice_read {A} (off : nat) (src l : list A) :
  (off + length src ≤ length l)%nat →
  take (length src) (drop off (take off l ++ src ++ drop (off + length src) l)) = src.
Proof using.
  intros Hle. rewrite drop_app_ge by (rewrite length_take; lia). rewrite length_take, Nat.min_l, Nat.sub_diag, drop_0 by lia.
  by rewrite take_app_length.
Qed.

(** Storing bytes to a held buffer. *)
Lemma write_loop_block n fuel d k off src cnt pos w s e p s1 e1 h :
  0 < cnt → 0 ≤ off → off + cnt ≤ 512 → cnt = length src →
  get_block fuel k d (s, e) = Ok p (s1, e1) → buffers s1 !! p = Some h →
  is_Some (buffers s1 !! lru_buff s1) → is_Some (buffers s1 !! mru_buff s1) →
  ∃ s2 h2, bdev_write_loop (S (S n)) fuel d k off src cnt pos w (s, e) = Ok (u32 (w + cnt), u32 (pos + cnt)) (s2, e1) ∧
    same_view s1 s2 ∧ buffers s2 !! p = Some h2 ∧
    buff h2 = take (Z.to_nat off) (buff h) ++ src ++ drop (Z.to_nat off + length src) (buff h) ∧
    (1 ≤ count h → 1 ≤ count h2) ∧ count h2 ≤ count h ∧
    is_Some (buffers s2 !! lru_buff s2) ∧ is_Some (buffers s2 !! mru_buff s2).
Proof using.
  intros Hc Hoff Hle Hsrc E1 Hp Hl Hm. cbn [bdev_write_loop]. rewrite (proj2 (Z.ltb_lt _ _)) by done.
  rewrite (bind_ok _ _ _ _ _ E1). cbv zeta. change BLOCK_SIZE with 512.
  destruct (upd_view p (set_dirty true) h s1 Hp) as (s2 & E2 & V2 & L2 & M2 & B2); [done|].
  rewrite (bind_ok _ _ _ _ _ (on_cache_ok _ _ e1 _ _ E2)).
  assert ((if cnt <? 512 then cnt else 512) = cnt) as -> by (destruct (Z.ltb_spec cnt 512); lia).
  rewrite bool_decide_true by lia. rewrite (firstn_all2 src) by lia.
  assert (buffers s2 !! p = Some (set_dirty true h)) as Hp2 by (by rewrite B2, decide_True).
  set (g := λ h, set_buff (take (Z.to_nat off) (buff h) ++ src ++ drop (Z.to_nat off + length src) (buff h)) h).
  destruct (upd_view p g _ s2 Hp2) as (s3 & E3 & V3 & L3 & M3 & B3); [done|].
  rewrite (bind_ok _ _ _ tt (s3, e1)).
  2:{ apply on_cache_ok. unfold store_bytes, BLOCK_SIZE. rewrite (proj2 (Z.leb_le _ _)) by lia. exact E3. }
  assert (same_view s1 s3) as V by (by etrans).
  assert (buffers s3 !! p = Some (g (set_dirty true h))) as Hp3 by (by rewrite B3, decide_True).
  destruct (put_any p _ s3 Hp3) as (s4 & h4 & E4 & _ & V4 & Hp4 & Hpay4 & Hc4 & Hc4' & Hl4 & Hm4);
    [rewrite L3, L2; by apply (view_some s1)|rewrite M3, M2; by apply (view_some s1)|].
  rewrite (bind_ok _ _ _ _ _ (on_cache_ok _ _ e1 _ _ E4)).
  exists s4, h4. rewrite (proj2 (Z.ltb_ge 0 (cnt - cnt))) by lia. split; [done|].
  assert (buff h4 = buff (g (set_dirty true h))) as Hb4 by (unfold payload in Hpay4; congruence).
  split; [by etrans|]. split; [done|]. split; [exact Hb4|]. by split_and!.
Qed.

Lemma read_loop_block n fuel d k off cnt pos r s e p s1 e1 h :
  0 < cnt → 0 ≤ off → off + cnt ≤ 512 →
  get_block fuel k d (s, e) = Ok p (s1, e1) → buffers s1 !! p = Some h →
  is_Some (buffers s1 !! lru_buff s1) → is_Some (buffers s1 !! mru_buff s1) →
  ∃ s2, bdev_read_loop (S (S n)) fuel d k off cnt pos r (s, e) =
    Ok (u32 (r + cnt), u32 (pos + cnt), take (Z.to_nat cnt) (drop (Z.to_nat off) (buff h))) (s2, e1).
Proof using.
  intros Hc Hoff Hle E1 Hp Hl Hm. cbn [bdev_read_loop]. rewrite (proj2 (Z.ltb_lt _ _)) by done.
  rewrite (bind_ok _ _ _ _ _ E1). cbv zeta. change BLOCK_SIZE with 512.
  assert ((if cnt <? 512 then cnt else 512) = cnt) as -> by (destruct (Z.ltb_spec cnt 512); lia).
  rewrite (bind_ok _ _ _ _ _ (on_cache_ok _ _ e1 _ _ (ld_buffer_ok _ _ _ Hp))).
  rewrite (bind_ok _ _ _ _ _ (on_cache_ok _ _ e1 _ _ (buffer_bytes_ok h off cnt s1 Hle))).
  destruct (put_any p _ s1 Hp Hl Hm) as (s2 & h2 & E2 & _). rewrite (bind_ok _ _ _ _ _ (on_cache_ok _ _ e1 _ _ E2)).
  exists s2. rewrite (proj2 (Z.ltb_ge 0 (cnt - cnt))) by lia. rewrite bind_ret_l. by rewrite app_nil_r.
Qed.

(** C26. Bytes written within a block are read back from the same position, while the disk
    is not touched: the data stays in the dirty buffer of the cache. *)
Theorem bdev_write_read fuel d b src count pos F s e :
  0 < count → count = length src → 0 ≤ pos → pos + count < 2147483648 → pos mod 512 + count ≤ 512 →
  ready fuel d b [pos / 512] F s e → (2 ≤ length F)%nat →
  ∃ s1 e1 s2 e2, bdev_write fuel d src count pos (s, e) = Ok (count, pos + count) (s1, e1) ∧ content e1 = content e ∧
    bdev_read (S fuel) d count pos (s1, e1) = Ok (count, pos + count, src) (s2, e2) ∧ content e2 = content e.
Proof using Type*.
  intros Hc Hsrc Hp Hlt Hin Hr HF. unfold bdev_write, bdev_read. change BLOCK_SIZE with 512.
  destruct (ready_get fuel d b (pos / 512) [] F s e Hr ltac:(cbn [length]; lia)) as
    (p & s1 & e1 & h & F1 & E1 & Hh & Hbn & Hdv & Hb & Hcont & Hr1 & HF1 & _ & _ & _ & _ & _ & _ & l & Hbk & Hl & Hf).
  assert (is_Some (buffers s1 !! lru_buff s1)) as Hlru.
  { apply (free_path_head s1 F1); [apply (rd_free _ _ _ _ _ _ _ Hr1)|]. intros ->. simpl in HF1. lia. }
  pose proof (rd_held _ _ _ _ _ _ _ Hr1 p h Hh Hdv) as Hheld.
  assert (∃ n, Z.to_nat count = S n) as [n Hn] by (exists (Z.to_nat (count - 1)); lia). rewrite Hn.
  destruct (write_loop_block n fuel d (pos / 512) (pos mod 512) src count pos 0 s e p s1 e1 h Hc)
    as (s2 & h2 & E2 & V2 & Hp2 & Hb2 & Hc2 & _ & Hl2 & Hm2); try done; [word_lia|apply (rd_mru _ _ _ _ _ _ _ Hr1)|].
  destruct (get_held (S fuel) (pos / 512) d s2 e1 l p h2) as (s3 & e3 & h3 & E3 & Hcont3 & He3 & V3 & Hp3 & Hb3 & L3 & M3);
    [apply (rd_env _ _ _ _ _ _ _ Hr1)|destruct V2; by apply (bucket_view s1)|lia| |done|lia|].
  { destruct V2. by rewrite (find_view s1 s2). }
  destruct (read_loop_block n (S fuel) d (pos / 512) (pos mod 512) count pos 0 s2 e1 p s3 e3 h3 Hc)
    as (s4 & E4); try done; [word_lia|rewrite L3; by apply (view_some s2)|rewrite M3; by apply (view_some s2)|].
  exists s2, e1, s4, e3. rewrite (bind_ok _ _ _ _ _ E2), (bind_ok _ _ _ _ _ E4). usmall.
  split; [|split; [done|split; [|congruence]]]; unfold ret; f_equal; [f_equal; word_lia|].
  f_equal; [f_equal; word_lia|]. rewrite Hb3, Hb2, Hsrc, Nat2Z.id. apply splice_read.
  rewrite Hb, content_length. word_lia.
Qed.

(** ** File operations and inodes *)

(** Reading a file of the device file system: a block device is read at the position,
    a count that is negative as an [int] reads nothing, any other inode panics. *)
Theorem devfs_read_correct fuel filp i count pos v (s : cache) (e : E) :
  inodes v !! f_inode filp = Some i → 0 ≤ count < 4294967296 →
  devfs_read fuel filp count pos (v, (s, e)) =
    if MAJOR_NUMBER (i_no i) =? BLOCK_DEV
    then if count <? 2147483648
         then on_snd (bdev_read fuel (u16 (i_no i)) count pos) (v, (s, e))
         else Ok (0, pos, []) (v, (s, e))
    else Panic "in devfs read only supports block devices" (v, (s, e)).
Proof using.
  intros Hi Hc. unfold devfs_read.
  rewrite (bind_ok _ _ _ i (v, (s, e))) by (unfold on_fst, zoom, ld_inode; simpl; by rewrite Hi).
  destruct (_ =? _); [|done]. destruct (Z.ltb_spec count 2147483648).
  - by replace (s32 count) with count by word_lia.
  - assert (s32 count < 0) as Hneg by word_lia. unfold on_snd, zoom, bdev_read. cbn [bdev_read_loop snd fst].
    by rewrite (proj2 (Z.ltb_ge 0 _)) by lia.
Qed.
End operations.

Definition fill_inode (sb : Z) (i : inode) : inode :=
  mkInode (i_dev i) (i_no i) (i_size i) (Some Devfs_inode_ops) sb (i_gid i) (i_uid i) (i_flags i) (i_permissions i)
    false 0 (i_next i) (i_prev i).
Definition set_i_no (n : Z) (i : inode) : inode :=
  mkInode (i_dev i) n (i_size i) (i_ops i) (i_sb i) (i_gid i) (i_uid i) (i_flags i) (i_permissions i)
    (i_mount_point i) (i_counter i) (i_next i) (i_prev i).

Lemma upd_inode_ok p i f s :
  inodes s !! p = Some i → upd_inode p f s = Ok tt (set_inodes (<[p := f i]> (inodes s)) s).
Proof. intros Hp. unfold upd_inode, ld_inode, bind. by rewrite Hp. Qed.
Lemma upd_sb_ok p b f s :
  super_blocks s !! p = Some b → upd_sb p f s = Ok tt (set_super_blocks (<[p := f b]> (super_blocks s)) s).
Proof. intros Hp. unfold upd_sb, ld_sb, bind. by rewrite Hp. Qed.
Lemma on_devfs_ok {A} (m : M vfs A) v b (c : cache) a v' :
  m v = Ok a v' → on_fst (on_devfs_vfs m) (mkDevfs v b, c) = Ok a (mkDevfs v' b, c).
Proof. intros Hm. unfold on_fst, on_devfs_vfs, zoom. simpl. by rewrite Hm. Qed.

(** Filling an inode sets its operations and super block and clears its counter; the
    permissions of the device are never copied: the comparison with the device number
    is inside the macro's argument. *)
Theorem devfs_read_inode_correct dest v b c i :
  inodes v !! dest = Some i →
  devfs_read_inode dest (mkDevfs v b, c) =
    Ok tt (mkDevfs (set_inodes (<[dest := fill_inode b i]> (inodes v)) v) b, c).
Proof.
  intros Hi. unfold devfs_read_inode. rewrite bind_gets. cbn [fst devfs_super_block].
  rewrite (bind_ok _ _ _ _ _ (on_devfs_ok _ _ _ c _ _ (upd_inode_ok dest i _ v Hi))).
  set (v1 := set_inodes _ v). assert (is_Some (inodes v1 !! dest)) as [i1 Hi1] by (simpl; rewrite lookup_insert_eq; by eexists).
  rewrite (bind_ok _ _ _ i1 (mkDevfs v1 b, c)) by (apply on_devfs_ok; unfold ld_inode; by rewrite Hi1).
  assert (((0 <? i_no i1) && truth (u8 (b2z (i_no i1 =? Z.shiftr BLOCK_DEV 8)))) = false) as ->.
  { change (Z.shiftr BLOCK_DEV 8) with 0. destruct (Z.ltb_spec 0 (i_no i1)); [|done].
    by rewrite (proj2 (Z.eqb_neq _ _)) by lia. }
  unfold when. rewrite bind_ret_l, (on_devfs_ok _ _ _ c _ _ (upd_inode_ok dest i1 _ v1 Hi1)).
  simpl in Hi1. rewrite lookup_insert_eq in Hi1. injection Hi1 as <-. unfold v1, set_inodes. simpl.
  by rewrite insert_insert_eq.
Qed.

Section read_super.
Context `{DevfsLayout}.
Definition devfs_str : list Z := [100; 101; 118; 102; 115].

(** Mounting the device file system fills the super block and the root inode, with the
    type of that name if the super block has none; the root inode gets the super block
    of the previous mount, because the static is assigned last. *)
Theorem devfs_read_super_correct sb v old c ts b i :
  registry v ts → string_at (vmem v) devfs_literal devfs_str →
  super_blocks v !! sb = Some b → inodes v !! devfs_root = Some i →
  let t := if sb_fs_type b =? 0 then found devfs_str ts else sb_fs_type b in
  let b' := mkSuper (sb_dev b) t (Some Devfs_super_ops) (sb_mount_point b) devfs_root (sb_next b) in
  devfs_read_super sb (mkDevfs v old, c) =
    Ok tt (mkDevfs (set_super_blocks (<[sb := b']> (super_blocks v))
      (set_inodes (<[devfs_root := set_i_no 0 (fill_inode old i)]> (inodes v)) v)) sb, c).
Proof.
  intros Hr Hstr Hb Hi. cbv zeta. unfold devfs_read_super.
  rewrite (bind_ok _ _ _ b (mkDevfs v old, c)) by (apply on_devfs_ok; unfold ld_sb; by rewrite Hb).
  set (t := if sb_fs_type b =? 0 then found devfs_str ts else sb_fs_type b).
  set (b1 := mkSuper (sb_dev b) t (sb_ops b) (sb_mount_point b) (sb_root b) (sb_next b)).
  set (v1 := set_super_blocks (<[sb := b1]> (super_blocks v)) v).
  rewrite (bind_ok _ _ _ tt (mkDevfs v1 old, c)).
  2:{ unfold t in b1. destruct (Z.eqb_spec (sb_fs_type b) 0) as [Hz|Hz]; simpl.
      - destruct (find_spec v ts devfs_literal devfs_str 5 Hr Hstr) as [E1 E2]; [simpl; lia|lia|].
        apply on_devfs_ok. change 5 with (Z.of_nat 5) in E1. rewrite (bind_ok _ _ _ _ _ E1), (bind_ok _ _ _ _ _ E2).
        by rewrite (upd_sb_ok _ b _ _ Hb).
      - unfold v1, b1. rewrite insert_id by (rewrite Hb; by destruct b). by destruct v. }
  rewrite (bind_ok _ _ _ _ _ (devfs_read_inode_correct devfs_root v1 old c i Hi)).
  rewrite (bind_ok _ _ _ tt (mkDevfs (set_super_blocks (<[sb := mkSuper (sb_dev b) t (Some Devfs_super_ops) (sb_mount_point b) devfs_root (sb_next b)]> (super_blocks v))
      (set_inodes (<[devfs_root := set_i_no 0 (fill_inode old i)]> (inodes v)) v)) old, c)); [done|].
  apply on_devfs_ok. rewrite (bind_ok _ _ _ _ _ (upd_inode_ok devfs_root (fill_inode old i) _ _ (lookup_insert_eq _ _ _))).
  rewrite (upd_sb_ok sb b1 _ _ (lookup_insert_eq _ _ _)). unfold v1, set_inodes, set_super_blocks. simpl.
  by rewrite !insert_insert_eq.
Qed.
End read_super.
