(* ===== verification/Operations.v ===== *)
(** * The operation tables (include/fs/vfs/vfs.h, fs/ext2/ext2.c, fs/devfs/devfs.c)

    An inode and a super block point to a table of functions of their file system. Here
    are the tables as the source initialises them, and the calls through them; a call of
    a null pointer, or through one, is undefined. *)

From S2P Require Import Prelude Memory Common Io Ata Buffer Requests Alloc Vfs Ext2Format Ext2 Devfs.

(** The functions that some table points to. *)
Inductive fs_function := Fn_ext2_read | Fn_ext2_lookup | Fn_ext2_read_inode | Fn_devfs_read_inode.
#[local] Abbreviation pointer := (option fs_function).

(** ** The tables *)

Record file_table := mkFileTable { fo_write : pointer; fo_read : pointer; fo_open : pointer; fo_release : pointer }.
Record inode_table := mkInodeTable {
  default_file_ops : option file_table; io_create : pointer; io_lookup : pointer; io_link : pointer; io_unlink : pointer;
  io_symlink : pointer; io_mkdir : pointer; io_rmdir : pointer; io_mknod : pointer; io_rename : pointer; io_readlink : pointer;
  io_follow_link : pointer; io_bmap : pointer; io_truncate : pointer; io_permission : pointer; io_read_dir : pointer }.
Record super_table := mkSuperTable {
  so_read_inode : pointer; so_write_inode : pointer; so_put_inode : pointer; so_put_super : pointer;
  so_write_super : pointer; so_remount_fs : pointer }.

Definition ext2_file_ops : file_table := mkFileTable None (Some Fn_ext2_read) None None.
Definition ext2_inode_ops : inode_table :=
  mkInodeTable (Some ext2_file_ops) None (Some Fn_ext2_lookup) None None None None None None None None None None None None None.
Definition ext2_super_operations : super_table := mkSuperTable (Some Fn_ext2_read_inode) None None None None None.

Definition devfs_super_ops : super_table := mkSuperTable (Some Fn_devfs_read_inode) None None None None None.
Definition devfs_file_ops : file_table := mkFileTable None None None None.
Definition devfs_inode_ops : inode_table :=
  mkInodeTable None None None None None None None None None None None None None None None None.

(** The table behind a pointer of [Vfs.v]. *)
Definition inode_table_at (o : inode_operations) : inode_table :=
  match o with Ext2_inode_ops => ext2_inode_ops | Devfs_inode_ops => devfs_inode_ops end.
Definition super_table_at (o : super_operations) : super_table :=
  match o with Ext2_super_operations => ext2_super_operations | Devfs_super_ops => devfs_super_ops end.

(** ** Calls *)

Section calls.
Context `{BlockDevice E} `{Allocator H2} `{Ext2Layout}.
#[local] Abbreviation W := (world (E := E) (H2 := H2)).

(** [dir->i_ops->lookup(dir, filename, len, result_inode)] *)
Definition call_lookup (n fuel : nat) (dir : Vfs.inode) (filename len result_inode : Z) : M W Z :=
  let* o := of_option (i_ops dir) in
  match io_lookup (inode_table_at o) with
  | Some Fn_ext2_lookup => ext2_lookup n fuel dir filename len result_inode
  | _ => fault
  end.
(** [inode->i_ops->default_file_ops->read(filep, buff, count, off)] *)
Definition call_read (n fuel : nat) (inode : Vfs.inode) (filep : file) (count off : Z) : M W (Z * Z * list Z) :=
  let* o := of_option (i_ops inode) in
  let* t := of_option (default_file_ops (inode_table_at o)) in
  match fo_read t with
  | Some Fn_ext2_read => ext2_read n fuel filep count off
  | _ => fault
  end.

(** An inode of ext2: its functions. One of the device file system has none. *)
Lemma ext2_calls n fuel i filename len r filep count off :
  i_ops i = Some Ext2_inode_ops →
  (∀ w, call_lookup n fuel i filename len r w = ext2_lookup n fuel i filename len r w) ∧
  ∀ w, call_read n fuel i filep count off w = ext2_read n fuel filep count off w.
Proof using. unfold call_lookup, call_read. by intros ->. Qed.
Lemma devfs_calls n fuel i filename len r filep count off w :
  i_ops i = Some Devfs_inode_ops →
  call_lookup n fuel i filename len r w = Fault ∧ call_read n fuel i filep count off w = Fault.
Proof using. unfold call_lookup, call_read. by intros ->. Qed.
End calls.
