(* ===== verification/Mount.v ===== *)
(** * Mounting the root file system ([init_fs] of src/fs/vfs/vfs.c, [ext2_read_super])

    [init_fs] registers the type of the root file system, allocates a super block and
    calls the type's [read_super], here with both file systems of the kernel behind the
    function pointer. *)

From S2P Require Import Prelude Memory Common Io Ata Buffer Requests Alloc Vfs Ext2Format Ext2 Ext2Inode Ext2File Devfs Operations.

(** What uninitialised memory reads as a super block and a directory entry, and the
    addresses of the two [read_super] functions, which [init_fs] prints. *)
Class MountLayout := {
  raw_super : Z → Vfs.super_block;
  raw_dentry : Z → dentry;
  function_address : read_super_fn → Z }.

Section operations.
Context `{BlockDevice E} `{Allocator H2} `{Ext2Layout} `{DevfsLayout} `{MountLayout}.
#[local] Abbreviation W := (world (E := E) (H2 := H2)).

(** The static [super_block] of devfs.c is the second part of the state. *)
Definition on_world {A} (m : M W A) : M (W * Z) A := on_fst m.
Definition on_devfs {A} (m : M (devfs * cache) A) : M (W * Z) A := λ s,
  zoom (λ s : W * Z, (mkDevfs (w_vfs s.1) s.2, (w_disk s.1).1))
    (λ d s, (mkWorld (w_ext2 s.1) (devfs_vfs d.1) (w_heap s.1) (d.2, (w_disk s.1).2), devfs_super_block d.1)) m s.

Definition read_super (f : read_super_fn) (fuel : nat) (sb dev : Z) : M (W * Z) unit :=
  match f with
  | Ext2_read_super => on_world (ext2_read_super fuel sb dev ;;; ret tt)
  | Devfs_read_super => on_devfs (devfs_read_super sb)
  end.

Definition SIZEOF_SUPER_BLOCK : Z := 24.
Definition SIZEOF_DENTRY : Z := 32.
Definition init_fs (fuel : nat) (root_fs dev : Z) : M (W * Z) unit :=
  on_world (on_vfs (register_filesystem root_fs)) ;;;
  let* t := on_world (on_vfs (ld_fs root_fs)) in
  on_world (print (terminal_printhex32 (function_address (fs_read_super t)))) ;;;
  let* sb := on_world (on_heap (mm_alloc SIZEOF_SUPER_BLOCK)) in
  on_world (on_vfs (modify (λ s, set_sb_head sb
    (set_super_blocks (<[sb := let b := raw_super sb in
       mkSuper dev (sb_fs_type b) (sb_ops b) (sb_mount_point b) (sb_root b) (sb_next b)]> (super_blocks s)) s)))) ;;;
  let* b := on_world (on_vfs (ld_sb sb)) in
  read_super (fs_read_super t) fuel sb (sb_dev b) ;;;
  on_world (print (terminal_writestring "in init_fs")) ;;;
  let* b := on_world (on_vfs (ld_sb sb)) in
  if sb_root b =? 0 then kpanic "no root inode" else
  on_world (on_vfs (modify (set_i_head (sb_root b)))) ;;;
  let* d := on_world (on_heap (mm_alloc SIZEOF_DENTRY)) in
  on_world (on_vfs (modify (λ s, set_d_head d
    (set_dentries (<[d := let r := raw_dentry d in
       mkDentry 0 (i_head s) (d_sb r) (d_mounted r) (d_count r) (d_child r) (d_next r) (d_prev r)]> (dentries s)) s)))).

(** The file system calls of [kernel_main] (kernel.c, lines 286 to 299) after the disk is
    set up: mount, look a file of the root directory up and read from it. [inode_tmp] and
    [tmp_file] are local variables, whose other fields are not used. *)
Definition inode_tmp (sb dev_num : Z) : Vfs.inode :=
  mkInode dev_num ROOT_DIRECTORY 0 (Some Ext2_inode_ops) sb 0 0 0 0 false 0 0 0.
Definition read_root_file (n fuel : nat) (dev_num name len count : Z) : M (W * Z) (Z * (Z * Z * list Z)) :=
  let* sb := on_world (on_vfs (find_super_block ext2_literal)) in
  let tmp := inode_tmp sb dev_num in
  let* dest := on_world (on_heap (mm_alloc SIZEOF_VFS_INODE)) in
  on_world (on_vfs (modify (λ s, set_inodes (<[dest := raw_inode dest]> (inodes s)) s))) ;;;
  on_world (call_lookup n fuel tmp name len dest) ;;;
  let* sb := on_world (on_vfs (find_super_block ext2_literal)) in
  on_world (on_vfs (upd_inode dest (λ i, mkInode dev_num (i_no i) (i_size i) (i_ops i) sb (i_gid i) (i_uid i)
    (i_flags i) (i_permissions i) (i_mount_point i) (i_counter i) (i_next i) (i_prev i)))) ;;;
  let* r := on_world (call_read n fuel tmp (mkFile dest name 0) count 0) in
  ret (dest, r).
Definition kernel_main_files (n fuel : nat) (root_fs dev_num name len count : Z) : M (W * Z) (Z * (Z * Z * list Z)) :=
  init_fs fuel root_fs dev_num ;;;
  read_root_file n fuel dev_num name len count.

(** ** Lemmas *)

Lemma on_world_ok {A} (m : M W A) w z a w' : m w = Ok a w' → on_world m (w, z) = Ok a (w', z).
Proof using. intros Hm. unfold on_world, on_fst, zoom. simpl. by rewrite Hm. Qed.

Definition ext2_str : list Z := [101; 120; 116; 50].

(** The super block after [ext2_read_super]. *)
Definition mounted_super (ts : list (Z * list Z)) (d root : Z) (b : Vfs.super_block) : Vfs.super_block :=
  mkSuper d (if sb_fs_type b =? 0 then found ext2_str ts else sb_fs_type b) (Some Ext2_super_operations)
    (sb_mount_point b) root (sb_next b).

(** The registry is independent of super blocks and inodes. *)
Lemma registry_ext v v' ts :
  fs_types v' = fs_types v → file_systems v' = file_systems v → vmem v' = vmem v → registry v ts → registry v' ts.
Proof using.
  intros H1' H2' H3' [Hl Hnd Hn Hb]. constructor; [|done| |by rewrite H3'].
  - rewrite H2'. clear -Hl H1'. revert Hl. generalize (file_systems v) as p. induction (ts.*1) as [|q l IH]; intros p; [done|].
    intros (-> & Hq & t & Ht & Hl). split; [done|]. split; [done|]. exists t. rewrite H1'. split; [done|by apply IH].
  - intros q nm Hin. destruct (Hn q nm Hin) as (t & Ht & Hs). exists t. by rewrite H1', H3'.
Qed.
Lemma find_ext2 v ts : registry v ts → string_at (vmem v) ext2_literal ext2_str →
  ∃ l, find_file_system ext2_literal 4 v = Ok l v ∧ ld_link l v = Ok (found ext2_str ts) v.
Proof using.
  intros Hr Hs. destruct (find_spec v ts ext2_literal ext2_str 4 Hr Hs) as [E1 E2]; [simpl; lia|lia|]. by eexists.
Qed.

(** Printing, at the top. *)
Lemma bind_print_world {B} p (f : unit → M (W * Z) B) y v hp (s : cache) (e1 : E) z :
  prints same_content p → env_wf e1 →
  ∃ e2, bind (on_world (print p)) f (mkWorld y v hp (s, e1), z) = f tt (mkWorld y v hp (s, e2), z) ∧
    env_wf e2 ∧ content e2 = content e1.
Proof using.
  intros Hp He. destruct (Hp e1 He) as (e2 & E1 & He2 & Hc). exists e2. split; [|done].
  by apply bind_ok, on_world_ok, on_disk_ok, disk_io_ok.
Qed.
Ltac skip_print_world e' He' Hc' :=
  match goal with
  | |- context [bind (on_world (print ?p)) ?f (mkWorld ?y ?v ?h (?s, ?e), ?z)] =>
      let E := fresh in
      destruct (bind_print_world p f y v h s e z) as (e' & E & He' & Hc');
      [first [apply prints_hex32; [apply _|apply bd_console]|apply prints_write; [apply _|apply bd_console]]
      |assumption|rewrite E; clear E]
  end.

Section mounting.
Context (fuel : nat) (d : Z) (b : bdev) (x x' : ext2) (m : Z) (e : E) (Hbytes : ∀ a, Forall is_byte (content e a)).
Let sbb := superblock_bytes e b.
Context (Hlen : length (ext2_sb x) = 1024%nat) (Hsig : ext2_signature (decode_superblock sbb) = 0xEF53).
Context (Hgeo : geometry (decode_superblock sbb) (set_ext2_sb sbb x) = Some x') (Hx : well_formed x' m).
Let T := content e (location b (bgd_sector x')).
Context (Hroot : valid_inode x' T ROOT_DIRECTORY).
Let A := inode_at x' T ROOT_DIRECTORY.
Let D := decode_inode (inode_bytes e b A).

(** The calls to the heap that [ext2_read_super] makes, and what they return: the new
    root inode. [l] are the bytes of the inode it reads. *)
Definition super_calls (l : list Z) : M H2 Z :=
  let* tmp := mm_alloc SIZEOF_INODE in
  mm_store l tmp ;;;
  let* root := mm_alloc SIZEOF_VFS_INODE in
  mm_free tmp ;;;
  ret root.
Lemma super_calls_inv l hp root hp' :
  super_calls l hp = Ok root hp' → ∃ p h1 h2 h3, mm_alloc SIZEOF_INODE hp = Ok p h1 ∧ mm_store l p h1 = Ok tt h2 ∧
    mm_alloc SIZEOF_VFS_INODE h2 = Ok root h3 ∧ mm_free p h3 = Ok tt hp'.
Proof using.
  unfold super_calls. intros (p & h1 & E1 & Hc)%bind_inv_ok.
  apply bind_inv_ok in Hc as ([] & h2 & E2 & (r & h3 & E3 & ([] & h4 & E4 & Er)%bind_inv_ok)%bind_inv_ok).
  unfold ret in Er. injection Er as <- <-. by exists p, h1, h2, h3.
Qed.

Lemma ext2_read_super_ok ks F s v sb sbv ts hp G root hp' :
  ready fuel d b (2 :: 3 :: bgd_sector x' :: A / 512 :: ks) F s e → (S (S (S (S (length ks)))) < length F)%nat →
  super_blocks v !! sb = Some sbv → registry v ts → string_at (vmem v) ext2_literal ext2_str →
  mm_owns hp G → super_calls (inode_bytes e b A) hp = Ok root hp' →
  ∃ p s' e' F',
    ext2_read_super fuel sb d (mkWorld x v hp (s, e)) =
      Ok sb (mkWorld (set_super_block sb (set_bgdt p x'))
        (set_super_blocks (<[sb := mounted_super ts d root sbv]> (super_blocks v))
          (set_inodes (<[root := root_of root D]> (inodes v)) v)) hp' (s', e')) ∧
    content e' = content e ∧ again fuel d b (A / 512) ks F' s' e' ∧ (length F ≤ 4 + length F')%nat ∧ kept F s F' s' ∧
    table_held (set_bgdt p x') T F' s' ∧ G !! root = None ∧ mm_owns hp' (<[root := SIZEOF_VFS_INODE]> G).
Proof using All.
  intros Hr HF Hsb Hreg Hstr Hown (p0 & k1 & k2 & hp3 & Ek1 & Ek2 & E3 & E4)%super_calls_inv.
  destruct (parse_ok fuel d b (A / 512 :: ks) F s e x x' v hp Hlen Hsig Hgeo Hr)
    as (p & s1 & e1 & F1 & E1 & Hc1 & Hr1 & HF1 & Ht1 & Hk1 & Hl1); [simpl; lia|]. fold T in Ht1.
  set (x1 := set_bgdt p x') in *.
  assert (well_formed x1 m) as Hx1 by (destruct Hx; by constructor).
  assert (valid_inode x1 T ROOT_DIRECTORY) as Hroot1 by (destruct Hroot; by constructor).
  assert (inode_at x1 T ROOT_DIRECTORY = A) as HA by done.
  assert (inode_bytes e1 b A = inode_bytes e b A) as Hib by (unfold inode_bytes; by rewrite Hc1).
  destruct (load_inode_ok fuel d b x1 m T ks F1 s1 e1 v hp G ROOT_DIRECTORY Hx1 Hroot1 Ht1)
    as (tmp & q & s2 & e2 & h & F2 & hp2 & E2 & Hg & Hload & Hown2 & Htmp & (h0 & Ea & Es) & _); try done.
  { simpl in HF1. lia. }
  { by exists p0, k1. }
  { rewrite HA, Hib. unfold inode_bytes. apply Forall_take, Forall_drop, Hbytes. }
  rewrite HA, Hib in *. fold D in E2.
  rewrite Ek1 in Ea. injection Ea as <- <-. rewrite Ek2 in Es. injection Es as ->.
  destruct (mm_alloc_ok _ _ SIZEOF_VFS_INODE _ _ Hown2 ltac:(by split) E3) as [Hown3 Hnew]. apply lookup_insert_None in Hnew as [Hnew Hne].
  destruct (mm_free_ok hp3 _ SIZEOF_INODE p0 Hown3) as (hp4 & E4' & Hown4).
  { rewrite lookup_insert_ne by done. apply lookup_insert_eq. }
  rewrite E4 in E4'. injection E4' as <-. exists p, s2, e2, F2. destruct Hg as [_ _ _ _ Hcg _ Hl2 _ _ Hk2 _ _ Ha2].
  split; [|split; [congruence|split; [done|split; [lia|split; [by eapply kept_trans|split; [by eapply table_kept|split; [done|]]]]]]].
  - unfold ext2_read_super. rewrite (bind_ok _ _ _ _ _ E1), (bind_ok _ _ _ _ _ E2).
    rewrite (bind_ok _ _ _ _ _ (on_heap_ok _ x1 v hp2 (s2, e2) _ _ E3)).
    set (v1 := set_inodes (<[root := root_of root D]> (inodes v)) v).
    rewrite (bind_ok _ _ _ tt (mkWorld x1 v1 hp3 (s2, e2))) by done.
    rewrite (bind_ok _ _ _ _ _ (on_vfs_ok _ x1 v1 hp3 (s2, e2) _ _ (upd_sb_ok sb sbv _ v1 Hsb))).
    set (b1 := mkSuper _ _ _ _ _ _). set (v2 := set_super_blocks (<[sb := b1]> _) v1).
    rewrite (bind_ok _ _ _ b1 (mkWorld x1 v2 hp3 (s2, e2)))
      by (apply on_vfs_ok; unfold ld_sb; simpl; by rewrite lookup_insert_eq).
    set (ty := if sb_fs_type sbv =? 0 then found ext2_str ts else sb_fs_type sbv).
    set (b2 := mkSuper (sb_dev b1) ty (sb_ops b1) (sb_mount_point b1) (sb_root b1) (sb_next b1)).
    set (v3 := set_super_blocks (<[sb := b2]> (super_blocks v2)) v2).
    rewrite (bind_ok _ _ _ tt (mkWorld x1 v3 hp3 (s2, e2))).
    2:{ unfold v3, b2, ty, when. change (sb_fs_type b1) with (sb_fs_type sbv). destruct (sb_fs_type sbv =? 0).
        - apply on_vfs_ok. destruct (find_ext2 v2 ts) as (l2 & Ef2 & El2); [by apply (registry_ext v)|done|].
          rewrite (bind_ok _ _ _ _ _ Ef2), (bind_ok _ _ _ _ _ El2). by rewrite (upd_sb_ok sb b1 _ _ (lookup_insert_eq _ _ _)).
        - rewrite insert_id by apply lookup_insert_eq. by destruct v2. }
    rewrite (bind_ok _ _ _ _ _ (on_vfs_ok _ x1 v3 hp3 (s2, e2) _ _ (upd_sb_ok sb b2 _ v3 (lookup_insert_eq _ _ _)))).
    rewrite on_ext2_modify. rewrite (bind_ok _ _ _ _ _ (on_heap_ok _ _ _ hp3 (s2, e2) _ _ E4)).
    unfold ret, v3, v2, v1, mounted_super, set_super_blocks, set_inodes. simpl. rewrite !insert_insert_eq. done.
  - rewrite delete_insert_ne in Hown4 by done. by rewrite delete_insert_id in Hown4.
Qed.

(** The calls to the heap of [init_fs]: super block, root inode and root directory. *)
Definition init_calls (l : list Z) : M H2 (Z * Z * Z) :=
  let* sb := mm_alloc SIZEOF_SUPER_BLOCK in
  let* root := super_calls l in
  let* dir := mm_alloc SIZEOF_DENTRY in
  ret (sb, root, dir).
Lemma init_calls_inv l hp sb root dir hp' :
  init_calls l hp = Ok (sb, root, dir) hp' → ∃ h1 h2, mm_alloc SIZEOF_SUPER_BLOCK hp = Ok sb h1 ∧
    super_calls l h1 = Ok root h2 ∧ mm_alloc SIZEOF_DENTRY h2 = Ok dir hp'.
Proof using.
  unfold init_calls. intros (q1 & h1 & E1 & (q2 & h2 & E2 & (q3 & h3 & E3 & Er)%bind_inv_ok)%bind_inv_ok)%bind_inv_ok.
  unfold ret in Er. injection Er as <- <- <- <-. by exists h1, h2.
Qed.

Lemma found_last str ts q : ¬ Exists (λ y, str `prefix_of` y.2) ts → found str (ts ++ [(q, str)]) = q.
Proof using.
  intros Hno. unfold found. rewrite list_find_app_r; [simpl; by rewrite decide_True by done|].
  apply list_find_None, Forall_forall. intros y Hy Hpre. apply Hno, Exists_exists. by exists y.
Qed.
End mounting.

(** What mounting reads depends on the contents of the disk only. *)
Lemma superblock_same (e1 e2 : E) b : content e1 = content e2 → superblock_bytes e1 b = superblock_bytes e2 b.
Proof using. unfold superblock_bytes. by intros ->. Qed.
Lemma inode_bytes_same (e1 e2 : E) b A : content e1 = content e2 → inode_bytes e1 b A = inode_bytes e2 b A.
Proof using. unfold inode_bytes. by intros ->. Qed.

Section booting.
Context (fuel : nat) (d : Z) (b : bdev) (x x' : ext2) (m : Z) (e : E) (Hbytes : ∀ a, Forall is_byte (content e a)).
Let sbb := superblock_bytes e b.
Context (Hlen : length (ext2_sb x) = 1024%nat) (Hsig : ext2_signature (decode_superblock sbb) = 0xEF53).
Context (Hgeo : geometry (decode_superblock sbb) (set_ext2_sb sbb x) = Some x') (Hx : well_formed x' m).
Let T := content e (location b (bgd_sector x')).
Context (Hroot : valid_inode x' T ROOT_DIRECTORY).
Let A := inode_at x' T ROOT_DIRECTORY.
Let D := decode_inode (inode_bytes e b A).

(** What booting from an ext2 disk leaves; the sector of the root inode can be requested
    again. *)
Lemma init_fs_spec root_fs t ks F s v ts hp G sb root dir hp' z :
  ready fuel d b (2 :: 3 :: bgd_sector x' :: A / 512 :: ks) F s e → (S (S (S (S (length ks)))) < length F)%nat →
  registry v ts → fs_types v !! root_fs = Some t → root_fs ≠ 0 → fs_next t = 0 → fs_read_super t = Ext2_read_super →
  string_at (vmem v) (fs_name t) ext2_str → string_at (vmem v) ext2_literal ext2_str →
  ¬ Exists (λ y, ext2_str `prefix_of` y.2) ts →
  mm_owns hp G → init_calls (inode_bytes e b A) hp = Ok (sb, root, dir) hp' → root ≠ 0 →
  ∃ p v' s' e' F', init_fs fuel root_fs d (mkWorld x v hp (s, e), z) =
      Ok tt (mkWorld (set_super_block sb (set_bgdt p x')) v' hp' (s', e'), z) ∧
    content e' = content e ∧ ready fuel d b ks F' s' e' ∧ table_held (set_bgdt p x') T F' s' ∧
    registry v' (ts ++ [(root_fs, ext2_str)]) ∧
    sb_head v' = sb ∧ super_blocks v' !! sb =
      Some (mounted_super (ts ++ [(root_fs, ext2_str)]) d root (raw_super sb)) ∧
    i_head v' = root ∧ inodes v' !! root = Some (root_of root D) ∧
    (∃ y, dentries v' !! d_head v' = Some y ∧ d_head v' = dir ∧ d_inode y = root) ∧
    mm_owns hp' (<[dir := SIZEOF_DENTRY]> (<[root := SIZEOF_VFS_INODE]> (<[sb := SIZEOF_SUPER_BLOCK]> G))) ∧
    again fuel d b (A / 512) ks F' s' e' ∧ kept F s F' s' ∧ (length F ≤ 4 + length F')%nat ∧ vmem v' = vmem v.
Proof using All.
  intros Hr HF Hreg Hty Hnz Hnext Hfn Hname Hstr Hnew Hown Hcalls Hroot0.
  destruct (init_calls_inv _ _ _ _ _ _ Hcalls) as (hp1 & hp2 & Ea & Es & Ed).
  destruct (matches_find ext2_str ts) as [|Hno]; [done|].
  destruct (register_new v ts root_fs t ext2_str Hreg Hty Hnext Hnz Hname ltac:(by simpl) Hno) as (v1 & E1 & Hreg1 & [Hm1 _] & l & Hv1).
  destruct (set_link_rest l root_fs v) as (_ & _ & _ & Hfn1). rewrite <-Hv1 in Hfn1. specialize (Hfn1 root_fs). rewrite Hty in Hfn1.
  destruct (fs_types v1 !! root_fs) as [t1|] eqn:Ht1; [|done]. simpl in Hfn1. injection Hfn1 as Hfn1.
  unfold init_fs. rewrite (bind_ok _ _ _ _ _ (on_world_ok _ _ z _ _ (on_vfs_ok _ x v hp (s, e) _ _ E1))).
  rewrite (bind_ok _ _ _ _ _ (on_world_ok _ _ z _ _ (on_vfs_ok _ x v1 hp (s, e) _ _ (ld_fs_ok _ _ _ Ht1)))).
  pose proof (rd_env _ _ _ _ _ _ _ Hr) as He. skip_print_world e1 He1 Hc1.
  rewrite (bind_ok _ _ _ _ _ (on_world_ok _ _ z _ _ (on_heap_ok _ x v1 hp (s, e1) _ _ Ea))).
  set (b0 := raw_super sb). set (b1 := mkSuper d _ _ _ _ _).
  set (v2 := set_sb_head sb (set_super_blocks (<[sb := b1]> (super_blocks v1)) v1)).
  rewrite (bind_ok _ _ _ tt (mkWorld x v2 hp1 (s, e1), z)) by done.
  assert (super_blocks v2 !! sb = Some b1) as Hb1 by apply lookup_insert_eq.
  rewrite (bind_ok _ _ _ b1 (mkWorld x v2 hp1 (s, e1), z)).
  2:{ apply on_world_ok, on_vfs_ok. unfold ld_sb. by rewrite Hb1. }
  rewrite Hfn1, Hfn. cbn [read_super sb_dev].
  destruct (mm_alloc_ok _ _ SIZEOF_SUPER_BLOCK _ _ Hown ltac:(by split) Ea) as [Hown1 _].
  pose proof (ext2_read_super_ok fuel d b x x' m e1) as Hm. rewrite !(superblock_same e1 e), Hc1 in Hm by done.
  rewrite !(inode_bytes_same e1 e) in Hm by done. cbv zeta in Hm. fold T A D in Hm.
  destruct (Hm Hbytes Hlen Hsig Hgeo Hx Hroot ks F s v2 sb b1 (ts ++ [(root_fs, ext2_str)]) hp1 _ root hp2
    (ready_env _ _ _ _ _ _ _ _ Hr He1 Hc1) HF Hb1 ltac:(by apply (registry_ext v1)) ltac:(simpl; by rewrite Hm1) Hown1 Es)
    as (p & s2 & e2 & F2 & E2 & Hc2 & Ha2 & Hl2 & Hk2 & Ht2 & Hnew2 & Hown2). clear Hm.
  pose proof (ag_ready _ _ _ _ _ _ _ _ Ha2) as Hr2.
  set (v3 := set_super_blocks _ _) in E2.
  rewrite (bind_ok _ _ _ tt (mkWorld (set_super_block sb (set_bgdt p x')) v3 hp2 (s2, e2), z)).
  2:{ apply on_world_ok. by rewrite (bind_ok _ _ _ _ _ E2). }
  pose proof (rd_env _ _ _ _ _ _ _ Hr2) as He2. skip_print_world e3 He3 Hc3.
  set (b2 := mounted_super _ d root b1) in v3.
  assert (super_blocks v3 !! sb = Some b2) as Hb3 by apply lookup_insert_eq.
  rewrite (bind_ok _ _ _ b2 (mkWorld (set_super_block sb (set_bgdt p x')) v3 hp2 (s2, e3), z)).
  2:{ apply on_world_ok, on_vfs_ok. unfold ld_sb. by rewrite Hb3. }
  change (sb_root b2) with root. rewrite (proj2 (Z.eqb_neq _ _) Hroot0).
  rewrite (bind_ok _ _ _ tt (mkWorld (set_super_block sb (set_bgdt p x')) (set_i_head root v3) hp2 (s2, e3), z)) by done.
  rewrite (bind_ok _ _ _ _ _ (on_world_ok _ _ z _ _ (on_heap_ok _ _ (set_i_head root v3) hp2 (s2, e3) _ _ Ed))).
  destruct (mm_alloc_ok _ _ SIZEOF_DENTRY _ _ Hown2 ltac:(by split) Ed) as [Hown3 _].
  eexists p, _, s2, e3, F2. split; [reflexivity|]. split; [congruence|].
  split; [apply (ready_env _ _ _ _ _ _ e2); [done|done|congruence]|]. split; [done|].
  split; [by apply (registry_ext v1)|]. split; [done|]. split; [exact Hb3|]. split; [done|].
  split; [apply lookup_insert_eq|]. split; [eexists; split; [apply lookup_insert_eq|done]|]. split; [done|].
  split; [by apply (again_env _ _ _ _ _ _ _ e2); [|done|congruence]|]. split; [done|]. split; [done|]. exact Hm1.
Qed.
(** Booting from an ext2 disk: [init_fs] registers the type, allocates a super block,
    mounts the disk through the type's [read_super], and makes the root inode and a
    directory entry for it the heads of their lists. *)
Theorem init_fs_correct root_fs t ks F s v ts hp G sb root dir hp' z :
  ready fuel d b (2 :: 3 :: bgd_sector x' :: A / 512 :: ks) F s e → (S (S (S (S (length ks)))) < length F)%nat →
  registry v ts → fs_types v !! root_fs = Some t → root_fs ≠ 0 → fs_next t = 0 → fs_read_super t = Ext2_read_super →
  string_at (vmem v) (fs_name t) ext2_str → string_at (vmem v) ext2_literal ext2_str →
  ¬ Exists (λ y, ext2_str `prefix_of` y.2) ts →
  mm_owns hp G → init_calls (inode_bytes e b A) hp = Ok (sb, root, dir) hp' → root ≠ 0 →
  ∃ p v' s' e' F', init_fs fuel root_fs d (mkWorld x v hp (s, e), z) =
      Ok tt (mkWorld (set_super_block sb (set_bgdt p x')) v' hp' (s', e'), z) ∧
    content e' = content e ∧ ready fuel d b ks F' s' e' ∧ table_held (set_bgdt p x') T F' s' ∧
    registry v' (ts ++ [(root_fs, ext2_str)]) ∧
    sb_head v' = sb ∧ super_blocks v' !! sb =
      Some (mounted_super (ts ++ [(root_fs, ext2_str)]) d root (raw_super sb)) ∧
    i_head v' = root ∧ inodes v' !! root = Some (root_of root D) ∧
    (∃ y, dentries v' !! d_head v' = Some y ∧ d_head v' = dir ∧ d_inode y = root) ∧
    mm_owns hp' (<[dir := SIZEOF_DENTRY]> (<[root := SIZEOF_VFS_INODE]> (<[sb := SIZEOF_SUPER_BLOCK]> G))).
Proof using All.
  intros Hr HF Hreg Hty Hnz Hnext Hfn Hname Hstr Hnew Hown Hcalls Hroot0.
  destruct (init_fs_spec root_fs t ks F s v ts hp G sb root dir hp' z Hr HF Hreg Hty Hnz Hnext Hfn Hname Hstr Hnew Hown Hcalls Hroot0)
    as (p & v' & s' & e' & F' & E1 & Hc & Hr' & Ht & Hreg' & Hh & Hsb & Hih & Hin & Hd & Ho & _).
  exists p, v', s', e', F'. exact (conj E1 (conj Hc (conj Hr' (conj Ht (conj Hreg' (conj Hh (conj Hsb (conj Hih (conj Hin (conj Hd Ho)))))))))).
Qed.
End booting.
End operations.
