(* ===== verification/RootFile.v ===== *)
(** * Reading a file of the mounted root directory ([kernel_main], lines 287 to 299)

    The calls after [init_fs]: the super block is found by the name of its type, a file
    of the root directory is looked up, and its first bytes are read. The sectors of the
    root inode and of the file's inode are requested twice, the second time as hits. *)

From S2P Require Import Prelude Memory Common Io Ata Buffer Requests Alloc Vfs Ext2Format Ext2 Ext2Inode Ext2File Ext2Dir.
From S2P Require Import Devfs Operations Mount.

Section root_file.
Context `{BlockDevice E} `{Allocator H2} `{Ext2Layout} `{DevfsLayout} `{MountLayout}.
#[local] Abbreviation W := (world (E := E) (H2 := H2)).

(** ** Specification *)

(** The inode [ino] on the disk. *)
Definition disk_inode (e : E) (b : bdev) (x : ext2) (T : list Z) (ino : Z) : ext2_inode :=
  decode_inode (inode_bytes e b (inode_at x T ino)).

(** The root directory's first sector has an entry [de] with the name [fn], after [es1] and
    not as the last one, of a regular file that has one block, [blk'], and more than
    [count] bytes. *)
Record root_entry (e : E) (b : bdev) (x : ext2) (T fn : list Z) (count : Z)
    (es1 : list (ext2_directory_entry * list Z)) (de : ext2_directory_entry) (es2 : list (ext2_directory_entry * list Z))
    (blk blk' : Z) : Prop := {
  re_root : valid_inode x T ROOT_DIRECTORY;
  re_dir : let D := disk_inode e b x T ROOT_DIRECTORY in
    type_permissions D ≠ 0 ∧ direct_block D !! 0%nat = Some blk ∧ blk ≠ 0 ∧ sizes es1 ≤ size_low D;
  re_entries : entries (content e (location b (block_sector x blk 0))) 0 (es1 ++ (de, fn) :: es2);
  re_name : Forall (λ y, ¬ matches fn y) es1 ∧ de_inode de ≠ SKIP_DIR;
  re_inode : valid_inode x T (de_inode de);
  re_file : let D := disk_inode e b x T (de_inode de) in
    Z.land (type_permissions D) TYPE_REG_FILE ≠ 0 ∧ direct_block D !! 0%nat = Some blk' ∧ blk' ≠ 0 ∧
    direct_block D !! 1%nat = Some 0 ∧ count < size_low D < 2147483648 }.

(** The blocks the calls ask for after the one of the root inode. *)
Definition file_blocks (x : ext2) (T : list Z) (de : ext2_directory_entry) (blk blk' : Z) : list Z :=
  [block_sector x blk 0; inode_at x T (de_inode de) / 512; block_sector x blk' 0].

(** The file system of device [d] is mounted with the super block [sb]. *)
Record mounted_at (v : vfs) (ts : list (Z * list Z)) (sb : Z) : Prop := {
  mt_registry : registry v ts;
  mt_name : string_at (vmem v) ext2_literal ext2_str;
  mt_type : found ext2_str ts ≠ 0 ∧ is_Some (fs_types v !! found ext2_str ts);
  mt_super : sb_head v = sb ∧ sb ≠ 0 ∧ ∃ b, super_blocks v !! sb = Some b ∧ sb_fs_type b = found ext2_str ts }.

(** What the file's inode is made of: the memory it was allocated in, the disk, and the
    fields [kernel_main] sets. *)
Definition file_inode (d sb ino : Z) (D : ext2_inode) (i : Vfs.inode) : Vfs.inode :=
  let r := set_result ino D i in
  mkInode d (i_no r) (i_size r) (i_ops r) sb (i_gid r) (i_uid r) (i_flags r) (i_permissions r) (i_mount_point r)
    (i_counter r) (i_next r) (i_prev r).

(** ** Lemmas *)

Lemma find_super_ext2 v ts sb : mounted_at v ts sb → find_super_block ext2_literal v = Ok sb v.
Proof using.
  intros [Hreg Hstr [Hty _] (Hh & Hnz & b & Hb & Hbt)]. unfold find_super_block.
  assert (on_vmem (strlen ext2_literal) v = Ok 4 v) as E1.
  { apply on_vmem_ok. destruct Hstr as (Hs & H0' & H1'). rewrite (strlen_spec _ _ _ Hs H0' H1'). done. }
  rewrite (bind_ok _ _ _ _ _ E1).
  destruct (find_ext2 v ts Hreg Hstr) as (l & E2 & E3). rewrite (bind_ok _ _ _ _ _ E2), (bind_ok _ _ _ _ _ E3).
  rewrite (proj2 (Z.eqb_neq _ _) Hty), bind_get, Hh. cbn [find_sb_loop]. rewrite (proj2 (Z.eqb_neq _ _) Hnz).
  rewrite (bind_ok _ _ _ b v) by (unfold ld_sb; by rewrite Hb). by rewrite Hbt, Z.eqb_refl.
Qed.
Lemma mounted_at_inodes v ts sb y : mounted_at v ts sb → mounted_at (set_inodes y v) ts sb.
Proof using. intros [Hreg Hstr Hty Hsb]. constructor; try done. by apply (registry_ext v). Qed.

Section reading.
Context (fuel : nat) (d : Z) (b : bdev) (x : ext2) (m : Z) (T : list Z) (Hx : well_formed x m) (Hm : m < 256) (Hd : u16 d = d).
Context (e : E) (Hbytes : ∀ a, Forall is_byte (content e a)).
Context (name count : Z) (fn : list Z) (Hfb : Forall is_byte fn) (Hpos : 0 < length fn) (Hcount : 0 < count ≤ 512).
Context (es1 es2 : list (ext2_directory_entry * list Z)) (de : ext2_directory_entry) (blk blk' : Z).
Context (Hentry : root_entry e b x T fn count es1 de es2 blk blk').
Let A := inode_at x T ROOT_DIRECTORY.
Let D1 := disk_inode e b x T (de_inode de).
Let K1 := block_sector x blk' 0.

Lemma read_root_file_spec n v hp s F ts sb dest hp1 G z :
  mounted_at v ts sb → holds_bytes (vmem v) name fn → Z.land (i_flags (raw_inode dest)) 1 = 0 →
  (∀ q, is_Some (buffers s !! q) → apart name (length fn) q) →
  table_held x T F s → again fuel d b (A / 512) (file_blocks x T de blk blk') F s e → (6 < length F)%nat →
  mm_alloc SIZEOF_VFS_INODE hp = Ok dest hp1 → mm_owns hp1 G → has_room hp1 SIZEOF_INODE → (S (length es1) < n)%nat →
  ∃ v' hp' s' e', read_root_file n fuel d name (length fn) count (mkWorld x v hp (s, e), z) =
      Ok (dest, (count, count, take (Z.to_nat count) (content e (location b K1)))) (mkWorld x v' hp' (s', e'), z) ∧
    content e' = content e ∧ env_wf e' ∧
    inodes v' !! dest = Some (file_inode d sb (de_inode de) D1 (raw_inode dest)).
Proof using All.
  intros Hmt Hfn Hflags Hap Ht Ha HF Ealloc Hown Hroom Hn.
  destruct Hentry as [Hroot (Hdt & Hblk & Hbnz & Hsz) Hents (Hno & Hskip) Hino (Hreg & Hb1 & Hb1nz & Hb2 & Hsize)].
  unfold read_root_file.
  rewrite (bind_ok _ _ _ _ _ (on_world_ok _ _ z _ _ (on_vfs_ok _ x v hp (s, e) _ _ (find_super_ext2 _ _ _ Hmt)))).
  rewrite (bind_ok _ _ _ _ _ (on_world_ok _ _ z _ _ (on_heap_ok _ x v hp (s, e) _ _ Ealloc))).
  cbv zeta. destruct (ext2_calls n fuel (inode_tmp sb d) name (length fn) dest (mkFile dest name 0) count 0 eq_refl) as [Elook Erd].
  set (v1 := set_inodes (<[dest := raw_inode dest]> (inodes v)) v).
  rewrite (bind_ok _ _ _ tt (mkWorld x v1 hp1 (s, e), z)) by done.
  destruct (ext2_lookup_finds_spec fuel d b x m T Hx Hm v1 hp1 e Hbytes (inode_tmp sb d) Hd Hroot Hdt name dest fn Hfn Hfb Hpos
    [K1] n es1 de fn es2 F s blk (raw_inode dest) Hblk Hbnz Hents Hno (conj Hskip eq_refl) Hsz Hino (lookup_insert_eq _ _ _)
    Hap Ht) as (s2 & e2 & F2 & E2 & Hc2 & Ht2 & Ha2 & _ & Hl2).
  { apply again_requestable; [exact Ha|]. intros ->. simpl in HF. lia. }
  { simpl. lia. }
  { lia. }
  rewrite <-Elook in E2. rewrite (bind_ok _ _ _ _ _ (on_world_ok _ _ z _ _ E2)).
  fold (disk_inode e b x T (de_inode de)) in *. fold D1 in Hreg, Hb1, Hb2, Hsize, E2 |- *.
  set (v2 := set_inodes (<[dest := set_result (de_inode de) D1 (raw_inode dest)]> (inodes v1)) v1).
  assert (mounted_at v2 ts sb) as Hmt2 by (do 2 apply mounted_at_inodes; done).
  rewrite (bind_ok _ _ _ _ _ (on_world_ok _ _ z _ _ (on_vfs_ok _ x v2 hp1 (s2, e2) _ _ (find_super_ext2 _ _ _ Hmt2)))).
  set (i := file_inode d sb (de_inode de) D1 (raw_inode dest)). set (v3 := set_inodes (<[dest := i]> (inodes v2)) v2).
  rewrite (bind_ok _ _ _ tt (mkWorld x v3 hp1 (s2, e2), z)).
  2:{ apply on_world_ok, on_vfs_ok. unfold upd_inode, ld_inode, bind, v2. simpl. rewrite lookup_insert_eq. done. }
  assert (open_file v3 (mkFile dest name 0) i d) as Hopen.
  { destruct Hmt as [_ _ [_ [t Hty]] (_ & _ & sv & Hsv & Hst)]. constructor; [apply lookup_insert_eq|exact Hd|].
    exists sv, t. split; [exact Hsv|]. by rewrite Hst. }
  assert (inode_bytes e2 b (inode_at x T (i_no i)) = inode_bytes e b (inode_at x T (de_inode de))) as Hib
    by (apply inode_bytes_same; done).
  pose proof (ext2_read_sector_spec fuel d b x m T Hx v3 (mkFile dest name 0) i Hopen hp1 G Hown Hroom e2) as Hread.
  cbv zeta in Hread. rewrite !Hib in Hread. fold (disk_inode e b x T (de_inode de)) in Hread. fold D1 in Hread.
  specialize (Hread ltac:(apply Forall_take, Forall_drop, Hbytes) Hino (n - 2)%nat count 0 F2 s2 blk').
  change (0 / 512) with 0 in Hread. change (0 mod 512) with 0 in Hread. change (Z.to_nat (0 + 1)) with 1%nat in Hread.
  rewrite decide_True in Hread by (by right).
  destruct Hread as (s3 & e3 & F3 & hp3 & E3 & Hc3 & _ & _ & Hr3); try done; try lia; [apply Hsize|apply Hsize| |].
  { apply again_requestable; [|intros ->; simpl in Hl2; lia].
    apply (again_env _ _ _ _ _ _ _ e2); [exact Ha2|apply Ha2|reflexivity]. }
  replace (S (S (n - 2)))%nat with n in E3 by lia.
  rewrite <-Erd in E3. rewrite (bind_ok _ _ _ _ _ (on_world_ok _ _ z _ _ E3)). exists v3, hp3, s3, e3.
  rewrite Hc2, drop_0. split; [reflexivity|]. split; [congruence|]. split; [apply Hr3|apply lookup_insert_eq].
Qed.
End reading.
End root_file.
