(* ===== verification/Boot.v ===== *)
(** * Booting ([kernel_main] of src/kernel.c, include/multiboot.h)

    [kernel_main] runs the other components one after the other. Its state is the state
    of all of them. Objects whose memory comes from the heap are made from the bytes the
    heap holds and leave their bytes there when they are freed: what the first buffer of
    the cache contains is what the thread that was joined left behind. *)

From S2P Require Import Prelude Memory Common HeapSpec Heap HeapReuse Frame Paging Io Descriptors Irq Drivers Syscall.
From S2P Require Import Interrupts Ata Buffer Alloc Ext2Format Vfs Ext2 Devfs Mount Task.

(** ** Data *)

(** [multiboot_info_t]; [syms] is the union of two tables of four words. *)
Record multiboot_info := mkMultiboot {
  mb_flags : Z; mem_lower : Z; mem_upper : Z; boot_device : Z; cmdline : Z; mods_count : Z; mods_addr : Z;
  syms : list Z; mmap_length : Z; mmap_addr : Z }.

(** What the linker and compiler choose: the end of the kernel image, the code of [test],
    the addresses of the local variables [dev] and [root_fs] and of the literal
    "file1.txt"; what memory and those variables hold before anything is stored there;
    the registers compiled code has when [test] calls [preempt], from those [test] is
    entered with. *)
Class KernelLayout := {
  endkernel : Z;
  test_entry : Z;
  dev_var : Z;
  root_fs_var : Z;
  file1_literal : Z;
  raw_memory : Z → Z;
  raw_bdev : bdev;
  test_registers : Registers → Registers }.

Definition PRIMARY_BUS : Z := 0x1F0.
Definition SIZEOF_KTHREAD : nat := 52.
Definition SIZEOF_BUFFER : nat := 544.

(** [kthread_t] and [struct buffer_head] in memory; the widths of the second are its
    fields and the padding between them, and its [dirty] is a byte that counts as set when
    it equals [true], 1. *)
Definition kthread_fields (t : kthread) : list Z :=
  let r := regs t in
  [eax r; ebx r; ecx r; edx r; esi r; edi r; esp r; ebp r; eip r; eflags r; cr3 r; virtual_addr t; Task.next t].
Definition kthread_bytes (t : kthread) : list Z := put_fields (replicate 13 4%nat) (kthread_fields t).
Definition decode_kthread (l : list Z) : kthread :=
  let f i := nth i (get_fields (replicate 13 4%nat) l) 0 in
  mkThread (mkRegisters (f 0%nat) (f 1%nat) (f 2%nat) (f 3%nat) (f 4%nat) (f 5%nat) (f 6%nat) (f 7%nat) (f 8%nat)
    (f 9%nat) (f 10%nat)) (f 11%nat) (f 12%nat).
Definition buffer_layout : list nat := [1; 3; 4; 1; 1; 2; 4; 4; 4; 4; 4]%nat.
Definition decode_buffer (l : list Z) : buffer_head :=
  let f i := nth i (get_fields buffer_layout l) 0 in
  mkBuffer (f 0%nat) (f 2%nat) (f 3%nat =? 1) (f 5%nat) (f 6%nat) (f 7%nat) (f 8%nat) (f 9%nat) (f 10%nat)
    (take 512 (drop 32 l)).

Section kernel.
Context `{BlockDevice E} `{Symbols} `{Layout} `{TaskLayout} `{KernelLayout}.
#[local] Abbreviation W := (world (E := E) (H2 := heap)).

(** ** State *)

Record kernel := mkKernel {
  k_tables : descriptors; k_devices : devices; k_mm : frames * paging; k_tasks : tasks; k_files : W * Z }.
Definition k_heap (k : kernel) : heap := w_heap (k_files k).1.
Definition k_cache (k : kernel) : cache := (w_disk (k_files k).1).1.
Definition k_env (k : kernel) : E := (w_disk (k_files k).1).2.
Definition set_files (w : W * Z) (k : kernel) : kernel :=
  mkKernel (k_tables k) (k_devices k) (k_mm k) (k_tasks k) w.
Definition set_heap (h : heap) (k : kernel) : kernel :=
  set_files (mkWorld (w_ext2 (k_files k).1) (w_vfs (k_files k).1) h (w_disk (k_files k).1), (k_files k).2) k.
Definition set_disk (d : cache * E) (k : kernel) : kernel :=
  set_files (mkWorld (w_ext2 (k_files k).1) (w_vfs (k_files k).1) (w_heap (k_files k).1) d, (k_files k).2) k.

Definition on_heap {A} : M heap A → M kernel A := zoom k_heap set_heap.
Definition on_env {A} : M E A → M kernel A := zoom k_env (λ e k, set_disk (k_cache k, e) k).
Definition on_buffers {A} : M cache A → M kernel A := zoom k_cache (λ c k, set_disk (c, k_env k) k).
Definition on_mm {A} : M (frames * paging) A → M kernel A :=
  zoom k_mm (λ m k, mkKernel (k_tables k) (k_devices k) m (k_tasks k) (k_files k)).
Definition on_interrupts {A} : M (descriptors * (devices * E)) A → M kernel A :=
  zoom (λ k, (k_tables k, (k_devices k, k_env k)))
    (λ s k, set_disk (k_cache k, s.2.2) (mkKernel s.1 s.2.1 (k_mm k) (k_tasks k) (k_files k))).
Definition on_tasks {A} : M tasks A → M kernel A :=
  zoom k_tasks (λ t k, mkKernel (k_tables k) (k_devices k) (k_mm k) t (k_files k)).
Definition on_mm_tasks {A} : M ((frames * paging) * tasks) A → M kernel A :=
  zoom (λ k, (k_mm k, k_tasks k)) (λ s k, mkKernel (k_tables k) (k_devices k) s.1 s.2 (k_files k)).

(** ** Lines 208 to 243: memory *)

Definition memupper_size (mbd : multiboot_info) : Z := if truth (mb_flags mbd) then mem_upper mbd else 0.

(** The bytes of a page that has just been mapped can be accessed: they are what its frame
    holds. *)
Definition page_bytes (p : Z) : mem :=
  list_to_map ((λ i, (i, u8 (raw_memory i))) <$> seqZ p 4096).
Definition map_page (p : Z) : M heap unit := modify (λ h, set_mem h (page_bytes p ∪ hmem h)).
Definition kernel_page : M kernel Z :=
  let* p := on_mm kalloc_page in
  on_heap (map_page p) ;;;
  ret p.

Definition init_memory (memupper : Z) : M kernel unit :=
  on_mm (on_fst (init_frames endkernel memupper)) ;;;
  on_mm (on_snd (init_paging endkernel)) ;;;
  on_env (terminal_writestring "paging initialized") ;;;
  let* heap_start := kernel_page in
  for_each (seqZ 0 14) (λ _, kernel_page ;;; ret tt) ;;;
  on_heap (kheap_init heap_start (u32 (heap_start + 0xF000))).

(** ** Lemmas *)

Lemma kernel_heap_ok {A} (m : M heap A) k a h : m (k_heap k) = Ok a h → on_heap m k = Ok a (set_heap h k).
Proof using. unfold on_heap, zoom. by intros ->. Qed.
Lemma on_env_ok {A} (m : M E A) k a e : m (k_env k) = Ok a e → on_env m k = Ok a (set_disk (k_cache k, e) k).
Proof using. unfold on_env, zoom. by intros ->. Qed.
Lemma on_mm_ok {A} (m : M (frames * paging) A) k a s :
  m (k_mm k) = Ok a s → on_mm m k = Ok a (mkKernel (k_tables k) (k_devices k) s (k_tasks k) (k_files k)).
Proof using. unfold on_mm, zoom. by intros ->. Qed.

(** Everything but the memory. *)
Definition same_others (k k' : kernel) : Prop :=
  k_tables k' = k_tables k ∧ k_devices k' = k_devices k ∧ k_tasks k' = k_tasks k ∧ k_cache k' = k_cache k ∧
  w_ext2 (k_files k').1 = w_ext2 (k_files k).1 ∧ w_vfs (k_files k').1 = w_vfs (k_files k).1 ∧
  (k_files k').2 = (k_files k).2.
#[local] Instance same_others_preorder : PreOrder same_others.
Proof using.
  split; [intros k; unfold same_others; by split_and!|].
  intros k1 k2 k3 (A1 & A2 & A3 & A4 & A5 & A6 & A7) (B1 & B2 & B3 & B4 & B5 & B6 & B7). unfold same_others.
  by rewrite B1, B2, B3, B4, B5, B6, B7.
Qed.

Lemma page_bytes_mapped p : mapped (page_bytes p) p 4096.
Proof using.
  intros x Hx. unfold page_bytes. destruct (_ !! x) eqn:Hl; [by eexists|].
  apply not_elem_of_list_to_map in Hl. destruct Hl.
  apply list_elem_of_fmap. exists (x, u8 (raw_memory x)). split; [done|].
  apply list_elem_of_fmap. exists x. split; [done|]. apply elem_of_seqZ. lia.
Qed.
Lemma page_bytes_ok p m : bytes_ok m → bytes_ok (page_bytes p ∪ m).
Proof using.
  intros Hm x v Hx. apply lookup_union_Some_raw in Hx as [Hx|[_ Hx]]; [|by apply (Hm x)].
  revert Hx. unfold page_bytes. generalize (seqZ p 4096) as l. intros l Hx.
  apply elem_of_list_to_map_2, list_elem_of_fmap in Hx as (y & Hy & _). injection Hy as -> ->. apply u8_range.
Qed.
Lemma mapped_union m m' a n : mapped m' a n → mapped (m ∪ m') a n.
Proof using. intros Hm x Hx. destruct (Hm x Hx) as [v Hv]. rewrite lookup_union, Hv. by destruct (m !! x); eexists. Qed.
Lemma mapped_union_l m m' a n : mapped m a n → mapped (m ∪ m') a n.
Proof using. intros Hm x Hx. destruct (Hm x Hx) as [v Hv]. rewrite lookup_union, Hv. by destruct (m' !! x); eexists. Qed.
Lemma mapped_append m a n n' : 0 ≤ n → mapped m a n → mapped m (a + n) n' → mapped m a (n + n').
Proof using. intros Hn H1' H2' x Hx. destruct (decide (x < a + n)); [apply H1'|apply H2']; lia. Qed.

Lemma kernel_page_spec k n :
  paging_repr (k_mm k) n → n < 1023 → n < nframes (k_mm k).1 →
  let p := KERNEL_VIRTUAL_BASE + n * 4096 in
  ∃ k', kernel_page k = Ok p k' ∧ same_others k k' ∧ k_env k' = k_env k ∧
    paging_repr (k_mm k') (n + 1) ∧ nframes (k_mm k').1 = nframes (k_mm k).1 ∧
    k_heap k' = set_mem (k_heap k) (page_bytes p ∪ hmem (k_heap k)).
Proof using Type*.
  intros Hr Hn Hf p. destruct (kalloc_page_spec (k_mm k) n Hr Hf) as (mm & Hnf & _ & _ & Hs).
  rewrite (proj2 (Z.ltb_lt _ _) Hn) in Hs. destruct Hs as [Ep Hr'].
  unfold kernel_page. rewrite (bind_ok _ _ _ _ _ (on_mm_ok _ k _ _ Ep)). set (k1 := mkKernel _ _ mm _ _).
  rewrite (bind_ok _ _ _ _ _ (kernel_heap_ok (map_page p) k1 tt _ eq_refl)).
  eexists. split; [reflexivity|]. split; [unfold same_others; by split_and!|]. split; [done|].
  split; [exact Hr'|]. split; [exact Hnf|done].
Qed.

(** A row of pages. *)
Lemma kernel_pages_spec l : ∀ k n,
  paging_repr (k_mm k) n → n + length l ≤ 1023 → n + length l ≤ nframes (k_mm k).1 →
  ∃ k', for_each l (λ _ : Z, kernel_page ;;; ret tt) k = Ok tt k' ∧ same_others k k' ∧ k_env k' = k_env k ∧
    paging_repr (k_mm k') (n + length l) ∧ nframes (k_mm k').1 = nframes (k_mm k).1 ∧
    mapped (hmem (k_heap k')) (KERNEL_VIRTUAL_BASE + n * 4096) (length l * 4096) ∧
    (bytes_ok (hmem (k_heap k)) → bytes_ok (hmem (k_heap k'))) ∧
    ∀ a m, mapped (hmem (k_heap k)) a m → mapped (hmem (k_heap k')) a m.
Proof using Type*.
  induction l as [|x l IH]; intros k n Hr Hn Hf; cbn [for_each length] in *.
  - exists k. rewrite Z.add_0_r. split; [done|]. split; [done|]. split; [done|]. split; [done|]. split; [done|].
    split; [intros y Hy; lia|by split].
  - destruct (kernel_page_spec k n Hr) as (k1 & E1 & So1 & He1 & Hr1 & Hf1 & Hh1); [lia..|].
    destruct (IH k1 (n + 1) Hr1) as (k2 & E2 & So2 & He2 & Hr2 & Hf2 & Hm2 & Hb2 & Hk2); [lia..|].
    exists k2. rewrite bind_assoc, (bind_ok _ _ _ _ _ E1), bind_ret_l. split; [done|].
    split; [by etrans|]. split; [congruence|]. split; [by replace (n + S (length l)) with (n + 1 + length l) by lia|].
    split; [congruence|]. split.
    + replace (S (length l) * 4096) with (4096 + length l * 4096) by lia. apply mapped_append; [lia| |].
      * apply Hk2. rewrite Hh1. apply mapped_union_l, page_bytes_mapped.
      * by replace (KERNEL_VIRTUAL_BASE + n * 4096 + 4096) with (KERNEL_VIRTUAL_BASE + (n + 1) * 4096) by lia.
    + split; [intros Hb; apply Hb2; rewrite Hh1; exact (page_bytes_ok _ _ Hb)|].
      intros a m Ha. apply Hk2. rewrite Hh1. by apply mapped_union.
Qed.

(** The first page the allocator hands out, and where the heap is. *)
Definition first_page : Z := first_free_frame endkernel / PAGE_SIZE.
Definition boot_heap_start : Z := KERNEL_VIRTUAL_BASE + first_page * 4096.
Definition boot_heap_end : Z := boot_heap_start + 0xF000.

(** Static memory is zero, the kernel image ends below 4 MiB with room for the heap behind
    it, and the machine has that memory. *)
Record boots (memupper : Z) (k : kernel) : Prop := {
  bt_frames : frame_map (k_mm k).1 = replicate FRAME_WORDS 0;
  bt_dir : tables (k_mm k).2 !! kernel_page_dir = Some (replicate (Z.to_nat 1024) 0);
  bt_table : tables (k_mm k).2 !! first_page_table = Some (replicate (Z.to_nat 1024) 0);
  bt_end : 0 ≤ endkernel ∧ endkernel mod 2 ^ 24 < 0x3FF000;
  bt_size : first_free_frame endkernel / 1024 ≤ memupper ≤ 1048576;
  bt_room : 0 ≤ first_page ∧ first_page + 16 ≤ 1023 ∧ first_page + 16 ≤ memupper / 4;
  bt_bytes : bytes_ok (hmem (k_heap k));
  bt_env : env_wf (k_env k) }.

Lemma boot_heap_bounds memupper k : boots memupper k → heap_bounds boot_heap_start boot_heap_end.
Proof using.
  intros [_ _ _ _ _ Hroom _ _]. unfold heap_bounds, boot_heap_end, boot_heap_start, KERNEL_VIRTUAL_BASE, SIZEOF_BLOCK.
  split_and!; [lia|word_lia|word_lia|lia|lia].
Qed.

Lemma init_memory_spec memupper k :
  boots memupper k →
  ∃ k' e', init_memory memupper k = Ok tt k' ∧
    terminal_writestring "paging initialized" (k_env k) = Ok tt e' ∧ k_env k' = e' ∧ env_wf e' ∧
    same_others k k' ∧ paging_repr (k_mm k') (first_page + 15) ∧ nframes (k_mm k').1 = memupper / 4 ∧
    heap_boot boot_heap_start boot_heap_end (k_heap k', ∅) ∧ bytes_ok (hmem (k_heap k')) ∧
    ∀ x, boot_heap_start + 16 ≤ x < boot_heap_end → hmem (k_heap k') !! x = Some 0.
Proof using Type*.
  intros Hb. pose proof (boot_heap_bounds _ _ Hb) as Hhb. destruct Hb as [Hf Hd Ht [He Hsmall] Hm (Hp0 & Hp1 & Hp2) Hby Henv].
  destruct (k_mm k) as [f p] eqn:Emm. cbn [fst snd] in *.
  destruct (boot_spec endkernel memupper f p Hf Hd Ht He Hsmall Hm) as (sp & Eb & Hr & Hnf & _).
  unfold init_memory. apply bind_inv_ok in Eb as ([] & s1 & E1 & E2). rewrite <-Emm in E1.
  rewrite (bind_ok _ _ _ _ _ (on_mm_ok _ k _ _ E1)). set (k1 := mkKernel _ _ s1 _ _).
  rewrite (bind_ok _ _ _ _ _ (on_mm_ok _ k1 _ _ E2)). set (k2 := mkKernel _ _ sp _ _).
  destruct (returns_write (chars "paging initialized") (k_env k) Henv) as ([] & e' & E3 & He').
  rewrite (bind_ok _ _ _ _ _ (on_env_ok (terminal_writestring _) k2 _ _ E3)). set (k3 := set_disk _ k2).
  assert (same_others k k3) as So3 by (unfold same_others; by split_and!).
  fold first_page in Hr.
  destruct (kernel_page_spec k3 first_page Hr) as (k4 & E4 & So4 & He4 & Hr4 & Hf4 & Hh4); [lia|simpl; lia|].
  rewrite (bind_ok _ _ _ _ _ E4).
  destruct (kernel_pages_spec (seqZ 0 14) k4 (first_page + 1) Hr4) as (k5 & E5 & So5 & He5 & Hr5 & Hf5 & Hm5 & Hb5 & Hk5);
    [rewrite length_seqZ; lia|rewrite length_seqZ, Hf4; simpl; lia|].
  rewrite (bind_ok _ _ _ _ _ E5). fold boot_heap_start.
  assert (u32 (boot_heap_start + 0xF000) = boot_heap_end) as ->.
  { unfold boot_heap_end, boot_heap_start, KERNEL_VIRTUAL_BASE. rewrite u32_small; lia. }
  assert (mapped (hmem (k_heap k5)) boot_heap_start (boot_heap_end - boot_heap_start)) as Hmap.
  { replace (boot_heap_end - boot_heap_start) with (4096 + 14 * 4096) by (unfold boot_heap_end; lia).
    apply mapped_append; [lia| |].
    - apply Hk5. rewrite Hh4. apply mapped_union_l, page_bytes_mapped.
    - replace (boot_heap_start + 4096) with (KERNEL_VIRTUAL_BASE + (first_page + 1) * 4096) by (unfold boot_heap_start; lia).
      exact Hm5. }
  destruct (kheap_init_spec _ _ _ Hhb Hmap) as (h' & E6 & _).
  rewrite (kernel_heap_ok _ k5 _ _ E6). exists (set_heap h' k5), e'. split; [done|]. split; [done|].
  split; [change (k_env k5 = e'); by rewrite He5, He4|]. split; [done|].
  split; [etrans; [exact So3|etrans; [exact So4|etrans; [exact So5|unfold same_others; by split_and!]]]|].
  change (length (seqZ 0 14)) with 14%nat in Hr5. replace (first_page + 1 + 14%nat) with (first_page + 15) in Hr5 by lia.
  split; [exact Hr5|]. split; [change (nframes (k_mm k5).1 = memupper / 4); by rewrite Hf5, Hf4|].
  destruct (kheap_init_memory _ _ _ _ Hhb Hmap E6) as [Hb6 Hz6].
  split; [by exists (k_heap k5)|]. split; [|exact Hz6].
  apply Hb6, Hb5. rewrite Hh4. exact (page_bytes_ok _ _ Hby).
Qed.

(** ** Theorems *)

(** C15. Memory after boot: the fifteen pages are contiguous, every byte of the heap is in a page
    that translates to the frame allocated for it, the heap is in the state of
    [kheap_init], nothing handed out, so that what is proved of its clients holds, and
    the other components are as they were. *)
Theorem init_memory_correct memupper k :
  boots memupper k →
  ∃ k', init_memory memupper k = Ok tt k' ∧ same_others k k' ∧ env_wf (k_env k') ∧
    heap_reachable boot_heap_start boot_heap_end (k_heap k', ∅) ∧
    paging_repr (k_mm k') (first_page + 15) ∧ nframes (k_mm k').1 = memupper / 4 ∧
    ∀ v, boot_heap_start ≤ v < boot_heap_end →
      get_phys_addr kernel_page_dir v (k_mm k').2 = Ok (v - KERNEL_VIRTUAL_BASE) (k_mm k').2.
Proof using Type*.
  intros Hb. destruct (init_memory_spec memupper k Hb) as (k' & e' & Em & _ & Hk & He' & So & Hr & Hf & Hh & _).
  exists k'. split; [done|]. split; [done|]. split; [by rewrite Hk|]. split; [by exists (k_heap k', ∅)|].
  split; [done|]. split; [done|]. intros v Hv. pose proof (bt_room _ _ Hb) as (Hp0 & Hp1 & _).
  unfold boot_heap_start, boot_heap_end, boot_heap_start in Hv.
  rewrite (get_phys_addr_spec _ _ _ (pr_tables _ _ Hr)) by (unfold KERNEL_VIRTUAL_BASE in *; lia).
  rewrite (proj2 (Z.leb_le _ _)), !(proj2 (Z.ltb_lt _ _)) by (unfold KERNEL_VIRTUAL_BASE in *; lia). done.
Qed.
End kernel.
