(* ===== verification/Startup.v ===== *)
(** * The first thread and the buffers ([kernel_main] and [test] of src/kernel.c)

    Lines 247 to 251 create a thread, let it run, join it and free its block; line 280
    allocates the buffers of the cache. The blocks come from the heap: the thread's goes
    back to it with the registers the thread left behind, and the first buffer is made of
    them. *)

From S2P Require Import Prelude Memory Common HeapSpec Heap HeapReuse Frame Paging Io Descriptors Irq Drivers Syscall.
From S2P Require Import Interrupts Ata Buffer BufferInit Alloc Ext2Format Vfs Ext2 Devfs Mount Task Boot.

Section operations.
Context `{BlockDevice E} `{Symbols} `{Layout} `{TaskLayout} `{KernelLayout}.
#[local] Abbreviation K := (kernel (E := E)).

(** ** Lines 247 to 251 *)

(** [kmalloc(sizeof(kthread_t))]: a block made of what the memory holds. *)
Definition new_thread : M K Z :=
  let* p := on_heap (kmalloc SIZEOF_KTHREAD) in
  let* l := on_heap (on_mem (read_bytes SIZEOF_KTHREAD p)) in
  on_tasks (modify (λ s, set_threads (<[p := decode_kthread l]> (threads s)) s)) ;;;
  ret p.

(** One turn of the loop of [test]. *)
Definition test : M K unit :=
  on_env (terminal_writestring "In thread 2") ;;;
  on_tasks (modify (λ s, set_cpu (test_registers (cpu s)) s) ;;; preempt).

(** [kfree(kthread1)]: the fields are what the memory of the block holds from now on. *)
Definition free_thread (p : Z) : M K unit :=
  let* t := on_tasks (ld_thread p) in
  on_heap (on_mem (write_bytes (kthread_bytes t) p)) ;;;
  on_tasks (modify (λ s, set_threads (delete p (threads s)) s)) ;;;
  on_heap (kfree p).

(** [kthread_create] switches to [test], which runs until it switches back. *)
Definition start_thread : M K unit :=
  on_tasks init_tasking ;;;
  let* kthread1 := new_thread in
  on_mm_tasks (kthread_create kthread1 test_entry) ;;;
  test ;;;
  (let* n := gets (λ k, size (threads (k_tasks k))) in on_mm_tasks (kthread_join n kthread1)) ;;;
  free_thread kthread1.

(** ** Line 280 *)

Definition new_buffer : M K Z :=
  let* p := on_heap (kmalloc SIZEOF_BUFFER) in
  let* l := on_heap (on_mem (read_bytes SIZEOF_BUFFER p)) in
  on_buffers (modify (λ s, set_buffers (<[p := decode_buffer l]> (buffers s)) s)) ;;;
  ret p.
Fixpoint new_buffers (n : nat) : M K (list Z) :=
  match n with
  | O => ret []
  | S n => let* p := new_buffer in let* l := new_buffers n in ret (p :: l)
  end.
(** [init_buffer] with its calls of [kmalloc], which do not look at the buffers. *)
Definition init_buffers : M K unit :=
  let* first := new_buffer in
  let* new := new_buffers (MAX_BUFFER - 1) in
  on_buffers (init_buffer first new).

(** ** Lemmas *)

Lemma on_tasks_ok {A} (m : M tasks A) (k : K) a t :
  m (k_tasks k) = Ok a t → on_tasks m k = Ok a (mkKernel (k_tables k) (k_devices k) (k_mm k) t (k_files k)).
Proof using. unfold on_tasks, zoom. by intros ->. Qed.
Lemma on_mm_tasks_ok {A} (m : M ((frames * paging) * tasks) A) (k : K) a s t :
  m (k_mm k, k_tasks k) = Ok a (s, t) →
  on_mm_tasks m k = Ok a (mkKernel (k_tables k) (k_devices k) s t (k_files k)).
Proof using. unfold on_mm_tasks, zoom. by intros ->. Qed.
Lemma on_buffers_ok {A} (m : M cache A) (k : K) a c :
  m (k_cache k) = Ok a c → on_buffers m k = Ok a (set_disk (c, k_env k) k).
Proof using. unfold on_buffers, zoom. by intros ->. Qed.
Lemma on_mem_ok {A} (m : M mem A) h a m' : m (hmem h) = Ok a m' → on_mem m h = Ok a (set_mem h m').
Proof using. unfold on_mem, zoom. by intros ->. Qed.

(** Everything but heap, paging, tasks and what is printed. *)
Definition same_rest (k k' : K) : Prop :=
  k_tables k' = k_tables k ∧ k_devices k' = k_devices k ∧ w_ext2 (k_files k').1 = w_ext2 (k_files k).1 ∧
  w_vfs (k_files k').1 = w_vfs (k_files k).1 ∧ (k_files k').2 = (k_files k).2.

(** What a step at the block at [p] may do to the memory of the heap. *)
Definition behind_kept (m m' : mem) (p : Z) : Prop :=
  (bytes_ok m → bytes_ok m') ∧ ∀ x, p + SIZEOF_KTHREAD + 16 ≤ x → m' !! x = m !! x.

Lemma stored_bytes_ok l : ∀ m a, bytes_ok m → bytes_ok (stored m a l).
Proof using. induction l as [|x l IH]; intros m a Hm; [done|]. apply IH. by apply bytes_ok_wr8. Qed.

Lemma new_thread_spec (k : K) n :
  heap_repr (k_heap k) [Blk false n] → SIZEOF_KTHREAD + 17 ≤ n →
  let p := heap_start (k_heap k) + 16 in
  ∃ m' l, new_thread k = Ok p
      (mkKernel (k_tables k) (k_devices k) (k_mm k)
         (set_threads (<[p := decode_kthread l]> (threads (k_tasks k))) (k_tasks k))
         (k_files (set_heap (set_mem (k_heap k) m') k))) ∧
    heap_repr (set_mem (k_heap k) m') [Blk true SIZEOF_KTHREAD; Blk false (n - SIZEOF_KTHREAD - 16)] ∧
    behind_kept (hmem (k_heap k)) m' p.
Proof using Type*.
  intros Hr Hn p. destruct (kmalloc_last _ [] n SIZEOF_KTHREAD Hr) as (m' & E1 & Hr' & Hby & Hk); [done|by split|done|].
  cbn [span] in E1, Hk. rewrite Z.add_0_r in E1, Hk. fold p in Hk.
  destruct (first_payload _ _ _ _ Hr') as (Hs0 & _ & Hmax & Hm). cbn [heap_start set_mem hmem] in *. fold p in Hmax, Hm.
  destruct (read_bytes_spec SIZEOF_KTHREAD p m' Hm) as (l & E2 & _); [lia|lia|].
  exists m', l. split; [|split; [done|split; [done|intros x Hx; apply Hk; lia]]]. unfold new_thread.
  rewrite (bind_ok _ _ _ _ _ (kernel_heap_ok _ k _ _ E1)). set (k1 := set_heap _ k).
  by rewrite (bind_ok _ _ _ _ _ (kernel_heap_ok _ k1 _ _ (on_mem_ok _ (k_heap k1) _ _ E2))).
Qed.

(** Freeing the block leaves its fields in the memory. *)
Lemma free_thread_spec (k : K) p t j :
  heap_repr (k_heap k) [Blk true SIZEOF_KTHREAD; Blk false j] → p = heap_start (k_heap k) + 16 →
  threads (k_tasks k) !! p = Some t →
  ∃ m', free_thread p k = Ok tt
      (mkKernel (k_tables k) (k_devices k) (k_mm k) (set_threads (delete p (threads (k_tasks k))) (k_tasks k))
         (k_files (set_heap (set_mem (k_heap k) m') k))) ∧
    heap_repr (set_mem (k_heap k) m') [Blk false (SIZEOF_KTHREAD + (16 + j))] ∧
    holds_bytes m' p (kthread_bytes t) ∧ behind_kept (hmem (k_heap k)) m' p.
Proof using Type*.
  intros Hr -> Ht. set (p := heap_start (k_heap k) + 16) in *.
  destruct (first_payload _ _ _ _ Hr) as (Hs0 & _ & Hmax & Hm). fold p in Hmax, Hm.
  assert (length (kthread_bytes t) = SIZEOF_KTHREAD) as Hl by (by apply put_fields_length).
  unfold free_thread. rewrite (bind_ok _ _ _ _ _ (on_tasks_ok _ k _ _ (ld_thread_ok _ _ _ Ht))).
  assert (write_bytes (kthread_bytes t) p (hmem (k_heap k)) = Ok tt (stored (hmem (k_heap k)) p (kthread_bytes t))) as E1.
  { apply write_bytes_stored; [by rewrite Hl|lia|lia]. }
  set (m1 := stored _ _ _) in E1. set (k0 := mkKernel _ _ _ _ _).
  rewrite (bind_ok _ _ _ _ _ (kernel_heap_ok _ k0 _ _ (on_mem_ok _ (k_heap k0) _ _ E1))).
  assert (heap_repr (set_mem (k_heap k) m1) [Blk true SIZEOF_KTHREAD; Blk false j]) as Hr1.
  { apply (stored_repr (k_heap k) _ p SIZEOF_KTHREAD); [done|simpl; by left|lia]. }
  destruct (kfree_first _ _ _ Hr1) as (m2 & E2 & Hr2 & Hby & Hk). cbn [heap_start set_mem hmem] in *. fold p in E2, Hk.
  unfold on_tasks at 1, zoom at 1, modify, bind at 1. set (k1 := mkKernel _ _ _ _ _).
  exists m2. split; [by rewrite (kernel_heap_ok _ k1 _ _ E2)|]. split; [done|].
  assert (holds_bytes m1 p (kthread_bytes t)) as Hh by (apply stored_holds, put_fields_bytes).
  split; [intros i b Hi; rewrite Hk by (apply lookup_lt_Some in Hi; lia); by apply Hh|].
  split; [intros Hb; by apply Hby, stored_bytes_ok|]. intros x Hx. rewrite Hk by lia. apply stored_other. lia.
Qed.

Lemma test_spec (k : K) q i :
  queue_repr (k_tasks k) q i → env_wf (k_env k) →
  ∃ e t, test k = Ok tt (mkKernel (k_tables k) (k_devices k) (k_mm k) t (k_files (set_disk (k_cache k, e) k))) ∧
    terminal_writestring "In thread 2" (k_env k) = Ok tt e ∧ env_wf e ∧ queue_repr t q (S i mod length q) ∧
    last_thread t = last_thread (k_tasks k) ∧
    (∀ p, p ∈ q → context t p = if decide (p = running_thread (k_tasks k)) then Some (test_registers (cpu (k_tasks k)))
                               else context (k_tasks k) p) ∧
    (∀ p, virtual_addr <$> threads t !! p = virtual_addr <$> threads (k_tasks k) !! p).
Proof using Type*.
  intros Hq He. destruct (returns_write (chars "In thread 2") (k_env k) He) as ([] & e & E1 & He').
  set (s1 := set_cpu (test_registers (cpu (k_tasks k))) (k_tasks k)).
  assert (queue_repr s1 q i) as Hq1 by (by destruct Hq).
  destruct (preempt_spec s1 q i Hq1) as (t & E2 & Hq2 & Hl & Hc & Hva). exists e, t. split.
  - unfold test. rewrite (bind_ok _ _ _ _ _ (on_env_ok (terminal_writestring _) k _ _ E1)).
    set (k1 := set_disk _ k). rewrite (on_tasks_ok _ k1 tt t); [done|]. by rewrite bind_modify.
  - split; [done|]. split; [done|]. split; [done|]. split; [done|]. split; [|done].
    intros p Hp. rewrite (Hc p Hp). unfold context. simpl. case_decide as Hd; [by rewrite Hd, Z.eqb_refl|].
    by rewrite (proj2 (Z.eqb_neq _ _) Hd).
Qed.

(** The registers [test] is entered with: a stack page of its own and what
    [init_tasking] saved; [ebp] is not assigned. *)
Definition entry_registers (top ebp : Z) (cpu : Registers) : Registers :=
  mkRegisters 0 0 0 0 0 0 top ebp test_entry (eflags cpu) (cr3 cpu).

(** The run queue of [start_thread]: the processor is the main thread's again, and the
    block behind it in the queue is no longer there. *)
Definition dangling (s : tasks) (p : Z) : Prop :=
  running_thread s = main_thread ∧ last_thread s = p ∧ threads s !! p = None ∧
  ∃ t, threads s !! main_thread = Some t ∧ Task.next t = p.

(** The thread's turn: [kthread_create], [test] and back. *)
Lemma first_turn (k : K) pages p :
  queue_repr (k_tasks k) [main_thread] 0 → paging_repr (k_mm k) pages → pages < 1023 → pages < nframes (k_mm k).1 →
  env_wf (k_env k) → p ≠ 0 → p ≠ main_thread → is_Some (threads (k_tasks k) !! p) →
  let s := k_tasks k in
  ∃ mm s' e t v, (on_mm_tasks (kthread_create p test_entry) ;;; test) k =
      Ok tt (mkKernel (k_tables k) (k_devices k) mm s' (k_files (set_disk (k_cache k, e) k))) ∧
    terminal_writestring "In thread 2" (k_env k) = Ok tt e ∧ env_wf e ∧ paging_repr mm (pages + 1) ∧
    queue_repr s' [main_thread; p] 0 ∧ cpu s' = cpu s ∧ threads s' !! p = Some t ∧
    regs t = test_registers (mkRegisters 0 0 0 0 0 0 (KERNEL_VIRTUAL_BASE + (pages + 1) * 4096) v test_entry
      (Task.flags s) (page_dir s)) ∧ virtual_addr t = KERNEL_VIRTUAL_BASE + pages * 4096.
Proof using Type*.
  intros Hq Hp Hpg Hnf He Hp0 Hpm Hin s.
  assert (p ∉ [main_thread]) as Hnin by (by intros ->%list_elem_of_singleton).
  destruct (kthread_create_spec s [main_thread] 0 (k_mm k) pages p test_entry Hq Hp Hpg Hnf Hp0 Hnin Hin)
    as (mm3 & s3 & r & E3 & Hp3 & Hq3 & Hc3 & Hr3 & Heip & Hesp & Hefl & Hcr & Hregs & _ & Hva3 & _).
  rewrite (bind_ok _ _ _ _ _ (on_mm_tasks_ok _ k _ _ _ E3)). set (k3 := mkKernel _ _ mm3 s3 _).
  change (1%nat mod (length [main_thread] + 1))%nat with 1%nat in Hq3. change ([main_thread] ++ [p]) with [main_thread; p] in Hq3.
  pose proof (q_running _ _ _ Hq3) as Hrun3. injection Hrun3 as Hrun3.
  pose proof (q_running _ _ _ Hq) as Hrun. injection Hrun as Hrun. fold s in Hrun.
  destruct (test_spec k3 _ _ Hq3 He) as (e & s4 & E4 & Ee & He' & Hq4 & _ & Hc4 & Hva4).
  change (2%nat mod length [main_thread; p])%nat with 0%nat in Hq4. change (k_tasks k3) with s3 in *.
  pose proof (q_running _ _ _ Hq4) as Hrun4. injection Hrun4 as Hrun4.
  assert (cpu s3 = r) as Hcpu3 by (rewrite Hrun3, context_running in Hr3; by injection Hr3).
  assert (cpu s4 = cpu s) as Hcpu4.
  { assert (context s4 main_thread = Some (cpu s)) as Hc.
    { rewrite Hc4 by (by left). rewrite decide_False by congruence. rewrite Hc3 by (by left).
      rewrite Hrun. apply context_running. }
    rewrite Hrun4, context_running in Hc. by injection Hc. }
  assert (context s4 p = Some (test_registers r)) as Hc.
  { rewrite Hc4 by (right; by left). by rewrite decide_True, Hcpu3 by done. }
  rewrite context_other in Hc by congruence.
  specialize (Hva4 p). rewrite Hva3 in Hva4. destruct (threads s4 !! p) as [t|] eqn:Ht; [|done].
  simpl in Hc, Hva4. injection Hc as Hc. injection Hva4 as Hva4.
  exists mm3, s4, e, t, (ebp r). split; [exact E4|]. split_and!; try done. rewrite Hc, Hregs. simpl. by rewrite Hesp, Heip, Hefl, Hcr.
Qed.

Lemma start_thread_spec (k : K) n pages t0 :
  heap_repr (k_heap k) [Blk false n] → SIZEOF_KTHREAD + 17 ≤ n → paging_repr (k_mm k) pages →
  pages < 1023 → pages < nframes (k_mm k).1 → threads (k_tasks k) !! main_thread = Some t0 → env_wf (k_env k) →
  let p := heap_start (k_heap k) + 16 in p ≠ main_thread →
  ∃ k' m' t v e, start_thread k = Ok tt k' ∧ same_rest k k' ∧ k_cache k' = k_cache k ∧
    terminal_writestring "In thread 2" (k_env k) = Ok tt e ∧ k_env k' = e ∧ env_wf e ∧
    k_heap k' = set_mem (k_heap k) m' ∧ heap_repr (k_heap k') [Blk false n] ∧ holds_bytes m' p (kthread_bytes t) ∧
    behind_kept (hmem (k_heap k)) m' p ∧
    regs t = test_registers (entry_registers (KERNEL_VIRTUAL_BASE + (pages + 1) * 4096) v (cpu (k_tasks k))) ∧
    virtual_addr t = KERNEL_VIRTUAL_BASE + pages * 4096 ∧
    get_phys_addr kernel_page_dir (virtual_addr t) (k_mm k').2 = Panic "Page table entry not present" (k_mm k').2 ∧
    dangling (k_tasks k') p ∧ cpu (k_tasks k') = cpu (k_tasks k).
Proof using Type*.
  intros Hr Hn Hp Hpg Hnf Ht0 He p Hpm.
  destruct (first_payload _ _ _ _ Hr) as (Hs0 & _).
  destruct (init_tasking_spec _ _ Ht0) as (s1 & E1 & Hq1 & Hfl1 & Hpd1 & Hcpu1 & Hth1).
  unfold start_thread. rewrite (bind_ok _ _ _ _ _ (on_tasks_ok _ k _ _ E1)). set (k1 := mkKernel _ _ _ _ _).
  destruct (new_thread_spec k1 n Hr Hn) as (m1 & l & E2 & Hr2 & Hb2 & Hk2). rewrite (bind_ok _ _ _ _ _ E2).
  change (heap_start (k_heap k1) + 16) with p. set (k2 := mkKernel _ _ _ _ _).
  assert (queue_repr (k_tasks k2) [main_thread] 0) as Hq2.
  { apply queue_insert; [done|]. by intros ->%list_elem_of_singleton. }
  destruct (first_turn k2 pages p Hq2 Hp Hpg Hnf He) as (mm & s4 & e & t & v & E4 & Ee & He4 & Hp4 & Hq4 & Hcpu4 & Ht & Hregs & Hva);
    [unfold p; lia|done|eexists; apply lookup_insert_eq|].
  rewrite <-bind_assoc, (bind_ok _ _ _ _ _ E4). set (k4 := mkKernel _ _ _ s4 _). rewrite bind_assoc, bind_gets.
  destruct (size (threads (k_tasks k4))) as [|fuel] eqn:Hsz.
  { apply map_size_empty_inv in Hsz. change (threads s4 = ∅) in Hsz. by rewrite Hsz, lookup_empty in Ht. }
  destruct mm as [f4 p4].
  destruct (kthread_join_first s4 [main_thread; p] 0 f4 p4 (pages + 1) p t fuel Hq4 eq_refl Ht Hp4) as (f5 & p5 & E5 & Hgone);
    [rewrite Hva; destruct Hp as [[_ ?] _ _]; unfold KERNEL_VIRTUAL_BASE; lia|].
  rewrite (bind_ok _ _ _ _ _ (on_mm_tasks_ok _ k4 _ _ _ E5)). set (k5 := mkKernel _ _ (f5, p5) s4 _).
  destruct (free_thread_spec k5 p t _ Hr2 eq_refl Ht) as (m6 & E6 & Hr6 & Hh & Hb6 & Hk6). rewrite E6.
  replace (SIZEOF_KTHREAD + (16 + (n - SIZEOF_KTHREAD - 16))) with n in Hr6 by lia.
  destruct (q_linked _ _ _ Hq4 _ _ (q_head _ _ _ Hq4)) as (tm & Htm & Hnm).
  eexists _, m6, t, v, e. split; [reflexivity|]. split; [by unfold same_rest; split_and!|]. split; [done|]. split; [done|].
  split; [done|]. split; [done|]. split; [done|]. split; [exact Hr6|]. split; [done|].
  split; [split; [intros Hb; by apply Hb6, Hb2|intros x Hx; etrans; [by apply Hk6|by apply Hk2]]|].
  split; [by rewrite Hregs; simpl; rewrite Hfl1, Hpd1|]. split; [done|]. split; [done|]. split; [|by rewrite <-Hcpu1].
  pose proof (q_running _ _ _ Hq4) as Hrun4. injection Hrun4 as Hrun4. pose proof (q_last _ _ _ Hq4) as Hla. injection Hla as Hla.
  unfold dangling. simpl. split; [done|]. split; [done|]. split; [apply lookup_delete_eq|].
  exists tm. by rewrite lookup_delete_ne.
Qed.

(** ** Lemmas: the buffers *)

(** [i] buffers at the start of the heap and [n] free bytes behind them. *)
Definition buffer_row (i : nat) (n : Z) : list blk := replicate i (Blk true SIZEOF_BUFFER) ++ [Blk false n].
Definition buffer_addr (start : Z) (i : nat) : Z := start + 560 * i + 16.

Lemma span_replicate i : span (replicate i (Blk true SIZEOF_BUFFER)) = 560 * i.
Proof using. induction i as [|i IH]; [done|]. cbn [replicate span]. rewrite IH. unfold HDR, SIZEOF_BUFFER. simpl. lia. Qed.

(** The kernel with another heap and other buffers. *)
Definition with_buffers (h : heap) (B : gmap Z buffer_head) (k : K) : K :=
  set_disk (set_buffers B (k_cache k), k_env k) (set_heap h k).

Lemma new_buffer_spec (k : K) i n :
  heap_repr (k_heap k) (buffer_row i n) → 561 ≤ n →
  let p := buffer_addr (heap_start (k_heap k)) i in
  ∃ m' l, new_buffer k = Ok p
      (with_buffers (set_mem (k_heap k) m') (<[p := decode_buffer l]> (buffers (k_cache k))) k) ∧
    heap_repr (set_mem (k_heap k) m') (buffer_row (S i) (n - 560)) ∧
    length l = SIZEOF_BUFFER ∧ holds_bytes (hmem (k_heap k)) p l ∧
    ∀ x, p + 560 ≤ x → m' !! x = hmem (k_heap k) !! x.
Proof using Type*.
  intros Hr Hn p.
  destruct (kmalloc_last _ _ n SIZEOF_BUFFER Hr) as (m' & E1 & Hr' & _ & Hk);
    [by apply Forall_replicate|by split|unfold SIZEOF_BUFFER; lia|].
  rewrite span_replicate in E1, Hk. change (heap_start (k_heap k) + 560 * i + 16) with p in E1, Hk.
  assert (heap_repr (set_mem (k_heap k) m') (buffer_row (S i) (n - 560))) as Hr1.
  { unfold buffer_row. rewrite replicate_S_end, <-app_assoc. cbn [app].
    replace (n - 560) with (n - SIZEOF_BUFFER - 16) by (unfold SIZEOF_BUFFER; lia). exact Hr'. }
  pose proof (hr_mapped _ _ Hr) as Hm. destruct (hr_end _ _ Hr) as [Hend Hmax]. destruct (hr_start _ _ Hr) as [Hs0 _].
  unfold buffer_row in Hend. rewrite span_app, span_replicate in Hend. cbn [span b_size] in Hend. unfold HDR in Hend.
  destruct (read_bytes_spec SIZEOF_BUFFER p (hmem (k_heap k))) as (l & _ & Hl & Hh);
    [eapply mapped_sub; [exact Hm|..]|..]; [unfold p, buffer_addr, SIZEOF_BUFFER; lia..|].
  assert (holds_bytes m' p l) as Hh'.
  { intros j b Hj. rewrite Hk by (apply lookup_lt_Some in Hj; lia). by apply Hh. }
  assert (read_bytes SIZEOF_BUFFER p m' = Ok l m') as E2.
  { rewrite <-Hl. apply read_bytes_holds; [done|..]; rewrite ?Hl; unfold p, buffer_addr, SIZEOF_BUFFER; lia. }
  exists m', l. split; [|split; [done|split; [done|split; [done|]]]].
  - unfold new_buffer. rewrite (bind_ok _ _ _ _ _ (kernel_heap_ok _ k _ _ E1)). set (k1 := set_heap _ k).
    by rewrite (bind_ok _ _ _ _ _ (kernel_heap_ok _ k1 _ _ (on_mem_ok _ (k_heap k1) _ _ E2))).
  - intros x Hx. apply Hk. unfold SIZEOF_BUFFER. lia.
Qed.

(** Each of a row of buffers is made of the bytes its memory held at first. *)
Lemma new_buffers_spec (j : nat) : ∀ (k : K) i n,
  heap_repr (k_heap k) (buffer_row i n) → 560 * j + 1 ≤ n →
  ∃ m' B, let start := heap_start (k_heap k) in
    new_buffers j k = Ok (buffer_addr start <$> seq i j) (with_buffers (set_mem (k_heap k) m') B k) ∧
    heap_repr (set_mem (k_heap k) m') (buffer_row (i + j) (n - 560 * j)) ∧
    (∀ q, q ∉ buffer_addr start <$> seq i j → B !! q = buffers (k_cache k) !! q) ∧
    ∀ a, (i ≤ a < i + j)%nat → ∃ l, length l = SIZEOF_BUFFER ∧ holds_bytes (hmem (k_heap k)) (buffer_addr start a) l ∧
      B !! buffer_addr start a = Some (decode_buffer l).
Proof using Type*.
  induction j as [|j IH]; intros k i n Hr Hn.
  { exists (hmem (k_heap k)), (buffers (k_cache k)). cbv zeta. rewrite set_mem_id. split; [|split; [|split; [done|intros a Ha; lia]]].
    - destruct k as [? ? ? ? [[? ? ? [[] ?]] ?]]. done.
    - by rewrite Nat.add_0_r, Z.sub_0_r. }
  destruct (new_buffer_spec k i n Hr) as (m1 & l & E1 & Hr1 & Hl & Hh & Hk1); [lia|].
  set (start := heap_start (k_heap k)) in *. set (p := buffer_addr start i) in *.
  set (k1 := with_buffers _ _ k) in E1.
  destruct (IH k1 (S i) (n - 560) Hr1) as (m2 & B & E2 & Hr2 & Ho & Hin); [lia|]. cbv zeta in *.
  change (heap_start (k_heap k1)) with start in *.
  exists m2, B. split; [|split; [|split]].
  - cbn [new_buffers]. rewrite (bind_ok _ _ _ _ _ E1), (bind_ok _ _ _ _ _ E2). done.
  - replace (i + S j)%nat with (S i + j)%nat by lia. by replace (n - 560 * S j) with (n - 560 - 560 * j) by lia.
  - intros q Hq. cbn [seq fmap list_fmap] in Hq. apply not_elem_of_cons in Hq as [Hq1 Hq2]. rewrite Ho by done.
    change (buffers (k_cache k1)) with (<[p := decode_buffer l]> (buffers (k_cache k))). by rewrite lookup_insert_ne.
  - intros a Ha. destruct (decide (a = i)) as [->|Hne].
    + exists l. split; [done|]. split; [done|]. rewrite Ho.
      * change (buffers (k_cache k1)) with (<[p := decode_buffer l]> (buffers (k_cache k))). apply lookup_insert_eq.
      * intros (b & Hb & Hbin)%list_elem_of_fmap. apply elem_of_seq in Hbin. unfold buffer_addr in Hb. lia.
    + destruct (Hin a) as (la & Hla & Hha & Hba); [lia|]. exists la. split; [done|]. split; [|done].
      intros b x Hb. rewrite <-(Hk1 (buffer_addr start a + b)); [by apply Hha|].
      unfold p, buffer_addr. lia.
Qed.

Lemma init_buffers_spec (k : K) n :
  heap_repr (k_heap k) [Blk false n] → 560 * MAX_BUFFER + 1 ≤ n →
  let start := heap_start (k_heap k) in let qs := buffer_addr start <$> seq 0 MAX_BUFFER in let c := k_cache k in
  ∃ m' B, init_buffers k = Ok tt
      (set_disk (mkCache B (buffer_addr start 0 :: replicate 255 0) (buffer_addr start (MAX_BUFFER - 1)) (buffer_addr start 0)
         (bdevs c) (block_head c), k_env k) (set_heap (set_mem (k_heap k) m') k)) ∧
    heap_repr (set_mem (k_heap k) m') (buffer_row MAX_BUFFER (n - 560 * MAX_BUFFER)) ∧
    (∀ q, q ∉ qs → B !! q = buffers c !! q) ∧
    ∀ i, (i < MAX_BUFFER)%nat → ∃ l, length l = SIZEOF_BUFFER ∧ holds_bytes (hmem (k_heap k)) (buffer_addr start i) l ∧
      B !! buffer_addr start i = Some (placed qs i (decode_buffer l)).
Proof using Type*.
  intros Hr Hn start qs c. unfold init_buffers.
  destruct (new_buffers_spec MAX_BUFFER k 0 n Hr Hn) as (m' & B & E1 & Hr' & Ho & Hin). cbv zeta in *. fold start in E1, Ho, Hin.
  set (k2 := with_buffers _ B k) in *.
  assert (∃ p k1 l, new_buffer k = Ok p k1 ∧ new_buffers (MAX_BUFFER - 1) k1 = Ok l k2 ∧ qs = p :: l) as (p & k1 & l & Ep & El & Eqs).
  { change MAX_BUFFER with (S (MAX_BUFFER - 1)) in E1 at 1. cbn [new_buffers] in E1.
    apply bind_inv_ok in E1 as (p & k1 & Ep & E1). apply bind_inv_ok in E1 as (l & k3 & El & E1).
    apply ok_equal in E1 as [Eq ->]. by exists p, k1, l. }
  rewrite (bind_ok _ _ _ _ _ Ep), (bind_ok _ _ _ _ _ El).
  assert (NoDup qs) as Hnd.
  { apply NoDup_fmap_2_strong; [|apply NoDup_seq]. intros i j _ _. unfold buffer_addr. lia. }
  assert (∀ i, (i < MAX_BUFFER)%nat → qs !! i = Some (buffer_addr start i)) as Hqs.
  { intros i Hi. unfold qs. rewrite list_lookup_fmap, lookup_seq_lt by done. done. }
  destruct (init_buffer_spec p l (k_cache k2)) as (m2 & E2 & Ho2 & Hin2); [by rewrite <-Eqs|rewrite <-Eqs|].
  { intros q Hq. apply list_elem_of_lookup in Hq as [i Hi]. pose proof (lookup_lt_Some _ _ _ Hi) as Hlt.
    unfold qs in Hlt. rewrite length_fmap, length_seq in Hlt. rewrite Hqs in Hi by done. injection Hi as <-.
    destruct (Hin i) as (la & _ & _ & Hb); [lia|]. by eexists. }
  rewrite <-Eqs in *.
  assert (p = buffer_addr start 0) as Hp by (pose proof (Hqs 0%nat ltac:(unfold MAX_BUFFER; lia)) as Hq; rewrite Eqs in Hq; by injection Hq).
  assert (default p (last l) = buffer_addr start (MAX_BUFFER - 1)) as Hlast.
  { assert (last qs = Some (buffer_addr start (MAX_BUFFER - 1))) as Hl.
    { assert (length qs = MAX_BUFFER) as Hlq by (unfold qs; by rewrite length_fmap, length_seq).
      rewrite last_lookup, Hlq. apply Hqs. unfold MAX_BUFFER. lia. }
    rewrite Eqs, last_cons in Hl. by destruct (last l); injection Hl. }
  rewrite Hp in *. rewrite Hlast in E2.
  exists m', m2. split; [|split; [|split]].
  - exact (on_buffers_ok _ k2 _ _ E2).
  - exact Hr'.
  - intros q Hq. rewrite Ho2 by done. by apply Ho.
  - intros i Hi. destruct (Hin i) as (la & Hl & Hh & Hb); [lia|]. exists la. split; [done|]. split; [done|].
    by apply (Hin2 i _ _ (Hqs i Hi) Hb).
Qed.

(** A buffer made of the block of a thread: the registers are its fields. *)
Lemma decode_stale t rest :
  let r := regs t in let b := decode_buffer (kthread_bytes t ++ rest) in
  bh_flags b = u8 (eax r) ∧ block_num b = u32 (ebx r) ∧ dirty b = (u8 (ecx r) =? 1) ∧
  dev b = u32 (ecx r) / 65536 ∧ Buffer.count b = u32 (edx r) ∧
  buff b = take 512 (drop 32 (kthread_bytes t) ++ rest).
Proof using.
  intros r b. unfold b, decode_buffer. cbn [bh_flags block_num dirty dev Buffer.count buff].
  assert (drop 32 (kthread_bytes t ++ rest) = drop 32 (kthread_bytes t) ++ rest) as -> by done.
  unfold kthread_bytes, kthread_fields, buffer_layout. fold r.
  cbn [replicate put_fields le_bytes app get_fields take drop le_value nth]. unfold u8, u32.
  split_and!; try done; try word_lia.
Qed.
End operations.
