(* ===== verification/KernelMain.v ===== *)
(** * [kernel_main] (src/kernel.c, lines 203 to 305)

    The calls in the order of the source: console, descriptor tables and interrupts,
    memory, the first thread, the disk, the buffers, and the file system. *)

From S2P Require Import Prelude Memory Common HeapSpec Heap HeapReuse Frame Paging Io Terminal Descriptors Irq Drivers.
From S2P Require Import Faults Syscall Interrupts Ata Buffer BufferInit Requests Alloc Ext2Format Vfs Ext2 Ext2Inode Devfs Mount.
From S2P Require Import Task Boot Startup.

(** [terminal_initialize] as an operation of the environment. *)
Class Screen (E : Type) `{Env E} := {
  screen_init : M E unit;
  screen_init_ok : ∀ e, env_wf e → ∃ e', screen_init e = Ok tt e' ∧ env_wf e' }.

Lemma screen_initialized `{Ports H} (e : terminal * H) :
  env_wf e → ∃ e', on_fst terminal_initialize e = Ok tt e' ∧ env_wf e'.
Proof.
  destruct e as [t h]. intros Hw. simpl in Hw. destruct (terminal_initialize_correct t) as (t' & E1 & _ & Hr); [apply Hw|].
  exists (t', h). unfold on_fst, zoom. simpl. rewrite E1. split; [done|]. apply Hr.
Qed.
#[export] Instance vga_screen `{Ports H} : Screen (terminal * H) := {|
  screen_init := on_fst terminal_initialize; screen_init_ok := screen_initialized |}.

Section operations.
Context `{BlockDevice E} `{!Screen E} `{Symbols} `{Layout} `{TaskLayout} `{KernelLayout}.
#[local] Abbreviation K := (kernel (E := E)).

(** ** Lines 253 to 278: the disk *)

Definition probe_disk : M E unit :=
  outb 0x1F3 0x88 ;;;
  (let* v := inb 0x1F3 in when (v =? 0x88) (terminal_write (chars "Primary controller exists" ++ [10]))) ;;;
  outb 0x1F6 0xA0 ;;;
  inb 0x1F7 ;;;
  inb 0x1F7 ;;;
  inb 0x1F7 ;;;
  let* v := inb 0x1F7 in
  when (truth (Z.land v 0x40)) (terminal_write (chars "Primary slave drive exists" ++ [10])).

(** The local variable [dev]: [minor], [part_size], [permissions] and [next] are not
    assigned. *)
Definition local_dev : bdev :=
  mkBdev (minor raw_bdev) 0 (part_size raw_bdev) 0 PRIMARY_BUS 0x3F6 (permissions raw_bdev) (Ata.next raw_bdev).
Definition set_bdevs (m : gmap Z bdev) (s : cache) : cache :=
  mkCache (buffers s) (buff_head s) (mru_buff s) (lru_buff s) m (block_head s).
Definition init_disk (fuel : nat) : M K Z :=
  on_env probe_disk ;;;
  let* dev := on_env (parse_mbr fuel local_dev) in
  on_buffers (modify (λ s, set_bdevs (<[dev_var := dev]> (bdevs s)) s)) ;;;
  on_buffers (add_bdev dev_var).

(** ** Lines 203 to 280 *)

Definition init_tables (esp : Z) : M K unit :=
  on_env screen_init ;;;
  on_interrupts (on_routines (on_devices (modify (set_jiffies 0)))) ;;;
  on_interrupts (on_tables (gdt_install esp)) ;;;
  on_interrupts install_interrupts.

Definition kernel_init (fuel : nat) (esp : Z) (mbd : multiboot_info) : M K Z :=
  init_tables esp ;;;
  init_memory (memupper_size mbd) ;;;
  start_thread ;;;
  let* dev_num := init_disk fuel in
  init_buffers ;;;
  ret dev_num.
End operations.

(** ** The whole function *)

Section whole.
Context `{BlockDevice E} `{!Screen E} `{Symbols} `{Layout} `{TaskLayout} `{KernelLayout}.
Context `{Ext2Layout} `{DevfsLayout} `{MountLayout} (start endd : Z) (Hbounds : heap_bounds start endd).
#[local] Abbreviation K := (kernel (E := E)).
#[local] Instance kernel_heap : Allocator heap := heap_allocator start endd Hbounds.

Definition on_files {A} (m : M (world (E := E) (H2 := heap) * Z) A) : M K A := zoom k_files set_files m.

(** Up to line 286: the local variable [root_fs] is the type that is mounted. *)
Definition kernel_mount (fuel : nat) (esp : Z) (mbd : multiboot_info) : M K Z :=
  let* dev_num := kernel_init fuel esp mbd in
  on_files (on_world (on_vfs (modify (λ v, set_fs_types
    (<[root_fs_var := mkFsType Ext2_read_super ext2_literal 0]> (fs_types v)) v)))) ;;;
  on_files (init_fs fuel root_fs_var dev_num) ;;;
  ret dev_num.

(** [tmp_buff] is an array of 512 bytes on the stack that holds [raw]; the function ends
    in an endless loop after it has printed. *)
Definition kernel_main (n fuel : nat) (raw : list Z) (esp : Z) (mbd : multiboot_info) : M K unit :=
  let* dev_num := kernel_mount fuel esp mbd in
  let* r := on_files (read_root_file n fuel dev_num file1_literal 9 100) in
  let* text := of_option (c_string (r.2.2 ++ drop (length r.2.2) raw)) in
  on_env (terminal_write text) ;;;
  on_env (terminal_putchar 10) ;;;
  let* dest := on_files (on_world (on_vfs (ld_inode r.1))) in
  on_env (terminal_printhex32 (i_no dest)) ;;;
  on_env forever.
End whole.

Section boot.
Context `{AtaBus E} `{!Screen E} `{Symbols} `{Layout} `{TaskLayout} `{KernelLayout}.
#[local] Abbreviation K := (kernel (E := E)).

(** ** Specification *)

(** The machine when [kernel_main] starts. [gdt] are the three gates of the array and those
    that fit behind it; no routine is installed, as the array of them is zeroed; the disk is
    on the primary bus and has a first sector; and the linker placed [dev] and the main
    thread apart from null and from the heap. *)
Record powered (mbd : multiboot_info) (k : K) : Prop := {
  pw_boots : boots (memupper_size mbd) k;
  pw_gdt : length (gdt (k_tables k)) = (ENTRY_COUNT + gdt_gap)%nat;
  pw_routines : irq_routines (k_devices k) = replicate IRQ_ROUTINES None;
  pw_thread : is_Some (threads (k_tasks k) !! main_thread) ∧ boot_heap_start + 16 ≠ main_thread;
  pw_disk : on_bus PRIMARY_BUS ∧ 0 < capacity PRIMARY_BUS false;
  pw_dev : dev_var ≠ 0 }.

Definition MAIN_BUFFER : Z := buffer_addr boot_heap_start 0.
Definition buffer_addrs : list Z := buffer_addr boot_heap_start <$> seq 0 MAX_BUFFER.
Definition blank_buffer : buffer_head := decode_buffer (replicate SIZEOF_BUFFER 0).

(** What [kernel_init] leaves: [t] is the block of the joined thread, [w] the start of the
    partition. *)
Record booted (k k' : K) (t : kthread) (w : Z) : Prop := {
  bo_gdt : gdtr (k_tables k') = mkTablePtr 47 gdt_addr ∧ tr (k_tables k') = 0x2B;
  bo_idt : ∀ n, 0 ≤ n < 256 → ∃ g, idt (k_tables k') !! Z.to_nat n = Some g ∧
    match vector_stub n with Some stub => gate_offset g = u32 stub ∧ gate_present g = true | None => gate_present g = false end;
  bo_routines : irq_routines (k_devices k') = boot_routines ∧ jiffies (k_devices k') = 0;
  bo_heap : heap_start (k_heap k') = boot_heap_start ∧
    heap_repr (k_heap k') (buffer_row MAX_BUFFER (0xF000 - 16 - 560 * MAX_BUFFER));
  bo_thread : dangling (k_tasks k') MAIN_BUFFER ∧ cpu (k_tasks k') = cpu (k_tasks k) ∧
    get_phys_addr kernel_page_dir (virtual_addr t) (k_mm k').2 = Panic "Page table entry not present" (k_mm k').2 ∧
    ∃ v, regs t = test_registers (entry_registers (KERNEL_VIRTUAL_BASE + (first_page + 16) * 4096) v (cpu (k_tasks k)));
  bo_first : ∃ rest, length rest = 492%nat ∧ Forall is_byte rest ∧
    buffers (k_cache k') !! MAIN_BUFFER = Some (placed buffer_addrs 0 (decode_buffer (kthread_bytes t ++ rest)));
  bo_buffers : ∀ i, (0 < i < MAX_BUFFER)%nat →
    buffers (k_cache k') !! buffer_addr boot_heap_start i = Some (placed buffer_addrs i blank_buffer);
  bo_others : ∀ q, q ∉ buffer_addrs → buffers (k_cache k') !! q = buffers (k_cache k) !! q;
  bo_lists : buff_head (k_cache k') = MAIN_BUFFER :: replicate 255 0 ∧ lru_buff (k_cache k') = MAIN_BUFFER ∧
    mru_buff (k_cache k') = buffer_addr boot_heap_start (MAX_BUFFER - 1);
  bo_disk : bdevs (k_cache k') !! dev_var = Some (set_start_lba w local_dev) ∧ block_head (k_cache k') = dev_var ∧
    sector (k_env k') PRIMARY_BUS false 0 !! 227%nat = Some w;
  bo_env : env_wf (k_env k');
  bo_files : w_ext2 (k_files k').1 = w_ext2 (k_files k).1 ∧ w_vfs (k_files k').1 = w_vfs (k_files k).1 }.

(** ** Lemmas *)

Lemma probe_returns : returns (probe_disk (E := E)).
Proof using.
  unfold probe_disk. apply returns_bind; [apply returns_out|intros _].
  apply returns_bind; [apply returns_bind; [apply returns_in|intros v; destruct (_ =? _); [apply returns_write|apply returns_ret]]|intros _].
  apply returns_bind; [apply returns_out|intros _]. do 4 (apply returns_bind; [apply returns_in|intros ?]).
  destruct (truth _); [apply returns_write|apply returns_ret].
Qed.

Lemma init_disk_spec fuel (k : K) :
  on_bus PRIMARY_BUS → 0 < capacity PRIMARY_BUS false → (max_busy < fuel)%nat → env_wf (k_env k) →
  ∃ w e', init_disk fuel k = Ok 0x300
      (set_disk (mkCache (buffers (k_cache k)) (buff_head (k_cache k)) (mru_buff (k_cache k)) (lru_buff (k_cache k))
        (<[dev_var := set_start_lba w local_dev]> (bdevs (k_cache k))) dev_var, e') k) ∧ env_wf e' ∧
    sector e' PRIMARY_BUS false 0 !! 227%nat = Some w.
Proof using Type*.
  intros Hb Hc Hf He. destruct (probe_returns (k_env k) He) as ([] & e1 & E1 & He1).
  unfold init_disk. rewrite (bind_ok _ _ _ _ _ (on_env_ok _ k _ _ E1)). set (k1 := set_disk _ k).
  destruct (parse_mbr_correct local_dev fuel e1 Hb He1 Hf Hc) as (w & e2 & E2 & Hs & Hw & _ & _ & He2).
  rewrite (bind_ok _ _ _ _ _ (on_env_ok _ k1 _ _ E2)). exists w, e2. split; [done|]. split; [done|]. by rewrite Hs.
Qed.

Lemma holds_prefix m a l1 l2 :
  holds_bytes m a l1 → holds_bytes m a l2 → (length l1 ≤ length l2)%nat → l2 = l1 ++ drop (length l1) l2.
Proof using.
  intros H1' H2' Hl. rewrite <-(take_drop (length l1) l2) at 1. f_equal. apply list_eq_same_length with (length l1);
    [by rewrite ?length_take; lia..|].
  intros i x y Hi Hx Hy. rewrite lookup_take_lt in Hx by done. apply H2' in Hx. apply H1' in Hy. congruence.
Qed.
Lemma holds_is_byte m a l : bytes_ok m → holds_bytes m a l → Forall is_byte l.
Proof using.
  intros Hm Hh. apply Forall_lookup_2. intros i x Hi. apply (Hm _ _ (Hh i x Hi)).
Qed.
Lemma holds_zeros m a l : holds_bytes m a l → (∀ x, a ≤ x < a + length l → m !! x = Some 0) → l = replicate (length l) 0.
Proof using.
  intros Hh Hz. apply list_eq_same_length with (length l); [by rewrite ?length_replicate..|].
  intros i x y Hi Hx Hy. apply lookup_replicate in Hy as [-> _]. apply Hh in Hx. rewrite Hz in Hx by lia. congruence.
Qed.

Lemma on_interrupts_ok {A} (m : M (descriptors * (devices * E)) A) (k : K) a t d e :
  m (k_tables k, (k_devices k, k_env k)) = Ok a (t, (d, e)) →
  on_interrupts m k = Ok a (set_disk (k_cache k, e) (mkKernel t d (k_mm k) (k_tasks k) (k_files k))).
Proof using. unfold on_interrupts, zoom. by intros ->. Qed.

Lemma init_tables_spec esp (k : K) :
  (6 ≤ length (gdt (k_tables k)))%nat → irq_routines (k_devices k) = replicate IRQ_ROUTINES None → env_wf (k_env k) →
  ∃ t d e, init_tables esp k = Ok tt (set_disk (k_cache k, e) (mkKernel t d (k_mm k) (k_tasks k) (k_files k))) ∧
    env_wf e ∧ (gdtr t = mkTablePtr 47 gdt_addr ∧ tr t = 0x2B) ∧ (irq_routines d = boot_routines ∧ jiffies d = 0) ∧
    ∀ n, 0 ≤ n < 256 → ∃ g, idt t !! Z.to_nat n = Some g ∧
      match vector_stub n with Some stub => gate_offset g = u32 stub ∧ gate_present g = true | None => gate_present g = false end.
Proof using Type*.
  intros Hg Hr He. destruct (screen_init_ok (k_env k) He) as (e1 & E1 & He1). unfold init_tables.
  rewrite (bind_ok _ _ _ _ _ (on_env_ok _ k _ _ E1)). set (k1 := set_disk _ k).
  assert (on_routines (on_devices (modify (set_jiffies 0))) (k_tables k1, (k_devices k1, k_env k1)) =
    Ok tt (k_tables k, (set_jiffies 0 (k_devices k), e1))) as E2 by done.
  rewrite (bind_ok _ _ _ _ _ (on_interrupts_ok _ k1 _ _ _ _ E2)). set (k2 := set_disk _ _).
  destruct (gdt_install_spec esp (k_tables k) Hg) as (t3 & E3 & Hgdtr & Htr & _).
  rewrite (bind_ok _ _ _ _ _ (on_interrupts_ok _ k2 _ _ _ _ (on_tables_ok _ _ (k_devices k2, k_env k2) _ _ E3))).
  set (k3 := set_disk _ _).
  destruct (install_interrupts_spec t3 (k_devices k2) e1 Hr He1) as (t4 & e4 & E4 & He4 & [Hg4 Ht4] & Hidt).
  rewrite (on_interrupts_ok _ k3 _ _ _ _ E4). do 3 eexists. split; [reflexivity|]. split; [exact He4|].
  split; [rewrite Hg4, Ht4; exact (conj Hgdtr Htr)|]. split; [exact (conj eq_refl eq_refl)|]. intros n Hn. destruct (Hidt n Hn) as (g & Hi & Hv). exists g. split; [exact Hi|].
  destruct (vector_stub n); [|exact Hv]. destruct Hv as (Hoff & _ & Hp & _). exact (conj Hoff Hp).
Qed.

Lemma init_tables_overruns esp (k : K) :
  (length (gdt (k_tables k)) < 6)%nat → env_wf (k_env k) → init_tables esp k = Fault.
Proof using.
  intros Hg He. destruct (screen_init_ok (k_env k) He) as (e1 & E1 & _). unfold init_tables.
  rewrite (bind_ok _ _ _ _ _ (on_env_ok _ k _ _ E1)). set (k1 := set_disk _ k).
  assert (on_routines (on_devices (modify (set_jiffies 0))) (k_tables k1, (k_devices k1, k_env k1)) =
    Ok tt (k_tables k, (set_jiffies 0 (k_devices k), e1))) as E2 by done.
  rewrite (bind_ok _ _ _ _ _ (on_interrupts_ok _ k1 _ _ _ _ E2)). apply bind_fault.
  unfold on_interrupts, on_tables, on_fst, zoom. simpl. by rewrite (gdt_install_overruns esp _ Hg).
Qed.

Lemma boot_heap_repr (h : heap) :
  heap_bounds boot_heap_start boot_heap_end → heap_boot boot_heap_start boot_heap_end (h, ∅) →
  heap_repr h [Blk false (0xF000 - 16)] ∧ heap_start h = boot_heap_start.
Proof using.
  intros Hb (h0 & Hm & E1 & _). destruct (kheap_init_spec _ _ h0 Hb Hm) as (h' & E2 & Hs & _ & Hr).
  simpl in E1. rewrite E1 in E2. apply ok_equal in E2 as [_ <-]. split; [|exact Hs].
  replace (boot_heap_end - boot_heap_start - 16) with (0xF000 - 16) in Hr by (unfold boot_heap_end; lia). exact Hr.
Qed.

(** The buffers are made of what the heap holds after the thread is gone. *)
Lemma boot_buffers (t : kthread) (m m0 : mem) (B : gmap Z buffer_head) :
  bytes_ok m → holds_bytes m MAIN_BUFFER (kthread_bytes t) → behind_kept m0 m MAIN_BUFFER →
  (∀ x, boot_heap_start + 16 ≤ x < boot_heap_end → m0 !! x = Some 0) →
  (∀ i, (i < MAX_BUFFER)%nat → ∃ l, length l = SIZEOF_BUFFER ∧ holds_bytes m (buffer_addr boot_heap_start i) l ∧
      B !! buffer_addr boot_heap_start i = Some (placed buffer_addrs i (decode_buffer l))) →
  (∃ rest, length rest = 492%nat ∧ Forall is_byte rest ∧
    B !! MAIN_BUFFER = Some (placed buffer_addrs 0 (decode_buffer (kthread_bytes t ++ rest)))) ∧
  ∀ i, (0 < i < MAX_BUFFER)%nat → B !! buffer_addr boot_heap_start i = Some (placed buffer_addrs i blank_buffer).
Proof using.
  intros Hby Ht [_ Hk] Hz HB. assert (length (kthread_bytes t) = SIZEOF_KTHREAD) as Hlt by (by apply put_fields_length).
  split.
  - destruct (HB 0%nat) as (l & Hl & Hh & Hb); [unfold MAX_BUFFER; lia|].
    pose proof (holds_prefix _ _ _ _ Ht Hh ltac:(rewrite Hlt, Hl; unfold SIZEOF_KTHREAD, SIZEOF_BUFFER; lia)) as Heq.
    exists (drop (length (kthread_bytes t)) l). rewrite <-Heq.
    split; [rewrite length_drop, Hlt, Hl; reflexivity|]. split; [|exact Hb].
    apply Forall_drop. by eapply holds_is_byte.
  - intros i Hi. destruct (HB i) as (l & Hl & Hh & Hb); [lia|]. rewrite Hb. unfold blank_buffer. rewrite <-Hl.
    rewrite <-(holds_zeros m _ l Hh); [reflexivity|]. intros x Hx. rewrite Hl in Hx. unfold SIZEOF_BUFFER, MAX_BUFFER in *.
    rewrite Hk by (unfold MAIN_BUFFER, buffer_addr in *; unfold SIZEOF_KTHREAD; lia).
    apply Hz. unfold buffer_addr, boot_heap_end in *. lia.
Qed.

Lemma kernel_init_spec fuel esp mbd (k : K) :
  powered mbd k → (3 ≤ gdt_gap)%nat → (max_busy < fuel)%nat →
  ∃ k' t w, kernel_init fuel esp mbd k = Ok 0x300 k' ∧ booted k k' t w.
Proof using Type*.
  intros [Hb Hg Hrt [[t0 Ht0] Hapart] [Hbus Hcap] Hdv] Hgap Hf. pose proof (boot_heap_bounds _ _ Hb) as Hbounds.
  pose proof (bt_room _ _ Hb) as (Hp0 & Hp1 & Hp2).
  destruct (init_tables_spec esp k ltac:(rewrite Hg; unfold ENTRY_COUNT; lia) Hrt (bt_env _ _ Hb)) as (tb & dv & e1 & E1 & He1 & Hgdt & Hdv1 & Hidt).
  unfold kernel_init. rewrite (bind_ok _ _ _ _ _ E1). set (k1 := set_disk _ _).
  assert (boots (memupper_size mbd) k1) as Hb1 by (by destruct Hb; constructor).
  destruct (init_memory_spec _ k1 Hb1) as (k2 & e2 & E2 & _ & He2 & Hw2 & So2 & Hp2' & Hf2 & Hh2 & Hby2 & Hz2).
  rewrite (bind_ok _ _ _ _ _ E2). destruct (boot_heap_repr _ Hbounds Hh2) as [Hr2 Hs2].
  destruct So2 as (So1 & So2 & So3 & So4 & So5 & So6 & So7).
  destruct (start_thread_spec k2 (0xF000 - 16) (first_page + 15) t0 Hr2) as
    (k3 & m3 & t & v & e3 & E3 & Sr3 & Hc3 & _ & He3 & Hw3 & Hh3 & Hr3 & Ht3 & Hk3 & Hreg & _ & Hgone & Hdang & Hcpu);
    [unfold SIZEOF_KTHREAD; lia|exact Hp2'|lia|rewrite Hf2; lia|rewrite So3; exact Ht0|rewrite He2; exact Hw2|rewrite Hs2; exact Hapart|].
  rewrite Hs2 in *. rewrite So3 in *.
  rewrite (bind_ok _ _ _ _ _ E3). rewrite <-He3 in Hw3.
  destruct (init_disk_spec fuel k3 Hbus Hcap Hf Hw3) as (w & e4 & E4 & Hw4 & Hs4).
  rewrite (bind_ok _ _ _ _ _ E4). set (k4 := set_disk _ k3).
  destruct (init_buffers_spec k4 (0xF000 - 16) Hr3) as (m5 & B & E5 & Hr5 & Hoth & HB); [unfold MAX_BUFFER; lia|].
  rewrite (bind_ok _ _ _ _ _ E5). eexists _, t, w. split; [reflexivity|].
  assert (heap_start (k_heap k4) = boot_heap_start) as Hs5 by (change (k_heap k4) with (k_heap k3); rewrite Hh3; exact Hs2).
  rewrite Hs5 in *. assert (boot_heap_start + 16 = MAIN_BUFFER) as Hmain by (unfold MAIN_BUFFER, buffer_addr; lia).
  rewrite Hmain in *. change (k_heap k4) with (k_heap k3) in HB. rewrite Hh3 in HB.
  destruct (boot_buffers t m3 _ B ltac:(by apply Hk3) Ht3 Hk3) as [Hfirst Hrest];
    [intros x Hx; apply Hz2; lia|exact HB|].
  destruct Sr3 as (Sr1 & Sr2 & Sr3 & Sr4 & Sr5).
  constructor.
  - change (gdtr (k_tables k3) = mkTablePtr 47 gdt_addr ∧ tr (k_tables k3) = 0x2B). rewrite Sr1, So1. exact Hgdt.
  - change (k_tables (set_disk _ _)) with (k_tables k3). rewrite Sr1, So1. exact Hidt.
  - change (irq_routines (k_devices k3) = boot_routines ∧ jiffies (k_devices k3) = 0). rewrite Sr2, So2. exact Hdv1.
  - split; [exact Hs5|exact Hr5].
  - split; [exact Hdang|]. split; [exact Hcpu|]. split; [exact Hgone|]. exists v. rewrite Hreg. do 2 f_equal. lia.
  - exact Hfirst.
  - exact Hrest.
  - intros q Hq. etrans; [apply Hoth; exact Hq|]. change (buffers (k_cache k4)) with (buffers (k_cache k3)).
    rewrite Hc3, So4. reflexivity.
  - split; [reflexivity|]. split; reflexivity.
  - split; [apply lookup_insert_eq|]. split; [reflexivity|exact Hs4].
  - exact Hw4.
  - change (w_ext2 (k_files k3).1 = w_ext2 (k_files k).1 ∧ w_vfs (k_files k3).1 = w_vfs (k_files k).1).
    rewrite Sr3, Sr4, So5, So6. split; reflexivity.
Qed.

(** The device that was added is found by every number with its minor number. *)
Lemma find_boot_disk d w (s : cache) :
  dev_var ≠ 0 → bdevs s !! dev_var = Some (set_start_lba w local_dev) → block_head s = dev_var →
  MINOR_NUMBER d = minor raw_bdev → find_bdev d s = Ok (set_start_lba w local_dev) s.
Proof using.
  intros Hnn Hb Hh Hm. unfold find_bdev. cbn [find_bdev_loop]. rewrite Hh, (proj2 (Z.eqb_neq _ _) Hnn), bind_get, Hb.
  cbn [of_option]. rewrite bind_ret_l. cbn [minor set_start_lba local_dev]. by rewrite Hm, Z.eqb_refl.
Qed.

Lemma boot_head_lookup block : Z.land block 0xFF ≠ 0 →
  (MAIN_BUFFER :: replicate 255 0) !! Z.to_nat (Z.land block 0xFF) = Some 0.
Proof using.
  intros Hb. change 0xFF with (Z.ones 8) in *. rewrite Z.land_ones in * by lia. change (2 ^ 8) with 256 in *.
  pose proof (Z.mod_pos_bound block 256 ltac:(lia)). destruct (Z.to_nat (block mod 256)) as [|i] eqn:Hi; [lia|].
  cbn [lookup list_lookup]. apply lookup_replicate_2. lia.
Qed.

(** ** Theorems *)

(** C7. The calls of [kernel_main] before the file system, from power on, whatever the linker
    placed behind the three gates of [gdt]. If there is no room for three more before the
    next object, [gdt_install] overwrites that object, which C leaves undefined. If there is,
    the calls return and leave: the
    descriptor tables loaded and every vector with its stub, the four routines installed;
    the heap with the hundred buffers and one free block behind them; the disk as device
    3:[minor], starting at the word of its first sector; the main thread running with its
    registers while the run queue still links to the block of the joined thread, whose
    stack is unmapped; and all buffers blank but the first, which is made of that block.
    Of the machine it takes that static memory is zero, that the kernel image ends below
    4 MiB with room for the heap behind it ([boots]), and that the disk is the master of the
    primary bus ([powered]). *)
Theorem kernel_init_correct fuel esp mbd (k : K) :
  powered mbd k → (max_busy < fuel)%nat →
  if bool_decide (3 ≤ gdt_gap)%nat
  then ∃ k' t w, kernel_init fuel esp mbd k = Ok 0x300 k' ∧ booted k k' t w
  else kernel_init fuel esp mbd k = Fault.
Proof using Type*.
  intros Hp Hf. case_bool_decide as Hgap; [by apply kernel_init_spec|].
  unfold kernel_init. apply bind_fault, init_tables_overruns; [|apply Hp].
  rewrite (pw_gdt _ _ Hp). unfold ENTRY_COUNT. lia.
Qed.

(** C28. What the first miss of the cache does when the joined thread was left with 1 as the low
    byte of [ecx], which is then the [dirty] field of the first buffer, and 0 as the byte that
    is its minor number: before the block is read, the registers of the thread, from [eip] on,
    are written to the block of the disk whose number is its [ebx]. From power on, with the
    room for three gates behind [gdt] that [kernel_init] needs and 0 in the uninitialised
    [minor] of the disk, for a block of another hash chain than block 0; both blocks are on
    the disk. *)
Theorem first_miss_writes_registers fuel esp mbd (k : K) :
  powered mbd k → (3 ≤ gdt_gap)%nat → (max_busy < fuel)%nat → minor raw_bdev = 0 →
  ∃ k' t w v, kernel_init fuel esp mbd k = Ok 0x300 k' ∧ 0 ≤ w < 65536 ∧
    let r := regs t in let dev := set_start_lba w local_dev in
    r = test_registers (entry_registers (KERNEL_VIRTUAL_BASE + (first_page + 16) * 4096) v (cpu (k_tasks k))) ∧
    ∀ block, u8 (ecx r) = 1 → MINOR_NUMBER (u32 (ecx r) / 65536) = 0 → 0 ≤ block → Z.land block 0xFF ≠ 0 →
      present dev (u32 (ebx r)) → present dev block →
      ∃ s' e', get_block 1 block 0x300 (k_cache k', k_env k') = Ok MAIN_BUFFER (s', e') ∧
        take 20 (content e' (location dev (u32 (ebx r)))) =
          put_fields [4; 4; 4; 4; 4]%nat [eip r; eflags r; cr3 r; virtual_addr t; Task.next t] ∧
        ∀ a, a ≠ location dev (u32 (ebx r)) → content e' a = content (k_env k') a.
Proof using Type*.
  intros Hp Hgap Hf Hmin. destruct (kernel_init_spec fuel esp mbd k Hp Hgap Hf) as (k' & t & w & E1 & Hbo).
  destruct Hbo as [_ _ _ _ (_ & _ & _ & v & Hv) (rest & Hrest & Hbytes & Hfirst) Hrow _ (Hheads & Hlru & _) (Hdisk & Hhead & Hsec) Henv _].
  exists k', t, w, v. split; [exact E1|]. split.
  { destruct (sector_words (k_env k') PRIMARY_BUS false 0) as [_ Hw]. rewrite Forall_forall in Hw.
    apply Hw. by eapply list_elem_of_lookup_2. }
  cbv zeta. split; [exact Hv|]. intros block Hecx Hminor Hb0 Hland Hpr1 Hpr2.
  set (disk := set_start_lba w local_dev) in *. set (c := k_cache k') in *. set (e := k_env k') in *.
  destruct (decode_stale t rest) as (Hfl & Hblk & Hdirty & Hdv & _ & Hbuf).
  set (b := decode_buffer (kthread_bytes t ++ rest)) in *. set (h := placed buffer_addrs 0 b) in *.
  assert (block_num h = block_num b ∧ dirty h = dirty b ∧ dev h = dev b ∧ buff h = buff b) as (U2 & U3 & U4 & U6)
    by (by split_and!).
  assert (next_free h = buffer_addr boot_heap_start 1) as Hnf by done.
  assert (Hdev : ∀ d, MINOR_NUMBER d = 0 → find_bdev d c = Ok disk c).
  { intros d Hd. apply (find_boot_disk d w c); [apply Hp|exact Hdisk|exact Hhead|by rewrite Hmin]. }
  destruct (evict_dirty block 0x300 c e h disk disk) as (s' & e' & h' & E2 & He' & Hc1 & Hc2 & _).
  - apply Hdev. rewrite U4, Hdv. exact Hminor.
  - by apply Hdev.
  - exact Henv.
  - rewrite Hlru. exact Hfirst.
  - right. rewrite Hnf, (Hrow 1%nat) by (unfold MAX_BUFFER; lia). by eexists.
  - rewrite Hnf, Hlru. unfold MAIN_BUFFER, buffer_addr. lia.
  - rewrite Hheads. constructor; [right; rewrite Hfirst; by eexists|]. apply Forall_replicate. by left.
  - rewrite Hheads. reflexivity.
  - exact Hb0.
  - by rewrite U3, Hdirty, Hecx.
  - rewrite U6, Hbuf. rewrite length_take, length_app, length_drop, Hrest. unfold kthread_bytes. by rewrite put_fields_length.
  - rewrite U6, Hbuf. apply Forall_take, Forall_app_2; [apply Forall_drop, put_fields_bytes|exact Hbytes].
  - rewrite U2, Hblk. exact Hpr1.
  - exact Hpr2.
  - rewrite U2, Hblk in Hc1, Hc2. exists s', e'. split; [|split].
    + unfold get_block. rewrite bind_gets. cbn [fst]. rewrite Hheads, boot_head_lookup by done.
      cbn [of_option]. rewrite bind_ret_l. rewrite (bind_ok _ _ _ 0 (c, e)) by done.
      cbn [truth Z.eqb negb]. by rewrite <-Hlru.
    + rewrite Hc1, U6, Hbuf. done.
    + exact Hc2.
Qed.
End boot.
