(* ===== verification/Bench.v ===== *)
(** * A concrete machine

    An instance of the interfaces of [Io.v], [Drivers.v] and [Pci.v] by a small
    executable machine: a VGA terminal, a CMOS with its index register, a
    keyboard that holds one scan code and a PCI bridge with its address register.
    It shows that the laws of the interfaces can hold together, and the theorems
    about the drivers are applied to it below. *)

From S2P Require Import Prelude Memory Common Io Terminal Descriptors Irq Faults Drivers Pci Syscall Interrupts Stubs.

Record machine := mkMachine {
  cmos_index : Z;
  cmos_cells : Z → Z;
  key : Z;
  pci_address : Z;
  pci_space : Z → Z }.

Definition machine_in (w : width) (p : Z) (m : machine) : Z * machine :=
  match w with
  | W8 => if p =? 0x71 then (u8 (cmos_cells m (cmos_index m)), m)
          else if p =? 0x60 then (u8 (key m), m) else (0, m)
  | W16 => (0, m)
  | W32 => if p =? 0xCFC then (u32 (pci_space m (pci_address m)), m) else (0, m)
  end.
Definition machine_out (w : width) (p v : Z) (m : machine) : machine :=
  match w with
  | W8 => if p =? 0x70 then mkMachine (v mod 128) (cmos_cells m) (key m) (pci_address m) (pci_space m) else m
  | W16 => m
  | W32 => if p =? 0xCF8 then mkMachine (cmos_index m) (cmos_cells m) (key m) v (pci_space m) else m
  end.

#[export] Instance machine_ports : Ports machine := { port_in := machine_in; port_out := machine_out }.

Definition bench : Type := terminal * machine.

Lemma bench_cmos_byte (e : bench) r : 0 ≤ u8 (cmos_cells e.2 r) < 256.
Proof. apply u8_range. Qed.
Lemma bench_cmos_read (e : bench) r :
  0 ≤ r < 128 → r ≠ 0x0C →
  (env_in W8 0x71 (env_out W8 0x70 r e)).1 = u8 (cmos_cells e.2 r) ∧
  (λ r, u8 (cmos_cells (env_in W8 0x71 (env_out W8 0x70 r e)).2.2 r)) = (λ r, u8 (cmos_cells e.2 r)).
Proof. intros Hr _. simpl. by rewrite Z.mod_small by lia. Qed.
#[export] Instance bench_cmos : Cmos bench := {
  cmos e r := u8 (cmos_cells e.2 r); cmos_byte := bench_cmos_byte; cmos_read := bench_cmos_read }.

Lemma bench_scancode_byte (e : bench) : 0 ≤ u8 (key e.2) < 256.
Proof. apply u8_range. Qed.
Lemma bench_read_0x60 (e : bench) :
  (env_in W8 0x60 e).1 = u8 (key e.2) ∧ u8 (key (env_in W8 0x60 e).2.2) = u8 (key e.2).
Proof. done. Qed.
#[export] Instance bench_keyboard : KeyboardPort bench := {
  scancode_of e := u8 (key e.2); scancode_byte := bench_scancode_byte; read_0x60 := bench_read_0x60 }.

Definition bench_config (e : bench) (b d f r : Z) : Z :=
  u32 (pci_space e.2 (2 ^ 31 + b * 2 ^ 16 + d * 2 ^ 11 + f * 2 ^ 8 + r * 4)).
Lemma bench_pci_dword (e : bench) b d f r : 0 ≤ bench_config e b d f r < 2 ^ 32.
Proof. apply u32_range. Qed.
Lemma bench_pci_read (e : bench) b d f r :
  0 ≤ b < 256 → 0 ≤ d < 32 → 0 ≤ f < 8 → 0 ≤ r < 64 →
  let e1 := env_out W32 0xCF8 (2 ^ 31 + b * 2 ^ 16 + d * 2 ^ 11 + f * 2 ^ 8 + r * 4) e in
  (env_in W32 0xCFC e1).1 = bench_config e b d f r ∧
  bench_config (env_in W32 0xCFC e1).2 = bench_config e.
Proof. done. Qed.
#[export] Instance bench_pci : PciBus bench := {
  pci_config := bench_config; pci_dword := bench_pci_dword; pci_read := bench_pci_read }.

(** ** The state of the examples: 2:34:56 PM on 9 August 2031 in BCD and 12-hour
    mode, the scan code of the A key, and a device with identifier 8086:100E. *)

Definition cells0 (r : Z) : Z :=
  if r =? 0 then 0x56 else if r =? 2 then 0x34 else if r =? 4 then 0x82 else if r =? 7 then 0x09
  else if r =? 8 then 0x08 else if r =? 9 then 0x31 else 0.
Definition machine0 : machine := mkMachine 0 cells0 30 0 (λ a, if a =? 2 ^ 31 then 0x100E8086 else 0).
Definition bench0 : bench := (terminal0, machine0).
Definition clock0 : rtc_state := mkRtc 56 34 14 9 8 2031 0 0.
Definition devices0 : devices :=
  mkDevices (replicate IRQ_ROUTINES None) 0 (mkRtc 0 0 0 0 0 0 0 0) ∅.
Definition regs0 : regs := mkRegs 0 0 0 0 0 0 0 0 0 0 0 0 40 0 0 0 0 0 0.

Lemma bench0_wf : env_wf bench0.
Proof. apply terminal0_wf. Qed.
Lemma clock0_shown : Rtc.chip_shows bench0 true false clock0.
Proof. by constructor. Qed.
Lemma clock0_valid : Rtc.valid_time clock0.
Proof. unfold Rtc.valid_time, Rtc.CURRENT_YEAR. simpl. lia. Qed.

(** ** Witnesses *)

Lemma printhex32_roundtrip_witness :
  terminal_printhex32 0xDEADBEEF bench0 = terminal_write (hex32 0xDEADBEEF) bench0 ∧
  unhex (hex32 0xDEADBEEF) = 0xDEADBEEF.
Proof.
  destruct (printhex32_roundtrip 0xDEADBEEF bench0) as (E & _ & Hu); [by split; vm_compute|].
  split; [exact E|exact Hu].
Defined.

Lemma irq_install_dispatch_witness :
  ∃ e1 r' d2 e2 d1, irq_install_handler 8 rtc_routine (devices0, bench0) = Ok tt (d1, e1) ∧
    irq_handler (λ _ r, ret r) regs0 (d1, e1) = Ok r' (d2, send_eoi 40 e2) ∧
    eoi_ports 40 = [0xA0; 0x20].
Proof.
  destruct (irq_install_dispatch (λ _ r, ret r) 8 rtc_routine regs0 devices0 bench0)
    as (e1 & r' & d2 & e2 & E1 & _ & E3);
    [apply length_replicate|exact bench0_wf|lia|reflexivity|intros s; by exists regs0, s|].
  exists e1, r', d2, e2. eexists. split; [exact E1|]. split; [exact E3|reflexivity].
Defined.

Lemma irq_handler_edges_witness :
  irq_handler (λ _ r, ret r) regs0 (devices0, bench0) = Ok regs0 (devices0, send_eoi 40 bench0).
Proof.
  apply (irq_handler_edges (λ _ r, ret r) regs0 devices0 bench0);
    [apply length_replicate|simpl; lia|simpl; lia|reflexivity].
Defined.

Lemma timer_set_interval_correct_witness :
  ∃ lo hi, Timer.timer_set_interval 100 bench0 =
    Ok tt (env_out W8 0x40 hi (env_out W8 0x40 lo (env_out W8 0x43 0x36 bench0))) ∧
    lo + 256 * hi = 11931.
Proof.
  destruct (Timer.timer_set_interval_correct 100 bench0 ltac:(lia)) as (lo & hi & _ & _ & E & Hm & _).
  exists lo, hi. split; [exact E|exact Hm].
Defined.

Lemma keyboard_handler_correct_witness :
  ∃ e0 e', Keyboard.keyboard_handler 1 regs0 (devices0, bench0) = Ok regs0 (devices0, e') ∧
    terminal_putchar 97 e0 = Ok tt e'.
Proof.
  destruct (Keyboard.keyboard_handler_correct 0 regs0 devices0 bench0 bench0_wf)
    as (e0 & e' & _ & _ & E & c & Hc & Hp); [reflexivity|].
  exists e0, e'. split; [exact E|]. injection Hc as <-. exact Hp.
Defined.

Lemma read_rtc_correct_witness :
  ∃ e', Rtc.read_rtc 1 (devices0, bench0) = Ok tt (set_rtc (mkRtc 56 34 14 9 8 2031 0 0) devices0, e').
Proof.
  destruct (Rtc.read_rtc_correct 0 devices0 bench0 true false clock0 clock0_shown clock0_valid eq_refl)
    as (e' & E & _). exists e'. exact E.
Defined.

Lemma pci_config_read_correct_witness :
  ∃ e', pci_config_read_word 0 0 0 3 bench0 = Ok 0x100E e'.
Proof.
  destruct (pci_config_read_correct 0 0 0 3 bench0) as ((e' & E) & _); [lia..|].
  exists e'. exact E.
Defined.

Lemma fill_device_descriptor_correct_witness :
  ∃ e' p, fill_device_descriptor 0 0 0 bench0 = Ok p e' ∧ vendor_id p = 0x8086.
Proof.
  destruct (fill_device_descriptor_correct 0 0 0 bench0) as ((e' & E) & _); [lia..|].
  exists e'. eexists. split; [exact E|reflexivity].
Defined.

Definition devices1 : devices :=
  mkDevices (replicate IRQ_ROUTINES None) 0 (mkRtc 1 2 3 4 5 2017 0 0)
    (list_to_map [(100, 72); (101, 105); (102, 0); (103, 0)]).

Lemma devices1_string : holds_string (memory devices1) 100 [72; 105].
Proof.
  split; [|by repeat constructor].
  intros [|[|[|i]]] b Hb; simpl in Hb; try injection Hb as <-; done.
Qed.
Lemma devices1_mapped : mapped (memory devices1) 100 4.
Proof. apply (mappedb_spec _ 100 4). reflexivity. Qed.

Lemma syscall_write_correct_witness :
  ∃ d1 e1 e2, syscall_install (devices1, bench0) = Ok tt (d1, e1) ∧
    terminal_write [72; 105] e1 = Ok tt e2 ∧ syscall_sys_time 0 100 regs0 (d1, e1) = Ok 0 (d1, e2).
Proof.
  destruct (syscall_write_correct 0 100 [72; 105] regs0 devices1 bench0)
    as (d1 & e1 & e2 & E1 & _ & E2 & _ & _ & E3);
    [apply length_replicate|exact bench0_wf|exact devices1_string|lia|simpl; lia|].
  exists d1, e1, e2. split; [exact E1|]. split; [exact E2|exact E3].
Defined.

Lemma syscall_handler_correct_witness :
  syscall_handler regs0 (devices1, bench0) = Panic "sys_read is currently unsupported" (devices1, bench0).
Proof. apply (syscall_handler_correct regs0 (devices1, bench0)). simpl. lia. Defined.

(** 03:02:01 on 4 May 2017. *)
Lemma sys_time_correct_witness :
  sys_time 100 (devices1, bench0) =
    Ok 1495508521 (set_memory (wr32 (memory devices1) 100 1495508521) devices1, bench0).
Proof.
  apply (sys_time_correct 100 devices1 bench0); simpl; try lia. exact devices1_mapped.
Defined.

(** A page fault at 0xDEADBEEF, and the interrupts of the machine after boot. *)
Lemma fault_handler_correct_witness :
  ∃ e', terminal_write (fault_text 0xDEADBEEF (set_int_no 14 regs0)) bench0 = Ok tt e' ∧
    fault_handler 0xDEADBEEF (set_int_no 14 regs0) bench0 = Panic "for (;;)" e'.
Proof. apply (fault_handler_correct 0xDEADBEEF (set_int_no 14 regs0) bench0 bench0_wf). Defined.

#[local] Existing Instance symbols0.
Lemma symbols0_distinct : stubs_distinct.
Proof. apply (bool_decide_eq_true_1 _). by vm_compute. Qed.
Lemma interrupts_dispatch_witness :
  ∃ s' d' e', install_interrupts (descriptors0, (devices0, bench0)) = Ok tt (s', (d', e')) ∧
    enter 0 0 32 regs0 (s', (d', e')) = Ok (set_int_no 32 regs0) (s', (set_jiffies 1 d', send_eoi 32 e')) ∧
    enter 0 0 39 regs0 (s', (d', e')) = Ok (set_int_no 39 regs0) (s', (d', send_eoi 39 e')).
Proof.
  destruct (interrupts_dispatch 0 0 descriptors0 devices0 bench0 eq_refl bench0_wf symbols0_distinct)
    as (s' & d' & e' & E & _ & Hj & Hn). exists s', d', e'. split; [exact E|]. split.
  - destruct (Hn 32 regs0 ltac:(lia)) as [_ Ht]. apply Ht; [|reflexivity]. simpl. unfold Timer.timer_handler.
    unfold on_devices, on_fst, zoom, bind, modify, ret. cbn [fst snd]. by rewrite Hj.
  - destruct (Hn 39 regs0 ltac:(lia)) as [_ Ht]. exact Ht.
Defined.

(** The timer interrupts user code after boot: the stub brings back its registers. *)
Definition user_regs : regs := regs_of cpu_user 32 0 0xC0107FE4 0x8048000 0x1B 0x202 0xBFFFFFF0 0x23.
Lemma stub_implements_enter_witness :
  ∃ w w', install_interrupts (descriptors0, (devices0, bench0)) = Ok tt w ∧ enter 0 0 32 user_regs w = Ok user_regs w' ∧ jiffies w'.2.1 = 1 ∧
    run_stub (Irq 0) 0xC0101234 (λ r, called (irq_handler (run_handler 0) r) (snd w)) 7 7 7 cpu_user = Some cpu_user.
Proof.
  destruct (install_interrupts_spec descriptors0 devices0 bench0 eq_refl bench0_wf) as (s' & e' & E & _ & _ & Hg).
  destruct (Hg 32 ltac:(lia)) as (g & Hi & Hoff & _ & Hp & _).
  set (d := set_irq_routines boot_routines devices0) in *.
  destruct (enter_irq 0 0 32 g _ user_regs s' (d, e') symbols0_distinct eq_refl ltac:(lia) Hi Hp Hoff) as [Hst He].
  assert (enter 0 0 32 user_regs (s', (d, e')) = Ok user_regs (s', (set_jiffies 1 d, send_eoi 32 e'))) as Ht.
  { rewrite He. apply on_routines_ok. apply (irq_handler_spec (run_handler 0) user_regs d e' (Some timer_routine)); [by split|reflexivity|reflexivity|reflexivity]. }
  exists (s', (d, e')), (s', (set_jiffies 1 d, send_eoi 32 e')). split; [exact E|]. split; [exact Ht|]. split; [reflexivity|].
  exact (stub_implements_enter 0 0 32 0 g 0xC0101234 7 7 7 cpu_user 0x8048000 0x1B 0x202 0xBFFFFFF0 0x23 [] (s', (d, e')) _ user_regs Hi Hp Hst eq_refl Ht).
Defined.
