(* ===== verification/DiskBench.v ===== *)
(** * A concrete disk

    An executable drive on the primary bus that fulfils the laws of [AtaBus]:
    100000 sectors per device, two busy polls per command. The theorems about the
    driver are applied to it. *)

From S2P Require Import Prelude Io Terminal Ata AtaLegacy Buffer.

Record disk := mkDisk { tf : Z → Z; ph : phase; store : bool → Z → list Z }.

(** A sector always has 256 words of 16 bits. *)
Definition norm (ws : list Z) : list Z := take 256 ((u16 <$> ws) ++ replicate 256 0).
Definition disk_addressed (d : disk) : bool * Z :=
  (Z.testbit (tf d 6) 4,
   tf d 3 + 256 * tf d 4 + 65536 * tf d 5 + 16777216 * (tf d 6 mod 16)).

(** What the drive says of itself. *)
Definition drive_words : list Z := [0x0040; 0x03E8] ++ replicate 254 0.

Definition disk_in (w : width) (p : Z) (d : disk) : Z * disk :=
  match w with
  | W8 =>
      if p =? 0x1F7 then
        match ph d with
        | Idle => (0x50, d)
        | Data_in O ws => (0x58, d)
        | Data_in (S k) ws => (0xD0, mkDisk (tf d) (Data_in k ws) (store d))
        | Data_out O s l acc => (0x58, d)
        | Data_out (S k) s l acc => (0xD0, mkDisk (tf d) (Data_out k s l acc) (store d))
        | Failed => (0x51, d)
        end
      else if (0x1F1 <=? p) && (p <=? 0x1F6) then (tf d (p - 0x1F0), d)
      else (0, d)
  | W16 =>
      if p =? 0x1F0 then
        match ph d with
        | Data_in O (w :: ws) => (w, mkDisk (tf d) (Data_in O ws) (store d))
        | _ => (0, d)
        end
      else (0, d)
  | W32 => (0, d)
  end.

Definition disk_out (w : width) (p v : Z) (d : disk) : disk :=
  match w with
  | W8 =>
      if p =? 0x1F7 then
        let '(s, l) := disk_addressed d in
        if v =? 0xEC then mkDisk (tf d) (Data_in 2 drive_words) (store d) else
        if l <? 100000 then
          if v =? 0x20 then mkDisk (tf d) (Data_in 2 (norm (store d s l))) (store d)
          else if v =? 0x30 then mkDisk (tf d) (Data_out 2 s l []) (store d) else d
        else mkDisk (tf d) Failed (store d)
      else if (0x1F1 <=? p) && (p <=? 0x1F6) then
        mkDisk (λ j, if j =? p - 0x1F0 then v else tf d j) (ph d) (store d)
      else d
  | W16 =>
      match ph d with
      | Data_out O s l acc =>
          if decide (length acc = 255%nat) then
            mkDisk (tf d) Idle (λ s' l', if decide ((s', l') = (s, l)) then acc ++ [v] else store d s' l')
          else mkDisk (tf d) (Data_out O s l (acc ++ [v])) (store d)
      | _ => d
      end
  | W32 => d
  end.

#[export] Instance disk_ports : Ports disk := { port_in := disk_in; port_out := disk_out }.

Definition disk_sector {T} (e : T * disk) (b : Z) (s : bool) (l : Z) : list Z :=
  if b =? 0x1F0 then norm (store e.2 s l) else replicate 256 0.

Lemma norm_words ws : length (norm ws) = 256%nat ∧ Forall (λ w, 0 ≤ w < 65536) (norm ws).
Proof.
  unfold norm. split.
  - rewrite length_take, length_app, length_fmap, length_replicate. lia.
  - apply Forall_take, Forall_app_2; [|apply Forall_replicate; lia].
    apply Forall_fmap, Forall_forall. intros x _. apply u16_range.
Qed.

Lemma norm_id ws : length ws = 256%nat → Forall (λ w, 0 ≤ w < 65536) ws → norm ws = ws.
Proof.
  intros Hl Hw. unfold norm. rewrite take_app_length' by (by rewrite length_fmap).
  rewrite <-(list_fmap_id ws) at 2. apply list_fmap_ext. intros i x Hx.
  rewrite Forall_lookup in Hw. apply u16_small. by eapply Hw.
Qed.

(** The drive behind any console. *)
Section bus.
Context {T : Type} (put : Z → M T unit) (console_wf : T → Prop).
Context (put_ok : ∀ c t, console_wf t → ∃ t', put c t = Ok tt t' ∧ console_wf t').
#[local] Instance bus_env : Env (T * disk) := console_env put console_wf put_ok.

Program Definition disk_bus_of : AtaBus (T * disk) := {|
  on_bus b := b = 0x1F0;
  task_file e b := tf e.2;
  drive_phase e b := ph e.2;
  sector := disk_sector;
  capacity _ _ := 100000;
  max_busy := 2 |}.
Next Obligation. simpl. lia. Qed.
Next Obligation.
  intros e b s l. unfold disk_sector. destruct (b =? 0x1F0); [apply norm_words|].
  split; [done|]. apply Forall_replicate. lia.
Qed.
Next Obligation.
  intros e b i v -> Hi. simpl. unfold disk_out.
  rewrite (proj2 (Z.eqb_neq _ _)), !(proj2 (Z.leb_le _ _)) by lia. simpl.
  replace (0x1F0 + i - 0x1F0) with i by lia. rewrite Z.eqb_refl. split; [done|]. split; [|done].
  intros j Hj. by rewrite (proj2 (Z.eqb_neq _ _)) by lia.
Qed.
Next Obligation.
  intros e b -> _ e'.
  change (let '(s, l) := disk_addressed e.2 in disk_sector e' = disk_sector e ∧
    if l <? 100000 then ∃ k, (k ≤ 2)%nat ∧ ph e'.2 = Data_in k (disk_sector e 0x1F0 s l)
    else ph e'.2 = Failed).
  assert (e' = (e.1, let '(s, l) := disk_addressed e.2 in
    if l <? 100000 then mkDisk (tf e.2) (Data_in 2 (norm (store e.2 s l))) (store e.2)
    else mkDisk (tf e.2) Failed (store e.2))) as -> by reflexivity.
  destruct (disk_addressed e.2) as [s l]. destruct (l <? 100000); split; try reflexivity.
  exists 2%nat. by split; [lia|].
Qed.
Next Obligation.
  intros e b -> _ e'.
  change (let '(s, l) := disk_addressed e.2 in disk_sector e' = disk_sector e ∧
    if l <? 100000 then ∃ k, (k ≤ 2)%nat ∧ ph e'.2 = Data_out k s l []
    else ph e'.2 = Failed).
  assert (e' = (e.1, let '(s, l) := disk_addressed e.2 in
    if l <? 100000 then mkDisk (tf e.2) (Data_out 2 s l []) (store e.2)
    else mkDisk (tf e.2) Failed (store e.2))) as -> by reflexivity.
  destruct (disk_addressed e.2) as [s l]. destruct (l <? 100000); split; try reflexivity.
  exists 2%nat. by split; [lia|].
Qed.
Next Obligation.
  intros [t d] b ->. simpl. unfold console_in, disk_sector. simpl.
  destruct (ph d) as [|[|k] ws|[|k] s l acc|] eqn:Ep; simpl; rewrite ?Ep; by split_and!.
Qed.
Next Obligation.
  intros [t d] b w ws -> Hp. simpl in *. unfold console_in, disk_sector. simpl. by rewrite Hp.
Qed.
Next Obligation.
  intros [t d] b s l acc w -> Hp Hl Ha Hw. simpl in *. rewrite Hp. unfold disk_sector. simpl.
  destruct (decide (length acc = 255%nat)) as [Hlen|Hlen]; simpl; [|done].
  rewrite decide_True by done. split.
  - apply norm_id; [rewrite length_app; simpl; lia|]. by apply Forall_app_2, Forall_singleton.
  - intros b' s' l' Hne. destruct (Z.eqb_spec b' 0x1F0) as [->|]; [|done].
    by rewrite decide_False by congruence.
Qed.
Next Obligation.
  intros c [t d] e'. simpl. unfold console_putchar, on_fst, zoom. simpl.
  destruct (put c t) as [[] t'| | |]; intros Heq; [|done..]. by injection Heq as <-.
Qed.

#[local] Existing Instance disk_bus_of.
Program Definition disk_drq_of : AtaDrq (T * disk) := {| identity _ _ := drive_words |}.
Next Obligation. intros b s. split; [done|]. apply (bool_decide_eq_true_1 _). by vm_compute. Qed.
Next Obligation.
  intros [t d] b ->. simpl. unfold console_in. simpl.
  by destruct (ph d) as [|[|k] ws|[|k] s l acc|].
Qed.
Next Obligation.
  intros [t d] b -> e'. split; [done|]. exists 2%nat. by split; [simpl; lia|].
Qed.
End bus.

Definition disk_env : Type := terminal * disk.
#[export] Instance disk_bus : AtaBus disk_env := disk_bus_of putchar terminal_wf putchar_returns.
#[export] Instance disk_drq : AtaDrq disk_env := disk_drq_of putchar terminal_wf putchar_returns.

(** ** Witnesses *)

Definition disk0 : disk_env :=
  (terminal0, mkDisk (λ _, 0) Idle (λ s l, if l =? 0 then replicate 227 0 ++ [2048] ++ replicate 28 0 else [])).
Definition hda : bdev := mkBdev 0 0 0 0 0x1F0 0x3F6 0 0.

Lemma disk0_wf : env_wf disk0.
Proof. apply terminal0_wf. Qed.

Lemma hda_on_bus : on_bus (E := disk_env) (base hda).
Proof. reflexivity. Qed.
Lemma enough_fuel : (max_busy (E := disk_env) < 3)%nat.
Proof. simpl. lia. Qed.

Lemma ata_read_correct_witness :
  ∃ e', ata_read_sects_28_pio 3 1 hda 5 disk0 = Ok (bytes_of (sector disk0 0x1F0 false 5)) e'.
Proof.
  destruct (ata_read_correct hda 5 3 disk0 hda_on_bus disk0_wf enough_fuel) as (e' & E & _).
  by exists e'.
Defined.

Lemma ata_write_read_witness :
  ∃ e1 e2, ata_write_sects_28_pio 3 (bytes_of (replicate 256 7)) 1 hda 5 disk0 = Ok tt e1 ∧
    ata_read_sects_28_pio 3 1 hda 5 e1 = Ok (bytes_of (replicate 256 7)) e2.
Proof.
  assert (Forall (λ w, 0 ≤ w < 65536) (replicate 256 7)) as Hw by (apply Forall_replicate; lia).
  destruct (ata_write_read hda 5 (replicate 256 7) 3 disk0 hda_on_bus disk0_wf enough_fuel
    (length_replicate 256 7) Hw) as (e1 & e2 & E1 & E2 & _); [by vm_compute|].
  exists e1, e2. split; [exact E1|exact E2].
Defined.

Lemma parse_mbr_correct_witness :
  ∃ e', parse_mbr 3 hda disk0 = Ok (set_start_lba 2048 hda) e'.
Proof.
  destruct (parse_mbr_correct hda 3 disk0 hda_on_bus disk0_wf enough_fuel) as (w & e' & E & _ & Hw & _);
    [by vm_compute|].
  injection Hw as <-. by exists e'.
Defined.

(** The routines nothing calls. *)
Lemma ata_write_28_pio_hangs_witness : ata_write_28_pio 1000 3 (replicate (Z.to_nat 131072) 0) 0 hda 5 disk0 = Timeout.
Proof. apply (ata_write_28_pio_hangs 1000 3); [apply disk0_wf|rewrite length_replicate; lia]. Defined.
Lemma ata_flush_cache_correct_witness : ∃ e', ata_flush_cache 3 hda disk0 = Panic "ERROR" e'.
Proof.
  pose proof (ata_flush_cache_correct 3 hda disk0 ltac:(simpl; lia) disk0_wf ltac:(lia) eq_refl) as Hf.
  match type of Hf with if ?c then _ else _ => replace c with true in Hf by (by vm_compute) end. exact Hf.
Defined.
Lemma ata_write_sect_correct_witness :
  ∃ e', ata_write_sect_lba28_pio 3 (bytes_of (replicate 256 7)) hda 5 disk0 = Ok tt e' ∧
    sector e' 0x1F0 false 5 = replicate 256 7.
Proof.
  assert (Forall (λ w, 0 ≤ w < 65536) (replicate 256 7)) as Hw by (apply Forall_replicate; lia).
  destruct (ata_write_sect_correct hda 5 (replicate 256 7) 3 disk0 hda_on_bus disk0_wf enough_fuel
    (length_replicate 256 7) Hw) as (e' & E & Hs & _); [by vm_compute|]. exists e'. by split.
Defined.
Lemma ata_read_sect_identifies_witness :
  ∃ e', ata_read_sect_lba28_pio 3 true hda 5 disk0 = Ok drive_words e'.
Proof.
  destruct (ata_read_sect_identifies hda 5 true 3 disk0 hda_on_bus disk0_wf enough_fuel) as (e' & E & _). by exists e'.
Defined.

(** ** The buffer cache after [init_buffer] on zeroed memory *)

Definition buffer_at (i : Z) : Z := 0x100000 + 560 * i.
Definition zero_head : buffer_head := mkBuffer 0 0 false 0 0 0 0 0 0 (replicate 512 0).
Definition heap0 : cache :=
  mkCache (list_to_map ((λ i, (buffer_at i, zero_head)) <$> seqZ 0 100)) [] 0 0 {[ 0x200000 := hda ]} 0x200000.
Definition cache0 : cache :=
  match init_buffer (buffer_at 0) (buffer_at <$> seqZ 1 99) heap0 with Ok _ s => s | _ => heap0 end.

Definition clean_check (s : cache) : Prop :=
  buffers s !! 0 = None ∧ Forall (valid_ptr (buffers s)) (buff_head s) ∧
  map_Forall (λ _ h, valid_ptrs (buffers s) h ∧ dirty h = false ∧
    (dev h = 0x300 → buff h = content disk0 (location hda (block_num h)))) (buffers s).
#[export] Instance clean_check_dec s : Decision (clean_check s).
Proof. unfold clean_check. apply _. Defined.

Lemma clean_checked s : bool_decide (clean_check s) = true → find_bdev 0x300 s = Ok hda s → clean 0 s disk0 0x300 hda.
Proof.
  intros Hc Hf. apply bool_decide_eq_true_1 in Hc as (Hn & Hh & Hm).
  constructor; [done|done|intros q h Hq; by destruct (Hm q h Hq) as (? & ? & ?); auto..|done].
Qed.
Lemma cache0_clean : clean 0 cache0 disk0 0x300 hda.
Proof. apply clean_checked; by vm_compute. Qed.

(** All buffers are in the first chain. *)
Fixpoint chain_check (m : gmap Z buffer_head) (p : Z) (l : list Z) : bool :=
  match l with
  | [] => p =? 0
  | q :: l => (p =? q) && negb (q =? 0) &&
      match m !! q with Some h => chain_check m (next h) l | None => false end
  end.
Lemma chain_checked m l : ∀ p, chain_check m p l = true → chain m p l.
Proof.
  induction l as [|q l IH]; intros p; simpl; [apply Z.eqb_eq|]. intros Hc.
  apply andb_true_iff in Hc as [Hc Hh]. apply andb_true_iff in Hc as [Hp Hq].
  destruct (m !! q) as [h|]; [|done]. split; [by apply Z.eqb_eq|]. split; [|eauto].
  intros ->. done.
Qed.
Lemma cache0_bucket0 block : Z.land block 0xFF = 0 → bucket cache0 block (buffer_at <$> seqZ 0 100).
Proof.
  intros Hb. exists (buffer_at 0). rewrite Hb. split; [done|]. apply chain_checked. by vm_compute.
Qed.
Lemma hda_present block : bool_decide (0 ≤ block < 1000) = true → present (E := disk_env) hda block.
Proof.
  intros Hb%bool_decide_eq_true_1. split; [done|]. unfold selected. change (start_lba hda) with 0.
  change (2 ^ 28) with 268435456. change (capacity (E := disk_env) _ _) with 100000. word_lia.
Qed.
Lemma cache0_lru : is_Some (buffers cache0 !! lru_buff cache0).
Proof. apply (bool_decide_eq_true_1 _). by vm_compute. Qed.
Lemma buffers_fuel : (length (buffer_at <$> seqZ 0 100) < 101)%nat.
Proof. rewrite length_fmap, length_seqZ. lia. Qed.

Lemma get_block_reads_witness :
  ∃ p s' e' h, get_block 101 0 0x300 (cache0, disk0) = Ok p (s', e') ∧ buffers s' !! p = Some h ∧
    buff h = content disk0 (location hda 0).
Proof.
  destruct (get_block_reads 101 0 cache0 disk0 0x300 hda _ cache0_clean disk0_wf (hda_present 0 eq_refl)
    cache0_lru (cache0_bucket0 0 eq_refl) buffers_fuel) as (p & s' & e' & h & E & Hp & _ & _ & Hb & _).
  exists p, s', e', h. by split_and!.
Defined.

(** Block 0 is the first block read after the machine has started; afterwards block
    256 cannot be read. *)
Lemma get_block_self_loop_witness :
  ∃ s' e', get_block 101 0 0x300 (cache0, disk0) = Ok (buffer_at 0) (s', e') ∧
    ∀ fuel, get_block fuel 256 0x300 (s', e') = Timeout.
Proof.
  destruct (get_block_self_loop 101 0 cache0 disk0 0x300 hda _ cache0_clean disk0_wf (hda_present 0 eq_refl)
    cache0_lru (cache0_bucket0 0 eq_refl) buffers_fuel) as (s' & e' & E & Hloop); [by vm_compute|by vm_compute|].
  exists s', e'. split; [exact E|]. intros fuel. by apply Hloop.
Defined.

(** The cache after block 5 has been read. *)
Definition held : buffer_head :=
  mkBuffer 0 5 false 0x300 1 0 0 0 0 (content disk0 (location hda 5)).
Definition cache1 : cache :=
  set_lru (buffer_at 1) (set_buff_head (<[5%nat := buffer_at 0]> (buff_head cache0))
    (set_buffers (<[buffer_at 0 := held]> (buffers cache0)) cache0)).
Lemma cache1_clean : clean 0 cache1 disk0 0x300 hda.
Proof. apply clean_checked; by vm_compute. Qed.
Lemma cache1_held : buffers cache1 !! buffer_at 0 = Some held.
Proof. apply lookup_insert_eq. Qed.
Lemma cache1_bucket5 : bucket cache1 5 [buffer_at 0].
Proof. exists (buffer_at 0). split; [by vm_compute|]. apply chain_checked. by vm_compute. Qed.
Lemma cache1_bucket6 : bucket cache1 6 [].
Proof. exists 0. split; [by vm_compute|done]. Qed.
Lemma cache1_lists : is_Some (buffers cache1 !! lru_buff cache1) ∧ is_Some (buffers cache1 !! mru_buff cache1).
Proof. apply (bool_decide_eq_true_1 _). by vm_compute. Qed.

Lemma get_block_aliases_witness :
  ∃ s1 s2 e2 s3 e3, put_block (buffer_at 0) cache1 = Ok tt s1 ∧
    get_block 2 5 0x300 (s1, disk0) = Ok (buffer_at 0) (s2, e2) ∧
    get_block 2 6 0x300 (s2, e2) = Ok (buffer_at 0) (s3, e3).
Proof.
  destruct cache1_lists as [Hl Hm].
  destruct (get_block_aliases 2 6 cache1 disk0 0x300 hda (buffer_at 0) held [buffer_at 0] [] cache1_clean disk0_wf
    cache1_held eq_refl eq_refl) as (s1 & s2 & e2 & s3 & e3 & h3 & E1 & E2 & E3 & _);
    [by vm_compute|exact Hl|exact Hm|apply cache1_bucket5|by vm_compute|apply cache1_bucket6|by vm_compute|simpl; lia|simpl; lia
    |by apply hda_present|].
  exists s1, s2, e2, s3, e3. by split_and!.
Defined.

(** The least recently used buffer holds data for block 7 that is not on disk. *)
Definition dirty_head : buffer_head := mkBuffer 0 7 true 0x300 1 0 0 (buffer_at 1) 0 (replicate 512 9).
Definition cache2 : cache := set_buffers (<[buffer_at 0 := dirty_head]> (buffers cache0)) cache0.

Lemma evict_writes_back_witness :
  ∃ s' e', evict 5 0x300 (cache2, disk0) = Ok (buffer_at 0) (s', e') ∧
    content e' (location hda 7) = replicate 512 9.
Proof.
  assert (bool_decide (valid_ptr (buffers cache2) (next_free dirty_head) ∧
    Forall (valid_ptr (buffers cache2)) (buff_head cache2)) = true) as Hv by (by vm_compute).
  apply bool_decide_eq_true_1 in Hv as [Hv1 Hv2].
  destruct (evict_writes_back 5 0x300 cache2 disk0 dirty_head hda hda) as (s' & e' & h' & E & _ & Hc & _);
    [by vm_compute|by vm_compute|apply disk0_wf|by vm_compute|exact Hv1|by vm_compute|exact Hv2|by vm_compute|lia|reflexivity|by vm_compute
    |apply Forall_replicate; lia|by apply hda_present|by apply hda_present|].
  exists s', e'. split; [exact E|exact Hc].
Defined.
