(* ===== verification/Ext2Bench.v ===== *)
(** * A concrete ext2 file system

    A disk image with one group, a root directory and a file, on the drive of
    [DiskBench.v]: the theorems about ext2 and the device file system are applied to it,
    and the calls [kernel_main] makes are run on it. *)

From S2P Require Import Prelude Memory Common HeapSpec Heap Io Terminal Ata AtaLegacy Buffer Requests Alloc Vfs.
From S2P Require Import Ext2Format Ext2 Ext2Inode Ext2File Ext2Write Ext2Dir Ext2Device Devfs Mount Bench DiskBench.

(** ** The image: blocks of 1024 bytes, inodes of 128, sixteen of them in the group *)

Definition pad (n : nat) (l : list Z) : list Z := take n (l ++ replicate n 0).
Definition super_sector : list Z :=
  pad 512 (le_bytes 4 16 ++ le_bytes 4 64 ++ replicate 16 0 ++ le_bytes 4 0 ++ le_bytes 4 0 ++ le_bytes 4 8192 ++
    le_bytes 4 8192 ++ le_bytes 4 16 ++ replicate 12 0 ++ le_bytes 2 0xEF53 ++ replicate 18 0 ++ le_bytes 4 1 ++
    replicate 8 0 ++ le_bytes 2 128).
(** The inode table is block 5. *)
Definition bgd_sector_data : list Z := pad 512 (le_bytes 4 3 ++ le_bytes 4 4 ++ le_bytes 4 5).
Definition inode_image (mode size block : Z) : list Z :=
  pad 128 (le_bytes 2 mode ++ le_bytes 2 0 ++ le_bytes 4 size ++ replicate 32 0 ++ le_bytes 4 block).
(** Inode 2 is the root directory, in block 8; inode 12 the file, in block 9. *)
Definition table_sector0 : list Z := pad 512 (replicate 128 0 ++ inode_image 0x41ED 1024 8).
Definition table_sector2 : list Z := pad 512 (replicate 384 0 ++ inode_image 0x81A4 600 9).
Definition entry_image (ino size : Z) (name : list Z) : list Z :=
  pad (Z.to_nat size) (le_bytes 4 ino ++ le_bytes 2 size ++ le_bytes 1 (length name) ++ le_bytes 1 0 ++ name).
Definition file1 : list Z := [102; 105; 108; 101; 49; 46; 116; 120; 116].
Definition file2 : list Z := [102; 105; 108; 101; 50; 46; 116; 120; 116].
Definition dir_data : list Z :=
  entry_image 2 12 [46] ++ entry_image 2 12 [46; 46] ++ entry_image 12 20 file1 ++
  take 468 (entry_image 13 980 file2).
Definition file_data : list Z := (λ i, 65 + i mod 26) <$> seqZ 0 512.
Definition sector_bytes (l : Z) : list Z :=
  if l =? 2 then super_sector else if l =? 4 then bgd_sector_data else if l =? 10 then table_sector0
  else if l =? 12 then table_sector2 else if l =? 16 then dir_data else if l =? 18 then file_data else replicate 512 0.

Fixpoint sector_words_of (l : list Z) : list Z :=
  match l with x :: y :: l => (x + 256 * y) :: sector_words_of l | _ => [] end.
(** A console that keeps the characters printed, the last one first. *)
Definition put_text (c : Z) : M (list Z) unit := modify (cons c).
Lemma put_text_ok c t : True → ∃ t', put_text c t = Ok tt t' ∧ True.
Proof. by eexists. Qed.
Definition text_disk : Type := list Z * disk.
#[export] Instance text_env : Env text_disk := console_env put_text (λ _, True) put_text_ok.
#[export] Instance text_bus : AtaBus text_disk := disk_bus_of put_text (λ _, True) put_text_ok.

Definition image : text_disk := ([], mkDisk (λ _, 0) Idle (λ s l, sector_words_of (sector_bytes l))).

(** A drive that is busy at first: the words are sent to no one, and the flush panics. *)
Example ata_write_28_pio_lost :
  match ata_write_28_pio 257 3 (bytes_of (replicate 256 7)) 1 (mkBdev 0 0 0 0 0x1F0 0x3F6 0 0) 5 image with
  | Panic msg e => msg = "ERROR" ∧ sector e 0x1F0 false 5 = sector image 0x1F0 false 5
  | _ => False
  end.
Proof. by vm_compute. Qed.

(** ** The state before mounting *)

#[export] Instance bench_ext2 : Ext2Layout := {|
  super_block_var := 0x9000;
  ext2_literal := 0x8000;
  raw_inode _ := mkInode 0 0 0 None 0 0 0 0 0 false 0 0 0 |}.
#[export] Instance bench_devfs : DevfsLayout := {| devfs_root := 0x9100; devfs_literal := 0x8010 |}.
#[export] Instance bench_mount : MountLayout := {|
  raw_super _ := mkSuper 0 0 None 0 0 0;
  raw_dentry _ := mkDentry 0 0 0 false 0 0 0 0;
  function_address _ := 0x100000 |}.

Definition heap_raw : heap := mkHeap 0 0 0 0 (zeroes 4096 1024).
Lemma bench_bounds : heap_bounds 4096 5120.
Proof. unfold heap_bounds, SIZEOF_BLOCK. by split_and!. Qed.
#[export] Instance bench_heap : Allocator heap := heap_allocator 4096 5120 bench_bounds.
Definition heap1 : heap := match kheap_init 4096 5120 heap_raw with Ok _ h => h | _ => heap_raw end.

(** The names "ext2", "file1.txt" and "file2.txt" in memory. *)
Definition names : mem :=
  list_to_map (zip (seqZ 0x8000 5) (ext2_str ++ [0]) ++ zip (seqZ 0x8010 6) (devfs_str ++ [0]) ++
    zip (seqZ 0x8020 10) (file1 ++ [0]) ++ zip (seqZ 0x8030 10) (file2 ++ [0])).
Definition ext2_type : Z := 0x7000.
Definition vfs0 : vfs := mkVfs {[ ext2_type := mkFsType Ext2_read_super 0x8000 0 ]} 0 ∅ 0 ∅ 0 ∅ 0 names.
Definition ext2_0 : ext2 := mkExt2 (replicate 1024 0) 0 0 0 0 0 0 0 0 0 0 false 0 0.
Definition world0 : world (E := text_disk) := mkWorld ext2_0 vfs0 heap1 (cache0, image).

(** ** Running the calls of [kernel_main] *)

Definition result_of {S A} (o : outcome S A) : option (A * S) := match o with Ok a s => Some (a, s) | _ => None end.

(** From the mount on: the first 100 bytes of the file are read, and are the last thing
    printed. *)
Example kernel_main_reads :
  let o := result_of (kernel_main_files 100 101 ext2_type 0x300 0x8020 9 100 (world0, 0)) in
  ((λ r, r.1.2) <$> o = Some (100, 100, take 100 file_data)) ∧
  ((λ r, reverse (take 100 (w_disk r.2.1).2.1)) <$> o = Some (take 100 file_data)).
Proof. by vm_compute. Qed.

(** ** Caches that are ready for requests *)

Fixpoint free_check (s : cache) (p : Z) (F : list Z) : bool :=
  match F with
  | [] => true
  | q :: F => (p =? q) && match buffers s !! q with Some h => free_check s (next_free h) F | None => false end
  end.
Lemma free_checked s F : ∀ p, free_check s p F = true → free_path s p F.
Proof.
  induction F as [|q F IH]; intros p Hc; [done|]. simpl in Hc. apply andb_true_iff in Hc as [Hp Hc].
  split; [by apply Z.eqb_eq|]. unfold nfree. destruct (buffers s !! q) as [h|]; [|done]. exists (next_free h).
  split; [done|by apply IH].
Qed.

(** Every block of [ks] is in a bucket whose chain is still empty. *)
Definition ready_check (ks F : list Z) (s : cache) (e : text_disk) : Prop :=
  (buffers s !! 0 = None ∧ Forall (valid_ptr (buffers s)) (buff_head s) ∧
   map_Forall (λ _ h, valid_ptrs (buffers s) h ∧ dirty h = false ∧
     (dev h = 0x300 → buff h = content e (location hda (block_num h)))) (buffers s)) ∧
  Forall (λ k, 0 ≤ k < 1000 ∧ buff_head s !! Z.to_nat (Z.land k 0xFF) = Some 0) ks ∧
  NoDup ((λ k, Z.land k 0xFF) <$> ks) ∧ free_check s (lru_buff s) F = true ∧ NoDup F ∧
  map_Forall (λ _ h, bh_flags h ≠ CLASS_DIR ∧ (0 ≤ Buffer.count h < 10) ∧ (dev h = 0x300 → 1 ≤ Buffer.count h)) (buffers s) ∧
  is_Some (buffers s !! mru_buff s) ∧ (length ks < 100)%nat.
#[export] Instance ready_check_dec ks F s e : Decision (ready_check ks F s e).
Proof. unfold ready_check. apply _. Defined.

Lemma bench_present block : 0 ≤ block < 1000 → present (E := text_disk) hda block.
Proof.
  intros Hb. split; [done|]. unfold selected. change (start_lba hda) with 0.
  change (2 ^ 28) with 268435456. change (capacity (E := text_disk) _ _) with 100000. word_lia.
Qed.
Lemma ready_checked fuel ks F s (e : text_disk) :
  bool_decide (ready_check ks F s e) = true → find_bdev 0x300 s = Ok hda s → (0 < fuel)%nat →
  ready fuel 0x300 hda ks F s e.
Proof.
  intros Hc Hf Hfuel. apply bool_decide_eq_true_1 in Hc as ((Hn & Hh & Hm) & Hks & Hnd & Hfree & HF & Hb & Hmru & Hlen).
  constructor; try done.
  - constructor; [done|done|intros q h Hq; by destruct (Hm q h Hq) as (? & ? & ?); auto..|done].
  - eapply Forall_impl; [exact Hks|]. intros k [Hk _]. by apply bench_present.
  - intros k Hk. rewrite Forall_forall in Hks. destruct (Hks k Hk) as [Hk0 Hhd]. split; [lia|]. exists [].
    split; [by exists 0|]. split; [done|]. intros q Hq. by apply elem_of_nil in Hq.
  - by apply free_checked.
  - intros q h Hq _. by destruct (Hb q h Hq).
  - intros q h Hq. destruct (Hb q h Hq) as (_ & ? & _). lia.
  - intros q h Hq. by destruct (Hb q h Hq) as (_ & _ & ?).
Qed.

(** The cache after [init_buffer]: nothing is cached, eight buffers of the free list. *)
Definition free0 : list Z := buffer_at <$> seqZ 0 8.
Lemma cache0_ready ks : bool_decide (ready_check ks free0 cache0 image) = true → ready 101 0x300 hda ks free0 cache0 image.
Proof. intros Hc. apply ready_checked; [done|by vm_compute|lia]. Qed.

(** ** The device file system *)

Lemma bdev_read_correct_witness :
  ∃ s' e', bdev_read 101 0x300 700 512 (cache0, image) = Ok (700, 1212, take 700 (device_bytes image hda [1; 2])) (s', e').
Proof.
  destruct (bdev_read_correct 101 0x300 hda 700 512 free0 cache0 image) as (s' & e' & F' & E & _);
    [lia|lia|lia|by left|by apply cache0_ready; vm_compute|by vm_compute; lia|]. exists s', e'. exact E.
Defined.
Lemma bdev_read_unaligned_faults_witness : bdev_read 101 0x300 700 612 (cache0, image) = Fault.
Proof.
  apply (bdev_read_unaligned_faults 101 0x300 hda 700 612 free0); [lia|lia|done| |done].
  apply (cache0_ready [1]). by vm_compute.
Defined.

Lemma bdev_write_read_witness :
  ∃ s1 e1 s2 e2, bdev_write 101 0x300 [7; 8; 9] 3 1000 (cache0, image) = Ok (3, 1003) (s1, e1) ∧
    bdev_read 102 0x300 3 1000 (s1, e1) = Ok (3, 1003, [7; 8; 9]) (s2, e2).
Proof.
  destruct (bdev_write_read 101 0x300 hda [7; 8; 9] 3 1000 free0 cache0 image) as (s1 & e1 & s2 & e2 & E1 & _ & E2 & _);
    [lia|done|lia|lia|done|by apply (cache0_ready [1]); vm_compute|by vm_compute; lia|]. exists s1, e1, s2, e2. split; [exact E1|exact E2].
Defined.

(** A file of the device file system, and one that is no block device. *)
Definition disk_inode : Vfs.inode := mkInode 0 0x300 0 None 0 0 0 0 0 false 0 0 0.
Definition vfs1 : vfs := set_inodes {[ 0x9100 := disk_inode ]} vfs0.
Lemma devfs_read_correct_witness :
  devfs_read 101 (mkFile 0x9100 0 0) 0x80000000 0 (vfs1, (cache0, image)) = Ok (0, 0, []) (vfs1, (cache0, image)).
Proof. rewrite (devfs_read_correct 101 (mkFile 0x9100 0 0) disk_inode); [done|done|lia]. Defined.
Lemma devfs_read_inode_correct_witness :
  devfs_read_inode 0x9100 (mkDevfs vfs1 5, cache0) =
    Ok tt (mkDevfs (set_inodes (<[0x9100 := fill_inode 5 disk_inode]> (inodes vfs1)) vfs1) 5, cache0).
Proof. apply (devfs_read_inode_correct 0x9100 vfs1 5 cache0 disk_inode). reflexivity. Defined.

(** ** The registry of file systems *)

Lemma string_checked m a str :
  bool_decide (Forall (λ i, m !! (a + Z.of_nat i) = (str ++ [0]) !! i) (seq 0 (S (length str))) ∧ Forall (λ c, c ≠ 0) str) = true →
  0 ≤ a → a + length str < 4294967296 → string_at m a str.
Proof.
  intros [Hm Hz]%bool_decide_eq_true_1 H0 H1. split; [|done]. split; [|done]. intros i y Hi.
  rewrite Forall_forall in Hm. rewrite (Hm i), Hi; [done|]. apply elem_of_seq. apply lookup_lt_Some in Hi.
  rewrite length_app in Hi. simpl in Hi. lia.
Qed.
Lemma ext2_named : string_at names 0x8000 ext2_str.
Proof. apply string_checked; [by vm_compute|lia|simpl; lia]. Qed.
Lemma devfs_named : string_at names 0x8010 devfs_str.
Proof. apply string_checked; [by vm_compute|lia|simpl; lia]. Qed.
Lemma names_bytes : bytes_ok names.
Proof. apply (bool_decide_eq_true_1 _). by vm_compute. Qed.

(** The type "ext2" is registered, "devfs" is not yet. *)
Definition devfs_type : Z := 0x7010.
Definition vfs2 : vfs :=
  mkVfs {[ ext2_type := mkFsType Ext2_read_super 0x8000 0; devfs_type := mkFsType Devfs_read_super 0x8010 0 ]}
    ext2_type {[ 0x7100 := mkSuper 0 0 None 0 0 0 ]} 0 {[ 0x9100 := disk_inode ]} 0 ∅ 0 names.
Lemma vfs2_registry : registry vfs2 [(ext2_type, ext2_str)].
Proof.
  constructor; [|by apply NoDup_singleton| |apply names_bytes].
  - split; [done|]. split; [done|]. by eexists.
  - intros q nm Hin%list_elem_of_singleton. injection Hin as -> ->. eexists. split; [reflexivity|apply ext2_named].
Qed.

Lemma devfs_read_super_correct_witness :
  devfs_read_super 0x7100 (mkDevfs vfs2 0, cache0) =
    Ok tt (mkDevfs (set_super_blocks (<[0x7100 := mkSuper 0 0 (Some Devfs_super_ops) 0 0x9100 0]> (super_blocks vfs2))
      (set_inodes (<[0x9100 := set_i_no 0 (fill_inode 0 disk_inode)]> (inodes vfs2)) vfs2)) 0x7100, cache0).
Proof.
  refine (devfs_read_super_correct 0x7100 vfs2 0 cache0 [(ext2_type, ext2_str)] (mkSuper 0 0 None 0 0 0) disk_inode
    vfs2_registry _ _ _); [exact devfs_named|reflexivity|reflexivity].
Defined.

Lemma find_file_system_correct_witness :
  ∃ l, find_file_system 0x8000 3 vfs2 = Ok l vfs2 ∧ ld_link l vfs2 = Ok ext2_type vfs2.
Proof.
  destruct (find_file_system_correct vfs2 [(ext2_type, ext2_str)] 0x8000 ext2_str 3 vfs2_registry ext2_named) as (l & E1 & E2);
    [simpl; lia|lia|]. exists l. split; [exact E1|exact E2].
Defined.
Lemma register_filesystem_correct_witness :
  ∃ s', register_filesystem devfs_type vfs2 = Ok 0 s' ∧ registry s' [(ext2_type, ext2_str); (devfs_type, devfs_str)].
Proof.
  pose proof (register_filesystem_correct vfs2 [(ext2_type, ext2_str)] devfs_type (mkFsType Devfs_read_super 0x8010 0) devfs_str
    vfs2_registry eq_refl ltac:(done) devfs_named ltac:(simpl; lia)) as Hreg.
  rewrite decide_False in Hreg; [exact Hreg|]. apply (bool_decide_eq_false_1 _). by vm_compute.
Defined.
Lemma register_unregister_witness :
  ∃ s1 s2, register_filesystem devfs_type vfs2 = Ok 0 s1 ∧ unregister_filesystem devfs_type s1 = Ok 0 s2 ∧
    registry s2 [(ext2_type, ext2_str)].
Proof.
  destruct (register_unregister vfs2 [(ext2_type, ext2_str)] devfs_type (mkFsType Devfs_read_super 0x8010 0) devfs_str
    vfs2_registry eq_refl ltac:(done) eq_refl devfs_named ltac:(simpl; lia)) as (s1 & l & s2 & s3 & E1 & _ & _ & E2 & Hr & _).
  - apply (bool_decide_eq_false_1 _). by vm_compute.
  - exists s1, s2. split; [exact E1|]. split; [exact E2|exact Hr].
Defined.
Lemma unregister_filesystem_correct_witness : unregister_filesystem devfs_type vfs2 = Ok (-1) vfs2.
Proof.
  pose proof (unregister_filesystem_correct vfs2 [(ext2_type, ext2_str)] devfs_type vfs2_registry) as Hu.
  rewrite decide_False in Hu; [exact Hu|]. apply (bool_decide_eq_false_1 _). by vm_compute.
Defined.

(** A name of 256 characters. *)
Definition long_name : list Z := replicate 256 65.
Definition vfs3 : vfs :=
  mkVfs {[ ext2_type := mkFsType Ext2_read_super 0x8000 0 ]} 0 ∅ 0 ∅ 0 ∅ 0
    (list_to_map (zip (seqZ 0x8000 257) (long_name ++ [0]))).
Lemma long_named : string_at (vmem vfs3) 0x8000 long_name.
Proof. apply string_checked; [by vm_compute|lia|simpl; lia]. Qed.
Lemma register_long_name_twice_witness :
  ∃ s1 s2, register_filesystem ext2_type vfs3 = Ok 0 s1 ∧ register_filesystem ext2_type s1 = Ok 0 s2 ∧
    ∀ fuel, unregister_loop fuel Head devfs_type s2 = Timeout.
Proof.
  destruct (register_long_name_twice vfs3 ext2_type (mkFsType Ext2_read_super 0x8000 0) long_name) as (s1 & s2 & E1 & E2 & Hu);
    [done|done|done|done|exact long_named|done|]. exists s1, s2. split; [exact E1|]. split; [exact E2|].
  intros fuel. by apply Hu.
Defined.

(** ** The mounted file system *)

Lemma inode_roundtrip_witness : decode_inode (encode_inode (decode_inode (inode_image 0x81A4 600 9))) = decode_inode (inode_image 0x81A4 600 9).
Proof.
  destruct inode_roundtrip as [Hone Htwo]. destruct (Hone (inode_image 0x81A4 600 9)) as [Ht E].
  - reflexivity.
  - apply (bool_decide_eq_true_1 _). by vm_compute.
  - by rewrite E.
Defined.

Definition mounted0 : ext2 :=
  match geometry (decode_superblock (superblock_bytes image hda)) (set_ext2_sb (superblock_bytes image hda) ext2_0) with
  | Some x => x
  | None => ext2_0
  end.
Lemma mounted0_geometry :
  geometry (decode_superblock (superblock_bytes image hda)) (set_ext2_sb (superblock_bytes image hda) ext2_0) = Some mounted0.
Proof. by vm_compute. Qed.

Lemma ext2_parse_superblock_correct_witness :
  ∃ p s' e', ext2_parse_superblock 101 0x300 world0 = Ok tt (mkWorld (set_bgdt p mounted0) vfs0 heap1 (s', e')).
Proof.
  destruct (ext2_parse_superblock_correct 101 0x300 hda free0 cache0 image ext2_0 mounted0 vfs0 heap1) as (s' & e' & _ & Hp);
    [by vm_compute|apply mounted0_geometry|by apply cache0_ready; vm_compute|by vm_compute; lia|].
  assert ((ext2_signature (decode_superblock (superblock_bytes image hda)) =? 0xEF53) = true) as Hs by (by vm_compute).
  rewrite Hs in Hp. destruct Hp as (p & F' & E & _). exists p, s', e'. exact E.
Defined.

(** The cache after mounting: the descriptor table is in the first buffer. *)
Definition cache4 : cache := match get_block 101 4 0x300 (cache0, image) with Ok _ (s, _) => s | _ => cache0 end.
Definition free4 : list Z := buffer_at <$> seqZ 1 8.
Definition mounted : ext2 := set_bgdt (buffer_at 0) mounted0.
Lemma cache4_ready ks : bool_decide (ready_check ks free4 cache4 image) = true → ready 101 0x300 hda ks free4 cache4 image.
Proof. intros Hc. apply ready_checked; [done|by vm_compute|lia]. Qed.
Lemma cache4_table : table_held mounted bgd_sector_data free4 cache4.
Proof.
  assert (((λ h, buff h) <$> buffers cache4 !! buffer_at 0) = Some bgd_sector_data) as Hb by (by vm_compute).
  destruct (buffers cache4 !! buffer_at 0) as [h|] eqn:Hp; [|done]. injection Hb as Hb. exists h.
  split; [exact Hp|]. split; [exact Hb|]. apply (bool_decide_eq_true_1 _). by vm_compute.
Qed.
Lemma mounted_wf : well_formed mounted 2.
Proof. constructor; apply (bool_decide_eq_true_1 _); by vm_compute. Qed.
Lemma valid_checked ino :
  bool_decide (0 < ino < 16 ∧ 0 ≤ table_of_inode mounted bgd_sector_data ino ∧
    inode_at mounted bgd_sector_data ino < 512 * 4294967296 ∧ (ino - 1) / inodes_per_group mounted = 0) = true →
  valid_inode mounted bgd_sector_data ino.
Proof. intros (Hi & Ht & Hb & Hg)%bool_decide_eq_true_1. constructor; [lia|rewrite Hg; lia|done|done]. Qed.

Lemma read_inode_correct_witness :
  ∃ p s1 e1, read_inode 101 12 0x300 (mkWorld mounted vfs0 heap1 (cache4, image)) =
    Ok (p, inode_image 0x81A4 600 9) (mkWorld mounted vfs0 heap1 (s1, e1)).
Proof.
  destruct (read_inode_correct 101 0x300 hda mounted 2 bgd_sector_data mounted_wf 12 free4 cache4 image vfs0 heap1)
    as (p & s1 & e1 & h & F1 & E & _);
    [apply valid_checked; by vm_compute|apply cache4_table|apply cache4_ready; by vm_compute|done|].
  exists p, s1, e1. exact E.
Defined.

(** ** An open file *)

Lemma heap1_mapped : mapped (hmem heap_raw) 4096 (5120 - 4096).
Proof. apply (mappedb_spec _ 4096 1024). by vm_compute. Qed.
Lemma heap1_init : kheap_init 4096 5120 heap_raw = Ok tt heap1 ∧ heap_repr heap1 [Blk false 1008].
Proof.
  destruct (kheap_init_spec 4096 5120 heap_raw bench_bounds heap1_mapped) as (h' & E & _ & _ & Hr).
  assert (heap1 = h') as Heq by (unfold heap1; rewrite E; reflexivity).
  split; [by rewrite Heq|]. rewrite Heq. exact Hr.
Qed.
Lemma heap1_owns : mm_owns heap1 ∅.
Proof.
  apply client_inv_boot; [apply bench_bounds|]. exists heap_raw. split; [apply heap1_mapped|]. split; [apply heap1_init|done].
Qed.
Lemma heap1_room : has_room heap1 SIZEOF_INODE.
Proof.
  destruct (kmalloc_spec heap1 [Blk false 1008] 128 (proj2 heap1_init) ltac:(done)) as (m' & E & _).
  eexists _, _. exact E.
Qed.

(** The super block, a directory and a file as inodes of the virtual file system. *)
Definition file_inode (size no : Z) : Vfs.inode := mkInode 0x300 no size (Some Ext2_inode_ops) 0x7100 0 0 0 0 false 0 0 0.
Definition vfs4 : vfs :=
  mkVfs {[ ext2_type := mkFsType Ext2_read_super 0x8000 0 ]} ext2_type
    {[ 0x7100 := mkSuper 0x300 ext2_type (Some Ext2_super_operations) 0 0 0 ]} 0
    {[ 0x9200 := file_inode 600 12; 0x9300 := file_inode 1024 2 ]} 0 ∅ 0 names.
Lemma vfs4_file : open_file vfs4 (mkFile 0x9200 0x8020 0) (file_inode 600 12) 0x300.
Proof. constructor; [reflexivity|reflexivity|by eexists _, _]. Qed.
Lemma vfs4_dir : open_file vfs4 (mkFile 0x9300 0 0) (file_inode 1024 2) 0x300.
Proof. constructor; [reflexivity|reflexivity|by eexists _, _]. Qed.

Lemma bytes_checked l : bool_decide (Forall (λ x, 0 ≤ x ∧ x < 256) l) = true → Forall is_byte l.
Proof. intros Hl%bool_decide_eq_true_1. eapply Forall_impl; [exact Hl|]. intros y Hy. exact Hy. Qed.
Lemma inode12 : inode_bytes image hda (inode_at mounted bgd_sector_data 12) = inode_image 0x81A4 600 9.
Proof. by vm_compute. Qed.
Lemma inode2 : inode_bytes image hda (inode_at mounted bgd_sector_data 2) = inode_image 0x41ED 1024 8.
Proof. by vm_compute. Qed.

Lemma ext2_read_sector_witness :
  ∃ w, ext2_read 2 101 (mkFile 0x9200 0x8020 0) 100 200 (mkWorld mounted vfs4 heap1 (cache4, image)) =
    Ok (100, 300, take 100 (drop 200 file_data)) w.
Proof.
  pose proof (ext2_read_sector 101 0x300 hda mounted 2 bgd_sector_data mounted_wf vfs4 (mkFile 0x9200 0x8020 0)
    (file_inode 600 12) vfs4_file heap1 ∅ heap1_owns heap1_room image
    ltac:(apply bytes_checked; by vm_compute) ltac:(apply valid_checked; by vm_compute) 0 100 200 free4 cache4 9) as Hread.
  cbv zeta in Hread. cbn [i_no file_inode] in Hread. rewrite inode12 in Hread.
  rewrite decide_True in Hread by (right; by vm_compute).
  destruct Hread as (s' & e' & F' & hp' & E & _); [lia|lia|by vm_compute|done|done|done|by vm_compute|done|by vm_compute|done
    |apply cache4_table|by apply cache4_ready; vm_compute|by vm_compute; lia|].
  exists (mkWorld mounted vfs4 hp' (s', e')). rewrite E. do 3 f_equal.
Defined.

Lemma geometry_well_formed_witness : well_formed mounted0 2.
Proof.
  refine (geometry_well_formed (decode_superblock (superblock_bytes image hda)) _ mounted0 mounted0_geometry _ _ _ _ _ _);
    apply (bool_decide_eq_true_1 _); by vm_compute.
Defined.

Lemma ext2_write_sector_witness :
  ∃ w, ext2_write 2 101 (mkFile 0x9200 0x8020 0) [7; 8; 9] 3 200 (mkWorld mounted vfs4 heap1 (cache4, image)) = Ok (3, 203) w.
Proof.
  pose proof (ext2_write_sector 101 0x300 hda mounted 2 bgd_sector_data mounted_wf vfs4 (mkFile 0x9200 0x8020 0)
    (file_inode 600 12) vfs4_file heap1 ∅ heap1_owns heap1_room image
    ltac:(apply bytes_checked; by vm_compute) ltac:(apply valid_checked; by vm_compute) 0 [7; 8; 9] 200 free4 cache4 9) as Hwrite.
  cbv zeta in Hwrite. cbn [i_no file_inode] in Hwrite. rewrite inode12 in Hwrite.
  assert (direct_block (decode_inode (inode_image 0x81A4 600 9)) !! Z.to_nat (200 / 512 + 1) = Some 0) as Hend by (by vm_compute).
  rewrite Hend in Hwrite.
  destruct Hwrite as (p & q & s' & e' & hp' & E & _); [lia|done|by vm_compute|done|done|done|by vm_compute|done|by vm_compute|done
    |apply cache4_table|by apply cache4_ready; vm_compute|by vm_compute; lia|].
  exists (mkWorld mounted vfs4 hp' (s', e')). exact E.
Defined.

(** Inode 12 is in sector 12 of the image; its size is stored to sector 11. *)
Lemma change_file_size_sector_witness :
  inode_at mounted bgd_sector_data 12 / 512 = 12 ∧
  ∃ p s' e', change_file_size 101 12 700 0x300 (mkWorld mounted vfs4 heap1 (cache4, image)) =
      Ok tt (mkWorld mounted vfs4 heap1 (s', e')) ∧
    cached s' p 0x300 11 true (spliced 388 [188; 2; 0; 0] (content image (location hda 11))).
Proof.
  split; [by vm_compute|].
  pose proof (change_file_size_sector 101 0x300 hda mounted 2 bgd_sector_data 12 700 free4 cache4 image vfs4 heap1) as Hch.
  cbv zeta in Hch. assert (wrong_sector mounted 2 (inode_at mounted bgd_sector_data 12) 12 = 11) as Hk by (by vm_compute).
  assert (inode_at mounted bgd_sector_data 12 mod 512 + 4 = 388) as Ho by (by vm_compute).
  assert (le_bytes 4 (u32 700) = [188; 2; 0; 0]) as Hl by (by vm_compute). rewrite Hk, Ho, Hl in Hch.
  destruct Hch as [_ (p & s' & e' & E & _ & Hc)];
    [apply mounted_wf|apply valid_checked; by vm_compute|apply cache4_table|by apply cache4_ready; vm_compute|by vm_compute; lia|].
  exists p, s', e'. split; [exact E|exact Hc].
Defined.

(** Reading the whole of a directory, ten bytes of it, and a file whose flags are odd. *)
Definition odd_inode : Vfs.inode := mkInode 0x300 12 600 (Some Ext2_inode_ops) 0x7100 0 0 1 0 false 0 0 0.
Definition vfs_odd : vfs := set_inodes (<[0x9200 := odd_inode]> (inodes vfs4)) vfs4.
Lemma vfs_odd_file : open_file vfs_odd (mkFile 0x9200 0x8020 0) odd_inode 0x300.
Proof. constructor; [reflexivity|reflexivity|by eexists _, _]. Qed.
Lemma ext2_read_errors_witness :
  (∃ w, ext2_read 2 101 (mkFile 0x9300 0 0) 1024 0 (mkWorld mounted vfs4 heap1 (cache4, image)) = Ok (-1, 0, []) w) ∧
  (∃ w, ext2_read 2 101 (mkFile 0x9300 0 0) 10 0 (mkWorld mounted vfs4 heap1 (cache4, image)) = Ok (-1, 0, []) w) ∧
  (∃ w, ext2_read 2 101 (mkFile 0x9200 0x8020 0) 100 200 (mkWorld mounted vfs_odd heap1 (cache4, image)) = Ok (-1, 200, []) w).
Proof.
  pose proof (ext2_read_errors 101 0x300 hda mounted 2 bgd_sector_data mounted_wf vfs4 (mkFile 0x9300 0 0)
    (file_inode 1024 2) vfs4_dir heap1 ∅ heap1_owns heap1_room image
    ltac:(apply bytes_checked; by vm_compute) ltac:(apply valid_checked; by vm_compute) 2) as Hdir.
  pose proof (ext2_read_errors 101 0x300 hda mounted 2 bgd_sector_data mounted_wf vfs_odd (mkFile 0x9200 0x8020 0)
    odd_inode vfs_odd_file heap1 ∅ heap1_owns heap1_room image
    ltac:(apply bytes_checked; by vm_compute) ltac:(apply valid_checked; by vm_compute) 2) as Hodd.
  cbv zeta in Hdir, Hodd. cbn [i_no i_size i_flags file_inode odd_inode] in Hdir, Hodd. rewrite inode2 in Hdir.
  assert ((Z.land (type_permissions (decode_inode (inode_image 0x41ED 1024 8))) TYPE_REG_FILE =? 0) = true) as Hno by (by vm_compute).
  rewrite Hno in Hdir. split; [|split].
  - specialize (Hdir 1024 0 free4 cache4). change ((1024 <=? u32 (0 + 1024)) || Z.odd 0) with true in Hdir. cbv iota in Hdir.
    destruct Hdir as (e' & _ & E); [apply cache4_table|by apply cache4_ready; vm_compute|by vm_compute; lia|]. eexists. exact E.
  - specialize (Hdir 10 0 free4 cache4). change ((1024 <=? u32 (0 + 10)) || Z.odd 0) with false in Hdir. cbv iota in Hdir.
    destruct Hdir as (p & s' & e' & F' & hp' & E & _);
      [apply cache4_table|by apply cache4_ready; vm_compute|by vm_compute; lia|]. eexists. exact E.
  - specialize (Hodd 100 200 free4 cache4). change ((600 <=? u32 (200 + 100)) || Z.odd 1) with true in Hodd. cbv iota in Hodd.
    destruct Hodd as (e' & _ & E); [apply cache4_table|by apply cache4_ready; vm_compute|by vm_compute; lia|]. eexists. exact E.
Defined.

(** ** Looking up *)

Lemma dir_valid : valid_inode mounted bgd_sector_data (i_no (file_inode 1024 2)).
Proof. apply valid_checked. by vm_compute. Qed.
Lemma image_bytes : ∀ a, Forall is_byte (content image a).
Proof. intros a. apply bytes_of_bytes. apply (sector_words image). Qed.
Lemma file1_held : holds_bytes names 0x8020 file1.
Proof.
  intros i y Hi. assert (Forall (λ i, names !! (0x8020 + Z.of_nat i) = file1 !! i) (seq 0 9)) as HF
    by (apply (bool_decide_eq_true_1 _); by vm_compute).
  rewrite Forall_forall in HF. rewrite (HF i); [done|]. apply elem_of_seq. apply lookup_lt_Some in Hi. simpl in Hi. lia.
Qed.
Lemma cache4_apart name : 0x8000 ≤ name ≤ 0x9000 → ∀ q, is_Some (buffers cache4 !! q) → apart name 9 q.
Proof.
  intros Hn q [h Hq].
  assert (map_Forall (λ q _, 0x100000 ≤ q ∧ q < 0x200000) (buffers cache4)) as HF
    by (apply (bool_decide_eq_true_1 _); by vm_compute).
  specialize (HF q h Hq). simpl in HF. unfold apart, BUFF_OFFSET. lia.
Qed.

Definition entry1 (name : list Z) (ino size : Z) : ext2_directory_entry * list Z :=
  (mkDirEntry ino size (length name) 0, name).
Lemma ext2_lookup_finds_witness :
  ∃ s' e', ext2_lookup 10 101 (file_inode 1024 2) 0x8020 9 0x9300 (mkWorld mounted vfs4 heap1 (cache4, image)) =
    Ok 0 (mkWorld mounted (set_inodes (<[0x9300 := set_result 12 (decode_inode (inode_image 0x81A4 600 9)) (file_inode 1024 2)]> (inodes vfs4)) vfs4)
      heap1 (s', e')).
Proof.
  pose proof (ext2_lookup_finds 101 0x300 hda mounted 2 bgd_sector_data mounted_wf ltac:(lia) vfs4 heap1 image image_bytes
    (file_inode 1024 2) eq_refl dir_valid) as Hl. cbv zeta in Hl. cbn [i_no file_inode] in Hl. rewrite inode2 in Hl.
  destruct (Hl ltac:(by vm_compute) 0x8020 0x9300 file1 file1_held ltac:(apply bytes_checked; by vm_compute) ltac:(simpl; lia)
    10%nat [entry1 [46] 2 12; entry1 [46; 46] 2 12] (mkDirEntry 12 20 9 0) file1 [] free4 cache4 8 (file_inode 1024 2))
    as (s' & e' & F' & E & _).
  - by vm_compute.
  - done.
  - by vm_compute.
  - by repeat constructor; intros [_ ?].
  - done.
  - by vm_compute.
  - apply valid_checked. by vm_compute.
  - done.
  - apply cache4_apart. lia.
  - apply cache4_table.
  - apply cache4_ready. by vm_compute.
  - by vm_compute; lia.
  - simpl. lia.
  - exists s', e'. rewrite <-inode12. exact E.
Defined.

(** "file2.txt" is the last entry of the directory. *)
Lemma file2_held : holds_bytes names 0x8030 file2.
Proof.
  intros i y Hi. assert (Forall (λ i, names !! (0x8030 + Z.of_nat i) = file2 !! i) (seq 0 9)) as HF
    by (apply (bool_decide_eq_true_1 _); by vm_compute).
  rewrite Forall_forall in HF. rewrite (HF i); [done|]. apply elem_of_seq. apply lookup_lt_Some in Hi. simpl in Hi. lia.
Qed.
Lemma ext2_lookup_hangs_witness :
  ext2_lookup 1000 101 (file_inode 1024 2) 0x8030 9 0x9300 (mkWorld mounted vfs4 heap1 (cache4, image)) = Timeout.
Proof.
  pose proof (ext2_lookup_hangs 101 0x300 hda mounted 2 bgd_sector_data mounted_wf ltac:(lia) vfs4 heap1 image image_bytes
    (file_inode 1024 2) eq_refl dir_valid) as Hl. cbv zeta in Hl. cbn [i_no file_inode] in Hl. rewrite inode2 in Hl.
  apply (Hl ltac:(by vm_compute) 0x8030 0x9300 file2 file2_held ltac:(apply bytes_checked; by vm_compute) ltac:(simpl; lia)
    1000%nat [entry1 [46] 2 12; entry1 [46; 46] 2 12; entry1 file1 12 20] free4 cache4 8).
  - by vm_compute.
  - done.
  - lia.
  - by vm_compute.
  - by repeat constructor; intros [_ ?].
  - by vm_compute.
  - by vm_compute.
  - by vm_compute.
  - by vm_compute.
  - apply cache4_apart. lia.
  - apply cache4_table.
  - apply cache4_ready. by vm_compute.
  - by vm_compute; lia.
Defined.

(** ** Mounting *)

Lemma ok_inj {S A} (a a' : A) (t t' : S) : Ok a t = Ok a' t' → a' = a ∧ t' = t.
Proof. by intros [= -> ->]. Qed.
Lemma mounted0_wf : well_formed mounted0 2.
Proof. constructor; apply (bool_decide_eq_true_1 _); by vm_compute. Qed.
Lemma mounted0_root : valid_inode mounted0 bgd_sector_data ROOT_DIRECTORY.
Proof. constructor; apply (bool_decide_eq_true_1 _); by vm_compute. Qed.
Lemma vfs0_registry : registry vfs0 [].
Proof.
  constructor; [reflexivity|by apply NoDup_nil_2| |apply names_bytes].
  intros q nm Hin. by apply elem_of_nil in Hin.
Qed.
(** The calls to the heap while mounting: super block, inode, root and directory. *)
Lemma result_checked {S A} (o : outcome S A) r :
  match o with Ok r _ => Some r | _ => None end = Some r → ∃ s, o = Ok r s.
Proof. destruct o as [r' s| | |]; [|done..]. intros [= ->]. by exists s. Qed.
Lemma mount_calls_ok : ∃ hp', init_calls (inode_image 0x41ED 1024 8) heap1 = Ok (4112, 4296, 4152) hp'.
Proof. apply result_checked. by vm_compute. Qed.
Lemma init_fs_correct_witness :
  ∃ p v' hp' s' e', init_fs 101 ext2_type 0x300 (world0, 0) =
    Ok tt (mkWorld (set_super_block 4112 (set_bgdt p mounted0)) v' hp' (s', e'), 0) ∧
    registry v' [(ext2_type, ext2_str)] ∧ i_head v' = 4296.
Proof.
  pose proof (init_fs_correct 101 0x300 hda ext2_0 mounted0 2 image image_bytes ltac:(by vm_compute) ltac:(by vm_compute)
    mounted0_geometry mounted0_wf) as Hm. cbv zeta in Hm.
  assert (content image (location hda (bgd_sector mounted0)) = bgd_sector_data) as Ht by (by vm_compute). rewrite Ht in Hm.
  assert (inode_at mounted0 bgd_sector_data ROOT_DIRECTORY = inode_at mounted bgd_sector_data 2) as Hi by (by vm_compute).
  rewrite Hi, inode2 in Hm. destruct mount_calls_ok as [hp' Hcalls].
  destruct (Hm mounted0_root ext2_type (mkFsType Ext2_read_super 0x8000 0) [] free0 cache0 vfs0 [] heap1 ∅ 4112 4296 4152 hp' 0)
    as (p & v' & s' & e' & F' & E & _ & _ & _ & Hreg & _ & _ & Hroot & _).
  - apply cache0_ready. by vm_compute.
  - by vm_compute; lia.
  - apply vfs0_registry.
  - reflexivity.
  - done.
  - done.
  - done.
  - apply ext2_named.
  - apply ext2_named.
  - by intros ?%Exists_nil.
  - apply heap1_owns.
  - exact Hcalls.
  - done.
  - exists p, v', hp', s', e'. split; [exact E|]. split; [exact Hreg|exact Hroot].
Defined.

(** ** Without the cache *)

Definition inode12_data : ext2_inode := decode_inode (inode_image 0x81A4 600 9).
(** The file has one block; the second sector goes to block 0, the start of the disk. *)
Lemma write_file_correct_witness :
  ∃ e', write_file (replicate 600 7) 1 600 inode12_data hda (mkWorld mounted vfs4 heap1 (cache4, image)) =
      Ok 600 (mkWorld mounted vfs4 heap1 (cache4, e')) ∧
    content e' (location hda 18) = replicate 512 7 ∧ content e' (location hda 0) = replicate 88 7 ++ replicate 424 0.
Proof.
  assert (u32 (600 * 1) = 600) as Ht by (by vm_compute). assert (chunks 600 = 2%nat) as Hc by (by vm_compute).
  destruct (write_file_correct inode12_data hda mounted vfs4 heap1 cache4 image (replicate 600 7) 1 600) as (e' & E & Hk & _).
  - by vm_compute.
  - constructor; rewrite ?Ht, ?Hc.
    + split; [by vm_compute|]. by apply Forall_replicate.
    + by vm_compute.
    + intros [|[|j]] Hj; [split; [by vm_compute|apply bench_present; by vm_compute]..|lia].
    + intros [|[|j]] [|[|k]] Hj Hk Hne; (lia || by vm_compute).
  - done.
  - rewrite Ht, Hc in *. exists e'. split; [exact E|].
    assert (file_sector inode12_data mounted 0 = 18) as H0 by (by vm_compute).
    assert (file_sector inode12_data mounted 1 = 0) as H1 by (by vm_compute).
    pose proof (Hk 0%nat ltac:(lia)) as Hk0. pose proof (Hk 1%nat ltac:(lia)) as Hk1. rewrite H0 in Hk0. rewrite H1 in Hk1.
    rewrite Hk0, Hk1. by split; vm_compute.
Defined.
(** The directory's block: its first sector has zeros in it. *)
Lemma read_file_correct_witness :
  ∃ e', read_file (decode_inode (inode_image 0x41EC 512 8)) hda (mkWorld mounted vfs4 heap1 (cache4, image)) =
    Ok tt (mkWorld mounted vfs4 heap1 (cache4, e')) ∧ content e' = content image.
Proof.
  pose proof (read_file_correct (decode_inode (inode_image 0x41EC 512 8)) hda mounted vfs4 heap1 cache4 image
    ltac:(by vm_compute) ltac:(by vm_compute) ltac:(done)) as Hr. cbv zeta in Hr.
  assert (blocks_read mounted (size_low (decode_inode (inode_image 0x41EC 512 8))) 0
    (direct_block (decode_inode (inode_image 0x41EC 512 8))) = [8]) as Hb by (by vm_compute). rewrite Hb in Hr.
  assert (forallb (λ b, terminated (content image (location hda (ADDR_OF_BLOCK mounted b)))) [8] = true) as Ht by (by vm_compute).
  rewrite Ht in Hr. apply Hr. intros b ->%list_elem_of_singleton. apply bench_present. by vm_compute.
Defined.
(** A group with two free inodes. *)
Definition free_table : list Z := pad 512 (le_bytes 4 3 ++ le_bytes 4 4 ++ le_bytes 4 5 ++ le_bytes 2 9 ++ le_bytes 2 2).
Definition cache_free : cache :=
  mkCache {[ buffer_at 0 := mkBuffer 0 4 false 0x300 1 0 0 0 0 free_table ]} [] 0 0 {[ 0x200000 := hda ]} 0x200000.
Lemma image_wf : env_wf image.
Proof. done. Qed.
Lemma alloc_inode_result_witness :
  ∃ e', alloc_inode 0 [] hda (mkWorld mounted vfs4 heap1 (cache_free, image)) =
    Ok 48 (mkWorld mounted vfs4 heap1 (cache_free, e')).
Proof.
  pose proof (alloc_inode_result [] hda mounted vfs4 heap1 cache_free image
    (mkBuffer 0 4 false 0x300 1 0 0 0 0 free_table) eq_refl image_wf) as Ha. cbv zeta in Ha.
  destruct Ha as (e' & E & _).
  - by vm_compute.
  - by split; vm_compute.
  - by vm_compute.
  - apply bench_present. by vm_compute.
  - apply bench_present. by vm_compute.
  - intros e a. apply bytes_of_bytes, (sector_words e).
  - exists e'. exact E.
Defined.
