(* ===== verification/BootDisk.v ===== *)
(** * The disk while the kernel starts

    Nothing [kernel_main] does before it mounts the file system changes a sector: the
    ports of the other chips are not the drive's, the probe writes registers of the
    drive, and the command of [parse_mbr] reads. *)

From S2P Require Import Prelude Memory Common HeapSpec Heap Frame Paging Io Descriptors Irq Drivers Syscall Interrupts Ata Buffer.
From S2P Require Import Alloc Vfs Ext2 Devfs Mount Task Boot Startup KernelMain.

(** ** What does not reach the medium *)

(** The drives are those of the two buses; of the byte writes only a command can change a
    sector, and the command to read does not; reading a port never does. The console is
    not the drive. *)
Class AtaQuiet (E : Type) `{AtaBus E} `{!Screen E} := {
  ata_buses : ∀ b, on_bus b → b = PRIMARY_BUS ∨ b = 0x170;
  ata_quiet_out : ∀ p v e, (∀ b, on_bus b → p ≠ b + REG_CMD_PORT) ∨ v = READ_SECTS_CMD →
    sector (env_out W8 p v e) = sector e;
  ata_quiet_in : ∀ w p e, sector (env_in w p e).2 = sector e;
  screen_quiet : steady sector screen_init }.

Section devices.
Context `{AtaQuiet E}.

(** A port of neither bus's command register. *)
Definition off_command (p : Z) : Prop := u16 p ≠ PRIMARY_BUS + REG_CMD_PORT ∧ u16 p ≠ 0x170 + REG_CMD_PORT.

Lemma steady_putchar c : steady sector (terminal_putchar c).
Proof using. intros e [] e' E1. by apply (ata_console c). Qed.
Lemma steady_in w p : steady sector (io_in w p).
Proof using Type*.
  intros e v e' E1. unfold io_in in E1. pose proof (ata_quiet_in w (u16 p) e) as Hq.
  destruct (env_in w (u16 p) e) as [x e1]. by injection E1 as <- <-.
Qed.
Lemma steady_outb p v : off_command p ∨ u8 v = READ_SECTS_CMD → steady sector (outb p v).
Proof using Type*.
  intros Hp e [] e' [= <-]. apply ata_quiet_out. destruct Hp as [[Hp1 Hp2]|Hv]; [left|by right].
  intros b [-> | ->]%ata_buses; done.
Qed.
Lemma steady_write l : steady sector (terminal_write l).
Proof using. apply steady_for_each, steady_putchar. Qed.
Lemma steady_hex32 k : steady sector (terminal_printhex32 k).
Proof using.
  unfold terminal_printhex32, terminal_printhex16, terminal_printhex.
  repeat (apply steady_bind; [|intros _]); apply steady_putchar.
Qed.
Lemma steady_remap : steady sector irq_remap.
Proof using Type*. unfold irq_remap. repeat (apply steady_bind; [|intros _]); (apply steady_outb; by left). Qed.
Lemma steady_interval : steady sector (Timer.timer_set_interval HZ).
Proof using Type*.
  unfold Timer.timer_set_interval. cbn [Z.eqb HZ]. repeat (apply steady_bind; [|intros _]); (apply steady_outb; by left).
Qed.
Lemma steady_probe : steady sector probe_disk.
Proof using Type*.
  unfold probe_disk, inb. repeat first [apply steady_write|apply steady_in|apply steady_outb; by left|apply steady_when
    |apply steady_bind; [|intros ?]].
Qed.

(** Reading the first sector of the disk. *)
Lemma steady_poll fuel dev : ∀ status, steady sector (poll fuel dev status).
Proof using Type*.
  induction fuel as [|fuel IH]; intros status; [by apply steady_stop|]. cbn [poll].
  destruct (_ && _); [|apply steady_ret]. apply steady_bind; [apply steady_in|intros v].
  apply steady_bind; [apply steady_write|intros _]. unfold terminal_printhex.
  repeat (apply steady_bind; [|intros _]); try apply steady_putchar. apply IH.
Qed.
Lemma steady_mbr_words n : ∀ i dev, steady sector (mbr_words n i dev).
Proof using Type*.
  induction n as [|n IH]; intros i dev; [apply steady_ret|]. cbn [mbr_words]. cbv zeta.
  apply steady_bind; [apply steady_in|intros v]. unfold terminal_printhex16, terminal_printhex.
  repeat (apply steady_bind; [|intros _]); try apply steady_putchar. apply IH.
Qed.
Lemma steady_issue dev real_lba cnt :
  base dev = PRIMARY_BUS → steady sector (issue dev real_lba cnt READ_SECTS_CMD).
Proof using Type*.
  intros Hb. unfold issue. rewrite Hb. do 6 (apply steady_bind; [apply steady_outb; by left|intros _]).
  apply steady_outb. by right.
Qed.
Lemma steady_parse_mbr fuel dev : base dev = PRIMARY_BUS → steady sector (parse_mbr fuel dev).
Proof using Type*.
  intros Hb. unfold parse_mbr. apply steady_bind; [by apply steady_issue|intros _].
  apply steady_bind; [apply steady_in|intros v]. apply steady_bind; [apply steady_poll|intros _].
  apply steady_bind; [apply steady_mbr_words|intros d]. apply steady_bind; [apply steady_hex32|intros _].
  apply steady_bind; [apply steady_write|intros _]. apply steady_ret.
Qed.

(** The installations, on tables, devices and environment. *)
Lemma steady_install i h : steady (λ s : devices * E, sector s.2) (irq_install_handler i h).
Proof using.
  unfold irq_install_handler. apply steady_bind; [|intros _; apply steady_bind; [|intros _]].
  - by apply (steady_zoom _ sector), steady_write.
  - by apply steady_zoom_other.
  - by apply (steady_zoom _ sector), steady_hex32.
Qed.
Lemma steady_io {A} (m : M E A) : steady sector m → steady (λ s : devices * E, sector s.2) (io m).
Proof using. by apply steady_zoom. Qed.
Lemma steady_rtc : steady (λ s : devices * E, sector s.2) Rtc.rtc_install.
Proof using Type*.
  unfold Rtc.rtc_install.
  do 4 (apply steady_bind; [apply steady_io; first [apply steady_in|apply steady_outb; by left]|intros ?]). apply steady_install.
Qed.
End devices.

Section boot.
Context `{AtaQuiet E} `{Symbols} `{Layout} `{TaskLayout} `{KernelLayout}.
#[local] Abbreviation K := (kernel (E := E)).

Definition medium (k : K) : Z → bool → Z → list Z := sector (k_env k).

Lemma steady_routines {A} (m : M (devices * E) A) :
  steady (λ s : devices * E, sector s.2) m → steady (λ s : descriptors * (devices * E), sector s.2.2) (on_routines m).
Proof using. by apply steady_zoom. Qed.
Lemma steady_tables {A} (m : M descriptors A) : steady (λ s : descriptors * (devices * E), sector s.2.2) (on_tables m).
Proof using. by apply steady_zoom_other. Qed.
Lemma steady_interrupts : steady (λ s : descriptors * (devices * E), sector s.2.2) install_interrupts.
Proof using Type*.
  unfold install_interrupts, irq_install.
  apply steady_bind; [apply steady_tables|intros _].
  do 2 (apply steady_bind; [apply steady_routines, steady_install|intros _]).
  apply steady_bind; [apply steady_routines, steady_io, steady_interval|intros _].
  apply steady_bind; [apply steady_routines, steady_rtc|intros _].
  apply steady_bind; [apply steady_routines, steady_install|intros _].
  apply steady_bind; [apply steady_routines, steady_io, steady_remap|intros _]. apply steady_tables.
Qed.

Lemma steady_env {A} (m : M E A) : steady sector m → steady medium (on_env m).
Proof using. by apply steady_zoom. Qed.
Lemma steady_on_interrupts {A} (m : M (descriptors * (devices * E)) A) :
  steady (λ s : descriptors * (devices * E), sector s.2.2) m → steady medium (on_interrupts m).
Proof using. by apply steady_zoom. Qed.
(** The parts that are not the environment. *)
Lemma steady_heap {A} (m : M heap A) : steady medium (on_heap m).
Proof using. by apply steady_zoom_other. Qed.
Lemma steady_mm {A} (m : M (frames * paging) A) : steady medium (on_mm m).
Proof using. by apply steady_zoom_other. Qed.
Lemma steady_tasks {A} (m : M tasks A) : steady medium (on_tasks m).
Proof using. by apply steady_zoom_other. Qed.
Lemma steady_mm_tasks {A} (m : M ((frames * paging) * tasks) A) : steady medium (on_mm_tasks m).
Proof using. by apply steady_zoom_other. Qed.
Lemma steady_buffers {A} (m : M cache A) : steady medium (on_buffers m).
Proof using. by apply steady_zoom_other. Qed.
#[local] Hint Resolve steady_heap steady_mm steady_tasks steady_mm_tasks steady_buffers : steady.

Lemma steady_page : steady medium kernel_page.
Proof using. unfold kernel_page. keep. Qed.
Lemma steady_memory memupper : steady medium (init_memory memupper).
Proof using.
  unfold init_memory. do 2 (apply steady_bind; [keep|intros _]).
  apply steady_bind; [apply steady_env, steady_write|intros _]. apply steady_bind; [apply steady_page|intros p].
  apply steady_bind; [|keep]. apply steady_for_each. intros i. apply steady_bind; [apply steady_page|keep].
Qed.
Lemma steady_start_thread : steady medium start_thread.
Proof using.
  unfold start_thread, new_thread, test, free_thread. keep. apply steady_env, steady_write.
Qed.
Lemma steady_new_buffer : steady medium new_buffer.
Proof using. unfold new_buffer. keep. Qed.
Lemma steady_new_buffers n : steady medium (new_buffers n).
Proof using.
  induction n as [|n IH]; [apply steady_ret|]. cbn [new_buffers].
  apply steady_bind; [apply steady_new_buffer|intros p]. apply steady_bind; [exact IH|keep].
Qed.
Lemma steady_init_buffers : steady medium init_buffers.
Proof using.
  unfold init_buffers. apply steady_bind; [apply steady_new_buffer|intros p].
  apply steady_bind; [apply steady_new_buffers|intros l]. apply steady_buffers.
Qed.
Lemma steady_init_disk fuel : steady medium (init_disk fuel).
Proof using Type*.
  unfold init_disk. apply steady_bind; [apply steady_env, steady_probe|intros _].
  apply steady_bind; [by apply steady_env, steady_parse_mbr|]. keep.
Qed.
Lemma steady_init_tables esp : steady medium (init_tables esp).
Proof using Type*.
  unfold init_tables. apply steady_bind; [apply steady_env, screen_quiet|intros _].
  apply steady_bind; [by apply steady_on_interrupts, steady_routines, steady_zoom_other|intros _].
  apply steady_bind; [apply steady_on_interrupts, steady_tables|intros _].
  apply steady_on_interrupts, steady_interrupts.
Qed.
Lemma kernel_init_medium fuel esp mbd : steady medium (kernel_init fuel esp mbd).
Proof using Type*.
  unfold kernel_init. apply steady_bind; [apply steady_init_tables|intros _].
  apply steady_bind; [apply steady_memory|intros _]. apply steady_bind; [apply steady_start_thread|intros _].
  apply steady_bind; [apply steady_init_disk|intros d]. apply steady_bind; [apply steady_init_buffers|intros _].
  apply steady_ret.
Qed.
End boot.
