(* ===== verification/KernelMount.v ===== *)
(** * From power on to the mounted root file system ([kernel_main], lines 203 to 286)

    What [kernel_init] leaves is what mounting needs: the cache can be asked for blocks
    if the joined thread left no trace in the first buffer that reads as a dirty or
    cached block, the heap has room behind the buffers, and the disk is as it was at
    power on. *)

From S2P Require Import Prelude Memory Common HeapSpec Heap Frame Paging Io Descriptors Irq Drivers Syscall Interrupts.
From S2P Require Import Ata Buffer BufferInit Requests Alloc Ext2Format Vfs Ext2 Ext2Inode Devfs Mount Task Boot Startup.
From S2P Require Import KernelMain BootDisk.

Section cache.
Context `{AtaQuiet E} `{Symbols} `{Layout} `{TaskLayout} `{KernelLayout}.
#[local] Abbreviation K := (kernel (E := E)).

(** The registers the joined thread left, as the fields of a buffer: an ordinary class,
    not dirty, another device than the disk, not almost [UINT_MAX] users. *)
Record quiet (r : Registers) : Prop := {
  qt_class : u8 (eax r) ≠ CLASS_DIR;
  qt_dirty : u8 (ecx r) ≠ 1;
  qt_dev : u32 (ecx r) / 65536 ≠ 0x300;
  qt_count : u32 (edx r) < 4294967000 }.

(** ** Lemmas: the cache *)

Lemma buffer_addrs_lookup i : (i < MAX_BUFFER)%nat → buffer_addrs !! i = Some (buffer_addr boot_heap_start i).
Proof using. intros Hi. unfold buffer_addrs. by rewrite list_lookup_fmap, lookup_seq_lt. Qed.
Lemma buffer_addrs_end i : (MAX_BUFFER ≤ i)%nat → buffer_addrs !! i = None.
Proof using. intros Hi. apply lookup_ge_None. unfold buffer_addrs. by rewrite length_fmap, length_seq. Qed.
Lemma placed_fields l i h :
  bh_flags (placed l i h) = bh_flags h ∧ dirty (placed l i h) = dirty h ∧ dev (placed l i h) = dev h ∧
  Buffer.count (placed l i h) = Buffer.count h.
Proof using. pose proof (placed_unassigned l i h) as Hu. unfold unassigned in Hu. by injection Hu. Qed.
Lemma placed_links l i h :
  prev (placed l i h) = pred_of l i ∧ prev_free (placed l i h) = pred_of l i ∧
  match l !! S i with
  | Some p => Buffer.next (placed l i h) = p ∧ next_free (placed l i h) = p
  | None => Buffer.next (placed l i h) = Buffer.next h ∧ next_free (placed l i h) = next_free h
  end.
Proof using. unfold placed, link_next. by destruct (l !! S i). Qed.

Section booted.
Context (k k' : K) (t : kthread) (w : Z) (Hbo : booted k k' t w) (Hempty : buffers (k_cache k) = ∅).
Context (Hquiet : quiet (regs t)) (Hstart : 0 < boot_heap_start).
Let s := k_cache k'.

(** Every buffer is at its place in the row. *)
Lemma booted_buffer i : (i < MAX_BUFFER)%nat →
  ∃ b, buffers s !! buffer_addr boot_heap_start i = Some (placed buffer_addrs i b) ∧
    bh_flags b ≠ CLASS_DIR ∧ dirty b = false ∧ dev b ≠ 0x300 ∧ 0 ≤ Buffer.count b < 4294967000 ∧
    ((0 < i)%nat → Buffer.next b = 0 ∧ next_free b = 0).
Proof using Hbo Hquiet.
  intros Hi. destruct Hquiet as [Q1 Q2 Q3 Q4]. destruct (decide (i = 0%nat)) as [->|Hne].
  - destruct (bo_first _ _ _ _ Hbo) as (rest & _ & _ & Hb). exists (decode_buffer (kthread_bytes t ++ rest)).
    destruct (decode_stale t rest) as (-> & _ & -> & -> & -> & _). split; [exact Hb|]. split; [done|].
    split; [by apply Z.eqb_neq|]. split; [done|]. split; [|lia]. split; [apply u32_range|done].
  - exists blank_buffer. split; [apply (bo_buffers _ _ _ _ Hbo); lia|]. by split_and!.
Qed.
Lemma booted_lookup q h : buffers s !! q = Some h →
  ∃ i, (i < MAX_BUFFER)%nat ∧ q = buffer_addr boot_heap_start i.
Proof using Hbo Hempty.
  intros Hq. destruct (decide (q ∈ buffer_addrs)) as [Hin|Hout].
  - apply list_elem_of_fmap in Hin as (i & -> & Hi%elem_of_seq). exists i. split; [lia|done].
  - unfold s in Hq. rewrite (bo_others _ _ _ _ Hbo q Hout), Hempty in Hq. done.
Qed.
Lemma buffer_addr_valid i : valid_ptr (buffers s) (default 0 (buffer_addrs !! i)).
Proof using Hbo Hquiet.
  destruct (decide (i < MAX_BUFFER)%nat) as [Hi|Hi].
  - rewrite buffer_addrs_lookup by done. right. simpl. destruct (booted_buffer i Hi) as (b & -> & _). by eexists.
  - rewrite buffer_addrs_end by lia. by left.
Qed.
Lemma booted_free j : ∀ i, (i + j = MAX_BUFFER)%nat →
  free_path s (buffer_addr boot_heap_start i) (buffer_addr boot_heap_start <$> seq i j).
Proof using Hbo Hquiet.
  induction j as [|j IH]; intros i Hij; [done|]. cbn [seq fmap list_fmap free_path]. split; [done|].
  destruct (booted_buffer i) as (b & Hb & _); [lia|]. unfold nfree. rewrite Hb. eexists. split; [reflexivity|].
  destruct j as [|j]; [done|]. destruct (placed_links buffer_addrs i b) as (_ & _ & Hn).
  rewrite buffer_addrs_lookup in Hn by lia. destruct Hn as [_ ->]. apply IH. lia.
Qed.

Lemma booted_clean :
  minor raw_bdev = 0 → dev_var ≠ 0 → clean 0 s (k_env k') 0x300 (set_start_lba w local_dev).
Proof using All.
  intros Hmin Hdev. constructor.
  - destruct (buffers s !! 0) as [h|] eqn:Hz; [|done]. destruct (booted_lookup 0 h Hz) as (i & Hi & Heq).
    unfold buffer_addr in Heq. lia.
  - destruct (bo_lists _ _ _ _ Hbo) as (Hheads & _). fold s in Hheads. rewrite Hheads. constructor; [|apply Forall_replicate; by left].
    right. destruct (booted_buffer 0) as (b & Hb & _); [unfold MAX_BUFFER; lia|]. unfold MAIN_BUFFER. rewrite Hb. by eexists.
  - intros q h Hq. destruct (booted_lookup q h Hq) as (i & Hi & ->).
    destruct (booted_buffer i Hi) as (b & Hb & _ & _ & _ & _ & Hnext). rewrite Hb in Hq. injection Hq as <-.
    destruct (placed_links buffer_addrs i b) as (_ & Hpf & Hn). unfold valid_ptrs. rewrite Hpf.
    assert (valid_ptr (buffers s) (pred_of buffer_addrs i)) as Hpv.
    { destruct i as [|i]; [by left|]. cbn [pred_of]. pose proof (buffer_addr_valid i) as Hv.
      by rewrite (nth_lookup buffer_addrs i 0). }
    pose proof (buffer_addr_valid (S i)) as Hv.
    destruct (buffer_addrs !! S i) as [p|] eqn:Hs; destruct Hn as [-> ->]; [by split_and!|].
    destruct (decide (i = 0%nat)) as [->|Hne]; [rewrite buffer_addrs_lookup in Hs by (unfold MAX_BUFFER; lia); done|].
    destruct Hnext as [-> ->]; [lia|]. by split_and!.
  - intros q h Hq. destruct (booted_lookup q h Hq) as (i & Hi & ->).
    destruct (booted_buffer i Hi) as (b & Hb & _ & Hd & _). rewrite Hb in Hq. injection Hq as <-.
    by destruct (placed_fields buffer_addrs i b) as (_ & -> & _).
  - intros q h Hq _ Hd. destruct (booted_lookup q h Hq) as (i & Hi & ->).
    destruct (booted_buffer i Hi) as (b & Hb & _ & _ & Hnd & _). rewrite Hb in Hq. injection Hq as <-.
    destruct (placed_fields buffer_addrs i b) as (_ & _ & Hdb & _). congruence.
  - destruct (bo_disk _ _ _ _ Hbo) as (Hb & Hh & _). by apply find_boot_disk.
Qed.

(** The blocks of a request list are in buckets of their own, none in that of block 0,
    which holds all buffers. *)
Lemma booted_ready fuel ks :
  minor raw_bdev = 0 → dev_var ≠ 0 → (0 < fuel)%nat → Forall (present (set_start_lba w local_dev)) ks →
  NoDup ((λ b, Z.land b 0xFF) <$> ks) → Forall (λ b, 0 ≤ b ∧ Z.land b 0xFF ≠ 0) ks → (length ks < 100)%nat →
  ready fuel 0x300 (set_start_lba w local_dev) ks buffer_addrs s (k_env k').
Proof using All.
  intros Hmin Hdev Hfuel Hpres Hnd Hks Hlen. destruct (bo_lists _ _ _ _ Hbo) as (Hheads & Hlru & Hmru). fold s in Hheads, Hlru, Hmru.
  constructor.
  - by apply booted_clean.
  - exact (bo_env _ _ _ _ Hbo).
  - done.
  - done.
  - intros b Hb. rewrite Forall_forall in Hks. destruct (Hks b Hb) as [Hb0 Hland]. split; [done|]. exists [].
    split; [|split; [done|by intros q ?%elem_of_nil]]. exists 0. split; [|done]. rewrite Hheads. by apply boot_head_lookup.
  - rewrite Hlru. apply (booted_free MAX_BUFFER 0). lia.
  - apply NoDup_fmap_2_strong; [|apply NoDup_seq]. intros i j _ _. unfold buffer_addr. lia.
  - intros q h Hq _. destruct (booted_lookup q h Hq) as (i & Hi & ->).
    destruct (booted_buffer i Hi) as (b & Hb & Hfl & _). rewrite Hb in Hq. injection Hq as <-.
    by destruct (placed_fields buffer_addrs i b) as (-> & _).
  - intros q h Hq. destruct (booted_lookup q h Hq) as (i & Hi & ->).
    destruct (booted_buffer i Hi) as (b & Hb & _ & _ & _ & Hc & _). rewrite Hb in Hq. injection Hq as <-.
    destruct (placed_fields buffer_addrs i b) as (_ & _ & _ & ->). lia.
  - intros q h Hq Hd. destruct (booted_lookup q h Hq) as (i & Hi & ->).
    destruct (booted_buffer i Hi) as (b & Hb & _ & _ & Hnd' & _). rewrite Hb in Hq. injection Hq as <-.
    destruct (placed_fields buffer_addrs i b) as (_ & _ & Hdb & _). congruence.
  - rewrite Hmru. destruct (booted_buffer (MAX_BUFFER - 1)) as (b & -> & _); [unfold MAX_BUFFER; lia|]. by eexists.
Qed.
End booted.
End cache.

(** ** Lemmas: the heap *)

Section heap.
Context (start endd : Z) (Hbounds : heap_bounds start endd).
#[local] Instance mount_heap : Allocator heap := heap_allocator start endd Hbounds.

(** A row without free neighbours is owned by the clients its blocks went to. *)
Lemma row_owned h bs :
  heap_repr h bs → no_adjacent_free bs → heap_start h = start → heap_end h = endd →
  mm_owns h (list_to_map (live start bs)).
Proof using.
  intros Hr Hna Hs He. exists bs. split; [done|]. split; [done|]. split; [done|]. split; [done|]. split.
  - intros p n Hp%elem_of_list_to_map_2. split; [|by exists n].
    pose proof Hp as (l1 & l2 & -> & _)%live_elem. pose proof (hr_words _ _ Hr) as Hw.
    apply Forall_app in Hw as [_ Hw]. apply Forall_cons in Hw as [[Hn _] _]. exact Hn.
  - intros p n Hp. destruct ((list_to_map (live start bs) : gmap Z Z) !! p) eqn:Hn; [by eexists|].
    apply not_elem_of_list_to_map_2 in Hn. destruct Hn. apply list_elem_of_fmap. by exists (p, n).
Qed.

(** One allocation and one release on a row that is known. *)
Lemma alloc_known h bs size off bs' :
  heap_repr h bs → word_request size → alloc size bs = Some (off, bs') →
  ∃ m', mm_alloc size h = Ok (heap_start h + off + 16) (set_mem h m') ∧ heap_repr (set_mem h m') bs'.
Proof using.
  intros Hr Hreq Ha. pose proof (kmalloc_spec h bs size Hr Hreq) as Hs. rewrite Ha in Hs.
  destruct Hs as (m' & E & Hr' & _). by exists m'.
Qed.
Lemma store_known h l1 n l2 (l : list Z) :
  heap_repr h (l1 ++ Blk true n :: l2) → Z.of_nat (length l) = n →
  ∃ m', mm_store l (heap_start h + span l1 + 16) h = Ok tt (set_mem h m') ∧
    heap_repr (set_mem h m') (l1 ++ Blk true n :: l2).
Proof using.
  intros Hr Hl. pose proof Hr as [_ _ [Hs0 _] [Hend Hmax] Hm _ Hw _]. apply word_sized_nonneg in Hw.
  apply Forall_app in Hw as [Hw1 Hw2]. apply Forall_cons in Hw2 as [Hn Hw2].
  pose proof (span_nonneg _ Hw1). pose proof (span_nonneg _ Hw2).
  rewrite span_app in Hend. cbn [span b_size] in *. unfold HDR in *.
  exists (stored (hmem h) (heap_start h + span l1 + 16) l). split.
  - simpl. apply (on_mem_ok (write_bytes l _)), write_bytes_stored; [|lia|lia].
    eapply mapped_sub; [exact Hm|lia|lia].
  - eapply stored_repr; [exact Hr| |rewrite Hl; reflexivity]. apply live_elem. exists l1, l2. by split.
Qed.

(** The calls to the heap of [init_fs], behind the buffers. *)
Definition boot_row : list blk := buffer_row MAX_BUFFER (0xF000 - 16 - 560 * MAX_BUFFER).
Definition mounted_row : list blk :=
  replicate MAX_BUFFER (Blk true SIZEOF_BUFFER) ++ [Blk true 24; Blk true 32; Blk false 80; Blk true 52; Blk false 5172].
Lemma init_calls_room h l :
  heap_repr h boot_row → length l = SIZEOF_INODE →
  ∃ sb root dir h', init_calls l h = Ok (sb, root, dir) h' ∧ (sb ≠ 0 ∧ root ≠ 0) ∧ heap_repr h' mounted_row ∧
    heap_start h' = heap_start h ∧ heap_end h' = heap_end h.
Proof using.
  intros Hr Hl. unfold init_calls, super_calls, SIZEOF_SUPER_BLOCK, SIZEOF_VFS_INODE, SIZEOF_DENTRY.
  set (u := replicate MAX_BUFFER (Blk true SIZEOF_BUFFER)).
  destruct (alloc_known h boot_row 24 56000 (u ++ [Blk true 24; Blk false 5384]) Hr) as (m1 & E1 & Hr1);
    [by split|by vm_compute|]. set (h1 := set_mem h m1) in *.
  destruct (alloc_known h1 _ 128 56040 (u ++ [Blk true 24; Blk true 128; Blk false 5240]) Hr1) as (m2 & E2 & Hr2);
    [by split|by vm_compute|]. set (h2 := set_mem h1 m2) in *.
  destruct (store_known h2 (u ++ [Blk true 24]) 128 [Blk false 5240] l) as (m3 & E3 & Hr3);
    [by rewrite <-app_assoc|by rewrite Hl|]. set (h3 := set_mem h2 m3) in *. rewrite <-app_assoc in Hr3.
  destruct (alloc_known h3 _ 52 56184 (u ++ [Blk true 24; Blk true 128; Blk true 52; Blk false 5172]) Hr3) as (m4 & E4 & Hr4);
    [by split|by vm_compute|]. set (h4 := set_mem h3 m4) in *.
  destruct (kfree_spec h4 (u ++ [Blk true 24]) 128 [Blk true 52; Blk false 5172]) as (m5 & E5 & Hr5 & _);
    [by rewrite <-app_assoc|]. set (h5 := set_mem h4 m5) in *.
  assert (free (u ++ [Blk true 24]) 128 [Blk true 52; Blk false 5172] =
    u ++ [Blk true 24; Blk false 128; Blk true 52; Blk false 5172]) as Hfree by (by vm_compute). rewrite Hfree in Hr5.
  destruct (alloc_known h5 _ 32 56040 (u ++ [Blk true 24; Blk true 32; Blk false 80; Blk true 52; Blk false 5172]) Hr5)
    as (m6 & E6 & Hr6); [by split|by vm_compute|].
  assert (span (u ++ [Blk true 24]) = 56040) as Hspan by (by vm_compute). rewrite Hspan in E3, E5.
  assert (heap_start h5 = heap_start h) as Hs by done.
  exists (heap_start h + 56000 + 16), (heap_start h + 56184 + 16), (heap_start h + 56040 + 16), (set_mem h5 m6).
  split; [|split; [pose proof (hr_start _ _ Hr); lia|split; [exact Hr6|done]]].
  rewrite (bind_ok _ _ _ _ _ E1). rewrite !bind_assoc, (bind_ok _ _ _ _ _ E2), !bind_assoc, (bind_ok _ _ _ _ _ E3).
  rewrite !bind_assoc, (bind_ok _ _ _ _ _ E4), !bind_assoc, (bind_ok _ _ _ _ _ E5), bind_ret_l.
  by rewrite (bind_ok _ _ _ _ _ E6).
Qed.
End heap.

(** ** The mounted file system *)

Section mount.
Context `{AtaQuiet E} `{Symbols} `{Layout} `{TaskLayout} `{KernelLayout} `{Ext2Layout} `{DevfsLayout} `{MountLayout}.
Context (Hbounds : heap_bounds boot_heap_start boot_heap_end).
#[local] Abbreviation K := (kernel (E := E)).
#[local] Instance boot_allocator : Allocator heap := heap_allocator boot_heap_start boot_heap_end Hbounds.

(** The disk as [parse_mbr] describes it. *)
Definition boot_disk (k : K) : bdev := set_start_lba (nth 227 (medium k PRIMARY_BUS false 0) 0) local_dev.

(** The disk holds a file system with the geometry [x'] whose root inode can be read, and
    the four blocks mounting asks for are in hash chains of their own. *)
Record ext2_disk (e : E) (b : bdev) (x x' : ext2) (m : Z) : Prop := {
  ed_super : length (ext2_sb x) = 1024%nat ∧ ext2_signature (decode_superblock (superblock_bytes e b)) = 0xEF53;
  ed_geometry : geometry (decode_superblock (superblock_bytes e b)) (set_ext2_sb (superblock_bytes e b) x) = Some x';
  ed_sizes : well_formed x' m;
  ed_root : valid_inode x' (content e (location b (bgd_sector x'))) ROOT_DIRECTORY;
  ed_blocks : let ks := [2; 3; bgd_sector x'; inode_at x' (content e (location b (bgd_sector x'))) ROOT_DIRECTORY / 512] in
    Forall (present b) ks ∧ NoDup ((λ k, Z.land k 0xFF) <$> ks) ∧ Forall (λ k, 0 ≤ k ∧ Z.land k 0xFF ≠ 0) ks }.

(** Blocks of the disk in hash chains of their own, none in that of block 0. *)
Definition apart_blocks (b : bdev) (ks : list Z) : Prop :=
  Forall (present b) ks ∧ NoDup ((λ k, Z.land k 0xFF) <$> ks) ∧ Forall (λ k, 0 ≤ k ∧ Z.land k 0xFF ≠ 0) ks.

(** What mounting needs of the machine beyond [powered]: no buffers and no file system types
    yet, the name of the type in memory, and a thread that leaves registers that do
    no harm in the first buffer. *)
Record mountable (k : K) : Prop := {
  mo_minor : minor raw_bdev = 0;
  mo_cache : buffers (k_cache k) = ∅;
  mo_type : root_fs_var ≠ 0 ∧ file_systems (w_vfs (k_files k).1) = 0;
  mo_name : bytes_ok (vmem (w_vfs (k_files k).1)) ∧ string_at (vmem (w_vfs (k_files k).1)) ext2_literal ext2_str;
  mo_quiet : ∀ a, quiet (test_registers
    (entry_registers (KERNEL_VIRTUAL_BASE + (first_page + 16) * 4096) a (cpu (k_tasks k)))) }.

Lemma content_medium (e1 e2 : E) : sector e1 = sector e2 → content e1 = content e2.
Proof using. intros Hs. unfold content. simpl. by rewrite Hs. Qed.
Lemma ext2_disk_same (e1 e2 : E) b x x' m : content e2 = content e1 → ext2_disk e1 b x x' m → ext2_disk e2 b x x' m.
Proof using.
  intros Hc [Hs Hg Hw Hr Hb]. pose proof (superblock_same e2 e1 b Hc) as Hsb.
  constructor; rewrite ?Hsb, ?Hc; assumption.
Qed.

(** [init_fs] with the type in [root_fs], from a cache that can be asked for the blocks and
    the heap as [init_buffers] leaves it. *)
Definition with_root_fs (v : vfs) : vfs :=
  set_fs_types (<[root_fs_var := mkFsType Ext2_read_super ext2_literal 0]> (fs_types v)) v.
Definition mount_blocks (e : E) (b : bdev) (x' : ext2) : list Z :=
  [2; 3; bgd_sector x'; inode_at x' (content e (location b (bgd_sector x'))) ROOT_DIRECTORY / 512].
(** The sector of the root inode. *)
Definition root_sector (e : E) (b : bdev) (x' : ext2) : Z :=
  inode_at x' (content e (location b (bgd_sector x'))) ROOT_DIRECTORY / 512.
(** The tables afterwards. *)
Record mounted_as (e : E) (b : bdev) (x' : ext2) (v : vfs) (root : Z) : Prop := {
  ma_registry : registry v [(root_fs_var, ext2_str)];
  ma_head : i_head v = root;
  ma_root : inodes v !! root = Some (root_of root (decode_inode
    (inode_bytes e b (inode_at x' (content e (location b (bgd_sector x'))) ROOT_DIRECTORY))));
  ma_super : super_blocks v !! sb_head v =
    Some (mounted_super [(root_fs_var, ext2_str)] 0x300 root (raw_super (sb_head v))) }.
Lemma mounted_as_same (e1 e2 : E) b x' v root :
  content e1 = content e2 → mounted_as e1 b x' v root → mounted_as e2 b x' v root.
Proof using.
  intros Hc [Hr Hh Hi Hs]. constructor; [exact Hr|exact Hh| |exact Hs].
  rewrite Hi, !(inode_bytes_same e1 e2 b _ Hc), Hc. reflexivity.
Qed.

Lemma init_fs_ready fuel b x x' m ks e v hp s z :
  ext2_disk e b x x' m → ready fuel 0x300 b (mount_blocks e b x' ++ ks) buffer_addrs s e → (length ks < 90)%nat →
  root_fs_var ≠ 0 → file_systems v = 0 → bytes_ok (vmem v) → string_at (vmem v) ext2_literal ext2_str →
  heap_repr hp boot_row → heap_start hp = boot_heap_start →
  ∃ p root v' hp' s' e' F', init_fs fuel root_fs_var 0x300 (mkWorld x (with_root_fs v) hp (s, e), z) =
      Ok tt (mkWorld (set_super_block (sb_head v') (set_bgdt p x')) v' hp' (s', e'), z) ∧
    content e' = content e ∧ mounted_as e b x' v' root ∧
    table_held (set_bgdt p x') (content e (location b (bgd_sector x'))) F' s' ∧
    again fuel 0x300 b (root_sector e b x') ks F' s' e' ∧ (96 ≤ length F')%nat ∧
    (∀ q, is_Some (buffers s' !! q) → is_Some (buffers s !! q)) ∧ (vmem v' = vmem v ∧ sb_head v' ≠ 0) ∧
    heap_repr hp' mounted_row ∧ heap_start hp' = boot_heap_start.
Proof using Type*.
  intros [[Hlen Hsig] Hgeo Hwf Hri _] Hready Hks Hroot Hfs Hvb Hname Hrow Hs1. pose proof (hr_end _ _ Hrow) as [Hend _].
  destruct (init_calls_room boot_heap_start boot_heap_end Hbounds hp
    (inode_bytes e b (inode_at x' (content e (location b (bgd_sector x'))) ROOT_DIRECTORY)) Hrow)
    as (sb & root & dir & hp' & Ecalls & [Hsnz Hrnz] & Hrow' & Hs' & _); [by apply (inode_bytes_length x' m (content e (location b (bgd_sector x'))))|].
  assert (Hbytes : ∀ a, Forall is_byte (content e a)) by (intros a; apply bytes_of_bytes, (sector_words e)).
  destruct (init_fs_spec fuel 0x300 b x x' m e Hbytes Hlen Hsig Hgeo Hwf Hri root_fs_var
    (mkFsType Ext2_read_super ext2_literal 0) ks buffer_addrs s (with_root_fs v) [] hp
    (list_to_map (live boot_heap_start boot_row)) sb root dir hp' z)
    as (p & v' & s' & e' & F' & E2 & Hc2 & _ & Ht2 & Hreg & Hsbh & Hsb & Hih & Hin & _ & _ & Ha2 & Hk2 & Hl2 & Hm2).
  - exact Hready.
  - unfold buffer_addrs. rewrite length_fmap, length_seq. unfold MAX_BUFFER. lia.
  - constructor; [exact Hfs|by apply NoDup_nil_2| |exact Hvb]. intros q nm Hq. by apply elem_of_nil in Hq.
  - apply lookup_insert_eq.
  - exact Hroot.
  - reflexivity.
  - reflexivity.
  - exact Hname.
  - exact Hname.
  - by intros ?%Exists_nil.
  - apply (row_owned boot_heap_start boot_heap_end Hbounds); [exact Hrow|by vm_compute|exact Hs1|].
    rewrite <-Hend, Hs1. reflexivity.
  - exact Ecalls.
  - exact Hrnz.
  - subst sb. exists p, root, v', hp', s', e', F'. split; [exact E2|]. split; [exact Hc2|].
    split; [by constructor|]. split; [exact Ht2|]. split; [exact Ha2|]. split; [|split; [apply Hk2|split; [done|split; [exact Hrow'|congruence]]]].
    unfold buffer_addrs in Hl2. rewrite length_fmap, length_seq in Hl2. unfold MAX_BUFFER in Hl2. lia.
Qed.

(** The kernel after mounting: the cache holds the group descriptors and the root inode's
    sector, which can be requested again before the blocks [ks]; no buffers were added, and
    the heap has room behind the root inode. *)
Record rooted (fuel : nat) (k k' : K) (x' : ext2) (ks : list Z) (root p : Z) (F : list Z) : Prop := {
  ro_content : content (k_env k') = content (k_env k);
  ro_tables : mounted_as (k_env k) (boot_disk k) x' (w_vfs (k_files k').1) root;
  ro_ext2 : w_ext2 (k_files k').1 = set_super_block (sb_head (w_vfs (k_files k').1)) (set_bgdt p x');
  ro_groups : table_held (set_bgdt p x') (content (k_env k) (location (boot_disk k) (bgd_sector x'))) F (k_cache k');
  ro_again : again fuel 0x300 (boot_disk k) (root_sector (k_env k) (boot_disk k) x') ks F (k_cache k') (k_env k');
  ro_free : (96 ≤ length F)%nat;
  ro_buffers : ∀ q, is_Some (buffers (k_cache k') !! q) → q ∈ buffer_addrs;
  ro_memory : vmem (w_vfs (k_files k').1) = vmem (w_vfs (k_files k).1) ∧ sb_head (w_vfs (k_files k').1) ≠ 0;
  ro_heap : heap_repr (k_heap k') mounted_row ∧ heap_start (k_heap k') = boot_heap_start }.

Lemma kernel_mount_spec fuel esp mbd (k : K) x' m ks :
  powered mbd k → (3 ≤ gdt_gap)%nat → mountable k → (max_busy < fuel)%nat →
  ext2_disk (k_env k) (boot_disk k) (w_ext2 (k_files k).1) x' m →
  apart_blocks (boot_disk k) (mount_blocks (k_env k) (boot_disk k) x' ++ ks) → (length ks < 90)%nat →
  ∃ k' root p F, kernel_mount boot_heap_start boot_heap_end Hbounds fuel esp mbd k = Ok 0x300 k' ∧
    rooted fuel k k' x' ks root p F.
Proof using Type*.
  intros Hp Hgap [Hmin Hempty [Hroot Hfs] [Hvb Hname] Hq] Hf Hdisk Hblocks Hlen.
  destruct (kernel_init_spec fuel esp mbd k Hp Hgap Hf) as (k1 & t & w & E1 & Hbo).
  pose proof (kernel_init_medium fuel esp mbd k _ k1 E1) as Hmed. unfold medium in Hmed.
  pose proof (content_medium _ _ Hmed) as Hcont.
  assert (boot_disk k = set_start_lba w local_dev) as Hb.
  { unfold boot_disk, medium. destruct (bo_disk _ _ _ _ Hbo) as (_ & _ & Hw). rewrite Hmed in Hw.
    by rewrite (nth_lookup_Some _ _ _ _ Hw). }
  assert (Hmb : ∀ b, mount_blocks (k_env k1) b x' = mount_blocks (k_env k) b x') by (intros b; unfold mount_blocks; by rewrite Hcont).
  rewrite Hb, <-?Hmb in *. destruct Hblocks as (Hpres & Hnd & Hks). apply (ext2_disk_same _ _ _ _ _ _ Hcont) in Hdisk.
  destruct (bo_files _ _ _ _ Hbo) as [Hx Hv], (bo_heap _ _ _ _ Hbo) as [Hs1 Hrow].
  assert (ready fuel 0x300 (set_start_lba w local_dev) (mount_blocks (k_env k1) (set_start_lba w local_dev) x' ++ ks)
    buffer_addrs (k_cache k1) (k_env k1)) as Hready.
  { apply (booted_ready k k1 t w Hbo Hempty); try assumption.
    - destruct (bo_thread _ _ _ _ Hbo) as (_ & _ & _ & v & ->). apply Hq.
    - rewrite <-Hs1. apply (hr_start _ _ Hrow).
    - apply (pw_dev _ _ Hp).
    - lia.
    - rewrite length_app. simpl. lia. }
  rewrite <-Hx in Hdisk. rewrite <-Hv in Hfs, Hvb, Hname.
  destruct (init_fs_ready fuel _ _ x' m ks _ _ _ _ (k_files k1).2 Hdisk Hready Hlen Hroot Hfs Hvb Hname Hrow Hs1)
    as (p & root & v' & hp' & s' & e' & F' & E2 & Hc2 & Hma & Ht & Ha & Hl & Hdom & Hvm & Hhp).
  unfold kernel_mount. rewrite (bind_ok _ _ _ _ _ E1).
  set (k2 := set_files (mkWorld (w_ext2 (k_files k1).1) (with_root_fs (w_vfs (k_files k1).1)) (k_heap k1) (k_cache k1, k_env k1),
    (k_files k1).2) k1).
  rewrite (bind_ok _ _ _ tt k2) by (unfold k2; clear; by destruct k1 as [? ? ? ? [[? ? ? []] ?]]).
  set (k3 := set_files (mkWorld (set_super_block (sb_head v') (set_bgdt p x')) v' hp' (s', e'), (k_files k1).2) k2).
  assert (on_files (init_fs fuel root_fs_var 0x300) k2 = Ok tt k3) as E3.
  { unfold on_files, zoom. change (k_files k2) with
      (mkWorld (w_ext2 (k_files k1).1) (with_root_fs (w_vfs (k_files k1).1)) (k_heap k1) (k_cache k1, k_env k1), (k_files k1).2).
    rewrite E2. reflexivity. }
  rewrite (bind_ok _ _ _ _ _ E3).
  exists k3, root, p, F'. split; [reflexivity|]. rewrite Hv in Hvm. constructor; rewrite ?Hb.
  - exact (eq_trans Hc2 Hcont).
  - exact (mounted_as_same _ _ _ _ _ _ Hcont Hma).
  - reflexivity.
  - rewrite <-Hcont. exact Ht.
  - unfold root_sector in *. rewrite Hcont in Ha. exact Ha.
  - exact Hl.
  - intros q Hin%Hdom. destruct Hin as [h Hh]. destruct (booted_lookup k k1 t w Hbo Hempty q h Hh) as (i & Hi & ->).
    by apply (list_elem_of_lookup_2 _ i), buffer_addrs_lookup.
  - exact Hvm.
  - exact Hhp.
Qed.

(** ** Theorems *)

(** C8. From power on with an ext2 disk the kernel gets to its mounted root file system, with
    the disk as it was: the type is registered, the super block and the root inode are
    those of the disk, the root inode is the head of the inodes, and the table of block
    groups is held in the cache. Assumed: the linker left 24 bytes free behind the three
    gates of [gdt] (C7 has the other case); static memory is zero and the image ends below
    4 MiB ([boots]); the uninitialised [minor] of the disk is 0, so that the disk is found as
    3:0; the thread that was joined left registers that do no harm as the fields of the first buffer ([quiet]:
    an ordinary class, a low byte of [ecx] other than 1, another device, not almost
    [UINT_MAX] users); the name of the type is in memory ([mountable]); and the four blocks
    mounting asks for are in hash chains of their own, none in that of block 0
    ([ext2_disk]). *)
Theorem kernel_mounts_root fuel esp mbd (k : K) x' m :
  powered mbd k → (3 ≤ gdt_gap)%nat → mountable k → (max_busy < fuel)%nat →
  ext2_disk (k_env k) (boot_disk k) (w_ext2 (k_files k).1) x' m →
  ∃ k' root p F, kernel_mount boot_heap_start boot_heap_end Hbounds fuel esp mbd k = Ok 0x300 k' ∧
    content (k_env k') = content (k_env k) ∧ mounted_as (k_env k) (boot_disk k) x' (w_vfs (k_files k').1) root ∧
    w_ext2 (k_files k').1 = set_super_block (sb_head (w_vfs (k_files k').1)) (set_bgdt p x') ∧
    table_held (set_bgdt p x') (content (k_env k) (location (boot_disk k) (bgd_sector x'))) F (k_cache k').
Proof using Type*.
  intros Hp Hgap Hm Hf Hdisk. destruct (kernel_mount_spec fuel esp mbd k x' m [] Hp Hgap Hm Hf Hdisk) as (k' & root & p & F & E1 & Hr).
  - rewrite app_nil_r. apply (ed_blocks _ _ _ _ _ Hdisk).
  - simpl. lia.
  - exists k', root, p, F. split; [exact E1|]. destruct Hr. by split_and!.
Qed.
End mount.
