(* ===== verification/KernelFile.v ===== *)
(** * From power on to the text of a file ([kernel_main], lines 203 to 304)

    What [kernel_mount] leaves is what [read_root_file] needs: the sector of the root inode
    is in the cache, the heap has room for two inodes, and the name of the file is apart
    from the buffers. The function then prints and stays in its last loop. *)

From S2P Require Import Prelude Memory Common HeapSpec Heap Frame Paging Io Descriptors Irq Drivers Syscall Interrupts.
From S2P Require Import Ata Buffer BufferInit Requests Alloc Ext2Format Vfs Ext2 Ext2Inode Ext2File Ext2Dir Devfs Mount RootFile.
From S2P Require Import Task Boot Startup KernelMain BootDisk KernelMount.

(** ** Lemmas: the static variables that are not geometry *)

Section geometry.
Context `{BlockDevice E}.
Definition mounted_ext2 (sb p : Z) (x : ext2) : ext2 := set_super_block sb (set_bgdt p x).
Lemma well_formed_mounted sb p x m : well_formed x m → well_formed (mounted_ext2 sb p x) m.
Proof using. intros []. by constructor. Qed.
Lemma valid_inode_mounted sb p x T i : valid_inode x T i → valid_inode (mounted_ext2 sb p x) T i.
Proof using. intros []. by constructor. Qed.
Lemma root_entry_mounted sb p (e : E) b x T fn n es1 de es2 blk blk' :
  root_entry e b x T fn n es1 de es2 blk blk' → root_entry e b (mounted_ext2 sb p x) T fn n es1 de es2 blk blk'.
Proof using. intros [H1 H2 H3 H4 H5 H6]. constructor; [by apply valid_inode_mounted|done..|by apply valid_inode_mounted|done]. Qed.
Lemma root_entry_same (e1 e2 : E) b x T fn n es1 de es2 blk blk' :
  content e2 = content e1 → root_entry e1 b x T fn n es1 de es2 blk blk' → root_entry e2 b x T fn n es1 de es2 blk blk'.
Proof using.
  intros Hc [H1 H2 H3 H4 H5 H6]. unfold disk_inode in *. constructor; unfold disk_inode; rewrite ?(inode_bytes_same e2 e1 _ _ Hc), ?Hc; done.
Qed.
End geometry.

Section kernel.
Context `{AtaQuiet E} `{Symbols} `{Layout} `{TaskLayout} `{KernelLayout} `{Ext2Layout} `{DevfsLayout} `{MountLayout}.
Context (Hbounds : heap_bounds boot_heap_start boot_heap_end).
#[local] Abbreviation K := (kernel (E := E)).
#[local] Instance main_allocator : Allocator heap := heap_allocator boot_heap_start boot_heap_end Hbounds.

(** ** Specification *)

Definition file1_name : list Z := chars "file1.txt".
(** What the last part of the function needs: the name is in memory below the heap, and
    memory that was just allocated does not hold the pointer of a type or the flag that
    makes [ext2_read] return. *)
Record readable (k : K) : Prop := {
  rb_name : holds_bytes (vmem (w_vfs (k_files k).1)) file1_literal file1_name;
  rb_below : 0 ≤ file1_literal ∧ file1_literal + length file1_name ≤ boot_heap_start;
  rb_raw : ∀ a, sb_fs_type (raw_super a) = 0 ∧ Z.land (i_flags (raw_inode a)) 1 = 0 }.

(** The sector of the group descriptors, and all the blocks the function asks for. *)
Definition group_table (k : K) (x' : ext2) : list Z := content (k_env k) (location (boot_disk k) (bgd_sector x')).
Definition main_blocks (k : K) (x' : ext2) (de : ext2_directory_entry) (blk blk' : Z) : list Z :=
  mount_blocks (k_env k) (boot_disk k) x' ++ file_blocks x' (group_table k x') de blk blk'.

(** ** Lemmas *)

Lemma name_apart q : q ∈ buffer_addrs → 0 ≤ file1_literal → file1_literal + length file1_name ≤ boot_heap_start →
  apart file1_literal (length file1_name) q.
Proof using Hbounds.
  intros (i & -> & Hi%elem_of_seq)%list_elem_of_fmap H0' H1'. destruct Hbounds as (B1 & _ & _ & _ & B2).
  unfold apart, buffer_addr, BUFF_OFFSET, boot_heap_end, MAX_BUFFER in *. lia.
Qed.

(** The inode of the file, and the one [ext2_read] allocates. *)
Definition file_addr : Z := boot_heap_start + 56088 + 16.
Lemma mounted_row_room hp :
  heap_repr hp mounted_row → heap_start hp = boot_heap_start →
  ∃ hp1, mm_alloc SIZEOF_VFS_INODE hp = Ok file_addr hp1 ∧ (∃ G, mm_owns hp1 G) ∧ has_room hp1 SIZEOF_INODE.
Proof using.
  intros Hr Hs. set (u := replicate MAX_BUFFER (Blk true SIZEOF_BUFFER)).
  set (row := u ++ [Blk true 24; Blk true 32; Blk true 52; Blk false 12; Blk true 52; Blk false 5172]).
  destruct (alloc_known boot_heap_start boot_heap_end Hbounds hp mounted_row 52 56088 row Hr) as (m1 & E1 & Hr1);
    [by split|by vm_compute|]. rewrite Hs in E1. exists (set_mem hp m1). split; [exact E1|]. split.
  - eexists. apply (row_owned boot_heap_start boot_heap_end Hbounds _ row Hr1); [by vm_compute|exact Hs|].
    destruct (hr_end _ _ Hr1) as [Hend _]. rewrite <-Hend. change (heap_start (set_mem hp m1)) with (heap_start hp). rewrite Hs. reflexivity.
  - destruct (alloc_known boot_heap_start boot_heap_end Hbounds (set_mem hp m1) row 128 56252
      (u ++ [Blk true 24; Blk true 32; Blk true 52; Blk false 12; Blk true 52; Blk true 128; Blk false 5028]) Hr1) as (m2 & E2 & _);
      [by split|by vm_compute|]. by eexists _, _.
Qed.

Lemma rooted_at fuel (k k' : K) x' ks root p F :
  rooted fuel k k' x' ks root p F → mountable k → (∀ a, sb_fs_type (raw_super a) = 0) →
  mounted_at (w_vfs (k_files k').1) [(root_fs_var, ext2_str)] (sb_head (w_vfs (k_files k').1)).
Proof using.
  intros [_ [Hreg _ _ Hsb] _ _ _ _ _ [Hvm Hnz] _] [_ _ [Hroot _] [_ Hname] _] Hraw.
  assert (found ext2_str [(root_fs_var, ext2_str)] = root_fs_var) as Hf.
  { unfold found. cbn [list_find]. by rewrite decide_True. }
  constructor; [exact Hreg|by rewrite Hvm|rewrite Hf; split; [exact Hroot|]|].
  - destruct (rg_names _ _ Hreg root_fs_var ext2_str) as (t & Ht & _); [left|]. by eexists.
  - split; [reflexivity|]. split; [exact Hnz|]. eexists. split; [exact Hsb|]. unfold mounted_super. by rewrite Hraw.
Qed.

Lemma on_files_inode (k : K) a i :
  inodes (w_vfs (k_files k).1) !! a = Some i →
  on_files (on_world (on_vfs (ld_inode a))) k = Ok i k.
Proof using.
  destruct k as [tb dv mm ts [[x v hp dk] z]]. intros Hi.
  assert (ld_inode a v = Ok i v) as E1 by (unfold ld_inode; change (inodes v !! a = Some i) in Hi; by rewrite Hi).
  pose proof (on_world_ok _ _ z _ _ (on_vfs_ok _ x v hp dk _ _ E1)) as E2.
  unfold on_files, zoom. cbn [k_files]. by rewrite E2.
Qed.

(** The part between mounting and printing. *)
Lemma read_file_spec n fuel (k k' : K) x' m es1 de es2 blk blk' root p F :
  rooted fuel k k' x' (file_blocks x' (group_table k x') de blk blk') root p F →
  mountable k → readable k → well_formed x' m → m < 256 →
  root_entry (k_env k) (boot_disk k) x' (group_table k x') file1_name 100 es1 de es2 blk blk' → (S (length es1) < n)%nat →
  ∃ k2, on_files (read_root_file n fuel 0x300 file1_literal 9 100) k' =
      Ok (file_addr, (100, 100, take 100 (content (k_env k) (location (boot_disk k) (block_sector x' blk' 0))))) k2 ∧
    content (k_env k2) = content (k_env k) ∧ env_wf (k_env k2) ∧
    ∃ i, inodes (w_vfs (k_files k2).1) !! file_addr = Some i ∧ i_no i = de_inode de.
Proof using All.
  intros Hro Hmo [Hname [Hb0 Hb1] Hraw] Hx Hm Hre Hn.
  pose proof (rooted_at _ _ _ _ _ _ _ _ Hro Hmo (λ a, proj1 (Hraw a))) as Hmt.
  destruct Hro as [Hc _ Hx2 Ht Ha HF Hbuf [Hvm Hnz] [Hrow Hs]].
  destruct (mounted_row_room _ Hrow Hs) as (hp1 & Ealloc & [G Hown] & Hroom).
  assert (∀ A (m : M (world (E := E) (H2 := heap) * Z) A) a w, m (k_files k') = Ok a w → on_files m k' = Ok a (set_files w k')) as Hon
    by (intros A M1 a w E1; unfold on_files, zoom; by rewrite E1).
  unfold k_env at 1 in Hc. unfold k_cache in Ht, Hbuf. unfold k_cache, k_env at 2 in Ha. unfold k_heap in Ealloc.
  destruct (k_files k') as [[x2 v hp [s e]] z]. cbn [fst snd w_ext2 w_vfs w_heap w_disk] in *. subst x2.
  set (T := group_table k x') in *. set (b := boot_disk k) in *.
  pose proof (root_entry_same _ e _ _ _ _ _ _ _ _ _ _ Hc (root_entry_mounted (sb_head v) p _ _ _ _ _ _ _ _ _ _ _ Hre)) as Hre2.
  unfold root_sector in Ha. fold b in Ha. change (content (k_env k) (location b (bgd_sector x'))) with T in Ha, Ht.
  assert (Hbytes : ∀ a, Forall is_byte (content e a)) by (intros a; apply bytes_of_bytes, (sector_words e)).
  destruct (read_root_file_spec fuel 0x300 b (mounted_ext2 (sb_head v) p x') m T (well_formed_mounted _ _ _ _ Hx) Hm eq_refl e
    Hbytes file1_literal 100 file1_name ltac:(apply (bool_decide_eq_true_1 _); by vm_compute) ltac:(by vm_compute) ltac:(lia)
    es1 es2 de blk blk' Hre2 n v hp s F [(root_fs_var, ext2_str)] (sb_head v) file_addr hp1 G z Hmt)
    as (v' & hp' & s' & e' & E1 & Hc1 & He1 & Hi); try done.
  - by rewrite Hvm.
  - apply Hraw.
  - intros q Hq. apply name_apart; [by apply Hbuf|done..].
  - lia.
  - exists (set_files (mkWorld (mounted_ext2 (sb_head v) p x') v' hp' (s', e'), z) k'). rewrite Hc in E1. split; [exact (Hon _ _ _ _ E1)|].
    split; [exact (eq_trans Hc1 Hc)|]. split; [exact He1|]. eexists. split; [exact Hi|reflexivity].
Qed.

(** ** Theorems *)

(** C6. From power on with an ext2 disk whose root directory has "file1.txt", [kernel_main]
    mounts the disk, finds and reads the file, and stops in its last loop with the disk as
    it was. What it printed last are the first 100 bytes of the file's block, up to the
    first zero in them or in the rest of the array [raw] on the stack, and the number of
    the inode. Assumed: what C8 assumes (24 free bytes behind the three gates of [gdt],
    static memory that is zero, 0 in the uninitialised [minor], a joined thread with [quiet]
    registers); the file's name in memory below the heap, and a fresh super block and inode
    whose uninitialised type is null and whose flag bit 0 is clear ([readable]); the entry is in
    the first sector of the root directory and not the last there, and the file's inode is
    that of a regular file of one block with more than 100 bytes ([root_entry]); a block has
    fewer than 256 sectors, which the lookup counts in a byte; all the blocks asked for
    are in hash chains of their own, none in that of block 0 ([apart_blocks]); and what is
    printed has a zero. *)
Theorem kernel_main_prints_file n fuel raw esp mbd (k : K) x' m es1 de es2 blk blk' text :
  powered mbd k → (3 ≤ gdt_gap)%nat → mountable k → readable k → (max_busy < fuel)%nat → (S (length es1) < n)%nat →
  ext2_disk (k_env k) (boot_disk k) (w_ext2 (k_files k).1) x' m → m < 256 →
  root_entry (k_env k) (boot_disk k) x' (group_table k x') file1_name 100 es1 de es2 blk blk' →
  apart_blocks (boot_disk k) (main_blocks k x' de blk blk') →
  c_string (take 100 (content (k_env k) (location (boot_disk k) (block_sector x' blk' 0))) ++ drop 100 raw) = Some text →
  ∃ k1 e', kernel_main boot_heap_start boot_heap_end Hbounds n fuel raw esp mbd k =
      Panic "for (;;)" (set_disk (k_cache k1, e') k1) ∧
    (terminal_write text ;;; terminal_putchar 10 ;;; terminal_printhex32 (de_inode de)) (k_env k1) = Ok tt e' ∧
    content e' = content (k_env k) ∧
    ∃ i, inodes (w_vfs (k_files k1).1) !! file_addr = Some i ∧ i_no i = de_inode de.
Proof using Type*.
  intros Hp Hgap Hmo Hrb Hf Hn Hdisk Hm Hre Hblocks Htext.
  destruct (kernel_mount_spec Hbounds fuel esp mbd k x' m (file_blocks x' (group_table k x') de blk blk') Hp Hgap Hmo Hf Hdisk Hblocks)
    as (k' & root & p & F & E1 & Hro); [simpl; lia|].
  destruct (read_file_spec n fuel k k' x' m es1 de es2 blk blk' root p F Hro Hmo Hrb (ed_sizes _ _ _ _ _ Hdisk) Hm Hre Hn)
    as (k1 & E2 & Hc1 & He1 & i & Hi & Hno).
  destruct (prints_write same_content bd_console text _ He1) as (e1 & T1 & He2 & Hc2).
  destruct (prints_putchar same_content bd_console 10 _ He2) as (e2 & T2 & He3 & Hc3).
  destruct (prints_hex32 same_content bd_console (de_inode de) _ He3) as (e3 & T3 & He4 & Hc4).
  exists k1, e3. split; [|split; [|split; [congruence|by exists i]]].
  2:{ by rewrite (bind_ok _ _ _ _ _ T1), (bind_ok _ _ _ _ _ T2). }
  unfold kernel_main. rewrite (bind_ok _ _ _ _ _ E1), (bind_ok _ _ _ _ _ E2). cbn [fst snd].
  rewrite length_take, content_length. change (100 `min` 512)%nat with 100%nat. rewrite Htext. cbn [of_option]. rewrite bind_ret_l.
  rewrite (bind_ok _ _ _ _ _ (on_env_ok _ k1 _ _ T1)). set (k2 := set_disk (k_cache k1, e1) k1).
  rewrite (bind_ok _ _ _ _ _ (on_env_ok _ k2 _ _ T2)). set (k3 := set_disk (k_cache k2, e2) k2).
  rewrite (bind_ok _ _ _ i k3).
  2:{ apply on_files_inode. exact Hi. }
  rewrite Hno, (bind_ok _ _ _ _ _ (on_env_ok _ k3 _ _ T3)). reflexivity.
Qed.
End kernel.
