(* ===== verification/BootBench.v ===== *)
(** * A concrete boot

    A machine with 32 MiB, the drive of [DiskBench.v] and a VGA console, a kernel image
    that ends at 0xC0108000 and what the linker placed in it: the theorems about
    [kernel_main] are applied to it. *)

From S2P Require Import Prelude Memory Common HeapSpec Heap Frame Paging Io Terminal Descriptors Irq Drivers Ata Buffer.
From S2P Require Import Buffer Ext2Format Vfs Ext2 Ext2Inode Mount Bench DiskBench Ext2Bench Task Boot Startup KernelMain.
From S2P Require Import Ext2Dir RootFile BootDisk KernelMount KernelFile.

#[local] Existing Instance layout0.
#[local] Existing Instance task_layout0.
#[local] Existing Instance symbols0.

Lemma disk_screen_ok (e : disk_env) : env_wf e → ∃ e', on_fst terminal_initialize e = Ok tt e' ∧ env_wf e'.
Proof. apply (screen_initialized (H := disk)). Qed.
#[export] Instance disk_screen : Screen disk_env := {| screen_init := on_fst terminal_initialize; screen_init_ok := disk_screen_ok |}.

(** The layout for a compiled [test] that leaves the registers [f]. *)
Definition boot_layout_of (f : Registers → Registers) : KernelLayout := {|
  endkernel := 0xC0108000;
  test_entry := 0xC0100400;
  dev_var := 0xC0104F80;
  root_fs_var := 0xC0104F60;
  file1_literal := 0x8020;
  raw_memory _ := 0xCC;
  raw_bdev := mkBdev 0 0 0 0 0 0 0 0;
  test_registers := f |}.

Definition boot_info : multiboot_info := mkMultiboot 0x247 639 32768 0 0 0 0 [0; 0; 0; 0] 0 0.
(** Power on, with the disk [e] and the literals in the memory of [v]. *)
Definition kernel_on (e : disk_env) (v : vfs) : kernel (E := disk_env) :=
  mkKernel
    (mkDescriptors (replicate (ENTRY_COUNT + gdt_gap) gdt_entry0) (mkTablePtr 0 0) (replicate (Z.to_nat 256) idt_entry0)
      (mkTablePtr 0 0) (mkTss 0 0 0 0 0 0 0 0 0) (mkTablePtr 0 0) (mkTablePtr 0 0) 0)
    devices0 (bss_frames, bss_paging)
    (mkTasks {[0xC0107000 := mkThread (regs0 0) 0 0]} 0 0 0 0 (regs0 9))
    (mkWorld ext2_0 v (mkHeap 0 0 0 0 ∅) (mkCache ∅ [] 0 0 ∅ 0, e), 0).

Section machine.
Context (f : Registers → Registers) (e : disk_env) (v : vfs) (He : env_wf e).
#[local] Instance machine_layout : KernelLayout := boot_layout_of f.

Lemma boot_first_free : first_free_frame endkernel = 4096 * 265.
Proof using. reflexivity. Qed.
Lemma boot_first_page : first_page = 265.
Proof using. reflexivity. Qed.
Lemma kernel_on_boots : boots (memupper_size boot_info) (kernel_on e v).
Proof using He.
  constructor.
  - reflexivity.
  - exact bss_dir.
  - exact bss_table.
  - split; [|reflexivity]. simpl. lia.
  - rewrite boot_first_free. by split; vm_compute.
  - rewrite boot_first_page. by split_and!; vm_compute.
  - intros x y Hx. change ((∅ : mem) !! x = Some y) in Hx. by rewrite lookup_empty in Hx.
  - exact He.
Qed.
Lemma kernel_on_powered : powered boot_info (kernel_on e v).
Proof using He.
  constructor.
  - exact kernel_on_boots.
  - reflexivity.
  - reflexivity.
  - split; [eexists; apply lookup_insert_eq|by vm_compute].
  - split; [reflexivity|]. by vm_compute.
  - by vm_compute.
Qed.
End machine.

(** [test] leaves 77 in [ebx] and 1 in [ecx]. *)
Definition noisy (r : Registers) : Registers :=
  mkRegisters 7 77 1 3 (esi r) (edi r) (esp r) (ebp r) 0xC0100420 (eflags r) (cr3 r).
#[export] Instance boot_layout : KernelLayout := boot_layout_of noisy.
Definition kernel0 : kernel (E := disk_env) := kernel_on disk0 vfs0.
Definition kernel0_boots : boots (memupper_size boot_info) kernel0 := kernel_on_boots noisy disk0 vfs0 disk0_wf.
Definition kernel0_powered : powered boot_info kernel0 := kernel_on_powered noisy disk0 vfs0 disk0_wf.

Lemma init_memory_correct_witness :
  ∃ k', init_memory 32768 kernel0 = Ok tt k' ∧ heap_reachable 0xC0109000 0xC0118000 (k_heap k', ∅) ∧
    get_phys_addr kernel_page_dir 0xC0109ABC (k_mm k').2 = Ok 0x109ABC (k_mm k').2.
Proof.
  destruct (init_memory_correct 32768 kernel0 kernel0_boots) as (k' & E & _ & _ & Hh & _ & _ & Hg).
  exists k'. split; [exact E|]. split; [exact Hh|]. apply (Hg 0xC0109ABC). by split; vm_compute.
Defined.

Lemma kernel_init_correct_witness :
  ∃ k' t w, kernel_init 3 0 boot_info kernel0 = Ok 0x300 k' ∧ dangling (k_tasks k') 0xC0109010 ∧
    jiffies (k_devices k') = 0 ∧ ebx (regs t) = 77 ∧ block_head (k_cache k') = 0xC0104F80 ∧
    sector (k_env k') 0x1F0 false 0 !! 227%nat = Some w.
Proof.
  destruct (kernel_init_correct 3 0 boot_info kernel0 kernel0_powered enough_fuel) as (k' & t & w & E & Hb).
  exists k', t, w. split; [exact E|]. destruct (bo_thread _ _ _ _ Hb) as (Hd & _ & _ & v & Hr).
  split; [exact Hd|]. split; [apply (bo_routines _ _ _ _ Hb)|]. split; [by rewrite Hr|].
  apply (bo_disk _ _ _ _ Hb).
Defined.

(** The first block read destroys block 77 of the partition. *)
Lemma first_miss_writes_registers_witness :
  ∃ k' w s' e', kernel_init 3 0 boot_info kernel0 = Ok 0x300 k' ∧
    get_block 1 2 0x300 (k_cache k', k_env k') = Ok 0xC0109010 (s', e') ∧
    take 4 (content e' (location (E := disk_env) (set_start_lba w local_dev) 77)) = [0x20; 0x04; 0x10; 0xC0].
Proof.
  destruct (first_miss_writes_registers 3 0 boot_info kernel0 kernel0_powered (le_n 3) enough_fuel eq_refl)
    as (k' & t & w & v & E & Hw & Hr & Hmiss). exists k', w.
  assert (∀ b, 0 ≤ b < 1000 → present (E := disk_env) (set_start_lba w local_dev) b) as Hpr.
  { intros b Hb. split; [reflexivity|]. unfold selected. cbn [start_lba set_start_lba].
    change (2 ^ 28) with 268435456. change (capacity (E := disk_env) _ _) with 100000. rewrite u32_small, Z.mod_small by lia. lia. }
  rewrite Hr in Hmiss. cbn [test_registers boot_layout boot_layout_of noisy ecx ebx eip] in Hmiss.
  change (u32 77) with 77 in Hmiss.
  destruct (Hmiss 2) as (s' & e' & E2 & Hc & _); [by vm_compute|by vm_compute|lia|by vm_compute|apply (Hpr 77); lia|apply (Hpr 2); lia|].
  exists s', e'. split; [exact E|]. split; [exact E2|].
  change 4%nat with (4 `min` 20)%nat. rewrite <-take_take, Hc. reflexivity.
Defined.

(** ** Mounting *)

Lemma disk_in_store w p d : store (disk_in w p d).2 = store d.
Proof.
  unfold disk_in. destruct w; [|by destruct (p =? _); [destruct (ph d) as [|[|k] [|x ws]|k s l acc|]|]|done].
  destruct (p =? _); [by destruct (ph d) as [|[|k] ws|[|k] s l acc|]|]. by destruct (_ && _).
Qed.
Lemma disk_out_store p v d : store (disk_out W8 p v d) = store d.
Proof.
  unfold disk_out. destruct (p =? _); [|by destruct (_ && _)]. destruct (disk_addressed d) as [s l].
  destruct (v =? _); [done|]. destruct (l <? _); [|done]. by destruct (v =? _); [|destruct (v =? _)].
Qed.
Lemma disk_sector_store (e1 e2 : disk_env) : store e2.2 = store e1.2 → sector e2 = sector e1.
Proof. intros Hs. unfold sector. simpl. unfold disk_sector. by rewrite Hs. Qed.
#[export] Program Instance disk_quiet : AtaQuiet disk_env.
Next Obligation. intros b ->. by left. Qed.
Next Obligation. intros p v e _. apply disk_sector_store, disk_out_store. Qed.
Next Obligation.
  intros w p [t d]. apply disk_sector_store. pose proof (disk_in_store w p d) as Hs. simpl.
  unfold console_in. simpl. by destruct (disk_in w p d).
Qed.
Next Obligation.
  intros [t d] a [t' d'] E. apply disk_sector_store. simpl in *. unfold on_fst, zoom in E. simpl in E.
  destruct (terminal_initialize t); [|done..]. by injection E as _ _ <-.
Qed.

(** The image of [Ext2Bench.v] in the drive, and a thread that leaves nothing dirty. *)
Definition calm (r : Registers) : Registers :=
  mkRegisters 7 77 0 3 (esi r) (edi r) (esp r) (ebp r) 0xC0100420 (eflags r) (cr3 r).
Definition image1 : disk_env := (terminal0, image.2).
Definition kernel1 : kernel (E := disk_env) := kernel_on image1 vfs0.
Section calm.
#[local] Instance calm_layout : KernelLayout := boot_layout_of calm.
#[local] Existing Instance boot_layout | 1000.

Lemma image1_wf : env_wf image1.
Proof using. apply terminal0_wf. Qed.
Lemma kernel1_mountable : mountable kernel1.
Proof using.
  constructor; [reflexivity|reflexivity|split; [by vm_compute|reflexivity]|split; [exact names_bytes|exact ext2_named]|].
  intros a. constructor; by vm_compute.
Qed.
Lemma image1_hda : boot_disk kernel1 = hda.
Proof using. by vm_compute. Qed.
Lemma image1_present b : 0 ≤ b < 1000 → present (E := disk_env) hda b.
Proof using.
  intros Hb. split; [done|]. unfold selected. change (start_lba hda) with 0.
  change (2 ^ 28) with 268435456. change (capacity (E := disk_env) _ _) with 100000. rewrite u32_small, Z.mod_small by lia. lia.
Qed.
Lemma image1_ext2 : ext2_disk (E := disk_env) image1 hda ext2_0 mounted0 2.
Proof using.
  assert (content image1 (location (E := disk_env) hda (bgd_sector mounted0)) = bgd_sector_data) as Ht by (by vm_compute).
  constructor; rewrite ?Ht.
  - by split; vm_compute.
  - by vm_compute.
  - exact mounted0_wf.
  - exact mounted0_root.
  - assert ([2; 3; bgd_sector mounted0; inode_at mounted0 bgd_sector_data ROOT_DIRECTORY / 512] = [2; 3; 4; 10]) as -> by (by vm_compute).
    cbv zeta. split; [repeat (constructor; [apply image1_present; lia|]); constructor|].
    split; apply (bool_decide_eq_true_1 _); by vm_compute.
Qed.
Lemma kernel_mounts_root_witness :
  ∃ H k' root, kernel_mount boot_heap_start boot_heap_end H 3 0 boot_info kernel1 = Ok 0x300 k' ∧
    content (k_env k') = content image1 ∧ i_head (w_vfs (k_files k').1) = root ∧
    registry (w_vfs (k_files k').1) [(0xC0104F60, ext2_str)] ∧
    inodes (w_vfs (k_files k').1) !! root = Some (root_of root (decode_inode (inode_image 0x41ED 1024 8))).
Proof using.
  assert (powered boot_info kernel1) as Hp by exact (kernel_on_powered calm image1 vfs0 image1_wf).
  pose proof (boot_heap_bounds _ _ (pw_boots _ _ Hp)) as Hb.
  pose proof (kernel_mounts_root Hb 3 0 boot_info kernel1 mounted0 2 Hp (le_n 3) kernel1_mountable enough_fuel) as Hm. rewrite image1_hda in Hm. specialize (Hm image1_ext2). cbv zeta in Hm.
  destruct Hm as (k' & root & p & F & E & Hc & [Hreg Hih Hin _] & _).
  exists Hb, k', root. split; [exact E|]. split; [exact Hc|]. split; [exact Hih|]. split; [exact Hreg|].
  rewrite Hin. by vm_compute.
Defined.

(** "file1.txt" is the third entry of the root directory: inode 12, in sector 12 of the disk,
    with block 9. *)
Lemma image1_table : group_table kernel1 mounted0 = bgd_sector_data.
Proof using. unfold group_table. rewrite image1_hda. by vm_compute. Qed.
Lemma image1_entry :
  root_entry (E := disk_env) image1 hda mounted0 bgd_sector_data file1_name 100
    [entry1 [46] 2 12; entry1 [46; 46] 2 12] (mkDirEntry 12 20 9 0) [] 8 9.
Proof using.
  constructor.
  - exact mounted0_root.
  - by vm_compute.
  - by vm_compute.
  - split; [by repeat constructor; intros [_ ?]|done].
  - constructor; apply (bool_decide_eq_true_1 _); by vm_compute.
  - cbv zeta. by vm_compute.
Qed.
Lemma kernel1_readable : readable kernel1.
Proof using. constructor; [exact file1_held|by split; vm_compute|by split]. Qed.
Lemma image1_blocks : apart_blocks hda (main_blocks kernel1 mounted0 (mkDirEntry 12 20 9 0) 8 9).
Proof using.
  assert (main_blocks kernel1 mounted0 (mkDirEntry 12 20 9 0) 8 9 = [2; 3; 4; 10; 16; 12; 18]) as ->.
  { unfold main_blocks. rewrite image1_table, image1_hda. by vm_compute. }
  split; [repeat (constructor; [apply image1_present; lia|]); constructor|].
  split; apply (bool_decide_eq_true_1 _); by vm_compute.
Qed.
Lemma kernel_main_prints_file_witness :
  ∃ H k1 e', kernel_main boot_heap_start boot_heap_end H 4 3 (replicate 512 0) 0 boot_info kernel1 =
      Panic "for (;;)" (set_disk (k_cache k1, e') k1) ∧
    (terminal_write (take 100 file_data) ;;; terminal_putchar 10 ;;; terminal_printhex32 12) (k_env k1) = Ok tt e' ∧
    content e' = content image1.
Proof using.
  assert (powered boot_info kernel1) as Hp by exact (kernel_on_powered calm image1 vfs0 image1_wf).
  pose proof (boot_heap_bounds _ _ (pw_boots _ _ Hp)) as Hb.
  pose proof (kernel_main_prints_file Hb 4 3 (replicate 512 0) 0 boot_info kernel1 mounted0 2
    [entry1 [46] 2 12; entry1 [46; 46] 2 12] (mkDirEntry 12 20 9 0) [] 8 9 (take 100 file_data)
    Hp (le_n 3) kernel1_mountable kernel1_readable enough_fuel) as Hm.
  rewrite image1_hda, image1_table in Hm.
  destruct Hm as (k1 & e' & E & T & C & _).
  - simpl. lia.
  - exact image1_ext2.
  - lia.
  - exact image1_entry.
  - exact image1_blocks.
  - by vm_compute.
  - exists Hb, k1, e'. split; [exact E|]. split; [exact T|exact C].
Defined.
End calm.
